(* ===== verification/_CoqProject ===== *)
-Q . S2P
Prelude.v
Machine.v
FlatMemory.v
Interrupt.v
Str.v
Bitmap.v
Paging.v
PageAlloc.v
PageMap.v
Kernel.v
X86.v
Loader.v
Disk.v
Screen.v
Print.v
Entry.v
Boot.v
Elf.v
SetupPage.v
Startup.v
Mbr.v
FreeBSD.v
Sim.v
TptSubr.v
TptVnops.v
TptPaths.v
TptVfsops.v
Riscv.v
Csr.v
ToyString.v
ToyNumber.v
ToyPrintf.v
ToyKernel.v
