(* ===== verification/Prelude.v ===== *)
(** * A verification of os-elephant, tptfs and toyos

    The repository holds three programs; this development models their C code,
    the C code that one of them keeps in .cpp files, and the assembly that the
    kernel of another one consists of besides.

    ** The programs

    src/os-elephant is a small i386 kernel.  boot/mbr.S reads boot/loader.S from
    the disk, which finds out the size of memory, switches to
    protected mode, reads the kernel from the disk, builds a page directory whose last entry is the directory
    itself and whose entries 0 and 768 map the first 4 MiB, and jumps to the
    kernel at 0xc0001500.  [main] (kernel/main.c) calls [init_all]
    (kernel/init.c), which sets up the interrupt descriptor table
    (kernel/interrupt.c), the timer (device/timer.c) and the memory pools
    (kernel/memory.c); then it asks for three kernel pages and spins.  The
    pools use the bitmaps of lib/kernel/bitmap.c, and these the routines of
    lib/string.c.  An [ASSERT] that fails ends in [panic_spin]
    (kernel/debug.c), which never returns.

    src/tptfs is a stackable file system for the FreeBSD kernel: every vnode of
    it stands for a vnode of a lower file system, and its operations are passed
    to that vnode.  tpt_subr.c keeps the cache from lower vnodes to tptfs
    vnodes, tpt_vnops.c has the operations on vnodes, tpt_vfsops.c those on
    mounts, tpt.h the structures.  It is called by the FreeBSD kernel and calls
    back into it; that kernel is not in the repository.

    src/toyos is the beginning of a kernel for 64-bit RISC-V.  Its [kernelMain]
    (Kernel/Arch/riscv/KernelMain.cpp) prints one line with [printk]
    (Library/libc/printk.cpp), which formats into a static buffer with
    [vsprintf] (Library/libc/vsprintf.cpp) and sends every character to the
    console with a call of the SBI firmware (Kernel/Arch/riscv/sbi.cpp).

    ** The files

    Prelude: machine integers, the state monad with its stops, loops, and the
    rules of total correctness ([wp]) all other files share.

    os-elephant, from the bottom:
    - Machine: the memory interface [Memory] with the laws [RamSpec] of RAM,
      the record [kernel] of the C globals, inline assembly (lib/kernel/io.h);
    - FlatMemory: the instance without paging; Paging: the instance in which
      the CPU translates every access through the tables, with [setup_page] of
      boot/loader.S;
    - Interrupt: kernel/interrupt.c and kernel/debug.c;
    - Str: lib/string.c; Bitmap: lib/kernel/bitmap.c;
    - PageAlloc: the pools and allocators of kernel/memory.c over any memory;
      PageMap: the same file's page-table updates over the paged memory;
    - Kernel: device/timer.c, thread/thread.c, kernel/init.c, kernel/main.c;
    - X86: the machine of the assembly files, its instructions and their rules;
    - Loader: the memory probe of boot/loader.S, over the class [Bios] of int
      0x15 with its documented answers ([BiosSpec]); Disk: its disk driver and
      that of boot/mbr.S, over the class [Ata] of the controller; Elf: its
      loading of the kernel's segments, against a function on program headers;
      SetupPage: the instructions of [setup_page]; Startup: protected mode,
      descriptors, paging and the jump to the kernel; Mbr: boot/mbr.S, over the
      class [Bios10] of int 0x10;
    - Screen: the interfaces of the video hardware ([Crtc], [Video]) with their
      instances, and the console, a function on screens;
    - Print: lib/kernel/print.S; Entry: kernel/kernel.S;
    - Boot: loader and boot sequence together, on the console.

    tptfs, from the bottom:
    - FreeBSD: the structures of which tptfs uses fields, in one record
      [world]; the class [Headers] of constants and the class [FreeBSD] of
      functions of that kernel; classes of laws ([Quiet], [References],
      [StableHash], [NewVnode], [NewMount]), each of which states what the
      manual pages of those functions promise;
    - Sim: an instance of all these classes, so that no law is assumed that
      nothing satisfies, and so that examples can be computed;
    - TptSubr: tpt_subr.c; TptVnops: tpt_vnops.c; TptPaths: the operations of
      it on which path lookups depend; TptVfsops: tpt_vfsops.c.

    toyos, from the bottom:
    - Riscv: memory, variable arguments and the calls of the firmware, in one
      record [hart], with the exact effect of writes ([wr]) and a rule that
      runs a loop ([loop_run]);
    - Csr: riscvreg.h, its constants and its macros for status registers;
    - ToyString: string.cpp; ToyNumber and ToyPrintf: vsprintf.cpp, its
      conversion of integers and its interpretation of formats;
    - ToyKernel: sbi.cpp, printk.cpp, KernelMain.cpp, with the firmware as the
      class [Firmware] and its console law [Console].

    A C function is a Definition of the same name in the monad [M]; its
    argument structures and globals are in the state, and a function with
    out-parameters returns a tuple.  A definition's text follows the statements
    of the C function; loops and the branches of long switches have names of
    their own.  The string routines of os-elephant and of toyos have the same
    names in the files Str and ToyString.  Assembly is a Definition per label in
    the same monad, over the registers, stack, memory and ports of X86; the C
    side of a print routine is a record in the trace ([PutStr], [PutInt],
    [PutChar] in Machine), and Print relates the two.

    ** What is shown

    Strings: each routine against a function on lists, among others that a
    copy is seen by [strlen] and [strcmp] as its original and that [strcmp] is
    the order of the first difference.  Bitmaps: [bitmap_scan] is a first-fit
    search over the bits that it reads, which are eight more than the bitmap's,
    so that a returned run can end outside.  Paging and allocation: what the
    loader's tables map; how [mem_pool_init] divides the memory; that [palloc]
    never returns a page twice; that [vaddr_get] reserves the first run; that
    [page_table_add] maps the frame to its own address and not the virtual one,
    and what that makes of [get_kernel_pages].  Interrupts: every gate of the
    table, and the interrupt flag is restored.  Kernel: the whole boot, to the
    endless loop, with the output it produces.

    Assembly: the instructions of the print routines turn the screen into what
    the recorded output renders to and leave registers, stack and other memory
    alone ([calls_render], a refinement of the console of Screen); without
    backspaces they never fault, and a backspace at the first cell is a general
    protection fault.  An interrupt runs its handler on a [struct intr_stack]
    and comes back with the whole machine restored, when the entry and the CPU
    agree on the error code; for the stack fault they do not, and the return
    goes to the error code.  The loader's probe stores the size that the BIOS's
    answers stand for, on each of its three ways, where areas from 2 GiB on do
    not count.  The disk driver ends with the contents of the sectors in memory
    when the drive is never busy between two sectors, and with other data when
    it is; [kernel_init] puts every segment of the kernel's file at the address
    it is linked for; the instructions of [setup_page] are the list of writes
    from which Paging computes.  The boot sector loads the loader; the loader,
    from the end of the probe on, reaches the kernel's entry point with the
    segments, tables, descriptors and stack that the other files start from
    ([load_kernel_enters]).  The compositions besides are [exception_prints], from the exception to
    the line on the screen, and [boot_screen], from the BIOS's memory map to the
    screen after booting.

    Cache of tptfs: [cache_ok] is the representation invariant, [entry] the
    partial map from (mount, lower vnode) to vnodes that the table stands for;
    the three table operations refine lookup, insertion of an absent key and
    removal, and [tpt_nodeget] returns the vnode of its key, made or found,
    also when another thread inserted that key in between.  Vnode operations:
    [tpt_bypass] calls the lower layer with mapped arguments and restores them;
    the operations that change a read-only mount are refused before the lower
    layer is reached; references are balanced, on every path of lookup, rename
    and reclaim that is stated; a reverse lookup stores the vnode of the parent
    directory, and a pair of vnodes is given back whole, also when one of them
    was reclaimed and replaced meanwhile; an operation on a vnode that is being reclaimed
    touches neither its node nor the lower layer.  Mount operations: mounting
    changes nothing or installs its structure, unmounting ends and gives the
    structure and the root back, and the operations passed to the mount below
    never return, because [tpt_mountfs] stores the mount itself as the one
    below.

    toyos: [number] writes the reference rendering of a value, whose digits
    stand for it, and [skip_atoi] reads it back; [vsprintf] writes what the
    directives of a format and the arguments stand for, for a syntax of formats
    defined in ToyPrintf; [printk] sends that text to the console, and
    [kernelMain] prints its line and never returns.  The values for which this
    fails have theorems of their own: negative numbers are printed as -0,
    unsigned numbers and pointers from [2 ^ 31] on read below the table of
    digits, a '*' as width prints itself, long texts run over the buffer,
    [strcat] leaves no terminator, [backspace] of the empty string stores far
    away, and a timer value loses its upper half.  The macros of riscvreg.h:
    clearing undoes setting, the choice of instruction does not matter, and the
    64-bit read of a 32-bit hart never returns a value that the counter did not
    have; two of the constants are undefined.

    ** Bounds and fuel

    [loop k] cuts a loop off after [2 ^ k] iterations.  The code uses [loop 33]
    for loops that advance a 32-bit counter or pointer, and each specification
    is a [wp], which excludes the cut-off; so the bound is proved to be enough
    where the loop ends.  toyos uses [loop 65] where a 64-bit pointer advances
    and [loop 6] for the digits of an [int], of which there are at most 32; its
    theorems state the run itself, [Ret] with value and state, which excludes
    the cut-off as well.  [tptfs_unmount] takes the exponent as an argument,
    and is proved to end when it is at least the logarithm of the number of
    vnodes on the mount.  A [loop] instruction counts in cx or ecx and is
    [loop 33] too; the probe's first loop ends because the cursor of the buffer
    moves, for the at most 12 areas that the buffer holds.  The operations that tptfs passes to another mount
    recurse through the kernel's dispatch and take the depth of the stack of
    mounts as fuel; the theorem on self mounts holds for every fuel.
    Machine integers are [Z] with the wrap-around of each C type written out
    ([u8], [u16], [u32], [s32]).

    ** Not modelled

    The BIOS, the disk controller and the contents of the disk: they are
    parameters, with the laws of the classes named above.  What follows an
    interrupt at [.error_hlt] of boot/loader.S.  What gcc makes of the C code: Entry has the one handler
    whose argument lies on the stack of the interrupted code.  The FreeBSD kernel: its functions
    are parameters.  Preemption inside an operation of tptfs: other threads
    appear where the code provides for them, as an entry that was inserted or a
    vnode that was reclaimed during a call that may sleep.  Of src/toyos: boot.S,
    which sets the stack pointer, the
    empty template of Util/Singleton.h, and the files that CMake generated.

    ** Open

    tptfs: the theorems on the creation of a vnode by [tpt_nodeget] assume that it
    shares no VM object; [share_object] itself has a theorem in TptPaths.  boot/loader.S: 256 sectors or
    more, for which the driver's counter of words overflows; boot sector, probe
    and [load_kernel] are three theorems, because the answers of the BIOS say
    nothing about the disk.
    toyos: the conversion 'n' and a precision given as '*'. *)

From Stdlib Require Import ZArith Lia.
From stdpp Require Import base numbers list strings gmap.

#[global] Open Scope Z_scope.
#[global] Set Default Goal Selector "!".

(** ** Machine integers

    A [w]-bit C integer is a [Z]; the conversions below are the wrap-around
    of the C types of lib/stdint.h on the ILP32 target of the makefile. *)

Definition u8 (z : Z) : Z := z mod 2 ^ 8.
Definition u16 (z : Z) : Z := z mod 2 ^ 16.
Definition u32 (z : Z) : Z := z mod 2 ^ 32.
Definition u64 (z : Z) : Z := z mod 2 ^ 64.
Definition s32 (z : Z) : Z := (z + 2 ^ 31) mod 2 ^ 32 - 2 ^ 31.

(** The value of a byte read through a plain [char] lvalue: gcc's [char] is
    signed on i386. *)
Definition char_of (b : Z) : Z := if b <? 128 then b else b - 256.

Definition is_u32 (z : Z) : Prop := 0 <= z < 2 ^ 32.
Definition is_byte (z : Z) : Prop := 0 <= z < 256.

(** ** Outcomes and the state monad

    A C function is a computation over the global state.  It returns, or it
    stops for good: [Hang] is a loop that never ends ([while(1)]), [Fault a]
    an access to memory that is not there (a page fault, a null pointer),
    [Panic] a kernel [panic]/[KASSERT], [Fuel] a loop or a recursion that was
    cut off by the bound of [loop]. *)

Inductive stop : Type :=
  | Hang
  | Fault (a : Z)
  | Panic (msg : string)
  | Fuel.

Inductive outcome (S A : Type) : Type :=
  | Ret (a : A) (s : S)
  | Stop (w : stop) (s : S).
Arguments Ret {S A} a s.
Arguments Stop {S A} w s.

Definition M (S A : Type) : Type := S -> outcome S A.

Section monad.
  Context {S : Type}.

Definition ret {A} (a : A) : M S A := fun s => Ret a s.

Definition bind {A B} (m : M S A) (k : A -> M S B) : M S B := fun s =>
  match m s with
  | Ret a s' => k a s'
  | Stop w s' => Stop w s'
  end.

Definition stop_with {A} (w : stop) : M S A := fun s => Stop w s.
Definition gets {A} (f : S -> A) : M S A := fun s => Ret (f s) s.
Definition modify (f : S -> S) : M S unit := fun s => Ret tt (f s).
Definition when (b : bool) (m : M S unit) : M S unit := if b then m else ret tt.

(** [loop_steps k step a] runs [step] up to [2 ^ k] times from the local
    variables [a]: [inl] holds the variables of the next iteration, [inr] the
    value the loop ends with. *)
Fixpoint loop_steps {A B} (k : nat) (step : A -> M S (A + B)) (a : A) : M S (A + B) :=
  match k with
  | O => step a
  | Datatypes.S k' =>
      bind (loop_steps k' step a) (fun r =>
        match r with
        | inl a' => loop_steps k' step a'
        | inr b => ret (inr b)
        end)
  end.

Definition loop {A B} (k : nat) (step : A -> M S (A + B)) (a : A) : M S B :=
  bind (loop_steps k step a) (fun r =>
    match r with
    | inl _ => stop_with Fuel
    | inr b => ret b
    end).

(** Total correctness: [m] returns from [s], with a value and a state that
    satisfy [Q]. *)
Definition wp {A} (m : M S A) (Q : A -> S -> Prop) (s : S) : Prop :=
  match m s with
  | Ret a s' => Q a s'
  | Stop _ _ => False
  end.

End monad.

Declare Scope code_scope.
Delimit Scope code_scope with code.
Notation "x <- m ;; k" := (bind m (fun x => k))
  (at level 100, m at next level, right associativity) : code_scope.
Notation "'let*' p ':=' m 'in' k" := (bind m (fun p => k))
  (at level 100, p pattern, m at next level, right associativity) : code_scope.
Notation "m ;;; k" := (bind m (fun _ => k))
  (at level 100, right associativity) : code_scope.
#[global] Open Scope code_scope.

(** ** Lemmas on machine integers *)

Create HintDb word discriminated.
Create HintDb wp discriminated.

Lemma u32_range z : is_u32 (u32 z).
Proof. apply Z.mod_pos_bound. lia. Qed.

Lemma u32_small z : is_u32 z -> u32 z = z.
Proof. apply Z.mod_small. Qed.

Lemma u16_small z : 0 <= z < 2 ^ 16 -> u16 z = z.
Proof. apply Z.mod_small. Qed.

Lemma u8_small z : is_byte z -> u8 z = z.
Proof. apply Z.mod_small. Qed.

Lemma u8_range z : is_byte (u8 z).
Proof. apply Z.mod_pos_bound. lia. Qed.

Lemma s32_small z : - 2 ^ 31 <= z < 2 ^ 31 -> s32 z = z.
Proof. intros H. unfold s32. rewrite Z.mod_small; lia. Qed.

Lemma u32_s32 z : u32 (s32 z) = u32 z.
Proof.
  unfold u32, s32. rewrite Zminus_mod_idemp_l. f_equal. lia.
Qed.

Lemma char_of_inj a b : is_byte a -> is_byte b -> char_of a = char_of b -> a = b.
Proof.
  unfold is_byte, char_of. intros Ha Hb.
  destruct (Z.ltb_spec a 128), (Z.ltb_spec b 128); lia.
Qed.

Lemma char_of_zero b : is_byte b -> char_of b = 0 -> b = 0.
Proof. intros Hb H. apply char_of_inj; [done| done |]. now rewrite H. Qed.

Lemma char_of_range b : is_byte b -> -128 <= char_of b < 128.
Proof. unfold is_byte, char_of. destruct (Z.ltb_spec b 128); lia. Qed.

#[export] Hint Resolve u32_range u8_range : word.

(** Masking with a run of ones is division and remainder by powers of two. *)
Lemma land_ones_mod x n : 0 <= n -> Z.land x (Z.ones n) = x mod 2 ^ n.
Proof. apply Z.land_ones. Qed.

Lemma land_high_mask x n m :
  0 <= n -> 0 <= m -> 0 <= x < 2 ^ (n + m) ->
  Z.land x (Z.shiftl (Z.ones m) n) = 2 ^ n * (x / 2 ^ n).
Proof.
  intros Hn Hm Hx.
  rewrite Z.mul_comm, <- Z.shiftl_mul_pow2, <- Z.shiftr_div_pow2 by lia.
  apply Z.bits_inj'. intros i Hi. rewrite Z.land_spec, !Z.shiftl_spec by lia.
  destruct (Z.ltb_spec i n).
  - rewrite !(Z.testbit_neg_r _ (i - n)) by lia. apply andb_false_r.
  - rewrite Z.shiftr_spec by lia. replace (i - n + n) with i by lia.
    destruct (Z.ltb_spec (i - n) m).
    + rewrite Z.ones_spec_low by lia. apply andb_true_r.
    + rewrite Z.ones_spec_high by lia. rewrite andb_false_r. symmetry.
      rewrite <- (Z.mod_small x (2 ^ (n + m))) by done.
      apply Z.mod_pow2_bits_high. lia.
Qed.

Lemma testbit_shiftl_one n i : 0 <= n -> 0 <= i -> Z.testbit (Z.shiftl 1 n) i = (i =? n).
Proof.
  intros Hn Hi. rewrite Z.shiftl_spec by lia. destruct (Z.eqb_spec i n) as [->|Hne].
  - now rewrite Z.sub_diag.
  - destruct (Z.ltb_spec i n).
    + now rewrite Z.testbit_neg_r by lia.
    + apply Z.bits_above_log2; simpl; lia.
Qed.

(** [x & (1 << n)] is nonzero exactly when bit [n] of [x] is set. *)
Lemma land_shiftl_one_eqb x n :
  0 <= n -> (Z.land x (Z.shiftl 1 n) =? 0) = negb (Z.testbit x n).
Proof.
  intros Hn. destruct (Z.eqb_spec (Z.land x (Z.shiftl 1 n)) 0) as [H|H].
  - assert (E : Z.testbit (Z.land x (Z.shiftl 1 n)) n = false)
      by (rewrite H; apply Z.testbit_0_l).
    rewrite Z.land_spec, testbit_shiftl_one, Z.eqb_refl, andb_true_r in E by lia.
    now rewrite E.
  - destruct (Z.testbit x n) eqn:E; [done|]. destruct H.
    apply Z.bits_inj'. intros i Hi.
    rewrite Z.land_spec, testbit_shiftl_one, Z.testbit_0_l by lia.
    destruct (Z.eqb_spec i n) as [->|]; [now rewrite E | apply andb_false_r].
Qed.

Lemma lor_disjoint_add a b : Z.land a b = 0 -> Z.lor a b = a + b.
Proof. intros H. symmetry. now apply Z.add_nocarry_lor. Qed.

(** A multiple of [2 ^ n] and a number below it share no bit. *)
Lemma lor_mul_pow2 q y n : 0 <= n -> 0 <= y < 2 ^ n -> Z.lor (q * 2 ^ n) y = q * 2 ^ n + y.
Proof.
  intros Hn Hy. apply lor_disjoint_add. rewrite <- Z.shiftl_mul_pow2 by done.
  apply Z.bits_inj'. intros i Hi. rewrite Z.land_spec, Z.bits_0.
  destruct (Z.ltb_spec i n); [now rewrite Z.shiftl_spec_low|].
  destruct (decide (y = 0)) as [->|]; [now rewrite Z.bits_0, andb_false_r|].
  rewrite (Z.bits_above_log2 y); [apply andb_false_r | lia|].
  apply Z.log2_lt_pow2; [lia|]. eapply Z.lt_le_trans; [apply Hy|]. apply Z.pow_le_mono_r; lia.
Qed.

(** ** Rules for computations *)

Section monad_rules.
  Context {S : Type}.

Lemma wp_ret {A} (a : A) (Q : A -> S -> Prop) s : Q a s -> wp (ret a) Q s.
Proof. done. Qed.

Lemma wp_bind {A B} (m : M S A) (k : A -> M S B) (Q : B -> S -> Prop) s :
  wp m (fun a => wp (k a) Q) s -> wp (bind m k) Q s.
Proof. unfold wp, bind. now destruct (m s). Qed.

Lemma wp_gets {A} (f : S -> A) (Q : A -> S -> Prop) s : Q (f s) s -> wp (gets f) Q s.
Proof. done. Qed.

Lemma wp_modify (f : S -> S) (Q : unit -> S -> Prop) s : Q tt (f s) -> wp (modify f) Q s.
Proof. done. Qed.

Lemma wp_mono {A} (m : M S A) (P Q : A -> S -> Prop) s :
  wp m P s -> (forall a s', P a s' -> Q a s') -> wp m Q s.
Proof. unfold wp. destruct (m s); auto. Qed.

Lemma wp_Ret {A} (m : M S A) (Q : A -> S -> Prop) s :
  wp m Q s <-> exists a s', m s = Ret a s' /\ Q a s'.
Proof.
  unfold wp. split.
  - destruct (m s) as [a s'|]; [eauto | done].
  - now intros (a & s' & -> & H).
Qed.

(** From a specification to the run it describes. *)
Lemma wp_run {A} (m : M S A) (Q : A -> S -> Prop) s :
  wp m Q s -> exists a s', m s = Ret a s' /\ Q a s'.
Proof. apply wp_Ret. Qed.

Lemma wp_run_unit (m : M S unit) (Q : S -> Prop) s :
  wp m (fun _ => Q) s -> exists s', m s = Ret tt s' /\ Q s'.
Proof. intros ([] & s' & E & HQ)%wp_run. eauto. Qed.

Lemma bind_Ret {A B} (m : M S A) (k : A -> M S B) s a s' :
  m s = Ret a s' -> bind m k s = k a s'.
Proof. unfold bind. now intros ->. Qed.

Lemma bind_Stop {A B} (m : M S A) (k : A -> M S B) s w s' :
  m s = Stop w s' -> bind m k s = Stop w s'.
Proof. unfold bind. now intros ->. Qed.

(** A loop whose first iteration stops, stops. *)
Lemma loop_stop {A B} (step : A -> M S (A + B)) k a s w s' :
  step a s = Stop w s' -> loop k step a s = Stop w s'.
Proof.
  intros E. unfold loop. apply bind_Stop.
  induction k as [|k IH]; [exact E | exact (bind_Stop _ _ _ _ _ IH)].
Qed.

Section loop_rule.
  Context {A B : Type} (step : A -> M S (A + B)).
  Context (Inv : A -> S -> Prop) (Q : B -> S -> Prop) (meas : A -> S -> Z).
  Hypothesis Hstep : forall a s, Inv a s ->
    wp (step a) (fun r s' =>
      match r with
      | inl a' => Inv a' s' /\ meas a' s' < meas a s
      | inr b => Q b s'
      end) s.

Lemma wp_loop_steps k : forall a s, Inv a s ->
  wp (loop_steps k step a) (fun r s' =>
    match r with
    | inl a' => Inv a' s' /\ meas a' s' + 2 ^ Z.of_nat k <= meas a s
    | inr b => Q b s'
    end) s.
Proof.
  induction k as [|k IH]; intros a s HI; simpl loop_steps.
  - eapply wp_mono; [now apply Hstep|]. intros [a'|b] s'; [|done].
    simpl. intros [??]. split; [done | lia].
  - apply wp_bind. eapply wp_mono; [now apply IH|]. intros [a'|b] s' H; [|done].
    destruct H as [HI' Hm]. eapply wp_mono; [now apply IH|].
    intros [a''|b] s''; [|done]. intros [? Hm']. split; [done|].
    rewrite Nat2Z.inj_succ, Z.pow_succ_r by lia. lia.
Qed.

(** A loop whose variables and state satisfy [Inv] and whose measure, never
    negative, decreases at every iteration ends within [2 ^ k] iterations. *)
Lemma wp_loop_measure k a s :
  (forall a s, Inv a s -> 0 <= meas a s) ->
  Inv a s -> meas a s < 2 ^ Z.of_nat k -> wp (loop k step a) Q s.
Proof.
  intros Hpos HI Hk. apply wp_bind. eapply wp_mono; [now apply wp_loop_steps|].
  intros [a'|b] s'; [|done]. intros [HI' Hm]. apply Hpos in HI'. lia.
Qed.

End loop_rule.

(** The same for a measure of the variables alone. *)
Lemma wp_loop {A B} (step : A -> M S (A + B)) Inv Q (meas : A -> Z)
  (Hstep : forall a s, Inv a s ->
    wp (step a) (fun r s' =>
      match r with
      | inl a' => Inv a' s' /\ meas a' < meas a
      | inr b => Q b s'
      end) s) k a s :
  (forall a s, Inv a s -> 0 <= meas a) ->
  Inv a s -> meas a < 2 ^ Z.of_nat k -> wp (loop k step a) Q s.
Proof. exact (wp_loop_measure step Inv Q (fun a _ => meas a) Hstep k a s). Qed.

End monad_rules.

#[export] Hint Resolve wp_ret wp_gets wp_modify : wp.

(** [m] stops for the reason [w]. *)
Definition halts {S A} (m : M S A) (w : stop) (s : S) : Prop := exists s', m s = Stop w s'.

Lemma halts_bind {S A B} (m : M S A) (k : A -> M S B) w s :
  wp m (fun a => halts (k a) w) s -> halts (bind m k) w s.
Proof.
  intros (a & s1 & E & s2 & E2)%wp_run. exists s2. now erewrite bind_Ret by exact E.
Qed.

Lemma halts_bind_first {S A B} (m : M S A) (k : A -> M S B) w s :
  halts m w s -> halts (bind m k) w s.
Proof. intros (s' & E). exists s'. now apply bind_Stop. Qed.

(** [wp_step] peels the first command of a computation. *)
Ltac wp_step :=
  lazymatch goal with
  | |- wp (bind _ _) _ _ => apply wp_bind
  | |- wp (ret _) _ _ => apply wp_ret
  | |- wp (gets _) _ _ => apply wp_gets
  | |- wp (modify _) _ _ => apply wp_modify
  end; cbv beta.
Ltac wp_steps := repeat wp_step.

(** [wp_use H] applies the specification [H] of the next command. *)
Tactic Notation "wp_use" uconstr(H) "as" simple_intropattern(p) simple_intropattern(q)
    simple_intropattern(r) :=
  eapply wp_mono; [eapply H | intros p q r; cbv beta].
