(* ===== verification/Machine.v ===== *)
(** * Machine: memory interface, kernel globals and primitive operations

    What every C file of os-elephant runs on: byte-addressed memory behind an
    interface ([Memory], with the laws of ordinary RAM in [RamSpec]), the
    record [kernel] of the C globals with the CPU flags and the trace of
    device output, and the instructions the C code uses through inline
    assembly (lib/kernel/io.h) or through the print routines of
    lib/kernel/print.S, whose calls are recorded in the trace. *)

From stdpp Require Import base numbers list strings gmap.
From S2P Require Import Prelude.
From Stdlib Require Import ZArith Lia.
Open Scope Z_scope.

(** ** Memory

    Addresses are 32-bit; an access to an address that is not mapped has no
    result.  [load32]/[store32] are single accesses of the CPU. *)

Class Memory (mem : Type) : Type := {
  load8 : mem -> Z -> option Z;
  store8 : mem -> Z -> Z -> option mem;
  load32 : mem -> Z -> option Z;
  store32 : mem -> Z -> Z -> option mem;
}.

Definition byte_of (v i : Z) : Z := (v / 2 ^ (8 * i)) mod 2 ^ 8.

(** Little-endian word of four bytes. *)
Definition le32 (b0 b1 b2 b3 : Z) : Z := b0 + 2 ^ 8 * b1 + 2 ^ 16 * b2 + 2 ^ 24 * b3.

(** The part of memory that behaves as RAM: [ram m a] says that a store to [a]
    changes the byte at [a] and no other RAM byte; [keeps m m'] is what such
    stores never disturb (the translation structures, for paged memory). *)
Class RamSpec (mem : Type) `{Memory mem} : Type := {
  ram : mem -> Z -> Prop;
  keeps : mem -> mem -> Prop;
  ram_addr m a : ram m a -> is_u32 a;
  ram_load m a : ram m a -> exists b, load8 m a = Some b /\ is_byte b;
  ram_store m a b : ram m a -> is_byte b ->
    exists m', store8 m a b = Some m' /\ load8 m' a = Some b;
  ram_store_other m a b m' a' :
    ram m a -> is_byte b -> store8 m a b = Some m' -> ram m a' -> a <> a' ->
    load8 m' a' = load8 m a';
  ram_store_ram m a b m' a' :
    ram m a -> is_byte b -> store8 m a b = Some m' -> ram m' a' <-> ram m a';
  ram_store_keeps m a b m' :
    ram m a -> is_byte b -> store8 m a b = Some m' -> keeps m m';
  ram_load32 m a b0 b1 b2 b3 :
    a mod 4 = 0 -> (forall i, 0 <= i < 4 -> ram m (a + i)) ->
    load8 m a = Some b0 -> load8 m (a + 1) = Some b1 ->
    load8 m (a + 2) = Some b2 -> load8 m (a + 3) = Some b3 ->
    load32 m a = Some (le32 b0 b1 b2 b3);
  ram_store32 m a v :
    a mod 4 = 0 -> (forall i, 0 <= i < 4 -> ram m (a + i)) -> is_u32 v ->
    exists m', store32 m a v = Some m' /\
      (forall i, 0 <= i < 4 -> load8 m' (a + i) = Some (byte_of v i)) /\
      (forall a', ram m' a' <-> ram m a') /\
      (forall a', ram m a' -> ~ (a <= a' < a + 4) -> load8 m' a' = load8 m a') /\
      keeps m m';
  keeps_refl m : keeps m m;
  keeps_trans m1 m2 m3 : keeps m1 m2 -> keeps m2 m3 -> keeps m1 m3;
}.

(** ** C data *)

(** lib/kernel/bitmap.h *)
Record bitmap : Type := Bitmap { btmp_bytes_len : Z; bits : Z }.

(** kernel/memory.c, kernel/memory.h *)
Record pool : Type := Pool { pool_bitmap : bitmap; phy_addr_start : Z; pool_size : Z }.
Record virtual_addr : Type := VirtualAddr { vaddr_bitmap : bitmap; vaddr_start : Z }.

(** kernel/interrupt.c *)
Record gate_desc : Type := GateDesc {
  func_offset_low_word : Z;
  selector : Z;
  dcount : Z;
  attribute : Z;
  func_offset_high_word : Z;
}.

(** What the kernel does to the outside: calls of the print routines, bytes
    written to I/O ports, and the operand of [lidt]. *)
Inductive event : Type :=
  | PutStr (s : string)
  | PutInt (n : Z)
  | PutChar (c : Z)
  | OutB (port data : Z)
  | Lidt (operand : Z).

(** The global state.  [intr_handler] values are code addresses. *)
Record kernel (mem : Type) : Type := Kernel {
  k_mem : mem;
  k_eflags : Z;
  k_trace : list event;
  kernel_pool : pool;
  user_pool : pool;
  kernel_vaddr : virtual_addr;
  idt : list gate_desc;
  intr_name : list string;
  idt_table : list Z;
}.
Arguments Kernel {mem} _ _ _ _ _ _ _ _ _.
Arguments k_mem {mem} _.
Arguments k_eflags {mem} _.
Arguments k_trace {mem} _.
Arguments kernel_pool {mem} _.
Arguments user_pool {mem} _.
Arguments kernel_vaddr {mem} _.
Arguments idt {mem} _.
Arguments intr_name {mem} _.
Arguments idt_table {mem} _.

Section ops.
  Context {mem : Type}.
  Implicit Types s : kernel mem.

Definition set_mem (m : mem) s : kernel mem :=
  Kernel m (k_eflags s) (k_trace s) (kernel_pool s) (user_pool s) (kernel_vaddr s)
    (idt s) (intr_name s) (idt_table s).
Definition set_eflags (f : Z) s : kernel mem :=
  Kernel (k_mem s) f (k_trace s) (kernel_pool s) (user_pool s) (kernel_vaddr s)
    (idt s) (intr_name s) (idt_table s).
Definition emit (e : event) s : kernel mem :=
  Kernel (k_mem s) (k_eflags s) (k_trace s ++ [e]) (kernel_pool s) (user_pool s)
    (kernel_vaddr s) (idt s) (intr_name s) (idt_table s).
Definition set_kernel_pool (p : pool) s : kernel mem :=
  Kernel (k_mem s) (k_eflags s) (k_trace s) p (user_pool s) (kernel_vaddr s)
    (idt s) (intr_name s) (idt_table s).
Definition set_user_pool (p : pool) s : kernel mem :=
  Kernel (k_mem s) (k_eflags s) (k_trace s) (kernel_pool s) p (kernel_vaddr s)
    (idt s) (intr_name s) (idt_table s).
Definition set_kernel_vaddr (v : virtual_addr) s : kernel mem :=
  Kernel (k_mem s) (k_eflags s) (k_trace s) (kernel_pool s) (user_pool s) v
    (idt s) (intr_name s) (idt_table s).
Definition set_idt (l : list gate_desc) s : kernel mem :=
  Kernel (k_mem s) (k_eflags s) (k_trace s) (kernel_pool s) (user_pool s)
    (kernel_vaddr s) l (intr_name s) (idt_table s).
Definition set_intr_name (l : list string) s : kernel mem :=
  Kernel (k_mem s) (k_eflags s) (k_trace s) (kernel_pool s) (user_pool s)
    (kernel_vaddr s) (idt s) l (idt_table s).
Definition set_idt_table (l : list Z) s : kernel mem :=
  Kernel (k_mem s) (k_eflags s) (k_trace s) (kernel_pool s) (user_pool s)
    (kernel_vaddr s) (idt s) (intr_name s) l.

Definition set_trace (t : list event) s : kernel mem :=
  Kernel (k_mem s) (k_eflags s) t (kernel_pool s) (user_pool s) (kernel_vaddr s)
    (idt s) (intr_name s) (idt_table s).

(** print.S and io.h, as the C code sees them *)
Definition put_str (str : string) : M (kernel mem) unit := modify (emit (PutStr str)).
Definition put_int (num : Z) : M (kernel mem) unit := modify (emit (PutInt (u32 num))).
Definition put_char (c : Z) : M (kernel mem) unit := modify (emit (PutChar (u8 c))).
Definition outb (port data : Z) : M (kernel mem) unit :=
  modify (emit (OutB (u16 port) (u8 data))).
Definition lidt (operand : Z) : M (kernel mem) unit := modify (emit (Lidt operand)).

(** A memory access of the program *)
  Context `{Memory mem}.

Definition peek8 (a : Z) : M (kernel mem) Z := fun s =>
  match load8 (k_mem s) a with
  | Some b => Ret b s
  | None => Stop (Fault a) s
  end.

Definition poke8 (a b : Z) : M (kernel mem) unit := fun s =>
  match store8 (k_mem s) a (u8 b) with
  | Some m => Ret tt (set_mem m s)
  | None => Stop (Fault a) s
  end.

Definition peek32 (a : Z) : M (kernel mem) Z := fun s =>
  match load32 (k_mem s) a with
  | Some v => Ret v s
  | None => Stop (Fault a) s
  end.

Definition poke32 (a v : Z) : M (kernel mem) unit := fun s =>
  match store32 (k_mem s) a (u32 v) with
  | Some m => Ret tt (set_mem m s)
  | None => Stop (Fault a) s
  end.

End ops.

(** ** RAM contents and framing *)

Section ram.
  Context {mem : Type} `{RamSpec mem}.
  Implicit Types m : mem.

(** The bytes [l] are in RAM at [a], below the end of the address space. *)
Definition bytes_at m (a : Z) (l : list Z) : Prop :=
  0 <= a /\ a + Z.of_nat (length l) <= 2 ^ 32 /\
  forall i b, l !! i = Some b ->
    is_byte b /\ ram m (a + Z.of_nat i) /\ load8 m (a + Z.of_nat i) = Some b.

(** The [n] addresses from [a] on are RAM. *)
Definition writable m (a n : Z) : Prop :=
  0 <= a /\ a + n <= 2 ^ 32 /\ forall x, a <= x < a + n -> ram m x.

(** [m'] differs from [m], among RAM bytes, in [lo, hi) only. *)
Definition mod_only (lo hi : Z) m m' : Prop :=
  (forall a, ram m' a <-> ram m a) /\
  (forall a, ram m a -> ~ (lo <= a < hi) -> load8 m' a = load8 m a) /\
  keeps m m'.

(** ... and the rest of the state is the same. *)
Definition touches (lo hi : Z) (s s' : kernel mem) : Prop :=
  s' = set_mem (k_mem s') s /\ mod_only lo hi (k_mem s) (k_mem s').

End ram.

(** ** Lemmas *)

Section state_facts.
  Context {mem : Type}.

Lemma set_mem_twice (m m' : mem) (s : kernel mem) :
  set_mem m (set_mem m' s) = set_mem m s.
Proof. done. Qed.

Lemma set_mem_id (s : kernel mem) : set_mem (k_mem s) s = s.
Proof. now destruct s. Qed.

(** [s'] is [s] after some output. *)
Definition printed (s s' : kernel mem) : Prop := s' = set_trace (k_trace s') s.

Lemma printed_refl s : printed s s.
Proof. now destruct s. Qed.

Lemma printed_emit s0 s e : printed s0 s -> printed s0 (emit e s).
Proof. unfold printed. intros E. rewrite E. done. Qed.

(** Printing, when the text does not matter. *)
Lemma wp_print {B} s0 (e : event) (k : unit -> M (kernel mem) B) Q s :
  printed s0 s -> (forall s', printed s0 s' -> wp (k tt) Q s') ->
  wp (bind (modify (emit e)) k) Q s.
Proof. intros Hs Hk. apply wp_bind, wp_modify, Hk, printed_emit, Hs. Qed.

End state_facts.

Section ram_facts.
  Context {mem : Type} `{RamSpec mem}.
  Implicit Types m : mem.
  Implicit Types s : kernel mem.

Lemma mod_only_refl lo hi m : mod_only lo hi m m.
Proof. split; [done|]. split; [done|]. apply keeps_refl. Qed.

Lemma mod_only_trans lo hi m1 m2 m3 :
  mod_only lo hi m1 m2 -> mod_only lo hi m2 m3 -> mod_only lo hi m1 m3.
Proof.
  intros (R1 & L1 & K1) (R2 & L2 & K2). split; [|split].
  - intros a. now rewrite R2.
  - intros a Ha Hn. rewrite L2, L1; [done| done| done | now apply R1 | done].
  - eauto using keeps_trans.
Qed.

Lemma mod_only_weaken lo hi lo' hi' m m' :
  mod_only lo hi m m' -> lo' <= lo -> hi <= hi' -> mod_only lo' hi' m m'.
Proof.
  intros (R & L & K) ??. split; [done|]. split; [|done].
  intros a Ha Hn. apply L; [done | lia].
Qed.

Lemma touches_refl lo hi s : touches lo hi s s.
Proof. split; [now rewrite set_mem_id | apply mod_only_refl]. Qed.

Lemma touches_trans lo hi s1 s2 s3 :
  touches lo hi s1 s2 -> touches lo hi s2 s3 -> touches lo hi s1 s3.
Proof.
  intros [E1 M1] [E2 M2]. split; [|eauto using mod_only_trans].
  rewrite E2, E1. cbn. now rewrite E2.
Qed.

Lemma touches_weaken lo hi lo' hi' s s' :
  touches lo hi s s' -> lo' <= lo -> hi <= hi' -> touches lo' hi' s s'.
Proof. intros [E M] ??. split; [done | eauto using mod_only_weaken]. Qed.

(** A state that differs in an empty range satisfies the same range facts. *)
Lemma bytes_at_mod lo hi m m' a l :
  bytes_at m a l -> mod_only lo hi m m' ->
  a + Z.of_nat (length l) <= lo \/ hi <= a -> bytes_at m' a l.
Proof.
  intros (Ha & Hl & Hb) (R & L & _) Hd. split; [done|]. split; [done|].
  intros i b Hi. destruct (Hb i b Hi) as (? & Hr & Hld).
  pose proof (lookup_lt_Some _ _ _ Hi). rewrite R, L; [done | done | lia].
Qed.

Lemma bytes_at_touches lo hi s s' a l :
  bytes_at (k_mem s) a l -> touches lo hi s s' ->
  a + Z.of_nat (length l) <= lo \/ hi <= a -> bytes_at (k_mem s') a l.
Proof. intros Hb [_ Hm]. eauto using bytes_at_mod. Qed.

Lemma bytes_at_app m a l1 l2 :
  0 <= a ->
  bytes_at m a (l1 ++ l2) <->
  bytes_at m a l1 /\ bytes_at m (a + Z.of_nat (length l1)) l2.
Proof.
  intros Ha. unfold bytes_at. rewrite length_app. split.
  - intros (_ & Hl & Hb). split; (split; [lia|]; split; [lia|]); intros i b Hi.
    + apply Hb. now apply lookup_app_l_Some.
    + specialize (Hb (length l1 + i)%nat b).
      rewrite Nat2Z.inj_add, Z.add_assoc in Hb. apply Hb.
      rewrite lookup_app_r by lia. rewrite <- Hi. f_equal. lia.
  - intros ((_ & Hl1 & Hb1) & (_ & Hl2 & Hb2)). split; [done|]. split; [lia|].
    intros i b Hi. apply lookup_app_Some in Hi as [Hi|[Hle Hi]]; [now apply Hb1|].
    specialize (Hb2 _ _ Hi). rewrite Nat2Z.inj_sub in Hb2 by lia.
    now replace (a + Z.of_nat (length l1) + (Z.of_nat i - Z.of_nat (length l1)))
      with (a + Z.of_nat i) in Hb2 by lia.
Qed.

Lemma bytes_at_lookup m a l i b :
  bytes_at m a l -> l !! i = Some b ->
  is_byte b /\ ram m (a + Z.of_nat i) /\ load8 m (a + Z.of_nat i) = Some b.
Proof. intros (_ & _ & Hb). apply Hb. Qed.

Lemma bytes_at_is_byte m a l : bytes_at m a l -> Forall is_byte l.
Proof.
  intros Hb. apply Forall_lookup. intros i b Hi. exact (proj1 (bytes_at_lookup _ _ _ _ _ Hb Hi)).
Qed.

(** Two readings of the same range agree. *)
Lemma bytes_at_inj m a l1 l2 :
  bytes_at m a l1 -> bytes_at m a l2 -> length l1 = length l2 -> l1 = l2.
Proof.
  intros H1 H2 Hl. apply list_eq_same_length with (n := length l1); [done | done|].
  intros i x y Hi E1 E2.
  apply (bytes_at_lookup _ _ _ _ _ H1) in E1 as (_ & _ & E1).
  apply (bytes_at_lookup _ _ _ _ _ H2) in E2 as (_ & _ & E2). congruence.
Qed.

Lemma store8_ram m a b :
  ram m a -> is_byte b ->
  exists m', store8 m a b = Some m' /\ load8 m' a = Some b /\ mod_only a (a + 1) m m'.
Proof.
  intros Hr Hb. destruct (ram_store m a b Hr Hb) as (m' & E & L).
  exists m'. split; [done|]. split; [done|]. split; [|split].
  - intros a'. exact (ram_store_ram m a b m' a' Hr Hb E).
  - intros a' Hr' Hn. eapply (ram_store_other m a b m' a'); [done| done| done| done | lia].
  - exact (ram_store_keeps m a b m' Hr Hb E).
Qed.

(** A store into a known range replaces one element. *)
Lemma bytes_at_insert m m' a l (i : nat) b :
  bytes_at m a l -> (i < length l)%nat -> is_byte b ->
  mod_only (a + Z.of_nat i) (a + Z.of_nat i + 1) m m' ->
  load8 m' (a + Z.of_nat i) = Some b ->
  bytes_at m' a (<[i := b]> l).
Proof.
  intros (Ha & Hl & Hb) Hi Hbyte (R & L & _) Hld.
  split; [done|]. rewrite length_insert. split; [done|].
  intros j c Hj. destruct (decide (i = j)) as [<-|Hne].
  - rewrite list_lookup_insert_eq in Hj by done. simplify_eq.
    destruct (lookup_lt_is_Some_2 l i Hi) as [d Hd].
    destruct (Hb _ _ Hd) as (_ & ? & _). now rewrite R.
  - rewrite list_lookup_insert_ne in Hj by done.
    destruct (Hb _ _ Hj) as (? & ? & ?). rewrite R, L; [done | done | lia].
Qed.

Lemma bytes_at_snoc m m' a l b :
  bytes_at m a l -> ram m (a + Z.of_nat (length l)) -> is_byte b ->
  mod_only (a + Z.of_nat (length l)) (a + Z.of_nat (length l) + 1) m m' ->
  load8 m' (a + Z.of_nat (length l)) = Some b ->
  bytes_at m' a (l ++ [b]).
Proof.
  intros Hb Hr Hbyte Hm Hld. pose proof (ram_addr _ _ Hr) as Hu. unfold is_u32 in Hu.
  assert (0 <= a) by now destruct Hb.
  apply bytes_at_app; [done|]. split.
  - eapply bytes_at_mod; [done | done | lia].
  - split; [lia|]. split; [cbn; lia|]. intros [|i] c E; cbn in E; simplify_eq.
    rewrite Z.add_0_r. destruct Hm as (R & _). now rewrite R.
Qed.

Lemma bytes_at_nil m a : 0 <= a <= 2 ^ 32 -> bytes_at m a [].
Proof. intros Ha. split; [lia|]. split; [cbn; lia|]. intros i b E. done. Qed.

Lemma bytes_at_writable m a l : bytes_at m a l -> writable m a (Z.of_nat (length l)).
Proof.
  intros (Ha & Hl & Hb). split; [done|]. split; [done|]. intros x Hx.
  destruct (lookup_lt_is_Some_2 l (Z.to_nat (x - a))) as [b Hx']; [lia|].
  destruct (Hb _ _ Hx') as (_ & Hr & _). now replace (a + Z.of_nat _) with x in Hr by lia.
Qed.

Lemma writable_mod lo hi m m' a n : writable m a n -> mod_only lo hi m m' -> writable m' a n.
Proof.
  intros (Ha & Hn & Hr) (R & _). split; [done|]. split; [done|].
  intros x Hx. apply R. now apply Hr.
Qed.

Lemma bytes_at_drop m a l (n : nat) :
  bytes_at m a l -> (n <= length l)%nat -> bytes_at m (a + Z.of_nat n) (drop n l).
Proof.
  intros Hb Hn. rewrite <- (take_drop n l) in Hb.
  apply bytes_at_app in Hb as [_ Hb]; [|now destruct Hb].
  now rewrite length_take_le in Hb.
Qed.

(** ** Rules for memory accesses *)

Lemma wp_peek8 a b Q s :
  load8 (k_mem s) a = Some b -> Q b s -> wp (peek8 a) Q s.
Proof. unfold wp, peek8. now intros ->. Qed.

Lemma wp_poke8 a b (Q : unit -> kernel mem -> Prop) s :
  ram (k_mem s) a ->
  (forall s', touches a (a + 1) s s' -> load8 (k_mem s') a = Some (u8 b) -> Q tt s') ->
  wp (poke8 a b) Q s.
Proof.
  intros Hr HQ. unfold wp, poke8.
  destruct (store8_ram (k_mem s) a (u8 b) Hr (u8_range b)) as (m' & -> & L & Hm).
  apply HQ; [|done]. now split.
Qed.

(** Appending one byte to a range that is being written. *)
Lemma wp_poke8_snoc dst n l b (Q : unit -> kernel mem -> Prop) s :
  writable (k_mem s) dst n -> Z.of_nat (length l) < n -> bytes_at (k_mem s) dst l ->
  (forall s', touches (dst + Z.of_nat (length l)) (dst + Z.of_nat (length l) + 1) s s' ->
    bytes_at (k_mem s') dst (l ++ [u8 b]) -> Q tt s') ->
  wp (poke8 (dst + Z.of_nat (length l)) b) Q s.
Proof.
  intros (Hd & Hn & Hw) Hl Hb HQ. assert (Hr : ram (k_mem s) (dst + Z.of_nat (length l))).
  { apply Hw. lia. }
  apply wp_poke8; [done|]. intros s' Ht Hld. apply HQ; [done|].
  apply (bytes_at_snoc (k_mem s)); [done | done | apply u8_range | apply Ht | done].
Qed.

End ram_facts.

#[export] Hint Resolve touches_refl mod_only_refl : wp.
