(* ===== verification/FlatMemory.v ===== *)
(** * FlatMemory: unpaged memory

    The simplest memory with the laws of [RamSpec]: a finite map from
    addresses to bytes, every mapped address being RAM.  It instantiates the
    interface of Machine.v for the examples of the library routines. *)

From stdpp Require Import base numbers list strings gmap.
From S2P Require Import Prelude Machine.
From Stdlib Require Import ZArith Lia.
Open Scope Z_scope.

Abbreviation flat := (gmap Z Z).

Definition flat_load8 (m : flat) (a : Z) : option Z := m !! a.

Definition flat_store8 (m : flat) (a b : Z) : option flat :=
  match m !! a with
  | Some _ => Some (<[a := b]> m)
  | None => None
  end.

Definition flat_load32 (m : flat) (a : Z) : option Z :=
  match m !! a, m !! (a + 1), m !! (a + 2), m !! (a + 3) with
  | Some b0, Some b1, Some b2, Some b3 => Some (le32 b0 b1 b2 b3)
  | _, _, _, _ => None
  end.

Definition flat_store32 (m : flat) (a v : Z) : option flat :=
  match flat_load32 m a with
  | Some _ =>
      Some (<[a := byte_of v 0]> (<[a + 1 := byte_of v 1]>
           (<[a + 2 := byte_of v 2]> (<[a + 3 := byte_of v 3]> m))))
  | None => None
  end.

#[export] Instance flat_Memory : Memory flat := {|
  load8 := flat_load8;
  store8 := flat_store8;
  load32 := flat_load32;
  store32 := flat_store32;
|}.

Definition flat_ram (m : flat) (a : Z) : Prop :=
  is_u32 a /\ exists b, m !! a = Some b /\ is_byte b.

(** A memory that holds [l] at [a] and nothing else. *)
Definition flat_of (a : Z) (l : list Z) : flat := list_to_map (imap (fun i b => (a + Z.of_nat i, b)) l).

(** A kernel state over a memory, with nothing initialised. *)
Definition blank_kernel {mem} (m : mem) : kernel mem :=
  let no_bitmap := Bitmap 0 0 in
  Kernel m 0x202 [] (Pool no_bitmap 0 0) (Pool no_bitmap 0 0) (VirtualAddr no_bitmap 0)
    (replicate 33 (GateDesc 0 0 0 0 0)) (replicate 33 EmptyString) (replicate 33 0).

Lemma byte_of_byte v i : is_byte (byte_of v i).
Proof. apply Z.mod_pos_bound. lia. Qed.

Lemma flat_ram_insert (m : flat) a b a' :
  flat_ram m a -> is_byte b -> flat_ram (<[a := b]> m) a' <-> flat_ram m a'.
Proof.
  intros Ha Hb. pose proof Ha as (Hu & _).
  unfold flat_ram at 1. rewrite lookup_insert. case_decide as E; [subst a'|done].
  split; [done|]. intros _. split; [done|]. now exists b.
Qed.

Lemma flat_insert_mod (m : flat) a b :
  flat_ram m a -> is_byte b ->
  (forall a', flat_ram (<[a := b]> m) a' <-> flat_ram m a') /\
  (forall a', a <> a' -> <[a := b]> m !! a' = m !! a').
Proof.
  intros Ha Hb. split; [intros a'; now apply flat_ram_insert|].
  intros a' Hne. now apply lookup_insert_ne.
Qed.

Lemma flat_store32_spec (m : flat) a v :
  (forall i, 0 <= i < 4 -> flat_ram m (a + i)) ->
  exists m', flat_store32 m a v = Some m' /\
    (forall i, 0 <= i < 4 -> m' !! (a + i) = Some (byte_of v i)) /\
    (forall a', flat_ram m' a' <-> flat_ram m a') /\
    (forall a', flat_ram m a' -> ~ (a <= a' < a + 4) -> m' !! a' = m !! a').
Proof.
  intros Hr. unfold flat_store32, flat_load32.
  assert (R0 := Hr 0). assert (R1 := Hr 1). assert (R2 := Hr 2). assert (R3 := Hr 3).
  rewrite Z.add_0_r in R0.
  destruct R0 as (U0 & b0 & E0 & _), R1 as (U1 & b1 & E1 & _),
    R2 as (U2 & b2 & E2 & _), R3 as (U3 & b3 & E3 & _); [lia..|].
  rewrite E0, E1, E2, E3. eexists. split; [reflexivity|]. split; [|split].
  - intros i Hi. assert (i = 0 \/ i = 1 \/ i = 2 \/ i = 3) as [-> | [-> | [-> | ->]]] by lia;
      rewrite ?Z.add_0_r; rewrite ?lookup_insert_ne by lia; now rewrite lookup_insert_eq.
  - intros a'. unfold flat_ram at 1. rewrite !lookup_insert.
    assert (Hi : forall i, 0 <= i < 4 -> a + i = a' ->
      (is_u32 a' /\ exists b, Some (byte_of v i) = Some b /\ is_byte b) <-> flat_ram m a').
    { intros i Hi <-. specialize (Hr i Hi). split; [done|]. intros _.
      destruct Hr as (? & _). split; [done|]. eexists. split; [done | apply byte_of_byte]. }
    repeat case_decide; subst; try (rewrite <- (Hi 0), ?Z.add_0_r by lia; done);
      try (rewrite <- (Hi 1) by lia; done); try (rewrite <- (Hi 2) by lia; done);
      try (rewrite <- (Hi 3) by lia; done). done.
  - intros a' _ Hn. now rewrite !lookup_insert_ne by lia.
Qed.

#[export] Instance flat_RamSpec : RamSpec flat.
Proof.
  refine {| ram := flat_ram; keeps := fun _ _ => True |}; try done.
  - now intros m a (? & _).
  - intros m a (_ & b & Hb & Hb'). now exists b.
  - intros m a b (_ & c & Hc & _) Hb. exists (<[a := b]> m). cbn.
    unfold flat_store8, flat_load8. rewrite Hc. now rewrite lookup_insert_eq.
  - intros m a b m' a' (_ & c & Hc & _) Hb E _ Hne. cbn in *.
    unfold flat_store8, flat_load8 in *. rewrite Hc in E. simplify_eq.
    now rewrite lookup_insert_ne.
  - intros m a b m' a' Ha Hb E. cbn in *. unfold flat_store8 in E.
    destruct Ha as (? & c & Hc & ?). rewrite Hc in E. simplify_eq.
    apply flat_ram_insert; [|done]. split; [done|]. now exists c.
  - intros m a b0 b1 b2 b3 _ _ E0 E1 E2 E3. cbn in *. unfold flat_load8 in *.
    unfold flat_load32. now rewrite E0, E1, E2, E3.
  - intros m a v _ Hr _. destruct (flat_store32_spec m a v Hr) as (m' & ? & ? & ? & ?).
    now exists m'.
Defined.

(** Deciding [bytes_at] on a concrete memory. *)
Fixpoint flat_check (m : flat) (a : Z) (l : list Z) : bool :=
  match l with
  | [] => (0 <=? a) && (a <=? 2 ^ 32)
  | b :: l' =>
      (0 <=? a) && (a <? 2 ^ 32) && (0 <=? b) && (b <? 256) &&
      bool_decide (m !! a = Some b) && flat_check m (a + 1) l'
  end.

Lemma flat_check_bytes_at (m : flat) a l : flat_check m a l = true -> bytes_at m a l.
Proof.
  revert a. induction l as [|b l IH]; intros a Hc; cbn [flat_check] in Hc.
  - apply bytes_at_nil. lia.
  - rewrite !andb_true_iff, bool_decide_eq_true in Hc.
    destruct Hc as (((((? & ?) & ?) & ?) & Hm) & Hc). apply IH in Hc.
    change (b :: l) with ([b] ++ l). apply bytes_at_app; [lia|]. split; [|done].
    split; [lia|]. split; [cbn; lia|]. intros [|i] c E; cbn in E; simplify_eq.
    rewrite Z.add_0_r. split; [unfold is_byte; lia|]. split; [|done].
    split; [unfold is_u32; lia|]. exists c. split; [done | unfold is_byte; lia].
Qed.

(** A memory made of a list holds the list, whatever its length. *)
Lemma flat_of_bytes_at a (l : list Z) :
  0 <= a -> a + Z.of_nat (length l) <= 2 ^ 32 -> Forall is_byte l -> bytes_at (flat_of a l) a l.
Proof.
  intros Ha Hl Hb. split; [done|]. split; [done|]. intros i b Hi.
  assert (E : flat_of a l !! (a + Z.of_nat i) = Some b).
  { apply elem_of_list_to_map_1.
    - apply NoDup_alt. intros j k x Hj Hk. rewrite !list_lookup_fmap, !list_lookup_imap in Hj, Hk.
      destruct (l !! j), (l !! k); cbn in *; simplify_eq. lia.
    - apply list_elem_of_lookup. exists i. now rewrite list_lookup_imap, Hi. }
  pose proof (lookup_lt_Some _ _ _ Hi). pose proof (Forall_lookup_1 _ _ _ _ Hb Hi) as Hbyte.
  split; [done|]. split; [|exact E]. split; [unfold is_u32; lia | now exists b].
Qed.
