(* ===== verification/Interrupt.v ===== *)
(** * Interrupt: kernel/interrupt.c and kernel/debug.c

    The interrupt flag, the interrupt descriptor table, the 8259A set-up and
    the assertion macro of the kernel, with [panic_spin]. *)

From stdpp Require Import base numbers list strings gmap.
From S2P Require Import Prelude Machine.
From Stdlib Require Import ZArith Lia.
Open Scope Z_scope.

Definition nl : string := String (Ascii.ascii_of_nat 10) EmptyString.

(** ** Interrupt status *)

Definition EFLAGS_IF : Z := 0x00000200.

Inductive intr_status : Type := INTR_OFF | INTR_ON.

#[export] Instance intr_status_eq_dec : EqDecision intr_status.
Proof. solve_decision. Defined.

(** The enumerator's value. *)
Definition intr_status_val (st : intr_status) : Z :=
  match st with INTR_OFF => 0 | INTR_ON => 1 end.

Section status.
  Context {mem : Type}.
  Abbreviation C := (M (kernel mem)).

(** [pushfl; popl], [sti], [cli] *)
Definition GET_EFLAGS : C Z := gets k_eflags.
Definition sti : C unit := modify (fun s => set_eflags (Z.lor (k_eflags s) EFLAGS_IF) s).
Definition cli : C unit := modify (fun s => set_eflags (Z.ldiff (k_eflags s) EFLAGS_IF) s).

Definition intr_get_status : C intr_status :=
  eflags <- GET_EFLAGS ;;
  ret (if Z.land EFLAGS_IF eflags =? 0 then INTR_OFF else INTR_ON).

Definition intr_enable : C intr_status :=
  st <- intr_get_status ;;
  if bool_decide (INTR_ON = st) then
    let old_status := INTR_ON in ret old_status
  else
    let old_status := INTR_OFF in sti ;;; ret old_status.

Definition intr_disable : C intr_status :=
  st <- intr_get_status ;;
  if bool_decide (INTR_ON = st) then
    let old_status := INTR_ON in cli ;;; ret old_status
  else
    let old_status := INTR_OFF in ret old_status.

Definition intr_set_status (status : intr_status) : C intr_status :=
  if negb (Z.land (intr_status_val status) (intr_status_val INTR_ON) =? 0)
  then intr_enable else intr_disable.

(** ** kernel/debug.c, kernel/debug.h *)

Definition panic_spin {A} (filename : string) (line : Z) (func condition : string) : C A :=
  intr_disable ;;;
  put_str (nl +:+ nl +:+ nl +:+ "!!!!! error !!!!!" +:+ nl) ;;;
  put_str "filename:" ;;; put_str filename ;;; put_str nl ;;;
  put_str "line:0x" ;;; put_int line ;;; put_str nl ;;;
  put_str "function:" ;;; put_str func ;;; put_str nl ;;;
  put_str "condition:" ;;; put_str condition ;;; put_str nl ;;;
  stop_with Hang.

(** [PANIC(...)] and [ASSERT(CONDITION)]: [condition] is the text [#CONDITION];
    the makefile does not define [NDEBUG]. *)
Definition PANIC {A} (file : string) (line : Z) (func msg : string) : C A :=
  panic_spin file line func msg.

Definition ASSERT (file : string) (line : Z) (func : string) (c : bool) (condition : string)
  : C unit :=
  if c then ret tt else PANIC file line func condition.

End status.

(** ** The interrupt descriptor table *)

Definition PIC_M_CTRL : Z := 0x20.
Definition PIC_M_DATA : Z := 0x21.
Definition PIC_S_CTRL : Z := 0xa0.
Definition PIC_S_DATA : Z := 0xa1.

Definition IDT_DESC_CNT : Z := 0x21.

(** kernel/global.h *)
Definition RPL0 : Z := 0.
Definition TI_GDT : Z := 0.
Definition SELECTOR_K_CODE : Z := Z.shiftl 1 3 + Z.shiftl TI_GDT 2 + RPL0.
Definition IDT_DESC_P : Z := 1.
Definition IDT_DESC_DPL0 : Z := 0.
Definition IDT_DESC_32_TYPE : Z := 0xE.
Definition IDT_DESC_ATTR_DPL0 : Z :=
  Z.shiftl IDT_DESC_P 7 + Z.shiftl IDT_DESC_DPL0 5 + IDT_DESC_32_TYPE.

Definition make_idt_desc (attr function : Z) : gate_desc := {|
  func_offset_low_word := u16 (Z.land (u32 function) 0x0000FFFF);
  selector := u16 SELECTOR_K_CODE;
  dcount := 0;
  attribute := u8 attr;
  func_offset_high_word := u16 (Z.shiftr (Z.land (u32 function) 0xFFFF0000) 16);
|}.

(** The handler address the CPU reads from a gate. *)
Definition gate_offset (g : gate_desc) : Z :=
  Z.lor (Z.shiftl (func_offset_high_word g) 16) (func_offset_low_word g).

Section idt.
  Context {mem : Type}.
  Abbreviation C := (M (kernel mem)).

(** Linker-assigned addresses: of the table [idt], of [general_intr_handler],
    and the entry points kernel.S stores in [intr_entry_table]. *)
  Context (idt_addr general_intr_handler_addr : Z) (intr_entry_table : list Z).

(** [a[i]], within the array. *)
Definition array_get {A} (l : list A) (i : Z) : C A := fun s =>
  match (if i <? 0 then None else l !! Z.to_nat i) with
  | Some x => Ret x s
  | None => Stop (Fault i) s
  end.

(** [a[i] = x], within the array read by [get] and written back by [set]. *)
Definition array_set {A} (get : kernel mem -> list A) (set : list A -> kernel mem -> kernel mem)
    (i : Z) (x : A) : C unit := fun s =>
  match (if i <? 0 then None else get s !! Z.to_nat i) with
  | Some _ => Ret tt (set (<[Z.to_nat i := x]> (get s)) s)
  | None => Stop (Fault i) s
  end.

(** [for (i = 0; i < n; i++) body(i)] *)
Definition for_upto (n : Z) (body : Z -> C unit) : C unit :=
  loop 32 (fun i => if i <? n then body i ;;; ret (inl (i + 1)) else ret (inr tt)) 0.

Definition pic_init : C unit :=
  outb PIC_M_CTRL 0x11 ;;;
  outb PIC_M_DATA 0x20 ;;;
  outb PIC_M_DATA 0x04 ;;;
  outb PIC_M_DATA 0x01 ;;;
  outb PIC_S_CTRL 0x11 ;;;
  outb PIC_S_DATA 0x28 ;;;
  outb PIC_S_DATA 0x02 ;;;
  outb PIC_S_DATA 0x01 ;;;
  outb PIC_M_DATA 0xfe ;;;
  outb PIC_S_DATA 0xff ;;;
  put_str ("   pic_init done" +:+ nl).

Definition idt_desc_init : C unit :=
  for_upto IDT_DESC_CNT (fun i =>
    function <- array_get intr_entry_table i ;;
    array_set idt set_idt i (make_idt_desc IDT_DESC_ATTR_DPL0 function)) ;;;
  put_str ("   idt_desc_init done" +:+ nl).

Definition general_intr_handler (vec_nr : Z) : C unit :=
  if (u8 vec_nr =? 0x27) || (u8 vec_nr =? 0x2f) then ret tt
  else
    put_str "int vector: 0x" ;;;
    put_int (u8 vec_nr) ;;;
    put_char 10.

Definition exception_names : list (Z * string) := [
  (0, "#DE Divide Error"%string);
  (1, "#DB Debug Exception"%string);
  (2, "NMI Interrupt"%string);
  (3, "#BP Breakpoint Exception"%string);
  (4, "#OF Overflow Exception"%string);
  (5, "#BR BOUND Range Exceeded Exception"%string);
  (6, "#UD Invalid Opcode Exception"%string);
  (7, "#NM Device Not Available Exception"%string);
  (8, "#DF Double Fault Exception"%string);
  (9, "Coprocessor Segment Overrun"%string);
  (10, "#TS Invalid TSS Exception"%string);
  (11, "#NP Segment Not Present"%string);
  (12, "#SS Stack Fault Exception"%string);
  (13, "#GP General Protection Exception"%string);
  (14, "#PF Page-Fault Exception"%string);
  (16, "#MF x87 FPU Floating-Point Error"%string);
  (17, "#AC Alignment Check Exception"%string);
  (18, "#MC Machine-Check Exception"%string);
  (19, "#XF SIMD Floating-Point Exception"%string)].

Fixpoint set_names (l : list (Z * string)) : C unit :=
  match l with
  | [] => ret tt
  | (i, str) :: l' => array_set intr_name set_intr_name i str ;;; set_names l'
  end.

Definition exception_init : C unit :=
  for_upto IDT_DESC_CNT (fun i =>
    array_set idt_table set_idt_table i general_intr_handler_addr ;;;
    array_set intr_name set_intr_name i "unknown"%string) ;;;
  set_names exception_names.

(** [sizeof(idt)]: 33 descriptors of 8 bytes. *)
Definition idt_init : C unit :=
  put_str ("idt_init start" +:+ nl) ;;;
  idt_desc_init ;;;
  exception_init ;;;
  pic_init ;;;
  let idt_operand := Z.lor (IDT_DESC_CNT * 8 - 1) (Z.shiftl (u32 idt_addr) 16) in
  lidt idt_operand ;;;
  put_str ("idt_init done" +:+ nl).

End idt.

(** The bit of EFLAGS that enables interrupts. *)
Definition if_set {mem} (s : kernel mem) : bool := Z.testbit (k_eflags s) 9.

(** The console and port output of [idt_init], in order. *)
Definition idt_init_output (idt_addr : Z) : list event := [
  PutStr ("idt_init start" +:+ nl);
  PutStr ("   idt_desc_init done" +:+ nl);
  OutB PIC_M_CTRL 0x11; OutB PIC_M_DATA 0x20; OutB PIC_M_DATA 0x04; OutB PIC_M_DATA 0x01;
  OutB PIC_S_CTRL 0x11; OutB PIC_S_DATA 0x28; OutB PIC_S_DATA 0x02; OutB PIC_S_DATA 0x01;
  OutB PIC_M_DATA 0xfe; OutB PIC_S_DATA 0xff;
  PutStr ("   pic_init done" +:+ nl);
  Lidt (Z.lor 263 (Z.shiftl (u32 idt_addr) 16));
  PutStr ("idt_init done" +:+ nl)].

(** The name of vector [i] after [exception_init]. *)
Definition exception_name (i : Z) : string :=
  match list_find (fun p => p.1 = i) exception_names with
  | Some (_, (_, name)) => name
  | None => "unknown"
  end.

(** ** Lemmas *)

Section status_facts.
  Context {mem : Type}.
  Implicit Types s : kernel mem.

Lemma intr_get_status_spec s :
  intr_get_status s = Ret (if if_set s then INTR_ON else INTR_OFF) s.
Proof.
  unfold intr_get_status, if_set, GET_EFLAGS, gets, bind, ret. f_equal.
  rewrite Z.land_comm. change EFLAGS_IF with (Z.shiftl 1 9).
  rewrite land_shiftl_one_eqb by lia. now destruct (Z.testbit _ 9).
Qed.

Lemma if_set_sti s : if_set (set_eflags (Z.lor (k_eflags s) EFLAGS_IF) s) = true.
Proof. unfold if_set. cbn [k_eflags set_eflags]. rewrite Z.lor_spec. apply orb_true_r. Qed.

Lemma if_set_cli s : if_set (set_eflags (Z.ldiff (k_eflags s) EFLAGS_IF) s) = false.
Proof. unfold if_set. cbn [k_eflags set_eflags]. rewrite Z.ldiff_spec. apply andb_false_r. Qed.

(** Neither instruction changes another flag. *)
Lemma testbit_EFLAGS_IF i : 0 <= i -> i <> 9 -> Z.testbit EFLAGS_IF i = false.
Proof.
  intros Hi Hn. change EFLAGS_IF with (Z.shiftl 1 9).
  rewrite testbit_shiftl_one by lia. now apply Z.eqb_neq.
Qed.

Lemma intr_enable_spec s :
  exists s', intr_enable s = Ret (if if_set s then INTR_ON else INTR_OFF) s' /\
    if_set s' = true /\ s' = set_eflags (k_eflags s') s /\
    (forall i, 0 <= i -> i <> 9 -> Z.testbit (k_eflags s') i = Z.testbit (k_eflags s) i).
Proof.
  unfold intr_enable. erewrite bind_Ret by apply intr_get_status_spec.
  destruct (if_set s) eqn:E; cbn.
  - exists s. repeat split; [done | now destruct s].
  - eexists. split; [done|]. split; [apply if_set_sti|]. split; [done|].
    intros i Hi Hn. cbn [k_eflags set_eflags]. rewrite Z.lor_spec, testbit_EFLAGS_IF by done. apply orb_false_r.
Qed.

Lemma intr_disable_spec s :
  exists s', intr_disable s = Ret (if if_set s then INTR_ON else INTR_OFF) s' /\
    if_set s' = false /\ s' = set_eflags (k_eflags s') s /\
    (forall i, 0 <= i -> i <> 9 -> Z.testbit (k_eflags s') i = Z.testbit (k_eflags s) i).
Proof.
  unfold intr_disable. erewrite bind_Ret by apply intr_get_status_spec.
  destruct (if_set s) eqn:E; cbn.
  - eexists. split; [done|]. split; [apply if_set_cli|]. split; [done|].
    intros i Hi Hn. cbn [k_eflags set_eflags]. rewrite Z.ldiff_spec, testbit_EFLAGS_IF by done. apply andb_true_r.
  - exists s. repeat split; [done | now destruct s].
Qed.

(** What [panic_spin] prints. *)
Definition panic_output (file : string) (line : Z) (func condition : string) : list event := [
  PutStr (nl +:+ nl +:+ nl +:+ "!!!!! error !!!!!" +:+ nl);
  PutStr "filename:"; PutStr file; PutStr nl;
  PutStr "line:0x"; PutInt (u32 line); PutStr nl;
  PutStr "function:"; PutStr func; PutStr nl;
  PutStr "condition:"; PutStr condition; PutStr nl].

Lemma panic_spin_spec {A} file line func condition s :
  exists s', panic_spin (A := A) file line func condition s = Stop Hang s' /\
    if_set s' = false /\ k_mem s' = k_mem s /\
    k_trace s' = k_trace s ++ panic_output file line func condition.
Proof.
  destruct (intr_disable_spec s) as (s1 & E & IF & Es & _).
  unfold panic_spin. erewrite bind_Ret by exact E.
  eexists. split; [reflexivity|]. split; [exact IF|].
  rewrite Es. split; [done|]. cbn. now rewrite <- !app_assoc.
Qed.

End status_facts.

(** The address split over the two halves of a gate is put together again by
    the CPU. *)
Lemma gate_offset_make_idt_desc attr f :
  is_u32 f -> gate_offset (make_idt_desc attr f) = f.
Proof.
  intros Hf. unfold gate_offset, make_idt_desc, func_offset_high_word, func_offset_low_word.
  rewrite (u32_small f) by done. unfold is_u32 in Hf.
  change 0x0000FFFF with (Z.ones 16). change 0xFFFF0000 with (Z.shiftl (Z.ones 16) 16).
  rewrite land_ones_mod, land_high_mask by lia.
  rewrite Z.shiftr_div_pow2, (Z.mul_comm (2 ^ 16)), Z.div_mul by lia.
  unfold u16. rewrite Zmod_mod. rewrite (Z.mod_small (f / 2 ^ 16)) by
    (split; [apply Z.div_pos | apply Z.div_lt_upper_bound]; lia).
  rewrite lor_disjoint_add.
  - rewrite Z.shiftl_mul_pow2 by lia. pose proof (Z.div_mod f (2 ^ 16)). lia.
  - apply Z.bits_inj'. intros i Hi. rewrite Z.land_spec, Z.testbit_0_l.
    destruct (Z.ltb_spec i 16).
    + now rewrite Z.shiftl_spec_low by lia.
    + rewrite Z.mod_pow2_bits_high by lia. apply andb_false_r.
Qed.

Section idt_facts.
  Context {mem : Type}.
  Implicit Types s : kernel mem.

(** Rule of the counted loop. *)
Lemma wp_for_upto (n : Z) (body : Z -> M (kernel mem) unit) (Inv : Z -> kernel mem -> Prop) s :
  0 <= n < 2 ^ 31 ->
  (forall i s, 0 <= i < n -> Inv i s -> wp (body i) (fun _ => Inv (i + 1)) s) ->
  Inv 0 s -> wp (for_upto n body) (fun _ => Inv n) s.
Proof.
  intros Hn Hbody H0. unfold for_upto.
  apply wp_loop with (Inv := fun i s => 0 <= i <= n /\ Inv i s) (meas := fun i => n - i).
  - intros i s' [Hi HI]. destruct (Z.ltb_spec i n).
    + wp_step. eapply wp_mono; [apply Hbody; [lia | done]|].
      intros [] s'' HI'. wp_step. split; [split; [lia | done] | lia].
    + wp_step. now replace n with i by lia.
  - intros i s' [Hi _]. lia.
  - split; [lia | done].
  - lia.
Qed.

Lemma array_get_lookup {A} (l : list A) i x s :
  0 <= i -> l !! Z.to_nat i = Some x -> array_get l i s = Ret x s.
Proof.
  intros Hi Hl. unfold array_get. destruct (Z.ltb_spec i 0); [lia|]. now rewrite Hl.
Qed.

Lemma array_set_in {A} (get : kernel mem -> list A) set i x s :
  0 <= i < Z.of_nat (length (get s)) ->
  array_set get set i x s = Ret tt (set (<[Z.to_nat i := x]> (get s)) s).
Proof.
  intros Hi. unfold array_set. destruct (Z.ltb_spec i 0); [lia|].
  destruct (lookup_lt_is_Some_2 (get s) (Z.to_nat i)) as [y ->]; [lia | done].
Qed.

(** Filling the first entries of an array, in index order. *)
Lemma fill_step {A} (f : nat -> A) (l : list A) i :
  0 <= i < Z.of_nat (length l) ->
  (forall j, (j < Z.to_nat i)%nat -> l !! j = Some (f j)) ->
  forall j, (j < Z.to_nat (i + 1))%nat ->
  <[Z.to_nat i := f (Z.to_nat i)]> l !! j = Some (f j).
Proof.
  intros Hi Hl j Hj. destruct (decide (j = Z.to_nat i)) as [->|].
  - apply list_lookup_insert_eq. lia.
  - rewrite list_lookup_insert_ne by done. apply Hl. lia.
Qed.

Lemma idt_desc_init_spec table s :
  length table = 33%nat -> length (idt s) = 33%nat ->
  wp (idt_desc_init table) (fun _ s' =>
    s' = emit (PutStr ("   idt_desc_init done" +:+ nl))
           (set_idt (make_idt_desc IDT_DESC_ATTR_DPL0 <$> table) s)) s.
Proof.
  intros Ht Hi. unfold idt_desc_init. wp_step.
  eapply wp_mono; [apply wp_for_upto with (Inv := fun i s' => exists l,
    s' = set_idt l s /\ length l = 33%nat /\
    forall j, (j < Z.to_nat i)%nat ->
      l !! j = Some (make_idt_desc IDT_DESC_ATTR_DPL0 (table !!! j)))|].
  - done.
  - intros i s' Hr (l & -> & Hl & Hf). change IDT_DESC_CNT with 33 in Hr.
    wp_step. unfold wp at 1. erewrite array_get_lookup; [|lia|].
    2: { apply (list_lookup_lookup_total_lt (A := Z)). lia. }
    unfold wp. rewrite array_set_in by (cbn [idt set_idt]; lia).
    eexists. split; [reflexivity|]. cbn [idt set_idt]. rewrite length_insert.
    split; [done|].
    apply (fill_step (fun j => make_idt_desc IDT_DESC_ATTR_DPL0 (table !!! j))); [lia | done].
  - exists (idt s). split; [now destruct s|]. split; [done | intros j Hj; lia].
  - intros [] s' (l & -> & Hl & Hf). apply wp_modify. do 2 f_equal.
    apply list_eq_same_length with (n := 33%nat); [now rewrite length_fmap | done |].
    intros j x y Hj E1 E2. rewrite Hf in E1 by (change IDT_DESC_CNT with 33; lia).
    rewrite list_lookup_fmap, (list_lookup_lookup_total_lt (A := Z)) in E2 by lia.
    cbn in E2. congruence.
Qed.

Lemma exception_init_spec handler s :
  length (idt_table s) = 33%nat -> length (intr_name s) = 33%nat ->
  wp (exception_init handler) (fun _ s' =>
    s' = set_intr_name (exception_name <$> seqZ 0 33)
           (set_idt_table (replicate 33 handler) s)) s.
Proof.
  intros Ht Hn. unfold exception_init. wp_step.
  eapply wp_mono; [apply wp_for_upto with (Inv := fun i s' => exists l l',
    s' = set_intr_name l' (set_idt_table l s) /\ length l = 33%nat /\ length l' = 33%nat /\
    (forall j, (j < Z.to_nat i)%nat -> l !! j = Some handler) /\
    (forall j, (j < Z.to_nat i)%nat -> l' !! j = Some "unknown"%string))|].
  - done.
  - intros i s' Hr (l & l' & -> & Hl & Hl' & Hf & Hf'). change IDT_DESC_CNT with 33 in Hr.
    wp_step. unfold wp at 1.
    rewrite array_set_in by (cbn; lia). cbn [idt_table set_idt_table set_intr_name].
    unfold wp. rewrite array_set_in by (cbn; lia).
    cbn [intr_name set_idt_table set_intr_name].
    exists (<[Z.to_nat i := handler]> l), (<[Z.to_nat i := "unknown"%string]> l').
    split; [reflexivity|]. rewrite !length_insert.
    split; [done|]. split; [done|]. split.
    + apply (fill_step (fun _ => handler)); [lia | exact Hf].
    + apply (fill_step (fun _ => "unknown"%string)); [lia | exact Hf'].
  - exists (idt_table s), (intr_name s). split; [now destruct s|].
    split; [done|]. split; [done|]. split; intros j Hj; lia.
  - intros [] s' (l & l' & -> & Hl & Hl' & Hf & Hf').
    assert (l = replicate 33 handler) as ->.
    { apply list_eq_same_length with (n := 33%nat); [done | done|]. intros j x y Hj E1 E2.
      rewrite Hf in E1 by (change IDT_DESC_CNT with 33; lia).
      apply lookup_replicate in E2 as [-> _]. congruence. }
    assert (l' = replicate 33 "unknown"%string) as ->.
    { apply list_eq_same_length with (n := 33%nat); [done | done|]. intros j x y Hj E1 E2.
      rewrite Hf' in E1 by (change IDT_DESC_CNT with 33; lia).
      apply lookup_replicate in E2 as [-> _]. congruence. }
    reflexivity.
Qed.

(** The whole of [idt_init]. *)
Lemma idt_init_run idt_addr handler table s :
  length table = 33%nat -> Forall is_u32 table ->
  length (idt s) = 33%nat -> length (idt_table s) = 33%nat -> length (intr_name s) = 33%nat ->
  exists s', idt_init idt_addr handler table s = Ret tt s' /\
    (forall i g, idt s' !! i = Some g ->
      table !! i = Some (gate_offset g) /\ selector g = 8 /\ attribute g = 0x8E) /\
    length (idt s') = 33%nat /\
    idt_table s' = replicate 33 handler /\
    (forall i, 0 <= i < 33 -> intr_name s' !! Z.to_nat i = Some (exception_name i)) /\
    k_trace s' = k_trace s ++ idt_init_output idt_addr /\
    k_mem s' = k_mem s /\ k_eflags s' = k_eflags s.
Proof.
  intros Ht Hu Hi Hit Hin. apply wp_run_unit.
  unfold idt_init. wp_step. apply wp_modify. wp_step.
  eapply wp_mono; [apply idt_desc_init_spec; done|]. intros [] ? ->.
  wp_step. eapply wp_mono; [apply exception_init_spec; done|]. intros [] ? ->.
  set (names := exception_name <$> seqZ 0 33). set (gates := make_idt_desc _ <$> table).
  assert (Hg : forall i g, gates !! i = Some g ->
    table !! i = Some (gate_offset g) /\ selector g = 8 /\ attribute g = 0x8E).
  { intros i g (f & -> & Hf)%list_lookup_fmap_Some.
    rewrite gate_offset_make_idt_desc; [done|]. by eapply Forall_lookup in Hu. }
  assert (Hnames : forall i, 0 <= i < 33 -> names !! Z.to_nat i = Some (exception_name i)).
  { intros i Hr. unfold names. rewrite list_lookup_fmap, lookup_seqZ_lt by lia.
    cbn [fmap option_fmap option_map]. do 2 f_equal. lia. }
  assert (length gates = 33%nat) by (unfold gates; now rewrite length_fmap).
  clearbody names gates. cbn. rewrite <- !app_assoc. done.
Qed.

(** [idt_init] returns; afterwards every one of the 33 gates of the IDT is
    a present, ring-0, 32-bit interrupt gate in the kernel code segment whose
    offset is the entry point kernel.S gives for that vector, every slot of
    [idt_table] is [general_intr_handler], [intr_name] holds the documented
    names with "unknown" in the other slots, the two 8259A chips got the
    initialisation sequence with only IRQ0 unmasked, [lidt] got a limit of 263
    and the table's address, and nothing else of the state changed. *)
Theorem idt_init_sets_gates idt_addr handler table s :
  length table = 33%nat -> Forall is_u32 table ->
  length (idt s) = 33%nat -> length (idt_table s) = 33%nat -> length (intr_name s) = 33%nat ->
  exists s', idt_init idt_addr handler table s = Ret tt s' /\
    (forall i g, idt s' !! i = Some g ->
      table !! i = Some (gate_offset g) /\ selector g = 8 /\ attribute g = 0x8E) /\
    length (idt s') = 33%nat /\
    idt_table s' = replicate 33 handler /\
    (forall i, 0 <= i < 33 -> intr_name s' !! Z.to_nat i = Some (exception_name i)) /\
    k_trace s' = k_trace s ++ idt_init_output idt_addr /\
    k_mem s' = k_mem s /\ k_eflags s' = k_eflags s.
Proof. apply idt_init_run. Qed.


End idt_facts.

(** [intr_disable] and [intr_enable] return the state they found and leave
    interrupts off or on; giving the returned state back to [intr_set_status]
    restores the interrupt flag, and no other flag, register or memory changes:
    a critical section leaves the state as it was, also when it is nested. *)
Theorem intr_status_restored {mem} (s : kernel mem) :
  exists old s1, intr_disable s = Ret old s1 /\ if_set s1 = false /\
    (old = INTR_ON <-> if_set s = true) /\
    (exists r s2, intr_set_status old s1 = Ret r s2 /\ r = INTR_OFF /\
       if_set s2 = if_set s /\ s2 = set_eflags (k_eflags s2) s /\
       forall i, 0 <= i -> Z.testbit (k_eflags s2) i = Z.testbit (k_eflags s) i) /\
    (exists s2, intr_disable s1 = Ret INTR_OFF s2 /\ s2 = s1).
Proof.
  destruct (intr_disable_spec s) as (s1 & E1 & I1 & F1 & B1).
  eexists _, s1. split; [exact E1|]. split; [exact I1|].
  split; [now destruct (if_set s)|]. split.
  - destruct (if_set s) eqn:Es.
    + destruct (intr_enable_spec s1) as (s2 & E2 & I2 & F2 & B2). rewrite I1 in E2.
      exists INTR_OFF, s2. split; [exact E2|]. split; [done|]. split; [exact I2|].
      split; [rewrite F2, F1; done|]. intros i Hi. destruct (decide (i = 9)) as [->|Hne].
      * unfold if_set in *. congruence.
      * now rewrite B2, B1.
    + destruct (intr_disable_spec s1) as (s2 & E2 & I2 & F2 & B2). rewrite I1 in E2.
      exists INTR_OFF, s2. split; [exact E2|]. split; [done|]. split; [exact I2|].
      split; [rewrite F2, F1; done|]. intros i Hi. destruct (decide (i = 9)) as [->|Hne].
      * unfold if_set in *. congruence.
      * now rewrite B2, B1.
  - exists s1. split; [|done]. unfold intr_disable.
    erewrite bind_Ret by apply intr_get_status_spec. now rewrite I1.
Qed.

(** ** Example *)

Definition ex_gates : kernel unit :=
  Kernel tt 0x202 [] (Pool (Bitmap 0 0) 0 0) (Pool (Bitmap 0 0) 0 0)
    (VirtualAddr (Bitmap 0 0) 0) (replicate 33 (GateDesc 0 0 0 0 0))
    (replicate 33 EmptyString) (replicate 33 0).

Lemma idt_init_sets_gates_witness :
  exists s', idt_init 0xc0004000 0xc0001234 (replicate 33 0xc0011550) ex_gates = Ret tt s' /\
    (forall i g, idt s' !! i = Some g ->
      replicate 33 0xc0011550 !! i = Some (gate_offset g) /\ selector g = 8 /\ attribute g = 0x8E).
Proof.
  destruct (idt_init_sets_gates 0xc0004000 0xc0001234 (replicate 33 0xc0011550) ex_gates)
    as (s' & E & Hg & _); [done | now apply Forall_replicate | done | done | done|].
  exists s'. split; [exact E | exact Hg].
Defined.
