(* ===== verification/Str.v ===== *)
(** * Str: lib/string.c

    The byte-string routines, written against the memory interface; pointers
    are 32-bit addresses, [char] is signed, [size_t]-like counters wrap. *)

From stdpp Require Import base numbers list strings gmap.
From S2P Require Import Prelude Machine FlatMemory Interrupt.
From Stdlib Require Import ZArith Lia.
Open Scope Z_scope.

Definition NULL : Z := 0.

Section code.
  Context {mem : Type} `{Memory mem}.
  Abbreviation C := (M (kernel mem)).

(** [ASSERT] in this file. *)
Definition assert_str (line : Z) (func : string) (c : bool) (condition : string) : C unit :=
  ASSERT "lib/string.c" line func c condition.

(** A counter or pointer of 32 bits takes at most [2 ^ 32] values: [loop 33]
    does not cut off a loop that advances one. *)
Definition memset (dst_ value size : Z) : C unit :=
  assert_str 7 "memset" (negb (dst_ =? NULL)) "dst_ != NULL" ;;;
  loop 33 (fun '(dst, size) =>
    let size' := u32 (size - 1) in
    if size >? 0 then
      poke8 dst value ;;; ret (inl (u32 (dst + 1), size'))
    else ret (inr tt)) (dst_, size).

Definition memcpy (dst_ src_ size : Z) : C unit :=
  assert_str 15 "memcpy" (negb (dst_ =? NULL) && negb (src_ =? NULL))
    "dst_ != NULL && src_ != NULL" ;;;
  loop 33 (fun '(dst, src, size) =>
    let size' := u32 (size - 1) in
    if size >? 0 then
      b <- peek8 src ;;
      poke8 dst b ;;;
      ret (inl (u32 (dst + 1), u32 (src + 1), size'))
    else ret (inr tt)) (dst_, src_, size).

Definition memcmp (a_ b_ size : Z) : C Z :=
  assert_str 26 "memcmp" (negb (a_ =? NULL) || negb (b_ =? NULL))
    "a != NULL || b != NULL" ;;;
  loop 33 (fun '(a, b, size) =>
    let size' := u32 (size - 1) in
    if size >? 0 then
      ca <- peek8 a ;;
      cb <- peek8 b ;;
      if negb (char_of ca =? char_of cb) then
        ret (inr (if char_of ca >? char_of cb then 1 else -1))
      else ret (inl (u32 (a + 1), u32 (b + 1), size'))
    else ret (inr 0)) (a_, b_, size).

Definition strcpy (dst_ src_ : Z) : C Z :=
  assert_str 39 "strcpy" (negb (dst_ =? NULL) && negb (src_ =? NULL))
    "dst_ != NULL && src_ != NULL" ;;;
  let r := dst_ in
  loop 33 (fun '(dst_, src_) =>
    b <- peek8 src_ ;;
    poke8 dst_ b ;;;
    if negb (char_of b =? 0) then ret (inl (u32 (dst_ + 1), u32 (src_ + 1)))
    else ret (inr tt)) (dst_, src_) ;;;
  ret r.

Definition strlen (str : Z) : C Z :=
  assert_str 47 "strlen" (negb (str =? NULL)) "str != NULL" ;;;
  p <- loop 33 (fun p =>
    b <- peek8 p ;;
    let p' := u32 (p + 1) in
    if negb (char_of b =? 0) then ret (inl p') else ret (inr p')) str ;;
  ret (u32 (p - str - 1)).

Definition strcmp (a b : Z) : C Z :=
  assert_str 55 "strcmp" (negb (a =? NULL) && negb (b =? NULL))
    "a != NULL && b != NULL" ;;;
  let* (a, b) := loop 33 (fun '(a, b) =>
    ca <- peek8 a ;;
    if negb (char_of ca =? 0) then
      cb <- peek8 b ;;
      if char_of ca =? char_of cb then ret (inl (u32 (a + 1), u32 (b + 1)))
      else ret (inr (a, b))
    else ret (inr (a, b))) (a, b) in
  ca <- peek8 a ;;
  cb <- peek8 b ;;
  ret (if char_of ca <? char_of cb then -1 else if char_of ca >? char_of cb then 1 else 0).

(** [*str == ch]: a [char] against a [uint8_t], both promoted to [int]. *)
Definition strchr (str ch : Z) : C Z :=
  assert_str 67 "strchr" (negb (str =? NULL)) "str != NULL" ;;;
  loop 33 (fun str =>
    b <- peek8 str ;;
    if negb (char_of b =? 0) then
      if char_of b =? ch then ret (inr str) else ret (inl (u32 (str + 1)))
    else ret (inr NULL)) str.

Definition strrchr (str ch : Z) : C Z :=
  assert_str 79 "strrchr" (negb (str =? NULL)) "str != NULL" ;;;
  loop 33 (fun '(str, last_char) =>
    b <- peek8 str ;;
    if negb (char_of b =? 0) then
      let last_char := if char_of b =? ch then str else last_char in
      ret (inl (u32 (str + 1), last_char))
    else ret (inr last_char)) (str, NULL).

Definition strcat (dst_ src_ : Z) : C Z :=
  assert_str 93 "strcat" (negb (dst_ =? NULL) && negb (src_ =? NULL))
    "dst_ != NULL && src_ != NULL" ;;;
  str <- loop 33 (fun str =>
    b <- peek8 str ;;
    let str' := u32 (str + 1) in
    if negb (char_of b =? 0) then ret (inl str') else ret (inr str')) dst_ ;;
  let str := u32 (str - 1) in
  loop 33 (fun '(str, src_) =>
    b <- peek8 src_ ;;
    poke8 str b ;;;
    if negb (char_of b =? 0) then ret (inl (u32 (str + 1), u32 (src_ + 1)))
    else ret (inr tt)) (str, src_) ;;;
  ret dst_.

Definition strchrs (str ch : Z) : C Z :=
  assert_str 103 "strchrs" (negb (str =? NULL)) "str != NULL" ;;;
  let ch_cnt := 0 in
  loop 33 (fun '(p, ch_cnt) =>
    b <- peek8 p ;;
    if negb (char_of b =? 0) then
      let ch_cnt := if char_of b =? ch then u32 (ch_cnt + 1) else ch_cnt in
      ret (inl (u32 (p + 1), ch_cnt))
    else ret (inr ch_cnt)) (str, ch_cnt).

End code.

(** ** Specifications *)

Section spec.
  Context {mem : Type} `{RamSpec mem}.

(** [l], without a NUL in it, is stored at [a] and a NUL follows. *)
Definition cstr (m : mem) (a : Z) (l : list Z) : Prop :=
  a <> NULL /\ Forall (fun b => b <> 0) l /\ bytes_at m a (l ++ [0]).

(** The sign of the first difference of two byte sequences compared as
    [char]s. *)
Fixpoint cmp_chars (l1 l2 : list Z) : Z :=
  match l1, l2 with
  | a :: l1', b :: l2' =>
      if char_of a =? char_of b then cmp_chars l1' l2'
      else if char_of a >? char_of b then 1 else -1
  | _, _ => 0
  end.

(** Position of the first and of the last [char] equal to [ch]. *)
Fixpoint first_index (ch : Z) (l : list Z) : option nat :=
  match l with
  | [] => None
  | b :: l' => if char_of b =? ch then Some O else S <$> first_index ch l'
  end.

Fixpoint last_index (ch : Z) (l : list Z) : option nat :=
  match l with
  | [] => None
  | b :: l' =>
      match last_index ch l' with
      | Some i => Some (S i)
      | None => if char_of b =? ch then Some O else None
      end
  end.

Definition count_chars (ch : Z) (l : list Z) : nat :=
  length (filter (fun b => char_of b = ch) l).

Definition addr_or_null (a : Z) (i : option nat) : Z :=
  match i with Some i => a + Z.of_nat i | None => NULL end.

End spec.

(** ** Lemmas *)

Section facts.
  Context {mem : Type} `{RamSpec mem}.
  Implicit Types s : kernel mem.

Lemma wp_assert_str line func c text (Q : unit -> kernel mem -> Prop) s :
  c = true -> Q tt s -> wp (assert_str line func c text) Q s.
Proof. now intros ->. Qed.

(** A character of a C string, and the address after it. *)
Lemma cstr_char m a l (n : nat) :
  cstr m a l -> (n < length l)%nat ->
  exists b, l !! n = Some b /\ is_byte b /\ load8 m (a + Z.of_nat n) = Some b /\
    (char_of b =? 0) = false /\ u32 (a + Z.of_nat n + 1) = a + Z.of_nat n + 1.
Proof.
  intros (Hn & Hz & Hb) Hlt. destruct (lookup_lt_is_Some_2 l n Hlt) as [b Hl].
  exists b. split; [done|].
  destruct (bytes_at_lookup m a (l ++ [0]) n b Hb) as (Hbyte & Hr & Hld).
  { now apply lookup_app_l_Some. }
  split; [done|]. split; [done|]. split.
  - apply Z.eqb_neq. intros Hc. apply char_of_zero in Hc; [|done].
    exact (Forall_lookup_1 _ _ _ _ Hz Hl Hc).
  - apply u32_small. destruct Hb as (Ha & Hlen & _).
    rewrite length_app in Hlen. cbn in Hlen. unfold is_u32. lia.
Qed.

Lemma cstr_end m a l :
  cstr m a l -> load8 m (a + Z.of_nat (length l)) = Some 0 /\ ram m (a + Z.of_nat (length l)).
Proof.
  intros (_ & _ & Hb).
  destruct (bytes_at_lookup m a (l ++ [0]) (length l) 0 Hb) as (_ & ? & ?); [|done].
  now apply list_lookup_middle.
Qed.

Lemma cstr_range m a l : cstr m a l -> 0 < a /\ a + Z.of_nat (length l) + 1 <= 2 ^ 32.
Proof.
  intros (Hn & _ & Ha & Hl & _). rewrite length_app in Hl. cbn in Hl. unfold NULL in Hn. lia.
Qed.

Lemma cstr_not_null m a l : cstr m a l -> negb (a =? NULL) = true.
Proof. intros (Hn & _). now apply negb_true_iff, Z.eqb_neq. Qed.

(** Rule for a loop that walks the C string [l] at [a]: [st n] holds its local
    variables after [n] characters, [pos] picks the moving pointer among them,
    [P n] is what is known of the first [n] characters. *)
Lemma wp_walk {X B} (step : X -> M (kernel mem) (X + B)) (st : nat -> X) (pos : X -> Z)
    (P : nat -> Prop) (Q : B -> kernel mem -> Prop) a l s :
  cstr (k_mem s) a l ->
  (forall n, pos (st n) = a + Z.of_nat n) -> P O ->
  (forall n b, P n -> l !! n = Some b -> is_byte b -> load8 (k_mem s) (a + Z.of_nat n) = Some b ->
    (char_of b =? 0) = false -> u32 (a + Z.of_nat n + 1) = a + Z.of_nat (S n) ->
    wp (step (st n)) (fun r s' => s' = s /\
      match r with inl p => p = st (S n) /\ P (S n) | inr r => Q r s end) s) ->
  (P (length l) -> load8 (k_mem s) (a + Z.of_nat (length l)) = Some 0 ->
   wp (step (st (length l))) (fun r s' => s' = s /\
      match r with inl _ => False | inr r => Q r s end) s) ->
  wp (loop 33 step (st O)) Q s.
Proof.
  intros Hc Hpos HP Hstep Hend. pose proof (cstr_range _ _ _ Hc) as Hr.
  apply wp_loop with
    (Inv := fun p s' => s' = s /\ exists n, (n <= length l)%nat /\ p = st n /\ P n)
    (meas := fun p => a + Z.of_nat (length l) - pos p).
  - intros p s' (-> & n & Hn & -> & HPn).
    destruct (decide (n = length l)) as [->|Hne].
    + destruct (cstr_end _ _ _ Hc) as [Hld _].
      eapply wp_mono; [now apply Hend|]. intros [p|r] s' [-> HQ]; done.
    + destruct (cstr_char _ _ _ n Hc) as (b & Hl & Hb & Hld & Hz & Hu); [lia|].
      eapply wp_mono; [apply (Hstep n b); [done | done | done | done | done | lia]|].
      intros [p|r] s' [-> HQ]; [|done].
      destruct HQ as [-> HP']. rewrite !Hpos. split; [split; [done|] | lia].
      exists (S n). split; [lia | done].
  - intros p s' (-> & n & Hn & -> & _). rewrite Hpos. lia.
  - split; [done|]. exists O. split; [lia | done].
  - rewrite Hpos. lia.
Qed.

(** The pointer past the terminator may have wrapped; the length has not. *)
Lemma u32_walk_end a n : 0 <= n < 2 ^ 32 -> u32 (u32 (a + n + 1) - a - 1) = n.
Proof.
  intros Hn. rewrite <- (u32_small n) at 2 by done. unfold u32.
  rewrite <- Z.sub_add_distr, Zminus_mod_idemp_l. f_equal. lia.
Qed.

(** The tail of a walk: reading the character at the pointer. *)
Ltac walk_char Hld Hz :=
  wp_steps; eapply wp_peek8; [exact Hld|]; rewrite ?Hz; cbn [negb]; wp_steps.

Lemma wp_value {A} (m : M (kernel mem) A) v s :
  wp m (fun r s' => s' = s /\ r = v) s -> m s = Ret v s.
Proof. intros (r & s' & -> & -> & ->)%wp_run. done. Qed.

(** ** [strlen] *)

Lemma strlen_spec a l s :
  cstr (k_mem s) a l -> strlen a s = Ret (Z.of_nat (length l)) s.
Proof.
  intros Hc. pose proof (cstr_range _ _ _ Hc) as Hr. unfold strlen.
  apply wp_value. wp_step. apply wp_assert_str; [exact (cstr_not_null _ _ _ Hc)|]. wp_step.
  replace a with (a + Z.of_nat 0) at 1 by lia.
  apply (wp_walk _ (fun n => a + Z.of_nat n) (fun p => p) (fun _ => True))
    with (a := a) (l := l); [done | done | done | |].
  - intros n b _ Hl Hb Hld Hz Hu. walk_char Hld Hz. now rewrite Hu.
  - intros _ Hld. walk_char Hld Hld. split; [done|]. split; [done|]. apply u32_walk_end. lia.
Qed.

(** ** [strchr], [strrchr], [strchrs] *)

Lemma first_index_app ch l1 l2 :
  first_index ch (l1 ++ l2) =
    match first_index ch l1 with
    | Some i => Some i
    | None => (fun i => (length l1 + i)%nat) <$> first_index ch l2
    end.
Proof.
  induction l1 as [|b l1 IH]; cbn.
  - now destruct (first_index ch l2).
  - destruct (char_of b =? ch); [done|]. rewrite IH.
    destruct (first_index ch l1); [done|]. now destruct (first_index ch l2).
Qed.

Lemma last_index_snoc ch l b :
  last_index ch (l ++ [b]) = if char_of b =? ch then Some (length l) else last_index ch l.
Proof.
  induction l as [|c l IH]; cbn; [now destruct (char_of b =? ch)|].
  rewrite IH. now destruct (char_of b =? ch).
Qed.

Lemma count_chars_snoc ch l b :
  count_chars ch (l ++ [b]) = (count_chars ch l + if (char_of b =? ch)%Z then 1 else 0)%nat.
Proof.
  unfold count_chars. rewrite filter_app, length_app. f_equal.
  rewrite filter_cons. case_decide as Hc.
  - now rewrite (proj2 (Z.eqb_eq _ _) Hc).
  - now rewrite (proj2 (Z.eqb_neq _ _) Hc).
Qed.

Lemma count_chars_le ch l : (count_chars ch l <= length l)%nat.
Proof. apply length_filter. Qed.

Lemma strchr_spec a l ch s :
  cstr (k_mem s) a l -> strchr a ch s = Ret (addr_or_null a (first_index ch l)) s.
Proof.
  intros Hc. unfold strchr. apply wp_value. wp_step.
  apply wp_assert_str; [exact (cstr_not_null _ _ _ Hc)|].
  replace a with (a + Z.of_nat 0) at 1 by lia.
  apply (wp_walk _ (fun n => a + Z.of_nat n) (fun p => p)
           (fun n => first_index ch (take n l) = None)) with (a := a) (l := l);
    [done | done | done | |].
  - intros n b HP Hl Hb Hld Hz Hu. walk_char Hld Hz.
    assert (HS := first_index_app ch (take n l) [b]).
    rewrite <- take_S_r, HP in HS by done. cbn in HS.
    destruct (char_of b =? ch) eqn:E; wp_steps.
    + split; [done|]. split; [done|]. rewrite <- (take_drop (S n) l), first_index_app, HS.
      cbn. apply lookup_lt_Some in Hl. rewrite length_take_le by lia. lia.
    + rewrite Hu. done.
  - intros HP Hld. walk_char Hld Hld. rewrite firstn_all in HP. now rewrite HP.
Qed.

Lemma strrchr_spec a l ch s :
  cstr (k_mem s) a l -> strrchr a ch s = Ret (addr_or_null a (last_index ch l)) s.
Proof.
  intros Hc. unfold strrchr. apply wp_value. wp_step.
  apply wp_assert_str; [exact (cstr_not_null _ _ _ Hc)|].
  replace a with (a + Z.of_nat 0) at 1 by lia.
  apply (wp_walk _ (fun n => (a + Z.of_nat n, addr_or_null a (last_index ch (take n l)))) fst
           (fun _ => True)) with (a := a) (l := l); [done | done | done | |].
  - intros n b _ Hl Hb Hld Hz Hu. walk_char Hld Hz. split; [done|]. split; [|done].
    erewrite take_S_r, last_index_snoc, Hu by done. f_equal.
    apply lookup_lt_Some in Hl. rewrite length_take_le by lia.
    now destruct (char_of b =? ch).
  - intros _ Hld. walk_char Hld Hld. now rewrite firstn_all.
Qed.

Lemma strchrs_spec a l ch s :
  cstr (k_mem s) a l -> strchrs a ch s = Ret (Z.of_nat (count_chars ch l)) s.
Proof.
  intros Hc. pose proof (cstr_range _ _ _ Hc) as Hr.
  unfold strchrs. apply wp_value. wp_step.
  apply wp_assert_str; [exact (cstr_not_null _ _ _ Hc)|]. cbv zeta.
  replace a with (a + Z.of_nat 0) at 1 by lia.
  apply (wp_walk _ (fun n => (a + Z.of_nat n, Z.of_nat (count_chars ch (take n l)))) fst
           (fun _ => True)) with (a := a) (l := l); [done | done | done | |].
  - intros n b _ Hl Hb Hld Hz Hu. walk_char Hld Hz. split; [done|]. split; [|done].
    erewrite take_S_r, count_chars_snoc, Hu by done. f_equal.
    pose proof (count_chars_le ch (take n l)) as Hle.
    apply lookup_lt_Some in Hl. rewrite length_take_le in Hle by lia.
    destruct (char_of b =? ch); [|lia]. rewrite u32_small by (unfold is_u32; lia). lia.
  - intros _ Hld. walk_char Hld Hld. now rewrite firstn_all.
Qed.

(** ** [memset], [memcpy], [memcmp] *)

Lemma memset_spec dst v size s :
  dst <> NULL -> is_u32 dst -> is_u32 size -> writable (k_mem s) dst size ->
  exists s', memset dst v size s = Ret tt s' /\ touches dst (dst + size) s s' /\
    bytes_at (k_mem s') dst (replicate (Z.to_nat size) (u8 v)).
Proof.
  intros Hn Hu Hs Hw. unfold is_u32 in Hs. pose proof Hw as (Hd & Hmax & _).
  apply wp_run_unit. unfold memset. wp_step.
  apply wp_assert_str; [now apply negb_true_iff, Z.eqb_neq|].
  apply wp_loop with
    (Inv := fun '(d, sz) s' => exists n : nat, Z.of_nat n <= size /\ sz = size - Z.of_nat n /\
      d = u32 (dst + Z.of_nat n) /\ touches dst (dst + size) s s' /\
      bytes_at (k_mem s') dst (replicate n (u8 v)))
    (meas := snd).
  - intros (d, sz) s' (n & Hle & -> & -> & Ht & Hb). cbv beta zeta.
    destruct (Z.gtb_spec (size - Z.of_nat n) 0) as [Hgt|Hz].
    + wp_step. rewrite u32_small by (unfold is_u32; lia).
      replace (dst + Z.of_nat n) with (dst + Z.of_nat (length (replicate n (u8 v))))
        by (rewrite length_replicate; lia).
      eapply wp_poke8_snoc with (n := size);
        [eapply writable_mod; [done | apply Ht] | rewrite length_replicate; lia | done |].
      rewrite length_replicate. intros s'' Ht' Hb'. wp_step. cbn [snd].
      rewrite u32_small by (unfold is_u32; lia).
      split; [|lia]. exists (S n). split; [lia|]. split; [lia|]. split; [f_equal; lia|].
      split; [eapply touches_trans; [done|]; eapply touches_weaken; [done | lia | lia]|].
      now rewrite replicate_S_end.
    + wp_step. split; [done|]. now replace (Z.to_nat size) with n by lia.
  - intros (d, sz) s' (n & Hle & -> & _). cbn. lia.
  - exists O. split; [lia|]. split; [lia|]. rewrite Z.add_0_r.
    split; [symmetry|split; [apply touches_refl | apply bytes_at_nil; lia]].
    now apply u32_small.
  - cbn. lia.
Qed.

Lemma memcpy_spec dst src l s :
  dst <> NULL -> src <> NULL -> is_u32 dst -> is_u32 src -> Z.of_nat (length l) < 2 ^ 32 ->
  writable (k_mem s) dst (Z.of_nat (length l)) -> bytes_at (k_mem s) src l ->
  dst <= src \/ src + Z.of_nat (length l) <= dst ->
  exists s', memcpy dst src (Z.of_nat (length l)) s = Ret tt s' /\
    touches dst (dst + Z.of_nat (length l)) s s' /\ bytes_at (k_mem s') dst l.
Proof.
  intros Hdn Hsn Hdu Hsu Hlen Hw Hsrc Hdisj. pose proof Hw as (Hd & Hmax & _).
  pose proof Hsrc as (Hs0 & Hsmax & _). 
  remember (Z.of_nat (length l)) as size eqn:Hsz.
  apply wp_run_unit. unfold memcpy. wp_step.
  apply wp_assert_str; [now apply andb_true_iff; split; apply negb_true_iff, Z.eqb_neq|].
  apply wp_loop with
    (Inv := fun '(d, sr, sz) s' => exists n : nat, Z.of_nat n <= size /\
      sz = size - Z.of_nat n /\ d = u32 (dst + Z.of_nat n) /\ sr = u32 (src + Z.of_nat n) /\
      touches dst (dst + size) s s' /\ bytes_at (k_mem s') dst (take n l) /\
      bytes_at (k_mem s') (src + Z.of_nat n) (drop n l))
    (meas := snd).
  - intros [[d sr] sz] s' (n & Hle & -> & -> & -> & Ht & Hb & Hb'). cbv beta zeta iota.
    destruct (Z.gtb_spec (size - Z.of_nat n) 0) as [Hgt|Hz].
    + destruct (lookup_lt_is_Some_2 l n) as [b Hl]; [lia|].
      assert (Htk : length (take n l) = n) by (apply length_take_le; lia).
      destruct (bytes_at_lookup _ _ _ O b Hb') as (Hbyte & _ & Hld);
        [now rewrite lookup_drop, Nat.add_0_r|].
      rewrite Z.add_0_r in Hld. rewrite !u32_small by (unfold is_u32; lia).
      wp_step. eapply wp_peek8; [exact Hld|]. wp_step. rewrite <- Htk at 1.
      eapply wp_poke8_snoc with (n := size);
        [eapply writable_mod; [done | apply Ht] | lia | done |].
      rewrite Htk. intros s'' Ht' Hb''. wp_step. cbn [snd].
      rewrite (u32_small (size - _ - 1)) by (unfold is_u32; lia).
      split; [|lia]. exists (S n). split; [lia|]. split; [lia|].
      split; [f_equal; lia|]. split; [f_equal; lia|].
      split; [eapply touches_trans; [done|]; eapply touches_weaken; [done | lia | lia]|].
      split; [erewrite take_S_r by done; now rewrite u8_small in Hb''|].
      replace (src + Z.of_nat (S n)) with (src + Z.of_nat n + Z.of_nat 1) by lia.
      replace (drop (S n) l) with (drop 1 (drop n l)) by (rewrite drop_drop; f_equal; lia).
      eapply bytes_at_touches; [|done|].
      * apply bytes_at_drop; [done|]. rewrite length_drop. lia.
      * rewrite !length_drop. lia.
    + wp_step. split; [done|]. now rewrite take_ge in Hb by lia.
  - intros [[d sr] sz] s' (n & Hle & -> & _). cbn. lia.
  - exists O. rewrite !Z.add_0_r, !u32_small by done. cbn [take drop].
    split; [lia|]. split; [lia|]. split; [done|]. split; [done|].
    split; [apply touches_refl|]. split; [apply bytes_at_nil; lia | done].
  - cbn. lia.
Qed.

Lemma cmp_chars_cons a b l1 l2 :
  cmp_chars (a :: l1) (b :: l2) =
    if char_of a =? char_of b then cmp_chars l1 l2
    else if char_of a >? char_of b then 1 else -1.
Proof. done. Qed.

Lemma memcmp_spec a b la lb s :
  a <> NULL \/ b <> NULL -> is_u32 a -> is_u32 b ->
  bytes_at (k_mem s) a la -> bytes_at (k_mem s) b lb -> length la = length lb ->
  Z.of_nat (length la) < 2 ^ 32 ->
  memcmp a b (Z.of_nat (length la)) s = Ret (cmp_chars la lb) s.
Proof.
  intros Hn Hau Hbu Ha Hb Hlen Hmax. pose proof Ha as (_ & Hamax & _).
  pose proof Hb as (_ & Hbmax & _). apply wp_value. unfold memcmp. wp_step.
  apply wp_assert_str.
  { apply orb_true_iff. destruct Hn; [left | right]; now apply negb_true_iff, Z.eqb_neq. }
  remember (Z.of_nat (length la)) as size eqn:Hsz.
  apply wp_loop with
    (Inv := fun '(pa, pb, sz) s' => s' = s /\ exists n : nat, Z.of_nat n <= size /\
      sz = size - Z.of_nat n /\ pa = u32 (a + Z.of_nat n) /\ pb = u32 (b + Z.of_nat n) /\
      cmp_chars (drop n la) (drop n lb) = cmp_chars la lb)
    (meas := snd).
  - intros [[pa pb] sz] s' (-> & n & Hle & -> & -> & -> & Hc). cbv beta zeta iota.
    destruct (Z.gtb_spec (size - Z.of_nat n) 0) as [Hgt|Hz].
    + destruct (lookup_lt_is_Some_2 la n) as [x Hx]; [lia|].
      destruct (lookup_lt_is_Some_2 lb n) as [y Hy]; [lia|].
      destruct (bytes_at_lookup _ _ _ n x Ha Hx) as (_ & _ & Hlx).
      destruct (bytes_at_lookup _ _ _ n y Hb Hy) as (_ & _ & Hly).
      rewrite (u32_small (a + _)), (u32_small (b + _)) by (unfold is_u32 in *; lia).
      wp_step. eapply wp_peek8; [exact Hlx|]. wp_step. eapply wp_peek8; [exact Hly|].
      rewrite (drop_S _ _ _ Hx), (drop_S _ _ _ Hy), cmp_chars_cons in Hc.
      destruct (char_of x =? char_of y); cbn [negb]; wp_steps; [|done].
      cbn [snd]. rewrite (u32_small (size - _ - 1)) by (unfold is_u32; lia).
      split; [|lia]. split; [done|]. exists (S n).
      split; [lia|]. split; [lia|]. split; [f_equal; lia|]. split; [f_equal; lia | done].
    + wp_step. split; [done|]. now rewrite drop_ge in Hc by lia.
  - intros [[pa pb] sz] s' (_ & n & Hle & -> & _). cbn. lia.
  - split; [done|]. exists O. rewrite !Z.add_0_r, !u32_small by done.
    split; [lia|]. split; [lia|]. done.
  - cbn. lia.
Qed.

(** ** [strcpy], [strcat] *)

(** The copying loop of both: [l] with its terminator goes from [src] to [dst]. *)
Lemma copy_loop_spec dst src l s :
  dst + Z.of_nat (length l) + 1 <= 2 ^ 32 ->
  writable (k_mem s) dst (Z.of_nat (length l) + 1) -> cstr (k_mem s) src l ->
  dst + Z.of_nat (length l) + 1 <= src \/ src + Z.of_nat (length l) + 1 <= dst ->
  wp (loop 33 (fun '(dst_, src_) =>
    b <- peek8 src_ ;;
    poke8 dst_ b ;;;
    if negb (char_of b =? 0) then ret (inl (u32 (dst_ + 1), u32 (src_ + 1)))
    else ret (inr tt)) (dst, src))
   (fun _ s' => touches dst (dst + Z.of_nat (length l) + 1) s s' /\
     bytes_at (k_mem s') dst (l ++ [0])) s.
Proof.
  intros Hmax Hw Hsrc Hdisj. pose proof (cstr_range _ _ _ Hsrc) as Hr.
  pose proof Hw as (Hd & _ & _).
  apply wp_loop with
    (Inv := fun '(d, sr) s' => exists n : nat, (n <= length l)%nat /\
      d = dst + Z.of_nat n /\ sr = src + Z.of_nat n /\
      touches dst (dst + Z.of_nat (length l) + 1) s s' /\ bytes_at (k_mem s') dst (take n l) /\
      cstr (k_mem s') src l)
    (meas := fun p => dst + Z.of_nat (length l) - p.1).
  - intros (d, sr) s' (n & Hle & -> & -> & Ht & Hb & Hc). cbv beta iota.
    assert (Hrd : exists b, (l ++ [0]) !! n = Some b /\ is_byte b /\
      load8 (k_mem s') (src + Z.of_nat n) = Some b).
    { destruct Hc as (_ & _ & Hc). destruct (lookup_lt_is_Some_2 (l ++ [0]) n) as [b Hl].
      { rewrite length_app. cbn. lia. }
      exists b. destruct (bytes_at_lookup _ _ _ n b Hc Hl) as (? & _ & ?). done. }
    destruct Hrd as (b & Hl & Hbyte & Hld).
    assert (Htk : length (take n l) = n) by (apply length_take_le; lia).
    wp_step. eapply wp_peek8; [exact Hld|]. wp_step. rewrite <- Htk at 1.
    eapply wp_poke8_snoc with (n := Z.of_nat (length l) + 1);
      [eapply writable_mod; [done | apply Ht] | lia | done |].
    rewrite Htk, u8_small by done. intros s'' Ht' Hb'.
    assert (Htouch : touches dst (dst + Z.of_nat (length l) + 1) s s'').
    { eapply touches_trans; [done|]. eapply touches_weaken; [done | lia | lia]. }
    assert (Hc' : cstr (k_mem s'') src l).
    { destruct Hc as (? & ? & Hc). split; [done|]. split; [done|].
      eapply bytes_at_touches; [done | done |]. rewrite length_app. cbn. lia. }
    destruct (decide (n = length l)) as [->|Hne].
    + rewrite list_lookup_middle in Hl by done. simplify_eq.
      change (negb (char_of 0 =? 0)) with false. cbv iota. wp_step.
      split; [done|]. now rewrite firstn_all in Hb'.
    + destruct (cstr_char _ _ _ n Hc) as (b' & Hl' & _ & Hld' & Hz & Hu); [lia|].
      assert (b' = b) as -> by congruence. rewrite Hz. cbn [negb]. wp_step.
      rewrite Hu, u32_small by (unfold is_u32; lia). cbn [fst].
      split; [|lia]. exists (S n). split; [lia|]. split; [lia|]. split; [lia|].
      split; [done|]. split; [now erewrite take_S_r by done | done].
  - intros (d, sr) s' (n & Hle & -> & _). cbn. lia.
  - exists O. rewrite !Z.add_0_r. split; [lia|]. split; [done|]. split; [done|].
    split; [apply touches_refl|]. split; [apply bytes_at_nil; lia | done].
  - cbn. lia.
Qed.

Lemma cstr_of_bytes m a l :
  a <> NULL -> Forall (fun b => b <> 0) l -> bytes_at m a (l ++ [0]) -> cstr m a l.
Proof. done. Qed.

Lemma strcpy_spec dst src l s :
  dst <> NULL -> writable (k_mem s) dst (Z.of_nat (length l) + 1) -> cstr (k_mem s) src l ->
  dst + Z.of_nat (length l) + 1 <= src \/ src + Z.of_nat (length l) + 1 <= dst ->
  exists s', strcpy dst src s = Ret dst s' /\
    touches dst (dst + Z.of_nat (length l) + 1) s s' /\ cstr (k_mem s') dst l.
Proof.
  intros Hn Hw Hsrc Hdisj. pose proof Hw as (_ & Hmax & _).
  cut (wp (strcpy dst src) (fun r s' => r = dst /\
    touches dst (dst + Z.of_nat (length l) + 1) s s' /\ cstr (k_mem s') dst l) s).
  { intros (r & s' & E & -> & HQ)%wp_run. eauto. }
  unfold strcpy. wp_step. apply wp_assert_str.
  { apply andb_true_iff. split; [now apply negb_true_iff, Z.eqb_neq|].
    exact (cstr_not_null _ _ _ Hsrc). }
  cbv zeta. wp_step. eapply wp_mono; [apply (copy_loop_spec dst src l); [lia | done..]|].
  intros [] s' [Ht Hb]. wp_step. split; [done|]. split; [done|].
  apply cstr_of_bytes; [done | apply Hsrc | done].
Qed.

Lemma strcat_spec dst src ld ls s :
  cstr (k_mem s) dst ld -> cstr (k_mem s) src ls ->
  writable (k_mem s) dst (Z.of_nat (length ld + length ls) + 1) ->
  dst + Z.of_nat (length ld + length ls) + 1 <= src \/
    src + Z.of_nat (length ls) + 1 <= dst + Z.of_nat (length ld) ->
  exists s', strcat dst src s = Ret dst s' /\
    touches (dst + Z.of_nat (length ld)) (dst + Z.of_nat (length ld + length ls) + 1) s s' /\
    cstr (k_mem s') dst (ld ++ ls).
Proof.
  intros Hdst Hsrc Hw Hdisj. pose proof (cstr_range _ _ _ Hdst) as Hr.
  pose proof Hw as (Hd0 & Hmax & Hwr).
  cut (wp (strcat dst src) (fun r s' => r = dst /\
    touches (dst + Z.of_nat (length ld)) (dst + Z.of_nat (length ld + length ls) + 1) s s' /\
    cstr (k_mem s') dst (ld ++ ls)) s).
  { intros (r & s' & E & -> & HQ)%wp_run. eauto. }
  unfold strcat. wp_step. apply wp_assert_str.
  { apply andb_true_iff. split; eapply cstr_not_null; eassumption. }
  wp_step. eapply wp_mono with (P := fun p s' => s' = s /\
    p = u32 (dst + Z.of_nat (length ld) + 1)).
  { replace dst with (dst + Z.of_nat 0) at 1 by lia.
    apply (wp_walk _ (fun n => dst + Z.of_nat n) (fun p => p) (fun _ => True))
      with (a := dst) (l := ld); [done | done | done | |].
    - intros n b _ Hl Hb Hld Hz Hu. walk_char Hld Hz. now rewrite Hu.
    - intros _ Hld. walk_char Hld Hld. done. }
  intros p s' [-> ->]. cbv zeta.
  replace (u32 (u32 (dst + Z.of_nat (length ld) + 1) - 1)) with (dst + Z.of_nat (length ld)).
  2: { unfold u32. rewrite Zminus_mod_idemp_l, Z.mod_small; lia. }
  wp_step. eapply wp_mono; [apply (copy_loop_spec _ src ls); [lia | | done | lia]|].
  { split; [lia|]. split; [lia|]. intros x Hx. apply Hwr. lia. }
  intros [] s' [Ht Hb]. wp_step. split; [done|].
  split; [now replace (dst + Z.of_nat (length ld + length ls) + 1)
    with (dst + Z.of_nat (length ld) + Z.of_nat (length ls) + 1) by lia|].
  destruct Hdst as (Hdn & Hdz & Hdb).
  apply cstr_of_bytes; [done | apply Forall_app; split; [done | apply Hsrc] |].
  rewrite <- app_assoc. apply bytes_at_app; [lia|]. split; [|done].
  apply bytes_at_app in Hdb as [Hdb _]; [|lia].
  eapply bytes_at_touches; [done | done | lia].
Qed.

(** ** [strcmp] *)

(** The answer is read off the characters where the walk stops. *)
Lemma cmp_chars_here n l1 l2 x y :
  l1 !! n = Some x -> l2 !! n = Some y ->
  (char_of x = char_of y -> cmp_chars (drop n l1) (drop n l2) = 0) ->
  (if char_of x <? char_of y then -1 else if char_of x >? char_of y then 1 else 0) =
    cmp_chars (drop n l1) (drop n l2).
Proof.
  intros Hx Hy Heq. destruct (Z.compare_spec (char_of x) (char_of y)) as [E|Hlt|Hgt].
  - now rewrite (Heq E), E, Z.gtb_ltb, Z.ltb_irrefl.
  - rewrite (drop_S _ _ _ Hx), (drop_S _ _ _ Hy), cmp_chars_cons.
    rewrite (proj2 (Z.ltb_lt _ _) Hlt), (proj2 (Z.eqb_neq _ _)) by lia.
    destruct (Z.gtb_spec (char_of x) (char_of y)); [lia | done].
  - rewrite (drop_S _ _ _ Hx), (drop_S _ _ _ Hy), cmp_chars_cons.
    rewrite (proj2 (Z.ltb_ge _ _)), (proj2 (Z.eqb_neq _ _)) by lia.
    destruct (Z.gtb_spec (char_of x) (char_of y)); [done | lia].
Qed.

(** A zero byte of a terminated string is its terminator. *)
Lemma cstr_zero m a l n : cstr m a l -> (l ++ [0]) !! n = Some 0 -> (n <= length l)%nat -> n = length l.
Proof.
  intros (Hb & Hz & _) Hl Hle. destruct (decide (n = length l)); [done|].
  rewrite lookup_app_l in Hl by lia. rewrite Forall_lookup in Hz. now destruct (Hz _ _ Hl).
Qed.

Lemma before_terminator (l : list Z) n x :
  (l ++ [0]) !! n = Some x -> x <> 0 -> (n <= length l)%nat -> (n < length l)%nat.
Proof.
  intros E Hx Hle. destruct (decide (n = length l)) as [->|]; [|lia].
  rewrite list_lookup_middle in E by done. now simplify_eq.
Qed.

Lemma strcmp_spec a b la lb s :
  cstr (k_mem s) a la -> cstr (k_mem s) b lb ->
  strcmp a b s = Ret (cmp_chars (la ++ [0]) (lb ++ [0])) s.
Proof.
  intros Ha Hb. pose proof (cstr_range _ _ _ Ha) as Hra. pose proof (cstr_range _ _ _ Hb) as Hrb.
  pose proof Ha as (_ & _ & HbA). pose proof Hb as (_ & _ & HbB).
  apply wp_value. unfold strcmp. wp_step. apply wp_assert_str.
  { apply andb_true_iff. split; eapply cstr_not_null; eassumption. }
  wp_step. set (LA := la ++ [0]) in *. set (LB := lb ++ [0]) in *.
  apply wp_mono with (P := fun '(pa, pb) s' => s' = s /\ exists n x y,
    pa = a + Z.of_nat n /\ pb = b + Z.of_nat n /\ LA !! n = Some x /\ LB !! n = Some y /\
    cmp_chars (drop n LA) (drop n LB) = cmp_chars LA LB /\
    (char_of x = char_of y -> cmp_chars (drop n LA) (drop n LB) = 0)).
  - apply wp_loop with
      (Inv := fun '(pa, pb) s' => s' = s /\ exists n, (n <= length la)%nat /\
        (n <= length lb)%nat /\ pa = a + Z.of_nat n /\ pb = b + Z.of_nat n /\
        cmp_chars (drop n LA) (drop n LB) = cmp_chars LA LB)
      (meas := fun p => a + Z.of_nat (length la) - p.1).
    + intros (pa, pb) s' (-> & n & Hla & Hlb & -> & -> & Hc). cbv beta iota.
      destruct (lookup_lt_is_Some_2 LA n) as [x Hx]; [unfold LA; rewrite length_app; cbn; lia|].
      destruct (lookup_lt_is_Some_2 LB n) as [y Hy]; [unfold LB; rewrite length_app; cbn; lia|].
      destruct (bytes_at_lookup _ _ _ n x HbA Hx) as (Hxb & _ & Hlx).
      destruct (bytes_at_lookup _ _ _ n y HbB Hy) as (Hyb & _ & Hly).
      wp_step. eapply wp_peek8; [exact Hlx|].
      destruct (char_of x =? 0) eqn:Ex; cbn [negb]; wp_steps.
      * split; [done|]. exists n, x, y. do 5 (split; [done|]). intros Exy.
        apply Z.eqb_eq in Ex. apply char_of_zero in Ex; [|done]. subst x.
        symmetry in Exy. apply char_of_zero in Exy; [|done]. subst y.
        assert (n = length la) as -> by exact (cstr_zero _ _ _ n Ha Hx Hla).
        rewrite (drop_S _ _ _ Hx), (drop_S _ _ _ Hy), cmp_chars_cons. cbn.
        unfold LA. now rewrite drop_ge by (rewrite length_app; cbn; lia).
      * eapply wp_peek8; [exact Hly|]. destruct (char_of x =? char_of y) eqn:Exy; wp_steps.
        -- apply Z.eqb_eq, char_of_inj in Exy; [subst y | done..].
           assert (Hx0 : x <> 0) by (intros ->; discriminate).
           pose proof (before_terminator _ _ _ Hx Hx0 Hla).
           pose proof (before_terminator _ _ _ Hy Hx0 Hlb).
           rewrite !u32_small by (unfold is_u32; lia). cbn [fst]. split; [|lia].
           split; [done|]. exists (S n). split; [lia|]. split; [lia|]. split; [lia|].
           split; [lia|]. rewrite (drop_S _ _ _ Hx), (drop_S _ _ _ Hy), cmp_chars_cons in Hc.
           now rewrite Z.eqb_refl in Hc.
        -- split; [done|]. exists n, x, y. do 5 (split; [done|]). intros E.
           now rewrite E, Z.eqb_refl in Exy.
    + intros (pa, pb) s' (_ & n & ? & ? & -> & _). cbn. lia.
    + split; [done|]. exists O. rewrite !Z.add_0_r. split; [lia|]. split; [lia|]. done.
    + cbn. lia.
  - intros (pa, pb) s' (-> & n & x & y & -> & -> & Hx & Hy & Hc & Heq).
    destruct (bytes_at_lookup _ _ _ n x HbA Hx) as (_ & _ & Hlx).
    destruct (bytes_at_lookup _ _ _ n y HbB Hy) as (_ & _ & Hly).
    wp_step. eapply wp_peek8; [exact Hlx|]. wp_step. eapply wp_peek8; [exact Hly|]. wp_step.
    split; [done|]. rewrite <- Hc. now apply cmp_chars_here.
Qed.

Lemma cmp_chars_antisym l1 l2 : cmp_chars l2 l1 = - cmp_chars l1 l2.
Proof.
  revert l2. induction l1 as [|x l1 IH]; intros [|y l2]; [done | done | done |].
  rewrite !cmp_chars_cons, (Z.eqb_sym (char_of y)).
  destruct (Z.eqb_spec (char_of x) (char_of y)); [apply IH|].
  destruct (Z.gtb_spec (char_of x) (char_of y)), (Z.gtb_spec (char_of y) (char_of x)); lia.
Qed.

(** Terminated strings compare equal only when they are equal. *)
Lemma cmp_chars_zero l1 l2 :
  Forall is_byte l1 -> Forall is_byte l2 ->
  Forall (fun b => b <> 0) l1 -> Forall (fun b => b <> 0) l2 ->
  cmp_chars (l1 ++ [0]) (l2 ++ [0]) = 0 <-> l1 = l2.
Proof.
  intros H1. revert l2. induction H1 as [|x l1 Hx H1 IH]; intros l2 H2 Z1 Z2.
  - destruct l2 as [|y l2]; [done|]. cbn [app]. rewrite cmp_chars_cons.
    apply Forall_cons in H2 as [Hy _]. apply Forall_cons in Z2 as [Hy0 _].
    split; [|done]. destruct (Z.eqb_spec (char_of 0) (char_of y)) as [E|_].
    + change (char_of 0) with 0 in E. symmetry in E. now apply char_of_zero in E.
    + now destruct (_ >? _).
  - apply Forall_cons in Z1 as [Hx0 Z1]. destruct l2 as [|y l2].
    + cbn [app]. rewrite cmp_chars_cons. split; [|done].
      destruct (Z.eqb_spec (char_of x) (char_of 0)) as [E|_].
      * now apply char_of_zero in E.
      * now destruct (_ >? _).
    + apply Forall_cons in H2 as [Hy H2]. apply Forall_cons in Z2 as [Hy0 Z2].
      cbn [app]. rewrite cmp_chars_cons.
      destruct (Z.eqb_spec (char_of x) (char_of y)) as [E|Hne].
      * apply char_of_inj in E; [subst y | done..]. rewrite IH by done.
        split; [now intros -> | now intros [= ->]].
      * split; [now destruct (_ >? _) | intros [= -> _]; done].
Qed.

Lemma cstr_is_byte m a l : cstr m a l -> Forall is_byte l.
Proof. intros (_ & _ & Hb). apply bytes_at_is_byte in Hb. now apply Forall_app in Hb as [? _]. Qed.

End facts.

(** ** Properties *)

Section properties.
  Context {mem : Type} `{RamSpec mem}.
  Implicit Types s : kernel mem.

(** [strcpy] into a large enough buffer that does not overlap the source
    returns the destination; afterwards the destination holds the source
    string with its terminator, so that [strlen] of it is the source's length
    and [strcmp] finds the two equal, and no RAM byte outside the copied range
    and no other part of the state changed. *)
Theorem strcpy_roundtrip dst src l s :
  dst <> NULL -> writable (k_mem s) dst (Z.of_nat (length l) + 1) -> cstr (k_mem s) src l ->
  dst + Z.of_nat (length l) + 1 <= src \/ src + Z.of_nat (length l) + 1 <= dst ->
  exists s', strcpy dst src s = Ret dst s' /\
    strlen dst s' = Ret (Z.of_nat (length l)) s' /\ strcmp dst src s' = Ret 0 s' /\
    touches dst (dst + Z.of_nat (length l) + 1) s s'.
Proof.
  intros Hn Hw Hsrc Hd. destruct (strcpy_spec dst src l s Hn Hw Hsrc Hd) as (s' & E & Ht & Hc).
  assert (Hsrc' : cstr (k_mem s') src l).
  { destruct Hsrc as (? & ? & Hb). split; [done|]. split; [done|].
    eapply bytes_at_touches; [done | done |]. rewrite length_app. cbn. lia. }
  exists s'. split; [done|]. split; [now apply strlen_spec|]. split; [|done].
  erewrite strcmp_spec by done. f_equal. apply cstr_is_byte in Hc as Hb.
  apply cmp_chars_zero; try done; apply Hsrc.
Qed.

(** [memcpy] of a buffer to a destination below it or past its end returns
    with the bytes of the source, as they were, at the destination, and no
    RAM byte outside the destination changed: a forward copy is right also
    when the buffers overlap with the destination first. *)
Theorem memcpy_copies dst src l s :
  dst <> NULL -> src <> NULL -> is_u32 dst -> is_u32 src -> Z.of_nat (length l) < 2 ^ 32 ->
  writable (k_mem s) dst (Z.of_nat (length l)) -> bytes_at (k_mem s) src l ->
  dst <= src \/ src + Z.of_nat (length l) <= dst ->
  exists s', memcpy dst src (Z.of_nat (length l)) s = Ret tt s' /\
    touches dst (dst + Z.of_nat (length l)) s s' /\ bytes_at (k_mem s') dst l.
Proof. apply memcpy_spec. Qed.

(** [memset] returns with every byte of the range equal to the low eight
    bits of the value, and changes nothing else. *)
Theorem memset_fills dst v size s :
  dst <> NULL -> is_u32 dst -> is_u32 size -> writable (k_mem s) dst size ->
  exists s', memset dst v size s = Ret tt s' /\ touches dst (dst + size) s s' /\
    (forall x, dst <= x < dst + size -> load8 (k_mem s') x = Some (u8 v)).
Proof.
  intros Hn Hu Hs Hw. destruct (memset_spec dst v size s Hn Hu Hs Hw) as (s' & E & Ht & Hb).
  exists s'. split; [done|]. split; [done|]. intros x Hx. unfold is_u32 in *.
  destruct (bytes_at_lookup _ _ _ (Z.to_nat (x - dst)) (u8 v) Hb) as (_ & _ & Hld).
  - apply lookup_replicate. split; [done | lia].
  - now replace (dst + Z.of_nat (Z.to_nat (x - dst))) with x in Hld by lia.
Qed.

(** [strcat] of a string to one that has room behind it returns the
    destination, which then holds the concatenation; only bytes from the old
    terminator on changed. *)
Theorem strcat_appends dst src ld ls s :
  cstr (k_mem s) dst ld -> cstr (k_mem s) src ls ->
  writable (k_mem s) dst (Z.of_nat (length ld + length ls) + 1) ->
  dst + Z.of_nat (length ld + length ls) + 1 <= src \/
    src + Z.of_nat (length ls) + 1 <= dst + Z.of_nat (length ld) ->
  exists s', strcat dst src s = Ret dst s' /\ cstr (k_mem s') dst (ld ++ ls) /\
    touches (dst + Z.of_nat (length ld)) (dst + Z.of_nat (length ld + length ls) + 1) s s'.
Proof.
  intros Hd Hs Hw Hdisj. destruct (strcat_spec dst src ld ls s Hd Hs Hw Hdisj) as (s' & ? & ? & ?).
  now exists s'.
Qed.

(** [strcmp] of two strings always returns, without side effects; it is 0
    exactly when they are equal, and swapping the arguments negates it. *)
Theorem strcmp_orders a b la lb s :
  cstr (k_mem s) a la -> cstr (k_mem s) b lb ->
  exists r, strcmp a b s = Ret r s /\ strcmp b a s = Ret (- r) s /\
    (r = 0 <-> la = lb) /\ -1 <= r <= 1.
Proof.
  intros Ha Hb. exists (cmp_chars (la ++ [0]) (lb ++ [0])).
  split; [now apply strcmp_spec|]. split.
  - erewrite strcmp_spec by done. now rewrite cmp_chars_antisym.
  - split.
    + apply cmp_chars_zero; [by eapply cstr_is_byte | by eapply cstr_is_byte | apply Ha | apply Hb].
    + generalize (la ++ [0]) as l1, (lb ++ [0]) as l2. induction l1 as [|x l1 IH]; intros [|y l2];
        [done | done | done |]. rewrite cmp_chars_cons.
      destruct (_ =? _); [apply IH|]. now destruct (_ >? _).
Qed.

Lemma first_index_Some ch l i :
  first_index ch l = Some i ->
  (exists b, l !! i = Some b /\ char_of b = ch) /\
  (forall j b, (j < i)%nat -> l !! j = Some b -> char_of b <> ch).
Proof.
  revert i. induction l as [|b l IH]; intros i E; cbn in E; [done|].
  destruct (Z.eqb_spec (char_of b) ch).
  - simplify_eq. split; [now exists b | intros j c Hj; lia].
  - apply fmap_Some in E as (k & E & ->). destruct (IH k E) as [Hk Hmin]. split; [done|].
    intros [|j] c Hj Hc; [cbn in Hc; congruence|]. apply (Hmin j); [lia | done].
Qed.

Lemma first_index_None ch l :
  first_index ch l = None -> Forall (fun b => char_of b <> ch) l.
Proof.
  induction l as [|b l IH]; intros E; cbn in E; [constructor|].
  destruct (Z.eqb_spec (char_of b) ch); [done|]. apply fmap_None in E. constructor; auto.
Qed.

Lemma last_index_first ch l :
  last_index ch l = (fun i => (length l - S i)%nat) <$> first_index ch (rev l).
Proof.
  induction l as [|b l IH] using rev_ind; [done|].
  rewrite last_index_snoc, rev_app_distr. cbn [rev app first_index]. rewrite length_app. cbn.
  destruct (char_of b =? ch).
  - cbn. f_equal. lia.
  - rewrite IH. destruct (first_index ch (rev l)) as [i|] eqn:E; [|done]. cbn. f_equal.
    apply first_index_Some in E as [(c & Hc & _) _]. apply lookup_lt_Some in Hc.
    rewrite length_rev in Hc. lia.
Qed.

Lemma char_of_ascii b ch : is_byte b -> 0 <= ch < 128 -> char_of b = ch <-> b = ch.
Proof. unfold is_byte, char_of. intros Hb Hc. destruct (Z.ltb_spec b 128); lia. Qed.

(** For a character below 128 [strchr] returns the address of its first
    occurrence in the string, [NULL] when there is none; [strchrs] counts its
    occurrences. *)
Theorem strchr_finds a l ch s :
  cstr (k_mem s) a l -> 0 <= ch < 128 ->
  (exists i, strchr a ch s = Ret (a + Z.of_nat i) s /\ l !! i = Some ch /\
     forall j, (j < i)%nat -> l !! j <> Some ch) \/
  (strchr a ch s = Ret NULL s /\ ch ∉ l).
Proof.
  intros Hc Hch. rewrite (strchr_spec a l) by done.
  pose proof (cstr_is_byte _ _ _ Hc) as Hby. rewrite Forall_lookup in Hby.
  destruct (first_index ch l) as [i|] eqn:E; cbn [addr_or_null].
  - left. exists i. split; [done|]. apply first_index_Some in E as [(b & Hb & Hbc) Hmin].
    apply (proj1 (char_of_ascii b ch (Hby _ _ Hb) Hch)) in Hbc. subst b. split; [done|].
    intros j Hj Hl. apply (Hmin j ch Hj Hl). apply char_of_ascii; [eauto | done | done].
  - right. split; [done|]. apply first_index_None in E. intros Hin.
    rewrite Forall_forall in E. apply (E ch Hin). unfold char_of. destruct (Z.ltb_spec ch 128); lia.
Qed.

(** A character of 128 or more is never found by [strchr] or [strrchr] nor
    counted by [strchrs], also when its byte occurs in the string: the signed
    [char] read from memory never equals the [uint8_t] argument. *)
Theorem strchr_high_char_misses a l ch s :
  cstr (k_mem s) a l -> 128 <= ch ->
  strchr a ch s = Ret NULL s /\ strrchr a ch s = Ret NULL s /\ strchrs a ch s = Ret 0 s.
Proof.
  intros Hc Hch. pose proof (cstr_is_byte _ _ _ Hc) as Hby.
  assert (Hnone : forall l', Forall is_byte l' -> first_index ch l' = None).
  { intros l' Hb. induction Hb as [|b l' Hb Hb' IH]; [done|]. cbn.
    destruct (Z.eqb_spec (char_of b) ch); [|now rewrite IH].
    pose proof (char_of_range b Hb). lia. }
  rewrite (strchr_spec a l), (strrchr_spec a l), (strchrs_spec a l) by done.
  rewrite last_index_first, !Hnone by (try done; now apply Forall_rev).
  split; [done|]. split; [done|]. f_equal. unfold count_chars.
  assert (filter (fun b => char_of b = ch) l = []) as ->; [|done].
  pose proof (first_index_None ch l (Hnone l Hby)) as HF. clear -HF. induction HF as [|b l Hb HF IH]; [done|]. now rewrite filter_cons_False.
Qed.

(** Handed a null pointer, a string routine does not return: the assertion
    prints its message, leaves interrupts disabled and spins, and memory is
    as before. *)
Theorem null_string_panics (src v size : Z) s :
  exists s1 s2 s3,
    memset NULL v size s = Stop Hang s1 /\ strlen NULL s = Stop Hang s2 /\
    strcpy NULL src s = Stop Hang s3 /\
    Forall (fun s' => if_set s' = false /\ k_mem s' = k_mem s) [s1; s2; s3] /\
    k_trace s2 = k_trace s ++ panic_output "lib/string.c" 47 "strlen" "str != NULL".
Proof.
  destruct (panic_spin_spec (A := unit) "lib/string.c" 7 "memset" "dst_ != NULL" s)
    as (s1 & E1 & I1 & M1 & T1).
  destruct (panic_spin_spec (A := unit) "lib/string.c" 47 "strlen" "str != NULL" s)
    as (s2 & E2 & I2 & M2 & T2).
  destruct (panic_spin_spec (A := unit) "lib/string.c" 39 "strcpy"
    "dst_ != NULL && src_ != NULL" s) as (s3 & E3 & I3 & M3 & T3).
  exists s1, s2, s3.
  split; [exact (bind_Stop _ _ _ _ _ E1)|]. split; [exact (bind_Stop _ _ _ _ _ E2)|].
  split; [exact (bind_Stop _ _ _ _ _ E3)|]. repeat constructor; done.
Qed.

End properties.

(** ** Examples *)

(** "ab" at 100, "cd" at 120 with room behind, a byte above 127 at 140, a
    buffer of eight bytes at 200. *)
Definition ex_flat : flat :=
  flat_of 100 [97; 98; 0] ∪ flat_of 120 [99; 100; 0; 0; 0; 0] ∪ flat_of 140 [200; 0] ∪
  flat_of 200 (replicate 8 255).

Definition ex_state : kernel flat := blank_kernel ex_flat.

Lemma flat_check_writable (m : flat) a l : flat_check m a l = true ->
  writable m a (Z.of_nat (length l)).
Proof. intros E. now apply bytes_at_writable, flat_check_bytes_at. Qed.

Lemma flat_check_cstr (m : flat) a l :
  flat_check m a (l ++ [0]) = true -> a <> NULL -> forallb (fun b => negb (b =? 0)) l = true ->
  cstr m a l.
Proof.
  intros E Hn Hz. split; [done|]. split; [|now apply flat_check_bytes_at].
  apply Forall_forall. intros b Hb. apply list_elem_of_In in Hb.
  rewrite forallb_forall in Hz. specialize (Hz b Hb). lia.
Qed.

Lemma ex_ab : cstr (k_mem ex_state) 100 [97; 98].
Proof. now apply flat_check_cstr. Qed.

Lemma ex_cd : cstr (k_mem ex_state) 120 [99; 100].
Proof. now apply flat_check_cstr. Qed.

Lemma ex_high : cstr (k_mem ex_state) 140 [200].
Proof. now apply flat_check_cstr. Qed.

Lemma ex_buffer : writable (k_mem ex_state) 200 8.
Proof. now apply (flat_check_writable _ 200 (replicate 8 255)). Qed.

Lemma writable_shorter {mem} `{RamSpec mem} (m : mem) a n n' :
  writable m a n -> n' <= n -> writable m a n'.
Proof.
  intros (? & ? & Hr) Hle. split; [done|]. split; [lia|]. intros x Hx. apply Hr. lia.
Qed.

Lemma strcpy_roundtrip_witness :
  exists s', strcpy 200 100 ex_state = Ret 200 s' /\ strlen 200 s' = Ret 2 s' /\
    strcmp 200 100 s' = Ret 0 s' /\ touches 200 203 ex_state s'.
Proof.
  apply (strcpy_roundtrip 200 100 [97; 98] ex_state);
    [done | eapply writable_shorter; [exact ex_buffer | done] | exact ex_ab | right; done].
Defined.

Lemma memcpy_copies_witness :
  exists s', memcpy 200 120 6 ex_state = Ret tt s' /\ touches 200 206 ex_state s' /\
    bytes_at (k_mem s') 200 [99; 100; 0; 0; 0; 0].
Proof.
  apply (memcpy_copies 200 120 [99; 100; 0; 0; 0; 0] ex_state);
    [done | done | done | done | done
    | eapply writable_shorter; [exact ex_buffer | done] | now apply flat_check_bytes_at
    | right; done].
Defined.

Lemma memset_fills_witness :
  exists s', memset 200 0x141 8 ex_state = Ret tt s' /\ touches 200 208 ex_state s' /\
    (forall x, 200 <= x < 208 -> load8 (k_mem s') x = Some 0x41).
Proof. apply (memset_fills 200 0x141 8 ex_state); [done | done | done | exact ex_buffer]. Defined.

Lemma strcat_appends_witness :
  exists s', strcat 120 100 ex_state = Ret 120 s' /\
    cstr (k_mem s') 120 [99; 100; 97; 98] /\ touches 122 125 ex_state s'.
Proof.
  apply (strcat_appends 120 100 [99; 100] [97; 98] ex_state);
    [exact ex_cd | exact ex_ab | | right; done].
  now apply (flat_check_writable _ 120 [99; 100; 0; 0; 0]).
Defined.

Lemma strcmp_orders_witness :
  exists r, strcmp 100 120 ex_state = Ret r ex_state /\
    strcmp 120 100 ex_state = Ret (- r) ex_state /\
    (r = 0 <-> [97; 98] = [99; 100]) /\ -1 <= r <= 1.
Proof. apply (strcmp_orders 100 120 [97; 98] [99; 100] ex_state); [exact ex_ab | exact ex_cd]. Defined.

Lemma strchr_finds_witness :
  (exists i, strchr 100 98 ex_state = Ret (100 + Z.of_nat i) ex_state /\
     [97; 98] !! i = Some 98 /\ forall j, (j < i)%nat -> [97; 98] !! j <> Some 98) \/
  (strchr 100 98 ex_state = Ret NULL ex_state /\ 98 ∉ [97; 98]).
Proof. apply (strchr_finds 100 [97; 98] 98 ex_state); [exact ex_ab | done]. Defined.

Lemma strchr_high_char_misses_witness :
  load8 (k_mem ex_state) 140 = Some 200 /\
  strchr 140 200 ex_state = Ret NULL ex_state /\
  strrchr 140 200 ex_state = Ret NULL ex_state /\ strchrs 140 200 ex_state = Ret 0 ex_state.
Proof.
  split; [reflexivity|].
  apply (strchr_high_char_misses 140 [200] 200 ex_state); [exact ex_high | done].
Defined.
