(* ===== verification/Bitmap.v ===== *)
(** * Bitmap: lib/kernel/bitmap.c

    The allocation bitmap: set, test and search for a run of free bits.  The
    scan is refined to a first-fit search over the bits of the bitmap and of
    the byte behind it, which the code also reads. *)

From stdpp Require Import base numbers list strings gmap.
From S2P Require Import Prelude Machine FlatMemory Interrupt Str.
From Stdlib Require Import ZArith Lia.
Open Scope Z_scope.

Definition BITMAP_MASK : Z := 1.

Section code.
  Context {mem : Type} `{Memory mem}.
  Abbreviation C := (M (kernel mem)).

Definition bitmap_init (btmp : bitmap) : C unit :=
  memset (bits btmp) 0 (btmp_bytes_len btmp).

(** [bool] is [int]: the result is the masked byte. *)
Definition bitmap_scan_test (btmp : bitmap) (bit_idx : Z) : C Z :=
  let byte_idx := bit_idx / 8 in
  let bit_odd := bit_idx mod 8 in
  b <- peek8 (u32 (bits btmp + byte_idx)) ;;
  ret (Z.land b (Z.shiftl BITMAP_MASK bit_odd)).

(** The three loops of [bitmap_scan]: bytes that are 0xff, bits that are set,
    then the search for [cnt] free bits in a row. *)
Definition scan_bytes (btmp : bitmap) : C Z :=
  loop 33 (fun idx_byte =>
    b <- peek8 (u32 (bits btmp + idx_byte)) ;;
    if (0xff =? b) && (idx_byte <? btmp_bytes_len btmp)
    then ret (inl (u32 (idx_byte + 1))) else ret (inr idx_byte)) 0.

Definition scan_bits (btmp : bitmap) (idx_byte : Z) : C Z :=
  loop 33 (fun idx_bit =>
    b <- peek8 (u32 (bits btmp + idx_byte)) ;;
    if negb (Z.land (u8 (Z.shiftl BITMAP_MASK idx_bit)) b =? 0)
    then ret (inl (s32 (idx_bit + 1))) else ret (inr idx_bit)) 0.

Definition scan_run (btmp : bitmap) (cnt bit_idx_start bit_left next_bit count : Z) : C Z :=
  loop 33 (fun '(bit_left, next_bit, count) =>
    let bit_left' := u32 (bit_left - 1) in
    if bit_left >? 0 then
      t <- bitmap_scan_test btmp next_bit ;;
      let count := if t =? 0 then u32 (count + 1) else 0 in
      if count =? cnt then ret (inr (s32 (u32 (u32 (next_bit - cnt) + 1))))
      else ret (inl (bit_left', u32 (next_bit + 1), count))
    else ret (inr bit_idx_start)) (bit_left, next_bit, count).

Definition bitmap_scan (btmp : bitmap) (cnt : Z) : C Z :=
  idx_byte <- scan_bytes btmp ;;
  ASSERT "lib/kernel/bitmap.c" 29 "bitmap_scan" (idx_byte <? btmp_bytes_len btmp)
    "idx_byte < btmp->btmp_bytes_len" ;;;
  if idx_byte =? btmp_bytes_len btmp then ret (-1)
  else
    idx_bit <- scan_bits btmp idx_byte ;;
    let bit_idx_start := s32 (u32 (idx_byte * 8 + idx_bit)) in
    if cnt =? 1 then ret bit_idx_start
    else
      let bit_left := u32 (btmp_bytes_len btmp * 8 - bit_idx_start) in
      let next_bit := u32 (bit_idx_start + 1) in
      let count := 1 in
      let bit_idx_start := -1 in
      scan_run btmp cnt bit_idx_start bit_left next_bit count.

Definition bitmap_set (btmp : bitmap) (bit_idx value : Z) : C unit :=
  ASSERT "lib/kernel/bitmap.c" 69 "bitmap_set" ((value =? 0) || (value =? 1))
    "(value == 0) || (value == 1)" ;;;
  let byte_idx := bit_idx / 8 in
  let bit_odd := bit_idx mod 8 in
  let a := u32 (bits btmp + byte_idx) in
  b <- peek8 a ;;
  if negb (value =? 0)
  then poke8 a (Z.lor b (Z.shiftl BITMAP_MASK bit_odd))
  else poke8 a (Z.land b (Z.lnot (Z.shiftl BITMAP_MASK bit_odd))).

End code.

(** ** Specification *)

(** Bit [i] of the bytes [l]. *)
Definition bit_at (l : list Z) (i : Z) : bool :=
  Z.testbit (l !!! Z.to_nat (i / 8)) (i mod 8).

Definition set_bit (l : list Z) (i : Z) (v : bool) : list Z :=
  let b := l !!! Z.to_nat (i / 8) in
  let mask := Z.shiftl BITMAP_MASK (i mod 8) in
  <[Z.to_nat (i / 8) := if v then Z.lor b mask else Z.land b (Z.lnot mask)]> l.

(** The [cnt] bits from [r] on are free. *)
Definition free_run (l : list Z) (r cnt : Z) : Prop :=
  forall j, r <= j < r + cnt -> bit_at l j = false.

(** First fit: [r] starts the first free run of [cnt] bits that ends below
    [lim], and is -1 when there is none. *)
Definition first_fit (l : list Z) (cnt lim r : Z) : Prop :=
  (0 <= r /\ r + cnt <= lim /\ free_run l r cnt /\
     forall r', 0 <= r' < r -> ~ free_run l r' cnt) \/
  (r = -1 /\ forall r', 0 <= r' -> r' + cnt <= lim -> ~ free_run l r' cnt).

(** The bytes of the bitmap [btmp] are [l]. *)
Definition bitmap_holds {mem} `{RamSpec mem} (m : mem) (btmp : bitmap) (l : list Z) : Prop :=
  btmp_bytes_len btmp = Z.of_nat (length l) /\ is_u32 (bits btmp) /\ bits btmp <> NULL /\
  8 * Z.of_nat (length l) < 2 ^ 31 - 8 /\ bytes_at m (bits btmp) l.

(** ** Bytes and bits *)

Lemma byte_bits_high b i : is_byte b -> 8 <= i -> Z.testbit b i = false.
Proof.
  intros Hb Hi. rewrite <- (Z.mod_small b (2 ^ 8)) by done. now apply Z.mod_pow2_bits_high.
Qed.

Lemma is_byte_bits x : (forall i, 8 <= i -> Z.testbit x i = false) -> is_byte x.
Proof.
  intros Hx. assert (x = x mod 2 ^ 8) as ->; [|apply Z.mod_pos_bound; lia].
  apply Z.bits_inj'. intros i Hi. destruct (Z.ltb_spec i 8).
  - now rewrite Z.mod_pow2_bits_low.
  - rewrite Z.mod_pow2_bits_high by lia. now apply Hx.
Qed.

(** A byte with its eight bits set is 0xff. *)
Lemma byte_all_ones b : is_byte b -> (forall i, 0 <= i < 8 -> Z.testbit b i = true) -> b = 0xff.
Proof.
  intros Hb Hs. apply Z.bits_inj'. intros i Hi. change 0xff with (Z.ones 8).
  destruct (Z.ltb_spec i 8).
  - rewrite Z.ones_spec_low by lia. apply Hs. lia.
  - rewrite Z.ones_spec_high by lia. now apply byte_bits_high.
Qed.

Lemma testbit_ff i : 0 <= i < 8 -> Z.testbit 0xff i = true.
Proof. intros Hi. change 0xff with (Z.ones 8). apply Z.ones_spec_low. lia. Qed.

Lemma bit_at_app_l (l g : list Z) i : 0 <= i < 8 * Z.of_nat (length l) -> bit_at (l ++ g) i = bit_at l i.
Proof.
  intros Hi. unfold bit_at. rewrite lookup_total_app_l; [done|].
  apply Nat2Z.inj_lt. rewrite Z2Nat.id by (apply Z.div_pos; lia).
  apply Z.div_lt_upper_bound; lia.
Qed.

Lemma bit_index_lt (l : list Z) i : 0 <= i < 8 * Z.of_nat (length l) -> (Z.to_nat (i / 8) < length l)%nat.
Proof.
  intros Hi. apply Nat2Z.inj_lt. rewrite Z2Nat.id by (apply Z.div_pos; lia).
  apply Z.div_lt_upper_bound; lia.
Qed.

Lemma set_bit_byte (l : list Z) i v :
  Forall is_byte l -> 0 <= i < 8 * Z.of_nat (length l) -> Forall is_byte (set_bit l i v).
Proof.
  intros Hl Hi. apply Forall_insert; [done|].
  assert (Hb : is_byte (l !!! Z.to_nat (i / 8))).
  { destruct (lookup_lt_is_Some_2 l (Z.to_nat (i / 8))) as [b Hb]; [now apply bit_index_lt|].
    rewrite (list_lookup_total_correct _ _ _ Hb). by eapply Forall_lookup_1. }
  pose proof (Z.mod_pos_bound i 8).
  destruct v; apply is_byte_bits; intros j Hj.
  - rewrite Z.lor_spec, byte_bits_high by done. unfold BITMAP_MASK.
    rewrite testbit_shiftl_one by lia. now destruct (Z.eqb_spec j (i mod 8)); [lia|].
  - rewrite Z.land_spec, byte_bits_high by done. done.
Qed.

(** [set_bit] changes bit [i] and no other. *)
Lemma bit_at_set_bit (l : list Z) i v j :
  0 <= i < 8 * Z.of_nat (length l) -> 0 <= j ->
  bit_at (set_bit l i v) j = if j =? i then v else bit_at l j.
Proof.
  intros Hi Hj. unfold bit_at, set_bit, BITMAP_MASK. pose proof (bit_index_lt _ _ Hi).
  pose proof (Z.mod_pos_bound i 8). pose proof (Z.mod_pos_bound j 8).
  destruct (decide (Z.to_nat (j / 8) = Z.to_nat (i / 8))) as [E|E].
  - rewrite E, list_lookup_total_insert_eq by done.
    apply Z2Nat.inj in E; [|apply Z.div_pos; lia..].
    assert (Hij : (j mod 8 =? i mod 8) = (j =? i)).
    { pose proof (Z.div_mod j 8). pose proof (Z.div_mod i 8).
      destruct (Z.eqb_spec (j mod 8) (i mod 8)), (Z.eqb_spec j i); try done; subst; lia. }
    destruct v.
    + rewrite Z.lor_spec, testbit_shiftl_one, Hij by lia.
      destruct (j =? i); [apply orb_true_r | apply orb_false_r].
    + rewrite Z.land_spec, Z.lnot_spec, testbit_shiftl_one, Hij by lia.
      destruct (j =? i); [apply andb_false_r | apply andb_true_r].
  - rewrite list_lookup_total_insert_ne by done.
    destruct (Z.eqb_spec j i) as [->|]; [done | done].
Qed.

(** ** Lemmas on the loops *)

Section facts.
  Context {mem : Type} `{RamSpec mem}.
  Implicit Types s : kernel mem.

Lemma wp_assert_bitmap line func c text (Q : unit -> kernel mem -> Prop) s :
  c = true -> Q tt s -> wp (ASSERT "lib/kernel/bitmap.c" line func c text) Q s.
Proof. now intros ->. Qed.

Lemma bitmap_scan_test_spec btmp l i s :
  is_u32 (bits btmp) -> bytes_at (k_mem s) (bits btmp) l -> 0 <= i < 8 * Z.of_nat (length l) ->
  wp (bitmap_scan_test btmp i) (fun t s' => s' = s /\ (t =? 0) = negb (bit_at l i)) s.
Proof.
  intros Hu Hb Hi. unfold bitmap_scan_test. pose proof (bit_index_lt l i Hi) as Hlt.
  pose proof Hb as (Ha & Hmax & _). unfold is_u32 in Hu.
  assert (Hd : 0 <= i / 8 < Z.of_nat (length l)).
  { split; [apply Z.div_pos; lia | apply Z.div_lt_upper_bound; lia]. }
  destruct (lookup_lt_is_Some_2 l _ Hlt) as [b Hlb].
  destruct (bytes_at_lookup _ _ _ _ _ Hb Hlb) as (_ & _ & Hld).
  rewrite Z2Nat.id in Hld by lia. rewrite u32_small by (unfold is_u32; lia).
  wp_step. eapply wp_peek8; [exact Hld|]. wp_step. split; [done|].
  unfold bit_at, BITMAP_MASK. rewrite (list_lookup_total_correct _ _ _ Hlb).
  apply land_shiftl_one_eqb. apply Z.mod_pos_bound. lia.
Qed.

Lemma scan_bytes_spec btmp l g s :
  is_u32 (bits btmp) -> btmp_bytes_len btmp = Z.of_nat (length l) ->
  bytes_at (k_mem s) (bits btmp) (l ++ [g]) ->
  wp (scan_bytes btmp) (fun idx s' => s' = s /\ exists n, idx = Z.of_nat n /\
    (n <= length l)%nat /\ (forall j, (j < n)%nat -> l !! j = Some 0xff) /\
    ((n < length l)%nat -> exists b, l !! n = Some b /\ b <> 0xff)) s.
Proof.
  intros Hu Hlen Hb. pose proof Hb as (Ha & Hmax & _). rewrite length_app in Hmax. cbn in Hmax.
  unfold is_u32 in Hu. apply wp_loop with
    (Inv := fun idx s' => s' = s /\ exists n, idx = Z.of_nat n /\ (n <= length l)%nat /\
      forall j, (j < n)%nat -> l !! j = Some 0xff)
    (meas := fun idx => Z.of_nat (length l) - idx).
  - intros idx s' (-> & n & -> & Hn & Hf).
    destruct (lookup_lt_is_Some_2 (l ++ [g]) n) as [b Hlb]; [rewrite length_app; cbn; lia|].
    destruct (bytes_at_lookup _ _ _ _ _ Hb Hlb) as (_ & _ & Hld).
    rewrite u32_small by (unfold is_u32; lia). wp_step. eapply wp_peek8; [exact Hld|].
    rewrite Hlen. destruct (Z.ltb_spec (Z.of_nat n) (Z.of_nat (length l))) as [Hlt|Hge].
    + rewrite lookup_app_l in Hlb by lia. rewrite andb_true_r.
      destruct (Z.eqb_spec 0xff b) as [<-|Hne]; wp_step.
      * rewrite u32_small by (unfold is_u32; lia). split; [|lia]. split; [done|].
        exists (S n). split; [lia|]. split; [lia|]. intros j Hj.
        destruct (decide (j = n)) as [->|]; [done | apply Hf; lia].
      * split; [done|]. exists n. split; [done|]. split; [done|]. split; [done|].
        intros _. exists b. now split; [|congruence].
    + rewrite andb_false_r. wp_step. split; [done|]. exists n. split; [done|].
      split; [done|]. split; [done|]. intros Hlt. lia.
  - intros idx s' (_ & n & -> & Hn & _). lia.
  - split; [done|]. exists O. split; [done|]. split; [lia|]. intros j Hj. lia.
  - lia.
Qed.

Lemma scan_bits_spec btmp idx_byte b s :
  is_u32 (bits btmp + idx_byte) -> is_byte b -> b <> 0xff ->
  load8 (k_mem s) (bits btmp + idx_byte) = Some b ->
  wp (scan_bits btmp idx_byte) (fun i s' => s' = s /\ 0 <= i < 8 /\
    Z.testbit b i = false /\ forall j, 0 <= j < i -> Z.testbit b j = true) s.
Proof.
  intros Hu Hb Hne Hld. apply wp_loop with
    (Inv := fun i s' => s' = s /\ 0 <= i < 8 /\ forall j, 0 <= j < i -> Z.testbit b j = true)
    (meas := fun i => 8 - i).
  - intros i s' (-> & Hi & Hj). rewrite (u32_small (_ + _)) by done.
    wp_step. eapply wp_peek8; [exact Hld|]. unfold BITMAP_MASK.
    rewrite u8_small, Z.land_comm, land_shiftl_one_eqb, negb_involutive.
    2: lia. 2: { apply is_byte_bits. intros k Hk. rewrite testbit_shiftl_one by lia.
                 now destruct (Z.eqb_spec k i); [lia|]. }
    destruct (Z.testbit b i) eqn:E; wp_step; [|done].
    rewrite s32_small by lia.
    assert (Hj' : forall j, 0 <= j < i + 1 -> Z.testbit b j = true).
    { intros j Hr. destruct (decide (j = i)) as [->|]; [done | apply Hj; lia]. }
    assert (i + 1 <> 8).
    { intros E8. apply Hne, byte_all_ones; [done|]. intros j Hr. apply Hj'. lia. }
    split; [|lia]. split; [done|]. split; [lia | done].
  - intros i s' (_ & Hi & _). lia.
  - split; [done|]. split; [lia|]. intros j Hj. lia.
  - lia.
Qed.

(** The search loop, started behind the first free bit [f]: [lim] is one past
    the last bit it tests. *)
Lemma scan_run_spec btmp l f cnt lim s :
  is_u32 (bits btmp) -> bytes_at (k_mem s) (bits btmp) l ->
  lim <= 8 * Z.of_nat (length l) -> lim < 2 ^ 31 -> 2 <= cnt < 2 ^ 32 ->
  0 <= f -> f + 1 <= lim -> bit_at l f = false -> (forall j, 0 <= j < f -> bit_at l j = true) ->
  wp (scan_run btmp cnt (-1) (lim - 1 - f) (f + 1) 1)
    (fun r s' => s' = s /\ first_fit l cnt lim r) s.
Proof.
  intros Hu Hb Hlim Hmax Hcnt Hf Hfl Hfree Hused. apply wp_loop with
    (Inv := fun '(lft, next, count) s' => s' = s /\ f < next <= lim /\ lft = lim - next /\
      0 <= count < cnt /\ count <= next /\ free_run l (next - count) count /\
      (next - count = 0 \/ bit_at l (next - count - 1) = true) /\
      forall r', 0 <= r' -> r' + cnt <= next -> ~ free_run l r' cnt)
    (meas := fun '(lft, _, _) => lft).
  - intros [[lft next] count] s' (-> & Hn & -> & Hc & Hcn & Hrun & Hedge & Hnone).
    cbv beta iota zeta. destruct (Z.gtb_spec (lim - next) 0) as [Hgt|Hle].
    + wp_step. eapply wp_mono; [apply (bitmap_scan_test_spec btmp l next s Hu Hb); lia|].
      intros t s' (-> & ->). destruct (bit_at l next) eqn:Enext; cbn [negb].
      * destruct (Z.eqb_spec 0 cnt); [lia|]. wp_step. rewrite !u32_small by (unfold is_u32; lia).
        split; [|lia]. split; [done|]. split; [lia|]. split; [lia|]. split; [lia|]. split; [lia|].
        split; [intros j Hj; lia|]. split; [right; now replace (next + 1 - 0 - 1) with next by lia|].
        intros r' Hr Hle Hfr. destruct (decide (r' + cnt <= next)); [now apply (Hnone r')|].
        rewrite Hfr in Enext by lia. done.
      * rewrite (u32_small (count + 1)) by (unfold is_u32; lia).
        assert (Hrun' : free_run l (next - count) (count + 1)).
        { intros j Hj. destruct (decide (j = next)) as [->|]; [done | apply Hrun; lia]. }
        destruct (Z.eqb_spec (count + 1) cnt) as [<-|Hne]; wp_step.
        -- replace (s32 _) with (next - count).
           2: { unfold u32. rewrite Zplus_mod_idemp_l, Z.mod_small, s32_small; lia. }
           split; [done|]. left. split; [lia|]. split; [lia|]. split; [done|].
           intros r' Hr. apply Hnone; lia.
        -- rewrite !u32_small by (unfold is_u32; lia).
           split; [|lia]. split; [done|]. split; [lia|]. split; [lia|]. split; [lia|].
           split; [lia|]. replace (next + 1 - (count + 1)) with (next - count) by lia.
           split; [done|]. split; [done|].
           intros r' Hr Hle Hfr. destruct (decide (r' + cnt <= next)); [now apply (Hnone r')|].
           destruct Hedge as [E0|Eb]; [lia|]. rewrite Hfr in Eb by lia. done.
    + wp_step. split; [done|]. right. split; [done|]. intros r' Hr Hle'. apply Hnone; lia.
  - intros [[lft next] count] s' (_ & Hn & -> & _). lia.
  - split; [done|]. split; [lia|]. split; [lia|]. split; [lia|]. split; [lia|].
    replace (f + 1 - 1) with f by lia. split.
    + intros j Hj. now replace j with f by lia.
    + split.
      * destruct (decide (f = 0)); [now left | right; apply Hused; lia].
      * intros r' Hr Hle Hfr. specialize (Hfr r').
        rewrite Hused in Hfr by lia. specialize (Hfr ltac:(lia)). done.
  - cbn. lia.
Qed.

(** The two byte loops find the first free bit. *)
Lemma first_free_spec btmp l g s :
  bitmap_holds (k_mem s) btmp l -> bytes_at (k_mem s) (bits btmp) (l ++ [g]) ->
  Exists (fun b => b <> 0xff) l ->
  exists n b i, scan_bytes btmp s = Ret (Z.of_nat n) s /\ (n < length l)%nat /\
    l !! n = Some b /\ scan_bits btmp (Z.of_nat n) s = Ret i s /\ 0 <= i < 8 /\
    bit_at l (Z.of_nat n * 8 + i) = false /\
    forall j, 0 <= j < Z.of_nat n * 8 + i -> bit_at l j = true.
Proof.
  intros (Hlen & Hu & _ & Hmax & Hbl) Hb Hex.
  destruct (wp_run _ _ _ (scan_bytes_spec btmp l g s Hu Hlen Hb))
    as (idx & s' & E & -> & n & -> & Hn & Hff & Hlast).
  apply Exists_exists in Hex as (x & Hx & Hxne). apply list_elem_of_lookup in Hx as [k Hk].
  assert (Hlt : (n < length l)%nat).
  { destruct (decide (n = length l)) as [->|]; [|lia].
    pose proof (lookup_lt_Some _ _ _ Hk). rewrite Hff in Hk by done. congruence. }
  destruct (Hlast Hlt) as (b & Hlb & Hbne).
  destruct (bytes_at_lookup _ _ _ _ _ Hbl Hlb) as (Hbyte & _ & Hld).
  destruct Hbl as (_ & Hm & _).
  destruct (wp_run _ _ _ (scan_bits_spec btmp (Z.of_nat n) b s ltac:(unfold is_u32 in *; lia)
    Hbyte Hbne Hld)) as (i & s' & E' & -> & Hi & Hbit & Hset).
  exists n, b, i. do 5 (split; [done|]).
  assert (Hdm : forall j, 0 <= j < 8 ->
    bit_at l (Z.of_nat n * 8 + j) = Z.testbit b j).
  { intros j Hj. unfold bit_at. rewrite Z.div_add_l, Z.div_small, Z.add_0_r, Nat2Z.id by lia.
    rewrite (list_lookup_total_correct _ _ _ Hlb), Z.add_comm, Z_mod_plus_full.
    now rewrite Z.mod_small by lia. }
  split; [now rewrite Hdm|]. intros j Hj.
  destruct (Z.ltb_spec j (Z.of_nat n * 8)).
  - unfold bit_at. rewrite (list_lookup_total_correct _ _ 0xff).
    + apply testbit_ff, Z.mod_pos_bound. lia.
    + apply Hff. apply Nat2Z.inj_lt. rewrite Z2Nat.id by (apply Z.div_pos; lia).
      apply Z.div_lt_upper_bound; lia.
  - replace j with (Z.of_nat n * 8 + (j - Z.of_nat n * 8)) by lia.
    rewrite Hdm by lia. apply Hset. lia.
Qed.

Lemma bitmap_scan_refines btmp l g cnt s :
  bitmap_holds (k_mem s) btmp l -> bytes_at (k_mem s) (bits btmp) (l ++ [g]) ->
  Exists (fun b => b <> 0xff) l -> 1 <= cnt < 2 ^ 32 ->
  exists r, bitmap_scan btmp cnt s = Ret r s /\
    first_fit (l ++ [g]) cnt (8 * Z.of_nat (length l) + (if cnt =? 1 then 0 else 1)) r.
Proof.
  intros Hh Hb Hex Hcnt. pose proof Hh as (Hlen & Hu & _ & Hmax & Hbl).
  destruct (first_free_spec btmp l g s Hh Hb Hex)
    as (n & b & i & E & Hn & Hlb & E' & Hi & Hfree & Hused).
  set (f := Z.of_nat n * 8 + i) in *. assert (Hf : 0 <= f < 8 * Z.of_nat (length l)) by lia.
  assert (Hfree' : bit_at (l ++ [g]) f = false) by now rewrite bit_at_app_l.
  assert (Hused' : forall j, 0 <= j < f -> bit_at (l ++ [g]) j = true).
  { intros j Hj. rewrite bit_at_app_l by lia. now apply Hused. }
  cut (wp (bitmap_scan btmp cnt) (fun r s' => s' = s /\ first_fit (l ++ [g]) cnt
    (8 * Z.of_nat (length l) + (if cnt =? 1 then 0 else 1)) r) s).
  { intros (r & s' & Er & -> & Hr)%wp_run. eauto. }
  unfold bitmap_scan. wp_step. unfold wp at 1. rewrite E. wp_step. rewrite Hlen.
  apply wp_assert_bitmap; [apply Z.ltb_lt; lia|].
  destruct (Z.eqb_spec (Z.of_nat n) (Z.of_nat (length l))); [lia|].
  wp_step. unfold wp at 1. rewrite E'. fold f. cbv zeta.
  rewrite (u32_small f), (s32_small f) by (unfold is_u32; lia).
  destruct (Z.eqb_spec cnt 1) as [->|Hne].
  - wp_step. split; [done|]. left. split; [lia|]. split; [lia|]. split.
    + intros j Hj. now replace j with f by lia.
    + intros r' Hr Hfr. specialize (Hfr r' ltac:(lia)). rewrite Hused' in Hfr by lia. done.
  - rewrite !u32_small by (unfold is_u32; lia).
    replace (Z.of_nat (length l) * 8 - f) with (8 * Z.of_nat (length l) + 1 - 1 - f) by lia.
    apply scan_run_spec; try done; try lia. rewrite length_app. cbn. lia.
Qed.

Lemma bitmap_set_spec btmp l i v s :
  bitmap_holds (k_mem s) btmp l -> 0 <= i < 8 * Z.of_nat (length l) -> v = 0 \/ v = 1 ->
  wp (bitmap_set btmp i v) (fun _ s' =>
    touches (bits btmp + i / 8) (bits btmp + i / 8 + 1) s s' /\
    bytes_at (k_mem s') (bits btmp) (set_bit l i (v =? 1))) s.
Proof.
  intros (Hlen & Hu & _ & Hmax & Hb) Hi Hv. unfold bitmap_set. wp_step.
  apply wp_assert_bitmap; [destruct Hv as [-> | ->]; done|]. cbv zeta.
  pose proof (bit_index_lt l i Hi) as Hlt. pose proof Hb as (Ha & Hm & _).
  assert (Hd : 0 <= i / 8 < Z.of_nat (length l)).
  { split; [apply Z.div_pos; lia | apply Z.div_lt_upper_bound; lia]. }
  destruct (lookup_lt_is_Some_2 l _ Hlt) as [b Hlb].
  destruct (bytes_at_lookup _ _ _ _ _ Hb Hlb) as (Hbyte & Hr & Hld).
  rewrite Z2Nat.id in Hld, Hr by lia. rewrite u32_small by (unfold is_u32; lia).
  wp_step. eapply wp_peek8; [exact Hld|].
  pose proof (set_bit_byte l i (v =? 1) (bytes_at_is_byte _ _ _ Hb) Hi) as Hnew.
  assert (Hsb : set_bit l i (v =? 1) !! Z.to_nat (i / 8) =
    Some (if v =? 1 then Z.lor b (Z.shiftl BITMAP_MASK (i mod 8))
          else Z.land b (Z.lnot (Z.shiftl BITMAP_MASK (i mod 8))))).
  { unfold set_bit. rewrite (list_lookup_total_correct _ _ _ Hlb).
    now apply list_lookup_insert_eq. }
  apply (Forall_lookup_1 _ _ _ _ Hnew) in Hsb as Hby.
  assert (Hgoal : forall x, u8 x = x ->
    x = (if v =? 1 then Z.lor b (Z.shiftl BITMAP_MASK (i mod 8))
         else Z.land b (Z.lnot (Z.shiftl BITMAP_MASK (i mod 8)))) ->
    wp (poke8 (bits btmp + i / 8) x) (fun _ s' =>
      touches (bits btmp + i / 8) (bits btmp + i / 8 + 1) s s' /\
      bytes_at (k_mem s') (bits btmp) (set_bit l i (v =? 1))) s).
  { intros x Hx8 Hx. apply wp_poke8; [done|]. intros s' Ht Hl'. split; [done|].
    unfold set_bit. rewrite (list_lookup_total_correct _ _ _ Hlb), <- Hx.
    apply (bytes_at_insert (k_mem s)); [done | done | now rewrite Hx | |].
    - rewrite Z2Nat.id by lia. apply Ht.
    - rewrite Z2Nat.id by lia. now rewrite Hl', Hx8. }
  destruct Hv as [-> | ->]; cbn [Z.eqb negb] in *; apply Hgoal; try done; now apply u8_small.
Qed.

Lemma bitmap_init_spec btmp l s :
  bitmap_holds (k_mem s) btmp l ->
  wp (bitmap_init btmp) (fun _ s' =>
    touches (bits btmp) (bits btmp + btmp_bytes_len btmp) s s' /\
    bitmap_holds (k_mem s') btmp (replicate (length l) 0)) s.
Proof.
  intros (Hlen & Hu & Hn & Hmax & Hb). apply wp_Ret.
  destruct (memset_spec (bits btmp) 0 (btmp_bytes_len btmp) s Hn Hu) as (s' & E & Ht & Hb').
  - rewrite Hlen. unfold is_u32. lia.
  - rewrite Hlen. now apply bytes_at_writable.
  - exists tt, s'. split; [exact E|]. split; [done|].
    rewrite Hlen, Nat2Z.id in Hb'. unfold bitmap_holds. rewrite length_replicate. done.
Qed.

(** A full bitmap: the assertion after the first loop fails. *)
Lemma bitmap_scan_full btmp l g cnt s :
  bitmap_holds (k_mem s) btmp l -> bytes_at (k_mem s) (bits btmp) (l ++ [g]) ->
  Forall (fun b => b = 0xff) l ->
  exists s', bitmap_scan btmp cnt s = Stop Hang s' /\ if_set s' = false /\
    k_mem s' = k_mem s /\
    k_trace s' = k_trace s ++ panic_output "lib/kernel/bitmap.c" 29 "bitmap_scan"
      "idx_byte < btmp->btmp_bytes_len".
Proof.
  intros (Hlen & Hu & _ & Hmax & Hbl) Hb Hall.
  destruct (wp_run _ _ _ (scan_bytes_spec btmp l g s Hu Hlen Hb))
    as (idx & s' & E & -> & n & -> & Hn & _ & Hlast).
  assert (n = length l) as ->.
  { destruct (decide (n = length l)); [done|]. destruct Hlast as (b & Hb' & Hne); [lia|].
    eapply Forall_lookup_1 in Hall; [|exact Hb']. done. }
  destruct (panic_spin_spec (A := unit) "lib/kernel/bitmap.c" 29 "bitmap_scan"
    "idx_byte < btmp->btmp_bytes_len" s) as (s1 & E1 & HR).
  exists s1. split; [|exact HR]. unfold bitmap_scan. erewrite bind_Ret by exact E.
  rewrite Hlen, Z.ltb_irrefl. exact (bind_Stop _ _ _ _ _ E1).
Qed.

End facts.

(** ** Properties *)

Section properties.
  Context {mem : Type} `{RamSpec mem}.
  Implicit Types s : kernel mem.

(** C27: with at least one free bit, [bitmap_scan] returns, changes nothing,
    and its result is first fit: the lowest start of [cnt] consecutive free
    bits, -1 when there is none.  For one bit the search is over the bitmap;
    for more it also takes in the first bit of the byte behind it. *)
Theorem bitmap_scan_first_fit btmp l g cnt s :
  bitmap_holds (k_mem s) btmp l -> bytes_at (k_mem s) (bits btmp) (l ++ [g]) ->
  Exists (fun b => b <> 0xff) l -> 1 <= cnt < 2 ^ 32 ->
  exists r, bitmap_scan btmp cnt s = Ret r s /\
    first_fit (l ++ [g]) cnt (8 * Z.of_nat (length l) + (if cnt =? 1 then 0 else 1)) r.
Proof. apply bitmap_scan_refines. Qed.

(** When the bit behind the bitmap reads as used, [bitmap_scan] is first
    fit over the bitmap itself: a run it returns lies inside and is free, and
    -1 means that no run of the requested length exists. *)
Theorem bitmap_scan_in_range btmp l g cnt s :
  bitmap_holds (k_mem s) btmp l -> bytes_at (k_mem s) (bits btmp) (l ++ [g]) ->
  Exists (fun b => b <> 0xff) l -> 1 <= cnt < 2 ^ 32 -> Z.testbit g 0 = true ->
  exists r, bitmap_scan btmp cnt s = Ret r s /\
    first_fit l cnt (8 * Z.of_nat (length l)) r.
Proof.
  intros Hh Hb Hex Hcnt Hg.
  destruct (bitmap_scan_refines btmp l g cnt s Hh Hb Hex Hcnt) as (r & E & Hff).
  exists r. split; [done|].
  assert (Hguard : bit_at (l ++ [g]) (8 * Z.of_nat (length l)) = true).
  { unfold bit_at. rewrite Z.mul_comm, Z.div_mul, Nat2Z.id, Z_mod_mult by lia.
    rewrite lookup_total_app_r, Nat.sub_diag by lia. exact Hg. }
  assert (Hrun : forall r', 0 <= r' -> r' + cnt <= 8 * Z.of_nat (length l) ->
    free_run (l ++ [g]) r' cnt <-> free_run l r' cnt).
  { intros r' Hr Hle. split; intros Hf j Hj; specialize (Hf j Hj);
      now rewrite bit_at_app_l in * by lia. }
  assert (Hin : 0 <= r -> r + cnt <= 8 * Z.of_nat (length l) + 1 ->
    free_run (l ++ [g]) r cnt -> r + cnt <= 8 * Z.of_nat (length l)).
  { intros Hr Hle Hf. destruct (decide (r + cnt = 8 * Z.of_nat (length l) + 1)); [|lia].
    rewrite Hf in Hguard by lia. done. }
  destruct Hff as [(Hr & Hle & Hf & Hmin)|(-> & Hnone)].
  - left. split; [done|].
    assert (r + cnt <= 8 * Z.of_nat (length l)) by (apply Hin; [done | destruct (cnt =? 1); lia | done]).
    split; [done|]. split; [now apply Hrun|].
    intros r' Hr' Hf'. apply (Hmin r' Hr'). apply Hrun; [lia | lia | done].
  - right. split; [done|]. intros r' Hr' Hle' Hf'.
    apply (Hnone r'); [done | destruct (cnt =? 1); lia | now apply Hrun].
Qed.

(** When only the last [cnt - 1] bits of the bitmap are free and the bit
    behind it reads as 0, [bitmap_scan] does not fail: it returns a run whose
    last bit lies outside the bitmap. *)
Theorem bitmap_scan_overruns btmp l g cnt s :
  bitmap_holds (k_mem s) btmp l -> bytes_at (k_mem s) (bits btmp) (l ++ [g]) ->
  2 <= cnt <= 8 * Z.of_nat (length l) -> Z.testbit g 0 = false ->
  (forall j, 0 <= j < 8 * Z.of_nat (length l) ->
     bit_at l j = (j <? 8 * Z.of_nat (length l) + 1 - cnt)) ->
  bitmap_scan btmp cnt s = Ret (8 * Z.of_nat (length l) + 1 - cnt) s /\
  8 * btmp_bytes_len btmp < (8 * Z.of_nat (length l) + 1 - cnt) + cnt.
Proof.
  intros Hh Hb Hcnt Hg Hbits. pose proof Hh as (Hlen & _ & _ & Hmax & _).
  set (T := 8 * Z.of_nat (length l)) in *. split; [|rewrite Hlen; fold T; lia].
  assert (Hex : Exists (fun b => b <> 0xff) l).
  { apply Exists_exists. destruct (lookup_lt_is_Some_2 l (Z.to_nat ((T - 1) / 8))) as [b Hlb].
    { apply bit_index_lt. fold T. lia. }
    exists b. split; [by eapply list_elem_of_lookup_2|]. intros ->.
    specialize (Hbits (T - 1) ltac:(lia)). unfold bit_at in Hbits.
    rewrite (list_lookup_total_correct _ _ _ Hlb), testbit_ff in Hbits
      by (apply Z.mod_pos_bound; lia).
    destruct (Z.ltb_spec (T - 1) (T + 1 - cnt)); [lia | done]. }
  assert (Hbit : forall j, 0 <= j <= T -> bit_at (l ++ [g]) j = (j <? T + 1 - cnt)).
  { intros j Hj. destruct (decide (j = T)) as [->|].
    - unfold bit_at, T. rewrite Z.mul_comm, Z.div_mul, Nat2Z.id, Z_mod_mult by lia.
      rewrite lookup_total_app_r, Nat.sub_diag by lia. rewrite (Z.mul_comm _ 8). fold T.
      destruct (Z.ltb_spec T (T + 1 - cnt)); [lia | exact Hg].
    - rewrite bit_at_app_l by (fold T; lia). apply Hbits. lia. }
  destruct (bitmap_scan_refines btmp l g cnt s Hh Hb Hex ltac:(lia)) as (r & E & Hff).
  fold T in Hff. destruct (Z.eqb_spec cnt 1); [lia|]. rewrite E. f_equal.
  assert (Hlast : free_run (l ++ [g]) (T + 1 - cnt) cnt).
  { intros j Hj. rewrite Hbit by lia. apply Z.ltb_ge. lia. }
  destruct Hff as [(Hr & Hle & Hf & Hmin)|(-> & Hnone)].
  - destruct (decide (r = T + 1 - cnt)); [done|].
    specialize (Hf r ltac:(lia)). rewrite Hbit in Hf by lia.
    apply Z.ltb_ge in Hf. lia.
  - destruct (Hnone (T + 1 - cnt)); [lia | lia | done].
Qed.

(** [bitmap_scan] of a full bitmap does not return -1: the assertion in
    front of that return fails, so the kernel prints its message and spins
    with interrupts disabled. *)
Theorem bitmap_scan_full_hangs btmp l g cnt s :
  bitmap_holds (k_mem s) btmp l -> bytes_at (k_mem s) (bits btmp) (l ++ [g]) ->
  Forall (fun b => b = 0xff) l ->
  exists s', bitmap_scan btmp cnt s = Stop Hang s' /\ if_set s' = false /\
    k_mem s' = k_mem s /\
    k_trace s' = k_trace s ++ panic_output "lib/kernel/bitmap.c" 29 "bitmap_scan"
      "idx_byte < btmp->btmp_bytes_len".
Proof. apply bitmap_scan_full. Qed.

(** [bitmap_set] of a bit of the bitmap to 0 or 1 returns; afterwards that
    bit has the value and every other bit is as before, no RAM byte outside
    the bitmap changed, and [bitmap_scan_test] reads the value back. *)
Theorem bitmap_set_updates_one btmp l i v s :
  bitmap_holds (k_mem s) btmp l -> 0 <= i < 8 * Z.of_nat (length l) -> v = 0 \/ v = 1 ->
  exists s' l', bitmap_set btmp i v s = Ret tt s' /\ bitmap_holds (k_mem s') btmp l' /\
    length l' = length l /\
    (forall j, 0 <= j < 8 * Z.of_nat (length l) ->
       bit_at l' j = if j =? i then v =? 1 else bit_at l j) /\
    touches (bits btmp) (bits btmp + btmp_bytes_len btmp) s s' /\
    exists t, bitmap_scan_test btmp i s' = Ret t s' /\ (t =? 0) = (v =? 0).
Proof.
  intros Hh Hi Hv. pose proof Hh as (Hlen & Hu & Hn & Hmax & _).
  destruct (wp_run_unit _ _ _ (bitmap_set_spec btmp l i v s Hh Hi Hv)) as (s' & E & Ht & Hb).
  assert (Hd : 0 <= i / 8 < Z.of_nat (length l)).
  { split; [apply Z.div_pos; lia | apply Z.div_lt_upper_bound; lia]. }
  assert (Hl' : length (set_bit l i (v =? 1)) = length l) by apply length_insert.
  exists s', (set_bit l i (v =? 1)). split; [done|].
  split; [unfold bitmap_holds; now rewrite Hl'|]. split; [done|].
  split; [intros j Hj; apply bit_at_set_bit; lia|].
  split; [eapply touches_weaken; [done | lia | lia]|].
  destruct (wp_run _ _ _ (bitmap_scan_test_spec btmp _ i s' Hu Hb ltac:(lia)))
    as (t & s1 & Et & -> & Hz).
  exists t. split; [done|]. rewrite Hz, bit_at_set_bit, Z.eqb_refl by lia.
  now destruct Hv as [-> | ->].
Qed.

(** After [bitmap_init] every bit is free, so a first request for up to
    the whole bitmap is given bit 0. *)
Theorem bitmap_init_then_scan btmp l g cnt s :
  bitmap_holds (k_mem s) btmp l -> bytes_at (k_mem s) (bits btmp) (l ++ [g]) ->
  1 <= cnt <= 8 * Z.of_nat (length l) ->
  exists s', bitmap_init btmp s = Ret tt s' /\
    (forall j, 0 <= j < 8 * Z.of_nat (length l) ->
      exists t, bitmap_scan_test btmp j s' = Ret t s' /\ t = 0) /\
    bitmap_scan btmp cnt s' = Ret 0 s'.
Proof.
  intros Hh Hb Hcnt. pose proof Hh as (Hlen & Hu & Hn & Hmax & _).
  destruct (wp_run_unit _ _ _ (bitmap_init_spec btmp l s Hh)) as (s' & E & Ht & Hh').
  set (z := replicate (length l) 0) in *.
  assert (Hlz : length z = length l) by apply length_replicate.
  assert (Hbz : forall j, 0 <= j < 8 * Z.of_nat (length l) -> bit_at z j = false).
  { intros j Hj. unfold bit_at. destruct (lookup_lt_is_Some_2 z (Z.to_nat (j / 8))) as [b Ez].
    { apply bit_index_lt. now rewrite Hlz. }
    rewrite (list_lookup_total_correct _ _ _ Ez). apply lookup_replicate in Ez as [-> _].
    apply Z.testbit_0_l. }
  pose proof Hh' as (_ & _ & _ & _ & Hbz').
  assert (Hg : bytes_at (k_mem s') (bits btmp) (z ++ [g])).
  { apply bytes_at_app; [now destruct Hb|]. split; [done|]. rewrite Hlz.
    apply bytes_at_app in Hb as [_ Hb]; [|now destruct Hb].
    eapply bytes_at_touches; [exact Hb | exact Ht | right; lia]. }
  exists s'. split; [done|]. split.
  - intros j Hj. destruct (wp_run _ _ _ (bitmap_scan_test_spec btmp z j s' Hu Hbz' ltac:(lia)))
      as (t & s1 & Et & -> & Hz). exists t. split; [done|]. rewrite Hbz in Hz by done. cbn in Hz. lia.
  - destruct (bitmap_scan_refines btmp z g cnt s' Hh' Hg) as (r & Er & Hff); [|lia|].
    + apply Exists_exists. exists 0. split; [|done]. apply (list_elem_of_lookup_2 _ 0%nat).
      apply lookup_replicate. split; [done | lia].
    + rewrite Er. f_equal. rewrite Hlz in Hff.
      assert (Hz0 : free_run (z ++ [g]) 0 cnt) by (intros j Hj; rewrite bit_at_app_l by lia; apply Hbz; lia).
      destruct Hff as [(Hr & _ & _ & Hmin)|(-> & Hnone)].
      * destruct (decide (r = 0)); [done|]. destruct (Hmin 0); [lia | done].
      * destruct (Hnone 0); [lia | destruct (cnt =? 1); lia | done].
Qed.

End properties.

(** ** Examples *)

(** Two bytes of bitmap at 4096, with bits 0..8 used (bits 0..13 in the second
    state), and a byte behind them. *)
Definition ex_btmp : bitmap := Bitmap 2 4096.
Definition ex_bits (l : list Z) : kernel flat := blank_kernel (flat_of 4096 l).

Lemma flat_check_bitmap (m : flat) btmp l :
  flat_check m (bits btmp) l = true -> (btmp_bytes_len btmp =? Z.of_nat (length l)) = true ->
  (0 <? bits btmp) && (bits btmp <? 2 ^ 32) && (Z.of_nat (length l) <? 1000) = true ->
  bitmap_holds m btmp l.
Proof.
  intros Hc Hl Hr. unfold bitmap_holds, is_u32, NULL.
  assert (H : 0 < bits btmp < 2 ^ 32 /\ Z.of_nat (length l) < 1000) by lia.
  split; [lia|]. split; [lia|]. split; [lia|]. split; [lia|]. now apply flat_check_bytes_at.
Qed.

Lemma bitmap_scan_first_fit_witness :
  exists r, bitmap_scan ex_btmp 3 (ex_bits [0xff; 0x05; 0]) = Ret r (ex_bits [0xff; 0x05; 0]) /\
    first_fit [0xff; 0x05; 0] 3 17 r.
Proof.
  apply (bitmap_scan_first_fit ex_btmp [0xff; 0x05] 0 3 (ex_bits [0xff; 0x05; 0]));
    [now apply flat_check_bitmap | now apply flat_check_bytes_at | right; now left | done].
Defined.

Lemma bitmap_scan_in_range_witness :
  exists r, bitmap_scan ex_btmp 3 (ex_bits [0xff; 0x3f; 1]) = Ret r (ex_bits [0xff; 0x3f; 1]) /\
    first_fit [0xff; 0x3f] 3 16 r.
Proof.
  apply (bitmap_scan_in_range ex_btmp [0xff; 0x3f] 1 3 (ex_bits [0xff; 0x3f; 1]));
    [now apply flat_check_bitmap | now apply flat_check_bytes_at | right; now left | done | done].
Defined.

Lemma bitmap_scan_overruns_witness :
  bitmap_scan ex_btmp 3 (ex_bits [0xff; 0x3f; 0]) = Ret 14 (ex_bits [0xff; 0x3f; 0]) /\
  8 * 2 < 14 + 3.
Proof.
  apply (bitmap_scan_overruns ex_btmp [0xff; 0x3f] 0 3 (ex_bits [0xff; 0x3f; 0]));
    [now apply flat_check_bitmap | now apply flat_check_bytes_at | done | done |].
  intros j Hj. cbn in Hj.
  assert (E : forallb (fun k => bool_decide (bit_at [0xff; 0x3f] (Z.of_nat k) = (Z.of_nat k <? 14)))
    (List.seq 0 16) = true) by reflexivity.
  rewrite forallb_forall in E. specialize (E (Z.to_nat j)). rewrite Z2Nat.id in E by lia.
  rewrite bool_decide_eq_true in E. apply E. apply in_seq. lia.
Defined.

Lemma bitmap_scan_full_hangs_witness :
  exists s', bitmap_scan ex_btmp 1 (ex_bits [0xff; 0xff; 0]) = Stop Hang s' /\
    if_set s' = false /\ k_mem s' = k_mem (ex_bits [0xff; 0xff; 0]) /\
    k_trace s' = [] ++ panic_output "lib/kernel/bitmap.c" 29 "bitmap_scan"
      "idx_byte < btmp->btmp_bytes_len".
Proof.
  apply (bitmap_scan_full_hangs ex_btmp [0xff; 0xff] 0 1 (ex_bits [0xff; 0xff; 0]));
    [now apply flat_check_bitmap | now apply flat_check_bytes_at | repeat constructor].
Defined.

Lemma bitmap_set_updates_one_witness :
  exists s' l', bitmap_set ex_btmp 10 1 (ex_bits [0xff; 0x01; 0]) = Ret tt s' /\
    bitmap_holds (k_mem s') ex_btmp l' /\ length l' = 2%nat /\
    (forall j, 0 <= j < 16 -> bit_at l' j = if j =? 10 then true else bit_at [0xff; 0x01] j) /\
    touches 4096 (4096 + 2) (ex_bits [0xff; 0x01; 0]) s' /\
    exists t, bitmap_scan_test ex_btmp 10 s' = Ret t s' /\ (t =? 0) = false.
Proof.
  apply (bitmap_set_updates_one ex_btmp [0xff; 0x01] 10 1 (ex_bits [0xff; 0x01; 0]));
    [now apply flat_check_bitmap | done | now right].
Defined.

Lemma bitmap_init_then_scan_witness :
  exists s', bitmap_init ex_btmp (ex_bits [0xff; 0x01; 0]) = Ret tt s' /\
    (forall j, 0 <= j < 16 -> exists t, bitmap_scan_test ex_btmp j s' = Ret t s' /\ t = 0) /\
    bitmap_scan ex_btmp 5 s' = Ret 0 s'.
Proof.
  apply (bitmap_init_then_scan ex_btmp [0xff; 0x01] 0 5 (ex_bits [0xff; 0x01; 0]));
    [now apply flat_check_bitmap | now apply flat_check_bytes_at | done].
Defined.
