(* ===== verification/Paging.v ===== *)
(** * Paging: the memory of the running kernel

    32-bit x86 paging with 4 KiB pages over physical RAM, as a second instance
    of the memory interface, and the page tables that boot/loader.S builds
    before the kernel is entered.  The CPU walks the tables of the physical
    memory at every access; a page that is not present faults. *)

From stdpp Require Import base numbers list strings gmap.
From S2P Require Import Prelude Machine.
From Stdlib Require Import ZArith Lia.
Open Scope Z_scope.

(** Physical RAM, bytes never written being 0, and the page-directory base. *)
Record paged : Type := Paged { p_ram : gmap Z Z; p_cr3 : Z }.

Definition pread8 (m : paged) (pa : Z) : Z := default 0 (p_ram m !! pa).

Definition pread32 (m : paged) (pa : Z) : Z :=
  le32 (pread8 m pa) (pread8 m (pa + 1)) (pread8 m (pa + 2)) (pread8 m (pa + 3)).

Definition pwrite8 (m : paged) (pa b : Z) : paged := Paged (<[pa := b]> (p_ram m)) (p_cr3 m).

Definition pwrite32 (m : paged) (pa v : Z) : paged :=
  Paged (<[pa := byte_of v 0]> (<[pa + 1 := byte_of v 1]>
    (<[pa + 2 := byte_of v 2]> (<[pa + 3 := byte_of v 3]> (p_ram m))))) (p_cr3 m).

(** ** Address translation *)

Definition frame (entry : Z) : Z := 4096 * (entry / 4096).
Definition pdx (va : Z) : Z := va / 2 ^ 22.
Definition ptx (va : Z) : Z := (va / 2 ^ 12) mod 2 ^ 10.
Definition page_off (va : Z) : Z := va mod 2 ^ 12.

Definition present (entry : Z) : bool := Z.testbit entry 0.

Definition pde_addr (m : paged) (va : Z) : Z := frame (p_cr3 m) + 4 * pdx va.
Definition pde_of (m : paged) (va : Z) : Z := pread32 m (pde_addr m va).
Definition pte_addr (m : paged) (va : Z) : Z := frame (pde_of m va) + 4 * ptx va.
Definition pte_of (m : paged) (va : Z) : Z := pread32 m (pte_addr m va).

Definition translate (m : paged) (va : Z) : option Z :=
  if (0 <=? va) && (va <? 2 ^ 32) then
    if present (pde_of m va) then
      if present (pte_of m va) then Some (frame (pte_of m va) + page_off va) else None
    else None
  else None.

Definition paged_load8 (m : paged) (va : Z) : option Z :=
  pa ← translate m va; Some (pread8 m pa).

Definition paged_store8 (m : paged) (va b : Z) : option paged :=
  pa ← translate m va; Some (pwrite8 m pa b).

(** An access inside a page is translated once; one that crosses into the next
    page is done byte by byte. *)
Definition paged_load32 (m : paged) (va : Z) : option Z :=
  if page_off va <=? 4092 then pa ← translate m va; Some (pread32 m pa)
  else
    b0 ← paged_load8 m va; b1 ← paged_load8 m (va + 1);
    b2 ← paged_load8 m (va + 2); b3 ← paged_load8 m (va + 3);
    Some (le32 b0 b1 b2 b3).

Definition paged_store32 (m : paged) (va v : Z) : option paged :=
  if page_off va <=? 4092 then pa ← translate m va; Some (pwrite32 m pa v)
  else
    m ← paged_store8 m va (byte_of v 0); m ← paged_store8 m (va + 1) (byte_of v 1);
    m ← paged_store8 m (va + 2) (byte_of v 2); paged_store8 m (va + 3) (byte_of v 3).

#[export] Instance paged_Memory : Memory paged := {|
  load8 := paged_load8;
  store8 := paged_store8;
  load32 := paged_load32;
  store32 := paged_store32;
|}.

(** ** boot/loader.S: setup_page *)

Definition PAGE_DIR_TABLE_POS : Z := 0x100000.
Definition PG_P : Z := 1.
Definition PG_RW_W : Z := 2.
Definition PG_US_U : Z := 4.

(** The writes of [setup_page], in order, as (address, byte); paging is off. *)
Definition word_writes (pa v : Z) : list (Z * Z) :=
  (fun i => (pa + i, byte_of v i)) <$> [0; 1; 2; 3].

Definition setup_page_writes : list (Z * Z) :=
  let attr := Z.lor (Z.lor PG_US_U PG_RW_W) PG_P in
  (* .clear_page_dir *)
  ((fun esi => (PAGE_DIR_TABLE_POS + esi, 0)) <$> seqZ 0 4096) ++
  (* .create_pde *)
  (let eax := Z.lor (PAGE_DIR_TABLE_POS + 0x1000) attr in
   word_writes (PAGE_DIR_TABLE_POS + 0x0) eax ++
   word_writes (PAGE_DIR_TABLE_POS + 0xc00) eax ++
   word_writes (PAGE_DIR_TABLE_POS + 4092) (eax - 0x1000)) ++
  (* .create_pte *)
  (let ebx := PAGE_DIR_TABLE_POS + 0x1000 in
   mjoin ((fun esi => word_writes (ebx + esi * 4) (attr + 4096 * esi)) <$> seqZ 0 256)) ++
  (* .create_kernel_pde *)
  (let eax := Z.lor (PAGE_DIR_TABLE_POS + 0x2000) attr in
   mjoin ((fun i => word_writes (PAGE_DIR_TABLE_POS + (769 + i) * 4) (eax + 0x1000 * i))
     <$> seqZ 0 254)).

Definition write_all (ram : gmap Z Z) (l : list (Z * Z)) : gmap Z Z :=
  foldl (fun m p => <[p.1 := p.2]> m) ram l.

(** Memory when the kernel is entered: the tables set up, cr3 loaded and
    paging switched on. *)
Definition setup_page (ram : gmap Z Z) : paged :=
  Paged (write_all ram setup_page_writes) PAGE_DIR_TABLE_POS.

(** ** The kernel's view of low memory *)

Definition KERNEL_BASE : Z := 0xc0000000.
Definition LOW_MEM : Z := 0x100000.

(** The first megabyte is mapped at [KERNEL_BASE]. *)
Definition kernel_maps (m : paged) : Prop :=
  p_cr3 m = PAGE_DIR_TABLE_POS /\
  pread32 m (PAGE_DIR_TABLE_POS + 0xc00) = 0x101007 /\
  forall i, 0 <= i < 256 -> pread32 m (0x101000 + 4 * i) = 4096 * i + 7.

(** The last directory entry points to the directory itself. *)
Definition self_map (m : paged) : Prop :=
  present (pread32 m (frame (p_cr3 m) + 4092)) = true /\
  frame (pread32 m (frame (p_cr3 m) + 4092)) = frame (p_cr3 m).

Definition low_ram (m : paged) (va : Z) : Prop :=
  kernel_maps m /\ KERNEL_BASE <= va < KERNEL_BASE + LOW_MEM /\
  is_byte (pread8 m (va - KERNEL_BASE)).

Definition keeps_tables (m m' : paged) : Prop :=
  p_cr3 m' = p_cr3 m /\ forall pa, LOW_MEM <= pa -> pread8 m' pa = pread8 m pa.

(** ** Lemmas *)

Lemma pread8_pwrite8 m pa b pa' :
  pread8 (pwrite8 m pa b) pa' = if decide (pa = pa') then b else pread8 m pa'.
Proof. unfold pread8, pwrite8. cbn. rewrite lookup_insert. now case_decide. Qed.

Lemma pread8_pwrite32 m pa v pa' :
  pread8 (pwrite32 m pa v) pa' =
    if decide (pa <= pa' < pa + 4) then byte_of v (pa' - pa) else pread8 m pa'.
Proof.
  unfold pread8, pwrite32. cbn. rewrite !lookup_insert.
  repeat case_decide; subst; try lia; cbn; try done.
  - now rewrite Z.sub_diag.
  - do 2 f_equal. lia.
  - do 2 f_equal. lia.
  - do 2 f_equal. lia.
Qed.

Lemma le32_bytes v :
  is_u32 v -> le32 (byte_of v 0) (byte_of v 1) (byte_of v 2) (byte_of v 3) = v.
Proof.
  unfold is_u32, le32, byte_of. intros Hv.
  change (2 ^ (8 * 0)) with 1. change (2 ^ (8 * 1)) with (2 ^ 8).
  replace (v / 2 ^ (8 * 2)) with (v / 2 ^ 8 / 2 ^ 8) by now rewrite Z.div_div.
  replace (v / 2 ^ (8 * 3)) with (v / 2 ^ 8 / 2 ^ 8 / 2 ^ 8) by now rewrite !Z.div_div.
  rewrite Z.div_1_r. assert (v / 2 ^ 8 / 2 ^ 8 / 2 ^ 8 < 2 ^ 8).
  { rewrite !Z.div_div by lia. apply Z.div_lt_upper_bound; lia. }
  pose proof (Z.div_pos v (2 ^ 8) ltac:(lia) ltac:(lia)).
  pose proof (Z.div_pos (v / 2 ^ 8) (2 ^ 8) ltac:(lia) ltac:(lia)).
  pose proof (Z.div_pos (v / 2 ^ 8 / 2 ^ 8) (2 ^ 8) ltac:(lia) ltac:(lia)).
  rewrite (Z.mod_small (v / 2 ^ 8 / 2 ^ 8 / 2 ^ 8)) by lia.
  pose proof (Z.div_mod v (2 ^ 8)). pose proof (Z.div_mod (v / 2 ^ 8) (2 ^ 8)).
  pose proof (Z.div_mod (v / 2 ^ 8 / 2 ^ 8) (2 ^ 8)). lia.
Qed.

Lemma pread32_pwrite32_same m pa v : is_u32 v -> pread32 (pwrite32 m pa v) pa = v.
Proof.
  intros Hv. unfold pread32. rewrite !pread8_pwrite32.
  repeat case_decide; try lia. rewrite Z.sub_diag.
  replace (pa + 1 - pa) with 1 by lia. replace (pa + 2 - pa) with 2 by lia.
  replace (pa + 3 - pa) with 3 by lia. now apply le32_bytes.
Qed.

Lemma pread32_pwrite32_other m pa v pa' :
  pa' + 4 <= pa \/ pa + 4 <= pa' -> pread32 (pwrite32 m pa v) pa' = pread32 m pa'.
Proof. intros Hd. unfold pread32. rewrite !pread8_pwrite32. repeat case_decide; lia || done. Qed.

Lemma pread32_keeps m m' pa :
  keeps_tables m m' -> LOW_MEM <= pa -> pread32 m' pa = pread32 m pa.
Proof. intros [_ H] Hpa. unfold pread32. now rewrite !H by lia. Qed.

Lemma kernel_maps_keeps m m' : keeps_tables m m' -> kernel_maps m -> kernel_maps m'.
Proof.
  intros Hk (Hc & Hd & Ht). pose proof Hk as [Hc' _].
  unfold kernel_maps, PAGE_DIR_TABLE_POS in *.
  split; [congruence|]. split.
  - rewrite (pread32_keeps m m') by (done || unfold LOW_MEM; lia). done.
  - intros i Hi. rewrite (pread32_keeps m m') by (done || unfold LOW_MEM; lia). now apply Ht.
Qed.

Lemma pdx_split va p t o :
  va = p * 2 ^ 22 + t * 2 ^ 12 + o -> 0 <= t < 2 ^ 10 -> 0 <= o < 2 ^ 12 ->
  pdx va = p /\ ptx va = t /\ page_off va = o.
Proof.
  unfold pdx, ptx, page_off. intros -> Ht Ho. split; [|split].
  - symmetry. apply Z.div_unique with (t * 2 ^ 12 + o); lia.
  - replace ((p * 2 ^ 22 + t * 2 ^ 12 + o) / 2 ^ 12) with (p * 2 ^ 10 + t).
    + symmetry. apply Z.mod_unique with p; lia.
    + apply Z.div_unique with o; lia.
  - symmetry. apply Z.mod_unique with (p * 2 ^ 10 + t); lia.
Qed.

(** The kernel window is linear. *)
Lemma translate_low m va :
  kernel_maps m -> KERNEL_BASE <= va < KERNEL_BASE + LOW_MEM ->
  translate m va = Some (va - KERNEL_BASE).
Proof.
  intros (Hc & Hd & Ht) Hva. unfold KERNEL_BASE, LOW_MEM in *.
  pose proof (Z.div_mod (va - 0xc0000000) 4096 ltac:(lia)) as Hdm.
  pose proof (Z.mod_pos_bound (va - 0xc0000000) 4096 ltac:(lia)) as Hmb.
  set (t := (va - 0xc0000000) / 4096) in *. set (o := (va - 0xc0000000) mod 4096) in *.
  assert (Htr : 0 <= t < 256) by lia.
  destruct (pdx_split va 768 t o) as (Ep & Et & Eo); [lia | lia | lia |].
  assert (Epde : pde_of m va = 0x101007).
  { unfold pde_of, pde_addr. rewrite Hc, Ep. exact Hd. }
  assert (Epte : pte_of m va = 4096 * t + 7).
  { unfold pte_of, pte_addr. rewrite Epde, Et. now apply Ht. }
  unfold translate. rewrite Epde, Epte, Eo.
  replace ((0 <=? va) && (va <? 2 ^ 32)) with true by lia.
  change (present 0x101007) with true.
  replace (present (4096 * t + 7)) with true.
  2: { symmetry. unfold present. rewrite Z.bit0_odd.
       replace (4096 * t + 7) with (1 + 2 * (2048 * t + 3)) by lia.
       now rewrite Z.odd_add_mul_2. }
  f_equal. unfold frame. replace ((4096 * t + 7) / 4096) with t; [lia|].
  apply Z.div_unique with 7; lia.
Qed.

Lemma keeps_tables_refl m : keeps_tables m m.
Proof. done. Qed.

Lemma keeps_tables_trans m1 m2 m3 :
  keeps_tables m1 m2 -> keeps_tables m2 m3 -> keeps_tables m1 m3.
Proof.
  intros [C1 K1] [C2 K2]. split; [congruence|]. intros pa Hpa. now rewrite K2, K1.
Qed.

(** A store into the kernel window. *)
Lemma store8_low m va b :
  low_ram m va -> is_byte b ->
  paged_store8 m va b = Some (pwrite8 m (va - KERNEL_BASE) b) /\
  keeps_tables m (pwrite8 m (va - KERNEL_BASE) b).
Proof.
  intros (Hm & Hva & _) Hb. unfold paged_store8. rewrite translate_low by done.
  split; [done|]. split; [done|]. intros pa Hpa. rewrite pread8_pwrite8.
  case_decide; [|done]. unfold KERNEL_BASE, LOW_MEM in *. lia.
Qed.

Lemma low_ram_iff m m' va :
  kernel_maps m -> keeps_tables m m' ->
  (is_byte (pread8 m (va - KERNEL_BASE)) <-> is_byte (pread8 m' (va - KERNEL_BASE))) ->
  low_ram m' va <-> low_ram m va.
Proof.
  intros Hm Hk Hb. pose proof (kernel_maps_keeps _ _ Hk Hm). unfold low_ram. tauto.
Qed.

Lemma aligned_in_page va : va mod 4 = 0 -> true = (page_off va <=? 4092).
Proof.
  intros Ha. symmetry. apply Z.leb_le. unfold page_off.
  pose proof (Z.div_mod va 4). pose proof (Z.div_mod va (2 ^ 12)).
  pose proof (Z.mod_pos_bound va (2 ^ 12)). lia.
Qed.

Lemma store32_low m va v :
  va mod 4 = 0 -> (forall i, 0 <= i < 4 -> low_ram m (va + i)) ->
  paged_store32 m va v = Some (pwrite32 m (va - KERNEL_BASE) v) /\
  keeps_tables m (pwrite32 m (va - KERNEL_BASE) v).
Proof.
  intros Ha Hr. pose proof (Hr 0 ltac:(lia)) as (Hm & Hva & _). rewrite Z.add_0_r in Hva.
  pose proof (Hr 3 ltac:(lia)) as (_ & Hva3 & _).
  unfold paged_store32. rewrite <- aligned_in_page by done.
  rewrite translate_low by done. split; [done|]. split; [done|]. intros pa Hpa.
  rewrite pread8_pwrite32. case_decide; [|done]. unfold KERNEL_BASE, LOW_MEM in *. lia.
Qed.

#[export] Instance paged_RamSpec : RamSpec paged.
Proof.
  refine {| ram := low_ram; keeps := keeps_tables |}.
  - intros m va (_ & Hva & _). unfold is_u32, KERNEL_BASE, LOW_MEM in *. lia.
  - intros m va (Hm & Hva & Hb). cbn. unfold paged_load8. rewrite translate_low by done.
    eexists. split; [reflexivity | done].
  - intros m va b Hr Hb. pose proof (store8_low m va b Hr Hb) as [E Hk].
    destruct Hr as (Hm & Hva & _). exists (pwrite8 m (va - KERNEL_BASE) b). split; [done|].
    cbn. unfold paged_load8. rewrite translate_low by eauto using kernel_maps_keeps.
    cbn. rewrite pread8_pwrite8. now rewrite decide_True.
  - intros m va b m' va' Hr Hb E Hr' Hne. pose proof (store8_low m va b Hr Hb) as [E' Hk].
    cbn in *. simplify_eq. destruct Hr as (Hm & Hva & _), Hr' as (_ & Hva' & _).
    unfold paged_load8. rewrite !translate_low by eauto using kernel_maps_keeps.
    cbn. rewrite pread8_pwrite8. rewrite decide_False; [done | lia].
  - intros m va b m' va' Hr Hb E. pose proof (store8_low m va b Hr Hb) as [E' Hk].
    cbn in *. simplify_eq. destruct Hr as (Hm & _ & Hb'). apply low_ram_iff; [done | done|].
    rewrite pread8_pwrite8. case_decide as Ed; [|done]. now rewrite <- Ed.
  - intros m va b m' Hr Hb E. pose proof (store8_low m va b Hr Hb) as [E' Hk].
    cbn in *. now simplify_eq.
  - intros m va b0 b1 b2 b3 Ha Hr E0 E1 E2 E3. pose proof (Hr 0 ltac:(lia)) as (Hm & Hva & _).
    pose proof (Hr 3 ltac:(lia)) as (_ & Hva3 & _). rewrite Z.add_0_r in Hva.
    cbn in *. unfold paged_load8 in *. unfold paged_load32.
    rewrite <- aligned_in_page by done.
    rewrite translate_low in E0, E1, E2, E3 |- * by (done || lia). cbn in *. simplify_eq.
    unfold pread32. repeat f_equal; lia.
  - intros m va v Ha Hr Hv. destruct (store32_low m va v Ha Hr) as [E Hk].
    pose proof (Hr 0 ltac:(lia)) as (Hm & Hva & _). rewrite Z.add_0_r in Hva.
    exists (pwrite32 m (va - KERNEL_BASE) v). split; [done|].
    pose proof (kernel_maps_keeps _ _ Hk Hm) as Hm'. split; [|split; [|split; [|done]]].
    + intros i Hi. pose proof (Hr i Hi) as (_ & Hvi & _). cbn. unfold paged_load8.
      rewrite translate_low by done. cbn. rewrite pread8_pwrite32, decide_True by lia.
      do 2 f_equal. lia.
    + intros va'. apply low_ram_iff; [done | done |]. rewrite pread8_pwrite32.
      case_decide as Ed; [|done]. destruct (Hr (va' - va) ltac:(lia)) as (_ & _ & Hb).
      replace (va + (va' - va)) with va' in Hb by lia. split; [|done].
      intros _. apply Z.mod_pos_bound. lia.
    + intros va' (_ & Hva' & _) Hn. cbn. unfold paged_load8. rewrite !translate_low by done.
      cbn. rewrite pread8_pwrite32, decide_False by lia. done.
  - apply keeps_tables_refl.
  - apply keeps_tables_trans.
Defined.

(** ** The tables built by the loader *)

Lemma write_all_union ram l : write_all ram l = write_all ∅ l ∪ ram.
Proof.
  unfold write_all. rewrite <- (map_empty_union ram) at 1. generalize (∅ : gmap Z Z) as m.
  induction l as [|[a b] l IH]; intros m; [done|]. cbn.
  rewrite insert_union_l. apply IH.
Qed.

Lemma write_all_app m l1 l2 : write_all m (l1 ++ l2) = write_all (write_all m l1) l2.
Proof. apply foldl_app. Qed.

Lemma write_all_other m l a : Forall (fun p => p.1 <> a) l -> write_all m l !! a = m !! a.
Proof.
  intros Hl. revert m. unfold write_all. induction Hl as [|[x b] l Hx Hl IH]; intros m; [done|].
  cbn in *. rewrite IH. now apply lookup_insert_ne.
Qed.

(** A block of bytes written in one go. *)
Lemma write_all_block m a (l : list Z) x :
  write_all m (zip (seqZ a (Z.of_nat (length l))) l) !! x =
    if decide (a <= x < a + Z.of_nat (length l)) then l !! Z.to_nat (x - a) else m !! x.
Proof.
  revert m a. induction l as [|b l IH]; intros m a.
  - cbn. now rewrite decide_False by lia.
  - rewrite length_cons, Nat2Z.inj_succ, seqZ_cons, Z.pred_succ by lia.
    cbn [zip zip_with]. change (write_all m ((a, b) :: ?w)) with (write_all (<[a := b]> m) w). rewrite IH.
    destruct (Z.eq_dec x a) as [->|Hne].
    + rewrite decide_False, decide_True, lookup_insert_eq, Z.sub_diag by lia. done.
    + rewrite lookup_insert_ne by done. repeat case_decide; try lia; [|done].
      replace (Z.to_nat (x - a)) with (S (Z.to_nat (x - Z.succ a))) by lia. done.
Qed.

(** Writing bytes leaves bytes. *)
Lemma write_all_bytes m l a :
  (forall x, is_byte (default 0 (m !! x))) -> Forall (fun p => is_byte p.2) l ->
  is_byte (default 0 (write_all m l !! a)).
Proof.
  intros Hm Hl. revert m Hm. unfold write_all. induction Hl as [|[x b] l Hb Hl IH]; intros m Hm; [done|].
  cbn. apply IH. intros y. rewrite lookup_insert. case_decide; [exact Hb | apply Hm].
Qed.

Lemma zip_bytes (k l : list Z) : Forall is_byte l -> Forall (fun p => is_byte p.2) (zip k l).
Proof. intros Hl. revert k. induction Hl; intros [|z k]; cbn; constructor; auto. Qed.

Lemma joined_above lo (f : Z -> list (Z * Z)) n :
  (forall i, 0 <= i -> Forall (fun p => lo <= p.1) (f i)) ->
  Forall (fun p => lo <= p.1) (mjoin (f <$> seqZ 0 n)).
Proof.
  intros Hf. apply Forall_forall. intros p (l & Hp & Hl)%list_elem_of_join.
  apply list_elem_of_fmap in Hl as (i & -> & Hi). apply elem_of_seqZ in Hi.
  exact (proj1 (Forall_forall _ _) (Hf i (proj1 Hi)) p Hp).
Qed.

(** The tables are above the first megabyte, which [setup_page] leaves alone. *)
Lemma setup_writes_above : Forall (fun p => LOW_MEM <= p.1) setup_page_writes.
Proof.
  assert (Hw : forall pa v, LOW_MEM <= pa -> Forall (fun p => LOW_MEM <= p.1) (word_writes pa v))
    by (intros pa v Hpa; repeat constructor; cbn; lia).
  unfold setup_page_writes, PAGE_DIR_TABLE_POS, LOW_MEM in *. cbv zeta. rewrite !Forall_app.
  split; [|repeat split; try (apply Hw; lia); apply joined_above; intros i Hi; apply Hw; lia].
  apply Forall_fmap, Forall_forall. intros i Hi%elem_of_seqZ. cbn. lia.
Qed.

Lemma setup_low m a : a < LOW_MEM -> write_all m setup_page_writes !! a = m !! a.
Proof.
  intros Ha. apply write_all_other. eapply Forall_impl; [exact setup_writes_above|]. cbn. lia.
Qed.

Lemma pread8_setup_page ram pa : pa < LOW_MEM -> pread8 (setup_page ram) pa = default 0 (ram !! pa).
Proof. intros Hpa. unfold pread8. cbn [p_ram setup_page]. now rewrite setup_low. Qed.

(** The word at [pa] of a set of written bytes. *)
Definition word_in (m : gmap Z Z) (pa : Z) : option Z :=
  b0 ← m !! pa; b1 ← m !! (pa + 1); b2 ← m !! (pa + 2); b3 ← m !! (pa + 3);
  Some (le32 b0 b1 b2 b3).

Lemma pread32_union (m ram : gmap Z Z) cr3 pa v :
  word_in m pa = Some v -> pread32 (Paged (m ∪ ram) cr3) pa = v.
Proof.
  unfold word_in, pread32, pread8. cbn [p_ram]. intros E.
  destruct (m !! pa) as [b0|] eqn:E0; [|done].
  destruct (m !! (pa + 1)) as [b1|] eqn:E1; [|done].
  destruct (m !! (pa + 2)) as [b2|] eqn:E2; [|done].
  destruct (m !! (pa + 3)) as [b3|] eqn:E3; [|done]. cbn in E.
  rewrite (lookup_union_Some_l m ram _ _ E0), (lookup_union_Some_l m ram _ _ E1),
    (lookup_union_Some_l m ram _ _ E2), (lookup_union_Some_l m ram _ _ E3).
  cbn. congruence.
Qed.

(** What the directory entry [p] holds after [setup_page]. *)
Definition setup_pde (p : Z) : Z :=
  if (p =? 0) || (p =? 768) then 0x101007
  else if p =? 1023 then 0x100007
  else if 769 <=? p then 0x102007 + 0x1000 * (p - 769) else 0.

Definition word_is (m : gmap Z Z) (pa v : Z) : bool :=
  match word_in m pa with
  | Some w => w =? v
  | None => false
  end.

(** The tables, in a set of written bytes. *)
Definition tables_ok (m : gmap Z Z) : bool :=
  forallb (fun p => word_is m (PAGE_DIR_TABLE_POS + 4 * p) (setup_pde p)) (seqZ 0 1024) &&
  forallb (fun i => word_is m (0x101000 + 4 * i) (4096 * i + 7)) (seqZ 0 256).

Lemma setup_table_checked : tables_ok (write_all ∅ setup_page_writes) = true.
Proof. vm_compute. reflexivity. Qed.

Lemma forallb_seqZ (f : Z -> bool) n : forallb f (seqZ 0 n) = true ->
  forall i, 0 <= i < n -> f i = true.
Proof.
  rewrite forallb_forall. intros Hf i Hi. apply Hf, list_elem_of_In, elem_of_seqZ. lia.
Qed.

Lemma word_is_spec m pa v : word_is m pa v = true -> word_in m pa = Some v.
Proof. unfold word_is. destruct (word_in m pa); [|done]. intros ->%Z.eqb_eq. done. Qed.

Lemma tables_ok_read m ram cr3 :
  tables_ok m = true ->
  (forall p, 0 <= p < 1024 ->
    pread32 (Paged (m ∪ ram) cr3) (PAGE_DIR_TABLE_POS + 4 * p) = setup_pde p) /\
  (forall i, 0 <= i < 256 -> pread32 (Paged (m ∪ ram) cr3) (0x101000 + 4 * i) = 4096 * i + 7).
Proof.
  intros [Hd Ht]%andb_true_iff. split; intros i Hi; apply pread32_union, word_is_spec.
  - exact (forallb_seqZ _ _ Hd i Hi).
  - exact (forallb_seqZ _ _ Ht i Hi).
Qed.

(** The tables as the loader leaves them. *)
Definition boot_tables (m : paged) : Prop :=
  p_cr3 m = PAGE_DIR_TABLE_POS /\
  (forall p, 0 <= p < 1024 -> pread32 m (PAGE_DIR_TABLE_POS + 4 * p) = setup_pde p) /\
  (forall i, 0 <= i < 256 -> pread32 m (0x101000 + 4 * i) = 4096 * i + 7).

Lemma setup_page_boot_tables ram : boot_tables (setup_page ram).
Proof.
  split; [reflexivity|]. unfold setup_page. rewrite (write_all_union ram).
  apply tables_ok_read, setup_table_checked.
Qed.

Lemma frame_page_dir : frame PAGE_DIR_TABLE_POS = PAGE_DIR_TABLE_POS.
Proof. reflexivity. Qed.

Lemma boot_kernel_maps m : boot_tables m -> kernel_maps m.
Proof.
  intros (Hc & Hd & Ht). split; [done|]. split; [|done].
  replace 0xc00 with (4 * 768) by lia. now rewrite Hd.
Qed.

Lemma boot_self_map m : boot_tables m -> self_map m.
Proof.
  intros (Hc & Hd & _). unfold self_map. rewrite Hc, frame_page_dir.
  replace 4092 with (4 * 1023) by lia. now rewrite Hd.
Qed.

Lemma boot_pde m va : boot_tables m -> 0 <= va < 2 ^ 32 -> pde_of m va = setup_pde (pdx va).
Proof.
  intros (Hc & Hd & _) Hva. unfold pde_of, pde_addr. rewrite Hc, frame_page_dir. apply Hd.
  unfold pdx. split; [apply Z.div_pos | apply Z.div_lt_upper_bound]; lia.
Qed.

Lemma boot_translate_identity m a :
  boot_tables m -> 0 <= a < LOW_MEM -> translate m a = Some a.
Proof.
  intros Hb Ha. pose proof (boot_kernel_maps m Hb) as Hk.
  assert (Hh : translate m (KERNEL_BASE + a) = Some a).
  { rewrite translate_low; [f_equal; lia | done | lia]. }
  unfold LOW_MEM, KERNEL_BASE in *.
  assert (Hpd : pdx a = 0 /\ pdx (0xc0000000 + a) = 768).
  { unfold pdx. split; symmetry; apply Z.div_unique with a; lia. }
  assert (Hpt : ptx (0xc0000000 + a) = ptx a /\ page_off (0xc0000000 + a) = page_off a).
  { unfold ptx, page_off. replace (0xc0000000 + a) with (a + 786432 * 2 ^ 12) by lia.
    rewrite Z_div_plus_full, Z_mod_plus_full by lia. split; [|done].
    replace 786432 with (768 * 2 ^ 10) by lia. apply Z_mod_plus_full. }
  destruct Hpd as [Hp0 Hp768], Hpt as [Hpt Hpo].
  assert (Hpde : pde_of m a = pde_of m (0xc0000000 + a)).
  { rewrite !boot_pde by (done || lia). now rewrite Hp0, Hp768. }
  unfold translate, pte_of, pte_addr in Hh |- *. rewrite Hpde, <- Hpt, <- Hpo.
  replace ((0 <=? 0xc0000000 + a) && (0xc0000000 + a <? 2 ^ 32)) with true in Hh by lia.
  now replace ((0 <=? a) && (a <? 2 ^ 32)) with true by lia.
Qed.

Lemma boot_translate_hole m a :
  boot_tables m -> 0x400000 <= a < KERNEL_BASE -> translate m a = None.
Proof.
  intros Hb Ha. unfold KERNEL_BASE in Ha. unfold translate.
  replace ((0 <=? a) && (a <? 2 ^ 32)) with true by lia.
  assert (Hp : 1 <= pdx a < 768).
  { unfold pdx. split; [apply Z.div_le_lower_bound | apply Z.div_lt_upper_bound]; lia. }
  rewrite boot_pde by (done || lia). unfold setup_pde.
  destruct (Z.eqb_spec (pdx a) 0), (Z.eqb_spec (pdx a) 768), (Z.eqb_spec (pdx a) 1023),
    (Z.leb_spec 769 (pdx a)); try lia. done.
Qed.

(** The tables of [setup_page] map the first megabyte twice, onto itself
    and at 0xc0000000, whatever was in memory; between, from 4 MiB to
    0xc0000000, no address is mapped. *)
Theorem setup_page_maps ram a :
  (0 <= a < LOW_MEM ->
    translate (setup_page ram) a = Some a /\
    translate (setup_page ram) (KERNEL_BASE + a) = Some a) /\
  (0x400000 <= a < KERNEL_BASE -> translate (setup_page ram) a = None).
Proof.
  pose proof (setup_page_boot_tables ram) as Hb. generalize dependent (setup_page ram).
  intros m Hb. split; intros Ha.
  - split; [now apply boot_translate_identity|].
    rewrite translate_low; [f_equal; lia | now apply boot_kernel_maps | lia].
  - now apply boot_translate_hole.
Qed.

Lemma setup_page_maps_witness :
  translate (setup_page ∅) 0x9a123 = Some 0x9a123 /\
  translate (setup_page ∅) (KERNEL_BASE + 0x9a123) = Some 0x9a123.
Proof. apply (proj1 (setup_page_maps ∅ 0x9a123)). unfold LOW_MEM. lia. Defined.
