(* ===== verification/PageAlloc.v ===== *)
(** * PageAlloc: kernel/memory.c

    The page allocator: the two physical pools and the kernel's virtual
    address pool with their bitmaps, the page-table entries reached through
    the self-mapped directory, and page allocation. *)

From stdpp Require Import base numbers list strings gmap.
From S2P Require Import Prelude Machine FlatMemory Interrupt Str Bitmap Paging.
From Stdlib Require Import ZArith Lia.
Open Scope Z_scope.

Definition PG_SIZE : Z := 4096.
Definition MEM_BITMAP_BASE : Z := 0xc009a000.
Definition K_HEAP_START : Z := 0xc0100000.

(** kernel/memory.h *)
Inductive pool_flags : Type := PF_KERNEL | PF_USER.

#[export] Instance pool_flags_eq_dec : EqDecision pool_flags.
Proof. solve_decision. Defined.

Definition pool_flags_val (pf : pool_flags) : Z :=
  match pf with PF_KERNEL => 1 | PF_USER => 2 end.

Definition PG_P_1 : Z := 1.

(** A [struct pool*] that points to one of the two globals. *)
Inductive pool_ptr : Type := KERNEL_POOL | USER_POOL.

Definition the_pool {mem} (p : pool_ptr) (s : kernel mem) : pool :=
  match p with KERNEL_POOL => kernel_pool s | USER_POOL => user_pool s end.

(** Macros of the index fields of a virtual address. *)
Definition PDE_IDX (addr : Z) : Z := Z.shiftr (Z.land addr 0xffc00000) 22.
Definition PTE_IDX (addr : Z) : Z := Z.shiftr (Z.land addr 0x003ff000) 12.

Definition pte_ptr (vaddr : Z) : Z :=
  u32 (0xffc00000 + Z.shiftr (Z.land vaddr 0xffc00000) 10 + PTE_IDX vaddr * 4).

Definition pde_ptr (vaddr : Z) : Z := u32 (0xfffff000 + PDE_IDX vaddr * 4).

Section code.
  Context {mem : Type} `{Memory mem}.
  Abbreviation C := (M (kernel mem)).

Definition assert_mem {A} (line : Z) (func : string) (c : bool) (condition : string)
    (k : C A) : C A :=
  ASSERT "kernel/memory.c" line func c condition ;;; k.

(** The assignments to a pool's fields are grouped: nothing reads them in
    between. *)
Definition mem_pool_init (all_mem : Z) : C unit :=
  put_str ("   mem_pool_init start" +:+ nl) ;;;
  let page_table_size := u32 (PG_SIZE * 256) in
  let used_mem := u32 (page_table_size + 0x100000) in
  let free_mem := u32 (all_mem - used_mem) in
  let all_free_pages := u16 (free_mem / PG_SIZE) in
  let kernel_free_pages := u16 (all_free_pages / 2) in
  let user_free_pages := u16 (all_free_pages - kernel_free_pages) in
  let kbm_length := u32 (kernel_free_pages / 8) in
  let ubm_length := u32 (user_free_pages / 8) in
  let kp_start := used_mem in
  let up_start := u32 (kp_start + kernel_free_pages * PG_SIZE) in
  modify (set_kernel_pool
    (Pool (Bitmap kbm_length MEM_BITMAP_BASE) kp_start (u32 (kernel_free_pages * PG_SIZE)))) ;;;
  modify (set_user_pool
    (Pool (Bitmap ubm_length (u32 (MEM_BITMAP_BASE + kbm_length))) up_start
       (u32 (user_free_pages * PG_SIZE)))) ;;;
  kp <- gets kernel_pool ;;
  up <- gets user_pool ;;
  put_str "      kernel_pool_bitmap_start:" ;;; put_int (bits (pool_bitmap kp)) ;;;
  put_str nl ;;;
  put_str "      kernel_pool_bitmap_end:" ;;;
  put_int (bits (pool_bitmap kp) + btmp_bytes_len (pool_bitmap kp)) ;;;
  put_str nl ;;;
  put_str "       kernel_pool_phy_addr_start:" ;;; put_int (phy_addr_start kp) ;;;
  put_str nl ;;;
  put_str "       kernel_pool_phy_addr_end:" ;;;
  put_int (phy_addr_start kp + pool_size kp) ;;;
  put_str nl ;;;
  put_str "      user_pool_bitmap_start:" ;;;
  put_int (bits (pool_bitmap up)) ;;;
  put_str nl ;;;
  put_str "      user_pool_bitmap_end:" ;;;
  put_int (bits (pool_bitmap up) + btmp_bytes_len (pool_bitmap up)) ;;;
  put_str nl ;;;
  put_str "       user_pool_phy_addr_start:" ;;;
  put_int (phy_addr_start up) ;;;
  put_str nl ;;;
  put_str "       user_pool_phy_addr_end:" ;;;
  put_int (phy_addr_start up + pool_size up) ;;;
  put_str nl ;;;
  bitmap_init (pool_bitmap kp) ;;;
  bitmap_init (pool_bitmap up) ;;;
  modify (set_kernel_vaddr
    (VirtualAddr (Bitmap kbm_length (u32 (MEM_BITMAP_BASE + kbm_length + ubm_length)))
       K_HEAP_START)) ;;;
  kv <- gets kernel_vaddr ;;
  put_str "     kernel_vaddr.vaddr_bitmap.start:" ;;;
  put_int (bits (vaddr_bitmap kv)) ;;;
  put_str nl ;;;
  put_str "     kernel_vaddr.vaddr_bitmap.end:" ;;;
  put_int (bits (vaddr_bitmap kv) + btmp_bytes_len (vaddr_bitmap kv)) ;;;
  put_str nl ;;;
  bitmap_init (vaddr_bitmap kv) ;;;
  put_str ("   mem_pool_init done" +:+ nl).

Definition mem_init : C unit :=
  put_str ("mem_init start" +:+ nl) ;;;
  mem_bytes_total <- peek32 0xb00 ;;
  mem_pool_init mem_bytes_total ;;;
  put_str ("mem_init done" +:+ nl).

(** [int vaddr_start] is cast to a pointer. *)
Definition vaddr_get (pf : pool_flags) (pg_cnt : Z) : C Z :=
  if bool_decide (pf = PF_KERNEL) then
    kv <- gets kernel_vaddr ;;
    bit_idx_start <- bitmap_scan (vaddr_bitmap kv) pg_cnt ;;
    if bit_idx_start =? -1 then ret NULL
    else
      loop 33 (fun cnt =>
        if cnt <? pg_cnt then
          bitmap_set (vaddr_bitmap kv) (u32 (bit_idx_start + cnt)) 1 ;;;
          ret (inl (u32 (cnt + 1)))
        else ret (inr tt)) 0 ;;;
      ret (u32 (vaddr_start kv + bit_idx_start * PG_SIZE))
  else
    ret (u32 0).

Definition palloc (m_pool : pool_ptr) : C Z :=
  p <- gets (the_pool m_pool) ;;
  bit_idx <- bitmap_scan (pool_bitmap p) 1 ;;
  if bit_idx =? -1 then ret NULL
  else
    bitmap_set (pool_bitmap p) (u32 bit_idx) 1 ;;;
    let page_phyaddr := u32 (bit_idx * PG_SIZE + phy_addr_start p) in
    ret page_phyaddr.

Definition page_attr (page_phyaddr : Z) : Z :=
  Z.lor (Z.lor (Z.lor page_phyaddr PG_US_U) PG_RW_W) PG_P_1.

Definition page_table_add (_vaddr _page_phyaddr : Z) : C unit :=
  let vaddr := u32 _vaddr in
  let page_phyaddr := u32 _page_phyaddr in
  let pde := pde_ptr vaddr in
  let pte := pte_ptr page_phyaddr in
  d <- peek32 pde ;;
  if negb (Z.land d 0x00000001 =? 0) then
    t <- peek32 pte ;;
    assert_mem 171 "page_table_add" (Z.land t 0x00000001 =? 0) "!(*pte & 0x00000001)"
    (t <- peek32 pte ;;
     if Z.land t 0x00000001 =? 0 then poke32 pte (page_attr page_phyaddr)
     else PANIC "kernel/memory.c" 175 "page_table_add" "pte repeat")
  else
    pde_phyaddr <- palloc KERNEL_POOL ;;
    poke32 pde (page_attr pde_phyaddr) ;;;
    memset (u32 (Z.land pte 0xfffff000)) 0 PG_SIZE ;;;
    t <- peek32 pte ;;
    assert_mem 181 "page_table_add" (Z.land t 0x00000001 =? 0) "!(*pte & 0x00000001)"
    (poke32 pte (page_attr page_phyaddr)).

(** The [while] loop of [malloc_page]: one page at a time. *)
Definition malloc_pages (mem_pool : pool_ptr) (vaddr_start pg_cnt : Z) : C Z :=
  loop 33 (fun '(vaddr, cnt) =>
    let cnt' := u32 (cnt - 1) in
    if cnt >? 0 then
      page_phyaddr <- palloc mem_pool ;;
      if page_phyaddr =? NULL then ret (inr NULL)
      else
        page_table_add vaddr page_phyaddr ;;;
        ret (inl (u32 (vaddr + PG_SIZE), cnt'))
    else ret (inr vaddr_start)) (vaddr_start, pg_cnt).

Definition malloc_page (pf : pool_flags) (pg_cnt : Z) : C Z :=
  assert_mem 188 "malloc_page" ((pg_cnt >? 0) && (pg_cnt <? 3840))
    "pg_cnt > 0 && pg_cnt < 3840"
  (vaddr_start <- vaddr_get pf pg_cnt ;;
   if vaddr_start =? NULL then ret NULL
   else
     let mem_pool :=
       if negb (Z.land (pool_flags_val pf) (pool_flags_val PF_KERNEL) =? 0)
       then KERNEL_POOL else USER_POOL in
     malloc_pages mem_pool vaddr_start pg_cnt).

Definition get_kernel_pages (pg_cnt : Z) : C Z :=
  vaddr <- malloc_page PF_KERNEL pg_cnt ;;
  if vaddr =? NULL then ret NULL else ret vaddr.

End code.

(** ** Index fields *)

Lemma PDE_IDX_pdx va : is_u32 va -> PDE_IDX va = pdx va.
Proof.
  unfold is_u32. intros Hv. unfold PDE_IDX, pdx.
  change 0xffc00000 with (Z.shiftl (Z.ones 10) 22).
  rewrite land_high_mask by lia. rewrite Z.shiftr_div_pow2, Z.mul_comm, Z.div_mul by lia. done.
Qed.

Lemma PTE_IDX_ptx va : is_u32 va -> PTE_IDX va = ptx va.
Proof.
  intros Hv. unfold PTE_IDX, ptx. rewrite Z.shiftr_land.
  change (Z.shiftr 0x003ff000 12) with (Z.ones 10).
  rewrite land_ones_mod, Z.shiftr_div_pow2 by lia. done.
Qed.

Lemma pdx_range va : is_u32 va -> 0 <= pdx va < 1024.
Proof.
  unfold is_u32, pdx. intros Hv. split; [apply Z.div_pos | apply Z.div_lt_upper_bound]; lia.
Qed.

Lemma ptx_range va : 0 <= ptx va < 1024.
Proof. unfold ptx. apply Z.mod_pos_bound. lia. Qed.

Lemma pde_ptr_eq va : is_u32 va -> pde_ptr va = 0xfffff000 + 4 * pdx va.
Proof.
  intros Hv. pose proof (pdx_range va Hv). unfold pde_ptr. rewrite PDE_IDX_pdx by done.
  rewrite u32_small by (unfold is_u32; lia). lia.
Qed.

Lemma pte_ptr_eq va : is_u32 va -> pte_ptr va = 0xffc00000 + 4096 * pdx va + 4 * ptx va.
Proof.
  intros Hv. pose proof (pdx_range va Hv). pose proof (ptx_range va).
  unfold pte_ptr. rewrite PTE_IDX_ptx by done.
  assert (Z.shiftr (Z.land va 0xffc00000) 10 = 4096 * pdx va) as ->.
  { change 0xffc00000 with (Z.shiftl (Z.ones 10) 22). unfold is_u32 in Hv.
    rewrite land_high_mask by lia. rewrite Z.shiftr_div_pow2 by lia.
    change (2 ^ 22) with (4096 * 2 ^ 10) at 1.
    unfold pdx. symmetry. apply Z.div_unique_exact; lia. }
  rewrite u32_small by (unfold is_u32; lia). lia.
Qed.

(** Through the self map, the directory appears at 0xfffff000 and the page
    tables, in order, at 0xffc00000. *)
Lemma translate_self m d o :
  self_map m -> 0 <= d < 1024 -> 0 <= o < 4096 ->
  translate m (0xffc00000 + 4096 * d + o) =
    let e := pread32 m (frame (p_cr3 m) + 4 * d) in
    if present e then Some (frame e + o) else None.
Proof.
  intros [Hp Hf] Hd Ho.
  destruct (pdx_split (0xffc00000 + 4096 * d + o) 1023 d o) as (E1 & E2 & E3); [lia..|].
  set (va := 0xffc00000 + 4096 * d + o) in *.
  assert (Epde : pde_of m va = pread32 m (frame (p_cr3 m) + 4092)).
  { unfold pde_of, pde_addr. rewrite E1. done. }
  assert (Epte : pte_of m va = pread32 m (frame (p_cr3 m) + 4 * d)).
  { unfold pte_of, pte_addr. rewrite Epde, E2. now rewrite Hf. }
  unfold translate. rewrite Epde, Epte, E3, Hp.
  now replace ((0 <=? va) && (va <? 2 ^ 32)) with true by lia.
Qed.

Lemma translate_pde_ptr m va :
  self_map m -> is_u32 va -> translate m (pde_ptr va) = Some (pde_addr m va).
Proof.
  intros Hs Hv. pose proof (pdx_range va Hv). rewrite pde_ptr_eq by done.
  pose proof Hs as [Hp Hf].
  replace (0xfffff000 + 4 * pdx va) with (0xffc00000 + 4096 * 1023 + 4 * pdx va) by lia.
  replace 4092 with (4 * 1023) in Hp, Hf by lia.
  rewrite translate_self by (done || lia). cbv zeta. now rewrite Hp, Hf.
Qed.

Lemma translate_pte_ptr m va :
  self_map m -> is_u32 va ->
  translate m (pte_ptr va) = if present (pde_of m va) then Some (pte_addr m va) else None.
Proof.
  intros Hs Hv. pose proof (pdx_range va Hv). pose proof (ptx_range va).
  rewrite pte_ptr_eq by done. now rewrite translate_self by (done || lia).
Qed.

Lemma ptr_aligned va : is_u32 va -> pde_ptr va mod 4 = 0 /\ pte_ptr va mod 4 = 0.
Proof.
  intros Hv. rewrite pde_ptr_eq, pte_ptr_eq by done. split.
  - replace (0xfffff000 + 4 * pdx va) with ((0x3ffffc00 + pdx va) * 4) by lia. apply Z_mod_mult.
  - replace (0xffc00000 + 4096 * pdx va + 4 * ptx va)
      with ((0x3ff00000 + 1024 * pdx va + ptx va) * 4) by lia. apply Z_mod_mult.
Qed.

(** ** The allocators *)

Section alloc_facts.
  Context {mem : Type} `{RamSpec mem}.
  Implicit Types s : kernel mem.

(** The pool [p] has the bitmap bytes [l], the byte [g] behind them, and
    manages pages below 4 GiB. *)
Definition pool_holds (m : mem) (p : pool) (l : list Z) (g : Z) : Prop :=
  bitmap_holds m (pool_bitmap p) l /\ bytes_at m (bits (pool_bitmap p)) (l ++ [g]) /\
  0 < phy_addr_start p /\ phy_addr_start p + PG_SIZE * (8 * Z.of_nat (length l)) <= 2 ^ 32.

Definition has_free (l : list Z) : Prop := Exists (fun b => b <> 0xff) l.

(** [bitmap_set] keeps the guard byte. *)
Lemma set_bit_app l g i v :
  0 <= i < 8 * Z.of_nat (length l) -> set_bit (l ++ [g]) i v = set_bit l i v ++ [g].
Proof.
  intros Hi. pose proof (bit_index_lt l i Hi). unfold set_bit.
  rewrite lookup_total_app_l by done. now rewrite insert_app_l.
Qed.

Lemma set_bit_length l i v : length (set_bit l i v) = length l.
Proof. apply length_insert. Qed.

(** [bitmap_set] only uses the address of the bitmap. *)
Lemma bitmap_set_bytes_spec btmp l i v s :
  is_u32 (bits btmp) -> bits btmp <> NULL -> 8 * Z.of_nat (length l) < 2 ^ 31 - 8 ->
  bytes_at (k_mem s) (bits btmp) l -> 0 <= i < 8 * Z.of_nat (length l) -> v = 0 \/ v = 1 ->
  wp (bitmap_set btmp i v) (fun _ s' =>
    touches (bits btmp) (bits btmp + Z.of_nat (length l)) s s' /\
    bytes_at (k_mem s') (bits btmp) (set_bit l i (v =? 1))) s.
Proof.
  intros Hu Hn Hmax Hb Hi Hv.
  assert (0 <= i / 8 < Z.of_nat (length l)).
  { split; [apply Z.div_pos; lia | apply Z.div_lt_upper_bound; lia]. }
  pose proof (bitmap_set_spec (Bitmap (Z.of_nat (length l)) (bits btmp)) l i v s) as Hs.
  eapply wp_mono; [apply Hs; done|]. intros [] s' [Ht Hb']. split; [|done].
  eapply touches_weaken; [exact Ht | cbn; lia | cbn; lia].
Qed.

Lemma pool_holds_set m m' p l g i :
  pool_holds m p l g -> bytes_at m' (bits (pool_bitmap p)) (set_bit (l ++ [g]) i true) ->
  0 <= i < 8 * Z.of_nat (length l) -> pool_holds m' p (set_bit l i true) g.
Proof.
  intros ((Hlen & Hu & Hn & Hmax & _) & Hb & Hphy) Hb' Hi.
  rewrite set_bit_app in Hb' by done.
  unfold pool_holds, bitmap_holds. rewrite set_bit_length.
  split; [|split; [exact Hb' | exact Hphy]].
  split; [done|]. split; [done|]. split; [done|]. split; [done|].
  apply bytes_at_app in Hb' as [Hb' _]; [exact Hb' | now destruct Hb].
Qed.

(** [palloc] takes the lowest free page of its pool. *)
Lemma palloc_spec mp l g s :
  pool_holds (k_mem s) (the_pool mp s) l g -> has_free l ->
  let p := the_pool mp s in
  wp (palloc mp) (fun r s' => exists i, r = phy_addr_start p + PG_SIZE * i /\
    0 <= i < 8 * Z.of_nat (length l) /\ bit_at l i = false /\
    (forall j, 0 <= j < i -> bit_at l j = true) /\
    touches (bits (pool_bitmap p)) (bits (pool_bitmap p) + Z.of_nat (length l)) s s' /\
    pool_holds (k_mem s') p (set_bit l i true) g) s.
Proof.
  intros Hp Hfree p. pose proof Hp as (Hh & Hb & Hphy0 & Hphy). fold p in Hh, Hb, Hphy0, Hphy.
  pose proof Hh as (Hlen & Hu & Hn & Hmax & Hbl). unfold PG_SIZE in *.
  destruct (bitmap_scan_refines _ l g 1 s Hh Hb Hfree) as (i & E & Hff); [lia|].
  unfold palloc. wp_step. wp_step. wp_step. fold p. unfold wp at 1. rewrite E.
  destruct (first_free_spec _ l g s Hh Hb Hfree) as (n & b & k & _ & Hn' & _ & _ & Hk & Hfr & Hus).
  change (1 =? 1) with true in Hff. cbv iota in Hff. rewrite Z.add_0_r in Hff.
  destruct Hff as [(Hi & Hle & Hf & Hmin)|(-> & Hnone)].
  2: { destruct (Hnone (Z.of_nat n * 8 + k)); [lia | lia|]. intros j Hj.
       replace j with (Z.of_nat n * 8 + k) by lia. rewrite bit_at_app_l by lia. done. }
  destruct (Z.eqb_spec i (-1)); [lia|]. wp_step.
  rewrite (u32_small i) by (unfold is_u32; lia).
  eapply wp_mono; [apply (bitmap_set_spec _ l i 1 s Hh); [lia | now right]|].
  intros [] s' [Ht Hb']. wp_step. exists i.
  assert (0 <= i / 8 < Z.of_nat (length l)).
  { split; [apply Z.div_pos; lia | apply Z.div_lt_upper_bound; lia]. }
  assert (Ht' : touches (bits (pool_bitmap p)) (bits (pool_bitmap p) + Z.of_nat (length l)) s s').
  { eapply touches_weaken; [exact Ht | lia | lia]. }
  unfold PG_SIZE. rewrite u32_small by (unfold is_u32; lia). split; [lia|]. split; [lia|].
  split; [rewrite <- (bit_at_app_l l [g]) by lia; apply Hf; lia|].
  split; [|split; [done|]].
  - intros j Hj. destruct (bit_at l j) eqn:Ej; [done|]. destruct (Hmin j Hj). intros x Hx.
    replace x with j by lia. now rewrite bit_at_app_l by lia.
  - apply (pool_holds_set (k_mem s) (k_mem s') p l g i Hp); [|lia]. rewrite set_bit_app by lia.
    apply bytes_at_app; [now destruct Hbl|]. split; [exact Hb'|]. rewrite set_bit_length.
    apply bytes_at_app in Hb as [_ Hb]; [|now destruct Hbl].
    eapply bytes_at_touches; [exact Hb | exact Ht' | right; apply Z.le_refl].
Qed.

(** [l'] is [l] with the bits from [r] to [r + cnt] set. *)
Definition run_set (l l' : list Z) (r cnt : Z) : Prop :=
  length l' = length l /\
  forall j, 0 <= j < 8 * Z.of_nat (length l) ->
    bit_at l' j = if (r <=? j) && (j <? r + cnt) then true else bit_at l j.

Lemma run_set_step l l' r cnt :
  run_set l l' r cnt -> 0 <= r -> 0 <= cnt -> r + cnt < 8 * Z.of_nat (length l) ->
  run_set l (set_bit l' (r + cnt) true) r (cnt + 1).
Proof.
  intros [Hl Hb] Hr Hc Hlt. split; [now rewrite set_bit_length|]. intros j Hj.
  rewrite bit_at_set_bit, Hb by (rewrite ?Hl; lia).
  destruct (Z.eqb_spec j (r + cnt)), (Z.leb_spec r j), (Z.ltb_spec j (r + cnt)),
    (Z.ltb_spec j (r + (cnt + 1))); try lia; done.
Qed.

Lemma run_set_nil l r : run_set l l r 0.
Proof.
  split; [done|]. intros j Hj. rewrite Z.add_0_r.
  destruct (Z.leb_spec r j), (Z.ltb_spec j r); try lia; done.
Qed.

Lemma set_run_loop btmp l r pg_cnt s :
  is_u32 (bits btmp) -> bits btmp <> NULL -> 8 * Z.of_nat (length l) < 2 ^ 31 - 8 ->
  bytes_at (k_mem s) (bits btmp) l -> 0 <= r -> 0 <= pg_cnt ->
  r + pg_cnt <= 8 * Z.of_nat (length l) ->
  wp (loop 33 (fun cnt =>
        if cnt <? pg_cnt then
          bitmap_set btmp (u32 (r + cnt)) 1 ;;;
          ret (inl (u32 (cnt + 1)))
        else ret (inr tt)) 0) (fun _ s' => exists l',
    touches (bits btmp) (bits btmp + Z.of_nat (length l)) s s' /\
    bytes_at (k_mem s') (bits btmp) l' /\ run_set l l' r pg_cnt) s.
Proof.
  intros Hu Hn Hmax Hb Hr Hpg Hle.
  apply wp_loop with (meas := fun cnt => pg_cnt - cnt)
    (Inv := fun cnt s' => 0 <= cnt <= pg_cnt /\ exists l',
      touches (bits btmp) (bits btmp + Z.of_nat (length l)) s s' /\
      bytes_at (k_mem s') (bits btmp) l' /\ run_set l l' r cnt).
  - intros cnt s' (Hc & l' & Ht & Hb' & Hrun). pose proof Hrun as [Hl' _].
    destruct (Z.ltb_spec cnt pg_cnt).
    + wp_step. rewrite u32_small by (unfold is_u32; lia).
      eapply wp_mono; [apply (bitmap_set_bytes_spec btmp l' (r + cnt) 1); rewrite ?Hl';
        [done | done | done | done | lia | now right]|].
      intros [] s1 [Ht1 Hb1]. wp_step. rewrite u32_small by (unfold is_u32; lia).
      rewrite Hl' in Ht1.
      split; [|lia]. split; [lia|]. exists (set_bit l' (r + cnt) true).
      split; [eauto using touches_trans|]. split; [done|]. apply run_set_step; [done | lia..].
    + wp_step. replace pg_cnt with cnt by lia. eauto.
  - intros cnt s' [Hc _]. lia.
  - split; [lia|]. exists l. split; [apply touches_refl|]. split; [done | apply run_set_nil].
  - lia.
Qed.

(** [vaddr_get] reserves the first run of free virtual pages. *)
Lemma vaddr_get_spec l g cnt s :
  let btmp := vaddr_bitmap (kernel_vaddr s) in
  bitmap_holds (k_mem s) btmp l -> bytes_at (k_mem s) (bits btmp) (l ++ [g]) ->
  has_free l -> 1 <= cnt < 2 ^ 32 -> 8 * Z.of_nat (length l) < 2 ^ 31 - 16 ->
  exists r, first_fit (l ++ [g]) cnt (8 * Z.of_nat (length l) + (if cnt =? 1 then 0 else 1)) r /\
    (r = -1 -> vaddr_get PF_KERNEL cnt s = Ret NULL s) /\
    (r <> -1 -> exists s' l',
       vaddr_get PF_KERNEL cnt s = Ret (u32 (vaddr_start (kernel_vaddr s) + PG_SIZE * r)) s' /\
       touches (bits btmp) (bits btmp + Z.of_nat (length l) + 1) s s' /\
       bytes_at (k_mem s') (bits btmp) l' /\ run_set (l ++ [g]) l' r cnt).
Proof.
  intros btmp Hh Hb Hfree Hcnt Hmax. pose proof Hh as (Hlen & Hu & Hn & _ & Hbl).
  destruct (bitmap_scan_refines btmp l g cnt s Hh Hb Hfree Hcnt) as (r & E & Hff).
  exists r. split; [done|]. unfold vaddr_get. rewrite bool_decide_eq_true_2 by done.
  erewrite !bind_Ret by reflexivity. fold btmp. split.
  - intros ->. now erewrite bind_Ret by exact E.
  - intros Hr. erewrite bind_Ret by exact E. destruct (Z.eqb_spec r (-1)); [done|].
    assert (Hrange : 0 <= r /\ r + cnt <= 8 * Z.of_nat (length (l ++ [g])) /\
      8 * Z.of_nat (length (l ++ [g])) < 2 ^ 31 - 8).
    { rewrite length_app. cbn [length]. destruct Hff as [(? & Hle & _)|(? & _)]; [|done].
      destruct (cnt =? 1); lia. }
    destruct Hrange as (Hr0 & Hle & Hmax').
    destruct (wp_run _ _ _
      (set_run_loop btmp (l ++ [g]) r cnt s Hu Hn Hmax' Hb Hr0 ltac:(lia) Hle))
      as ([] & s' & El & l' & Ht & Hb' & Hrun).
    exists s', l'. erewrite bind_Ret by exact El. split.
    { unfold ret. do 2 f_equal. lia. }
    split; [|done]. eapply touches_weaken; [exact Ht | lia|]. rewrite length_app. cbn. lia.
Qed.

(** [n] calls of [palloc] in a row. *)
Fixpoint pallocs (mp : pool_ptr) (n : nat) : M (kernel mem) (list Z) :=
  match n with
  | O => ret []
  | S n' => p <- palloc mp ;; ps <- pallocs mp n' ;; ret (p :: ps)
  end.

(** The layout [mem_pool_init] computes: the free pages, split in two halves,
    and the bytes of the two physical bitmaps. *)
Definition free_pages (all_mem : Z) : Z := u16 (u32 (all_mem - 0x200000) / PG_SIZE).
Definition kernel_pages (all_mem : Z) : Z := free_pages all_mem / 2.
Definition user_pages (all_mem : Z) : Z := free_pages all_mem - kernel_pages all_mem.
Definition kbm_length (all_mem : Z) : Z := kernel_pages all_mem / 8.
Definition ubm_length (all_mem : Z) : Z := user_pages all_mem / 8.
Definition bitmaps_end (all_mem : Z) : Z :=
  MEM_BITMAP_BASE + kbm_length all_mem + ubm_length all_mem + kbm_length all_mem.

Definition kernel_pool_of (all_mem : Z) : pool :=
  Pool (Bitmap (kbm_length all_mem) MEM_BITMAP_BASE) 0x200000 (PG_SIZE * kernel_pages all_mem).
Definition user_pool_of (all_mem : Z) : pool :=
  Pool (Bitmap (ubm_length all_mem) (MEM_BITMAP_BASE + kbm_length all_mem))
    (0x200000 + PG_SIZE * kernel_pages all_mem) (PG_SIZE * user_pages all_mem).
Definition kernel_vaddr_of (all_mem : Z) : virtual_addr :=
  VirtualAddr (Bitmap (kbm_length all_mem)
    (MEM_BITMAP_BASE + kbm_length all_mem + ubm_length all_mem)) K_HEAP_START.

Lemma layout_ranges a :
  0 <= free_pages a < 2 ^ 16 /\ 0 <= kernel_pages a /\ 0 <= user_pages a /\
  kernel_pages a <= user_pages a <= kernel_pages a + 1 /\
  kernel_pages a + user_pages a = free_pages a /\
  0 <= 8 * kbm_length a <= kernel_pages a /\ 0 <= 8 * ubm_length a <= user_pages a.
Proof.
  assert (0 <= free_pages a < 2 ^ 16) by (apply Z.mod_pos_bound; lia).
  unfold kbm_length, ubm_length, user_pages, kernel_pages.
  Z.to_euclidean_division_equations. lia.
Qed.

(** Zeroing the next bitmap in a range whose memory held anything. *)
Lemma bitmap_zero_spec base n l len x s :
  x = base + Z.of_nat (length l) -> 0 < base -> base + n <= 2 ^ 32 - 1 -> 0 <= len -> Z.of_nat (length l) + len <= n ->
  writable (k_mem s) base n -> bytes_at (k_mem s) base l ->
  wp (bitmap_init (Bitmap len x)) (fun _ s' =>
    touches base (base + n) s s' /\
    bytes_at (k_mem s') base (l ++ replicate (Z.to_nat len) 0)) s.
Proof.
  intros Hx Hb Hn Hl Hln (_ & Hmax & Hw) Hbytes.
  destruct (memset_spec x 0 len s) as (s' & E & Ht & Hz);
    [unfold NULL; lia | unfold is_u32; lia | unfold is_u32; lia | |].
  { split; [lia|]. split; [lia|]. intros y Hy. apply Hw. lia. }
  apply wp_Ret. exists tt, s'. split; [exact E|]. split.
  - eapply touches_weaken; [exact Ht | lia | lia].
  - apply bytes_at_app; [lia|]. rewrite <- Hx. split; [|exact Hz].
    eapply bytes_at_touches; [exact Hbytes | exact Ht | lia].
Qed.

Lemma mem_pool_arith a :
  u16 (free_pages a / 2) = kernel_pages a /\ u16 (user_pages a) = user_pages a /\
  u32 (kbm_length a) = kbm_length a /\ u32 (ubm_length a) = ubm_length a /\
  u32 (kernel_pages a * PG_SIZE) = PG_SIZE * kernel_pages a /\
  u32 (user_pages a * PG_SIZE) = PG_SIZE * user_pages a /\
  u32 (0x200000 + kernel_pages a * PG_SIZE) = 0x200000 + PG_SIZE * kernel_pages a /\
  u32 (MEM_BITMAP_BASE + kbm_length a) = MEM_BITMAP_BASE + kbm_length a /\
  u32 (MEM_BITMAP_BASE + kbm_length a + ubm_length a) =
    MEM_BITMAP_BASE + kbm_length a + ubm_length a.
Proof.
  pose proof (layout_ranges a). rewrite (Z.mul_comm _ PG_SIZE), (Z.mul_comm _ PG_SIZE).
  unfold PG_SIZE, MEM_BITMAP_BASE. repeat split; try (apply u32_small; unfold is_u32; lia).
  - apply u16_small. unfold kernel_pages in *. lia.
  - apply u16_small. lia.
Qed.

(** Skipping a run of output. *)
Local Ltac print_steps s0 H :=
  repeat (eapply (wp_print s0); [exact H | clear H; intros ? H; cbv beta]).

Lemma mem_pool_init_spec a s :
  writable (k_mem s) MEM_BITMAP_BASE (2 * kbm_length a + ubm_length a) ->
  wp (mem_pool_init a) (fun _ s' =>
    kernel_pool s' = kernel_pool_of a /\ user_pool s' = user_pool_of a /\
    kernel_vaddr s' = kernel_vaddr_of a /\
    bytes_at (k_mem s') MEM_BITMAP_BASE
      (replicate (Z.to_nat (kbm_length a)) 0 ++ replicate (Z.to_nat (ubm_length a)) 0 ++
       replicate (Z.to_nat (kbm_length a)) 0) /\
    mod_only MEM_BITMAP_BASE (bitmaps_end a) (k_mem s) (k_mem s') /\
    k_eflags s' = k_eflags s) s.
Proof.
  intros Hw. pose proof (layout_ranges a) as (Hf & Hk & Hu & Hku & Hs & Hkb & Hub).
  pose proof (mem_pool_arith a) as (E1 & E2 & E3 & E4 & E5 & E6 & E7 & E8 & E9).
  unfold mem_pool_init. change (u32 (u32 (PG_SIZE * 256) + 0x100000)) with 0x200000.
  cbv zeta. fold (free_pages a). rewrite E1. fold (user_pages a). rewrite E2.
  fold (kbm_length a) (ubm_length a). rewrite E3, E4, E5, E6, E7, E8, E9.
  fold (kernel_pool_of a) (user_pool_of a) (kernel_vaddr_of a).
  set (base := MEM_BITMAP_BASE) in *. set (n := 2 * kbm_length a + ubm_length a) in *.
  assert (Hmax : 0 < base /\ base + n <= 2 ^ 32 - 1) by (unfold base, n, MEM_BITMAP_BASE; lia).
  set (zk := replicate (Z.to_nat (kbm_length a)) 0).
  set (zu := replicate (Z.to_nat (ubm_length a)) 0).
  assert (Hzk : Z.of_nat (length zk) = kbm_length a) by (unfold zk; rewrite length_replicate; lia).
  assert (Hzu : Z.of_nat (length zu) = ubm_length a) by (unfold zu; rewrite length_replicate; lia).
  wp_step. apply wp_modify. cbv beta. do 2 (wp_step; apply wp_modify; cbv beta).
  do 2 (wp_step; apply wp_gets; cbv beta). cbn [kernel_pool user_pool set_kernel_pool set_user_pool].
  match goal with |- wp _ _ ?st => set (s0 := st) end.
  pose proof (printed_refl s0) as Hp. print_steps s0 Hp.
  match goal with |- wp _ _ ?st => rename st into s1 end.
  assert (H1 : s1 = set_kernel_pool (kernel_pool_of a) (set_user_pool (user_pool_of a) s1) /\
    k_mem s1 = k_mem s /\ k_eflags s1 = k_eflags s) by (rewrite Hp; done).
  clear Hp. clearbody s0. clear s0. destruct H1 as (Hs1 & Hm1 & He1).
  change (pool_bitmap (kernel_pool_of a)) with (Bitmap (kbm_length a) base).
  change (pool_bitmap (user_pool_of a)) with (Bitmap (ubm_length a) (base + kbm_length a)).
  assert (Hw1 : writable (k_mem s1) base n) by now rewrite Hm1.
  wp_step. eapply wp_mono; [apply (bitmap_zero_spec base n [] _ _ s1); cbn; try done; lia|].
  fold zk. intros [] s2 [Ht2 Hb2]. rewrite app_nil_l in Hb2. wp_step.
  eapply wp_mono; [apply (bitmap_zero_spec base n zk _ _ s2); try done; try lia|].
  { eapply writable_mod; [exact Hw1 | apply Ht2]. }
  fold zu. intros [] s3 [Ht3 Hb3].
  pose proof (touches_trans _ _ _ _ _ Ht2 Ht3) as Ht. clear s2 Ht2 Hb2 Ht3.
  wp_step. apply wp_modify. cbv beta. wp_step. apply wp_gets. cbn [kernel_vaddr set_kernel_vaddr].
  match goal with |- wp _ _ ?st => set (s0 := st) end.
  pose proof (printed_refl s0) as Hp. print_steps s0 Hp.
  match goal with |- wp _ _ ?st => rename st into s4 end.
  change (vaddr_bitmap _) with (Bitmap (kbm_length a) (base + kbm_length a + ubm_length a)).
  assert (H4 : s4 = set_kernel_vaddr (kernel_vaddr_of a) (set_kernel_pool (kernel_pool_of a)
    (set_user_pool (user_pool_of a) s4)) /\ k_mem s4 = k_mem s3 /\ k_eflags s4 = k_eflags s).
  { destruct Ht as [E3' _]. rewrite Hp. unfold s0. rewrite E3', Hs1. cbn. now rewrite He1. }
  clear Hp. clearbody s0. clear s0. destruct H4 as (Hs4 & Hm4 & He4). rewrite <- Hm4 in Hb3.
  assert (Hm : mod_only base (base + n) (k_mem s) (k_mem s4)) by (rewrite <- Hm1, Hm4; apply Ht).
  wp_step. eapply wp_mono; [apply (bitmap_zero_spec base n (zk ++ zu) _ _ s4); rewrite ?length_app;
    try done; try lia|].
  { eapply writable_mod; [exact Hw | exact Hm]. }
  fold zk. intros [] s5 [[Es5 Hm5] Hb5]. apply wp_modify. rewrite <- app_assoc in Hb5.
  replace (bitmaps_end a) with (base + n) by (unfold bitmaps_end, n, base; lia).
  cbn [k_mem k_eflags emit kernel_pool user_pool kernel_vaddr].
  split; [now rewrite Es5, Hs4|]. split; [now rewrite Es5, Hs4|].
  split; [now rewrite Es5, Hs4|]. split; [exact Hb5|].
  split; [eauto using mod_only_trans | now rewrite Es5].
Qed.

(** The free pages of a bitmap. *)
Definition free_set (l : list Z) : gset Z :=
  filter (fun i => bit_at l i = false) (list_to_set (seqZ 0 (8 * Z.of_nat (length l)))).

Lemma elem_of_free_set l i :
  i ∈ free_set l <-> 0 <= i < 8 * Z.of_nat (length l) /\ bit_at l i = false.
Proof.
  unfold free_set. rewrite elem_of_filter, elem_of_list_to_set, elem_of_seqZ.
  split; intros [? ?]; (split; [done || lia | done || lia]).
Qed.

Lemma free_set_set_bit l i :
  0 <= i < 8 * Z.of_nat (length l) -> free_set (set_bit l i true) = free_set l ∖ {[i]}.
Proof.
  intros Hi. apply set_eq. intros j.
  rewrite elem_of_difference, elem_of_singleton, !elem_of_free_set, set_bit_length. split.
  - intros [Hj Hb]. rewrite bit_at_set_bit in Hb by lia.
    destruct (Z.eqb_spec j i); [done|]. done.
  - intros [[Hj Hb] Hne]. split; [done|]. rewrite bit_at_set_bit by lia.
    destruct (Z.eqb_spec j i); [done | done].
Qed.

Lemma free_set_has_free l i : i ∈ free_set l -> has_free l.
Proof.
  intros [Hi Hb]%elem_of_free_set. apply Exists_exists.
  destruct (lookup_lt_is_Some_2 l (Z.to_nat (i / 8)) (bit_index_lt l i Hi)) as [b Hlb].
  exists b. split; [by eapply list_elem_of_lookup_2|]. intros ->. unfold bit_at in Hb.
  rewrite (list_lookup_total_correct _ _ _ Hlb), testbit_ff in Hb; [done|].
  apply Z.mod_pos_bound. lia.
Qed.

Lemma pallocs_spec mp g n : forall l s,
  pool_holds (k_mem s) (the_pool mp s) l g -> (n <= size (free_set l))%nat ->
  let p := the_pool mp s in
  exists ids s', pallocs mp n s = Ret ((fun i => phy_addr_start p + PG_SIZE * i) <$> ids) s' /\
    NoDup ids /\ length ids = n /\ Forall (fun i => i ∈ free_set l) ids /\
    touches (bits (pool_bitmap p)) (bits (pool_bitmap p) + Z.of_nat (length l)) s s'.
Proof.
  induction n as [|n IH]; intros l s Hp Hn p.
  { exists [], s. split; [done|]. split; [constructor|]. split; [done|].
    split; [constructor | apply touches_refl]. }
  destruct (decide (free_set l = ∅)) as [He|[i0 Hi0]%set_choose_L].
  { rewrite He, size_empty in Hn. lia. }
  destruct (wp_run _ _ _ (palloc_spec mp l g s Hp (free_set_has_free _ _ Hi0)))
    as (r & s1 & E & i & -> & Hi & Hfr & _ & Ht & Hp1). fold p in E, Ht, Hp1.
  assert (Hpool : the_pool mp s1 = p) by (destruct Ht as [-> _]; now destruct mp).
  assert (Hif : i ∈ free_set l) by now apply elem_of_free_set.
  destruct (IH (set_bit l i true) s1) as (ids & s2 & E2 & Hnd & Hlen & Hall & Ht2).
  { now rewrite Hpool. }
  { rewrite free_set_set_bit, size_difference, size_singleton by (done || set_solver). lia. }
  rewrite free_set_set_bit in Hall by done. rewrite Hpool, set_bit_length in Ht2.
  rewrite Hpool in E2. exists (i :: ids), s2.
  split; [cbn; erewrite bind_Ret by exact E; now erewrite bind_Ret by exact E2|].
  split; [|split; [cbn; lia | split; [|eauto using touches_trans]]].
  - constructor; [|done]. intros Hin. apply (proj1 (Forall_forall _ _) Hall) in Hin.
    apply elem_of_difference in Hin as [_ []]. now apply elem_of_singleton.
  - constructor; [done|]. eapply Forall_impl; [exact Hall|]. now intros j [Hj _]%elem_of_difference.
Qed.

End alloc_facts.

(** ** Properties *)

(** Through the directory entry that the loader points at the directory
    itself, [pde_ptr] and [pte_ptr] are the addresses at which the entries the
    CPU uses for a virtual address are read and written: the directory entry
    always, the table entry when the directory entry is present. *)
Theorem pte_ptr_addresses_entry m va :
  self_map m -> is_u32 va ->
  load32 m (pde_ptr va) = Some (pde_of m va) /\
  (present (pde_of m va) = true -> load32 m (pte_ptr va) = Some (pte_of m va)) /\
  (present (pde_of m va) = false -> load32 m (pte_ptr va) = None).
Proof.
  intros Hs Hv. destruct (ptr_aligned va Hv) as [Ha1 Ha2].
  change (load32 m) with (paged_load32 m). unfold paged_load32.
  rewrite <- !aligned_in_page by done. rewrite translate_pde_ptr by done.
  split; [done|]. rewrite translate_pte_ptr by done.
  split; intros Hp; now rewrite Hp.
Qed.

Section properties.
  Context {mem : Type} `{RamSpec mem}.
  Implicit Types s : kernel mem.

(** C36: with 2 MiB to 258 MiB of memory, [mem_pool_init] returns and divides
    the memory above 2 MiB: the kernel pool, directly behind it the user pool,
    equal up to a page, ending within the last page of memory.  Each pool has
    no more bitmap bits than pages, the three bitmaps lie one behind the other
    from 0xc009a000 on and are all zero, and no other RAM changed. *)
Theorem mem_pool_init_partitions all_mem s :
  0x200000 <= all_mem < 0x200000 + 2 ^ 28 ->
  writable (k_mem s) MEM_BITMAP_BASE (2 * kbm_length all_mem + ubm_length all_mem) ->
  exists s', mem_pool_init all_mem s = Ret tt s' /\
    let kp := kernel_pool s' in let up := user_pool s' in let kv := kernel_vaddr s' in
    phy_addr_start kp = 0x200000 /\
    phy_addr_start up = phy_addr_start kp + pool_size kp /\
    phy_addr_start up + pool_size up <= all_mem < phy_addr_start up + pool_size up + PG_SIZE /\
    pool_size kp <= pool_size up <= pool_size kp + PG_SIZE /\
    (forall p, p = kp \/ p = up ->
      PG_SIZE * (8 * btmp_bytes_len (pool_bitmap p)) <= pool_size p) /\
    vaddr_start kv = K_HEAP_START /\
    btmp_bytes_len (vaddr_bitmap kv) = btmp_bytes_len (pool_bitmap kp) /\
    bits (pool_bitmap kp) = MEM_BITMAP_BASE /\
    bits (pool_bitmap up) = bits (pool_bitmap kp) + btmp_bytes_len (pool_bitmap kp) /\
    bits (vaddr_bitmap kv) = bits (pool_bitmap up) + btmp_bytes_len (pool_bitmap up) /\
    (exists zeros, Forall (fun b => b = 0) zeros /\ bytes_at (k_mem s') MEM_BITMAP_BASE zeros /\
      MEM_BITMAP_BASE + Z.of_nat (length zeros) =
        bits (vaddr_bitmap kv) + btmp_bytes_len (vaddr_bitmap kv)) /\
    mod_only MEM_BITMAP_BASE (bitmaps_end all_mem) (k_mem s) (k_mem s').
Proof.
  intros Ha Hw. destruct (wp_run _ _ _ (mem_pool_init_spec all_mem s Hw))
    as ([] & s' & E & Hkp & Hup & Hkv & Hb & Hm & _).
  exists s'. split; [done|]. rewrite Hkp, Hup, Hkv.
  pose proof (layout_ranges all_mem) as (Hf & Hk & Hu & Hku & Hs & Hkb & Hub).
  assert (Hfree : PG_SIZE * free_pages all_mem <= all_mem - 0x200000
    < PG_SIZE * free_pages all_mem + PG_SIZE).
  { unfold free_pages. rewrite u32_small by (unfold is_u32; lia). unfold PG_SIZE in *.
    rewrite u16_small; Z.to_euclidean_division_equations; lia. }
  cbn [phy_addr_start kernel_pool_of user_pool_of pool_size pool_bitmap btmp_bytes_len bits
    kernel_vaddr_of vaddr_start vaddr_bitmap]. unfold PG_SIZE in *. repeat (split; [done || lia|]).
  split; [intros p [-> | ->]; cbn; unfold PG_SIZE; lia|].
  repeat (split; [done || lia|]). split; [|exact Hm].
  eexists. split; [|split; [exact Hb|]].
  - rewrite !Forall_app. repeat split; apply Forall_replicate; done.
  - rewrite !length_app, !length_replicate. lia.
Qed.

(** The free page count is kept in 16 bits, so that whatever the memory
    size the two pools together get the count modulo 65536: less than 256 MiB,
    and 2 MiB fewer than half of it for a 512 MiB machine. *)
Theorem mem_pool_init_wraps all_mem s :
  is_u32 all_mem ->
  writable (k_mem s) MEM_BITMAP_BASE (2 * kbm_length all_mem + ubm_length all_mem) ->
  exists s', mem_pool_init all_mem s = Ret tt s' /\
    pool_size (kernel_pool s') + pool_size (user_pool s') =
      PG_SIZE * (((all_mem - 0x200000) mod 2 ^ 32 / PG_SIZE) mod 2 ^ 16) /\
    pool_size (kernel_pool s') + pool_size (user_pool s') < 2 ^ 28 /\
    (all_mem = 512 * 2 ^ 20 ->
      pool_size (kernel_pool s') + pool_size (user_pool s') = 254 * 2 ^ 20).
Proof.
  intros Ha Hw. destruct (wp_run _ _ _ (mem_pool_init_spec all_mem s Hw))
    as ([] & s' & E & Hkp & Hup & _).
  pose proof (layout_ranges all_mem) as (Hf & _ & _ & _ & Hs & _).
  assert (Hsum : pool_size (kernel_pool s') + pool_size (user_pool s') =
    PG_SIZE * free_pages all_mem) by (rewrite Hkp, Hup; cbn; rewrite <- Hs; unfold PG_SIZE; lia).
  exists s'. split; [done|]. rewrite Hsum. split; [done|]. split; [unfold PG_SIZE; lia|].
  now intros ->.
Qed.

(** [palloc] returns the address of the lowest free page of its pool, marks
    that page and no other as used, and changes no RAM outside the pool's
    bitmap. *)
Theorem palloc_first_free mp l g s :
  let p := the_pool mp s in
  pool_holds (k_mem s) p l g -> has_free l ->
  exists i s' l', palloc mp s = Ret (phy_addr_start p + PG_SIZE * i) s' /\
    0 <= i < 8 * Z.of_nat (length l) /\ bit_at l i = false /\
    (forall j, 0 <= j < i -> bit_at l j = true) /\
    pool_holds (k_mem s') p l' g /\ length l' = length l /\
    (forall j, 0 <= j < 8 * Z.of_nat (length l) ->
      bit_at l' j = if j =? i then true else bit_at l j) /\
    touches (bits (pool_bitmap p)) (bits (pool_bitmap p) + Z.of_nat (length l)) s s'.
Proof.
  intros p Hp Hfree.
  destruct (wp_run _ _ _ (palloc_spec mp l g s Hp Hfree))
    as (r & s' & E & i & -> & Hi & Hfr & Hus & Ht & Hp').
  exists i, s', (set_bit l i true). split; [done|]. split; [done|]. split; [done|].
  split; [done|]. split; [done|]. split; [apply set_bit_length|]. split; [|done].
  intros j Hj. apply bit_at_set_bit; lia.
Qed.

(** C28: while its pool has free pages, successive calls of [palloc] hand out
    pairwise different pages, all of them free before the first call. *)
Theorem palloc_never_repeats mp l g n s :
  let p := the_pool mp s in
  pool_holds (k_mem s) p l g -> (n <= size (free_set l))%nat ->
  exists pages s', pallocs mp n s = Ret pages s' /\ length pages = n /\ NoDup pages /\
    forall x, x ∈ pages -> exists i, x = phy_addr_start p + PG_SIZE * i /\
      0 <= i < 8 * Z.of_nat (length l) /\ bit_at l i = false.
Proof.
  intros p Hp Hn. destruct (pallocs_spec mp g n l s Hp Hn) as (ids & s' & E & Hnd & Hl & Hall & _).
  eexists _, s'. split; [exact E|]. rewrite length_fmap. split; [done|]. split.
  - apply NoDup_fmap_2; [|done]. intros i j. unfold PG_SIZE. lia.
  - intros x (i & -> & Hi)%list_elem_of_fmap. exists i. split; [done|].
    apply elem_of_free_set. exact (proj1 (Forall_forall _ _) Hall i Hi).
Qed.

(** [vaddr_get] for the kernel returns NULL, changing nothing, when the
    virtual bitmap (with the first bit behind it) has no run of [cnt] free
    pages; otherwise the start of the first such run, whose pages it marks
    used, and no others. *)
Theorem vaddr_get_contiguous l g cnt s :
  let kv := kernel_vaddr s in
  bitmap_holds (k_mem s) (vaddr_bitmap kv) l ->
  bytes_at (k_mem s) (bits (vaddr_bitmap kv)) (l ++ [g]) ->
  has_free l -> 2 <= cnt < 2 ^ 32 -> 8 * Z.of_nat (length l) < 2 ^ 31 - 16 ->
  (vaddr_get PF_KERNEL cnt s = Ret NULL s /\
    forall r, 0 <= r -> r + cnt <= 8 * Z.of_nat (length l) + 1 -> ~ free_run (l ++ [g]) r cnt) \/
  (exists r s' l', vaddr_get PF_KERNEL cnt s = Ret (u32 (vaddr_start kv + PG_SIZE * r)) s' /\
    free_run (l ++ [g]) r cnt /\ (forall r', 0 <= r' < r -> ~ free_run (l ++ [g]) r' cnt) /\
    bytes_at (k_mem s') (bits (vaddr_bitmap kv)) l' /\ run_set (l ++ [g]) l' r cnt /\
    touches (bits (vaddr_bitmap kv)) (bits (vaddr_bitmap kv) + Z.of_nat (length l) + 1) s s').
Proof.
  intros kv Hh Hb Hfree Hcnt Hmax.
  destruct (vaddr_get_spec l g cnt s Hh Hb Hfree ltac:(lia) Hmax) as (r & Hff & Hnone & Hsome).
  replace (cnt =? 1) with false in Hff by lia.
  destruct Hff as [(Hr & Hle & Hf & Hmin)|(-> & Hno)].
  - right. destruct (Hsome ltac:(lia)) as (s' & l' & E & Ht & Hb' & Hrun). exists r, s', l'. done.
  - left. split; [now apply Hnone | done].
Qed.

(** [malloc_page] for the user pool always returns NULL, without touching
    anything, for any page count it accepts; a count of 0 or above 3839 stops
    the kernel with interrupts off. *)
Theorem malloc_page_rejects pf pg_cnt s :
  (0 < pg_cnt < 3840 -> malloc_page PF_USER pg_cnt s = Ret NULL s) /\
  (is_u32 pg_cnt -> ~ (0 < pg_cnt < 3840) ->
    exists s', malloc_page pf pg_cnt s = Stop Hang s' /\ if_set s' = false /\
      k_mem s' = k_mem s).
Proof.
  unfold malloc_page, assert_mem. split.
  - intros Hc. replace ((pg_cnt >? 0) && (pg_cnt <? 3840)) with true by lia. reflexivity.
  - intros _ Hc. replace ((pg_cnt >? 0) && (pg_cnt <? 3840)) with false by lia.
    destruct (panic_spin_spec (A := unit) "kernel/memory.c" 188 "malloc_page"
      "pg_cnt > 0 && pg_cnt < 3840" s) as (s' & E & HIF & Hm & _).
    exists s'. split; [|done]. erewrite bind_Stop; [done|]. exact E.
Qed.

(** When its pool has no free page left, [palloc] does not return NULL: the
    assertion in [bitmap_scan] stops the kernel with interrupts off. *)
Theorem palloc_exhausted_hangs mp l g s :
  let p := the_pool mp s in
  pool_holds (k_mem s) p l g -> Forall (fun b => b = 0xff) l ->
  exists s', palloc mp s = Stop Hang s' /\ if_set s' = false /\ k_mem s' = k_mem s.
Proof.
  intros p (Hh & Hb & _) Hall.
  destruct (bitmap_scan_full _ l g 1 s Hh Hb Hall) as (s' & E & Hif & Hm & _).
  exists s'. split; [|done]. unfold palloc. erewrite bind_Ret by reflexivity.
  exact (bind_Stop _ _ _ _ _ E).
Qed.

End properties.

(** ** Examples *)

Definition ex_machine : paged := setup_page ∅.

Lemma pte_ptr_addresses_entry_witness :
  load32 ex_machine (pde_ptr 0xc0100000) = Some (pde_of ex_machine 0xc0100000) /\
  (present (pde_of ex_machine 0xc0100000) = true ->
    load32 ex_machine (pte_ptr 0xc0100000) = Some (pte_of ex_machine 0xc0100000)) /\
  (present (pde_of ex_machine 0xc0100000) = false -> load32 ex_machine (pte_ptr 0xc0100000) = None).
Proof.
  apply (pte_ptr_addresses_entry ex_machine 0xc0100000); [|done].
  apply boot_self_map, setup_page_boot_tables.
Defined.

(** A kernel pool of 16 pages from 2 MiB on, and a virtual pool of 16 pages
    with the same bitmap address. *)
Definition ex_pool : pool := Pool (Bitmap 2 4096) 0x200000 0x10000.
Definition ex_alloc (l : list Z) : kernel flat :=
  set_kernel_vaddr (VirtualAddr (Bitmap 2 4096) K_HEAP_START)
    (set_kernel_pool ex_pool (ex_bits l)).

(** Memory for the bitmaps of [mem_pool_init]. *)
Definition ex_fresh (n : nat) : kernel flat :=
  blank_kernel (flat_of MEM_BITMAP_BASE (replicate n 0x5a)).

Lemma ex_fresh_writable k :
  0 <= k <= 2 ^ 16 -> writable (k_mem (ex_fresh (Z.to_nat k))) MEM_BITMAP_BASE k.
Proof.
  intros Hk. assert (Hb : bytes_at (k_mem (ex_fresh (Z.to_nat k))) MEM_BITMAP_BASE (replicate (Z.to_nat k) 0x5a)).
  { apply flat_of_bytes_at; [done | rewrite length_replicate; unfold MEM_BITMAP_BASE; lia | now apply Forall_replicate]. }
  apply bytes_at_writable in Hb. rewrite length_replicate in Hb. now rewrite Z2Nat.id in Hb by lia.
Qed.

Lemma ex_pool_holds b0 b1 g :
  flat_check (flat_of 4096 [b0; b1; g]) 4096 [b0; b1; g] = true ->
  pool_holds (k_mem (ex_alloc [b0; b1; g])) ex_pool [b0; b1] g.
Proof.
  intros Hc. split; [|split; [now apply flat_check_bytes_at | done]].
  apply flat_check_bytes_at in Hc. apply (bytes_at_app _ _ [b0; b1] [g]) in Hc as [Hc _]; [|done].
  split; [done|]. split; [done|]. split; [done|]. split; [done | exact Hc].
Qed.

Lemma mem_pool_init_partitions_witness :
  exists s', mem_pool_init 0x210000 (ex_fresh 3) = Ret tt s' /\
    phy_addr_start (user_pool s') = phy_addr_start (kernel_pool s') + pool_size (kernel_pool s').
Proof.
  destruct (mem_pool_init_partitions 0x210000 (ex_fresh 3)) as (s' & E & _ & Hup & _);
    [done | apply (ex_fresh_writable 3); done|].
  exists s'. split; [exact E | exact Hup].
Defined.

Lemma mem_pool_init_wraps_witness :
  exists s', mem_pool_init (512 * 2 ^ 20) (ex_fresh (Z.to_nat 12192)) = Ret tt s' /\
    pool_size (kernel_pool s') + pool_size (user_pool s') = 254 * 2 ^ 20.
Proof.
  destruct (mem_pool_init_wraps (512 * 2 ^ 20) (ex_fresh (Z.to_nat 12192))) as (s' & E & _ & _ & H);
    [done | apply (ex_fresh_writable 12192); done|].
  exists s'. split; [exact E | exact (H eq_refl)].
Defined.

Lemma palloc_first_free_witness :
  exists i s', palloc KERNEL_POOL (ex_alloc [0xff; 0x05; 0]) = Ret (0x200000 + 4096 * i) s' /\
    bit_at [0xff; 0x05] i = false.
Proof.
  destruct (palloc_first_free KERNEL_POOL [0xff; 0x05] 0 (ex_alloc [0xff; 0x05; 0]))
    as (i & s' & l' & E & _ & Hf & _); [now apply ex_pool_holds | right; now left|].
  exists i, s'. split; [exact E | exact Hf].
Defined.

Lemma palloc_never_repeats_witness :
  exists pages s', pallocs KERNEL_POOL 7 (ex_alloc [0xff; 0x04; 0]) = Ret pages s' /\
    length pages = 7%nat /\ NoDup pages.
Proof.
  destruct (palloc_never_repeats KERNEL_POOL [0xff; 0x04] 0 7 (ex_alloc [0xff; 0x04; 0]))
    as (pages & s' & E & Hl & Hnd & _); [now apply ex_pool_holds | vm_compute; lia|].
  exists pages, s'. split; [exact E|]. split; [exact Hl | exact Hnd].
Defined.

Lemma palloc_exhausted_hangs_witness :
  exists s', palloc KERNEL_POOL (ex_alloc [0xff; 0xff; 0]) = Stop Hang s' /\ if_set s' = false.
Proof.
  destruct (palloc_exhausted_hangs KERNEL_POOL [0xff; 0xff] 0 (ex_alloc [0xff; 0xff; 0]))
    as (s' & E & Hif & _); [now apply ex_pool_holds | repeat constructor|].
  exists s'. split; [exact E | exact Hif].
Defined.

Lemma vaddr_get_contiguous_witness :
  exists r s', vaddr_get PF_KERNEL 3 (ex_alloc [0xff; 0x05; 0]) =
      Ret (u32 (K_HEAP_START + PG_SIZE * r)) s' /\
    free_run [0xff; 0x05; 0] r 3 /\ forall r', 0 <= r' < r -> ~ free_run [0xff; 0x05; 0] r' 3.
Proof.
  destruct (vaddr_get_contiguous [0xff; 0x05] 0 3 (ex_alloc [0xff; 0x05; 0]))
    as [[_ Hno]|(r & s' & l' & E & Hf & Hmin & _)].
  - apply (ex_pool_holds 0xff 0x05 0). reflexivity.
  - now apply flat_check_bytes_at.
  - right. now left.
  - lia.
  - reflexivity.
  - destruct (Hno 11); [lia | cbn; lia|]. intros j Hj.
    assert (j = 11 \/ j = 12 \/ j = 13) as [-> | [-> | ->]] by lia; reflexivity.
  - exists r, s'. split; [exact E|]. split; [exact Hf | exact Hmin].
Defined.

Lemma malloc_page_rejects_witness :
  malloc_page PF_USER 7 (ex_alloc [0; 0; 0]) = Ret NULL (ex_alloc [0; 0; 0]) /\
  exists s', malloc_page PF_KERNEL 0 (ex_alloc [0; 0; 0]) = Stop Hang s' /\
    if_set s' = false /\ k_mem s' = k_mem (ex_alloc [0; 0; 0]).
Proof.
  split.
  - apply (malloc_page_rejects PF_USER 7 (ex_alloc [0; 0; 0])). lia.
  - apply (malloc_page_rejects PF_KERNEL 0 (ex_alloc [0; 0; 0])); [done | lia].
Defined.
