(* ===== verification/PageMap.v ===== *)
(** * PageMap: page-table updates and kernel page allocation on the machine

    [page_table_add], [malloc_page] and [get_kernel_pages] of kernel/memory.c
    run on the paged machine with the tables of boot/loader.S: which entries
    they write through the self map, and what the returned addresses map to. *)

From stdpp Require Import base numbers list strings gmap.
From S2P Require Import Prelude Machine FlatMemory Interrupt Str Bitmap Paging PageAlloc.
From Stdlib Require Import ZArith Lia.
Open Scope Z_scope.

(** Entry [i] of the page table that maps the first 4 MiB, both at 0 and at
    0xc0000000. *)
Definition low_table : Z := 0x101000.
Definition low_entry (m : paged) (i : Z) : Z := pread32 m (low_table + 4 * i).

Definition entry_target (e off : Z) : option Z :=
  if present e then Some (frame e + off) else None.

(** Both windows on the first 4 MiB go through the low table. *)
Lemma translate_low_table m base a :
  boot_tables m -> base = 0 \/ base = KERNEL_BASE -> 0 <= a < 0x400000 ->
  translate m (base + a) = entry_target (low_entry m (a / 4096)) (a mod 4096).
Proof.
  intros Hb Hbase Ha. pose proof (Z.div_mod a 4096 ltac:(lia)) as Hdm.
  pose proof (Z.mod_pos_bound a 4096 ltac:(lia)) as Hm.
  assert (Hp : exists p, base = p * 2 ^ 22 /\ 0 <= p < 1023 /\ setup_pde p = 0x101007)
    by (destruct Hbase as [-> | ->]; [now exists 0 | now exists 768]).
  destruct Hp as (p & Ep & Hp & Hpde).
  destruct (pdx_split (base + a) p (a / 4096) (a mod 4096)) as (E1 & E2 & E3); [lia..|].
  assert (Hd : pde_of m (base + a) = 0x101007) by (rewrite boot_pde, E1 by (done || lia); done).
  unfold translate, entry_target, pte_of, pte_addr. rewrite Hd, E2, E3.
  now replace ((0 <=? base + a) && (base + a <? 2 ^ 32)) with true by lia.
Qed.

Lemma present_land e : (Z.land e 1 =? 0) = negb (present e).
Proof. exact (land_shiftl_one_eqb e 0 ltac:(lia)). Qed.

(** Loads and stores through the self map. *)
Lemma peek32_at (s : kernel paged) va pa :
  va mod 4 = 0 -> translate (k_mem s) va = Some pa ->
  peek32 va s = Ret (pread32 (k_mem s) pa) s.
Proof.
  intros Ha Ht. unfold peek32. cbn. unfold paged_load32. rewrite <- aligned_in_page by done.
  now rewrite Ht.
Qed.

Lemma poke32_at (s : kernel paged) va pa v :
  va mod 4 = 0 -> translate (k_mem s) va = Some pa ->
  poke32 va v s = Ret tt (set_mem (pwrite32 (k_mem s) pa (u32 v)) s).
Proof.
  intros Ha Ht. unfold poke32. cbn. unfold paged_store32. rewrite <- aligned_in_page by done.
  now rewrite Ht.
Qed.

Lemma page_attr_eq i : page_attr (4096 * i) = 4096 * i + 7.
Proof.
  unfold page_attr. rewrite <- !Z.lor_assoc. change (Z.lor PG_US_U (Z.lor PG_RW_W PG_P_1)) with 7.
  apply lor_disjoint_add. apply Z.bits_inj'. intros j Hj. rewrite Z.land_spec, Z.testbit_0_l.
  replace (4096 * i) with (Z.shiftl i 12) by (rewrite Z.shiftl_mul_pow2; lia).
  destruct (Z.ltb_spec j 12).
  - now rewrite Z.shiftl_spec_low.
  - change 7 with (Z.ones 3). rewrite Z.ones_spec_high by lia. apply andb_false_r.
Qed.

(** The frame and the address of the entry of page [i] of the first 4 MiB. *)
Lemma low_page_index i :
  0 <= i < 1024 -> is_u32 (4096 * i) /\ pdx (4096 * i) = 0 /\ ptx (4096 * i) = i.
Proof.
  intros Hi. destruct (pdx_split (4096 * i) 0 i 0) as (E1 & E2 & _); [lia..|].
  unfold is_u32. split; [lia | done].
Qed.

Lemma pte_addr_low m i :
  boot_tables m -> 0 <= i < 1024 ->
  pte_addr m (4096 * i) = low_table + 4 * i /\ present (pde_of m (4096 * i)) = true.
Proof.
  intros Hb Hi. destruct (low_page_index i Hi) as (Hu & E1 & E2). unfold is_u32 in Hu.
  assert (Hd : pde_of m (4096 * i) = 0x101007) by (rewrite boot_pde, E1 by (done || lia); done).
  unfold pte_addr. rewrite Hd, E2. done.
Qed.

(** ** Writing an entry of the low table *)

Section table_write.
  Context (m : paged) (i v : Z).
  Context (Hb : boot_tables m) (Hi : 256 <= i < 1024) (Hv : is_u32 v).
Let m' := pwrite32 m (low_table + 4 * i) v.

Lemma low_entry_write j : 0 <= j < 1024 ->
  low_entry m' j = if j =? i then v else low_entry m j.
Proof.
  intros Hj. unfold low_entry, m'. destruct (Z.eqb_spec j i) as [->|Hne].
  - now apply pread32_pwrite32_same.
  - apply pread32_pwrite32_other. lia.
Qed.

Lemma boot_tables_write : boot_tables m'.
Proof.
  destruct Hb as (Hc & Hd & Ht). split; [done|].
  split; intros p Hp; unfold m'; rewrite pread32_pwrite32_other;
    auto; unfold low_table, PAGE_DIR_TABLE_POS; lia.
Qed.

(** RAM is not affected. *)
Lemma bytes_at_write a l : bytes_at m a l -> bytes_at m' a l.
Proof.
  intros (Ha & Hl & Hbytes). split; [done|]. split; [done|]. intros j b Hj.
  destruct (Hbytes j b Hj) as (Hbyte & (Hm & Hva & Hpb) & Hld). split; [done|].
  pose proof (boot_kernel_maps _ boot_tables_write) as Hm'.
  assert (Hsame : pread8 m' (a + Z.of_nat j - KERNEL_BASE) =
    pread8 m (a + Z.of_nat j - KERNEL_BASE)).
  { unfold m'. rewrite pread8_pwrite32, decide_False; [done|].
    unfold low_table, KERNEL_BASE, LOW_MEM in *. lia. }
  split; [split; [done|]; split; [done|]; now rewrite Hsame|].
  cbn in *. unfold paged_load8 in *. rewrite translate_low in Hld |- * by done.
  cbn in *. now rewrite Hsame.
Qed.

End table_write.

(** ** page_table_add *)

(** With the directory entry of [vaddr] present and the frame [4096 * i] below
    4 MiB, the entry that is tested and written is the one of the frame's own
    address. *)
Lemma page_table_add_spec (s : kernel paged) vaddr i :
  boot_tables (k_mem s) -> KERNEL_BASE <= vaddr < 2 ^ 32 - 0x400000 -> 0 <= i < 1024 ->
  present (low_entry (k_mem s) i) = false ->
  page_table_add vaddr (4096 * i) s =
    Ret tt (set_mem (pwrite32 (k_mem s) (low_table + 4 * i) (4096 * i + 7)) s).
Proof.
  intros Hb Hva Hi Hnp. destruct (low_page_index i Hi) as (Hu & _ & _).
  assert (Huv : is_u32 vaddr) by (unfold is_u32, KERNEL_BASE in *; lia).
  pose proof (boot_self_map _ Hb) as Hself.
  destruct (pte_addr_low _ i Hb Hi) as [Epte Hpde].
  unfold page_table_add. rewrite (u32_small vaddr), (u32_small (4096 * i)) by done. cbv zeta.
  erewrite bind_Ret by exact (peek32_at s _ _ (proj1 (ptr_aligned vaddr Huv))
    (translate_pde_ptr _ _ Hself Huv)).
  assert (Hd : present (pread32 (k_mem s) (pde_addr (k_mem s) vaddr)) = true).
  { fold (pde_of (k_mem s) vaddr). unfold is_u32, KERNEL_BASE in *. rewrite boot_pde by (done || lia).
    assert (768 <= pdx vaddr < 1023).
    { unfold pdx. split; [apply Z.div_le_lower_bound | apply Z.div_lt_upper_bound]; lia. }
    unfold setup_pde. destruct (Z.eqb_spec (pdx vaddr) 0), (Z.eqb_spec (pdx vaddr) 768),
      (Z.eqb_spec (pdx vaddr) 1023), (Z.leb_spec 769 (pdx vaddr)); try lia; try done. cbn [orb].
    unfold present. rewrite Z.bit0_odd.
    replace (0x102007 + 0x1000 * (pdx vaddr - 769)) with
      (1 + 2 * (0x81003 + 0x800 * (pdx vaddr - 769))) by lia. now rewrite Z.odd_add_mul_2. }
  rewrite present_land, Hd. cbn [negb].
  assert (Hpeek : peek32 (pte_ptr (4096 * i)) s = Ret (low_entry (k_mem s) i) s).
  { rewrite (peek32_at _ _ (low_table + 4 * i)); [done | now apply ptr_aligned|].
    rewrite translate_pte_ptr by done. now rewrite Hpde, Epte. }
  erewrite bind_Ret by exact Hpeek. unfold assert_mem, ASSERT.
  rewrite present_land, Hnp. cbn [negb]. erewrite bind_Ret by reflexivity.
  erewrite bind_Ret by exact Hpeek. rewrite present_land, Hnp. cbn [negb].
  rewrite (poke32_at _ _ (low_table + 4 * i)); [|now apply ptr_aligned|].
  - rewrite page_attr_eq, u32_small by (unfold is_u32; lia). done.
  - rewrite translate_pte_ptr by done. now rewrite Hpde, Epte.
Qed.

(** A frame whose own address has no page table. *)
Lemma page_table_add_faults (s : kernel paged) vaddr page :
  boot_tables (k_mem s) -> KERNEL_BASE <= vaddr < KERNEL_BASE + 0x400000 -> is_u32 page ->
  present (setup_pde (pdx page)) = false ->
  page_table_add vaddr page s = Stop (Fault (pte_ptr page)) s.
Proof.
  intros Hb Hva Hu Hnp. pose proof (boot_self_map _ Hb) as Hself. unfold KERNEL_BASE in Hva.
  assert (Huv : is_u32 vaddr) by (unfold is_u32; lia).
  assert (Hpdx : pdx vaddr = 768).
  { unfold pdx. symmetry. apply Z.div_unique with (vaddr - 0xc0000000); lia. }
  unfold page_table_add. rewrite (u32_small vaddr), (u32_small page) by done. cbv zeta.
  erewrite bind_Ret by exact (peek32_at s _ _ (proj1 (ptr_aligned vaddr Huv))
    (translate_pde_ptr _ _ Hself Huv)).
  fold (pde_of (k_mem s) vaddr). rewrite boot_pde, Hpdx by (done || lia).
  change (negb (Z.land (setup_pde 768) 1 =? 0)) with true. cbv iota. apply bind_Stop.
  unfold peek32. cbn. unfold paged_load32. rewrite <- aligned_in_page by now apply ptr_aligned.
  unfold is_u32 in Hu. rewrite translate_pte_ptr, boot_pde, Hnp by (done || lia). done.
Qed.

(** A frame entered with its attributes. *)
Lemma entry_target_frame i : entry_target (4096 * i + 7) 0 = Some (4096 * i).
Proof.
  unfold entry_target, frame, present. rewrite Z.bit0_odd.
  replace (4096 * i + 7) with (1 + 2 * (2048 * i + 3)) at 1 by lia.
  rewrite Z.odd_add_mul_2. cbn [Z.odd]. f_equal.
  replace ((4096 * i + 7) / 4096) with i; [lia | apply Z.div_unique with 7; lia].
Qed.

(** ** The kernel heap *)

(** The first [k] bits are used and the others free. *)
Definition used_upto (l : list Z) (k : Z) : Prop :=
  forall j, 0 <= j < 8 * Z.of_nat (length l) -> bit_at l j = (j <? k).

(** [k] pages of the kernel pool were handed out by [malloc_page]: the first
    [k] frames from 2 MiB on are entered in the low table at their own index,
    the other entries above 1 MiB are not present. *)
Definition pool_state (s : kernel paged) (k : Z) : Prop :=
  boot_tables (k_mem s) /\ 0 <= k <= 512 /\
  (forall i, 512 <= i < 512 + k -> low_entry (k_mem s) i = 4096 * i + 7) /\
  (forall i, 256 <= i < 512 \/ 512 + k <= i < 1024 -> present (low_entry (k_mem s) i) = false) /\
  phy_addr_start (kernel_pool s) = 0x200000 /\
  exists l g, pool_holds (k_mem s) (kernel_pool s) l g /\ used_upto l k.

(** [k] pages of the kernel's virtual pool were handed out. *)
Definition vaddr_state (s : kernel paged) (k : Z) : Prop :=
  let btmp := vaddr_bitmap (kernel_vaddr s) in
  vaddr_start (kernel_vaddr s) = K_HEAP_START /\ btmp_bytes_len btmp < 2 ^ 14 /\
  exists l g, bitmap_holds (k_mem s) btmp l /\ bytes_at (k_mem s) (bits btmp) (l ++ [g]) /\
    used_upto l k.

(** The virtual bitmap lies behind the pool's bitmap and the byte behind it. *)
Definition heap_state (s : kernel paged) (k : Z) : Prop :=
  pool_state s k /\ vaddr_state s k /\
  bits (pool_bitmap (kernel_pool s)) + btmp_bytes_len (pool_bitmap (kernel_pool s)) + 1 <=
    bits (vaddr_bitmap (kernel_vaddr s)).

Definition pool_bits (p : pool) : Z := 8 * btmp_bytes_len (pool_bitmap p).
Definition vaddr_bits (v : virtual_addr) : Z := 8 * btmp_bytes_len (vaddr_bitmap v).

Lemma used_upto_has_free l k : used_upto l k -> 0 <= k < 8 * Z.of_nat (length l) -> has_free l.
Proof.
  intros Hu Hk. apply (free_set_has_free l k), elem_of_free_set. split; [done|].
  rewrite Hu by done. apply Z.ltb_irrefl.
Qed.

Lemma used_upto_next l k :
  used_upto l k -> 0 <= k < 8 * Z.of_nat (length l) -> used_upto (set_bit l k true) (k + 1).
Proof.
  intros Hu Hk j Hj. rewrite set_bit_length in Hj. rewrite bit_at_set_bit, Hu by lia.
  destruct (Z.eqb_spec j k), (Z.ltb_spec j k), (Z.ltb_spec j (k + 1)); lia || done.
Qed.

(** First fit after the first [k] bits. *)
Lemma used_upto_first_fit l g k cnt lim r :
  used_upto l k -> 0 <= k -> 1 <= cnt -> k + cnt <= 8 * Z.of_nat (length l) ->
  8 * Z.of_nat (length l) <= lim -> first_fit (l ++ [g]) cnt lim r -> r = k.
Proof.
  intros Hu Hk Hc Hle Hlim Hff.
  assert (Hrun : free_run (l ++ [g]) k cnt).
  { intros j Hj. rewrite bit_at_app_l, Hu by lia. apply Z.ltb_ge. lia. }
  destruct Hff as [(Hr & _ & Hf & Hmin)|(-> & Hno)].
  - destruct (Z.lt_trichotomy r k) as [Hlt|[->|Hgt]]; [|done|].
    + specialize (Hf r ltac:(lia)). rewrite bit_at_app_l, Hu in Hf by lia. lia.
    + now destruct (Hmin k).
  - destruct (Hno k); [lia | lia | done].
Qed.

Lemma boot_tables_keeps m m' : keeps_tables m m' -> boot_tables m -> boot_tables m'.
Proof.
  intros Hk (Hc & Hd & Ht). pose proof Hk as [Hc' _]. split; [congruence|].
  split; intros p Hp; rewrite (pread32_keeps m m') by (done || (unfold LOW_MEM, PAGE_DIR_TABLE_POS; lia));
    auto.
Qed.

Lemma low_entry_keeps m m' i : keeps_tables m m' -> 0 <= i -> low_entry m' i = low_entry m i.
Proof.
  intros Hk Hi. apply pread32_keeps; [done|]. unfold LOW_MEM, low_table. lia.
Qed.

(** One page: [palloc] and [page_table_add]. *)
Lemma alloc_step s k vaddr :
  pool_state s k -> k < 512 -> k < pool_bits (kernel_pool s) ->
  KERNEL_BASE <= vaddr < 2 ^ 32 - 0x400000 ->
  exists s1 s', palloc KERNEL_POOL s = Ret (4096 * (512 + k)) s1 /\
    page_table_add vaddr (4096 * (512 + k)) s1 = Ret tt s' /\ pool_state s' (k + 1) /\
    kernel_pool s' = kernel_pool s /\ kernel_vaddr s' = kernel_vaddr s /\
    forall a l, bits (pool_bitmap (kernel_pool s)) +
        btmp_bytes_len (pool_bitmap (kernel_pool s)) <= a ->
      bytes_at (k_mem s) a l -> bytes_at (k_mem s') a l.
Proof.
  intros (Hb & Hk & Hent & Hfree & Hphy & l & g & Hp & Hu) Hk' Hroom Hva.
  pose proof Hp as ((Hlen & _) & _). unfold pool_bits in Hroom. rewrite Hlen in Hroom.
  destruct (wp_run _ _ _ (palloc_spec KERNEL_POOL l g s Hp (used_upto_has_free l k Hu ltac:(lia))))
    as (r & s1 & E & i & -> & Hi & Hfr & Hus & Ht & Hp1). cbn [the_pool] in *.
  assert (i = k) as ->.
  { destruct (Z.lt_trichotomy i k) as [Hlt|[->|Hgt]]; [|done|].
    - rewrite Hu in Hfr by lia. lia.
    - specialize (Hus k ltac:(lia)). rewrite Hu in Hus by lia. lia. }
  replace (phy_addr_start (kernel_pool s) + PG_SIZE * k) with (4096 * (512 + k)) in E
    by (unfold PG_SIZE; lia).
  pose proof Ht as [Es1 (_ & _ & Hkeep)].
  pose proof (boot_tables_keeps _ _ Hkeep Hb) as Hb1.
  assert (Hent1 : forall i, 0 <= i -> low_entry (k_mem s1) i = low_entry (k_mem s) i)
    by (intros; now apply low_entry_keeps).
  assert (Hnp : present (low_entry (k_mem s1) (512 + k)) = false)
    by (rewrite Hent1 by lia; apply Hfree; lia).
  eexists s1, _. split; [exact E|].
  split; [apply page_table_add_spec; [done | done | lia | done]|].
  set (m1 := k_mem s1) in *. cbn [k_mem set_mem kernel_pool kernel_vaddr].
  assert (Hw : 256 <= 512 + k < 1024) by lia.
  assert (Hv : is_u32 (4096 * (512 + k) + 7)) by (unfold is_u32; lia).
  assert (Hpool : kernel_pool s1 = kernel_pool s) by now rewrite Es1.
  assert (Hkv : kernel_vaddr s1 = kernel_vaddr s) by now rewrite Es1.
  pose proof (low_entry_write m1 (512 + k) _ Hv) as Hlw.
  pose proof (bytes_at_write m1 _ (4096 * (512 + k) + 7) Hb1 Hw) as Hbw.
  split; [|split; [done|]; split; [done|]].
  - split; [now apply boot_tables_write|]. split; [lia|].
    cbn [k_mem set_mem kernel_pool]. split; [|split; [|split; [now rewrite Hpool|]]].
    + intros i Hi'. rewrite Hlw by lia. destruct (Z.eqb_spec i (512 + k)) as [->|]; [done|].
      unfold m1. rewrite Hent1 by lia. apply Hent. lia.
    + intros i Hi'. rewrite Hlw by lia. destruct (Z.eqb_spec i (512 + k)); [lia|].
      unfold m1. rewrite Hent1 by lia. apply Hfree. lia.
    + exists (set_bit l k true), g. split; [|now apply used_upto_next].
      rewrite Hpool. destruct Hp1 as ((A1 & A2 & A3 & A4 & A5) & A6 & A7).
      split; [|split; [apply Hbw, A6 | exact A7]].
      split; [done|]. split; [done|]. split; [done|]. split; [done|]. apply Hbw, A5.
  - intros a l' Ha Hl'. apply Hbw. eapply bytes_at_touches; [exact Hl' | exact Ht|].
    right. now rewrite <- Hlen.
Qed.

(** The loop of [malloc_page]. *)
Lemma malloc_pages_spec s k n vaddr :
  pool_state s k -> 0 <= n -> k + n <= 512 -> k + n <= pool_bits (kernel_pool s) ->
  KERNEL_BASE <= vaddr -> vaddr + PG_SIZE * n < 2 ^ 32 - 0x400000 ->
  wp (malloc_pages KERNEL_POOL vaddr n) (fun r s' => r = vaddr /\ pool_state s' (k + n) /\
    kernel_pool s' = kernel_pool s /\ kernel_vaddr s' = kernel_vaddr s /\
    forall a l, bits (pool_bitmap (kernel_pool s)) +
        btmp_bytes_len (pool_bitmap (kernel_pool s)) <= a ->
      bytes_at (k_mem s) a l -> bytes_at (k_mem s') a l) s.
Proof.
  intros Hp Hn Hk Hroom Hva Hmax. unfold malloc_pages, PG_SIZE in *.
  assert (KERNEL_BASE = 0xc0000000) by done.
  apply wp_loop with (meas := fun '(_, cnt) => cnt)
    (Inv := fun '(v, cnt) s' => exists d, 0 <= d <= n /\ v = vaddr + 4096 * d /\ cnt = n - d /\
      pool_state s' (k + d) /\ kernel_pool s' = kernel_pool s /\
      kernel_vaddr s' = kernel_vaddr s /\
      forall a l, bits (pool_bitmap (kernel_pool s)) +
          btmp_bytes_len (pool_bitmap (kernel_pool s)) <= a ->
        bytes_at (k_mem s) a l -> bytes_at (k_mem s') a l).
  - intros [v cnt] s1 (d & Hd & -> & -> & Hp1 & Ekp & Ekv & Hb1).
    rewrite Z.gtb_ltb. destruct (Z.ltb_spec 0 (n - d)).
    + destruct (alloc_step s1 (k + d) (vaddr + 4096 * d) Hp1)
        as (s2 & s3 & E1 & E2 & Hp3 & Ekp3 & Ekv3 & Hb3); [lia | now rewrite Ekp; lia | lia |].
      wp_step. unfold wp at 1. rewrite E1.
      replace (4096 * (512 + (k + d)) =? NULL) with false
        by (destruct Hp1 as (_ & ? & _); unfold NULL; lia).
      wp_step. unfold wp at 1. rewrite E2. wp_step.
      rewrite !u32_small by (unfold is_u32; lia). split; [|lia].
      exists (d + 1). split; [lia|]. split; [lia|]. split; [lia|].
      rewrite Z.add_assoc. split; [done|]. split; [congruence|]. split; [congruence|].
      intros a l Ha Hl. apply Hb3; [now rewrite Ekp | now apply Hb1].
    + wp_step. replace n with d by lia. done.
  - intros [v cnt] s1 (d & Hd & _ & -> & _). lia.
  - exists 0. rewrite !Z.add_0_r, Z.sub_0_r. split; [lia|]. split; [lia|]. done.
  - lia.
Qed.

(** Reserving virtual pages. *)
Lemma vaddr_step s k n :
  vaddr_state s k -> 0 <= k -> 1 <= n -> k + n <= vaddr_bits (kernel_vaddr s) ->
  exists s1, vaddr_get PF_KERNEL n s = Ret (K_HEAP_START + PG_SIZE * k) s1 /\
    vaddr_state s1 (k + n) /\
    touches (bits (vaddr_bitmap (kernel_vaddr s))) (2 ^ 32) s s1.
Proof.
  intros (Hst & Hlen14 & l & g & Hh & Hb & Hu) Hk Hn Hroom.
  pose proof Hh as (Hlen & Hbu & Hbn & Hmax & Hbl).
  set (btmp := vaddr_bitmap (kernel_vaddr s)) in *. unfold vaddr_bits in Hroom. fold btmp in Hroom.
  rewrite Hlen in Hroom, Hlen14.
  destruct (vaddr_get_spec l g n s Hh Hb (used_upto_has_free l k Hu ltac:(lia)) ltac:(lia) ltac:(lia))
    as (r & Hff & _ & Hsome).
  eapply used_upto_first_fit in Hff; [|exact Hu | lia | lia | lia | destruct (n =? 1); lia].
  subst r. destruct (Hsome ltac:(lia)) as (s1 & l' & E & Ht & Hb' & [Hl' Hbits]).
  fold btmp in Ht, Hb'. rewrite length_app in Hl', Hbits. cbn [length] in Hl', Hbits.
  exists s1. rewrite Hst in E. unfold PG_SIZE, K_HEAP_START in *.
  rewrite u32_small in E by (unfold is_u32; lia). split; [exact E|].
  pose proof Ht as [Es _].
  assert (Hmax' : bits btmp + Z.of_nat (length l) + 1 <= 2 ^ 32).
  { destruct Hb as (_ & Hx & _). rewrite length_app in Hx. cbn in Hx. lia. }
  split; [|eapply touches_weaken; [exact Ht | lia | lia]].
  unfold vaddr_state. rewrite Es. cbn [kernel_vaddr set_mem k_mem]. fold btmp.
  split; [done|]. rewrite Hlen. split; [done|].
  destruct (List.exists_last (l := l')) as (l1 & g' & ->); [intros ->; cbn in Hl'; lia|].
  rewrite length_app in Hl'. cbn [length] in Hl'.
  assert (Hl1 : length l1 = length l) by lia.
  exists l1, g'. split; [|split; [exact Hb'|]].
  - unfold bitmap_holds. rewrite Hl1. repeat (split; [done || lia|]).
    now apply bytes_at_app in Hb' as [Hb' _]; [|now destruct Hb].
  - intros j Hj. rewrite Hl1 in Hj. specialize (Hbits j ltac:(lia)).
    rewrite !bit_at_app_l, Hu in Hbits by lia. rewrite Hbits.
    destruct (Z.leb_spec k j), (Z.ltb_spec j (k + n)), (Z.ltb_spec j k); lia || done.
Qed.

(** The pool is not disturbed by a change behind its guard byte. *)
Lemma pool_state_touches lo s s' k :
  pool_state s k -> touches lo (2 ^ 32) s s' ->
  bits (pool_bitmap (kernel_pool s)) + btmp_bytes_len (pool_bitmap (kernel_pool s)) + 1 <= lo ->
  pool_state s' k.
Proof.
  intros (Hb & Hk & Hent & Hfree & Hphy & l & g & (Hh & Hg & Hr) & Hu) [Es Hm] Hlo.
  pose proof Hm as (_ & _ & Hkeep). pose proof Hh as (Hlen & Hu32 & Hn & Hmax & Hbl).
  rewrite Es. unfold pool_state. cbn [k_mem set_mem kernel_pool].
  split; [now apply (boot_tables_keeps (k_mem s))|]. split; [done|].
  split; [intros; rewrite (low_entry_keeps (k_mem s)) by (done || lia); now apply Hent|].
  split; [intros; rewrite (low_entry_keeps (k_mem s)) by (done || lia); now apply Hfree|].
  split; [done|]. exists l, g. split; [|done]. split; [|split; [|exact Hr]].
  - repeat (split; [done|]). eapply bytes_at_mod; [exact Hbl | exact Hm | lia].
  - eapply bytes_at_mod; [exact Hg | exact Hm | rewrite length_app; cbn; lia].
Qed.

(** The whole allocation. *)
Lemma malloc_page_spec s k n :
  heap_state s k -> 1 <= n -> k + n <= 512 -> k + n <= pool_bits (kernel_pool s) ->
  k + n <= vaddr_bits (kernel_vaddr s) ->
  exists s', malloc_page PF_KERNEL n s = Ret (K_HEAP_START + PG_SIZE * k) s' /\
    heap_state s' (k + n) /\ kernel_pool s' = kernel_pool s /\ kernel_vaddr s' = kernel_vaddr s.
Proof.
  intros (Hp & Hv & Hd) Hn Hk Hkp Hkv. pose proof Hp as (_ & Hk0 & _).
  destruct (vaddr_step s k n Hv ltac:(lia) Hn Hkv) as (s1 & E1 & Hv1 & Ht1).
  pose proof Ht1 as [Es1 _].
  assert (Ekp : kernel_pool s1 = kernel_pool s) by now rewrite Es1.
  assert (Ekv : kernel_vaddr s1 = kernel_vaddr s) by now rewrite Es1.
  pose proof (pool_state_touches _ _ _ _ Hp Ht1 Hd) as Hp1.
  set (ret0 := K_HEAP_START + PG_SIZE * k) in *.
  destruct (wp_run _ _ _ (malloc_pages_spec s1 k n ret0 Hp1 ltac:(lia) Hk ltac:(now rewrite Ekp)
    ltac:(unfold ret0, PG_SIZE, KERNEL_BASE, K_HEAP_START; lia)
    ltac:(unfold ret0, PG_SIZE, K_HEAP_START; lia)))
    as (r & s2 & E2 & -> & Hp2 & Ekp2 & Ekv2 & Hb2).
  exists s2. split; [|split; [|split; congruence]].
  - unfold malloc_page, assert_mem. replace ((n >? 0) && (n <? 3840)) with true by lia.
    erewrite bind_Ret by reflexivity. erewrite bind_Ret by exact E1.
    replace (ret0 =? NULL) with false by (unfold ret0, NULL, PG_SIZE, K_HEAP_START; lia).
    exact E2.
  - split; [done|]. rewrite Ekp2, Ekv2, Ekp, Ekv. split; [|done].
    destruct Hv1 as (Hst & Hlen & l & g & (A1 & A2 & A3 & A4 & A5) & Hg & Hu).
    unfold vaddr_state. rewrite Ekv2. split; [done|]. split; [done|]. exists l, g.
    rewrite Ekp, Ekv in *.
    split; [|split; [apply Hb2; [lia | exact Hg] | exact Hu]].
    repeat (split; [done|]). apply Hb2; [lia | exact A5].
Qed.

(** A zeroed bitmap with a byte behind it. *)
Lemma zero_bitmap (m : paged) base len :
  0 < base < 2 ^ 32 -> 0 <= len < 2 ^ 16 ->
  bytes_at m base (replicate (Z.to_nat len) 0) ->
  bitmap_holds m (Bitmap len base) (replicate (Z.to_nat len) 0) /\
  used_upto (replicate (Z.to_nat len) 0) 0.
Proof.
  intros Hb Hl Hbytes. set (z := replicate (Z.to_nat len) 0) in *.
  assert (Hz : Z.of_nat (length z) = len) by (unfold z; rewrite length_replicate; lia).
  split.
  - unfold bitmap_holds, is_u32, NULL. rewrite Hz. cbn [btmp_bytes_len bits].
    split; [done|]. split; [lia|]. split; [lia|]. split; [lia | done].
  - intros j Hj. unfold bit_at.
    destruct (lookup_lt_is_Some_2 z _ (bit_index_lt z j Hj)) as [b Eb].
    rewrite (list_lookup_total_correct _ _ _ Eb). apply lookup_replicate in Eb as [-> _].
    rewrite Z.testbit_0_l. symmetry. apply Z.ltb_ge. lia.
Qed.

(** A byte of RAM behind a range. *)
Lemma bytes_at_guard (m : paged) base l :
  0 <= base -> bytes_at m base l -> ram m (base + Z.of_nat (length l)) ->
  exists g, bytes_at m base (l ++ [g]).
Proof.
  intros Hb Hl Hr. destruct (ram_load _ _ Hr) as (g & Hg & Hbyte). exists g.
  pose proof (ram_addr _ _ Hr) as Ha. unfold is_u32 in Ha.
  apply bytes_at_app; [done|]. split; [done|]. split; [lia|]. split; [cbn; lia|].
  intros [|i] b E; cbn in E; simplify_eq. now rewrite Z.add_0_r.
Qed.

(** [mem_init] starts the heap. *)
Lemma mem_init_heap (s : kernel paged) all_mem :
  boot_tables (k_mem s) ->
  (forall i, 256 <= i < 1024 -> present (low_entry (k_mem s) i) = false) ->
  load32 (k_mem s) 0xb00 = Some all_mem -> 8 <= user_pages all_mem ->
  writable (k_mem s) MEM_BITMAP_BASE (2 * kbm_length all_mem + ubm_length all_mem + 1) ->
  exists s', mem_init s = Ret tt s' /\ heap_state s' 0 /\
    kernel_pool s' = kernel_pool_of all_mem /\ kernel_vaddr s' = kernel_vaddr_of all_mem /\
    k_eflags s' = k_eflags s.
Proof.
  intros Hb Hfree Hld Hup Hw. set (a := all_mem) in *.
  set (s0 := emit (PutStr ("mem_init start" +:+ nl)) s).
  pose proof (layout_ranges a) as (Hf & Hk & Hu & Hku & Hs & Hkb & Hub).
  assert (Hub1 : 1 <= ubm_length a) by (apply Z.div_le_lower_bound; lia).
  assert (Hw0 : writable (k_mem s0) MEM_BITMAP_BASE (2 * kbm_length a + ubm_length a)).
  { destruct Hw as (? & ? & Hr). split; [done|]. split; [lia|]. intros x Hx. apply Hr. lia. }
  destruct (wp_run _ _ _ (mem_pool_init_spec a s0 Hw0))
    as ([] & s1 & E & Hkp & _ & Hkv & Hbytes & Hm & Hfl).
  change (k_mem s0) with (k_mem s) in *. change (k_eflags s0) with (k_eflags s) in Hfl.
  exists (emit (PutStr ("mem_init done" +:+ nl)) s1). split; [|split; [|done]].
  { unfold mem_init. erewrite bind_Ret by reflexivity. fold s0.
    assert (El : peek32 0xb00 s0 = Ret a s0) by (unfold peek32; cbn [k_mem s0 emit]; now rewrite Hld).
    erewrite bind_Ret by exact El. now erewrite bind_Ret by exact E. }
  pose proof Hm as (Hram & _ & Hkeep).
  unfold MEM_BITMAP_BASE in *. set (base := 0xc009a000) in *.
  apply bytes_at_app in Hbytes as [Hbk Hbytes]; [|lia].
  apply bytes_at_app in Hbytes as [Hbu Hbv]; [|rewrite length_replicate; lia].
  rewrite !length_replicate, !Z2Nat.id in * by lia.
  destruct (zero_bitmap (k_mem s1) base (kbm_length a)) as [Hhk Huk]; [lia | lia | done|].
  destruct (zero_bitmap (k_mem s1) (base + kbm_length a + ubm_length a) (kbm_length a))
    as [Hhv Huv]; [lia | lia | done|].
  assert (Hguard : forall x, base <= x < base + (2 * kbm_length a + ubm_length a + 1) ->
    ram (k_mem s1) x) by (intros x Hx; apply Hram; apply Hw; lia).
  set (zk := replicate (Z.to_nat (kbm_length a)) 0) in *.
  assert (Hzk : Z.of_nat (length zk) = kbm_length a) by (unfold zk; rewrite length_replicate; lia).
  split; [|split].
  - split; [now apply (boot_tables_keeps (k_mem s))|]. split; [lia|]. split; [lia|]. split.
    { intros i Hi. cbn [k_mem emit]. rewrite (low_entry_keeps (k_mem s)) by (done || lia).
      apply Hfree. lia. }
    cbn [kernel_pool emit k_mem]. rewrite Hkp. split; [done|].
    destruct (bytes_at_guard (k_mem s1) base zk) as [g Hg]; [lia | done | apply Hguard; lia|].
    exists zk, g. split; [|done]. split; [done|]. split; [exact Hg|].
    rewrite Hzk. cbn. unfold PG_SIZE. lia.
  - unfold vaddr_state. cbn [kernel_vaddr emit k_mem]. rewrite Hkv.
    split; [done|]. split; [cbn; lia|].
    destruct (bytes_at_guard (k_mem s1) (base + kbm_length a + ubm_length a) zk) as [g Hg];
      [lia | done | apply Hguard; lia|].
    exists zk, g. done.
  - cbn [kernel_pool kernel_vaddr emit]. rewrite Hkp, Hkv. cbn. unfold MEM_BITMAP_BASE. lia.
Qed.

(** What the two windows show of the heap's pages. *)
Lemma heap_windows s k j :
  heap_state s k -> 0 <= j < 512 ->
  (j < k -> translate (k_mem s) (0x200000 + PG_SIZE * j) = Some (0x200000 + PG_SIZE * j)) /\
  (j < 256 -> translate (k_mem s) (K_HEAP_START + PG_SIZE * j) = None) /\
  (256 <= j < k + 256 ->
    translate (k_mem s) (K_HEAP_START + PG_SIZE * j) = Some (0x100000 + PG_SIZE * j)).
Proof.
  intros ((Hb & _ & Hent & Hfree & _) & _) Hj. unfold PG_SIZE, K_HEAP_START.
  assert (Hwin : forall base x i, base = 0 \/ base = KERNEL_BASE -> x = base + 4096 * i ->
    0 <= i < 1024 -> translate (k_mem s) x = entry_target (low_entry (k_mem s) i) 0).
  { intros base x i Hbase -> Hi. rewrite translate_low_table by (done || lia).
    rewrite (Z.mul_comm 4096), Z.div_mul, Z_mod_mult by lia. done. }
  split; [|split]; intros Hk.
  - rewrite (Hwin 0 _ (512 + j)) by (lia || now left). rewrite Hent by lia.
    rewrite entry_target_frame. f_equal. lia.
  - rewrite (Hwin KERNEL_BASE _ (256 + j)) by (unfold KERNEL_BASE; lia || now right).
    unfold entry_target. now rewrite Hfree by lia.
  - rewrite (Hwin KERNEL_BASE _ (256 + j)) by (unfold KERNEL_BASE; lia || now right).
    rewrite Hent, entry_target_frame by lia. f_equal. lia.
Qed.

Lemma get_kernel_pages_run s k n :
  heap_state s k -> 1 <= n -> k + n <= 512 -> k + n <= pool_bits (kernel_pool s) ->
  k + n <= vaddr_bits (kernel_vaddr s) ->
  exists s', get_kernel_pages n s = Ret (K_HEAP_START + PG_SIZE * k) s' /\ heap_state s' (k + n).
Proof.
  intros Hh Hn Hk Hkp Hkv. destruct (malloc_page_spec s k n Hh Hn Hk Hkp Hkv)
    as (s' & E & Hh' & _).
  pose proof Hh as ((_ & Hk0 & _) & _). exists s'. split; [|done].
  unfold get_kernel_pages. erewrite bind_Ret by exact E. unfold PG_SIZE, K_HEAP_START, NULL.
  destruct (Z.eqb_spec (0xc0100000 + 4096 * k) 0); [lia | done].
Qed.

(** ** Properties *)

(** [page_table_add], for an address whose page table exists and a frame
    below 4 MiB, enters the frame at the frame's own address: afterwards the
    frame is mapped to itself, and the address that was to be mapped is
    unmapped if it was before, unless the two have the same index. *)
Theorem page_table_add_maps_frame_to_itself (s : kernel paged) a i :
  boot_tables (k_mem s) -> 0 <= a < 0x400000 -> 256 <= i < 1024 -> a / 4096 <> i ->
  present (low_entry (k_mem s) i) = false ->
  exists s', page_table_add (KERNEL_BASE + a) (4096 * i) s = Ret tt s' /\
    translate (k_mem s') (4096 * i) = Some (4096 * i) /\
    translate (k_mem s') (KERNEL_BASE + 4096 * i) = Some (4096 * i) /\
    translate (k_mem s') (KERNEL_BASE + a) = translate (k_mem s) (KERNEL_BASE + a).
Proof.
  intros Hb Ha Hi Hne Hnp. eexists. split.
  { apply page_table_add_spec; [done | unfold KERNEL_BASE; lia | lia | done]. }
  cbn [k_mem set_mem]. assert (Hv : is_u32 (4096 * i + 7)) by (unfold is_u32; lia).
  pose proof (boot_tables_write (k_mem s) i (4096 * i + 7) Hb Hi) as Hb'.
  pose proof (low_entry_write (k_mem s) i _ Hv) as Hw.
  assert (0 <= a / 4096 < 1024) by
    (split; [apply Z.div_pos | apply Z.div_lt_upper_bound]; lia).
  assert (Hm4 : (4096 * i) mod 4096 = 0) by (rewrite Z.mul_comm; apply Z_mod_mult).
  assert (Hd4 : 4096 * i / 4096 = i) by (rewrite Z.mul_comm; apply Z.div_mul; lia).
  assert (Hwin : forall base, base = 0 \/ base = KERNEL_BASE ->
    translate (pwrite32 (k_mem s) (low_table + 4 * i) (4096 * i + 7)) (base + 4096 * i) =
      Some (4096 * i)).
  { intros base Hbase. rewrite translate_low_table, Hd4, Hm4, Hw by (done || lia).
    rewrite Z.eqb_refl. apply entry_target_frame. }
  split; [apply (Hwin 0); now left|]. split; [apply Hwin; now right|].
  rewrite !translate_low_table, Hw by (done || lia || now right).
  now destruct (Z.eqb_spec (a / 4096) i).
Qed.

(** C17: [get_kernel_pages], after [k] pages were handed out, returns the next
    pages of the kernel heap's address range and reserves as many frames, but
    the pages it returns are not mapped to those frames: the frames are mapped
    to themselves, a returned page below 0xc0200000 is not mapped at all, and
    one above it is mapped to the frame 1 MiB below the one reserved for it,
    which was handed out earlier. *)
Theorem get_kernel_pages_maps_other_pages (s : kernel paged) k n :
  heap_state s k -> 1 <= n -> k + n <= 512 -> k + n <= pool_bits (kernel_pool s) ->
  k + n <= vaddr_bits (kernel_vaddr s) ->
  exists s', get_kernel_pages n s = Ret (K_HEAP_START + PG_SIZE * k) s' /\
    heap_state s' (k + n) /\
    forall j, k <= j < k + n ->
      translate (k_mem s') (0x200000 + PG_SIZE * j) = Some (0x200000 + PG_SIZE * j) /\
      translate (k_mem s') (K_HEAP_START + PG_SIZE * j) =
        if j <? 256 then None else Some (0x100000 + PG_SIZE * j).
Proof.
  intros Hh Hn Hk Hkp Hkv. destruct (get_kernel_pages_run s k n Hh Hn Hk Hkp Hkv) as (s' & E & Hh').
  pose proof Hh as ((_ & Hk0 & _) & _). exists s'. split; [done|]. split; [done|]. intros j Hj.
  destruct (heap_windows s' (k + n) j Hh' ltac:(lia)) as (H1 & H2 & H3).
  split; [apply H1; lia|]. destruct (Z.ltb_spec j 256); [apply H2; lia | apply H3; lia].
Qed.

(** C18: once 512 pages were handed out, the next [get_kernel_pages] does not
    return: the frame at 4 MiB has no page table at its own address, so the
    test of its entry is an access to unmapped memory. *)
Theorem get_kernel_pages_faults_at_4MiB (s : kernel paged) n :
  heap_state s 512 -> 1 <= n < 3840 -> 512 + n <= vaddr_bits (kernel_vaddr s) ->
  512 < pool_bits (kernel_pool s) ->
  exists s', get_kernel_pages n s = Stop (Fault 0xffc01000) s'.
Proof.
  intros (Hp & Hv & Hd) Hn Hkv Hkp.
  destruct (vaddr_step s 512 n Hv ltac:(lia) ltac:(lia) Hkv) as (s1 & E1 & _ & Ht1).
  assert (Ekp : kernel_pool s1 = kernel_pool s) by now destruct Ht1 as [-> _].
  pose proof (pool_state_touches _ _ _ _ Hp Ht1 Hd) as (Hb & _ & _ & _ & Hphy & l & g & Hh & Hu).
  pose proof Hh as ((Hlen & _) & _). unfold pool_bits in Hkp. rewrite <- Ekp, Hlen in Hkp.
  destruct (wp_run _ _ _ (palloc_spec KERNEL_POOL l g s1 Hh (used_upto_has_free l 512 Hu ltac:(lia))))
    as (r & s2 & E2 & i & -> & Hi & Hfr & Hus & [_ (_ & _ & Hkeep)] & _). cbn [the_pool] in *.
  assert (i = 512) as ->.
  { destruct (Z.lt_trichotomy i 512) as [Hlt|[->|Hgt]]; [|done|].
    - rewrite Hu in Hfr by lia. lia.
    - specialize (Hus 512 ltac:(lia)). rewrite Hu in Hus by lia. lia. }
  rewrite Hphy in E2. change (0x200000 + PG_SIZE * 512) with 0x400000 in E2.
  assert (Hf : page_table_add 0xc0300000 0x400000 s2 = Stop (Fault 0xffc01000) s2).
  { apply page_table_add_faults; [|done..]. now apply (boot_tables_keeps (k_mem s1)). }
  exists s2. unfold get_kernel_pages. apply bind_Stop. unfold malloc_page, assert_mem.
  replace ((n >? 0) && (n <? 3840)) with true by lia.
  erewrite bind_Ret by reflexivity. erewrite bind_Ret by exact E1.
  change (K_HEAP_START + PG_SIZE * 512) with 0xc0300000.
  change (0xc0300000 =? NULL) with false. cbv iota zeta. apply loop_stop.
  replace (n >? 0) with true by lia. erewrite bind_Ret by exact E2.
  change (0x400000 =? NULL) with false. cbv iota. now apply bind_Stop.
Qed.

(** ** Examples *)

(** The machine of bochsrc.disk: 32 MiB, its size stored at 0xb00 by the
    loader, no other byte of memory written before [setup_page]. *)
Definition MEGS : Z := 32.
Definition machine : paged := setup_page (write_all ∅ (word_writes 0xb00 (MEGS * 2 ^ 20))).
Definition ex_kernel : kernel paged := blank_kernel machine.

Definition machine_ok (m : paged) : bool :=
  forallb (fun i => negb (present (low_entry m i))) (seqZ 256 768) &&
  match paged_load32 m 0xb00 with Some v => v =? MEGS * 2 ^ 20 | None => false end &&
  forallb (fun x => let b := pread8 m (x - KERNEL_BASE) in (0 <=? b) && (b <? 256))
    (seqZ MEM_BITMAP_BASE 1441).

Lemma machine_boot_tables : boot_tables machine.
Proof. apply setup_page_boot_tables. Qed.

Lemma machine_checked : machine_ok machine = true.
Proof. vm_compute. reflexivity. Qed.

Lemma machine_ok_facts m :
  boot_tables m -> machine_ok m = true ->
  (forall i, 256 <= i < 1024 -> present (low_entry m i) = false) /\
  load32 m 0xb00 = Some (MEGS * 2 ^ 20) /\ writable m MEM_BITMAP_BASE 1441.
Proof.
  intros Hb [[H1 H2]%andb_true_iff H3]%andb_true_iff. rewrite forallb_forall in H1, H3.
  split; [|split].
  - intros i Hi. apply negb_true_iff, H1, list_elem_of_In, elem_of_seqZ. lia.
  - change (load32 m) with (paged_load32 m). destruct (paged_load32 m 0xb00); [|done].
    apply Z.eqb_eq in H2. now subst.
  - split; [done|]. split; [done|]. intros x Hx. split; [now apply boot_kernel_maps|].
    assert (Hin : In x (seqZ MEM_BITMAP_BASE 1441)) by (apply list_elem_of_In, elem_of_seqZ; lia).
    specialize (H3 x Hin). cbv zeta in H3. unfold MEM_BITMAP_BASE, KERNEL_BASE, LOW_MEM, is_byte in *. lia.
Qed.

Lemma ex_kernel_heap :
  exists s, mem_init ex_kernel = Ret tt s /\ heap_state s 0 /\
    kernel_pool s = kernel_pool_of (MEGS * 2 ^ 20) /\
    kernel_vaddr s = kernel_vaddr_of (MEGS * 2 ^ 20).
Proof.
  pose proof machine_boot_tables as Hb.
  destruct (machine_ok_facts machine Hb machine_checked) as (H1 & H2 & H3).
  assert (E : k_mem ex_kernel = machine) by done.
  destruct (mem_init_heap ex_kernel (MEGS * 2 ^ 20)) as (s & Es & Hh & Hkp & Hkv & _);
    rewrite ?E; [exact Hb | exact H1 | exact H2 | done | exact H3|].
  exists s. exact (conj Es (conj Hh (conj Hkp Hkv))).
Qed.

Lemma page_table_add_maps_frame_to_itself_witness :
  exists s', page_table_add (KERNEL_BASE + 0x100000) (4096 * 512) ex_kernel = Ret tt s' /\
    translate (k_mem s') (4096 * 512) = Some (4096 * 512) /\
    translate (k_mem s') (KERNEL_BASE + 4096 * 512) = Some (4096 * 512) /\
    translate (k_mem s') (KERNEL_BASE + 0x100000) =
      translate (k_mem ex_kernel) (KERNEL_BASE + 0x100000).
Proof.
  apply (page_table_add_maps_frame_to_itself ex_kernel 0x100000 512); [|done..|].
  - exact machine_boot_tables.
  - apply (machine_ok_facts machine); [exact machine_boot_tables | exact machine_checked | done].
Defined.

Lemma get_kernel_pages_maps_other_pages_witness :
  exists s s', mem_init ex_kernel = Ret tt s /\ get_kernel_pages 3 s = Ret 0xc0100000 s' /\
    forall j, 0 <= j < 3 ->
      translate (k_mem s') (0x200000 + 4096 * j) = Some (0x200000 + 4096 * j) /\
      translate (k_mem s') (0xc0100000 + 4096 * j) = None.
Proof.
  destruct ex_kernel_heap as (s & Es & Hh & Hkp & Hkv).
  destruct (get_kernel_pages_maps_other_pages s 0 3 Hh) as (s' & E & _ & Hmap);
    [lia | lia | rewrite Hkp; vm_compute; intros [=] | rewrite Hkv; vm_compute; intros [=] |].
  exists s, s'. split; [exact Es|]. split; [exact E|]. intros j Hj. specialize (Hmap j Hj).
  destruct (Z.ltb_spec j 256); [exact Hmap | lia].
Defined.

Lemma get_kernel_pages_faults_at_4MiB_witness :
  exists s s', malloc_page PF_KERNEL 512 s = Ret 0xc0100000 s' /\
    exists s'', get_kernel_pages 1 s' = Stop (Fault 0xffc01000) s''.
Proof.
  destruct ex_kernel_heap as (s & Es & Hh & Hkp & Hkv).
  destruct (malloc_page_spec s 0 512 Hh) as (s' & E & Hh' & Hkp' & Hkv');
    [lia | lia | rewrite Hkp; vm_compute; intros [=] | rewrite Hkv; vm_compute; intros [=] |].
  exists s, s'. split; [exact E|].
  apply (get_kernel_pages_faults_at_4MiB s' 1 Hh');
    [lia | rewrite Hkv', Hkv; vm_compute; intros [=] | rewrite Hkp', Hkp; reflexivity].
Defined.
