(* ===== verification/Kernel.v ===== *)
(** * Kernel: device/timer.c, thread/thread.c, kernel/init.c, kernel/main.c

    The timer set-up, the stack of a new kernel thread, and the boot sequence
    that calls the initialisers of the other parts. *)

From stdpp Require Import base numbers list strings gmap.
From S2P Require Import Prelude Machine FlatMemory Interrupt Str Bitmap Paging PageAlloc PageMap.
From Stdlib Require Import ZArith Lia.
Open Scope Z_scope.

(** ** device/timer.c *)

Definition IRQ0_FREQUENCY : Z := 100.
Definition INPUT_FREQUENCY : Z := 1193180.
Definition COUNTER0_VALUE : Z := INPUT_FREQUENCY / IRQ0_FREQUENCY.
Definition CONTRER0_PORT : Z := 0x40.
Definition COUNTER0_NO : Z := 0.
Definition COUNTER_MODE : Z := 2.
Definition READ_WRITE_LATCH : Z := 3.
Definition PIT_CONTROL_PORT : Z := 0x43.

Section timer.
  Context {mem : Type}.
  Abbreviation C := (M (kernel mem)).

(** In the last line the cast binds tighter than the shift. *)
Definition frequency_set (counter_port counter_no rwl counter_mode counter_value : Z) : C unit :=
  outb PIT_CONTROL_PORT
    (u8 (Z.lor (Z.lor (Z.shiftl counter_no 6) (Z.shiftl rwl 4)) (Z.shiftl counter_mode 1))) ;;;
  outb counter_port (u8 counter_value) ;;;
  outb counter_port (Z.shiftr (u8 counter_value) 8).

Definition timer_init : C unit :=
  put_str ("timer_init start" +:+ nl) ;;;
  frequency_set CONTRER0_PORT COUNTER0_NO READ_WRITE_LATCH COUNTER_MODE (u16 COUNTER0_VALUE) ;;;
  put_str ("timer_init done" +:+ nl).

End timer.

(** ** thread/thread.c, thread/thread.h *)

(** Sizes and field offsets on the ILP32 target: 19 and 8 words, [self_kstack]
    first in [task_struct]. *)
Definition sizeof_intr_stack : Z := 76.
Definition sizeof_thread_stack : Z := 32.
Definition off_self_kstack : Z := 0.
Definition off_eip : Z := 16.
Definition off_function : Z := 24.
Definition off_func_arg : Z := 28.

Section thread.
  Context {mem : Type} `{Memory mem}.
  Abbreviation C := (M (kernel mem)).

(** A [thread_func] is code the kernel is given. *)
Definition kernel_thread (function : Z -> C unit) (func_arg : Z) : C unit := function func_arg.

(** [self_kstack] is a [uint32_t*]: [-=] counts words. *)
Definition thread_create (kernel_thread_addr pthread function func_arg : Z) : C unit :=
  let self_kstack := u32 (pthread + off_self_kstack) in
  k <- peek32 self_kstack ;;
  poke32 self_kstack (u32 (k - 4 * sizeof_intr_stack)) ;;;
  k <- peek32 self_kstack ;;
  poke32 self_kstack (u32 (k - 4 * sizeof_thread_stack)) ;;;
  kthread_stack <- peek32 self_kstack ;;
  poke32 (u32 (kthread_stack + off_eip)) kernel_thread_addr ;;;
  poke32 (u32 (kthread_stack + off_function)) function.

End thread.

(** ** kernel/init.c, kernel/main.c *)

Section boot.
  Context {mem : Type} `{Memory mem}.
  Abbreviation C := (M (kernel mem)).
  Context (idt_addr general_intr_handler_addr : Z) (intr_entry_table : list Z).

Definition init_all : C unit :=
  put_str ("init_all" +:+ nl) ;;;
  idt_init idt_addr general_intr_handler_addr intr_entry_table ;;;
  timer_init ;;;
  mem_init.

Definition main : C Z :=
  put_str ("I am kernel" +:+ nl) ;;;
  init_all ;;;
  addr <- get_kernel_pages 3 ;;
  put_str (nl +:+ " get_kernel_pages start vaddr is ") ;;;
  put_int addr ;;;
  put_str nl ;;;
  stop_with Hang.

End boot.

(** ** The timer's output *)

Section timer_facts.
  Context {mem : Type}.
  Implicit Types s : kernel mem.

Lemma frequency_set_trace port no rwl mode value s :
  frequency_set port no rwl mode value s =
    Ret tt (set_trace (k_trace s ++
      [OutB PIT_CONTROL_PORT
         (u8 (Z.lor (Z.lor (Z.shiftl no 6) (Z.shiftl rwl 4)) (Z.shiftl mode 1)));
       OutB (u16 port) (value mod 256); OutB (u16 port) 0]) s).
Proof.
  unfold frequency_set, outb, modify, bind, emit, set_trace.
  cbn [k_trace k_mem k_eflags kernel_pool user_pool kernel_vaddr idt intr_name idt_table].
  rewrite !(u8_small (u8 _)) by apply u8_range.
  replace (Z.shiftr (u8 value) 8) with 0.
  - rewrite <- !app_assoc. reflexivity.
  - symmetry. rewrite Z.shiftr_div_pow2 by lia. apply Z.div_small, u8_range.
Qed.

Lemma timer_init_trace s :
  timer_init s = Ret tt (set_trace (k_trace s ++
    [PutStr ("timer_init start" +:+ nl); OutB 0x43 0x34; OutB 0x40 155; OutB 0x40 0;
     PutStr ("timer_init done" +:+ nl)]) s).
Proof.
  unfold timer_init. erewrite bind_Ret by reflexivity.
  erewrite bind_Ret by apply frequency_set_trace. unfold put_str, modify, emit, set_trace.
  cbn [k_trace k_mem k_eflags kernel_pool user_pool kernel_vaddr idt intr_name idt_table].
  rewrite <- !app_assoc. reflexivity.
Qed.

End timer_facts.

(** ** Words in RAM *)

Section words.
  Context {mem : Type} `{RamSpec mem}.
  Implicit Types s : kernel mem.

Definition word_bytes (v : Z) : list Z := [byte_of v 0; byte_of v 1; byte_of v 2; byte_of v 3].

(** The aligned word [v] is in RAM at [a]. *)
Definition word_at (m : mem) (a v : Z) : Prop :=
  a mod 4 = 0 /\ is_u32 v /\ bytes_at m a (word_bytes v).

Lemma word_at_byte m a v i :
  word_at m a v -> 0 <= i < 4 -> ram m (a + i) /\ load8 m (a + i) = Some (byte_of v i).
Proof.
  intros (_ & _ & Hb) Hi. destruct (bytes_at_lookup m a (word_bytes v) (Z.to_nat i) (byte_of v i) Hb)
    as (_ & Hr & Hl).
  - assert (i = 0 \/ i = 1 \/ i = 2 \/ i = 3) as [-> | [-> | [-> | ->]]] by lia; done.
  - rewrite Z2Nat.id in Hr, Hl by lia. done.
Qed.

Lemma wp_peek32 a v (Q : Z -> kernel mem -> Prop) s :
  word_at (k_mem s) a v -> Q v s -> wp (peek32 a) Q s.
Proof.
  intros Hw HQ. pose proof Hw as (Ha & Hv & _). pose proof (word_at_byte _ _ _ 0 Hw) as Hw0.
  rewrite Z.add_0_r in Hw0. unfold wp, peek32.
  erewrite ram_load32; [|exact Ha | intros i Hi; now apply (word_at_byte _ _ _ i Hw) | now apply Hw0 |
    now apply (word_at_byte _ _ _ 1 Hw) | now apply (word_at_byte _ _ _ 2 Hw) |
    now apply (word_at_byte _ _ _ 3 Hw)].
  now rewrite le32_bytes.
Qed.

Lemma wp_poke32 a v (Q : unit -> kernel mem -> Prop) s :
  a mod 4 = 0 -> writable (k_mem s) a 4 -> is_u32 v ->
  (forall s', touches a (a + 4) s s' -> word_at (k_mem s') a v -> Q tt s') ->
  wp (poke32 a v) Q s.
Proof.
  intros Ha (Ha0 & Hmax & Hw) Hv HQ. unfold wp, poke32. rewrite u32_small by done.
  destruct (ram_store32 (k_mem s) a v Ha) as (m' & -> & Hl & Hr & Ho & Hk);
    [intros i Hi; apply Hw; lia | done|].
  apply HQ.
  - split; [done|]. split; [exact Hr|]. split; [|exact Hk]. intros x Hx Hn. now apply Ho.
  - split; [done|]. split; [done|]. split; [done|]. split; [cbn; lia|]. intros i b Hi.
    assert (Hr4 : forall j, 0 <= j < 4 -> ram m' (a + j)) by (intros; apply Hr, Hw; lia).
    assert (Hb : exists j, Z.of_nat i = j /\ 0 <= j < 4 /\ b = byte_of v j).
    { destruct i as [|[|[|[|i]]]]; cbn in Hi; try done; simplify_eq;
        (eexists; split; [reflexivity|]; split; [lia | reflexivity]). }
    destruct Hb as (j & -> & Hj & ->). split; [apply byte_of_byte|].
    split; [now apply Hr4 | now apply Hl].
Qed.

Lemma word_at_touches lo hi s s' a v :
  word_at (k_mem s) a v -> touches lo hi s s' -> a + 4 <= lo \/ hi <= a -> word_at (k_mem s') a v.
Proof.
  intros (Ha & Hv & Hb) Ht Hd. split; [done|]. split; [done|].
  eapply bytes_at_touches; [exact Hb | exact Ht | cbn; lia].
Qed.

Lemma word_at_writable m a v : word_at m a v -> writable m a 4.
Proof. intros (_ & _ & Hb). exact (bytes_at_writable m a _ Hb). Qed.

End words.

Lemma pages_16M a :
  2 ^ 24 <= a < 0x200000 + 2 ^ 28 -> 8 <= user_pages a /\ 3 <= kbm_length a.
Proof.
  intros Ha. pose proof (layout_ranges a) as (_ & _ & _ & Hku & Hs & _).
  assert (Hf : 3584 <= free_pages a).
  { unfold free_pages, PG_SIZE. rewrite u32_small by (unfold is_u32; lia).
    rewrite u16_small; Z.to_euclidean_division_equations; lia. }
  split; [lia|]. unfold kbm_length. apply Z.div_le_lower_bound; lia.
Qed.

(** ** Properties *)

Section properties.
  Context {mem : Type} `{RamSpec mem}.
  Implicit Types s : kernel mem.

(** Whatever the counter value, [frequency_set] writes its low byte and then
    0 to the counter, because the high byte is taken after the cast: counter 0
    is started with 155, not with the 11931 of 100 Hz. *)
Theorem frequency_set_drops_high_byte port no rwl mode value s :
  0 <= value < 2 ^ 16 ->
  frequency_set port no rwl mode value s =
    Ret tt (set_trace (k_trace s ++
      [OutB PIT_CONTROL_PORT
         (u8 (Z.lor (Z.lor (Z.shiftl no 6) (Z.shiftl rwl 4)) (Z.shiftl mode 1)));
       OutB (u16 port) (value mod 256); OutB (u16 port) 0]) s) /\
  (256 <= value -> value mod 256 + 256 * 0 <> value) /\
  timer_init s = Ret tt (set_trace (k_trace s ++
    [PutStr ("timer_init start" +:+ nl); OutB 0x43 0x34; OutB 0x40 155; OutB 0x40 0;
     PutStr ("timer_init done" +:+ nl)]) s) /\
  COUNTER0_VALUE = 11931.
Proof.
  intros Hv. split; [apply frequency_set_trace|].
  split; [intros Hge; pose proof (Z.mod_pos_bound value 256); lia|].
  split; [apply timer_init_trace | done].
Qed.

(** [thread_create] lowers the thread's kernel stack pointer by 432 bytes,
    four times the size of the two stack frames; at the new top it stores the
    address of [kernel_thread] and the thread function in their fields, and
    nothing in the field of the function's argument or anywhere else. *)
Theorem thread_create_frame kt pthread function func_arg k s :
  word_at (k_mem s) pthread k -> 432 <= k -> k mod 4 = 0 -> is_u32 kt -> is_u32 function ->
  writable (k_mem s) (k - 432) 32 -> pthread + 4 <= k - 432 \/ k <= pthread ->
  exists s', thread_create kt pthread function func_arg s = Ret tt s' /\
    word_at (k_mem s') pthread (k - 4 * (sizeof_intr_stack + sizeof_thread_stack)) /\
    word_at (k_mem s') (k - 432 + off_eip) kt /\
    word_at (k_mem s') (k - 432 + off_function) function /\
    (forall a, ram (k_mem s) a ->
      ~ (pthread <= a < pthread + 4) ->
      ~ (k - 432 + off_eip <= a < k - 432 + off_eip + 4) ->
      ~ (k - 432 + off_function <= a < k - 432 + off_function + 4) ->
      load8 (k_mem s') a = load8 (k_mem s) a).
Proof.
  intros Hw Hk Hk4 Hkt Hfn Hstk Hdis. pose proof Hw as (Hpa & Hku & Hpb & Hpmax & _).
  cbn in Hpmax. pose proof Hstk as (_ & Hsmax & _). unfold is_u32 in Hku.
  assert (Hmod : forall d, (k + 4 * d) mod 4 = 0)
    by (intros d; rewrite Z.mul_comm, Z_mod_plus_full; exact Hk4).
  apply wp_run_unit. unfold thread_create, off_self_kstack. rewrite Z.add_0_r.
  rewrite (u32_small pthread) by (unfold is_u32; lia). cbv zeta.
  wp_step. apply (wp_peek32 _ k); [done|]. wp_step.
  change (4 * sizeof_intr_stack) with 304. change (4 * sizeof_thread_stack) with 128.
  rewrite (u32_small (k - 304)) by (unfold is_u32; lia).
  apply wp_poke32; [done | now apply word_at_writable in Hw | unfold is_u32; lia|].
  intros s1 Ht1 Hw1. wp_step. apply (wp_peek32 _ (k - 304)); [done|]. wp_step.
  rewrite (u32_small (k - 304 - 128)) by (unfold is_u32; lia).
  apply wp_poke32; [done | now apply word_at_writable in Hw1 | unfold is_u32; lia|].
  intros s2 Ht2 Hw2. wp_step. apply (wp_peek32 _ (k - 304 - 128)); [done|].
  replace (k - 304 - 128) with (k - 432) in * by lia.
  pose proof (touches_trans _ _ _ _ _ Ht1 Ht2) as Ht12.
  unfold off_eip, off_function. rewrite !u32_small by (unfold is_u32; lia). wp_step.
  assert (Hst : forall s' d, (forall a, ram (k_mem s') a <-> ram (k_mem s) a) -> 0 <= d <= 28 ->
    writable (k_mem s') (k - 432 + d) 4).
  { intros s' d Hr Hd. destruct Hstk as (_ & _ & Hr'). split; [lia|]. split; [lia|].
    intros x Hx. apply Hr, Hr'. lia. }
  apply wp_poke32; [rewrite <- (Hmod (-104)); f_equal; lia | apply Hst; [apply Ht12 | lia] | done|].
  intros s3 Ht3 Hw3.
  assert (Hram3 : forall a, ram (k_mem s3) a <-> ram (k_mem s) a).
  { intros a. destruct Ht3 as [_ [-> _]]. apply Ht12. }
  apply wp_poke32; [rewrite <- (Hmod (-102)); f_equal; lia | apply Hst; [exact Hram3 | lia] | done|].
  intros s4 Ht4 Hw4. change (4 * (sizeof_intr_stack + sizeof_thread_stack)) with 432.
  split; [|split; [|split; [done|]]].
  - eapply word_at_touches; [|exact Ht4 | lia]. eapply word_at_touches; [exact Hw2 | exact Ht3 | lia].
  - eapply word_at_touches; [exact Hw3 | exact Ht4 | lia].
  - intros a Ha N1 N2 N3. destruct Ht4 as [_ (_ & L4 & _)], Ht3 as [_ (R3 & L3 & _)],
      Ht12 as [_ (R12 & L12 & _)].
    rewrite L4, L3, L12; [done | done | done | now apply R12 | lia | now apply Hram3 | lia].
Qed.

End properties.


(** ** Examples *)

Definition ex_table : list Z := replicate 33 0xc0001550.


Lemma frequency_set_drops_high_byte_witness :
  11931 mod 256 + 256 * 0 <> 11931.
Proof.
  apply (frequency_set_drops_high_byte 0x40 0 3 2 11931 ex_state); lia.
Defined.

(** A task at 0x100 whose kernel stack ends at 0x400. *)
Definition ex_task : kernel flat :=
  blank_kernel (flat_of 0x100 (word_bytes 0x400 ++ replicate 764 0)).

Lemma thread_create_frame_witness :
  exists s', thread_create 0xc0001000 0x100 0xc0002000 7 ex_task = Ret tt s' /\
    word_at (k_mem s') 0x100 (0x400 - 432) /\ word_at (k_mem s') (0x400 - 432 + 16) 0xc0001000 /\
    word_at (k_mem s') (0x400 - 432 + 24) 0xc0002000.
Proof.
  destruct (thread_create_frame 0xc0001000 0x100 0xc0002000 7 0x400 ex_task)
    as (s' & E & H1 & H2 & H3 & _); [|done|done|done|done| | |].
  - split; [done|]. split; [done|]. now apply flat_check_bytes_at.
  - assert (Hc : flat_check (k_mem ex_task) 0x100 (word_bytes 0x400 ++ replicate 764 0) = true)
      by (vm_compute; reflexivity).
    apply flat_check_bytes_at, bytes_at_writable in Hc. destruct Hc as (_ & _ & Hc).
    split; [done|]. split; [done|]. intros x Hx. apply Hc. cbn. lia.
  - lia.
  - exists s'. split; [exact E|]. split; [exact H1|]. split; [exact H2 | exact H3].
Defined.
