(* ===== verification/X86.v ===== *)
(** * X86: the machine of the assembly files

    What lib/kernel/print.S, kernel/kernel.S and boot/loader.S run on: the
    registers of a 32-bit x86 CPU with their 16-bit and 8-bit parts, the stack,
    segments, memory and I/O ports.  An instruction is a computation over this
    state; the definitions of the other files follow the assembly line by line.

    The stack is a list of words, its top first: no code reaches it except
    through [push], [pop] and addresses relative to [esp].  Memory is any
    instance of [Memory], the devices any instance of [Ports]. *)

From stdpp Require Import base numbers list strings gmap.
From S2P Require Import Prelude Machine.
From Stdlib Require Import ZArith Lia.
Open Scope Z_scope.

(** ** State *)

Inductive gpr : Type := EAX | ECX | EDX | EBX | EBP | ESI | EDI.

#[export] Instance gpr_eq_dec : EqDecision gpr.
Proof. solve_decision. Defined.

(** [esp] is not here: it is the length of the stack. *)
Record regs : Type := Regs { eax : Z; ecx : Z; edx : Z; ebx : Z; ebp : Z; esi : Z; edi : Z }.

Definition reg_of (g : gpr) (r : regs) : Z :=
  match g with
  | EAX => eax r | ECX => ecx r | EDX => edx r | EBX => ebx r
  | EBP => ebp r | ESI => esi r | EDI => edi r
  end.

Definition set_reg (g : gpr) (v : Z) (r : regs) : regs :=
  match g with
  | EAX => Regs v (ecx r) (edx r) (ebx r) (ebp r) (esi r) (edi r)
  | ECX => Regs (eax r) v (edx r) (ebx r) (ebp r) (esi r) (edi r)
  | EDX => Regs (eax r) (ecx r) v (ebx r) (ebp r) (esi r) (edi r)
  | EBX => Regs (eax r) (ecx r) (edx r) v (ebp r) (esi r) (edi r)
  | EBP => Regs (eax r) (ecx r) (edx r) (ebx r) v (esi r) (edi r)
  | ESI => Regs (eax r) (ecx r) (edx r) (ebx r) (ebp r) v (edi r)
  | EDI => Regs (eax r) (ecx r) (edx r) (ebx r) (ebp r) (esi r) v
  end.

(** Segment registers hold selectors. *)
Inductive sreg : Type := DS | ES | FS | GS.
Record sregs : Type := SRegs { ds : Z; es : Z; fs : Z; gs : Z }.

Definition sreg_of (g : sreg) (r : sregs) : Z :=
  match g with DS => ds r | ES => es r | FS => fs r | GS => gs r end.
Definition set_sreg (g : sreg) (v : Z) (r : sregs) : sregs :=
  match g with
  | DS => SRegs v (es r) (fs r) (gs r)
  | ES => SRegs (ds r) v (fs r) (gs r)
  | FS => SRegs (ds r) (es r) v (gs r)
  | GS => SRegs (ds r) (es r) (fs r) v
  end.

(** [x_bottom] is the value of [esp] with an empty stack; [x_outs] lists the
    bytes written to ports. *)
Record x86 (mem dev : Type) : Type := X86 {
  x_regs : regs;
  x_sregs : sregs;
  x_cs : Z;
  x_eip : Z;
  x_eflags : Z;
  x_bottom : Z;
  x_stack : list Z;
  x_mem : mem;
  x_dev : dev;
  x_outs : list (Z * Z);
}.
Arguments X86 {mem dev} _ _ _ _ _ _ _ _ _ _.
Arguments x_regs {mem dev} _.
Arguments x_sregs {mem dev} _.
Arguments x_cs {mem dev} _.
Arguments x_eip {mem dev} _.
Arguments x_eflags {mem dev} _.
Arguments x_bottom {mem dev} _.
Arguments x_stack {mem dev} _.
Arguments x_mem {mem dev} _.
Arguments x_dev {mem dev} _.
Arguments x_outs {mem dev} _.

(** The devices, as the [in] and [out] instructions of a byte and of a word see
    them. *)
Class Ports (dev : Type) : Type := {
  port_out : Z -> Z -> dev -> dev;
  port_in : Z -> dev -> Z * dev;
  port_out16 : Z -> Z -> dev -> dev;
  port_in16 : Z -> dev -> Z * dev;
}.

(** ** Parts of registers *)

Definition lo16 (v : Z) : Z := v mod 2 ^ 16.
Definition lo8 (v : Z) : Z := v mod 2 ^ 8.
Definition hi8 (v : Z) : Z := (v / 2 ^ 8) mod 2 ^ 8.

Definition with_lo16 (v x : Z) : Z := 2 ^ 16 * (v / 2 ^ 16) + u16 x.
Definition with_lo8 (v x : Z) : Z := 2 ^ 8 * (v / 2 ^ 8) + u8 x.
Definition with_hi8 (v x : Z) : Z := 2 ^ 16 * (v / 2 ^ 16) + 2 ^ 8 * u8 x + lo8 v.

(** A 16-bit value, read as signed. *)
Definition s16 (z : Z) : Z := (z + 2 ^ 15) mod 2 ^ 16 - 2 ^ 15.

Section instructions.
  Context {mem dev : Type}.
  Implicit Types s : x86 mem dev.
  Abbreviation X := (M (x86 mem dev)).

Definition esp s : Z := u32 (x_bottom s - 4 * Z.of_nat (length (x_stack s))).

Definition set_regs (r : regs) s : x86 mem dev :=
  X86 r (x_sregs s) (x_cs s) (x_eip s) (x_eflags s) (x_bottom s) (x_stack s) (x_mem s) (x_dev s) (x_outs s).
Definition set_sregs (r : sregs) s : x86 mem dev :=
  X86 (x_regs s) r (x_cs s) (x_eip s) (x_eflags s) (x_bottom s) (x_stack s) (x_mem s) (x_dev s) (x_outs s).
Definition set_control (cs eip eflags : Z) s : x86 mem dev :=
  X86 (x_regs s) (x_sregs s) cs eip eflags (x_bottom s) (x_stack s) (x_mem s) (x_dev s) (x_outs s).
Definition set_stack (l : list Z) s : x86 mem dev :=
  X86 (x_regs s) (x_sregs s) (x_cs s) (x_eip s) (x_eflags s) (x_bottom s) l (x_mem s) (x_dev s) (x_outs s).
Definition set_xmem (m : mem) s : x86 mem dev :=
  X86 (x_regs s) (x_sregs s) (x_cs s) (x_eip s) (x_eflags s) (x_bottom s) (x_stack s) m (x_dev s) (x_outs s).
Definition set_dev (d : dev) (o : list (Z * Z)) s : x86 mem dev :=
  X86 (x_regs s) (x_sregs s) (x_cs s) (x_eip s) (x_eflags s) (x_bottom s) (x_stack s) (x_mem s) d o.

(** ** Moves *)

Definition rd (g : gpr) : X Z := gets (fun s => reg_of g (x_regs s)).
Definition wr (g : gpr) (v : Z) : X unit :=
  modify (fun s => set_regs (set_reg g (u32 v) (x_regs s)) s).

(** The low half ([ax], ...), the low byte ([al], ...) and the byte above it
    ([ah], ...) of a register *)
Definition rd16 (g : gpr) : X Z := gets (fun s => lo16 (reg_of g (x_regs s))).
Definition wr16 (g : gpr) (v : Z) : X unit :=
  modify (fun s => set_regs (set_reg g (with_lo16 (reg_of g (x_regs s)) v) (x_regs s)) s).
Definition rdl (g : gpr) : X Z := gets (fun s => lo8 (reg_of g (x_regs s))).
Definition wrl (g : gpr) (v : Z) : X unit :=
  modify (fun s => set_regs (set_reg g (with_lo8 (reg_of g (x_regs s)) v) (x_regs s)) s).
Definition rdh (g : gpr) : X Z := gets (fun s => hi8 (reg_of g (x_regs s))).
Definition wrh (g : gpr) (v : Z) : X unit :=
  modify (fun s => set_regs (set_reg g (with_hi8 (reg_of g (x_regs s)) v) (x_regs s)) s).

Definition rds (g : sreg) : X Z := gets (fun s => sreg_of g (x_sregs s)).
Definition wrs (g : sreg) (v : Z) : X unit :=
  modify (fun s => set_sregs (set_sreg g (u16 v) (x_sregs s)) s).

(** [inc], [dec], [add], [shl], ... of a register by a constant *)
Definition upd (g : gpr) (f : Z -> Z) : X unit := v <- rd g ;; wr g (f v).
Definition upd16 (g : gpr) (f : Z -> Z) : X unit := v <- rd16 g ;; wr16 g (f v).

(** [div] by a 16-bit register: dx:ax is divided, a quotient that does not fit
    is an exception. *)
Definition div16 (g : gpr) : X unit :=
  dx <- rd16 EDX ;; ax <- rd16 EAX ;; d <- rd16 g ;;
  let n := 2 ^ 16 * dx + ax in
  if (d =? 0) || (2 ^ 16 <=? n / d) then stop_with (Panic "#DE")
  else wr16 EAX (n / d) ;;; wr16 EDX (n mod d).

(** ** The stack *)

Definition push (v : Z) : X unit := modify (fun s => set_stack (u32 v :: x_stack s) s).

Definition pop : X Z := fun s =>
  match x_stack s with
  | v :: l => Ret v (set_stack l s)
  | [] => Stop (Fault (esp s)) s
  end.

(** [pop g] and [pop] into a segment register *)
Definition pop_reg (g : gpr) : X unit := v <- pop ;; wr g v.
Definition pop_sreg (g : sreg) : X unit := v <- pop ;; wrs g v.

(** [add esp, 4 * n] *)
Definition drop_stack (n : nat) : X unit := fun s =>
  if (n <=? length (x_stack s))%nat then Ret tt (set_stack (drop n (x_stack s)) s)
  else Stop (Fault (esp s)) s.

(** The word of the stack at address [a]. *)
Definition load_stack (a : Z) : X Z := fun s =>
  match (if (a - esp s) mod 4 =? 0 then x_stack s !! Z.to_nat (u32 (a - esp s) / 4) else None) with
  | Some v => Ret v s
  | None => Stop (Fault a) s
  end.

(** [pushad] pushes the [esp] of before; [popad] skips it. *)
Definition pushad : X unit :=
  temp <- gets esp ;;
  eax <- rd EAX ;; push eax ;;; ecx <- rd ECX ;; push ecx ;;;
  edx <- rd EDX ;; push edx ;;; ebx <- rd EBX ;; push ebx ;;;
  push temp ;;; ebp <- rd EBP ;; push ebp ;;;
  esi <- rd ESI ;; push esi ;;; edi <- rd EDI ;; push edi.

Definition popad : X unit :=
  pop_reg EDI ;;; pop_reg ESI ;;; pop_reg EBP ;;; drop_stack 1 ;;;
  pop_reg EBX ;;; pop_reg EDX ;;; pop_reg ECX ;;; pop_reg EAX.

(** [call] pushes the address behind it; [retn] goes where the top of the stack
    says. *)
Definition call (f : X unit) : X unit := (eip <- gets x_eip ;; push eip) ;;; f.
Definition retn : X unit :=
  eip <- pop ;; modify (fun s => set_control (x_cs s) eip (x_eflags s) s).

(** A C or assembly function [f] called with one argument, as gcc does. *)
Definition call1 (f : X unit) (arg : Z) : X unit := push arg ;;; call f ;;; drop_stack 1.

(** ** Ports *)

Section ports.
  Context `{Ports dev}.

Definition out8 (port v : Z) : X unit :=
  modify (fun s => set_dev (port_out port v (x_dev s)) (x_outs s ++ [(port, v)]) s).

Definition in8 (port : Z) : X Z := fun s =>
  let '(v, d) := port_in port (x_dev s) in Ret v (set_dev d (x_outs s) s).

Definition out16 (port v : Z) : X unit :=
  modify (fun s => set_dev (port_out16 port v (x_dev s)) (x_outs s ++ [(port, v)]) s).

Definition in16 (port : Z) : X Z := fun s =>
  let '(v, d) := port_in16 port (x_dev s) in Ret v (set_dev d (x_outs s) s).

(** [out dx, al] and [in al, dx] *)
Definition out_dx_al : X unit := dx <- rd16 EDX ;; al <- rdl EAX ;; out8 dx al.
Definition in_al_dx : X unit := dx <- rd16 EDX ;; v <- in8 dx ;; wrl EAX v.

End ports.

(** ** Segments: the descriptors of boot/loader.S *)

Definition VIDEO_DESC_low : Z := 0x80000007.

(** boot/include/boot.inc *)
Definition DESC_G_4K : Z := 2 ^ 23.
Definition DESC_D_32 : Z := 2 ^ 22.
Definition DESC_L : Z := 0.
Definition DESC_AVL : Z := 0.
Definition DESC_LIMIT_VIDEO2 : Z := 0.
Definition DESC_P : Z := 2 ^ 15.
Definition DESC_DPL_0 : Z := 0.
Definition DESC_S_DATA : Z := 2 ^ 12.
Definition DESC_TYPE_DATA : Z := 2 * 2 ^ 8.
Definition DESC_VIDEO_HIGH4 : Z :=
  Z.shiftl 0x00 24 + DESC_G_4K + DESC_D_32 + DESC_L + DESC_AVL + DESC_LIMIT_VIDEO2 + DESC_P +
  DESC_DPL_0 + DESC_S_DATA + DESC_TYPE_DATA + 0x0b.

(** The base address and the last offset that the CPU takes from a descriptor
    of a segment that grows up. *)
Definition desc_base (low high : Z) : Z :=
  low / 2 ^ 16 + 2 ^ 16 * (high mod 2 ^ 8) + 2 ^ 24 * (high / 2 ^ 24).
Definition desc_limit (low high : Z) : Z :=
  let limit := low mod 2 ^ 16 + 2 ^ 16 * ((high / 2 ^ 16) mod 2 ^ 4) in
  if Z.testbit high 23 then 4096 * limit + 4095 else limit.

(** When the kernel runs, the loader has moved the video segment up. *)
Definition video_desc_high : Z := Z.lor DESC_VIDEO_HIGH4 0xc0000000.

Definition SELECTOR_VIDEO : Z := Z.shiftl 0x0003 3 + 0 + 0.

(** ** Memory *)

Section memory.
  Context `{Memory mem}.

Definition load_byte (a : Z) : X Z := fun s =>
  match load8 (x_mem s) a with Some b => Ret b s | None => Stop (Fault a) s end.
Definition store_byte (a b : Z) : X unit := fun s =>
  match store8 (x_mem s) a (u8 b) with Some m => Ret tt (set_xmem m s) | None => Stop (Fault a) s end.
Definition load_word (a : Z) : X Z := fun s =>
  match load32 (x_mem s) a with Some v => Ret v s | None => Stop (Fault a) s end.
Definition store_word (a v : Z) : X unit := fun s =>
  match store32 (x_mem s) a (u32 v) with Some m => Ret tt (set_xmem m s) | None => Stop (Fault a) s end.

(** [mov byte [gs:off], b]: the offset must be within the segment, of which
    [SELECTOR_VIDEO] is the only one that [gs] is given. *)
Definition gs_store8 (off b : Z) : X unit :=
  sel <- rds GS ;;
  if (sel =? SELECTOR_VIDEO) && (off <=? desc_limit VIDEO_DESC_low video_desc_high)
  then store_byte (u32 (desc_base VIDEO_DESC_low video_desc_high + off)) b
  else stop_with (Fault off).

(** [mov word [gs:off], v] *)
Definition gs_store16 (off v : Z) : X unit :=
  gs_store8 off (v mod 2 ^ 8) ;;; gs_store8 (off + 1) (v / 2 ^ 8).

(** [rep movsd], with the direction flag clear and flat [ds] and [es] *)
Definition rep_movsd : X unit :=
  loop 33 (fun _ : unit =>
    ecx <- rd ECX ;;
    if ecx =? 0 then ret (inr tt)
    else
      esi <- rd ESI ;; edi <- rd EDI ;;
      v <- load_word esi ;; store_word edi v ;;;
      wr ESI (esi + 4) ;;; wr EDI (edi + 4) ;;; wr ECX (ecx - 1) ;;;
      ret (inl tt)) tt.

End memory.

(** [loop label]: [body] until [ecx], decremented after it, is zero *)
Definition loop_ecx (body : X unit) : X unit :=
  loop 33 (fun _ : unit =>
    body ;;;
    ecx <- rd ECX ;; wr ECX (ecx - 1) ;;;
    ecx <- rd ECX ;;
    if ecx =? 0 then ret (inr tt) else ret (inl tt)) tt.

End instructions.

(** ** lib/kernel/io.h: the functions that no C file calls yet *)

Section io.
  Context {mem dev : Type} `{Memory mem} `{Ports dev}.
  Abbreviation X := (M (x86 mem dev)).

Definition load_half (a : Z) : X Z :=
  b0 <- load_byte a ;; b1 <- load_byte (u32 (a + 1)) ;; ret (b0 + 2 ^ 8 * b1).
Definition store_half (a v : Z) : X unit :=
  store_byte a v ;;; store_byte (u32 (a + 1)) (v / 2 ^ 8).

Definition inb (port : Z) : X Z := data <- in8 (u16 port) ;; ret (u8 data).

(** [cld; rep outsw] and [cld; rep insw], whose operands are [addr], [word_cnt]
    and [port] *)
Definition outsw (port addr word_cnt : Z) : X unit :=
  loop 33 (fun '(addr, word_cnt) =>
    if word_cnt =? 0 then ret (inr tt)
    else
      v <- load_half addr ;; out16 (u16 port) v ;;;
      ret (inl (u32 (addr + 2), u32 (word_cnt - 1)))) (addr, u32 word_cnt).

Definition insw (port addr word_cnt : Z) : X unit :=
  loop 33 (fun '(addr, word_cnt) =>
    if word_cnt =? 0 then ret (inr tt)
    else
      v <- in16 (u16 port) ;; store_half addr v ;;;
      ret (inl (u32 (addr + 2), u32 (word_cnt - 1)))) (addr, u32 word_cnt).

End io.

(** ** Parts of registers *)

Create Rewrite HintDb x86_parts.

(** The parts of a register put together. *)
Lemma parts_of h b1 b0 :
  0 <= b1 < 2 ^ 8 -> 0 <= b0 < 2 ^ 8 ->
  lo8 (2 ^ 16 * h + 2 ^ 8 * b1 + b0) = b0 /\ hi8 (2 ^ 16 * h + 2 ^ 8 * b1 + b0) = b1 /\
  lo16 (2 ^ 16 * h + 2 ^ 8 * b1 + b0) = 2 ^ 8 * b1 + b0 /\
  (2 ^ 16 * h + 2 ^ 8 * b1 + b0) / 2 ^ 16 = h.
Proof.
  intros H1 H0. unfold lo8, hi8, lo16. split; [|split; [|split]].
  - symmetry. apply Z.mod_unique with (2 ^ 8 * h + b1); lia.
  - replace ((2 ^ 16 * h + 2 ^ 8 * b1 + b0) / 2 ^ 8) with (2 ^ 8 * h + b1).
    + symmetry. apply Z.mod_unique with h; lia.
    + apply Z.div_unique with b0; lia.
  - symmetry. apply Z.mod_unique with h; lia.
  - symmetry. apply Z.div_unique with (2 ^ 8 * b1 + b0); lia.
Qed.

Lemma lo8_range v : 0 <= lo8 v < 2 ^ 8.
Proof. apply Z.mod_pos_bound. lia. Qed.

Lemma hi8_range v : 0 <= hi8 v < 2 ^ 8.
Proof. apply Z.mod_pos_bound. lia. Qed.

Lemma lo16_range v : 0 <= lo16 v < 2 ^ 16.
Proof. apply Z.mod_pos_bound. lia. Qed.

Lemma register_split v : v = 2 ^ 16 * (v / 2 ^ 16) + 2 ^ 8 * hi8 v + lo8 v.
Proof.
  unfold hi8, lo8. pose proof (Z.div_mod v (2 ^ 8) ltac:(lia)).
  pose proof (Z.div_mod (v / 2 ^ 8) (2 ^ 8) ltac:(lia)) as E. rewrite Z.div_div in E by lia.
  change (2 ^ 8 * 2 ^ 8) with (2 ^ 16) in E. lia.
Qed.

Lemma lo16_split v : lo16 v = 2 ^ 8 * hi8 v + lo8 v.
Proof.
  pose proof (parts_of (v / 2 ^ 16) _ _ (hi8_range v) (lo8_range v)) as (_ & _ & E & _).
  now rewrite <- register_split in E.
Qed.

Lemma lo16_high v : lo16 v / 2 ^ 8 = hi8 v.
Proof.
  rewrite lo16_split. pose proof (lo8_range v). symmetry. apply Z.div_unique with (lo8 v); lia.
Qed.

Lemma lo16_low v : lo16 v mod 2 ^ 8 = lo8 v.
Proof.
  rewrite lo16_split. pose proof (lo8_range v). symmetry. apply Z.mod_unique with (hi8 v); lia.
Qed.

Lemma u16_split x : u16 x = 2 ^ 8 * hi8 x + lo8 x.
Proof. apply (lo16_split x). Qed.

(** What writing a part leaves of the others. *)
Lemma with_lo16_parts v x :
  lo8 (with_lo16 v x) = lo8 x /\ hi8 (with_lo16 v x) = hi8 x /\ lo16 (with_lo16 v x) = u16 x.
Proof.
  unfold with_lo16. rewrite u16_split, Z.add_assoc.
  destruct (parts_of (v / 2 ^ 16) _ _ (hi8_range x) (lo8_range x)) as (? & ? & ? & _). done.
Qed.

Lemma with_lo8_parts v x : lo8 (with_lo8 v x) = u8 x /\ hi8 (with_lo8 v x) = hi8 v.
Proof.
  unfold with_lo8. assert (E : 2 ^ 8 * (v / 2 ^ 8) = 2 ^ 16 * (v / 2 ^ 16) + 2 ^ 8 * hi8 v).
  { pose proof (register_split v). unfold lo8 in *. pose proof (Z.div_mod v (2 ^ 8) ltac:(lia)). lia. }
  rewrite E.
  destruct (parts_of (v / 2 ^ 16) _ _ (hi8_range v) (u8_range x)) as (? & ? & _ & _). done.
Qed.

Lemma with_hi8_parts v x : lo8 (with_hi8 v x) = lo8 v /\ hi8 (with_hi8 v x) = u8 x.
Proof.
  unfold with_hi8.
  destruct (parts_of (v / 2 ^ 16) _ _ (u8_range x) (lo8_range v)) as (? & ? & _ & _). done.
Qed.

Lemma lo16_with_lo16 v x : lo16 (with_lo16 v x) = u16 x.
Proof. apply with_lo16_parts. Qed.

Lemma lo8_with_lo16 v x : lo8 (with_lo16 v x) = lo8 x.
Proof. apply with_lo16_parts. Qed.

Lemma hi8_with_lo16 v x : hi8 (with_lo16 v x) = hi8 x.
Proof. apply with_lo16_parts. Qed.

Lemma lo8_with_lo8 v x : lo8 (with_lo8 v x) = u8 x.
Proof. apply with_lo8_parts. Qed.

Lemma hi8_with_lo8 v x : hi8 (with_lo8 v x) = hi8 v.
Proof. apply with_lo8_parts. Qed.

Lemma lo8_with_hi8 v x : lo8 (with_hi8 v x) = lo8 v.
Proof. apply with_hi8_parts. Qed.

Lemma hi8_with_hi8 v x : hi8 (with_hi8 v x) = u8 x.
Proof. apply with_hi8_parts. Qed.

Lemma u16_lo16 v : u16 (lo16 v) = lo16 v.
Proof. apply Zmod_mod. Qed.

Lemma hi8_lo16 v : hi8 (lo16 v) = hi8 v.
Proof. unfold hi8 at 1. rewrite lo16_high. apply Z.mod_small, hi8_range. Qed.

Lemma lo8_lo16 v : lo8 (lo16 v) = lo8 v.
Proof. apply lo16_low. Qed.

Lemma with_lo8_u32 v x : is_u32 v -> is_u32 (with_lo8 v x).
Proof.
  unfold is_u32, with_lo8. intros Hv. pose proof (u8_range x) as Hx. unfold is_byte in Hx.
  pose proof (Z.div_lt_upper_bound v (2 ^ 8) (2 ^ 24) ltac:(lia) ltac:(lia)).
  pose proof (Z.div_pos v (2 ^ 8) ltac:(lia) ltac:(lia)). lia.
Qed.

#[export] Hint Rewrite u16_lo16 hi8_lo16 lo8_lo16 lo16_with_lo16 lo8_with_lo16 hi8_with_lo16 lo8_with_lo8 hi8_with_lo8
  lo8_with_hi8 hi8_with_hi8 : x86_parts.

(** ** Rules for instructions

    A state in the middle of a routine is [after r m d o s]: registers, memory
    and devices have changed since [s], the rest has not. *)

Section rules.
  Context {mem dev : Type}.
  Implicit Types s : x86 mem dev.
  Implicit Types r : regs.
  Implicit Types m : mem.
  Implicit Types d : dev.
  Abbreviation X := (M (x86 mem dev)).

Definition after r m d (o : list (Z * Z)) s : x86 mem dev :=
  X86 r (x_sregs s) (x_cs s) (x_eip s) (x_eflags s) (x_bottom s) (x_stack s) m d o.

(** What a routine that leaves stack, segments and control alone guarantees *)
Definition leaves s (P : regs -> mem -> dev -> Prop) (s' : x86 mem dev) : Prop :=
  exists r m d o, s' = after r m d o s /\ P r m d.

Lemma after_id s : after (x_regs s) (x_mem s) (x_dev s) (x_outs s) s = s.
Proof. now destruct s. Qed.

Lemma wp_after {A} (f : X A) (Q : A -> x86 mem dev -> Prop) s :
  wp f Q (after (x_regs s) (x_mem s) (x_dev s) (x_outs s) s) -> wp f Q s.
Proof. now rewrite after_id. Qed.

Lemma after_after r m d o r' m' d' o' s :
  after r' m' d' o' (after r m d o s) = after r' m' d' o' s.
Proof. done. Qed.

Section after.
  Context (r : regs) (m : mem) (d : dev) (o : list (Z * Z)) (s : x86 mem dev).

Lemma wp_rd g (Q : Z -> x86 mem dev -> Prop) :
  Q (reg_of g r) (after r m d o s) -> wp (rd g) Q (after r m d o s).
Proof. done. Qed.
Lemma wp_wr g v (Q : unit -> x86 mem dev -> Prop) :
  Q tt (after (set_reg g (u32 v) r) m d o s) -> wp (wr g v) Q (after r m d o s).
Proof. done. Qed.
Lemma wp_rd16 g (Q : Z -> x86 mem dev -> Prop) :
  Q (lo16 (reg_of g r)) (after r m d o s) -> wp (rd16 g) Q (after r m d o s).
Proof. done. Qed.
Lemma wp_wr16 g v (Q : unit -> x86 mem dev -> Prop) :
  Q tt (after (set_reg g (with_lo16 (reg_of g r) v) r) m d o s) -> wp (wr16 g v) Q (after r m d o s).
Proof. done. Qed.
Lemma wp_rdl g (Q : Z -> x86 mem dev -> Prop) :
  Q (lo8 (reg_of g r)) (after r m d o s) -> wp (rdl g) Q (after r m d o s).
Proof. done. Qed.
Lemma wp_wrl g v (Q : unit -> x86 mem dev -> Prop) :
  Q tt (after (set_reg g (with_lo8 (reg_of g r) v) r) m d o s) -> wp (wrl g v) Q (after r m d o s).
Proof. done. Qed.
Lemma wp_rdh g (Q : Z -> x86 mem dev -> Prop) :
  Q (hi8 (reg_of g r)) (after r m d o s) -> wp (rdh g) Q (after r m d o s).
Proof. done. Qed.
Lemma wp_wrh g v (Q : unit -> x86 mem dev -> Prop) :
  Q tt (after (set_reg g (with_hi8 (reg_of g r) v) r) m d o s) -> wp (wrh g v) Q (after r m d o s).
Proof. done. Qed.
Lemma wp_rds g (Q : Z -> x86 mem dev -> Prop) :
  Q (sreg_of g (x_sregs s)) (after r m d o s) -> wp (rds g) Q (after r m d o s).
Proof. done. Qed.
Lemma wp_wrs g v (Q : unit -> x86 mem dev -> Prop) :
  Q tt (after r m d o (set_sregs (set_sreg g (u16 v) (x_sregs s)) s)) -> wp (wrs g v) Q (after r m d o s).
Proof. done. Qed.
Lemma wp_push v (Q : unit -> x86 mem dev -> Prop) :
  Q tt (after r m d o (set_stack (u32 v :: x_stack s) s)) -> wp (push v) Q (after r m d o s).
Proof. done. Qed.
Lemma wp_pop v l (Q : Z -> x86 mem dev -> Prop) :
  x_stack s = v :: l -> Q v (after r m d o (set_stack l s)) -> wp pop Q (after r m d o s).
Proof. unfold wp, pop. cbn. now intros ->. Qed.
Lemma wp_drop_stack n (Q : unit -> x86 mem dev -> Prop) :
  (n <= length (x_stack s))%nat -> Q tt (after r m d o (set_stack (drop n (x_stack s)) s)) ->
  wp (drop_stack n) Q (after r m d o s).
Proof. intros Hn. unfold wp, drop_stack. cbn. now rewrite (proj2 (Nat.leb_le _ _) Hn). Qed.

Lemma wp_pop_reg g v l (Q : unit -> x86 mem dev -> Prop) :
  x_stack s = v :: l -> Q tt (after (set_reg g (u32 v) r) m d o (set_stack l s)) ->
  wp (pop_reg g) Q (after r m d o s).
Proof. unfold pop_reg, wp, bind, pop. cbn. now intros ->. Qed.

Lemma wp_pop_sreg g v l (Q : unit -> x86 mem dev -> Prop) :
  x_stack s = v :: l ->
  Q tt (after r m d o (set_sregs (set_sreg g (u16 v) (x_sregs s)) (set_stack l s))) ->
  wp (pop_sreg g) Q (after r m d o s).
Proof. unfold pop_sreg, wp, bind, pop. cbn. now intros ->. Qed.

Lemma wp_retn v l (Q : unit -> x86 mem dev -> Prop) :
  x_stack s = v :: l ->
  Q tt (after r m d o (set_control (x_cs s) v (x_eflags s) (set_stack l s))) ->
  wp retn Q (after r m d o s).
Proof. unfold retn, wp, bind, pop, modify. cbn. now intros ->. Qed.

Lemma wp_call f (Q : unit -> x86 mem dev -> Prop) :
  wp f Q (after r m d o (set_stack (u32 (x_eip s) :: x_stack s) s)) -> wp (call f) Q (after r m d o s).
Proof. done. Qed.

(** The word [k] places below the top of the stack *)
Lemma wp_load_stack k v a (Q : Z -> x86 mem dev -> Prop) :
  x_stack s !! k = Some v -> Z.of_nat k < 2 ^ 30 -> a = u32 (esp s + 4 * Z.of_nat k) ->
  Q v (after r m d o s) -> wp (load_stack a) Q (after r m d o s).
Proof.
  intros Hk Hlt -> HQ. unfold wp, load_stack. change (esp (after r m d o s)) with (esp s).
  assert (E : u32 (u32 (esp s + 4 * Z.of_nat k) - esp s) = 4 * Z.of_nat k).
  { unfold u32. rewrite Zminus_mod_idemp_l. rewrite Z.mod_small; lia. }
  rewrite E. replace (4 * Z.of_nat k / 4) with (Z.of_nat k) by (rewrite Z.mul_comm, Z.div_mul; lia).
  assert (E4 : (u32 (esp s + 4 * Z.of_nat k) - esp s) mod 4 = 0).
  { apply (f_equal (fun z => z mod 4)) in E. unfold u32 in E at 1.
    replace (4 * Z.of_nat k) with (Z.of_nat k * 4) in E by lia. rewrite Z_mod_mult in E.
    pose proof (Z.mod_pos_bound (u32 (esp s + Z.of_nat k * 4) - esp s)
      (2 ^ 32) ltac:(lia)).
    pose proof (Z.div_mod (u32 (esp s + Z.of_nat k * 4) - esp s)
      (2 ^ 32) ltac:(lia)) as Ed.
    replace (4 * Z.of_nat k) with (Z.of_nat k * 4) by lia. rewrite Ed.
    replace (2 ^ 32) with (2 ^ 30 * 4) in * by lia.
    rewrite Z.add_mod, E by lia. rewrite (Z.mul_comm (2 ^ 30) 4), <- Z.mul_assoc, Z.mul_comm, Z_mod_mult. done. }
  rewrite E4, Nat2Z.id. cbn [x_stack after]. cbn. now rewrite Hk.
Qed.

Lemma wp_out8 `{Ports dev} p v (Q : unit -> x86 mem dev -> Prop) :
  Q tt (after r m (port_out p v d) (o ++ [(p, v)]) s) -> wp (out8 p v) Q (after r m d o s).
Proof. done. Qed.

Lemma wp_in8 `{Ports dev} p v d' (Q : Z -> x86 mem dev -> Prop) :
  port_in p d = (v, d') -> Q v (after r m d' o s) -> wp (in8 p) Q (after r m d o s).
Proof. unfold wp, in8. cbn. now intros ->. Qed.

End after.
End rules.

(** The state after a call, when [retn] has taken the address that was pushed *)
Lemma returned {mem dev : Type} (s : x86 mem dev) l : is_u32 (x_eip s) ->
  set_control (x_cs (set_stack l s)) (u32 (x_eip s)) (x_eflags (set_stack l s))
    (set_stack (x_stack s) (set_stack l s)) = s.
Proof. intros Hip. rewrite (u32_small _ Hip). now destruct s. Qed.

(** [x_step] runs one instruction that needs no hypothesis; the registers of the
    state must be written out. *)
Ltac x_simpl :=
  cbn [reg_of set_reg eax ecx edx ebx ebp esi edi sreg_of ds es fs gs];
  autorewrite with x86_parts.
Ltac x_rule :=
  lazymatch goal with
  | |- wp (bind _ _) _ _ => apply wp_bind; x_rule
  | |- wp (ret _) _ _ => apply wp_ret
  | |- wp (gets _) _ _ => apply wp_gets
  | |- wp (rd _) _ _ => apply wp_rd
  | |- wp (wr _ _) _ _ => apply wp_wr
  | |- wp (rd16 _) _ _ => apply wp_rd16
  | |- wp (wr16 _ _) _ _ => apply wp_wr16
  | |- wp (rdl _) _ _ => apply wp_rdl
  | |- wp (wrl _ _) _ _ => apply wp_wrl
  | |- wp (rdh _) _ _ => apply wp_rdh
  | |- wp (wrh _ _) _ _ => apply wp_wrh
  | |- wp (rds _) _ _ => apply wp_rds
  | |- wp (wrs _ _) _ _ => apply wp_wrs
  | |- wp (push _) _ _ => apply wp_push
  | |- wp (out8 _ _) _ _ => apply wp_out8
  | |- wp (upd _ _) _ _ => unfold upd; x_rule
  | |- wp (upd16 _ _) _ _ => unfold upd16; x_rule
  | |- wp out_dx_al _ _ => unfold out_dx_al; x_rule
  | |- wp in_al_dx _ _ => unfold in_al_dx; x_rule
  end; x_simpl.
Ltac x_steps := repeat x_rule.

Section pushad_rules.
  Context {mem dev : Type}.
  Implicit Types s : x86 mem dev.

(** Registers hold 32 bits. *)
Definition regs_ok (r : regs) : Prop := forall g, is_u32 (reg_of g r).

Lemma wp_pushad r (m : mem) (d : dev) o s (Q : unit -> x86 mem dev -> Prop) :
  regs_ok r ->
  Q tt (after r m d o (set_stack
    (edi r :: esi r :: ebp r :: esp s :: ebx r :: edx r :: ecx r :: eax r :: x_stack s) s)) ->
  wp pushad Q (after r m d o s).
Proof.
  intros Hr HQ. assert (Hu : forall g, u32 (reg_of g r) = reg_of g r) by (intros; now apply u32_small).
  unfold pushad. x_steps. pose proof (Hu EAX) as E1. pose proof (Hu ECX) as E2. pose proof (Hu EDX) as E3.
  pose proof (Hu EBX) as E4. pose proof (Hu EBP) as E5. pose proof (Hu ESI) as E6. pose proof (Hu EDI) as E7.
  cbn [reg_of] in *. rewrite E1, E2, E3, E4, E5, E6, E7. rewrite u32_small by apply u32_range. exact HQ.
Qed.

Lemma wp_popad r r' temp l (m : mem) (d : dev) o s (Q : unit -> x86 mem dev -> Prop) :
  regs_ok r' ->
  x_stack s = edi r' :: esi r' :: ebp r' :: temp :: ebx r' :: edx r' :: ecx r' :: eax r' :: l ->
  Q tt (after r' m d o (set_stack l s)) -> wp popad Q (after r m d o s).
Proof.
  intros Hr Hs HQ. assert (Hu : forall g, u32 (reg_of g r') = reg_of g r') by (intros; now apply u32_small).
  pose proof (Hu EAX) as E1. pose proof (Hu ECX) as E2. pose proof (Hu EDX) as E3.
  pose proof (Hu EBX) as E4. pose proof (Hu EBP) as E5. pose proof (Hu ESI) as E6. pose proof (Hu EDI) as E7.
  cbn [reg_of] in *. destruct r, r'. cbn in *. unfold popad.
  apply wp_bind. eapply wp_pop_reg; [exact Hs|].
  do 2 (apply wp_bind; eapply wp_pop_reg; [reflexivity|]).
  apply wp_bind, wp_drop_stack; [cbn; lia|].
  do 3 (apply wp_bind; eapply wp_pop_reg; [reflexivity|]).
  eapply wp_pop_reg; [reflexivity|]. cbn. rewrite E1, E2, E3, E4, E5, E6, E7. exact HQ.
Qed.

End pushad_rules.
