(* ===== verification/Loader.v ===== *)
(** * Loader: the memory probe of boot/loader.S

    From [loader_start] to [.mem_get_ok]: the loader asks the BIOS for the
    memory map, by three functions of int 0x15 in turn, and leaves the number of
    bytes at 0xb00, where kernel/memory.c reads it.  The code runs in real mode
    with the segments at 0; the BIOS, which is not part of the repository, is
    the class [Bios], and its documented answers are the laws of [BiosSpec]. *)

From stdpp Require Import base numbers list strings gmap.
From S2P Require Import Prelude Machine FlatMemory Paging Kernel X86.
From Stdlib Require Import ZArith Lia.
Open Scope Z_scope.

(** ** The code *)

(** The loader is loaded at 0x900; the descriptors before take 0x200 bytes. *)
Definition LOADER_BASE_ADDR : Z := 0x900.
Definition total_mem_bytes : Z := LOADER_BASE_ADDR + 8 * (4 + 60).
Definition ards_buf : Z := total_mem_bytes + 4 + 6.
Definition ards_nr : Z := ards_buf + 244.

(** An address range descriptor *)
Record ards : Type := Ards {
  base_add_low : Z; base_add_high : Z; length_low : Z; length_high : Z; area_type : Z;
}.

Definition ards_bytes (a : ards) : list Z :=
  word_bytes (base_add_low a) ++ word_bytes (base_add_high a) ++ word_bytes (length_low a) ++
  word_bytes (length_high a) ++ word_bytes (area_type a).

(** int 0x15, with the carry flag as result *)
Class Bios (mem dev : Type) : Type := int15 : M (x86 mem dev) bool.

Section code.
  Context {mem dev : Type} `{Memory mem} `{Bios mem dev}.
  Abbreviation X := (M (x86 mem dev)).

(** 16-bit code counts in cx. *)
Definition loop_cx (body : X unit) : X unit :=
  loop 33 (fun _ : unit =>
    body ;;;
    upd16 ECX (fun cx => cx - 1) ;;;
    cx <- rd16 ECX ;;
    if cx =? 0 then ret (inr tt) else ret (inl tt)) tt.

(** [mul] by a 16-bit and by a 32-bit register *)
Definition mul16 (g : gpr) : X unit :=
  ax <- rd16 EAX ;; v <- rd16 g ;;
  wr16 EAX (ax * v) ;;; wr16 EDX (ax * v / 2 ^ 16).
Definition mul32 (g : gpr) : X unit :=
  eax <- rd EAX ;; v <- rd g ;;
  wr EAX (eax * v) ;;; wr EDX (eax * v / 2 ^ 32).

(** [true] when the call fails *)
Definition e820_mem_get_loop : X bool :=
  loop 33 (fun _ : unit =>
    wr EAX 0x0000e820 ;;;
    wr ECX 20 ;;;
    cf <- int15 ;;
    if cf then ret (inr true)
    else
      (cx <- rd16 ECX ;; upd16 EDI (fun di => di + cx)) ;;;
      (nr <- load_half ards_nr ;; store_half ards_nr (u16 (nr + 1))) ;;;
      ebx <- rd EBX ;;
      if ebx =? 0 then ret (inr false) else ret (inl tt)) tt.

Definition find_max_mem_area : X unit :=
  loop_cx (
    (ebx <- rd EBX ;; v <- load_word ebx ;; wr EAX v) ;;;
    (ebx <- rd EBX ;; v <- load_word (u32 (ebx + 8)) ;; upd EAX (fun eax => eax + v)) ;;;
    upd EBX (fun ebx => ebx + 20) ;;;
    edx <- rd EDX ;; eax <- rd EAX ;;
    if s32 edx >=? s32 eax then ret tt else wr EDX eax).

Definition e801 : X bool :=
  wr16 EAX 0xe801 ;;;
  cf <- int15 ;;
  if cf then ret true
  else
    wr16 ECX 0x400 ;;;
    mul16 ECX ;;;
    upd EDX (fun edx => Z.shiftl edx 16) ;;;
    upd EAX (fun eax => Z.land eax 0x0000FFFF) ;;;
    (eax <- rd EAX ;; upd EDX (fun edx => Z.lor edx eax)) ;;;
    upd EDX (fun edx => edx + 0x100000) ;;;
    (edx <- rd EDX ;; wr ESI edx) ;;;
    wr EAX 0 ;;;
    (bx <- rd16 EBX ;; wr16 EAX bx) ;;;
    wr ECX 0x10000 ;;;
    mul32 ECX ;;;
    (eax <- rd EAX ;; upd ESI (fun esi => esi + eax)) ;;;
    (esi <- rd ESI ;; wr EDX esi) ;;;
    ret false.

Definition try88 : X bool :=
  wrh EAX 0x88 ;;;
  cf <- int15 ;;
  if cf then ret true
  else
    upd EAX (fun eax => Z.land eax 0x0000FFFF) ;;;
    wr16 ECX 0x400 ;;;
    mul16 ECX ;;;
    upd EDX (fun edx => Z.shiftl edx 16) ;;;
    (eax <- rd EAX ;; upd EDX (fun edx => Z.lor edx eax)) ;;;
    upd EDX (fun edx => edx + 0x100000) ;;;
    ret false.

(** At [.error_hlt] the CPU waits; what follows an interrupt is not modelled. *)
Definition loader_start : X unit :=
  wr EBX 0 ;;;
  wr EDX 0x534d4150 ;;;
  wr16 EDI ards_buf ;;;
  e820_failed <- e820_mem_get_loop ;;
  (if e820_failed then
     e801_failed <- e801 ;;
     when e801_failed (failed <- try88 ;; when failed (stop_with Hang))
   else
     (nr <- load_half ards_nr ;; wr16 ECX nr) ;;;
     wr EBX ards_buf ;;;
     wr EDX 0 ;;;
     find_max_mem_area) ;;;
  (edx <- rd EDX ;; store_word total_mem_bytes edx).

End code.

(** ** The BIOS's answers *)

Definition ards_ok (a : ards) : Prop :=
  is_u32 (base_add_low a) /\ is_u32 (base_add_high a) /\ is_u32 (length_low a) /\
  is_u32 (length_high a) /\ is_u32 (area_type a).

(** [areas]: the map of function 0xe820, handed out one by one with the values
    [cont] of ebx in between; [ext_mem]: the answer of 0xe801, in KiB below and
    64-KiB blocks above 16 MiB; [ext_mem88]: that of 0x88 in KiB.  [None] for a
    function the BIOS does not have. *)
Class BiosSpec (mem dev : Type) `{RamSpec mem} `{Bios mem dev} : Type := {
  areas : option (list ards);
  cont : nat -> Z;
  ext_mem : option (Z * Z);
  ext_mem88 : option Z;
  areas_ok l : areas = Some l -> l <> [] /\ Forall ards_ok l;
  cont_first : cont 0 = 0;
  cont_next l i : areas = Some l -> (0 < i < length l)%nat -> cont i <> 0;
  cont_last l : areas = Some l -> cont (length l) = 0;
  int15_e820 (s : x86 mem dev) l i a : areas = Some l -> l !! i = Some a ->
    eax (x_regs s) = 0xe820 -> ecx (x_regs s) = 20 -> edx (x_regs s) = 0x534d4150 ->
    ebx (x_regs s) = cont i -> es (x_sregs s) = 0 -> writable (x_mem s) (lo16 (edi (x_regs s))) 20 ->
    exists r m d o, int15 s = Ret false (after r m d o s) /\
      ecx r = 20 /\ edx r = 0x534d4150 /\ ebx r = cont (S i) /\ edi r = edi (x_regs s) /\
      bytes_at m (lo16 (edi (x_regs s))) (ards_bytes a) /\
      mod_only (lo16 (edi (x_regs s))) (lo16 (edi (x_regs s)) + 20) (x_mem s) m;
  int15_no_e820 (s : x86 mem dev) : areas = None -> eax (x_regs s) = 0xe820 ->
    exists r d o, int15 s = Ret true (after r (x_mem s) d o s);
  int15_e801 (s : x86 mem dev) : lo16 (eax (x_regs s)) = 0xe801 ->
    exists r d o, match ext_mem with
      | Some (k, b) => int15 s = Ret false (after r (x_mem s) d o s) /\ lo16 (eax r) = k /\ lo16 (ebx r) = b
      | None => int15 s = Ret true (after r (x_mem s) d o s)
      end;
  int15_88 (s : x86 mem dev) : hi8 (eax (x_regs s)) = 0x88 ->
    exists r d o, match ext_mem88 with
      | Some k => int15 s = Ret false (after r (x_mem s) d o s) /\ lo16 (eax r) = k
      | None => int15 s = Ret true (after r (x_mem s) d o s)
      end;
}.

(** Memory without address translation: words need no alignment. *)
Class Unaligned (mem : Type) `{RamSpec mem} : Prop := {
  load32_any m a v : bytes_at m a (word_bytes v) -> is_u32 v -> load32 m a = Some v;
}.

#[export] Instance flat_Unaligned : Unaligned flat.
Proof.
  constructor. intros m a v (_ & _ & Hb) Hv.
  pose proof (Hb 0%nat _ eq_refl) as (_ & _ & E0). pose proof (Hb 1%nat _ eq_refl) as (_ & _ & E1).
  pose proof (Hb 2%nat _ eq_refl) as (_ & _ & E2). pose proof (Hb 3%nat _ eq_refl) as (_ & _ & E3).
  change (Z.of_nat 0) with 0 in E0. change (Z.of_nat 1) with 1 in E1.
  change (Z.of_nat 2) with 2 in E2. change (Z.of_nat 3) with 3 in E3. rewrite Z.add_0_r in E0.
  cbn in *. unfold flat_load8, flat_load32 in *. rewrite E0, E1, E2, E3. now rewrite le32_bytes.
Qed.

(** ** What the probe finds *)

(** The end of an area, as the loader computes it *)
Definition area_end (a : ards) : Z := u32 (base_add_low a + length_low a).

Definition max_end (l : list ards) : Z :=
  foldr Z.max 0 (filter (fun e => e < 2 ^ 31) (area_end <$> l)).

Definition detected (e820 : option (list ards)) (e801 : option (Z * Z)) (e88 : option Z) : option Z :=
  match e820, e801, e88 with
  | Some l, _, _ => Some (max_end l)
  | None, Some (k, b), _ => Some (u32 (2 ^ 20 + 2 ^ 10 * k + 2 ^ 16 * b))
  | None, None, Some k => Some (2 ^ 20 + 2 ^ 10 * k)
  | None, None, None => None
  end.

(** ** Lemmas *)

(** One step of the search, with its signed comparison *)
Definition keep_larger (edx eax : Z) : Z := if s32 edx >=? s32 eax then edx else eax.

Lemma s32_high z : 2 ^ 31 <= z < 2 ^ 32 -> s32 z = z - 2 ^ 32.
Proof.
  intros Hz. unfold s32. assert (E : (z + 2 ^ 31) mod 2 ^ 32 = z - 2 ^ 31).
  { symmetry. apply Z.mod_unique with 1; lia. }
  lia.
Qed.

Lemma keep_larger_max acc e :
  0 <= acc < 2 ^ 31 -> is_u32 e -> keep_larger acc e = if decide (e < 2 ^ 31) then Z.max acc e else acc.
Proof.
  intros Ha He. unfold is_u32 in He. unfold keep_larger. rewrite (s32_small acc) by lia. case_decide.
  - rewrite s32_small by lia. destruct (Z.geb_spec acc e); lia.
  - rewrite s32_high by lia. destruct (Z.geb_spec acc (e - 2 ^ 32)); lia.
Qed.

Lemma search_max l acc :
  0 <= acc < 2 ^ 31 -> Forall is_u32 l ->
  foldl keep_larger acc l = Z.max acc (foldr Z.max 0 (filter (fun e => e < 2 ^ 31) l)) /\
  0 <= foldl keep_larger acc l < 2 ^ 31.
Proof.
  intros Ha Hl. revert acc Ha. induction Hl as [|e l He Hl IH]; intros acc Ha; cbn [foldl]; [cbn; lia|].
  rewrite keep_larger_max by done. rewrite filter_cons. unfold is_u32 in He. case_decide.
  - destruct (IH (Z.max acc e)) as [-> ?]; [lia|]. cbn [foldr]. split; lia.
  - now apply IH.
Qed.

Section rules.
  Context {mem dev : Type} `{RamSpec mem}.
  Implicit Types s : x86 mem dev.
  Context (r : regs) (m : mem) (d : dev) (o : list (Z * Z)) (s : x86 mem dev).

Definition half_bytes (v : Z) : list Z := [u8 v; u8 (v / 2 ^ 8)].

Lemma half_of_bytes v : 0 <= v < 2 ^ 16 -> u8 v + 2 ^ 8 * u8 (v / 2 ^ 8) = v.
Proof.
  intros Hv. unfold u8. pose proof (Z.div_mod v (2 ^ 8) ltac:(lia)).
  rewrite (Z.mod_small (v / 2 ^ 8)); [lia|]. split; [apply Z.div_pos; lia | apply Z.div_lt_upper_bound; lia].
Qed.

Lemma wp_load_half a v (Q : Z -> x86 mem dev -> Prop) :
  bytes_at m a (half_bytes v) -> 0 <= v < 2 ^ 16 ->
  Q v (after r m d o s) -> wp (load_half a) Q (after r m d o s).
Proof.
  intros Hb Hv HQ. pose proof Hb as (Ha & Hl & _). cbn in Hl.
  destruct (bytes_at_lookup _ _ _ 0 _ Hb eq_refl) as (_ & _ & E0).
  destruct (bytes_at_lookup _ _ _ 1 _ Hb eq_refl) as (_ & _ & E1).
  change (Z.of_nat 0) with 0 in E0. change (Z.of_nat 1) with 1 in E1. rewrite Z.add_0_r in E0.
  unfold load_half, wp, bind, load_byte. cbn [x_mem after]. rewrite E0, u32_small by (unfold is_u32; lia).
  cbn [x_mem after]. rewrite E1. cbn. change (Z.pow_pos 2 8) with (2 ^ 8). now rewrite half_of_bytes.
Qed.

Lemma wp_store_half a v (Q : unit -> x86 mem dev -> Prop) :
  writable m a 2 ->
  (forall m', mod_only a (a + 2) m m' -> bytes_at m' a (half_bytes v) -> Q tt (after r m' d o s)) ->
  wp (store_half a v) Q (after r m d o s).
Proof.
  intros (Ha & Hl & Hw) HQ. unfold store_half, wp, bind, store_byte. cbn [x_mem after].
  destruct (store8_ram m a (u8 v) (Hw a ltac:(lia)) (u8_range v)) as (m1 & E1 & L1 & M1). rewrite E1.
  cbn [set_xmem x_mem after]. rewrite u32_small by (unfold is_u32; lia).
  pose proof M1 as (R1 & _ & _).
  assert (Hr1 : ram m1 (a + 1)) by (apply R1, Hw; lia).
  destruct (store8_ram m1 (a + 1) (u8 (v / 2 ^ 8)) Hr1 (u8_range _)) as (m2 & E2 & L2 & M2).
  rewrite E2. apply HQ.
  - apply (mod_only_trans _ _ _ m1); eapply mod_only_weaken; eauto; lia.
  - apply (bytes_at_snoc m1 m2 a [u8 v]); [|exact Hr1 | apply u8_range | exact M2 | exact L2].
    apply (bytes_at_snoc m m1 a []); cbn [length]; rewrite ?Z.add_0_r;
      [apply bytes_at_nil; lia | apply Hw; lia | apply u8_range | exact M1 | exact L1].
Qed.

Lemma wp_load_word `{!Unaligned mem} a v (Q : Z -> x86 mem dev -> Prop) :
  bytes_at m a (word_bytes v) -> is_u32 v -> Q v (after r m d o s) -> wp (load_word a) Q (after r m d o s).
Proof. intros Hb Hv HQ. unfold wp, load_word. cbn [x_mem after]. now rewrite (load32_any m a v). Qed.

Lemma wp_store_word a v (Q : unit -> x86 mem dev -> Prop) :
  a mod 4 = 0 -> writable m a 4 -> is_u32 v ->
  (forall m', mod_only a (a + 4) m m' -> word_at m' a v -> Q tt (after r m' d o s)) ->
  wp (store_word a v) Q (after r m d o s).
Proof.
  intros Ha Hw Hv HQ. unfold wp, store_word. cbn [x_mem after].
  assert (Hp : wp (poke32 a v) (fun _ k => mod_only a (a + 4) m (k_mem k) /\ word_at (k_mem k) a v)
    (blank_kernel m)).
  { apply wp_poke32; [done | done | done|]. intros k [_ Ht] Hk. now split. }
  unfold wp, poke32 in Hp. cbn [k_mem blank_kernel] in Hp.
  destruct (store32 m a (u32 v)) as [m'|]; [apply HQ; apply Hp | destruct Hp].
Qed.

End rules.

(** ** The memory map *)

Section e820.
  Context {mem dev : Type} `{BiosSpec mem dev} `{!Unaligned mem}.
  Implicit Types s : x86 mem dev.
  Implicit Types m : mem.

Lemma length_ards_bytes a : length (ards_bytes a) = 20%nat.
Proof. reflexivity. Qed.

Lemma length_areas (l : list ards) : length (mjoin (ards_bytes <$> l)) = (20 * length l)%nat.
Proof.
  induction l as [|a l IH]; [done|].
  change (length (ards_bytes a ++ mjoin (ards_bytes <$> l)) = (20 * length (a :: l))%nat).
  rewrite length_app, IH, length_ards_bytes. cbn [length]. lia.
Qed.

Lemma areas_snoc (l : list ards) i a :
  l !! i = Some a -> mjoin (ards_bytes <$> take (S i) l) = mjoin (ards_bytes <$> take i l) ++ ards_bytes a.
Proof. intros Hi. rewrite (take_S_r _ _ _ Hi), fmap_app, join_app. f_equal. Qed.

(** The first [i] areas are in the buffer, and their number behind it. *)
Definition collected (l : list ards) (i : nat) m : Prop :=
  bytes_at m ards_buf (mjoin (ards_bytes <$> take i l)) /\ bytes_at m ards_nr (half_bytes (Z.of_nat i)).

Definition probe_memory m : Prop := writable m total_mem_bytes 0x100.

Lemma probe_memory_mod lo hi m m' : mod_only lo hi m m' -> probe_memory m -> probe_memory m'.
Proof. intros Hm Hw. eapply writable_mod; [exact Hw | exact Hm]. Qed.

Definition asking (l : list ards) m0 s s1 : Prop :=
  exists i r m d o, s1 = after r m d o s /\ (i < length l)%nat /\ ebx r = cont i /\
    edx r = 0x534d4150 /\ lo16 (edi r) = ards_buf + 20 * Z.of_nat i /\ collected l i m /\
    mod_only ards_buf (ards_nr + 2) m0 m.

Definition map_read (l : list ards) m0 s (failed : bool) s1 : Prop :=
  failed = false /\ exists r m d o, s1 = after r m d o s /\ collected l (length l) m /\
    mod_only ards_buf (ards_nr + 2) m0 m.

Local Ltac addr_lia := unfold ards_nr, ards_buf, total_mem_bytes, LOADER_BASE_ADDR in *; lia.

Lemma buffer_room m i : probe_memory m -> (i < 12)%nat -> writable m (ards_buf + 20 * Z.of_nat i) 20.
Proof.
  intros (_ & _ & Hw) Hi. split; [addr_lia|]. split; [addr_lia|]. intros x Hx. apply Hw. addr_lia.
Qed.

(** One more area and the count *)
Lemma collected_next l i a m m1 m2 :
  (i < 12)%nat -> l !! i = Some a -> collected l i m ->
  bytes_at m1 (ards_buf + 20 * Z.of_nat i) (ards_bytes a) ->
  mod_only (ards_buf + 20 * Z.of_nat i) (ards_buf + 20 * Z.of_nat i + 20) m m1 ->
  bytes_at m2 ards_nr (half_bytes (Z.of_nat (S i))) -> mod_only ards_nr (ards_nr + 2) m1 m2 ->
  collected l (S i) m2.
Proof.
  intros Hi Ha [Hbuf Hnr] Hb1 Hm1 Hb2 Hm2. split; [|exact Hb2].
  pose proof (lookup_lt_Some _ _ _ Ha) as Hlt.
  assert (Hlen : length (mjoin (ards_bytes <$> take i l)) = (20 * i)%nat).
  { rewrite length_areas, length_take_le by lia. done. }
  rewrite (areas_snoc _ _ _ Ha). apply bytes_at_app; [addr_lia|]. rewrite Hlen.
  replace (ards_buf + Z.of_nat (20 * i)) with (ards_buf + 20 * Z.of_nat i) by lia. split.
  - eapply bytes_at_mod; [|exact Hm2 | left; rewrite Hlen; addr_lia].
    eapply bytes_at_mod; [exact Hbuf | exact Hm1 | left; rewrite Hlen; lia].
  - eapply bytes_at_mod; [exact Hb1 | exact Hm2 | left; rewrite length_ards_bytes; addr_lia].
Qed.

(** One call of the BIOS *)
Lemma e820_round l m0 s s1 :
  areas = Some l -> (length l <= 12)%nat -> es (x_sregs s) = 0 -> probe_memory m0 ->
  asking l m0 s s1 ->
  wp (wr EAX 0x0000e820 ;;;
    wr ECX 20 ;;;
    cf <- int15 ;;
    if cf then ret (inr true)
    else
      (cx <- rd16 ECX ;; upd16 EDI (fun di => di + cx)) ;;;
      (nr <- load_half ards_nr ;; store_half ards_nr (u16 (nr + 1))) ;;;
      ebx <- rd EBX ;;
      if ebx =? 0 then ret (inr false) else ret (inl tt))
    (fun res s2 => match res with
      | inl _ => asking l m0 s s2 /\ 2 ^ 16 - lo16 (edi (x_regs s2)) < 2 ^ 16 - lo16 (edi (x_regs s1))
      | inr failed => map_read l m0 s failed s2
      end) s1.
Proof.
  intros Hl Hn Hes Hw0 (i & r & m & d & o & -> & Hi & Hbx & Hdx & Hdi & [Hbuf Hnr] & Hm).
  destruct (lookup_lt_is_Some_2 l i Hi) as [a Ha]. assert (Hw : probe_memory m) by eauto using probe_memory_mod.
  x_steps. apply wp_bind. match goal with |- wp _ _ (after ?q _ _ _ _) => set (r1 := q) end.
  destruct (int15_e820 (after r1 m d o s) l i a Hl Ha) as (r2 & m2 & d2 & o2 & E & Hcx & Hdx2 & Hbx2 & Hdi2 & Hb2 & Hm2);
    [reflexivity | reflexivity | exact Hdx | exact Hbx | exact Hes | |].
  { change (x_mem (after r1 m d o s)) with m. change (edi (x_regs (after r1 m d o s))) with (edi r).
    rewrite Hdi. apply buffer_room; [done | lia]. }
  change (edi (x_regs (after r1 m d o s))) with (edi r) in *. change (x_mem (after r1 m d o s)) with m in *.
  unfold wp at 1. rewrite E, after_after. destruct r2 as [a2 c2 dx2 b2 bp2 si2 di2]. cbn in Hcx, Hdx2, Hbx2, Hdi2.
  x_steps.
  rewrite Hdi in *. subst c2 dx2 b2 di2. do 2 apply wp_bind.
  pose proof Hm2 as Hm2'. assert (Hw2 : probe_memory m2) by eauto using probe_memory_mod.
  apply (wp_load_half _ _ _ _ _ _ (Z.of_nat i)); [|lia|].
  { eapply bytes_at_mod; [exact Hnr | exact Hm2 | right; addr_lia]. }
  replace (u16 (Z.of_nat i + 1)) with (Z.of_nat (S i)) by (rewrite u16_small; lia).
  apply wp_store_half.
  { destruct Hw2 as (_ & _ & Hw2). split; [addr_lia|]. split; [addr_lia|]. intros x Hx. apply Hw2. addr_lia. }
  intros m3 Hm3 Hb3. x_steps.
  assert (Hcol : collected l (S i) m3) by (eapply (collected_next l i a m m2); [lia | done..]).
  assert (Hmod : mod_only ards_buf (ards_nr + 2) m0 m3).
  { eapply mod_only_trans; [exact Hm|].
    eapply mod_only_trans; eapply mod_only_weaken; [exact Hm2 | addr_lia | addr_lia | exact Hm3 | addr_lia | lia]. }
  destruct (Z.eqb_spec (cont (S i)) 0) as [Hz|Hz]; apply wp_ret.
  - assert (Hlast : S i = length l).
    { destruct (decide (S i < length l)%nat); [|lia]. now apply (cont_next l (S i)) in Hz; [|done|lia]. }
    split; [done|]. eexists _, m3, _, _. split; [reflexivity|]. now rewrite <- Hlast.
  - assert (Hmore : (S i < length l)%nat).
    { destruct (decide (S i = length l)) as [E'|]; [|lia]. rewrite E', (cont_last l) in Hz by done. done. }
    assert (Hdi' : u16 (lo16 (edi r) + lo16 20) = ards_buf + 20 * Z.of_nat (S i)).
    { rewrite Hdi, u16_small; change (lo16 20) with 20; addr_lia. }
    split.
    + exists (S i). eexists _, m3, _, _. split; [reflexivity|]. cbn [ebx edx edi].
      split; [done|]. split; [done|]. split; [done|]. split; [|done].
      rewrite lo16_with_lo16. exact Hdi'.
    + cbn [x_regs after edi]. rewrite lo16_with_lo16, Hdi', Hdi. lia.
Qed.

Lemma e820_run l r m d o s :
  areas = Some l -> (length l <= 12)%nat -> es (x_sregs s) = 0 -> probe_memory m ->
  ebx r = 0 -> edx r = 0x534d4150 -> lo16 (edi r) = ards_buf -> bytes_at m ards_nr [0; 0] ->
  wp e820_mem_get_loop (map_read l m s) (after r m d o s).
Proof.
  intros Hl Hn Hes Hw Hbx Hdx Hdi Hnr. destruct (areas_ok l Hl) as [Hne _].
  apply (wp_loop_measure _ (fun _ => asking l m s) _ (fun _ s1 => 2 ^ 16 - lo16 (edi (x_regs s1)))).
  - intros [] s1 Hs1. now apply e820_round.
  - intros _ s1 _. pose proof (lo16_range (edi (x_regs s1))). lia.
  - exists 0%nat, r, m, d, o. split; [done|]. split; [destruct l; [done | cbn; lia]|].
    split; [now rewrite cont_first|]. split; [done|]. split; [rewrite Hdi; lia|].
    split; [|apply mod_only_refl]. split; [apply bytes_at_nil; addr_lia | exact Hnr].
  - cbn. pose proof (lo16_range (edi r)). lia.
Qed.

(** The search *)
Lemma area_at l i a m :
  bytes_at m ards_buf (mjoin (ards_bytes <$> l)) -> l !! i = Some a -> (i < 12)%nat ->
  bytes_at m (ards_buf + 20 * Z.of_nat i) (word_bytes (base_add_low a)) /\
  bytes_at m (ards_buf + 20 * Z.of_nat i + 8) (word_bytes (length_low a)).
Proof.
  intros Hb Ha Hi. rewrite <- (take_drop_middle l i a Ha), fmap_app, join_app in Hb.
  pose proof (lookup_lt_Some _ _ _ Ha).
  apply bytes_at_app in Hb as [_ Hb]; [|addr_lia]. rewrite length_areas, length_take_le in Hb by lia.
  replace (ards_buf + Z.of_nat (20 * i)) with (ards_buf + 20 * Z.of_nat i) in Hb by lia.
  rewrite fmap_cons in Hb. change (mjoin (ards_bytes a :: ?t)) with (ards_bytes a ++ mjoin t) in Hb.
  apply bytes_at_app in Hb as [Hb _]; [|addr_lia]. unfold ards_bytes in Hb.
  apply bytes_at_app in Hb as [H0' Hb]; [|addr_lia]. split; [exact H0'|].
  apply bytes_at_app in Hb as [_ Hb]; [|cbn; addr_lia]. apply bytes_at_app in Hb as [Hb _]; [|cbn; addr_lia].
  cbn [length word_bytes] in Hb. replace (ards_buf + 20 * Z.of_nat i + 8)
    with (ards_buf + 20 * Z.of_nat i + Z.of_nat 4 + Z.of_nat 4) by lia. exact Hb.
Qed.
Definition largest (l : list ards) : Z := foldl keep_larger 0 (area_end <$> l).

Lemma area_ends_ok l : Forall is_u32 (area_end <$> l).
Proof. apply Forall_fmap, Forall_true. intros a. apply u32_range. Qed.

Lemma largest_max l : largest l = max_end l /\ 0 <= largest l < 2 ^ 31.
Proof.
  destruct (search_max (area_end <$> l) 0 ltac:(lia) (area_ends_ok l)) as [E Hr].
  split; [|exact Hr]. unfold largest, max_end. rewrite E. apply Z.max_r.
  clear. induction (filter _ _) as [|e l' IH]; cbn [foldr]; lia.
Qed.

Lemma largest_snoc l i a :
  l !! i = Some a -> largest (take (S i) l) = keep_larger (largest (take i l)) (area_end a).
Proof. intros Ha. unfold largest. now rewrite (take_S_r _ _ _ Ha), fmap_app, foldl_app. Qed.

Definition searching (l : list ards) m s s1 : Prop :=
  exists i r d o, s1 = after r m d o s /\ (i < length l)%nat /\
    lo16 (ecx r) = Z.of_nat (length l - i) /\ ebx r = ards_buf + 20 * Z.of_nat i /\
    edx r = largest (take i l).

Lemma find_max_run l r m d o s :
  l <> [] -> (length l <= 12)%nat -> Forall ards_ok l ->
  bytes_at m ards_buf (mjoin (ards_bytes <$> l)) ->
  lo16 (ecx r) = Z.of_nat (length l) -> ebx r = ards_buf -> edx r = 0 ->
  wp find_max_mem_area (fun _ s1 => exists r1 d1 o1, s1 = after r1 m d1 o1 s /\ edx r1 = max_end l)
    (after r m d o s).
Proof.
  intros Hne Hn Hok Hb Hcx Hbx Hdx. unfold find_max_mem_area, loop_cx.
  apply (wp_loop_measure _ (fun _ => searching l m s) _ (fun _ s1 => lo16 (ecx (x_regs s1)))).
  - clear r d o Hcx Hbx Hdx. intros [] s1 (i & r & d & o & -> & Hi & Hcx & Hbx & Hdx).
    destruct (lookup_lt_is_Some_2 l i Hi) as [a Ha].
    destruct (area_at l i a m Hb Ha ltac:(lia)) as [Hw0 Hw8].
    pose proof (Forall_lookup_1 _ _ _ _ Hok Ha) as (Hlow & _ & Hlen & _).
    destruct r as [ax cx dx bx bp si di]. cbn in Hcx, Hbx, Hdx.
    do 2 apply wp_bind. x_steps. apply wp_bind. rewrite Hbx.
    apply (wp_load_word _ _ _ _ _ _ (base_add_low a)); [exact Hw0 | done|]. x_steps. apply wp_bind.
    replace (u32 (ards_buf + 20 * Z.of_nat i + 8)) with (ards_buf + 20 * Z.of_nat i + 8)
      by (symmetry; apply u32_small; unfold is_u32; addr_lia).
    apply (wp_load_word _ _ _ _ _ _ (length_low a)); [exact Hw8 | done|]. x_steps.
    rewrite (u32_small (base_add_low a)) by done. fold (area_end a).
    replace (u32 (ards_buf + 20 * Z.of_nat i + 20)) with (ards_buf + 20 * Z.of_nat (S i))
      by (symmetry; rewrite u32_small; [lia | unfold is_u32; addr_lia]).
    set (r2 := Regs (area_end a) cx (largest (take (S i) l)) (ards_buf + 20 * Z.of_nat (S i)) bp si di).
    match goal with |- wp (if _ then _ else _) ?Q _ => assert (HQ : Q tt (after r2 m d o s)) end.
    { cbv beta. unfold r2. x_steps. rewrite Hcx.
      replace (u16 (Z.of_nat (length l - i) - 1)) with (Z.of_nat (length l - S i)) by (rewrite u16_small; lia).
      destruct (Z.eqb_spec (Z.of_nat (length l - S i)) 0); apply wp_ret.
      - eexists _, d, o. split; [reflexivity|]. cbn [edx]. rewrite (proj1 (largest_max _)), take_ge by lia. done.
      - split.
        + exists (S i). eexists _, d, o. split; [reflexivity|]. cbn [ecx ebx edx]. rewrite lo16_with_lo16.
          split; [lia|]. split; [rewrite u16_small; lia|]. done.
        + cbn [x_regs after ecx]. rewrite lo16_with_lo16, Hcx, u16_small; lia. }
    subst r2. rewrite (largest_snoc _ _ _ Ha), <- Hdx in HQ. unfold keep_larger in HQ.
    destruct (s32 dx >=? s32 (area_end a)).
    + apply wp_ret. exact HQ.
    + apply wp_wr. cbn [set_reg]. rewrite (u32_small (area_end a)) by apply u32_range. exact HQ.
  - intros _ s1 _. apply lo16_range.
  - exists 0%nat, r, d, o. split; [done|]. split; [destruct l; [done | cbn; lia]|].
    split; [rewrite Hcx; lia|]. split; [rewrite Hbx; lia | done].
  - cbn. pose proof (lo16_range (ecx r)). lia.
Qed.

(** *** The other two functions *)

Lemma shl_with_lo16 v x : u32 (Z.shiftl (with_lo16 v x) 16) = u16 x * 2 ^ 16.
Proof.
  unfold with_lo16. rewrite Z.shiftl_mul_pow2 by lia. unfold u32, u16.
  replace ((2 ^ 16 * (v / 2 ^ 16) + x mod 2 ^ 16) * 2 ^ 16) with (x mod 2 ^ 16 * 2 ^ 16 + v / 2 ^ 16 * 2 ^ 32) by lia.
  rewrite Z_mod_plus_full. apply Z.mod_small. pose proof (Z.mod_pos_bound x (2 ^ 16)). lia.
Qed.

Lemma and_with_lo16 v x : u32 (Z.land (with_lo16 v x) 0x0000FFFF) = u16 x.
Proof.
  change 0x0000FFFF with (Z.ones 16). rewrite Z.land_ones by lia.
  change (u32 (lo16 (with_lo16 v x)) = u16 x). rewrite lo16_with_lo16. apply u32_small.
  pose proof (Z.mod_pos_bound x (2 ^ 16)). unfold is_u32, u16. lia.
Qed.

(** The product of two halves, put together in edx *)
Lemma product_together k : 0 <= k < 2 ^ 16 ->
  u32 (Z.lor (u16 (k * 0x400 / 2 ^ 16) * 2 ^ 16) (u16 (k * 0x400))) = k * 0x400.
Proof.
  intros Hk. rewrite (u16_small (_ / _)) by (split; [apply Z.div_pos; lia | apply Z.div_lt_upper_bound; lia]).
  unfold u16. rewrite lor_mul_pow2 by (lia || (apply Z.mod_pos_bound; lia)).
  pose proof (Z.div_mod (k * 0x400) (2 ^ 16)). rewrite u32_small; [lia | unfold is_u32; lia].
Qed.

(** [f] reports whether it failed, and leaves the size [v] in edx if it did not. *)
Definition sized (v : option Z) m s (failed : bool) s1 : Prop :=
  exists r d o, s1 = after r m d o s /\
    match v with Some v => failed = false /\ edx r = v /\ is_u32 v | None => failed = true end.

Lemma e801_run r m d o s :
  wp e801 (sized ('(k, b) ← ext_mem; Some (u32 (2 ^ 20 + 2 ^ 10 * k + 2 ^ 16 * b))) m s) (after r m d o s).
Proof.
  unfold e801. destruct r as [ax cx dx bx bp si di]. x_steps. apply wp_bind.
  match goal with |- wp _ _ ?st => destruct (int15_e801 st) as (r1 & d1 & o1 & Hr) end; [apply lo16_with_lo16|].
  destruct ext_mem as [[k b]|].
  - destruct Hr as (E & Hk & Hb). unfold wp at 1. rewrite E. rewrite after_after. cbn [x_mem after].
    destruct r1 as [a1 c1 dx1 b1 bp1 s1 di1]. cbn in Hk, Hb. unfold mul16, mul32. x_steps.
    eexists _, d1, o1. split; [reflexivity|]. split; [done|]. cbn [edx]. split; [|apply u32_range].
    pose proof (lo16_range a1). pose proof (lo16_range b1). rewrite Hk in *. rewrite Hb in *.
    rewrite shl_with_lo16, and_with_lo16. change (u16 0x400) with 0x400. rewrite product_together by done.
    change (u32 0x10000) with 0x10000. change (u32 0) with 0.
    unfold u32. rewrite !Zmod_mod, <- Zplus_mod. f_equal. lia.
  - unfold wp at 1. rewrite Hr. rewrite after_after. cbn [x_mem after]. apply wp_ret. exists r1, d1, o1. done.
Qed.

Lemma try88_run r m d o s :
  wp try88 (sized (k ← ext_mem88; Some (2 ^ 20 + 2 ^ 10 * k)) m s) (after r m d o s).
Proof.
  unfold try88. destruct r as [ax cx dx bx bp si di]. x_steps. apply wp_bind.
  match goal with |- wp _ _ ?st => destruct (int15_88 st) as (r1 & d1 & o1 & Hr) end; [apply hi8_with_hi8|].
  destruct ext_mem88 as [k|].
  - destruct Hr as (E & Hk). unfold wp at 1. rewrite E. rewrite after_after. cbn [x_mem after].
    destruct r1 as [a1 c1 dx1 b1 bp1 s1 di1]. cbn in Hk. unfold mul16. x_steps.
    eexists _, d1, o1. split; [reflexivity|]. split; [done|]. cbn [edx].
    pose proof (lo16_range a1). split; [|unfold is_u32; lia].
    assert (E1 : u32 (Z.land a1 65535) = k).
    { change 65535 with (Z.ones 16). rewrite Z.land_ones by lia. change (u32 (lo16 a1) = k). rewrite Hk.
      apply u32_small. unfold is_u32. lia. }
    assert (E2 : forall x, with_lo16 k x = u16 x).
    { intros x. unfold with_lo16. rewrite (Z.div_small k) by lia. lia. }
    rewrite E1, E2, shl_with_lo16. change (u16 1024) with 0x400. change (lo16 k) with (u16 k).
    rewrite (u16_small k), product_together by lia. rewrite u32_small; [lia | unfold is_u32; lia].
  - unfold wp at 1. rewrite Hr. rewrite after_after. cbn [x_mem after]. apply wp_ret. exists r1, d1, o1. done.
Qed.

(** *** The whole probe *)

Lemma wp_store_total r m d o s v :
  probe_memory m -> is_u32 v -> edx r = v ->
  wp (edx <- rd EDX ;; store_word total_mem_bytes edx)
    (fun _ s1 => word_at (x_mem s1) total_mem_bytes v /\ exists r1 m1 d1 o1, s1 = after r1 m1 d1 o1 s)
    (after r m d o s).
Proof.
  intros (_ & _ & Hw) Hv Hdx. destruct r as [ax cx dx bx bp si di]. cbn in Hdx. subst dx. x_steps.
  apply wp_store_word; [done | | done|].
  - split; [addr_lia|]. split; [addr_lia|]. intros x Hx. apply Hw. addr_lia.
  - intros m' _ Hat. split; [exact Hat|]. eexists _, m', _, _. reflexivity.
Qed.

(** The call that is tried first fails at once. *)
Lemma e820_fails r m d o s :
  areas = None ->
  wp e820_mem_get_loop (fun failed s1 => failed = true /\ exists r1 d1 o1, s1 = after r1 m d1 o1 s)
    (after r m d o s).
Proof.
  intros Hn. apply (wp_loop_measure _ (fun _ s1 => exists r1 d1 o1, s1 = after r1 m d1 o1 s) _ (fun _ _ => 0));
    [| done | now eexists _, _, _ | done].
  intros [] s1 (r1 & d1 & o1 & ->). destruct r1 as [ax cx dx bx bp si di]. x_steps. apply wp_bind.
  match goal with |- wp _ _ ?st => destruct (int15_no_e820 st Hn eq_refl) as (r2 & d2 & o2 & E) end.
  unfold wp at 1. rewrite E. apply wp_ret. split; [done|]. exists r2, d2, o2. done.
Qed.

Lemma loader_start_run v s :
  es (x_sregs s) = 0 -> probe_memory (x_mem s) -> bytes_at (x_mem s) ards_nr [0; 0] ->
  (forall l, areas = Some l -> (length l <= 12)%nat) ->
  detected areas ext_mem ext_mem88 = Some v ->
  wp loader_start (fun _ s1 => word_at (x_mem s1) total_mem_bytes v) s.
Proof.
  intros Hes Hw Hnr Hn Hv. apply wp_after. destruct (x_regs s) as [ax cx dx bx bp si di].
  unfold loader_start. x_steps.
  assert (Hfin : forall r m d o, probe_memory m -> is_u32 v -> edx r = v ->
    wp (edx <- rd EDX ;; store_word total_mem_bytes edx)
      (fun _ s1 => word_at (x_mem s1) total_mem_bytes v) (after r m d o s)).
  { intros r m d o Hm Hu Hr. eapply wp_mono; [now apply (wp_store_total r m d o s v)|]. now intros [] s1 [? _]. }
  destruct areas as [l|] eqn:El; cbn [detected] in Hv.
  - simplify_eq. destruct (areas_ok l El) as [Hne Hok]. specialize (Hn l eq_refl).
    apply wp_bind. eapply wp_mono; [apply (e820_run l);
      [exact El | exact Hn | exact Hes | exact Hw | reflexivity | reflexivity
      | cbn [edi]; rewrite lo16_with_lo16; reflexivity | exact Hnr]|].
    intros failed s1 (-> & r1 & m1 & d1 & o1 & -> & [Hbuf Hcnt] & Hm1).
    rewrite take_ge in Hbuf by done. destruct r1 as [a1 c1 dx1 b1 bp1 si1 di1].
    do 3 apply wp_bind. apply (wp_load_half _ _ _ _ _ _ (Z.of_nat (length l))); [exact Hcnt | lia|]. x_steps.
    eapply wp_mono; [apply (find_max_run l);
      [exact Hne | exact Hn | exact Hok | exact Hbuf | | reflexivity | reflexivity]|].
    { cbn [ecx]. rewrite lo16_with_lo16, u16_small; lia. }
    intros [] s2 (r2 & d2 & o2 & -> & Hr2). apply Hfin; [eauto using probe_memory_mod | | done].
    destruct (largest_max l) as [<- ?]. unfold is_u32. lia.
  - apply wp_bind. eapply wp_mono; [now apply e820_fails|].
    intros failed s1 (-> & r1 & d1 & o1 & ->). do 2 apply wp_bind.
    eapply wp_mono; [apply e801_run|]. intros f2 s2 (r2 & d2 & o2 & -> & H2').
    destruct ext_mem as [[k b]|]; cbn in H2', Hv.
    + destruct H2' as (-> & Hr2 & Hu). simplify_eq. apply wp_ret. apply Hfin; [done | done | done].
    + subst f2. cbn [when]. apply wp_bind. eapply wp_mono; [apply try88_run|].
      intros f3 s3 (r3 & d3 & o3 & -> & H3'). destruct ext_mem88 as [k|]; cbn in H3', Hv; [|done].
      destruct H3' as (-> & Hr3 & Hu). simplify_eq. apply wp_ret. apply Hfin; [done | done | done].
Qed.

End e820.

Section theorems.
  Context {mem dev : Type} `{BiosSpec mem dev} `{!Unaligned mem}.
  Implicit Types s : x86 mem dev.

(** With none of the three functions the CPU waits. *)
Lemma loader_start_halts s :
  detected areas ext_mem ext_mem88 = None -> halts loader_start Hang s.
Proof.
  intros Hv. rewrite <- (after_id s). unfold loader_start.
  destruct areas as [l|] eqn:El; [done|]. destruct (x_regs s) as [ax cx dx bx bp si di].
  do 3 (apply halts_bind; first [apply wp_wr | apply wp_wr16]; x_simpl). apply halts_bind.
  eapply wp_mono; [now apply e820_fails|]. intros failed s1 (-> & r1 & d1 & o1 & ->).
  apply halts_bind_first, halts_bind. eapply wp_mono; [apply e801_run|].
  intros f2 s2 (r2 & d2 & o2 & -> & H2'). destruct ext_mem as [[k b]|]; [done|]. cbn in H2'. subst f2.
  apply halts_bind. eapply wp_mono; [apply try88_run|]. intros f3 s3 (r3 & d3 & o3 & -> & H3').
  destruct ext_mem88; [done|]. cbn in H3'. subst f3. now eexists.
Qed.

(** C20: the probe leaves at 0xb00 the size that the BIOS's answers stand for - the
    largest end below 2 GiB of an area of the memory map, or else 1 MiB and what
    functions 0xe801 or 0x88 report above it - and halts if the BIOS has none of
    the functions.  An area that ends at 2 GiB or above is not counted, because
    the comparison is signed. *)
Theorem loader_start_detects s :
  es (x_sregs s) = 0 -> probe_memory (x_mem s) -> bytes_at (x_mem s) ards_nr [0; 0] ->
  (forall l, areas = Some l -> (length l <= 12)%nat) ->
  match detected areas ext_mem ext_mem88 with
  | Some v => wp loader_start (fun _ s1 => word_at (x_mem s1) total_mem_bytes v) s
  | None => halts loader_start Hang s
  end.
Proof.
  intros Hes Hw Hnr Hn. destruct (detected areas ext_mem ext_mem88) as [v|] eqn:Hv;
    [now apply loader_start_run | now apply loader_start_halts].
Qed.

End theorems.

(** ** A BIOS *)

(** The maps of a machine, and the calls as the BIOS answers them *)
Record bios : Type := BiosData {
  b_areas : option (list ards); b_ext : option (Z * Z); b_ext88 : option Z;
}.

Fixpoint flat_write (m : flat) (a : Z) (l : list Z) : flat :=
  match l with
  | [] => m
  | b :: l => <[a := b]> (flat_write m (a + 1) l)
  end.

Definition set_eax_ebx (k b : Z) (r : regs) : regs :=
  set_reg EBX (with_lo16 (ebx r) b) (set_reg EAX (with_lo16 (eax r) k) r).

Definition bios_int15 (b : bios) : M (x86 flat unit) bool := fun s =>
  let r := x_regs s in
  let done (f : bool) (r : regs) := Ret f (after r (x_mem s) (x_dev s) (x_outs s) s) in
  if eax r =? 0xe820 then
    match b_areas b with
    | Some l =>
        match l !! Z.to_nat (ebx r) with
        | Some a =>
            let next := if Nat.eqb (S (Z.to_nat (ebx r))) (length l) then 0 else ebx r + 1 in
            Ret false (after (set_reg EBX next (set_reg EAX 0x534d4150 r))
              (flat_write (x_mem s) (lo16 (edi r)) (ards_bytes a)) (x_dev s) (x_outs s) s)
        | None => done true r
        end
    | None => done true r
    end
  else if lo16 (eax r) =? 0xe801 then
    match b_ext b with Some (k, e) => done false (set_eax_ebx k e r) | None => done true r end
  else if hi8 (eax r) =? 0x88 then
    match b_ext88 b with Some k => done false (set_reg EAX (with_lo16 (eax r) k) r) | None => done true r end
  else done true r.

Lemma flat_write_lookup m a l x :
  flat_write m a l !! x =
    if decide (a <= x < a + Z.of_nat (length l)) then l !! Z.to_nat (x - a) else m !! x.
Proof.
  revert a. induction l as [|b l IH]; intros a; cbn [flat_write length]; [now rewrite decide_False by lia|].
  destruct (decide (a = x)) as [->|Hne].
  - rewrite lookup_insert_eq, decide_True by lia. now rewrite Z.sub_diag.
  - rewrite lookup_insert_ne, IH by done. do 2 case_decide; [|lia|lia|done].
    replace (Z.to_nat (x - a)) with (S (Z.to_nat (x - (a + 1)))) by lia. done.
Qed.

Lemma flat_write_facts (m : flat) a l :
  writable m a (Z.of_nat (length l)) -> Forall is_byte l ->
  bytes_at (flat_write m a l) a l /\ mod_only a (a + Z.of_nat (length l)) m (flat_write m a l).
Proof.
  intros (Ha & Hl & Hw) Hb. assert (Hin : forall i b, l !! i = Some b -> flat_write m a l !! (a + Z.of_nat i) = Some b).
  { intros i b Hi. pose proof (lookup_lt_Some _ _ _ Hi). rewrite flat_write_lookup, decide_True by lia.
    now replace (Z.to_nat (a + Z.of_nat i - a)) with i by lia. }
  split; [split; [done|]; split; [done|] | split; [|split]].
  - intros i b Hi. pose proof (lookup_lt_Some _ _ _ Hi). pose proof (Forall_lookup_1 _ _ _ _ Hb Hi).
    split; [done|]. split; [|now apply Hin]. split; [unfold is_u32; lia|]. exists b. auto.
  - intros x. cbn. unfold flat_ram. rewrite flat_write_lookup. case_decide; [|done].
    destruct (lookup_lt_is_Some_2 l (Z.to_nat (x - a))) as [b E]; [lia|]. rewrite E.
    pose proof (Forall_lookup_1 _ _ _ _ Hb E). split; intros (Hx & _); [|split; [done|]; exists b; auto].
    apply (Hw x). lia.
  - intros x _ Hn. cbn. unfold flat_load8. now rewrite flat_write_lookup, decide_False by lia.
  - done.
Qed.

Definition bios_ok (b : bios) : Prop :=
  (forall l, b_areas b = Some l -> l <> [] /\ Forall ards_ok l) /\
  (forall k e, b_ext b = Some (k, e) -> 0 <= k < 2 ^ 16 /\ 0 <= e < 2 ^ 16) /\
  (forall k, b_ext88 b = Some k -> 0 <= k < 2 ^ 16).

Definition bios_cont (b : bios) (i : nat) : Z :=
  match b_areas b with
  | Some l => if Nat.eqb i (length l) then 0 else Z.of_nat i
  | None => 0
  end.

Lemma ards_bytes_ok a : Forall is_byte (ards_bytes a).
Proof. unfold ards_bytes, word_bytes. repeat constructor; apply byte_of_byte. Qed.

Definition bios_spec (b : bios) (Hb : bios_ok b) : BiosSpec (H1 := bios_int15 b) flat unit.
Proof.
  refine {| areas := b_areas b; cont := bios_cont b; ext_mem := b_ext b; ext_mem88 := b_ext88 b |};
    destruct Hb as (Hl & He & H8).
  - exact Hl.
  - unfold bios_cont. destruct (b_areas b); [|done]. now case_match.
  - intros l i E Hi. unfold bios_cont. rewrite E. destruct (Nat.eqb_spec i (length l)); lia.
  - intros l E. unfold bios_cont. now rewrite E, Nat.eqb_refl.
  - intros s l i a E Ha Hax Hcx Hdx Hbx _ Hw. pose proof (lookup_lt_Some _ _ _ Ha).
    assert (Hi : Z.to_nat (ebx (x_regs s)) = i /\ ebx (x_regs s) = Z.of_nat i).
    { rewrite Hbx. unfold bios_cont. rewrite E, (proj2 (Nat.eqb_neq _ _)) by lia. lia. }
    destruct Hi as [Hi Hi']. unfold int15, bios_int15. rewrite Hax, E, Hi, Ha. cbn [Z.eqb Pos.eqb].
    eexists _, _, _, _. split; [reflexivity|]. destruct (x_regs s) as [ax cx dx bx bp si di].
    cbn [set_reg eax ecx edx ebx edi] in *.
    split; [done|]. split; [done|]. split; [|split; [done|]].
    + unfold bios_cont. rewrite E. destruct (Nat.eqb (S i) (length l)); lia.
    + apply (flat_write_facts _ _ (ards_bytes a)); [exact Hw | apply ards_bytes_ok].
  - intros s E Hax. unfold int15, bios_int15. rewrite Hax, E. now eexists _, _, _.
  - intros s Hax. assert (Hne : (eax (x_regs s) =? 0xe820) = false).
    { apply Z.eqb_neq. intros E. rewrite E in Hax. done. }
    unfold int15, bios_int15. rewrite Hne, Hax. cbn [Z.eqb Pos.eqb].
    destruct (b_ext b) as [[k e]|] eqn:E; [|now eexists _, _, _].
    destruct (He k e eq_refl) as [Hk Hee]. eexists _, _, _. split; [reflexivity|].
    destruct (x_regs s) as [ax cx dx bx bp si di]. cbn. rewrite !lo16_with_lo16. now rewrite !u16_small.
  - intros s Hah. assert (Hne : (eax (x_regs s) =? 0xe820) = false).
    { apply Z.eqb_neq. intros E. rewrite E in Hah. done. }
    assert (Hne2 : (lo16 (eax (x_regs s)) =? 0xe801) = false).
    { apply Z.eqb_neq. intros E. pose proof (lo16_high (eax (x_regs s))) as Hh. rewrite E, Hah in Hh. done. }
    unfold int15, bios_int15. rewrite Hne, Hne2, Hah. cbn [Z.eqb Pos.eqb].
    destruct (b_ext88 b) as [k|] eqn:E; [|now eexists _, _, _].
    eexists _, _, _. split; [reflexivity|].
    destruct (x_regs s) as [ax cx dx bx bp si di]. cbn. rewrite lo16_with_lo16. now apply u16_small, H8.
Defined.

(** The memory map of a machine with 32 MiB, and one with 3 GiB *)
Definition bios_32M : bios := BiosData (Some [
    Ards 0 0 0x9fc00 0 1; Ards 0x9fc00 0 0x400 0 2; Ards 0xe8000 0 0x18000 0 2;
    Ards 0x100000 0 0x1ef0000 0 1; Ards 0x1ff0000 0 0x10000 0 3; Ards 0xfffc0000 0 0x40000 0 2])
  (Some (0x3c00, 0x100)) (Some 0x7c00).

Definition bios_3G : bios := BiosData (Some [
    Ards 0 0 0x9fc00 0 1; Ards 0x100000 0 0xbff00000 0 1]) None None.

Lemma bios_32M_ok : bios_ok bios_32M.
Proof.
  split; [|split]; cbn.
  - intros l [= <-]. split; [done|]. repeat (apply Forall_cons; split; [now repeat split|]); now apply Forall_nil.
  - intros k e [= <- <-]. lia.
  - intros k [= <-]. lia.
Qed.

Lemma bios_3G_ok : bios_ok bios_3G.
Proof. split; [|split]; cbn; [intros l [= <-]; split; [done|] | done | done].
  repeat (apply Forall_cons; split; [now repeat split|]); now apply Forall_nil. Qed.

(** The loader in memory, as far as the probe writes it *)
Definition ex_loader : x86 flat unit :=
  X86 (Regs 0 0 0 0 0 0 0) (SRegs 0 0 0 0) 0 0xc00 0x202 0x7c00 []
    (flat_of total_mem_bytes (replicate 256 0)) tt [].

Lemma ex_loader_memory :
  probe_memory (x_mem ex_loader) /\ bytes_at (x_mem ex_loader) ards_nr [0; 0].
Proof.
  split; [|apply flat_check_bytes_at; vm_compute; reflexivity].
  apply (bytes_at_writable _ _ (replicate 256 0)), flat_check_bytes_at. vm_compute. reflexivity.
Qed.

(** 32 MiB are found; of the machine with 3 GiB, 639 KiB. *)
Lemma loader_start_detects_witness :
  wp (loader_start (H0 := bios_int15 bios_32M))
    (fun _ s1 => word_at (x_mem s1) total_mem_bytes (32 * 2 ^ 20)) ex_loader /\
  wp (loader_start (H0 := bios_int15 bios_3G))
    (fun _ s1 => word_at (x_mem s1) total_mem_bytes (639 * 2 ^ 10)) ex_loader.
Proof.
  destruct ex_loader_memory as [Hw Hnr].
  assert (H32 : detected (b_areas bios_32M) (b_ext bios_32M) (b_ext88 bios_32M) = Some (32 * 2 ^ 20))
    by (vm_compute; reflexivity).
  assert (H3 : detected (b_areas bios_3G) (b_ext bios_3G) (b_ext88 bios_3G) = Some (639 * 2 ^ 10))
    by (vm_compute; reflexivity).
  split.
  - pose proof (loader_start_detects (H2 := bios_spec bios_32M bios_32M_ok) ex_loader eq_refl Hw Hnr) as Hd.
    cbn [areas ext_mem ext_mem88 bios_spec] in Hd. rewrite H32 in Hd. apply Hd.
    intros l [= <-]. cbn. lia.
  - pose proof (loader_start_detects (H2 := bios_spec bios_3G bios_3G_ok) ex_loader eq_refl Hw Hnr) as Hd.
    cbn [areas ext_mem ext_mem88 bios_spec] in Hd. rewrite H3 in Hd. apply Hd.
    intros l [= <-]. cbn. lia.
Defined.
