(* ===== verification/Disk.v ===== *)
(** * Disk: reading sectors in boot/mbr.S and boot/loader.S

    [rd_disk_m_16] and [rd_disk_m_32] drive an ATA disk by programmed I/O: they
    fill in the controller's registers, give the read command, wait once until
    the data can be read, and read all the words.  The controller is the class
    [Ata], with the behaviour that the ATA standard describes: before each
    sector the drive may be busy for a while, so that only a controller that
    is never busy between two sectors gives the right data to this code. *)

From stdpp Require Import base numbers list strings gmap.
From S2P Require Import Prelude Machine FlatMemory Paging Kernel X86 Loader.
From Stdlib Require Import ZArith Lia.
Open Scope Z_scope.

(** ** The code *)

Section code.
  Context {mem dev : Type} `{Memory mem} `{Ports dev}.
  Abbreviation X := (M (x86 mem dev)).

(** [in ax, dx] and [shr eax, cl] *)
Definition in_ax_dx : X unit := dx <- rd16 EDX ;; v <- in16 dx ;; wr16 EAX v.
Definition shr_eax_cl : X unit :=
  cl <- rdl ECX ;; upd EAX (fun eax => Z.shiftr eax (Z.land cl 31)).

(** Steps 1 to 3 of both routines *)
Definition rd_disk_select : X unit :=
  (eax <- rd EAX ;; wr ESI eax) ;;;
  (cx <- rd16 ECX ;; wr16 EDI cx) ;;;
  wr16 EDX 0x1f2 ;;;
  (cl <- rdl ECX ;; wrl EAX cl) ;;;
  out_dx_al ;;;
  (esi <- rd ESI ;; wr EAX esi) ;;;
  wr16 EDX 0x1f3 ;;;
  out_dx_al ;;;
  wrl ECX 8 ;;;
  shr_eax_cl ;;;
  wr16 EDX 0x1f4 ;;;
  out_dx_al ;;;
  shr_eax_cl ;;;
  wr16 EDX 0x1f5 ;;;
  out_dx_al ;;;
  shr_eax_cl ;;;
  (al <- rdl EAX ;; wrl EAX (Z.land al 0x0f)) ;;;
  (al <- rdl EAX ;; wrl EAX (Z.lor al 0xe0)) ;;;
  wr16 EDX 0x1f6 ;;;
  out_dx_al ;;;
  wr16 EDX 0x1f7 ;;;
  wrl EAX 0x20 ;;;
  out_dx_al.

(** Step 4 *)
Definition not_ready : X unit :=
  loop 33 (fun _ : unit =>
    in_al_dx ;;;
    (al <- rdl EAX ;; wrl EAX (Z.land al 0x88)) ;;;
    al <- rdl EAX ;;
    if al =? 0x08 then ret (inr tt) else ret (inl tt)) tt.

(** Step 5 up to its loop *)
Definition count_words : X unit :=
  (di <- rd16 EDI ;; wr16 EAX di) ;;;
  wr16 EDX 256 ;;;
  mul16 EDX ;;;
  (ax <- rd16 EAX ;; wr16 ECX ax) ;;;
  wr16 EDX 0x1f0.

(** In real mode the address is ds:bx and the counter cx. *)
Definition go_on_read_16 : X unit :=
  loop_cx (
    in_ax_dx ;;;
    (bx <- rd16 EBX ;; ds <- rds DS ;; ax <- rd16 EAX ;; store_half (16 * ds + bx) ax) ;;;
    upd16 EBX (fun bx => bx + 2)).

Definition go_on_read_32 : X unit :=
  loop_ecx (
    in_ax_dx ;;;
    (ebx <- rd EBX ;; ax <- rd16 EAX ;; store_half ebx ax) ;;;
    upd EBX (fun ebx => ebx + 2)).

Definition rd_disk_m_16 : X unit :=
  rd_disk_select ;;; not_ready ;;; count_words ;;; go_on_read_16 ;;; retn.

Definition rd_disk_m_32 : X unit :=
  rd_disk_select ;;; not_ready ;;; count_words ;;; go_on_read_32 ;;; retn.

End code.

(** ** The controller *)

(** The registers at the ports 0x1f2 to 0x1f6 *)
Record taskfile : Type := Taskfile {
  tf_count : Z; tf_low : Z; tf_mid : Z; tf_high : Z; tf_device : Z;
}.

Definition set_task (port v : Z) (t : taskfile) : taskfile :=
  if port =? 0x1f2 then Taskfile v (tf_low t) (tf_mid t) (tf_high t) (tf_device t)
  else if port =? 0x1f3 then Taskfile (tf_count t) v (tf_mid t) (tf_high t) (tf_device t)
  else if port =? 0x1f4 then Taskfile (tf_count t) (tf_low t) v (tf_high t) (tf_device t)
  else if port =? 0x1f5 then Taskfile (tf_count t) (tf_low t) (tf_mid t) v (tf_device t)
  else Taskfile (tf_count t) (tf_low t) (tf_mid t) (tf_high t) v.

(** The sector that the registers address in LBA mode, and the number of
    sectors, for which 0 stands for 256 *)
Definition task_lba (t : taskfile) : Z :=
  tf_low t + 2 ^ 8 * tf_mid t + 2 ^ 16 * tf_high t + 2 ^ 24 * (tf_device t mod 16).
Definition task_count (t : taskfile) : Z := if tf_count t =? 0 then 256 else tf_count t.

(** The words of [n] sectors from [lba] on *)
Definition sectors (sector : Z -> list Z) (lba n : Z) : list Z := mjoin (sector <$> seqZ lba n).

(** [sector]: the contents of the disk, 256 words each.  [pending]: the words
    that the drive has still to deliver; [delay]: how often the status will say
    that it is not ready.  [gap] is the delay before each sector but the first. *)
Class Ata (dev : Type) `{Ports dev} : Type := {
  sector : dev -> Z -> list Z;
  tasks : dev -> taskfile;
  pending : dev -> list Z;
  delay : dev -> nat;
  gap : nat;
  sector_words d lba : length (sector d lba) = 256%nat /\ Forall (fun w => 0 <= w < 2 ^ 16) (sector d lba);
  out_register port v d : 0x1f2 <= port <= 0x1f6 -> is_byte v ->
    tasks (port_out port v d) = set_task port v (tasks d) /\
    sector (port_out port v d) = sector d;
  out_read d : tf_device (tasks d) / 16 = 0xe ->
    sector (port_out 0x1f7 0x20 d) = sector d /\
    pending (port_out 0x1f7 0x20 d) =
      sectors (sector d) (task_lba (tasks d)) (task_count (tasks d)) /\
    Z.of_nat (delay (port_out 0x1f7 0x20 d)) < 2 ^ 32;
  in_status d : pending d <> [] -> exists v d', port_in 0x1f7 d = (v, d') /\ is_byte v /\
    sector d' = sector d /\ pending d' = pending d /\
    match delay d with
    | O => Z.land v 0x88 = 0x08 /\ delay d' = O
    | S k => Z.land v 0x88 <> 0x08 /\ delay d' = k
    end;
  in_data d w l : pending d = w :: l -> delay d = O -> exists d', port_in16 0x1f0 d = (w, d') /\
    sector d' = sector d /\ pending d' = l /\
    delay d' = if (length l mod 256 =? 0)%nat then gap else O;
}.

(** ** Lemmas *)

Section reading.
  Context {mem dev : Type} `{RamSpec mem} `{Ata dev}.
  Implicit Types s : x86 mem dev.
  Implicit Types m : mem.
  Implicit Types d : dev.

Lemma wp_in16 r m d o s p v d' (Q : Z -> x86 mem dev -> Prop) :
  port_in16 p d = (v, d') -> Q v (after r m d' o s) -> wp (in16 p) Q (after r m d o s).
Proof. unfold wp, in16. cbn. now intros ->. Qed.

Lemma shr8 v : is_u32 v -> u32 (Z.shiftr v (Z.land (u8 8) 31)) = v / 2 ^ 8.
Proof.
  intros Hv. change (Z.land (u8 8) 31) with 8. rewrite Z.shiftr_div_pow2 by lia.
  unfold is_u32 in *. apply u32_small. split; [apply Z.div_pos; lia | apply Z.div_lt_upper_bound; lia].
Qed.

(** The bytes of a sector number *)
Lemma lba_bytes lba : 0 <= lba < 2 ^ 28 ->
  is_u32 lba /\ is_u32 (lba / 2 ^ 8) /\ is_u32 (lba / 2 ^ 8 / 2 ^ 8) /\
  0 <= lba / 2 ^ 8 / 2 ^ 8 / 2 ^ 8 < 16 /\
  lo8 lba + 2 ^ 8 * lo8 (lba / 2 ^ 8) + 2 ^ 16 * lo8 (lba / 2 ^ 8 / 2 ^ 8) +
    2 ^ 24 * (lba / 2 ^ 8 / 2 ^ 8 / 2 ^ 8) = lba.
Proof.
  intros Hl. unfold is_u32, lo8.
  pose proof (Z.div_mod lba (2 ^ 8)). pose proof (Z.div_mod (lba / 2 ^ 8) (2 ^ 8)).
  pose proof (Z.div_mod (lba / 2 ^ 8 / 2 ^ 8) (2 ^ 8)).
  pose proof (Z.mod_pos_bound lba (2 ^ 8)). pose proof (Z.mod_pos_bound (lba / 2 ^ 8) (2 ^ 8)).
  pose proof (Z.mod_pos_bound (lba / 2 ^ 8 / 2 ^ 8) (2 ^ 8)). lia.
Qed.

(** The byte for the device register *)
Lemma device_byte t : 0 <= t < 16 ->
  u8 (Z.lor (u8 (Z.land (lo8 t) 15)) 224) = 224 + t.
Proof.
  intros Ht. change 15 with (Z.ones 4). rewrite Z.land_ones by lia. unfold lo8.
  rewrite (Z.mod_small t), (Z.mod_small t), (u8_small t) by (unfold is_byte; lia).
  rewrite Z.lor_comm. change 224 with (14 * 2 ^ 4). rewrite lor_mul_pow2 by lia.
  apply u8_small. unfold is_byte. lia.
Qed.

(** The registers are filled in one after the other, and the command given. *)
Lemma select_device d lba n :
  0 <= lba < 2 ^ 28 -> 1 <= n < 2 ^ 8 ->
  let d1 := port_out 0x1f7 0x20 (port_out 0x1f6 (224 + lba / 2 ^ 8 / 2 ^ 8 / 2 ^ 8)
    (port_out 0x1f5 (lo8 (lba / 2 ^ 8 / 2 ^ 8)) (port_out 0x1f4 (lo8 (lba / 2 ^ 8))
      (port_out 0x1f3 (lo8 lba) (port_out 0x1f2 n d))))) in
  sector d1 = sector d /\ pending d1 = sectors (sector d) lba n /\ Z.of_nat (delay d1) < 2 ^ 32.
Proof.
  intros Hlba Hn d1. destruct (lba_bytes lba Hlba) as (_ & _ & _ & Ht & E).
  set (top := lba / 2 ^ 8 / 2 ^ 8 / 2 ^ 8) in *.
  destruct (out_register 0x1f2 n d) as [T2 S2]; [lia | unfold is_byte; lia|].
  set (d2 := port_out 0x1f2 n d) in *.
  destruct (out_register 0x1f3 (lo8 lba) d2) as [T3 S3]; [lia | apply lo8_range|].
  set (d3 := port_out 0x1f3 _ d2) in *.
  destruct (out_register 0x1f4 (lo8 (lba / 2 ^ 8)) d3) as [T4 S4]; [lia | apply lo8_range|].
  set (d4 := port_out 0x1f4 _ d3) in *.
  destruct (out_register 0x1f5 (lo8 (lba / 2 ^ 8 / 2 ^ 8)) d4) as [T5 S5]; [lia | apply lo8_range|].
  set (d5 := port_out 0x1f5 _ d4) in *.
  destruct (out_register 0x1f6 (224 + top) d5) as [T6 S6]; [lia | unfold is_byte; lia|].
  set (d6 := port_out 0x1f6 _ d5) in *.
  assert (T : tasks d6 = Taskfile n (lo8 lba) (lo8 (lba / 2 ^ 8)) (lo8 (lba / 2 ^ 8 / 2 ^ 8)) (224 + top)).
  { rewrite T6, T5, T4, T3, T2. destruct (tasks d). reflexivity. }
  assert (Hdiv : (224 + top) / 16 = 0xe /\ (224 + top) mod 16 = top).
  { split; symmetry; [apply Z.div_unique with top | apply Z.mod_unique with 14]; lia. }
  destruct Hdiv as [Hd Hm].
  destruct (out_read d6) as (S7 & P7 & D7); [rewrite T; exact Hd|]. fold d1 in S7, P7, D7.
  split; [now rewrite S7, S6, S5, S4, S3, S2|]. split; [|exact D7]. rewrite P7, T. unfold task_lba, task_count.
  cbn [tf_count tf_low tf_mid tf_high tf_device]. rewrite Hm, E.
  rewrite (proj2 (Z.eqb_neq n 0)) by lia. now rewrite S6, S5, S4, S3, S2.
Qed.

Lemma select_run r m d o s lba n (Q : unit -> x86 mem dev -> Prop) :
  eax r = lba -> 0 <= lba < 2 ^ 28 -> lo16 (ecx r) = n -> 1 <= n < 2 ^ 8 ->
  (forall a dx di d1 o1, lo16 dx = 0x1f7 -> lo16 di = n -> sector d1 = sector d ->
    pending d1 = sectors (sector d) lba n -> Z.of_nat (delay d1) < 2 ^ 32 ->
    Q tt (after (Regs a (with_lo8 (ecx r) 8) dx (ebx r) (ebp r) lba di) m d1 o1 s)) ->
  wp rd_disk_select Q (after r m d o s).
Proof.
  intros Hax Hlba Hcx Hn HQ. destruct r as [ax cx dx bx bp si di]. cbn in Hax, Hcx. subst ax.
  unfold rd_disk_select, shr_eax_cl. x_steps.
  destruct (lba_bytes lba Hlba) as (U0 & U1 & U2 & Ht & _). destruct (select_device d lba n Hlba Hn) as (HS & HP & HD).
  rewrite !(u32_small lba), !(shr8 lba), !(shr8 (lba / 2 ^ 8)), !(shr8 (lba / 2 ^ 8 / 2 ^ 8)) by done.
  assert (Hcl : u8 (lo8 cx) = n).
  { rewrite <- (lo8_lo16 cx), Hcx. unfold lo8. rewrite Z.mod_small by lia. apply u8_small. unfold is_byte. lia. }
  rewrite device_byte, Hcl by done.
  apply HQ; [apply lo16_with_lo16 | rewrite lo16_with_lo16, Hcx; apply u16_small; lia | exact HS | exact HP |
    exact HD].
Qed.

(** The wait ends when the drive has counted down. *)
Lemma not_ready_run a cx dx bx bp si di m d o s (Q : unit -> x86 mem dev -> Prop) :
  lo16 dx = 0x1f7 -> pending d <> [] -> Z.of_nat (delay d) < 2 ^ 32 ->
  (forall a1 d1, sector d1 = sector d -> pending d1 = pending d -> delay d1 = O ->
    Q tt (after (Regs a1 cx dx bx bp si di) m d1 o s)) ->
  wp not_ready Q (after (Regs a cx dx bx bp si di) m d o s).
Proof.
  intros Hdx Hp Hdl HQ. unfold not_ready.
  apply (wp_loop_measure _ (fun _ s1 => exists a1 d1, s1 = after (Regs a1 cx dx bx bp si di) m d1 o s /\
    sector d1 = sector d /\ pending d1 = pending d) _ (fun _ s1 => Z.of_nat (delay (x_dev s1)))).
  - intros [] s1 (a1 & d1 & -> & HS & HP). x_rule.
    destruct (in_status d1) as (v & d2 & E & Hv & HS2 & HP2 & Hd2); [congruence|].
    rewrite Hdx. apply wp_bind. apply (wp_in8 _ _ _ _ _ _ v d2 _ E). x_steps.
    assert (Hb : u8 (Z.land (u8 v) 136) = Z.land v 136).
    { rewrite (u8_small v Hv). unfold u8. rewrite <- Z.land_ones, <- Z.land_assoc by lia. done. }
    rewrite Hb. destruct (delay d1) as [|k] eqn:Ed; destruct Hd2 as [Hst Hdl2].
    + rewrite Hst. cbn [Z.eqb Pos.eqb]. apply wp_ret, HQ; congruence.
    + rewrite (proj2 (Z.eqb_neq _ _) Hst). apply wp_ret. split.
      * eexists _, d2. split; [reflexivity|]. split; congruence.
      * cbn [x_dev after]. rewrite Hdl2, Ed. lia.
  - intros _ s1 _. lia.
  - exists a, d. done.
  - cbn [x_dev after]. lia.
Qed.

(** [n] sectors are [256 * n] words. *)
Lemma count_run a cx dx bx bp si di m d o s n (Q : unit -> x86 mem dev -> Prop) :
  lo16 di = n -> 1 <= n < 2 ^ 8 ->
  (forall a1 dx1, lo16 dx1 = 0x1f0 ->
    Q tt (after (Regs a1 (with_lo16 cx (256 * n)) dx1 bx bp si di) m d o s)) ->
  wp count_words Q (after (Regs a cx dx bx bp si di) m d o s).
Proof.
  intros Hdi Hn HQ. unfold count_words, mul16. x_steps. rewrite Hdi.
  assert (E : u16 (n * u16 256) = 256 * n) by (rewrite (u16_small 256), u16_small; lia).
  rewrite E. apply HQ. apply lo16_with_lo16.
Qed.

(** ** The data *)

Definition words_bytes (l : list Z) : list Z := mjoin (half_bytes <$> l).

Lemma length_words_bytes l : length (words_bytes l) = (2 * length l)%nat.
Proof.
  induction l as [|w l IH]; [done|].
  change (length (half_bytes w ++ words_bytes l) = (2 * length (w :: l))%nat).
  rewrite length_app, IH. cbn [length half_bytes]. lia.
Qed.

Lemma words_bytes_snoc l w : words_bytes (l ++ [w]) = words_bytes l ++ half_bytes w.
Proof. unfold words_bytes. rewrite fmap_app, join_app. f_equal. Qed.

(** [i] of the [words] have been read to [dst]. *)
Record got (d0 : dev) (m0 : mem) (dst : Z) (words : list Z) (i : nat) (m : mem) (d : dev) : Prop := {
  got_more : (i <= length words)%nat;
  got_pending : pending d = drop i words;
  got_ready : (i < length words)%nat -> delay d = O;
  got_sector : sector d = sector d0;
  got_mod : mod_only dst (dst + 2 * Z.of_nat (length words)) m0 m;
  got_bytes : bytes_at m dst (words_bytes (take i words));
}.

(** No wait is needed before a sector but the first. *)
Definition no_gaps (words : list Z) : Prop := gap = O \/ length words = 256%nat.

(** One word: reading it and storing it *)
Lemma got_next d0 m0 dst words i m d :
  got d0 m0 dst words i m d -> (i < length words)%nat -> no_gaps words ->
  writable m0 dst (2 * Z.of_nat (length words)) -> Forall (fun w => 0 <= w < 2 ^ 16) words ->
  exists w d1, port_in16 0x1f0 d = (w, d1) /\ 0 <= w < 2 ^ 16 /\
    writable m (dst + 2 * Z.of_nat i) 2 /\
    forall m1, mod_only (dst + 2 * Z.of_nat i) (dst + 2 * Z.of_nat i + 2) m m1 ->
      bytes_at m1 (dst + 2 * Z.of_nat i) (half_bytes w) -> got d0 m0 dst words (S i) m1 d1.
Proof.
  intros [Hle Hp Hr Hs Hm Hb] Hi Hg (Hd0 & Hd1 & Hw) Hall.
  destruct (lookup_lt_is_Some_2 words i Hi) as [w Hwi]. pose proof (Forall_lookup_1 _ _ _ _ Hall Hwi) as Hw16.
  cbn in Hw16. rewrite (drop_S _ _ _ Hwi) in Hp. destruct (in_data d w _ Hp (Hr Hi)) as (d1 & E & S1 & P1 & D1).
  exists w, d1. split; [exact E|]. split; [exact Hw16|]. split.
  { split; [lia|]. split; [lia|]. intros x Hx. apply Hm, Hw. lia. }
  intros m1 Hm1 Hb1. split.
  - lia.
  - done.
  - intros Hi'. rewrite D1, length_drop. destruct Hg as [Hg|Hg].
    + rewrite Hg. match goal with |- (if ?b then _ else _) = _ => now destruct b end.
    + rewrite Hg in *. rewrite (proj2 (Nat.eqb_neq _ _)); [done|]. rewrite Nat.mod_small; lia.
  - congruence.
  - eapply mod_only_trans; [exact Hm|]. eapply mod_only_weaken; [exact Hm1 | lia | lia].
  - rewrite (take_S_r _ _ _ Hwi), words_bytes_snoc. apply bytes_at_app; [done|].
    rewrite length_words_bytes, length_take_le by lia. split.
    + eapply bytes_at_mod; [exact Hb | exact Hm1 |]. left. rewrite length_words_bytes, length_take_le by lia. lia.
    + now replace (dst + Z.of_nat (2 * i)) with (dst + 2 * Z.of_nat i) by lia.
Qed.

(** [in ax, dx] *)
Lemma wp_in_ax_dx a cx dx bx bp si di m d o s w d1 (Q : unit -> x86 mem dev -> Prop) :
  lo16 dx = 0x1f0 -> port_in16 0x1f0 d = (w, d1) ->
  Q tt (after (Regs (with_lo16 a w) cx dx bx bp si di) m d1 o s) ->
  wp in_ax_dx Q (after (Regs a cx dx bx bp si di) m d o s).
Proof.
  intros Hdx E HQ. unfold in_ax_dx. x_rule. rewrite Hdx. apply wp_bind, (wp_in16 _ _ _ _ _ _ w d1 _ E).
  apply wp_wr16. exact HQ.
Qed.

Lemma with_lo16_small v x : 0 <= v < 2 ^ 16 -> with_lo16 v x = u16 x.
Proof. intros Hv. unfold with_lo16. rewrite Z.div_small by done. lia. Qed.

(** Where a loop has got to: [c] words are left. *)
Definition read_32 (d0 : dev) m0 dst words dx bp si di o s s1 : Prop :=
  exists i a m d, (i < length words)%nat /\
    s1 = after (Regs a (Z.of_nat (length words - i)) dx (dst + 2 * Z.of_nat i) bp si di) m d o s /\
    got d0 m0 dst words i m d.

Lemma go_on_read_32_run d0 m0 a dx dst bp si di m d o s words (Q : unit -> x86 mem dev -> Prop) :
  got d0 m0 dst words 0 m d -> words <> [] -> Z.of_nat (length words) < 2 ^ 16 -> no_gaps words ->
  writable m0 dst (2 * Z.of_nat (length words)) -> lo16 dx = 0x1f0 ->
  Forall (fun w => 0 <= w < 2 ^ 16) words ->
  (forall r1 m1 d1, ebp r1 = bp -> got d0 m0 dst words (length words) m1 d1 -> Q tt (after r1 m1 d1 o s)) ->
  wp go_on_read_32 Q (after (Regs a (Z.of_nat (length words)) dx dst bp si di) m d o s).
Proof.
  intros Hgot Hne Hlen Hg Hw Hdx Hall HQ. unfold go_on_read_32, loop_ecx.
  assert (Hlt : (0 < length words)%nat) by (destruct words; [done | cbn; lia]).
  pose proof Hw as (Hw0 & Hw1 & _).
  apply (wp_loop_measure _ (fun _ => read_32 d0 m0 dst words dx bp si di o s) _
    (fun _ s1 => ecx (x_regs s1))).
  - intros [] s1 (i & a1 & m1 & d1 & Hi & -> & Hgi). do 2 apply wp_bind.
    destruct (got_next _ _ _ _ _ _ _ Hgi Hi Hg Hw Hall) as (w & d2 & E & Hw16 & Hw2 & Hnext).
    apply (wp_in_ax_dx _ _ _ _ _ _ _ _ _ _ _ w d2 _ Hdx E). x_steps. rewrite (u16_small w Hw16).
    apply wp_store_half; [exact Hw2|]. intros m2 Hm2 Hb2. specialize (Hnext m2 Hm2 Hb2). x_steps.
    rewrite !(u32_small (Z.of_nat (length words - i) - 1)) by (unfold is_u32; lia).
    destruct (Z.eqb_spec (Z.of_nat (length words - i) - 1) 0) as [Hz|Hz]; apply wp_ret.
    + apply HQ; [done|]. replace (S i) with (length words) in Hnext by lia. exact Hnext.
    + split; [|cbn; lia]. exists (S i), (with_lo16 a1 w), m2, d2. split; [lia|]. split; [|exact Hnext].
      do 2 f_equal; [lia|]. rewrite u32_small; [lia | unfold is_u32; lia].
  - intros [] s1 (i & a1 & m1 & d1 & Hi & -> & _). cbn. lia.
  - exists 0%nat, a, m, d. split; [exact Hlt|]. split; [|exact Hgot]. do 2 f_equal; lia.
  - cbn. lia.
Qed.

Definition read_16 (d0 : dev) m0 dst words dx bp si di o s s1 : Prop :=
  exists i a cx bx m d, (i < length words)%nat /\ s1 = after (Regs a cx dx bx bp si di) m d o s /\
    lo16 cx = Z.of_nat (length words - i) /\ lo16 bx = dst + 2 * Z.of_nat i /\ got d0 m0 dst words i m d.

Lemma go_on_read_16_run d0 m0 a cx dx bx dst bp si di m d o s words (Q : unit -> x86 mem dev -> Prop) :
  got d0 m0 dst words 0 m d -> words <> [] -> no_gaps words ->
  writable m0 dst (2 * Z.of_nat (length words)) -> dst + 2 * Z.of_nat (length words) < 2 ^ 16 ->
  lo16 dx = 0x1f0 -> lo16 cx = Z.of_nat (length words) -> lo16 bx = dst -> ds (x_sregs s) = 0 ->
  Forall (fun w => 0 <= w < 2 ^ 16) words ->
  (forall r1 m1 d1, ebp r1 = bp -> got d0 m0 dst words (length words) m1 d1 -> Q tt (after r1 m1 d1 o s)) ->
  wp go_on_read_16 Q (after (Regs a cx dx bx bp si di) m d o s).
Proof.
  intros Hgot Hne Hg Hw Hend Hdx Hcx Hbx Hds Hall HQ. unfold go_on_read_16, loop_cx.
  assert (Hlt : (0 < length words)%nat) by (destruct words; [done | cbn; lia]).
  pose proof Hw as (Hw0 & Hw1 & _).
  apply (wp_loop_measure _ (fun _ => read_16 d0 m0 dst words dx bp si di o s) _
    (fun _ s1 => lo16 (ecx (x_regs s1)))).
  - intros [] s1 (i & a1 & cx1 & bx1 & m1 & d1 & Hi & -> & Hc1 & Hb1 & Hgi). do 2 apply wp_bind.
    destruct (got_next _ _ _ _ _ _ _ Hgi Hi Hg Hw Hall) as (w & d2 & E & Hw16 & Hw2 & Hnext).
    apply (wp_in_ax_dx _ _ _ _ _ _ _ _ _ _ _ w d2 _ Hdx E). x_steps.
    rewrite (u16_small w Hw16), Hds, Hb1. replace (16 * 0 + (dst + 2 * Z.of_nat i)) with (dst + 2 * Z.of_nat i) by lia.
    apply wp_store_half; [exact Hw2|]. intros m2 Hm2 Hb2. specialize (Hnext m2 Hm2 Hb2). x_steps.
    rewrite Hc1, !(u16_small (Z.of_nat (length words - i) - 1)) by lia.
    destruct (Z.eqb_spec (Z.of_nat (length words - i) - 1) 0) as [Hz|Hz]; apply wp_ret.
    + apply HQ; [done|]. replace (S i) with (length words) in Hnext by lia. exact Hnext.
    + split; [|cbn; rewrite lo16_with_lo16, u16_small; lia].
      eexists (S i), _, _, _, m2, d2. split; [lia|]. split; [reflexivity|]. rewrite !lo16_with_lo16.
      rewrite !u16_small by lia. split; [lia|]. split; [lia | exact Hnext].
  - intros [] s1 _. apply lo16_range.
  - exists 0%nat, a, cx, bx, m, d. split; [exact Hlt|]. split; [done|]. split; [lia|]. split; [lia | exact Hgot].
  - cbn. pose proof (lo16_range cx). lia.
Qed.

(** *** The routines *)

Lemma sectors_words d lba (n : nat) :
  length (sectors (sector d) lba (Z.of_nat n)) = (256 * n)%nat /\
  Forall (fun w => 0 <= w < 2 ^ 16) (sectors (sector d) lba (Z.of_nat n)).
Proof.
  unfold sectors. revert lba. induction n as [|n IH]; intros lba; [done|].
  rewrite seqZ_cons by lia. replace (Z.pred (Z.of_nat (S n))) with (Z.of_nat n) by lia.
  destruct (sector_words d lba) as [Hl Hf]. destruct (IH (Z.succ lba)) as [IHl IHf].
  rewrite fmap_cons. change (mjoin (?x :: ?l)) with (x ++ mjoin l). split.
  - rewrite length_app, Hl, IHl. lia.
  - now apply Forall_app.
Qed.

(** What is read, as bytes *)
Definition disk_bytes d lba n : list Z := words_bytes (sectors (sector d) lba n).

(** The routine has returned with the sectors in memory; of the registers, ebp is
    kept. *)
Definition has_read bp d m dst lba n s s1 : Prop :=
  exists r1 m1 d1 o1, s1 = after r1 m1 d1 o1 s /\ ebp r1 = bp /\ sector d1 = sector d /\
    bytes_at m1 dst (disk_bytes d lba n) /\ mod_only dst (dst + 512 * n) m m1.

(** Nothing has been read yet. *)
Lemma got_none d0 m dst words d :
  pending d = words -> delay d = O -> sector d = sector d0 -> 0 <= dst < 2 ^ 32 ->
  got d0 m dst words 0 m d.
Proof.
  intros Hp Hr Hs Hd. split; [lia | done | done | done | apply mod_only_refl |].
  apply bytes_at_nil. lia.
Qed.

Lemma got_all d0 m0 dst words m d :
  got d0 m0 dst words (length words) m d ->
  sector d = sector d0 /\ bytes_at m dst (words_bytes words) /\
  mod_only dst (dst + 2 * Z.of_nat (length words)) m0 m.
Proof. intros [_ _ _ Hs Hm Hb]. rewrite firstn_all in Hb. done. Qed.

(** Both routines up to the loop *)
Lemma rd_disk_start r m d o s lba n (k : M (x86 mem dev) unit) (Q : unit -> x86 mem dev -> Prop) :
  eax r = lba -> 0 <= lba < 2 ^ 28 -> lo16 (ecx r) = n -> 1 <= n < 2 ^ 8 ->
  (forall a dx di d1 o1, lo16 dx = 0x1f0 -> sector d1 = sector d ->
    pending d1 = sectors (sector d) lba n -> delay d1 = O ->
    wp k Q (after (Regs a (with_lo16 (with_lo8 (ecx r) 8) (256 * n)) dx (ebx r) (ebp r) lba di) m d1 o1 s)) ->
  wp (rd_disk_select ;;; not_ready ;;; count_words ;;; k) Q (after r m d o s).
Proof.
  intros Hax Hlba Hcx Hn HQ. apply wp_bind. eapply select_run; [done | done | done | done |].
  intros a dx di d1 o1 Hdx Hdi HS1 HP1 HD1.
  destruct (sectors_words d lba (Z.to_nat n)) as [Hlen _]. rewrite Z2Nat.id in Hlen by lia.
  apply wp_bind, not_ready_run; [done| |done|].
  { rewrite HP1. intros E. rewrite E in Hlen. cbn in Hlen. lia. }
  intros a2 d2 HS2 HP2 Hr2. apply wp_bind. eapply count_run; [done | done |].
  intros a3 dx3 Hdx3. apply HQ; [done | congruence | congruence | done].
Qed.

Lemma rd_disk_m_32_run r m d o s lba n dst eip l :
  eax r = lba -> 0 <= lba < 2 ^ 28 -> ecx r = n -> 1 <= n < 2 ^ 8 -> ebx r = dst ->
  writable m dst (512 * n) -> gap = O \/ n = 1 -> x_stack s = eip :: l ->
  wp rd_disk_m_32
    (fun _ => has_read (ebp r) d m dst lba n (set_control (x_cs s) eip (x_eflags s) (set_stack l s)))
    (after r m d o s).
Proof.
  intros Hax Hlba Hcx Hn Hbx Hw Hg Hst. unfold rd_disk_m_32.
  destruct (sectors_words d lba (Z.to_nat n)) as [Hlen Hall]. rewrite Z2Nat.id in Hlen, Hall by lia.
  assert (Hc : with_lo16 (with_lo8 (ecx r) 8) (256 * n) = Z.of_nat (length (sectors (sector d) lba n))).
  { rewrite Hcx, Hlen. unfold with_lo8. rewrite (Z.div_small n) by lia. rewrite with_lo16_small by done.
    rewrite u16_small; lia. }
  pose proof Hw as (Hw0 & Hw1 & _).
  eapply rd_disk_start; [done | done | | done |].
  { rewrite Hcx. unfold lo16. apply Z.mod_small. lia. }
  intros a dx di d1 o1 Hdx HS1 HP1 Hr1. rewrite Hc, Hbx. apply wp_bind.
  apply (go_on_read_32_run d m); [| | lia | | | done | done |].
  - apply got_none; [done | done | done | lia].
  - intros E. rewrite E in Hlen. cbn in Hlen. lia.
  - destruct Hg as [Hg|Hg]; [now left|]. right. rewrite Hlen, Hg. done.
  - replace (2 * Z.of_nat _) with (512 * n) by lia. exact Hw.
  - intros r1 m1 d2 Hbp Hgot. apply got_all in Hgot as (HS2 & Hb & Hm).
    eapply wp_retn; [exact Hst|]. exists r1, m1, d2, o1. split; [done|]. split; [done|]. split; [done|]. split; [exact Hb|].
    now replace (dst + 512 * n) with (dst + 2 * Z.of_nat (length (sectors (sector d) lba n))) by lia.
Qed.

Lemma rd_disk_m_16_run r m d o s lba n dst eip l :
  eax r = lba -> 0 <= lba < 2 ^ 28 -> lo16 (ecx r) = n -> 1 <= n < 2 ^ 8 -> lo16 (ebx r) = dst ->
  ds (x_sregs s) = 0 -> writable m dst (512 * n) -> dst + 512 * n < 2 ^ 16 -> gap = O \/ n = 1 ->
  x_stack s = eip :: l ->
  wp rd_disk_m_16
    (fun _ => has_read (ebp r) d m dst lba n (set_control (x_cs s) eip (x_eflags s) (set_stack l s)))
    (after r m d o s).
Proof.
  intros Hax Hlba Hcx Hn Hbx Hds Hw Hend Hg Hst. unfold rd_disk_m_16.
  destruct (sectors_words d lba (Z.to_nat n)) as [Hlen Hall]. rewrite Z2Nat.id in Hlen, Hall by lia.
  pose proof Hw as (Hw0 & Hw1 & _).
  eapply rd_disk_start; [done | done | done | done |].
  intros a dx di d1 o1 Hdx HS1 HP1 Hr1. apply wp_bind.
  apply (go_on_read_16_run d m _ _ _ _ dst _ _ _ _ _ _ _ (sectors (sector d) lba n)); try done.
  - apply got_none; [done | done | done | lia].
  - intros E. rewrite E in Hlen. cbn in Hlen. lia.
  - destruct Hg as [Hg|Hg]; [now left|]. right. rewrite Hlen, Hg. done.
  - replace (2 * Z.of_nat _) with (512 * n) by lia. exact Hw.
  - lia.
  - rewrite lo16_with_lo16, Hlen, u16_small; lia.
  - intros r1 m1 d2 Hbp Hgot. apply got_all in Hgot as (HS2 & Hb & Hm).
    eapply wp_retn; [exact Hst|]. exists r1, m1, d2, o1. split; [done|]. split; [done|]. split; [done|]. split; [exact Hb|].
    now replace (dst + 512 * n) with (dst + 2 * Z.of_nat (length (sectors (sector d) lba n))) by lia.
Qed.

(** C23: called with a sector number below 2^28 in eax, a number of sectors from 1
    to 255 in ecx and a buffer in ebx, [rd_disk_m_32] waits for the drive, fills
    the buffer with those sectors, byte for byte, writes nothing else, and
    returns with the stack as before - provided that the drive is never busy
    between two sectors, or one sector is read. *)
Theorem rd_disk_m_32_reads s lba n dst :
  eax (x_regs s) = lba -> 0 <= lba < 2 ^ 28 -> ecx (x_regs s) = n -> 1 <= n < 2 ^ 8 ->
  ebx (x_regs s) = dst -> writable (x_mem s) dst (512 * n) -> gap = O \/ n = 1 -> is_u32 (x_eip s) ->
  wp (call rd_disk_m_32) (fun _ => has_read (ebp (x_regs s)) (x_dev s) (x_mem s) dst lba n s) s.
Proof.
  intros Hax Hlba Hcx Hn Hbx Hw Hg Hip. apply wp_after, wp_call. eapply wp_mono.
  - eapply rd_disk_m_32_run; [done.. | reflexivity].
  - intros [] s1 (r1 & m1 & d1 & o1 & -> & Hbp & HS & Hb & Hm). exists r1, m1, d1, o1.
    split; [|done]. cbn. rewrite (u32_small _ Hip). now destruct s.
Qed.

End reading.

(** ** A disk *)

(** A drive with the contents [a_sector] that is busy [first] polls after the
    command and [next] polls before each further sector; what the data port
    gives meanwhile is not defined by the standard, here it is 0xffff. *)
Record ata : Type := AtaDrive {
  a_sector : Z -> list Z; a_tasks : taskfile; a_words : list Z; a_delay : nat;
}.

Section drive.
  Context (first next : nat).

(** 256 words of 16 bits *)
Definition ata_sector (d : ata) (lba : Z) : list Z :=
  take 256 ((u16 <$> a_sector d lba) ++ replicate 256 0).

Definition ata_out (port v : Z) (d : ata) : ata :=
  if (0x1f2 <=? port) && (port <=? 0x1f6) then
    AtaDrive (a_sector d) (set_task port v (a_tasks d)) (a_words d) (a_delay d)
  else if (port =? 0x1f7) && (v =? 0x20) then
    let t := a_tasks d in
    AtaDrive (a_sector d) t (sectors (ata_sector d) (task_lba t) (task_count t)) first
  else d.

Definition ata_in (port : Z) (d : ata) : Z * ata :=
  if port =? 0x1f7 then
    match a_words d, a_delay d with
    | [], _ => (0x50, d)
    | _, O => (0x58, d)
    | _, S k => (0x80, AtaDrive (a_sector d) (a_tasks d) (a_words d) k)
    end
  else (0, d).

Definition ata_in16 (port : Z) (d : ata) : Z * ata :=
  if port =? 0x1f0 then
    match a_words d, a_delay d with
    | w :: l, O =>
        (w, AtaDrive (a_sector d) (a_tasks d) l (if (length l mod 256 =? 0)%nat then next else O))
    | _, _ => (0xffff, d)
    end
  else (0, d).

Definition ata_Ports : Ports ata :=
  {| port_out := ata_out; port_in := ata_in; port_out16 _ _ d := d; port_in16 := ata_in16 |}.

Definition ata_Ata (Hf : Z.of_nat first < 2 ^ 32) : Ata (H := ata_Ports) ata.
Proof.
  refine {| sector := ata_sector; tasks := a_tasks; pending := a_words; delay := a_delay; gap := next |}.
  - intros d lba. unfold ata_sector. split.
    + rewrite length_take, length_app, length_replicate. lia.
    + apply Forall_take, Forall_app. split; [|apply Forall_replicate; lia].
      apply Forall_fmap, Forall_true. intros w. apply Z.mod_pos_bound. lia.
  - intros port v d Hp Hv. cbn. unfold ata_out.
    replace ((0x1f2 <=? port) && (port <=? 0x1f6)) with true by lia. done.
  - intros d Hd. done.
  - intros d Hp. cbn. unfold ata_in. cbn [Z.eqb Pos.eqb].
    destruct (a_words d) as [|w l] eqn:E; [done|].
    destruct (a_delay d) as [|k] eqn:Ed.
    + exists 0x58, d. rewrite Ed. done.
    + eexists 0x80, _. split; [reflexivity|]. done.
  - intros d w l Hp Hd. cbn in *. unfold ata_in16. cbn [Z.eqb Pos.eqb]. rewrite Hp, Hd.
    eexists. split; [reflexivity|]. done.
Defined.

End drive.

Section examples.

(** Word [i] of sector [lba] is [256 * lba + i]. *)
Definition ex_drive : ata :=
  AtaDrive (fun lba => (fun i => 256 * lba + i) <$> seqZ 0 256) (Taskfile 0 0 0 0 0) [] 0.

(** Sectors 9 and 10 are to be read to 0x1000. *)
Definition ex_reader : x86 flat ata :=
  X86 (Regs 9 2 0 0x1000 0 0 0) (SRegs 16 16 0 24) 8 0xd20 0x2 0x900 []
    (flat_of 0x1000 (replicate 1024 0)) ex_drive [].

Lemma ex_first : Z.of_nat 3 < 2 ^ 32.
Proof. lia. Qed.

Lemma ex_reader_buffer : writable (x_mem ex_reader) 0x1000 (512 * 2).
Proof.
  apply (bytes_at_writable _ _ (replicate 1024 0)), flat_check_bytes_at. vm_compute. reflexivity.
Qed.

Lemma rd_disk_m_32_reads_witness :
  wp (call (rd_disk_m_32 (H0 := ata_Ports 3 0)))
    (fun _ => has_read (H1 := ata_Ports 3 0) (H2 := ata_Ata 3 0 ex_first) 0 ex_drive (x_mem ex_reader)
       0x1000 9 2 ex_reader) ex_reader.
Proof.
  apply (rd_disk_m_32_reads (H1 := ata_Ports 3 0) (H2 := ata_Ata 3 0 ex_first) ex_reader 9 2 0x1000);
    try reflexivity; try lia; [exact ex_reader_buffer | now left | unfold is_u32; cbn; lia].
Defined.

(** The byte at the end of a run. *)
Definition byte_after (r : outcome (x86 flat ata) unit) (a : Z) : option Z :=
  match r with Ret _ s => load8 (x_mem s) a | Stop _ _ => None end.

(** A drive that is busy once before the second sector, as the standard allows,
    is misread: the first word of that sector is not the disk's, for the status
    is looked at only once. *)
Theorem busy_drive_is_misread :
  byte_after (call (rd_disk_m_32 (H0 := ata_Ports 0 1)) ex_reader) 0x1200 = Some 0xff /\
  disk_bytes (H1 := ata_Ports 3 0) (H2 := ata_Ata 3 0 ex_first) ex_drive 9 2 !! 512%nat = Some 0.
Proof. split; vm_compute; reflexivity. Qed.

End examples.
