(* ===== verification/Screen.v ===== *)
(** * Screen: the text console

    The hardware that lib/kernel/print.S drives, as two interfaces - the cursor
    registers of the CRT controller ([Crtc]) and the text memory of the video
    card ([Video]) - and the console that the print routines make of it, as a
    function on screens.  The paged memory of Paging.v is an instance of
    [Video]: boot/loader.S maps the video memory twice. *)

From stdpp Require Import base numbers list strings gmap.
From S2P Require Import Prelude Machine Paging X86.
From Stdlib Require Import ZArith Lia.
Open Scope Z_scope.

(** ** The CRT controller

    Port 0x3d4 selects a register, port 0x3d5 reads and writes it; registers
    0x0e and 0x0f hold the two bytes of the cursor's position. *)

Class Crtc (dev : Type) `{Ports dev} : Type := {
  crtc : dev -> Z -> Z -> Z -> Prop;
  crtc_byte d i h l : crtc d i h l -> is_byte h /\ is_byte l;
  crtc_select d i h l v : is_byte v -> crtc d i h l -> crtc (port_out 0x3d4 v d) v h l;
  crtc_write_high d h l v : is_byte v -> crtc d 0x0e h l -> crtc (port_out 0x3d5 v d) 0x0e v l;
  crtc_write_low d h l v : is_byte v -> crtc d 0x0f h l -> crtc (port_out 0x3d5 v d) 0x0f h v;
  crtc_other p v d i h l : p <> 0x3d4 -> p <> 0x3d5 -> crtc d i h l -> crtc (port_out p v d) i h l;
  crtc_read_high d h l : crtc d 0x0e h l ->
    exists d', port_in 0x3d5 d = (h, d') /\ crtc d' 0x0e h l;
  crtc_read_low d h l : crtc d 0x0f h l ->
    exists d', port_in 0x3d5 d = (l, d') /\ crtc d' 0x0f h l;
}.

Definition cursor_at {dev} `{Crtc dev} (d : dev) (c : Z) : Prop :=
  exists i, crtc d i (c / 2 ^ 8) (c mod 2 ^ 8).

(** ** Video memory

    32 KiB at 0xb8000, which the CPU reaches at that address and through the
    video segment, 3 GiB higher. *)

Definition VIDEO_PHYS : Z := 0xb8000.
Definition VIDEO_BASE : Z := 0xc00b8000.
Definition VIDEO_SIZE : Z := 0x8000.

(** Outside the video segment RAM is as it was. *)
Definition outside_kept {mem} `{RamSpec mem} (m m' : mem) : Prop :=
  (forall a, ram m' a <-> ram m a) /\
  forall a, ram m a -> ~ (VIDEO_BASE <= a < VIDEO_BASE + VIDEO_SIZE) -> load8 m' a = load8 m a.

Class Video (mem : Type) `{RamSpec mem} : Type := {
  vram : mem -> Z -> Z;
  video_ok : mem -> Prop;
  video_byte m j : video_ok m -> 0 <= j < VIDEO_SIZE -> is_byte (vram m j);
  video_store8 m j b : video_ok m -> 0 <= j < VIDEO_SIZE -> is_byte b ->
    exists m', store8 m (VIDEO_BASE + j) b = Some m' /\ video_ok m' /\ outside_kept m m' /\
      forall x, 0 <= x < VIDEO_SIZE -> vram m' x = if decide (x = j) then b else vram m x;
  video_load32 m j : video_ok m -> 0 <= j -> j + 4 <= VIDEO_SIZE -> j mod 4 = 0 ->
    load32 m (VIDEO_PHYS + j) =
      Some (le32 (vram m j) (vram m (j + 1)) (vram m (j + 2)) (vram m (j + 3)));
  video_store32 m j v : video_ok m -> 0 <= j -> j + 4 <= VIDEO_SIZE -> j mod 4 = 0 -> is_u32 v ->
    exists m', store32 m (VIDEO_PHYS + j) v = Some m' /\ video_ok m' /\ outside_kept m m' /\
      forall x, 0 <= x < VIDEO_SIZE ->
        vram m' x = if decide (j <= x < j + 4) then byte_of v (x - j) else vram m x;
  video_ram_store8 m a b m' : video_ok m -> ram m a -> is_byte b ->
    ~ (VIDEO_BASE <= a < VIDEO_BASE + VIDEO_SIZE) -> store8 m a b = Some m' ->
    video_ok m' /\ forall x, 0 <= x < VIDEO_SIZE -> vram m' x = vram m x;
}.

(** ** The console

    25 lines of 80 cells, each a character and its attribute. *)

Record console : Type := Console { cursor : Z; cells : list (Z * Z) }.

Definition blank : Z * Z := (0x20, 0x07).

Definition scroll (l : list (Z * Z)) : list (Z * Z) := drop 80 (take 2000 l) ++ replicate 80 blank.

(** The line after the one of position [c]; the last line makes room by
    scrolling. *)
Definition newline (c : Z) (l : list (Z * Z)) : console :=
  let line := c - c mod 80 + 80 in
  if line <? 2000 then Console line l else Console 1920 (scroll l).

(** CR and LF both start a line, BS clears the cell before the cursor; there is
    none before the first. *)
Definition console_put (c : Z) (k : console) : option console :=
  if (c =? 0xd) || (c =? 0xa) then Some (newline (cursor k) (cells k))
  else if c =? 0x8 then
    if cursor k =? 0 then None
    else Some (Console (cursor k - 1) (<[Z.to_nat (cursor k - 1) := blank]> (cells k)))
  else
    let l := <[Z.to_nat (cursor k) := (c, 0x07)]> (cells k) in
    if cursor k + 1 <? 2000 then Some (Console (cursor k + 1) l)
    else Some (newline (cursor k + 1) l).

Fixpoint console_puts (l : list Z) (k : console) : option console :=
  match l with
  | [] => Some k
  | c :: l => k' ← console_put c k; console_puts l k'
  end.

(** A number in base 16, in upper case and without leading zeros. *)
Definition hex_char (d : Z) : Z := if d <=? 9 then d + 48 else d - 10 + 65.

Definition nibbles (n : Z) : list Z := (fun i => (n / 2 ^ (4 * (7 - i))) mod 2 ^ 4) <$> seqZ 0 8.

Fixpoint strip_zeros (l : list Z) : list Z :=
  match l with
  | [] => [0]
  | d :: l' => if d =? 0 then strip_zeros l' else l
  end.

Definition hex_text (n : Z) : list Z := hex_char <$> strip_zeros (nibbles n).

(** What the calls recorded by the C code put on the screen. *)
Definition string_bytes (s : string) : list Z := (fun c => Z.of_nat (Ascii.nat_of_ascii c)) <$> String.list_ascii_of_string s.

Definition event_text (e : event) : list Z :=
  match e with
  | PutStr s => string_bytes s
  | PutInt n => hex_text n
  | PutChar c => [c]
  | _ => []
  end.

Definition render (t : list event) (k : console) : option console :=
  console_puts (mjoin (event_text <$> t)) k.

Definition console_ok (k : console) : Prop :=
  0 <= cursor k < 2000 /\ length (cells k) = 2000%nat /\
  Forall (fun p => is_byte p.1 /\ is_byte p.2) (cells k).

Definition cleared : console := Console 0 (replicate 2000 blank).

(** A line of the screen as a string, without the blanks at its end. *)
Fixpoint trim (l : list Z) : list Z :=
  match l with
  | [] => []
  | c :: l => match trim l with [] => if c =? 0x20 then [] else [c] | l' => c :: l' end
  end.

Definition line_text (k : console) (i : nat) : string :=
  String.string_of_list_ascii
    ((fun c => Ascii.ascii_of_nat (Z.to_nat c)) <$> trim (fst <$> take 80 (drop (80 * i) (cells k)))).

(** ** Memory that shows a screen *)

Section shows.
  Context {mem dev : Type} `{Video mem} `{Crtc dev}.

Definition screen_of (m : mem) : list (Z * Z) :=
  (fun j => (vram m (2 * j), vram m (2 * j + 1))) <$> seqZ 0 2000.

Definition shows (m : mem) (d : dev) (k : console) : Prop :=
  video_ok m /\ cursor_at d (cursor k) /\ cells k = screen_of m /\ 0 <= cursor k < 2000.

End shows.

(** ** The paged memory of the kernel *)

Definition low_maps (m : paged) : Prop :=
  kernel_maps m /\ pread32 m PAGE_DIR_TABLE_POS = 0x101007.

Lemma boot_low_maps m : boot_tables m -> low_maps m.
Proof.
  intros Hb. split; [now apply boot_kernel_maps|]. destruct Hb as (_ & Hd & _).
  replace PAGE_DIR_TABLE_POS with (PAGE_DIR_TABLE_POS + 4 * 0) by lia. now rewrite Hd.
Qed.

Lemma low_maps_keeps m m' : keeps_tables m m' -> low_maps m -> low_maps m'.
Proof.
  intros Hk [Hm Hp]. split; [eauto using kernel_maps_keeps|].
  rewrite (pread32_keeps m m'); [done | done |]. unfold PAGE_DIR_TABLE_POS, LOW_MEM. lia.
Qed.

(** The first page table serves both directory entries. *)
Lemma translate_identity m a : low_maps m -> 0 <= a < LOW_MEM -> translate m a = Some a.
Proof.
  intros [Hm Hp] Ha. assert (Hh : translate m (KERNEL_BASE + a) = Some a).
  { rewrite translate_low; [f_equal; lia | done | lia]. }
  destruct Hm as (Hc & Hd & Ht). unfold LOW_MEM, KERNEL_BASE in *.
  assert (Hpde : pde_of m a = pde_of m (0xc0000000 + a)).
  { unfold pde_of, pde_addr. rewrite Hc, frame_page_dir.
    replace (pdx a) with 0 by (unfold pdx; apply Z.div_unique with a; lia).
    replace (pdx (0xc0000000 + a)) with 768 by (unfold pdx; apply Z.div_unique with a; lia).
    rewrite Z.mul_0_r, Z.add_0_r, Hp. now replace (4 * 768) with 0xc00 by lia. }
  assert (Hpt : ptx (0xc0000000 + a) = ptx a /\ page_off (0xc0000000 + a) = page_off a).
  { unfold ptx, page_off. replace (0xc0000000 + a) with (a + 786432 * 2 ^ 12) by lia.
    rewrite Z_div_plus_full, Z_mod_plus_full by lia. split; [|done].
    replace 786432 with (768 * 2 ^ 10) by lia. apply Z_mod_plus_full. }
  destruct Hpt as [Hpt Hpo]. unfold translate, pte_of, pte_addr in Hh |- *.
  rewrite Hpde, <- Hpt, <- Hpo.
  replace ((0 <=? 0xc0000000 + a) && (0xc0000000 + a <? 2 ^ 32)) with true in Hh by lia.
  now replace ((0 <=? a) && (a <? 2 ^ 32)) with true by lia.
Qed.

Definition paged_vram (m : paged) (j : Z) : Z := pread8 m (VIDEO_PHYS + j).

Definition paged_video_ok (m : paged) : Prop :=
  low_maps m /\ forall j, 0 <= j < VIDEO_SIZE -> is_byte (paged_vram m j).

Ltac video_consts := unfold VIDEO_PHYS, VIDEO_BASE, VIDEO_SIZE, KERNEL_BASE, LOW_MEM in *.

(** A change of video memory alone. *)
Lemma video_write m m' :
  paged_video_ok m -> keeps_tables m m' ->
  (forall pa, ~ (VIDEO_PHYS <= pa < VIDEO_PHYS + VIDEO_SIZE) -> pread8 m' pa = pread8 m pa) ->
  (forall j, 0 <= j < VIDEO_SIZE -> is_byte (paged_vram m' j)) ->
  paged_video_ok m' /\ outside_kept m m'.
Proof.
  intros [Hm Hb] Hk Ho Hb'. split; [split; [eauto using low_maps_keeps | done]|]. split.
  - intros a. apply low_ram_iff; [apply Hm | done|].
    destruct (decide (VIDEO_PHYS <= a - KERNEL_BASE < VIDEO_PHYS + VIDEO_SIZE)) as [Hin|Hn].
    + assert (Hj : 0 <= a - KERNEL_BASE - VIDEO_PHYS < VIDEO_SIZE) by lia.
      specialize (Hb _ Hj). specialize (Hb' _ Hj). unfold paged_vram in *.
      now replace (VIDEO_PHYS + (a - KERNEL_BASE - VIDEO_PHYS)) with (a - KERNEL_BASE) in * by lia.
    + now rewrite Ho.
  - intros a (Hm1 & Ha & _) Hn. cbn. unfold paged_load8.
    rewrite !translate_low by eauto using kernel_maps_keeps. cbn. f_equal. apply Ho.
    video_consts. lia.
Qed.

#[export] Instance paged_Video : Video paged.
Proof.
  refine {| vram := paged_vram; video_ok := paged_video_ok |}.
  - intros m j [_ Hb]. apply Hb.
  - intros m j b Hok Hj Hb. pose proof Hok as [Hm Hbytes].
    assert (Hr : low_ram m (VIDEO_BASE + j)).
    { split; [apply Hm|]. split; [video_consts; lia|]. specialize (Hbytes j Hj).
      unfold paged_vram in Hbytes. now replace (VIDEO_BASE + j - KERNEL_BASE) with (VIDEO_PHYS + j)
        by (video_consts; lia). }
    destruct (store8_low m _ b Hr Hb) as [E Hk].
    replace (VIDEO_BASE + j - KERNEL_BASE) with (VIDEO_PHYS + j) in * by (video_consts; lia).
    eexists. split; [exact E|].
    assert (Hv : forall x, paged_vram (pwrite8 m (VIDEO_PHYS + j) b) x =
      if decide (x = j) then b else paged_vram m x).
    { intros x. unfold paged_vram. rewrite pread8_pwrite8. repeat case_decide; done || lia. }
    destruct (video_write m (pwrite8 m (VIDEO_PHYS + j) b) Hok Hk) as [? ?].
    + intros pa Hn. rewrite pread8_pwrite8. rewrite decide_False; [done | lia].
    + intros x Hx. rewrite Hv. case_decide; auto.
    + split; [done|]. split; [done|]. intros x _. apply Hv.
  - intros m j [Hm Hb] Hj0 Hj Ha. cbn. unfold paged_load32, paged_vram.
    rewrite <- aligned_in_page.
    2: { video_consts. rewrite Z.add_mod, Ha by lia. done. }
    rewrite translate_identity by (done || video_consts; lia). cbn. unfold pread32.
    now rewrite !Z.add_assoc.
  - intros m j v Hok Hj0 Hj Ha Hv. pose proof Hok as [Hm Hb]. cbn. unfold paged_store32.
    rewrite <- aligned_in_page.
    2: { video_consts. rewrite Z.add_mod, Ha by lia. done. }
    rewrite translate_identity by (done || video_consts; lia). cbn.
    eexists. split; [reflexivity|].
    assert (Hw : forall x, paged_vram (pwrite32 m (VIDEO_PHYS + j) v) x =
      if decide (j <= x < j + 4) then byte_of v (x - j) else paged_vram m x).
    { intros x. unfold paged_vram. rewrite pread8_pwrite32. repeat case_decide; done || lia || (f_equal; lia). }
    destruct (video_write m (pwrite32 m (VIDEO_PHYS + j) v) Hok) as [? ?].
    + split; [done|]. intros pa Hpa. rewrite pread8_pwrite32, decide_False; [done|].
      video_consts. lia.
    + intros pa Hn. rewrite pread8_pwrite32, decide_False; [done | lia].
    + intros x Hx. rewrite Hw. case_decide; [|auto]. apply Z.mod_pos_bound. lia.
    + split; [done|]. split; [done|]. intros x _. apply Hw.
  - intros m a b m' [Hm Hbytes] Hr Hb Hn E. destruct (store8_low m a b Hr Hb) as [E' Hk].
    cbn in E. simplify_eq. destruct Hr as (_ & Ha & _).
    assert (Hv : forall x, 0 <= x < VIDEO_SIZE ->
      paged_vram (pwrite8 m (a - KERNEL_BASE) b) x = paged_vram m x).
    { intros x Hx. unfold paged_vram. rewrite pread8_pwrite8, decide_False; [done|].
      video_consts. lia. }
    split; [|done]. split; [eauto using low_maps_keeps|]. intros x Hx. rewrite Hv by done. auto.
Defined.

(** A controller with these registers alone. *)
Record vga_sim : Type := VgaSim { v_index : Z; v_high : Z; v_low : Z }.

#[export] Instance vga_sim_Ports : Ports vga_sim := {|
  port_out p v d :=
    if p =? 0x3d4 then VgaSim v (v_high d) (v_low d)
    else if p =? 0x3d5 then
      if v_index d =? 0x0e then VgaSim (v_index d) v (v_low d)
      else if v_index d =? 0x0f then VgaSim (v_index d) (v_high d) v else d
    else d;
  port_in p d :=
    (if p =? 0x3d5 then if v_index d =? 0x0e then v_high d
       else if v_index d =? 0x0f then v_low d else 0 else 0, d);
  port_out16 _ _ d := d;
  port_in16 _ d := (0, d);
|}.

#[export] Instance vga_sim_Crtc : Crtc vga_sim.
Proof.
  refine {| crtc d i h l := d = VgaSim i h l /\ is_byte h /\ is_byte l |}.
  - now intros d i h l (_ & ? & ?).
  - now intros d i h l v Hv (-> & ? & ?).
  - now intros d h l v Hv (-> & ? & ?).
  - now intros d h l v Hv (-> & ? & ?).
  - intros p v d i h l H4 H5 Hd. cbn. now rewrite (proj2 (Z.eqb_neq _ _) H4), (proj2 (Z.eqb_neq _ _) H5).
  - intros d h l (-> & ? & ?). eexists. split; [reflexivity | done].
  - intros d h l (-> & ? & ?). eexists. split; [reflexivity | done].
Defined.

(** ** Changes of the screen *)

Section screen.
  Context {mem dev : Type} `{Video mem} `{Crtc dev}.
  Implicit Types m : mem.

Lemma outside_kept_refl m : outside_kept m m.
Proof. done. Qed.

Lemma outside_kept_trans m1 m2 m3 : outside_kept m1 m2 -> outside_kept m2 m3 -> outside_kept m1 m3.
Proof.
  intros [R1 L1] [R2 L2]. split; [intros a; now rewrite R2|].
  intros a Ha Hn. rewrite L2, L1; [done | done | done | now apply R1 | done].
Qed.

Lemma length_screen_of m : length (screen_of m) = 2000%nat.
Proof. unfold screen_of. now rewrite length_fmap, length_seqZ. Qed.

Lemma screen_of_lookup m (n : nat) :
  (n < 2000)%nat ->
  screen_of m !! n = Some (vram m (2 * Z.of_nat n), vram m (2 * Z.of_nat n + 1)).
Proof.
  intros Hn. unfold screen_of. rewrite list_lookup_fmap, lookup_seqZ_lt by lia. reflexivity.
Qed.

Lemma screen_of_eq m (l : list (Z * Z)) :
  length l = 2000%nat ->
  (forall n, (n < 2000)%nat -> l !! n = Some (vram m (2 * Z.of_nat n), vram m (2 * Z.of_nat n + 1))) ->
  l = screen_of m.
Proof.
  intros Hl Hn. apply list_eq_same_length with (n := 2000%nat); [apply length_screen_of | done|].
  intros i x y Hi E1 E2. rewrite screen_of_lookup in E2 by done. rewrite Hn in E1 by done. congruence.
Qed.

Lemma screen_of_ok m : video_ok m -> Forall (fun p => is_byte p.1 /\ is_byte p.2) (screen_of m).
Proof.
  intros Hm. apply Forall_lookup. intros n p Hp.
  pose proof (lookup_lt_Some _ _ _ Hp) as Hn. rewrite length_screen_of in Hn.
  rewrite screen_of_lookup in Hp by done. simplify_eq. cbn.
  split; apply video_byte; try done; unfold VIDEO_SIZE; lia.
Qed.

Lemma shows_ok m (d : dev) k : shows m d k -> console_ok k.
Proof.
  intros (Hm & _ & Hc & Hk). split; [done|]. rewrite Hc. split; [apply length_screen_of|].
  now apply screen_of_ok.
Qed.

(** One cell was written. *)
Lemma screen_of_store m m' (n : nat) c a :
  (n < 2000)%nat ->
  (forall x, 0 <= x < VIDEO_SIZE -> vram m' x = if decide (x = 2 * Z.of_nat n) then c
     else if decide (x = 2 * Z.of_nat n + 1) then a else vram m x) ->
  screen_of m' = <[n := (c, a)]> (screen_of m).
Proof.
  intros Hn Hv. symmetry. apply screen_of_eq; [rewrite length_insert; apply length_screen_of|].
  intros i Hi. rewrite !Hv by (unfold VIDEO_SIZE; lia). destruct (decide (n = i)) as [<-|Hne].
  - rewrite list_lookup_insert_eq by (rewrite length_screen_of; lia).
    rewrite decide_True, decide_False, decide_True by lia. done.
  - rewrite list_lookup_insert_ne, screen_of_lookup by done. rewrite !decide_False by lia. done.
Qed.

(** The lines moved up and the last one is blank. *)
Lemma screen_of_scroll m m' :
  (forall x, 0 <= x < 3840 -> vram m' x = vram m (x + 160)) ->
  (forall n, 1920 <= n < 2000 -> vram m' (2 * n) = 0x20 /\ vram m' (2 * n + 1) = 0x07) ->
  screen_of m' = scroll (screen_of m).
Proof.
  intros Hmove Hcls. symmetry. unfold scroll.
  assert (Hl : length (drop 80 (take 2000 (screen_of m))) = 1920%nat).
  { rewrite length_drop, length_take_le by (rewrite length_screen_of; lia). done. }
  apply screen_of_eq; [rewrite length_app, Hl, length_replicate; done|].
  intros n Hn. destruct (decide (n < 1920)%nat).
  - rewrite lookup_app_l by lia. rewrite lookup_drop, lookup_take_lt by lia.
    rewrite screen_of_lookup by lia. rewrite !Hmove by lia. do 3 f_equal; lia.
  - rewrite lookup_app_r, lookup_replicate_2 by lia. destruct (Hcls (Z.of_nat n)) as [-> ->]; [lia | done].
Qed.

(** *** Well-formed screens *)

Lemma newline_ok c (l : list (Z * Z)) :
  0 <= c <= 2000 -> length l = 2000%nat -> Forall (fun p => is_byte p.1 /\ is_byte p.2) l ->
  console_ok (newline c l).
Proof.
  intros Hc Hl Hf. unfold newline. pose proof (Z.mod_pos_bound c 80 ltac:(lia)).
  destruct (Z.ltb_spec (c - c mod 80 + 80) 2000).
  - split; [cbn; lia | done].
  - split; [cbn; lia|]. cbn. unfold scroll. split.
    + rewrite length_app, length_drop, length_take_le, length_replicate; lia.
    + apply Forall_app. split; [apply Forall_drop, Forall_take; done|].
      apply Forall_replicate. split; cbn; unfold is_byte; lia.
Qed.

Lemma console_put_ok c k k' : is_byte c -> console_ok k -> console_put c k = Some k' -> console_ok k'.
Proof.
  intros Hc (Hk & Hl & Hf). unfold console_put.
  assert (Hins : forall n p, is_byte p.1 -> is_byte p.2 ->
    Forall (fun p => is_byte p.1 /\ is_byte p.2) (<[n := p]> (cells k))).
  { intros n p Hp1 Hp2. apply Forall_insert; [done | now split]. }
  destruct ((c =? 13) || (c =? 10)); [intros [= <-]; apply newline_ok; done || lia|].
  destruct (c =? 8).
  { destruct (Z.eqb_spec (cursor k) 0); [done|]. intros [= <-]. split; [cbn; lia|].
    cbn. rewrite length_insert. split; [done|]. apply Hins; cbn; unfold is_byte; lia. }
  assert (Hi : Forall (fun p => is_byte p.1 /\ is_byte p.2) (<[Z.to_nat (cursor k) := (c, 7)]> (cells k))).
  { apply Hins; cbn; [done | unfold is_byte; lia]. }
  destruct (Z.ltb_spec (cursor k + 1) 2000); intros [= <-].
  - split; [cbn; lia|]. cbn. now rewrite length_insert.
  - apply newline_ok; [lia | now rewrite length_insert | done].
Qed.

End screen.

(** ** Bytes of a concrete paged memory *)

Definition paged_holds (m : paged) (a : Z) (l : list Z) : bool :=
  forallb (fun p => (pread8 m (p.1 - KERNEL_BASE) =? p.2) && (0 <=? p.2) && (p.2 <? 256))
    (zip (seqZ a (Z.of_nat (length l))) l).

Lemma paged_bytes_at m a (l : list Z) :
  boot_tables m -> KERNEL_BASE <= a -> a + Z.of_nat (length l) <= KERNEL_BASE + LOW_MEM ->
  paged_holds m a l = true -> bytes_at m a l.
Proof.
  intros Hb Ha Hl Hc. unfold paged_holds in Hc. rewrite forallb_forall in Hc.
  split; [unfold KERNEL_BASE in *; lia|]. split; [unfold KERNEL_BASE, LOW_MEM in *; lia|].
  intros i b Hi. pose proof (lookup_lt_Some _ _ _ Hi) as Hlt.
  assert (Hin : In (a + Z.of_nat i, b) (zip (seqZ a (Z.of_nat (length l))) l)).
  { apply list_elem_of_In, list_elem_of_lookup. exists i. apply lookup_zip_Some.
    split; [|done]. rewrite lookup_seqZ_lt by lia. done. }
  apply Hc in Hin. cbn in Hin. apply andb_true_iff in Hin. rewrite andb_true_iff in Hin.
  destruct Hin as [[Hp H0] H1]. apply Z.eqb_eq in Hp.
  assert (is_byte b) by (unfold is_byte; lia). split; [done|].
  assert (Hm : kernel_maps m) by now apply boot_kernel_maps. split.
  - split; [done|]. split; [lia|]. now rewrite Hp.
  - cbn. unfold paged_load8. rewrite translate_low by (done || lia). cbn. now rewrite Hp.
Qed.

(** Checking a memory where it agrees with a smaller one *)
Lemma paged_holds_agree m m' a (l : list Z) :
  (forall x, a <= x < a + Z.of_nat (length l) -> pread8 m (x - KERNEL_BASE) = pread8 m' (x - KERNEL_BASE)) ->
  paged_holds m a l = true -> paged_holds m' a l = true.
Proof.
  intros He. unfold paged_holds. rewrite !forallb_forall. intros Hc [x b] Hin. specialize (Hc _ Hin). cbn in *.
  apply list_elem_of_In, elem_of_zip_l, elem_of_seqZ in Hin. now rewrite <- He.
Qed.
