(* ===== verification/Print.v ===== *)
(** * Print: lib/kernel/print.S

    [put_char], [put_str] and [put_int] as instructions on the machine of
    X86.v, one definition per label, and the proof that they make the console
    of Screen.v: the trace of output that the C model records has a meaning on
    the screen. *)

From stdpp Require Import base numbers list strings gmap.
From S2P Require Import Prelude Machine X86 Paging Screen.
From Stdlib Require Import ZArith Lia.
Open Scope Z_scope.

(** ** The code *)

Section code.
  Context {mem dev : Type} `{Memory mem} `{Ports dev}.
  Abbreviation X := (M (x86 mem dev)).

(** The position of the cursor, read into bx *)
Definition get_cursor : X unit :=
  wr16 EDX 0x03d4 ;;;
  wrl EAX 0x0e ;;;
  out_dx_al ;;;
  wr16 EDX 0x03d5 ;;;
  in_al_dx ;;;
  (al <- rdl EAX ;; wrh EAX al) ;;;
  wr16 EDX 0x03d4 ;;;
  wrl EAX 0x0f ;;;
  out_dx_al ;;;
  wr16 EDX 0x03d5 ;;;
  in_al_dx ;;;
  (ax <- rd16 EAX ;; wr16 EBX ax).

Definition set_cursor : X unit :=
  wr16 EDX 0x03d4 ;;;
  wrl EAX 0x0e ;;;
  out_dx_al ;;;
  wr16 EDX 0x03d5 ;;;
  (bh <- rdh EBX ;; wrl EAX bh) ;;;
  out_dx_al ;;;
  wr16 EDX 0x03d4 ;;;
  wrl EAX 0x0f ;;;
  out_dx_al ;;;
  wr16 EDX 0x03d5 ;;;
  (bl <- rdl EBX ;; wrl EAX bl) ;;;
  out_dx_al.

Definition is_backspace : X unit :=
  upd16 EBX (fun bx => bx - 1) ;;;
  upd16 EBX (fun bx => Z.shiftl bx 1) ;;;
  (bx <- rd16 EBX ;; gs_store8 bx 0x20) ;;;
  upd16 EBX (fun bx => bx + 1) ;;;
  (bx <- rd16 EBX ;; gs_store8 bx 0x07) ;;;
  upd16 EBX (fun bx => Z.shiftr bx 1) ;;;
  set_cursor.

Definition cls : X unit :=
  loop_ecx (
    (ebx <- rd EBX ;; gs_store16 ebx 0x0720) ;;;
    upd EBX (fun ebx => ebx + 2)).

Definition roll_screen : X unit :=
  wr ECX 960 ;;;
  wr ESI 0xb80a0 ;;;
  wr EDI 0xb8000 ;;;
  rep_movsd ;;;
  wr EBX 3840 ;;;
  wr ECX 80 ;;;
  cls ;;;
  wr16 EBX 1920 ;;;
  set_cursor.

(** Both labels, for CR and LF, are here. *)
Definition is_line_feed : X unit :=
  wr16 EDX 0 ;;;
  (bx <- rd16 EBX ;; wr16 EAX bx) ;;;
  wr16 ESI 80 ;;;
  div16 ESI ;;;
  (dx <- rd16 EDX ;; upd16 EBX (fun bx => bx - dx)) ;;;
  upd16 EBX (fun bx => bx + 80) ;;;
  bx <- rd16 EBX ;;
  if s16 bx <? 2000 then set_cursor else roll_screen.

Definition put_other : X unit :=
  upd16 EBX (fun bx => Z.shiftl bx 1) ;;;
  (bx <- rd16 EBX ;; cl <- rdl ECX ;; gs_store8 bx cl) ;;;
  upd16 EBX (fun bx => bx + 1) ;;;
  (bx <- rd16 EBX ;; gs_store8 bx 0x07) ;;;
  upd16 EBX (fun bx => Z.shiftr bx 1) ;;;
  upd16 EBX (fun bx => bx + 1) ;;;
  bx <- rd16 EBX ;;
  if s16 bx <? 2000 then set_cursor else is_line_feed.

(** Up to the comparisons: the character is in cl. *)
Definition put_char_begin : X unit :=
  pushad ;;;
  wr16 EAX SELECTOR_VIDEO ;;;
  (ax <- rd16 EAX ;; wrs GS ax) ;;;
  get_cursor ;;;
  (esp <- gets esp ;; v <- load_stack (u32 (esp + 36)) ;; wr ECX v).

Definition put_char : X unit :=
  put_char_begin ;;;
  (cl <- rdl ECX ;;
   if cl =? 0xd then is_line_feed
   else if cl =? 0xa then is_line_feed
   else if cl =? 0x8 then is_backspace
   else put_other) ;;;
  popad ;;;
  retn.

Definition put_str : X unit :=
  (ebx <- rd EBX ;; push ebx) ;;;
  (ecx <- rd ECX ;; push ecx) ;;;
  wr ECX 0 ;;;
  (esp <- gets esp ;; v <- load_stack (u32 (esp + 12)) ;; wr EBX v) ;;;
  loop 33 (fun _ : unit =>
    (ebx <- rd EBX ;; b <- load_byte ebx ;; wrl ECX b) ;;;
    cl <- rdl ECX ;;
    if cl =? 0 then ret (inr tt)
    else
      (ecx <- rd ECX ;; push ecx) ;;;
      call put_char ;;;
      drop_stack 1 ;;;
      upd EBX (fun ebx => ebx + 1) ;;;
      ret (inl tt)) tt ;;;
  pop_reg ECX ;;;
  pop_reg EBX ;;;
  retn.

(** [put_int_buffer] is the address of its eight bytes. *)
Context (put_int_buffer : Z).

(** The digits, last to first, into the buffer *)
Definition based16_4bits : X unit :=
  loop_ecx (
    upd EDX (fun edx => Z.land edx 0x0000000F) ;;;
    (edx <- rd EDX ;;
     if s32 edx >? 9 then
       upd EDX (fun edx => edx - 10) ;;; upd EDX (fun edx => edx + 65)
     else upd EDX (fun edx => edx + 48)) ;;;
    (ebx <- rd EBX ;; edi <- rd EDI ;; dl <- rdl EDX ;; store_byte (u32 (ebx + edi)) dl) ;;;
    upd EDI (fun edi => edi - 1) ;;;
    upd EAX (fun eax => Z.shiftr eax 4) ;;;
    (eax <- rd EAX ;; wr EDX eax)).

(** [true] when all the digits are zeros *)
Definition skip_prefix_0 : X bool :=
  loop 4 (fun _ : unit =>
    edi <- rd EDI ;;
    if edi =? 8 then ret (inr true)
    else
      (b <- load_byte (u32 (put_int_buffer + edi)) ;; wrl ECX b) ;;;
      upd EDI (fun edi => edi + 1) ;;;
      cl <- rdl ECX ;;
      if cl =? 48 then ret (inl tt)
      else upd EDI (fun edi => edi - 1) ;;; ret (inr false)) tt.

Definition put_each_num : X unit :=
  loop 4 (fun _ : unit =>
    (ecx <- rd ECX ;; push ecx) ;;;
    call put_char ;;;
    drop_stack 1 ;;;
    upd EDI (fun edi => edi + 1) ;;;
    (edi <- rd EDI ;; b <- load_byte (u32 (put_int_buffer + edi)) ;; wrl ECX b) ;;;
    edi <- rd EDI ;;
    if s32 edi <? 8 then ret (inl tt) else ret (inr tt)) tt.

Definition put_int : X unit :=
  pushad ;;;
  (esp <- gets esp ;; wr EBP esp) ;;;
  (ebp <- rd EBP ;; v <- load_stack (u32 (ebp + 4 * 9)) ;; wr EAX v) ;;;
  (eax <- rd EAX ;; wr EDX eax) ;;;
  wr EDI 7 ;;;
  wr ECX 8 ;;;
  wr EBX put_int_buffer ;;;
  based16_4bits ;;;
  upd EDI (fun edi => edi + 1) ;;;
  (full0 <- skip_prefix_0 ;; when full0 (wrl ECX 48)) ;;;
  put_each_num ;;;
  popad ;;;
  retn.

End code.

(** ** The cursor *)

Section cursor.
  Context {mem dev : Type} `{Video mem} `{Crtc dev}.
  Implicit Types s : x86 mem dev.

(** The CRT controller's ports in a run of instructions *)
Local Ltac x_ports := x_steps; change (u16 0x03d4) with 0x03d4 in *; change (u16 0x03d5) with 0x03d5 in *;
  change (u8 0x0e) with 0x0e in *; change (u8 0x0f) with 0x0f in *.

Lemma u8_lo8 v : u8 (lo8 v) = lo8 v.
Proof. apply u8_small, lo8_range. Qed.

Lemma u8_hi8 v : u8 (hi8 v) = hi8 v.
Proof. apply u8_small, hi8_range. Qed.

Lemma set_cursor_spec r m d o s c0 (Q : unit -> x86 mem dev -> Prop) :
  cursor_at d c0 ->
  (forall s', leaves s (fun _ m' d' => m' = m /\ cursor_at d' (lo16 (ebx r))) s' -> Q tt s') ->
  wp set_cursor Q (after r m d o s).
Proof.
  intros (i & Hd) HQ. destruct r as [a cx dx b bp si di]. unfold set_cursor. x_ports.
  apply HQ. eexists _, m, _, _. split; [reflexivity|]. split; [done|]. exists 0x0f. cbn [ebx].
  rewrite lo16_high, lo16_low, u8_lo8, u8_hi8.
  eapply crtc_write_low; [apply lo8_range|]. eapply crtc_select; [done|].
  eapply crtc_write_high; [apply hi8_range|]. eapply crtc_select; [done | exact Hd].
Qed.

(** Only eax, ebx and edx change. *)
Lemma get_cursor_spec r m d o s c (Q : unit -> x86 mem dev -> Prop) :
  cursor_at d c -> 0 <= c < 2 ^ 16 ->
  (forall a dx b d' o', cursor_at d' c -> lo16 b = c ->
    Q tt (after (Regs a (ecx r) dx b (ebp r) (esi r) (edi r)) m d' o' s)) ->
  wp get_cursor Q (after r m d o s).
Proof.
  intros (i & Hd) Hc HQ. destruct r as [a cx dx b bp si di]. unfold get_cursor. x_ports.
  pose proof (crtc_byte _ _ _ _ Hd) as [Hh Hl].
  apply (crtc_select _ _ _ _ 0x0e) in Hd; [|done].
  destruct (crtc_read_high _ _ _ Hd) as (d1 & E1 & Hd1).
  apply wp_bind; eapply wp_in8; [exact E1|]. x_ports.
  apply (crtc_select _ _ _ _ 0x0f) in Hd1; [|done].
  destruct (crtc_read_low _ _ _ Hd1) as (d2 & E2 & Hd2).
  apply wp_bind; eapply wp_in8; [exact E2|]. x_ports.
  cbn [ecx ebp esi edi]. apply HQ; [now exists 0x0f|].
  autorewrite with x86_parts. rewrite lo16_split. autorewrite with x86_parts.
  rewrite (u8_small (c / 2 ^ 8)), !u8_small by done. pose proof (Z.div_mod c (2 ^ 8) ltac:(lia)). lia.
Qed.

End cursor.

(** ** Video memory *)

Section video.
  Context {mem dev : Type} `{Video mem} `{Ports dev}.
  Implicit Types s : x86 mem dev.
  Implicit Types m : mem.

Lemma wp_gs_store8 r m (d : dev) o s off b (Q : unit -> x86 mem dev -> Prop) :
  gs (x_sregs s) = SELECTOR_VIDEO -> video_ok m -> 0 <= off < VIDEO_SIZE -> is_byte b ->
  (forall m', video_ok m' -> outside_kept m m' ->
    (forall x, 0 <= x < VIDEO_SIZE -> vram m' x = if decide (x = off) then b else vram m x) ->
    Q tt (after r m' d o s)) ->
  wp (gs_store8 off b) Q (after r m d o s).
Proof.
  intros Hgs Hm Hoff Hb HQ. unfold gs_store8. x_steps. rewrite Hgs, Z.eqb_refl.
  change (desc_limit VIDEO_DESC_low video_desc_high) with 0x7fff.
  change (desc_base VIDEO_DESC_low video_desc_high) with VIDEO_BASE.
  rewrite (proj2 (Z.leb_le off 0x7fff)) by (unfold VIDEO_SIZE in Hoff; lia). cbn [andb].
  destruct (video_store8 m off b Hm Hoff Hb) as (m' & E & Hm' & Ho & Hv).
  unfold wp, store_byte. cbn [x_mem after].
  rewrite u32_small by (unfold is_u32, VIDEO_BASE, VIDEO_SIZE in *; lia).
  rewrite u8_small by done. rewrite E. now apply HQ.
Qed.

(** The offset is beyond the segment. *)
Lemma gs_store8_beyond r m (d : dev) o s off b :
  gs (x_sregs s) = SELECTOR_VIDEO -> VIDEO_SIZE <= off ->
  gs_store8 off b (after r m d o s) = Stop (Fault off) (after r m d o s).
Proof.
  intros Hgs Hoff. unfold gs_store8, rds, gets, bind. cbn [x_sregs after sreg_of]. rewrite Hgs, Z.eqb_refl.
  change (desc_limit VIDEO_DESC_low video_desc_high) with 0x7fff.
  rewrite (proj2 (Z.leb_gt off 0x7fff)) by (unfold VIDEO_SIZE in Hoff; lia). reflexivity.
Qed.

(** A character and its attribute *)
Lemma wp_gs_store16 r m (d : dev) o s off v (Q : unit -> x86 mem dev -> Prop) :
  gs (x_sregs s) = SELECTOR_VIDEO -> video_ok m -> 0 <= off -> off + 1 < VIDEO_SIZE -> 0 <= v < 2 ^ 16 ->
  (forall m', video_ok m' -> outside_kept m m' ->
    (forall x, 0 <= x < VIDEO_SIZE -> vram m' x = if decide (x = off) then v mod 2 ^ 8
       else if decide (x = off + 1) then v / 2 ^ 8 else vram m x) ->
    Q tt (after r m' d o s)) ->
  wp (gs_store16 off v) Q (after r m d o s).
Proof.
  intros Hgs Hm Hoff0 Hoff Hv HQ. unfold gs_store16.
  apply wp_bind, wp_gs_store8; [done | done | lia | apply Z.mod_pos_bound; lia |].
  intros m1 Hm1 Ho1 Hv1. apply wp_gs_store8; [done | done | lia | |].
  { split; [apply Z.div_pos; lia | apply Z.div_lt_upper_bound; lia]. }
  intros m2 Hm2 Ho2 Hv2. apply HQ; [done | eauto using outside_kept_trans |].
  intros x Hx. rewrite Hv2, Hv1 by done. repeat case_decide; done || lia.
Qed.

(** The bytes of four cells' halves, read and written again *)
Lemma byte_of_le32 b0 b1 b2 b3 :
  is_byte b0 -> is_byte b1 -> is_byte b2 -> is_byte b3 ->
  is_u32 (le32 b0 b1 b2 b3) /\
  byte_of (le32 b0 b1 b2 b3) 0 = b0 /\ byte_of (le32 b0 b1 b2 b3) 1 = b1 /\
  byte_of (le32 b0 b1 b2 b3) 2 = b2 /\ byte_of (le32 b0 b1 b2 b3) 3 = b3.
Proof.
  unfold is_byte, is_u32, le32, byte_of. intros H0' H1' H2' H3'.
  split; [lia|]. split; [|split; [|split]]; symmetry.
  - apply Z.mod_unique with (b1 + 2 ^ 8 * b2 + 2 ^ 16 * b3); [lia|]. rewrite Z.mul_0_r, Z.div_1_r. lia.
  - apply Z.mod_unique with (b2 + 2 ^ 8 * b3); [lia|]. symmetry. apply Z.div_unique with b0; lia.
  - apply Z.mod_unique with b3; [lia|]. symmetry. apply Z.div_unique with (b0 + 2 ^ 8 * b1); lia.
  - apply Z.mod_unique with 0; [lia|]. symmetry. apply Z.div_unique with (b0 + 2 ^ 8 * b1 + 2 ^ 16 * b2); lia.
Qed.

(** One word moves [k] bytes down. *)
Lemma video_move m j k :
  video_ok m -> 0 <= j -> 0 <= k -> j + k + 4 <= VIDEO_SIZE -> j mod 4 = 0 -> k mod 4 = 0 ->
  exists v m', load32 m (VIDEO_PHYS + (j + k)) = Some v /\ is_u32 v /\
    store32 m (VIDEO_PHYS + j) v = Some m' /\ video_ok m' /\ outside_kept m m' /\
    forall x, 0 <= x < VIDEO_SIZE -> vram m' x = if decide (j <= x < j + 4) then vram m (x + k) else vram m x.
Proof.
  intros Hm Hj Hk Hs Ha Hka. assert (Hb : forall x, j + k <= x < j + k + 4 -> is_byte (vram m x)).
  { intros x Hx. apply video_byte; [done | lia]. }
  destruct (byte_of_le32 (vram m (j + k)) (vram m (j + k + 1)) (vram m (j + k + 2)) (vram m (j + k + 3)))
    as (Hu & B0 & B1 & B2 & B3); [apply Hb; lia..|].
  set (v := le32 _ _ _ _) in *.
  destruct (video_store32 m j v) as (m' & E & Hm' & Ho & Hv); [done | done | lia | done | done|].
  exists v, m'. split; [|split; [done|]; split; [done|]; split; [done|]; split; [done|]].
  - apply video_load32; [done | lia | lia|]. rewrite Z.add_mod, Ha, Hka by lia. done.
  - intros x Hx. rewrite Hv by done. case_decide as Hd; [|done].
    assert (x = j \/ x = j + 1 \/ x = j + 2 \/ x = j + 3) as [-> | [-> | [-> | ->]]] by lia.
    + rewrite Z.sub_diag. exact B0.
    + replace (j + 1 - j) with 1 by lia. replace (j + 1 + k) with (j + k + 1) by lia. exact B1.
    + replace (j + 2 - j) with 2 by lia. replace (j + 2 + k) with (j + k + 2) by lia. exact B2.
    + replace (j + 3 - j) with 3 by lia. replace (j + 3 + k) with (j + k + 3) by lia. exact B3.
Qed.

(** [rep movsd] over video memory, [n] words [k] bytes down *)
Lemma rep_movsd_spec a dx b bp n k m (d : dev) o s (Q : unit -> x86 mem dev -> Prop) :
  video_ok m -> 0 <= n -> 0 <= k -> 4 * n + k <= VIDEO_SIZE -> k mod 4 = 0 ->
  (forall r' m', video_ok m' -> outside_kept m m' ->
    (forall x, 0 <= x < VIDEO_SIZE -> vram m' x = if decide (x < 4 * n) then vram m (x + k) else vram m x) ->
    Q tt (after r' m' d o s)) ->
  wp rep_movsd Q (after (Regs a n dx b bp (VIDEO_PHYS + k) VIDEO_PHYS) m d o s).
Proof.
  intros Hm Hn Hk Hs Hka HQ. unfold rep_movsd.
  apply wp_loop_measure with
    (Inv := fun _ s' => exists i m', 0 <= i <= n /\
      s' = after (Regs a (n - i) dx b bp (VIDEO_PHYS + (4 * i + k)) (VIDEO_PHYS + 4 * i)) m' d o s /\
      video_ok m' /\ outside_kept m m' /\
      forall x, 0 <= x < VIDEO_SIZE -> vram m' x = if decide (x < 4 * i) then vram m (x + k) else vram m x)
    (meas := fun _ s' => ecx (x_regs s')).
  - intros [] s' (i & m' & Hi & -> & Hm' & Ho & Hv). x_steps.
    destruct (Z.eqb_spec (n - i) 0) as [Ez|Hz].
    { apply wp_ret. apply HQ; [done | done|]. now replace n with i by lia. }
    destruct (video_move m' (4 * i) k) as (v & m2 & E1 & Hu & E2 & Hm2 & Ho2 & Hv2);
      [done | lia | lia | lia | rewrite Z.mul_comm; apply Z_mod_mult | done|].
    x_steps. apply wp_bind. unfold load_word at 1, wp at 1. cbn [x_mem after]. rewrite E1.
    apply wp_bind. unfold store_word at 1, wp at 1. cbn [x_mem after]. rewrite u32_small, E2 by done.
    change (set_xmem m2 (after ?r _ d o s)) with (after r m2 d o s). x_steps.
    unfold VIDEO_SIZE in Hs. rewrite !u32_small by (unfold is_u32, VIDEO_PHYS; lia).
    split; [|cbn; lia]. exists (i + 1), m2. split; [lia|]. split.
    { f_equal. f_equal; lia. }
    split; [done|]. split; [eauto using outside_kept_trans|].
    intros x Hx. rewrite Hv2 by done. repeat case_decide; try lia; rewrite Hv by (unfold VIDEO_SIZE in *; lia);
      case_decide; done || lia.
  - intros [] s' (i & m' & Hi & -> & _). cbn. lia.
  - exists 0, m. rewrite Z.sub_0_r, Z.mul_0_r, Z.add_0_r, Z.add_0_l.
    split; [lia|]. split; [done|]. split; [done|]. split; [apply outside_kept_refl|].
    intros x Hx. rewrite decide_False by lia. done.
  - cbn. unfold VIDEO_SIZE in Hs. lia.
Qed.

(** The loop at [.cls]: [n] blank cells from offset [off] on *)
Lemma cls_spec a dx bp si di n off m (d : dev) o s (Q : unit -> x86 mem dev -> Prop) :
  gs (x_sregs s) = SELECTOR_VIDEO -> video_ok m -> 0 < n -> 0 <= off -> off + 2 * n <= VIDEO_SIZE ->
  (forall r' m', video_ok m' -> outside_kept m m' ->
    (forall x, 0 <= x < VIDEO_SIZE ->
      vram m' x = if decide (off <= x < off + 2 * n) then if decide ((x - off) mod 2 = 0) then 0x20 else 0x07
                  else vram m x) ->
    Q tt (after r' m' d o s)) ->
  wp cls Q (after (Regs a n dx off bp si di) m d o s).
Proof.
  intros Hgs Hm Hn Hoff Hs HQ. unfold cls, loop_ecx.
  apply wp_loop_measure with
    (Inv := fun _ s' => exists i m', 0 <= i < n /\
      s' = after (Regs a (n - i) dx (off + 2 * i) bp si di) m' d o s /\
      video_ok m' /\ outside_kept m m' /\
      forall x, 0 <= x < VIDEO_SIZE ->
      vram m' x = if decide (off <= x < off + 2 * i) then if decide ((x - off) mod 2 = 0) then 0x20 else 0x07
                  else vram m x)
    (meas := fun _ s' => ecx (x_regs s')).
  - intros [] s' (i & m' & Hi & -> & Hm' & Ho & Hv). x_steps.
    apply wp_gs_store16; [done | done | lia | lia | lia |]. intros m2 Hm2 Ho2 Hv2. x_steps.
    unfold VIDEO_SIZE in Hs. rewrite !u32_small by (unfold is_u32; lia).
    assert (Hv' : forall x, 0 <= x < VIDEO_SIZE -> vram m2 x =
      if decide (off <= x < off + 2 * (i + 1)) then if decide ((x - off) mod 2 = 0) then 0x20 else 0x07
      else vram m x).
    { intros x Hx. rewrite Hv2 by done. destruct (decide (x = off + 2 * i)) as [->|].
      { rewrite decide_True by lia. replace (off + 2 * i - off) with (i * 2) by lia.
        rewrite Z_mod_mult. done. }
      destruct (decide (x = off + 2 * i + 1)) as [->|].
      { rewrite decide_True by lia. replace (off + 2 * i + 1 - off) with (1 + i * 2) by lia.
        rewrite Z_mod_plus_full. done. }
      rewrite Hv by done. repeat case_decide; done || lia. }
    destruct (Z.eqb_spec (n - i - 1) 0) as [Ez|Hz].
    + apply wp_ret. apply HQ; [done | eauto using outside_kept_trans |].
      now replace n with (i + 1) by lia.
    + apply wp_ret. split; [|cbn; lia]. exists (i + 1), m2. split; [lia|]. split.
      { f_equal. f_equal; lia. }
      split; [done|]. split; [eauto using outside_kept_trans | exact Hv'].
  - intros [] s' (i & m' & Hi & -> & _). cbn. lia.
  - exists 0, m. rewrite Z.sub_0_r, Z.mul_0_r, Z.add_0_r.
    split; [lia|]. split; [done|]. split; [done|]. split; [apply outside_kept_refl|].
    intros x Hx. rewrite decide_False by lia. done.
  - cbn. unfold VIDEO_SIZE in Hs. lia.
Qed.

End video.

(** ** [put_char] *)

Section put_char.
  Context {mem dev : Type} `{Video mem} `{Crtc dev}.
  Implicit Types s : x86 mem dev.
  Implicit Types m : mem.

(** The console is now [k], and RAM outside video memory is as in [m]. *)
Definition now_shows m (k : console) (_ : regs) (m' : mem) (d' : dev) : Prop :=
  outside_kept m m' /\ shows m' d' k.

Lemma set_cursor_shows m0 r m d o s c0 l (Q : unit -> x86 mem dev -> Prop) :
  cursor_at d c0 -> lo16 (ebx r) < 2000 -> video_ok m -> outside_kept m0 m -> l = screen_of m ->
  (forall s', leaves s (now_shows m0 (Console (lo16 (ebx r)) l)) s' -> Q tt s') ->
  wp set_cursor Q (after r m d o s).
Proof.
  intros Hd Hc Hm Ho -> HQ. apply (set_cursor_spec _ _ _ _ _ c0); [done|].
  intros s' (r' & m' & d' & o' & -> & -> & Hd'). apply HQ. exists r', m, d', o'. split; [done|].
  split; [done|]. pose proof (lo16_range (ebx r)). do 3 (split; [done|]). cbn. lia.
Qed.

Lemma roll_screen_spec m0 r m d o s c0 (Q : unit -> x86 mem dev -> Prop) :
  gs (x_sregs s) = SELECTOR_VIDEO -> video_ok m -> outside_kept m0 m -> cursor_at d c0 ->
  (forall s', leaves s (now_shows m0 (Console 1920 (scroll (screen_of m)))) s' -> Q tt s') ->
  wp roll_screen Q (after r m d o s).
Proof.
  intros Hgs Hm Ho Hd HQ. destruct r as [a cx dx b bp si di]. unfold roll_screen. x_steps. apply wp_bind.
  change (u32 960) with 960. change (u32 0xb80a0) with (VIDEO_PHYS + 160). change (u32 0xb8000) with VIDEO_PHYS.
  apply rep_movsd_spec; [done | done | done | done | done|]. intros r1 m1 Hm1 Ho1 Hv1.
  destruct r1 as [a1 cx1 dx1 b1 bp1 si1 di1]. x_steps. apply wp_bind.
  apply (cls_spec _ _ _ _ _ 80 3840); [done | done | done | done | done|].
  intros r2 m2 Hm2 Ho2 Hv2. destruct r2 as [a2 cx2 dx2 b2 bp2 si2 di2]. x_steps.
  eapply (set_cursor_shows m0); [exact Hd | x_simpl; done | done | eauto using outside_kept_trans | |].
  - symmetry. apply (screen_of_scroll m m2).
    + intros x Hx. rewrite Hv2, Hv1 by (unfold VIDEO_SIZE; lia).
      rewrite decide_False, decide_True by lia. done.
    + intros n Hn. rewrite !Hv2 by (unfold VIDEO_SIZE; lia). rewrite !(decide_True (P := _ <= _ < _)) by lia.
      rewrite decide_True, decide_False; [done | |].
      * replace (2 * n + 1 - 3840) with (1 + (n - 1920) * 2) by lia. rewrite Z_mod_plus_full. done.
      * replace (2 * n - 3840) with ((n - 1920) * 2) by lia. apply Z_mod_mult.
  - x_simpl. exact HQ.
Qed.

(** The line break of a cursor at [c], which may have left the screen *)
Lemma is_line_feed_spec m0 r m d o s c c0 (Q : unit -> x86 mem dev -> Prop) :
  gs (x_sregs s) = SELECTOR_VIDEO -> video_ok m -> outside_kept m0 m -> cursor_at d c0 ->
  lo16 (ebx r) = c -> 0 <= c <= 2000 ->
  (forall s', leaves s (now_shows m0 (newline c (screen_of m))) s' -> Q tt s') ->
  wp is_line_feed Q (after r m d o s).
Proof.
  intros Hgs Hm Ho Hd Hb Hc HQ. destruct r as [a cx dx b bp si di]. cbn [ebx] in Hb.
  unfold is_line_feed, div16. x_steps.
  change (u16 0) with 0. change (u16 80) with 80. rewrite Hb, Z.mul_0_r, Z.add_0_l.
  change (80 =? 0) with false. pose proof (Z.mod_pos_bound c 80 ltac:(lia)) as Hmod.
  assert (Hle : c mod 80 <= c) by (apply Z.mod_le; lia).
  assert (Hq : 0 <= c / 80 < 2 ^ 16).
  { split; [apply Z.div_pos | apply Z.div_lt_upper_bound]; lia. }
  rewrite (proj2 (Z.leb_gt _ _)) by lia. cbn [orb]. x_steps. rewrite Hb.
  assert (El : u16 (u16 (c - u16 (c mod 80)) + 80) = c - c mod 80 + 80).
  { now rewrite (u16_small (c mod 80)), (u16_small (c - c mod 80)), u16_small by lia. }
  rewrite El. unfold newline in HQ. set (line := c - c mod 80 + 80) in *.
  assert (Hs : s16 line = line) by (unfold s16; rewrite Z.mod_small; lia).
  rewrite Hs. destruct (Z.ltb_spec line 2000).
  - eapply (set_cursor_shows m0); [exact Hd | | done | done | reflexivity |].
    + x_simpl. rewrite ?Hb, El. done.
    + x_simpl. rewrite ?Hb, El. exact HQ.
  - eapply roll_screen_spec; [done | done | done | exact Hd | exact HQ].
Qed.

Lemma shiftl_1 c : Z.shiftl c 1 = 2 * c.
Proof. rewrite Z.shiftl_mul_pow2 by lia. lia. Qed.

Lemma shiftr_odd c : Z.shiftr (2 * c + 1) 1 = c.
Proof. rewrite Z.shiftr_div_pow2 by lia. symmetry. apply Z.div_unique with 1; lia. Qed.

(** The two stores of a cell *)
Lemma store_cell m m1 m2 c ch :
  0 <= c < 2000 -> video_ok m ->
  (forall x, 0 <= x < VIDEO_SIZE -> vram m1 x = if decide (x = 2 * c) then ch else vram m x) ->
  (forall x, 0 <= x < VIDEO_SIZE -> vram m2 x = if decide (x = 2 * c + 1) then 0x07 else vram m1 x) ->
  <[Z.to_nat c := (ch, 0x07)]> (screen_of m) = screen_of m2.
Proof.
  intros Hc Hm Hv1 Hv2. symmetry. apply screen_of_store; [lia|]. rewrite Z2Nat.id by lia.
  intros x Hx. rewrite Hv2, Hv1 by done. repeat case_decide; done || lia.
Qed.

Lemma is_backspace_spec m0 r m d o s c0 (Q : unit -> x86 mem dev -> Prop) :
  gs (x_sregs s) = SELECTOR_VIDEO -> video_ok m -> outside_kept m0 m -> cursor_at d c0 ->
  0 < lo16 (ebx r) < 2000 ->
  (forall s', leaves s (now_shows m0 (Console (lo16 (ebx r) - 1)
     (<[Z.to_nat (lo16 (ebx r) - 1) := blank]> (screen_of m)))) s' -> Q tt s') ->
  wp is_backspace Q (after r m d o s).
Proof.
  intros Hgs Hm Ho Hd Hc HQ. destruct r as [a cx dx b bp si di]. cbn [ebx] in *.
  set (c := lo16 b) in *. unfold is_backspace. x_steps. fold c.
  rewrite (u16_small (c - 1)), shiftl_1, u16_small by lia. apply wp_bind.
  apply wp_gs_store8; [done | done | unfold VIDEO_SIZE; lia | done|]. intros m1 Hm1 Ho1 Hv1. x_steps. fold c.
  rewrite ?(u16_small (2 * (c - 1))), ?u16_small by lia. apply wp_bind.
  apply wp_gs_store8; [done | done | unfold VIDEO_SIZE; lia | done|]. intros m2 Hm2 Ho2 Hv2. x_steps. fold c.
  eapply (set_cursor_shows m0); [exact Hd | | done | eauto using outside_kept_trans |
    apply (store_cell m m1 m2 (c - 1) 0x20); done || lia |]; x_simpl; fold c;
    rewrite ?(u16_small (2 * (c - 1) + 1)), shiftr_odd, ?u16_small by lia; [lia | exact HQ].
Qed.

(** Before the first cell the offset wraps around and is beyond the segment. *)
Lemma is_backspace_faults r m d o s :
  gs (x_sregs s) = SELECTOR_VIDEO -> lo16 (ebx r) = 0 ->
  halts is_backspace (Fault 0xfffe) (after r m d o s).
Proof.
  intros Hgs Hc. destruct r as [a cx dx b bp si di]. cbn [ebx] in *. unfold is_backspace.
  do 2 (apply halts_bind; x_steps). apply halts_bind_first, halts_bind. x_steps. rewrite Hc.
  change (u16 (Z.shiftl (u16 (0 - 1)) 1)) with 0xfffe.
  eexists. now apply gs_store8_beyond.
Qed.

Lemma put_other_spec m0 r m d o s c0 (Q : unit -> x86 mem dev -> Prop) :
  gs (x_sregs s) = SELECTOR_VIDEO -> video_ok m -> outside_kept m0 m -> cursor_at d c0 ->
  0 <= lo16 (ebx r) < 2000 ->
  (forall s', leaves s (now_shows m0
     (let c := lo16 (ebx r) in
      let l := <[Z.to_nat c := (lo8 (ecx r), 0x07)]> (screen_of m) in
      if c + 1 <? 2000 then Console (c + 1) l else newline (c + 1) l)) s' -> Q tt s') ->
  wp put_other Q (after r m d o s).
Proof.
  intros Hgs Hm Ho Hd Hc HQ. destruct r as [a cx dx b bp si di]. cbn [ebx ecx] in *.
  set (c := lo16 b) in *. cbv zeta in HQ. unfold put_other. x_steps. fold c.
  rewrite shiftl_1, u16_small by lia. apply wp_bind.
  apply wp_gs_store8; [done | done | unfold VIDEO_SIZE; lia | apply lo8_range|].
  intros m1 Hm1 Ho1 Hv1. x_steps. fold c.
  rewrite ?(u16_small (2 * c)), ?u16_small by lia. apply wp_bind.
  apply wp_gs_store8; [done | done | unfold VIDEO_SIZE; lia | done|]. intros m2 Hm2 Ho2 Hv2. x_steps. fold c.
  pose proof (store_cell m m1 m2 c (lo8 cx) Hc Hm Hv1 Hv2) as El. rewrite El in HQ.
  assert (Hbx : u16 (u16 (Z.shiftr (u16 (2 * c + 1)) 1) + 1) = c + 1).
  { now rewrite (u16_small (2 * c + 1)), shiftr_odd, (u16_small c), u16_small by lia. }
  rewrite Hbx. assert (Hs : s16 (c + 1) = c + 1) by (unfold s16; rewrite Z.mod_small; lia).
  rewrite Hs. destruct (Z.ltb_spec (c + 1) 2000).
  - eapply (set_cursor_shows m0); [exact Hd | | done | eauto using outside_kept_trans | reflexivity |];
      x_simpl; fold c; rewrite Hbx; [lia | exact HQ].
  - eapply (is_line_feed_spec m0); [done | done | eauto using outside_kept_trans | exact Hd | | |exact HQ].
    + x_simpl. fold c. exact Hbx.
    + lia.
Qed.

(** The RAM that a routine with a buffer at [lo, hi) leaves alone *)
Definition kept_but (lo hi : Z) m m' : Prop :=
  (forall a, ram m' a <-> ram m a) /\
  forall a, ram m a -> ~ (VIDEO_BASE <= a < VIDEO_BASE + VIDEO_SIZE) -> ~ (lo <= a < hi) ->
    load8 m' a = load8 m a.

(** [printed lo hi s eip l k s']: a routine called in [s] has returned to [eip]
    with the stack [l]; registers are as before, except [gs], and the console
    is [k]. *)
Definition printed lo hi s (eip : Z) (l : list Z) (k : console) (s' : x86 mem dev) : Prop :=
  exists g m d o,
    s' = X86 (x_regs s) (set_sreg GS g (x_sregs s)) (x_cs s) eip (x_eflags s) (x_bottom s) l m d o /\
    kept_but lo hi (x_mem s) m /\ shows m d k.

Lemma outside_kept_but lo hi m m' : outside_kept m m' -> kept_but lo hi m m'.
Proof. intros [R L]. split; [done|]. intros a Ha Hn _. now apply L. Qed.

Lemma kept_but_trans lo hi m1 m2 m3 : kept_but lo hi m1 m2 -> kept_but lo hi m2 m3 -> kept_but lo hi m1 m3.
Proof.
  intros [R1 L1] [R2 L2]. split; [intros a; now rewrite R2|].
  intros a Ha Hn Hb. rewrite L2, L1; [done | done | done | done | now apply R1 | done | done].
Qed.

Lemma bytes_at_kept lo hi m m' a l :
  kept_but lo hi m m' -> bytes_at m a l ->
  a + Z.of_nat (length l) <= VIDEO_BASE \/ VIDEO_BASE + VIDEO_SIZE <= a ->
  a + Z.of_nat (length l) <= lo \/ hi <= a \/ hi <= lo -> bytes_at m' a l.
Proof.
  intros [R L] (Ha & Hl & Hb) Hd1 Hd2. split; [done|]. split; [done|]. intros i b Hi.
  destruct (Hb i b Hi) as (? & Hr & Hld). pose proof (lookup_lt_Some _ _ _ Hi).
  rewrite R, L; [done | done | lia | lia].
Qed.

(** The state in which [put_char] has saved the registers *)
Definition saved s : x86 mem dev :=
  let r := x_regs s in
  set_sregs (set_sreg GS SELECTOR_VIDEO (x_sregs s)) (set_stack
    (edi r :: esi r :: ebp r :: esp s :: ebx r :: edx r :: ecx r :: eax r :: x_stack s) s).

Lemma put_char_begin_spec s k eip arg l (Q : unit -> x86 mem dev -> Prop) :
  regs_ok (x_regs s) -> x_stack s = eip :: arg :: l -> is_u32 arg -> shows (x_mem s) (x_dev s) k ->
  (forall r d o, cursor_at d (cursor k) -> lo16 (ebx r) = cursor k -> ecx r = arg ->
    Q tt (after r (x_mem s) d o (saved s))) ->
  wp put_char_begin Q s.
Proof.
  intros Hr Hs Harg (Hm & Hd & Hcells & Hc) HQ. apply wp_after. unfold put_char_begin.
  apply wp_bind, wp_pushad; [done|]. unfold saved in HQ. destruct (x_regs s) as [a cx dx b bp si di] eqn:Er.
  cbn [eax ecx edx ebx ebp esi edi] in *. x_steps. apply wp_bind.
  eapply get_cursor_spec; [exact Hd | lia|]. cbn [ecx ebp esi edi]. intros a1 dx1 b1 d1 o1 Hd1 Hb1. x_steps.
  apply wp_bind. eapply (wp_load_stack _ _ _ _ _ 9); [cbn; rewrite Hs; reflexivity | done | reflexivity |].
  cbn beta. x_steps. rewrite u32_small by done. now apply HQ.
Qed.

Lemma put_char_spec s k k' eip arg l :
  regs_ok (x_regs s) -> x_stack s = eip :: arg :: l -> is_u32 arg -> shows (x_mem s) (x_dev s) k ->
  console_put (lo8 arg) k = Some k' ->
  wp put_char (fun _ => printed 0 0 s eip (arg :: l) k') s.
Proof.
  intros Hr Hs Harg Hsh Hput. pose proof Hsh as (Hm & _ & Hcells & Hc).
  apply wp_bind. apply (put_char_begin_spec s k eip arg l); [done..|]. intros r d o Hd Hb Hcl.
  assert (Hend : forall s', leaves (saved s) (now_shows (x_mem s) k') s' ->
    wp (popad ;;; retn) (fun _ => printed 0 0 s eip (arg :: l) k') s').
  { intros s' (r' & m' & d' & o' & -> & Ho & Hsh'). apply wp_bind.
    eapply (wp_popad _ (x_regs s)); [done | reflexivity|].
    eapply wp_retn; [exact Hs|]. exists SELECTOR_VIDEO, m', d', o'. split; [done|].
    split; [now apply outside_kept_but | done]. }
  unfold console_put in Hput. rewrite Hcells in Hput. x_steps. rewrite Hcl.
  destruct (lo8 arg =? 13); [|destruct (lo8 arg =? 10); [|destruct (lo8 arg =? 8)]]; cbn [orb] in Hput.
  - simplify_eq. eapply (is_line_feed_spec (x_mem s)); [done | done | done | exact Hd | exact Hb | lia | exact Hend].
  - simplify_eq. eapply (is_line_feed_spec (x_mem s)); [done | done | done | exact Hd | exact Hb | lia | exact Hend].
  - destruct (Z.eqb_spec (cursor k) 0); [done|]. simplify_eq.
    eapply (is_backspace_spec (x_mem s)); [done | done | done | exact Hd | rewrite Hb; lia |].
    rewrite Hb. exact Hend.
  - eapply (put_other_spec (x_mem s)); [done | done | done | exact Hd | rewrite Hb; lia |].
    rewrite Hb, Hcl. cbv zeta. destruct (cursor k + 1 <? 2000); simplify_eq; exact Hend.
Qed.

Lemma put_char_faults s k eip arg l :
  regs_ok (x_regs s) -> x_stack s = eip :: arg :: l -> is_u32 arg -> shows (x_mem s) (x_dev s) k ->
  console_put (lo8 arg) k = None -> halts put_char (Fault 0xfffe) s.
Proof.
  intros Hr Hs Harg Hsh Hput. apply halts_bind. eapply put_char_begin_spec; [done | done | done | exact Hsh|].
  intros r d o Hd Hb Hcl. apply halts_bind_first, halts_bind. x_steps. rewrite Hcl.
  unfold console_put in Hput. destruct ((lo8 arg =? 13) || (lo8 arg =? 10)) eqn:E; [done|].
  apply orb_false_iff in E as [-> ->]. destruct (lo8 arg =? 8); [|now destruct (_ <? _) in Hput].
  destruct (Z.eqb_spec (cursor k) 0) as [E0|]; [|done]. apply is_backspace_faults; [done | congruence].
Qed.

(** The call from another routine *)
Lemma wp_call_put_char r m d o s arg l k k' (Q : unit -> x86 mem dev -> Prop) :
  regs_ok r -> is_u32 (x_eip s) -> x_stack s = arg :: l -> is_u32 arg -> shows m d k ->
  console_put (lo8 arg) k = Some k' ->
  (forall g m' d' o', kept_but 0 0 m m' -> shows m' d' k' ->
    Q tt (after r m' d' o' (set_sregs (set_sreg GS g (x_sregs s)) s))) ->
  wp (call put_char) Q (after r m d o s).
Proof.
  intros Hr Heip Hs Harg Hsh Hput HQ. apply wp_call.
  eapply wp_mono; [eapply (put_char_spec _ k k' (x_eip s) arg l); [exact Hr | | done | exact Hsh | done]|].
  - cbn. now rewrite Hs, u32_small.
  - intros [] s' (g & m' & d' & o' & -> & Hk & Hsh'). specialize (HQ g m' d' o' Hk Hsh').
    cbn in *. unfold after, set_sregs in HQ. cbn in HQ. now rewrite Hs in HQ.
Qed.

End put_char.

(** ** [put_str] *)

Section put_str.
  Context {mem dev : Type} `{Video mem} `{Crtc dev}.
  Implicit Types s : x86 mem dev.
  Implicit Types m : mem.

Lemma regs_ok_of a cx dx b bp si di :
  is_u32 a -> is_u32 cx -> is_u32 dx -> is_u32 b -> is_u32 bp -> is_u32 si -> is_u32 di ->
  regs_ok (Regs a cx dx b bp si di).
Proof. intros ? ? ? ? ? ? ? []; done. Qed.

Lemma regs_ok_inv a cx dx b bp si di :
  regs_ok (Regs a cx dx b bp si di) ->
  is_u32 a /\ is_u32 cx /\ is_u32 dx /\ is_u32 b /\ is_u32 bp /\ is_u32 si /\ is_u32 di.
Proof.
  intros Hr. repeat split; first [apply (Hr EAX) | apply (Hr ECX) | apply (Hr EDX) | apply (Hr EBX)
    | apply (Hr EBP) | apply (Hr ESI) | apply (Hr EDI)].
Qed.

Lemma wp_load_byte r m (d : dev) o s a b (Q : Z -> x86 mem dev -> Prop) :
  load8 m a = Some b -> Q b (after r m d o s) -> wp (load_byte a) Q (after r m d o s).
Proof. unfold wp, load_byte. cbn. now intros ->. Qed.

(** The string [l] at [a], which is not in video memory *)
Definition text_at m (a : Z) (l : list Z) : Prop :=
  bytes_at m a (l ++ [0]) /\ Forall (fun b => b <> 0) l /\
  (a + Z.of_nat (length l) + 1 <= VIDEO_BASE \/ VIDEO_BASE + VIDEO_SIZE <= a).

Lemma text_at_kept m m' a l : kept_but 0 0 m m' -> text_at m a l -> text_at m' a l.
Proof.
  intros Hk (Hb & Hz & Hd). split; [|done]. eapply bytes_at_kept; [exact Hk | exact Hb | |lia].
  rewrite length_app. cbn. lia.
Qed.

Lemma put_str_spec s k k' eip arg l txt :
  regs_ok (x_regs s) -> is_u32 (x_eip s) -> x_stack s = eip :: arg :: l ->
  shows (x_mem s) (x_dev s) k -> text_at (x_mem s) arg txt -> console_puts txt k = Some k' ->
  wp put_str (fun _ => printed 0 0 s eip (arg :: l) k') s.
Proof.
  intros Hr Heip Hs Hsh Htxt Hput. apply wp_after. unfold put_str.
  destruct (x_regs s) as [a cx dx b bp si di] eqn:Er.
  destruct (regs_ok_inv _ _ _ _ _ _ _ Hr) as (Ha & Hcx & Hdx & Hb & Hbp & Hsi & Hdi).
  assert (Harg : is_u32 arg).
  { destruct Htxt as ((? & Hl & _) & _). rewrite length_app in Hl. cbn in Hl. unfold is_u32. lia. }
  x_steps. apply wp_bind. eapply (wp_load_stack _ _ _ _ _ 3); [cbn; rewrite Hs; reflexivity | done | reflexivity |].
  cbn beta. x_steps. rewrite (u32_small arg) by done. change (u32 0) with 0.
  set (s1 := set_stack _ _). apply wp_bind.
  apply wp_loop_measure with
    (Inv := fun _ s' => exists i v g m' d' o' ki, (i <= length txt)%nat /\
      s' = after (Regs a v dx (arg + Z.of_nat i) bp si di) m' d' o'
             (set_sregs (set_sreg GS g (x_sregs s)) s1) /\
      is_u32 v /\ kept_but 0 0 (x_mem s) m' /\ shows m' d' ki /\ console_puts (drop i txt) ki = Some k')
    (meas := fun _ s' => arg + Z.of_nat (length txt) - ebx (x_regs s')).
  - intros [] s' (i & v & g & m' & d' & o' & ki & Hi & -> & Hv & Hk & Hshi & Hputi). x_steps.
    pose proof (text_at_kept _ _ _ _ Hk Htxt) as (Hbytes & Hz & _).
    destruct (lookup_lt_is_Some_2 (txt ++ [0]) i) as [c Hc]; [rewrite length_app; cbn; lia|].
    destruct (bytes_at_lookup _ _ _ _ _ Hbytes Hc) as (Hcb & _ & Hld).
    apply wp_bind. eapply wp_load_byte; [exact Hld|]. x_steps. rewrite u8_small by done.
    destruct (decide (i = length txt)) as [->|Hne].
    + rewrite list_lookup_middle in Hc by done. simplify_eq. cbn [Z.eqb].
      rewrite drop_ge in Hputi by lia. cbn in Hputi. simplify_eq.
      apply wp_ret. apply wp_bind. eapply wp_pop_reg; [reflexivity|].
      apply wp_bind. eapply wp_pop_reg; [reflexivity|]. eapply wp_retn; [exact Hs|].
      exists g, m', d', o'. cbn. rewrite Er, !u32_small by (done || rewrite u32_small; done). done.
    + rewrite lookup_app_l in Hc by lia. rewrite (drop_S _ _ _ Hc) in Hputi. cbn in Hputi.
      destruct (console_put c ki) as [k2|] eqn:Ec; [|done]. cbn in Hputi.
      rewrite (proj2 (Z.eqb_neq c 0)) by (eapply Forall_lookup in Hz; done).
      x_steps. apply wp_bind. unfold is_u32 in Harg.
      assert (Hvc : is_u32 (with_lo8 v c)) by now apply with_lo8_u32.
      pose proof (proj1 Htxt) as (_ & Hmax & _). rewrite length_app in Hmax. cbn in Hmax.
      eapply wp_call_put_char; [ | done | cbn; rewrite u32_small by done; reflexivity | done | exact Hshi | |].
      * apply regs_ok_of; done || unfold is_u32; lia.
      * rewrite lo8_with_lo8, u8_small by done. exact Ec.
      * intros g2 m2 d2 o2 Hk2 Hsh2. apply wp_bind, wp_drop_stack; [cbn; lia|]. x_steps.
        rewrite u32_small by (unfold is_u32; lia). split; [|cbn; lia].
        exists (S i), (with_lo8 v c), g2, m2, d2, o2, k2. split; [lia|]. split; [|eauto using kept_but_trans].
        unfold after. cbn. f_equal. f_equal. lia.
  - intros [] s' (i & v & g & m' & d' & o' & ki & Hi & -> & _). cbn. lia.
  - exists 0%nat, 0, (gs (x_sregs s)), (x_mem s), (x_dev s), (x_outs s), k. rewrite Z.add_0_r.
    split; [lia|]. split; [unfold after; cbn; now destruct (x_sregs s)|].
    split; [done|]. split; [now apply outside_kept_but, outside_kept_refl | done].
  - cbn. destruct Htxt as ((_ & Hl & _) & _). rewrite length_app in Hl. cbn in Hl. unfold is_u32 in Harg. lia.
Qed.

End put_str.

(** ** [put_int] *)

Section put_int.
  Context {mem dev : Type} `{Video mem} `{Crtc dev}.
  Context (put_int_buffer : Z).
  Implicit Types s : x86 mem dev.
  Implicit Types m : mem.

(** The buffer and the two bytes behind it, which are read but not printed *)
Definition buffer_ok m : Prop :=
  writable m put_int_buffer 10 /\
  (put_int_buffer + 10 <= VIDEO_BASE \/ VIDEO_BASE + VIDEO_SIZE <= put_int_buffer).

Abbreviation buf_kept := (kept_but put_int_buffer (put_int_buffer + 8)).

Lemma buffer_ok_kept lo hi m m' : kept_but lo hi m m' -> buffer_ok m -> buffer_ok m'.
Proof. intros [R _] [(? & ? & Hw) ?]. split; [|done]. split; [done|]. split; [done|]. intros x Hx. apply R. auto. Qed.

(** A store into the buffer *)
Lemma wp_store_buffer r m d o s (i : nat) b k (Q : unit -> x86 mem dev -> Prop) :
  buffer_ok m -> shows m d k -> (i < 8)%nat -> is_byte b ->
  (forall m', buf_kept m m' -> shows m' d k ->
    mod_only (put_int_buffer + Z.of_nat i) (put_int_buffer + Z.of_nat i + 1) m m' ->
    load8 m' (put_int_buffer + Z.of_nat i) = Some b -> Q tt (after r m' d o s)) ->
  wp (store_byte (put_int_buffer + Z.of_nat i) b) Q (after r m d o s).
Proof.
  intros [(Hb0 & Hmax & Hw) Hd] (Hm & Hcur & Hcells & Hc) Hi Hb HQ.
  assert (Hr : ram m (put_int_buffer + Z.of_nat i)) by (apply Hw; lia).
  destruct (store8_ram m _ b Hr Hb) as (m' & E & Hl & Hmod).
  unfold wp, store_byte. cbn [x_mem after]. rewrite u8_small, E by done.
  destruct (video_ram_store8 m _ b m' Hm Hr Hb ltac:(lia) E) as [Hm' Hv].
  apply HQ; [ | | exact Hmod | done].
  - destruct Hmod as (R & L & _). split; [done|]. intros x Hx Hn1 Hn2. apply L; [done | lia].
  - split; [done|]. split; [done|]. split; [|done]. rewrite Hcells. apply screen_of_eq.
    + apply length_screen_of.
    + intros n Hn. rewrite screen_of_lookup by done. rewrite !Hv by (unfold VIDEO_SIZE; lia). done.
Qed.

Definition digits (n : Z) : list Z := hex_char <$> nibbles n.

Lemma length_nibbles n : length (nibbles n) = 8%nat.
Proof. reflexivity. Qed.

Lemma length_digits n : length (digits n) = 8%nat.
Proof. unfold digits. now rewrite length_fmap, length_nibbles. Qed.

Lemma nibbles_lookup n (j : nat) :
  (j < 8)%nat -> nibbles n !! j = Some ((n / 2 ^ (4 * (7 - Z.of_nat j))) mod 2 ^ 4).
Proof. intros Hj. unfold nibbles. rewrite list_lookup_fmap, lookup_seqZ_lt by lia. reflexivity. Qed.

Lemma hex_char_byte v : 0 <= v < 16 -> is_byte (hex_char v) /\ hex_char v <> 0 /\ (hex_char v = 48 <-> v = 0).
Proof. unfold hex_char, is_byte. intros Hv. destruct (Z.leb_spec v 9); lia. Qed.

(** One digit, as the code computes it *)
Lemma digit_code e :
  is_u32 e ->
  (if s32 (u32 (Z.land e 15)) >? 9 then u32 (u32 (u32 (Z.land e 15) - 10) + 65) else u32 (u32 (Z.land e 15) + 48)) =
    hex_char (e mod 2 ^ 4).
Proof.
  intros He. change 15 with (Z.ones 4). rewrite Z.land_ones by lia.
  pose proof (Z.mod_pos_bound e (2 ^ 4) ltac:(lia)) as Hm. set (v := e mod 2 ^ 4) in *.
  rewrite (u32_small v) by (unfold is_u32; lia). rewrite s32_small by lia. unfold hex_char.
  rewrite Z.gtb_ltb. destruct (Z.ltb_spec 9 v), (Z.leb_spec v 9); try lia.
  - rewrite (u32_small (v - 10)), u32_small by (unfold is_u32; lia). done.
  - rewrite u32_small by (unfold is_u32; lia). done.
Qed.

Lemma shiftr_4 n i : 0 <= i -> Z.shiftr (n / 2 ^ (4 * i)) 4 = n / 2 ^ (4 * (i + 1)).
Proof.
  intros Hi. rewrite Z.shiftr_div_pow2, Z.div_div by lia. f_equal.
  rewrite <- Z.pow_add_r by lia. f_equal. lia.
Qed.

Lemma div_pow_u32 n i : is_u32 n -> 0 <= i -> is_u32 (n / 2 ^ (4 * i)).
Proof.
  unfold is_u32. intros Hn Hi. pose proof (Z.pow_pos_nonneg 2 (4 * i) ltac:(lia) ltac:(lia)).
  split; [apply Z.div_pos; lia|]. apply Z.div_lt_upper_bound; [lia|]. nia.
Qed.

(** The character of the low four bits of edx, into edx *)
Lemma digit_block_spec e r m d o s (Q : unit -> x86 mem dev -> Prop) :
  is_u32 e -> edx r = u32 (Z.land e 15) ->
  Q tt (after (set_reg EDX (hex_char (e mod 2 ^ 4)) r) m d o s) ->
  wp (if s32 (edx r) >? 9 then upd EDX (fun edx => edx - 10) ;;; upd EDX (fun edx => edx + 65)
      else upd EDX (fun edx => edx + 48)) Q (after r m d o s).
Proof.
  intros He Hr HQ. pose proof (digit_code e He) as Hdig. destruct r as [a cx dx b bp si di]. cbn [edx set_reg] in *. subst.
  rewrite <- Hdig in HQ. destruct (s32 (u32 (Z.land e 15)) >? 9); x_steps; exact HQ.
Qed.

(** The loop that fills the buffer *)
Lemma based16_4bits_spec n bp si m d o s k (Q : unit -> x86 mem dev -> Prop) :
  is_u32 n -> buffer_ok m -> shows m d k ->
  (forall a cx dx m' o', is_u32 a -> is_u32 cx -> is_u32 dx -> buf_kept m m' -> shows m' d k ->
    bytes_at m' put_int_buffer (digits n) ->
    Q tt (after (Regs a cx dx put_int_buffer bp si (2 ^ 32 - 1)) m' d o' s)) ->
  wp based16_4bits Q (after (Regs n 8 n put_int_buffer bp si 7) m d o s).
Proof.
  intros Hn Hbuf Hsh HQ. pose proof Hbuf as [(Hb0 & Hmax & Hw) _].
  unfold based16_4bits, loop_ecx.
  apply wp_loop_measure with
    (Inv := fun _ s' => exists i m', 0 <= i < 8 /\
      s' = after (Regs (n / 2 ^ (4 * i)) (8 - i) (n / 2 ^ (4 * i)) put_int_buffer bp si (7 - i)) m' d o s /\
      buf_kept m m' /\ shows m' d k /\
      bytes_at m' (put_int_buffer + (8 - i)) (drop (Z.to_nat (8 - i)) (digits n)))
    (meas := fun _ s' => ecx (x_regs s')).
  - intros [] s' (i & m' & Hi & -> & Hk & Hsh' & Hbytes). x_steps.
    pose proof (div_pow_u32 n i Hn ltac:(lia)) as He. set (e := n / 2 ^ (4 * i)) in *.
    apply (digit_block_spec e (Regs e (8 - i) (u32 (Z.land e 15)) put_int_buffer bp si (7 - i)));
      [done | done|]. x_simpl. x_steps.
    assert (Hcb : is_byte (hex_char (e mod 2 ^ 4))) by (apply hex_char_byte, Z.mod_pos_bound; lia).
    rewrite u32_small by (unfold is_u32; lia). unfold lo8. rewrite Z.mod_small by done.
    replace (put_int_buffer + (7 - i)) with (put_int_buffer + Z.of_nat (Z.to_nat (7 - i))) by lia.
    eapply wp_store_buffer; [eauto using buffer_ok_kept | exact Hsh' | lia | done|].
    intros m2 Hk2 Hsh2 Hmod Hld. x_steps.
    assert (Hbytes2 : bytes_at m2 (put_int_buffer + (7 - i)) (drop (Z.to_nat (7 - i)) (digits n))).
    { assert (Hl : digits n !! Z.to_nat (7 - i) = Some (hex_char (e mod 2 ^ 4))).
      { unfold digits. rewrite list_lookup_fmap, nibbles_lookup by lia. cbn. do 3 f_equal. unfold e.
        do 2 f_equal. lia. }
      rewrite (drop_S _ _ _ Hl). change (?x :: ?l) with ([x] ++ l). apply bytes_at_app; [lia|].
      replace (put_int_buffer + (7 - i)) with (put_int_buffer + Z.of_nat (Z.to_nat (7 - i))) by lia. split.
      - split; [lia|]. split; [cbn; lia|]. intros [|j] c Hc; cbn in Hc; simplify_eq. rewrite Z.add_0_r.
        split; [done|]. split; [|done]. apply Hk2, Hk, Hw. lia.
      - replace (S (Z.to_nat (7 - i))) with (Z.to_nat (8 - i)) by lia. cbn [length].
        replace (put_int_buffer + Z.of_nat (Z.to_nat (7 - i)) + Z.of_nat 1)
          with (put_int_buffer + (8 - i)) by lia.
        eapply bytes_at_mod; [exact Hbytes | exact Hmod | lia]. }
    unfold e in *. rewrite shiftr_4 by lia. pose proof (div_pow_u32 n (i + 1) Hn ltac:(lia)) as He2.
    rewrite !(u32_small (n / 2 ^ (4 * (i + 1)))), !(u32_small (8 - i - 1)) by (done || unfold is_u32; lia).
    destruct (Z.eqb_spec (8 - i - 1) 0) as [Ez|Hz].
    + replace i with 7 in * by lia. apply wp_ret.
      apply HQ; [done | done | done | eauto using kept_but_trans | done |].
      now rewrite Z.add_0_r in Hbytes2.
    + rewrite (u32_small (7 - i - 1)) by (unfold is_u32; lia). apply wp_ret. split; [|cbn; lia].
      exists (i + 1), m2. split; [lia|]. split; [f_equal; f_equal; lia|].
      split; [eauto using kept_but_trans|]. split; [done|].
      now replace (8 - (i + 1)) with (7 - i) by lia.
  - intros [] s' (i & m' & Hi & -> & _). cbn. lia.
  - exists 0, m. rewrite Z.mul_0_r, Z.div_1_r, !Z.sub_0_r. split; [lia|]. split; [done|].
    split; [done|]. split; [done|]. rewrite drop_ge by done. apply bytes_at_nil. lia.
  - done.
Qed.

(** What is left to print when edi is [e] and cl the next character: all of
    it, if every digit is zero *)
Definition pending n (e : Z) (cl : Z) (txt : list Z) : Prop :=
  (e = 8 /\ cl = 48 /\ txt = [48]) \/
  (0 <= e < 8 /\ digits n !! Z.to_nat e = Some cl /\ txt = drop (Z.to_nat e) (digits n)).

Lemma strip_zeros_all l : Forall (fun v => v = 0) l -> strip_zeros l = [0].
Proof. induction 1 as [|v l -> _ IH]; [done | exact IH]. Qed.

Lemma strip_zeros_prefix l (i : nat) v :
  Forall (fun v => v = 0) (take i l) -> l !! i = Some v -> v <> 0 -> strip_zeros l = drop i l.
Proof.
  revert i. induction l as [|w l IH]; intros [|i] Hf Hl Hv; cbn in *; simplify_eq; try done.
  - now rewrite (proj2 (Z.eqb_neq v 0) Hv).
  - apply Forall_cons in Hf as [-> Hf]. cbn. now apply IH.
Qed.

Lemma skip_prefix_0_spec n a cx dx b bp si m d o s (Q : unit -> x86 mem dev -> Prop) :
  buffer_ok m -> bytes_at m put_int_buffer (digits n) -> is_u32 cx ->
  (forall cx' e, is_u32 cx' -> pending n e (lo8 cx') (hex_text n) ->
    Q tt (after (Regs a cx' dx b bp si e) m d o s)) ->
  wp (full0 <- skip_prefix_0 put_int_buffer ;; when full0 (wrl ECX 48)) Q
    (after (Regs a cx dx b bp si 0) m d o s).
Proof.
  intros [(Hb0 & Hmax & _) _] Hbytes Hcx HQ. apply wp_bind. unfold skip_prefix_0.
  apply wp_loop_measure with
    (Inv := fun _ s' => exists (i : nat) v, (i <= 8)%nat /\
      s' = after (Regs a v dx b bp si (Z.of_nat i)) m d o s /\ is_u32 v /\
      Forall (fun v => v = 0) (take i (nibbles n)))
    (meas := fun _ s' => 8 - edi (x_regs s')).
  - intros [] s' (i & v & Hi & -> & Hv & Hz). x_steps.
    destruct (Z.eqb_spec (Z.of_nat i) 8) as [E8|Hne].
    + apply wp_ret. cbn [when]. x_steps. apply HQ; [now apply with_lo8_u32|]. left.
      rewrite lo8_with_lo8. split; [done|]. split; [done|].
      unfold hex_text. rewrite strip_zeros_all; [done|].
      rewrite take_ge in Hz by (rewrite length_nibbles; lia). done.
    + pose proof (nibbles_lookup n i ltac:(lia)) as Hnib.
      set (w := (n / 2 ^ (4 * (7 - Z.of_nat i))) mod 2 ^ 4) in *.
      assert (Hw : 0 <= w < 16) by (apply Z.mod_pos_bound; lia).
      destruct (hex_char_byte w Hw) as (Hcb & _ & H48).
      assert (Hdig : digits n !! i = Some (hex_char w)) by (unfold digits; now rewrite list_lookup_fmap, Hnib).
      destruct (bytes_at_lookup _ _ _ _ _ Hbytes Hdig) as (_ & _ & Hld).
      x_steps. apply wp_bind. rewrite u32_small by (unfold is_u32; lia).
      apply wp_bind. eapply wp_load_byte; [exact Hld|]. x_steps. rewrite u8_small by done.
      rewrite !u32_small by (unfold is_u32; lia).
      destruct (Z.eqb_spec (hex_char w) 48) as [E|E].
      * apply wp_ret. split; [|cbn; lia]. exists (S i), (with_lo8 v (hex_char w)). split; [lia|].
        split; [f_equal; f_equal; lia|]. split; [now apply with_lo8_u32|].
        rewrite (take_S_r _ _ _ Hnib). apply Forall_app. split; [done|]. constructor; [tauto | done].
      * x_steps. cbn [when]. apply wp_ret. replace (Z.of_nat i + 1 - 1) with (Z.of_nat i) by lia.
        rewrite u32_small by (unfold is_u32; lia). apply HQ; [now apply with_lo8_u32|]. right.
        rewrite lo8_with_lo8, u8_small, Nat2Z.id by done. split; [lia|]. split; [done|].
        unfold hex_text. erewrite strip_zeros_prefix; [|exact Hz | exact Hnib | tauto].
        apply fmap_drop.
  - intros [] s' (i & v & Hi & -> & _). cbn. lia.
  - exists 0%nat, cx. split; [lia|]. split; [done|]. split; [done | constructor].
  - cbn. lia.
Qed.

(** One character is printed; the next one, if there is one, is in the buffer. *)
Lemma pending_step n e cl txt :
  pending n e cl txt ->
  exists txt', txt = cl :: txt' /\ 0 <= e <= 8 /\ (7 <= e -> txt' = []) /\
    (e < 7 -> exists c, digits n !! Z.to_nat (e + 1) = Some c /\ pending n (e + 1) c txt').
Proof.
  pose proof (length_digits n) as Hl8.
  intros [(-> & -> & ->)|(Hr & Hl & ->)]; [exists []; split; [done|]; split; [lia|]; split; [done|lia]|].
  rewrite (drop_S _ _ _ Hl). eexists. split; [reflexivity|]. split; [lia|]. split.
  - intros He. apply drop_ge. lia.
  - intros He. destruct (lookup_lt_is_Some_2 (digits n) (Z.to_nat (e + 1))) as [c Hc]; [lia|].
    exists c. split; [done|]. right. split; [lia|]. split; [done|]. f_equal. lia.
Qed.

Lemma put_each_num_spec n a cx dx b bp si e m d o s txt k k' (Q : unit -> x86 mem dev -> Prop) :
  regs_ok (Regs a cx dx b bp si e) -> is_u32 (x_eip s) -> buffer_ok m ->
  bytes_at m put_int_buffer (digits n) -> pending n e (lo8 cx) txt -> shows m d k ->
  console_puts txt k = Some k' ->
  (forall g r' m' d' o', kept_but 0 0 m m' -> shows m' d' k' ->
    Q tt (after r' m' d' o' (set_sregs (set_sreg GS g (x_sregs s)) s))) ->
  wp (put_each_num put_int_buffer) Q (after (Regs a cx dx b bp si e) m d o s).
Proof.
  intros Hr Heip Hbuf Hbytes Hp Hsh Hput HQ.
  destruct (regs_ok_inv _ _ _ _ _ _ _ Hr) as (Ha & Hcx & Hdx & Hb & Hbp & Hsi & He).
  pose proof Hbuf as [(Hb0 & Hmax & _) Hdis]. unfold put_each_num.
  apply wp_loop_measure with
    (Inv := fun _ s' => exists cx e txt g m' d' o' k, is_u32 cx /\ pending n e (lo8 cx) txt /\
      s' = after (Regs a cx dx b bp si e) m' d' o' (set_sregs (set_sreg GS g (x_sregs s)) s) /\
      kept_but 0 0 m m' /\ shows m' d' k /\ console_puts txt k = Some k')
    (meas := fun _ s' => 8 - edi (x_regs s')).
  - clear cx e txt k o d Hr Hcx He Hp Hsh Hput.
    intros [] s' (cx & e & txt & g & m' & d' & o' & k & Hcx & Hp & -> & Hk & Hsh & Hput). x_steps.
    rewrite (u32_small cx) by done.
    destruct (pending_step _ _ _ _ Hp) as (txt' & -> & Her & Hlast & Hnext). cbn [console_puts] in Hput.
    destruct (console_put (lo8 cx) k) as [k2|] eqn:Ec; [|done]. cbn in Hput.
    apply wp_bind. eapply wp_call_put_char; [ | done | reflexivity | done | exact Hsh | exact Ec |].
    { apply regs_ok_of; done || unfold is_u32; lia. }
    intros g2 m2 d2 o2 Hk2 Hsh2. apply wp_bind, wp_drop_stack; [cbn; lia|]. x_steps.
    rewrite !(u32_small (e + 1)), u32_small by (unfold is_u32; lia).
    assert (Hk02 : kept_but 0 0 m m2) by eauto using kept_but_trans.
    pose proof (buffer_ok_kept _ _ _ _ Hk02 Hbuf) as [(_ & _ & Hw2) _].
    destruct (ram_load m2 (put_int_buffer + (e + 1)) ltac:(apply Hw2; lia)) as (c & Hld & Hcb).
    apply wp_bind. eapply wp_load_byte; [exact Hld|]. x_steps.
    rewrite s32_small by lia. destruct (Z.ltb_spec (e + 1) 8).
    + apply wp_ret. split; [|cbn; lia]. destruct (Hnext ltac:(lia)) as (c' & Hc' & Hp').
      assert (c' = c) as ->.
      { assert (Hb2 : bytes_at m2 put_int_buffer (digits n)).
        { eapply bytes_at_kept; [exact Hk02 | exact Hbytes | |lia].
          rewrite length_digits. lia. }
        destruct (bytes_at_lookup _ _ _ _ _ Hb2 Hc') as (_ & _ & Hl2).
        replace (Z.of_nat (Z.to_nat (e + 1))) with (e + 1) in Hl2 by lia. congruence. }
      exists (with_lo8 cx c), (e + 1), txt', g2, m2, d2, o2, k2.
      split; [now apply with_lo8_u32|]. split; [now rewrite lo8_with_lo8, u8_small by done|].
      split; [now destruct s|]. done.
    + rewrite (Hlast ltac:(lia)) in Hput. cbn in Hput. simplify_eq. apply wp_ret.
      exact (HQ g2 _ m2 d2 o2 Hk02 Hsh2).
  - intros [] s' (? & e' & ? & ? & ? & ? & ? & ? & _ & Hp' & -> & _). cbn.
    destruct Hp' as [(-> & _)|(? & _)]; lia.
  - exists cx, e, txt, (gs (x_sregs s)), m, d, o, k. split; [done|]. split; [done|].
    split; [destruct s as [? []]; done|]. split; [now apply outside_kept_but, outside_kept_refl | done].
  - cbn. destruct Hp as [(-> & _)|(? & _)]; lia.
Qed.

Lemma put_int_spec s k k' eip arg l :
  regs_ok (x_regs s) -> is_u32 (x_eip s) -> x_stack s = eip :: arg :: l -> is_u32 arg ->
  shows (x_mem s) (x_dev s) k -> buffer_ok (x_mem s) -> console_puts (hex_text arg) k = Some k' ->
  wp (put_int put_int_buffer)
    (fun _ => printed put_int_buffer (put_int_buffer + 8) s eip (arg :: l) k') s.
Proof.
  intros Hr Heip Hs Harg Hsh Hbuf Hput. apply wp_after. unfold put_int. apply wp_bind, wp_pushad; [done|].
  set (s1 := set_stack _ _). destruct (x_regs s) as [a cx dx b bp si di] eqn:Er.
  destruct (regs_ok_inv _ _ _ _ _ _ _ Hr) as (Ha & Hcx & Hdx & Hb & Hbp & Hsi & Hdi).
  x_steps. set (bp1 := esp _). assert (Hbp1 : is_u32 bp1) by apply u32_range.
  rewrite !(u32_small bp1) by done.
  apply wp_bind. apply (wp_load_stack _ _ _ _ _ 9 arg); [subst s1; cbn; rewrite Hs; reflexivity | done | reflexivity |].
  x_steps. rewrite !(u32_small arg) by done. pose proof Hbuf as [(Hb0 & Hmax & _) _].
  rewrite (u32_small put_int_buffer) by (unfold is_u32; lia).
  apply wp_bind. eapply (based16_4bits_spec arg); [done | done | exact Hsh|].
  intros a1 cx1 dx1 m1 o1 Ha1 Hcx1 Hdx1 Hk1 Hsh1 Hbytes1. x_steps.
  change (u32 (2 ^ 32 - 1 + 1)) with 0.
  apply wp_bind. eapply skip_prefix_0_spec; [eauto using buffer_ok_kept | exact Hbytes1 | done|].
  intros cx2 e Hcx2 Hp.
  assert (He : is_u32 e) by (destruct Hp as [(-> & _)|(? & _)]; unfold is_u32; lia).
  apply wp_bind. eapply (put_each_num_spec arg);
    [ apply regs_ok_of; done || unfold is_u32; lia | done | eauto using buffer_ok_kept | exact Hbytes1
    | exact Hp | exact Hsh1 | exact Hput |].
  intros g r2 m2 d2 o2 Hk2 Hsh2. apply wp_bind.
  eapply (wp_popad _ (x_regs s)); [now rewrite Er | rewrite Er; reflexivity|].
  eapply wp_retn; [exact Hs|]. exists g, m2, d2, o2. split; [done|]. split; [|done].
  eapply kept_but_trans; [exact Hk1|]. destruct Hk2 as [R L]. split; [done|].
  intros x Hx Hn _. apply L; [done | done | lia].
Qed.

End put_int.

(** ** Calls from C *)

Section calls.
  Context {mem dev : Type} `{Video mem} `{Crtc dev}.
  Context (put_int_buffer : Z).
  Implicit Types s : x86 mem dev.
  Implicit Types m : mem.

(** The routines with their arguments, as gcc passes them. *)
Inductive print_call : Type :=
  | CallStr (a : Z)
  | CallInt (n : Z)
  | CallChar (c : Z).

Definition do_call (p : print_call) : M (x86 mem dev) unit :=
  match p with
  | CallStr a => call1 put_str a
  | CallInt n => call1 (put_int put_int_buffer) n
  | CallChar c => call1 put_char c
  end.

Fixpoint do_calls (l : list print_call) : M (x86 mem dev) unit :=
  match l with
  | [] => ret tt
  | p :: l => do_call p ;;; do_calls l
  end.

(** The event that Machine.v records for a call: a string is an address here. *)
Definition records m (p : print_call) (e : event) : Prop :=
  match p with
  | CallStr a => exists str, e = PutStr str /\ text_at m a (string_bytes str) /\
      (a + Z.of_nat (length (string_bytes str)) + 1 <= put_int_buffer \/ put_int_buffer + 8 <= a)
  | CallInt n => e = PutInt (u32 n)
  | CallChar c => e = PutChar (u8 c)
  end.

Definition machine_ok s : Prop := regs_ok (x_regs s) /\ is_u32 (x_eip s).

(** [s'] is [s] with another console, after code that keeps to the calling
    convention. *)
Definition only_printed s (k : console) (s' : x86 mem dev) : Prop :=
  printed put_int_buffer (put_int_buffer + 8) s (x_eip s) (x_stack s) k s'.

Lemma kept_but_weaken lo hi m m' : kept_but 0 0 m m' -> kept_but lo hi m m'.
Proof. intros [R L]. split; [done|]. intros x Hx Hn _. apply L; [done | done | lia]. Qed.

Lemma console_puts_app l1 l2 k :
  console_puts (l1 ++ l2) k = (k' ← console_puts l1 k; console_puts l2 k').
Proof.
  revert k. induction l1 as [|c l1 IH]; intros k; [done|]. cbn.
  destruct (console_put c k); [apply IH | done].
Qed.

Lemma lo8_u32 v : lo8 (u32 v) = u8 v.
Proof.
  unfold lo8, u32, u8. change (2 ^ 32) with (2 ^ 8 * 2 ^ 24).
  rewrite Z.rem_mul_r, Z.mul_comm, Z_mod_plus_full by lia. apply Zmod_mod.
Qed.

(** From a routine to its call *)
Lemma call1_spec f arg s lo hi k' :
  machine_ok s ->
  wp f (fun _ => printed lo hi (set_stack (x_eip s :: u32 arg :: x_stack s) s) (x_eip s)
         (u32 arg :: x_stack s) k') (set_stack (x_eip s :: u32 arg :: x_stack s) s) ->
  wp (call1 f arg) (fun _ => printed lo hi s (x_eip s) (x_stack s) k') s.
Proof.
  intros [Hr He] Hf. apply wp_after. unfold call1. x_steps. apply wp_bind, wp_call. cbn [x_eip set_stack].
  rewrite u32_small by done.
  change (after _ _ _ _ _) with (after (x_regs s) (x_mem s) (x_dev s) (x_outs s)
    (set_stack (x_eip s :: u32 arg :: x_stack s) s)).
  change (after _ _ _ _ _) with (set_stack (x_eip s :: u32 arg :: x_stack s) s).
  eapply wp_mono; [exact Hf|]. intros [] s' (g & m & d & o & -> & Hk & Hsh).
  exists g, m, d, o. done.
Qed.

Lemma do_call_spec p e s k k' :
  machine_ok s -> shows (x_mem s) (x_dev s) k -> buffer_ok put_int_buffer (x_mem s) ->
  records (x_mem s) p e -> console_puts (event_text e) k = Some k' ->
  wp (do_call p) (fun _ => only_printed s k') s.
Proof.
  intros Hs Hsh Hbuf He Hput. pose proof Hs as [Hr Heip]. unfold only_printed.
  destruct p as [a|n|c]; cbn [do_call records] in *.
  - destruct He as (str & -> & Ht & Hd). cbn [event_text] in Hput.
    assert (Ha : u32 a = a).
    { destruct Ht as ((? & Hl & _) & _). rewrite length_app in Hl. cbn in Hl. apply u32_small.
      unfold is_u32. lia. }
    eapply wp_mono; [apply (call1_spec _ _ _ 0 0 k'); [done|]|].
    + eapply put_str_spec; [done | done | reflexivity | exact Hsh | rewrite Ha; exact Ht | exact Hput].
    + intros [] s' (g & m & d & o & E & Hk & Hsh'). exists g, m, d, o. eauto using kept_but_weaken.
  - subst e. apply call1_spec; [done|].
    eapply put_int_spec; [done | done | reflexivity | apply u32_range | exact Hsh | done | exact Hput].
  - subst e. cbn in Hput. destruct (console_put (u8 c) k) as [k1|] eqn:Ec; [|done]. cbn in Hput. simplify_eq.
    eapply wp_mono; [apply (call1_spec _ _ _ 0 0 k'); [done|]|].
    + eapply put_char_spec; [done | reflexivity | apply u32_range | exact Hsh | now rewrite lo8_u32].
    + intros [] s' (g & m & d & o & E & Hk & Hsh'). exists g, m, d, o. eauto using kept_but_weaken.
Qed.

Lemma records_kept m m' p e :
  kept_but put_int_buffer (put_int_buffer + 8) m m' -> records m p e -> records m' p e.
Proof.
  intros Hk He. destruct p as [a| |]; [|done..]. destruct He as (str & -> & (Hb & Hz & Hd) & Hd').
  exists str. split; [done|]. split; [|done]. split; [|done].
  eapply bytes_at_kept; [exact Hk | exact Hb | |]; rewrite length_app; cbn; lia.
Qed.

Lemma do_calls_spec l t s k k' :
  machine_ok s -> shows (x_mem s) (x_dev s) k -> buffer_ok put_int_buffer (x_mem s) ->
  Forall2 (records (x_mem s)) l t -> render t k = Some k' ->
  wp (do_calls l) (fun _ => only_printed s k') s.
Proof.
  intros Hs Hsh Hbuf Hl. revert s k Hs Hsh Hbuf Hl. revert t.
  induction l as [|p l IH]; intros t s k Hs Hsh Hbuf Hl Hr; apply Forall2_cons_inv_l in Hl || apply Forall2_nil_inv_l in Hl.
  - subst t. unfold render in Hr. cbn in Hr. simplify_eq. apply wp_ret.
    exists (gs (x_sregs s)), (x_mem s), (x_dev s), (x_outs s).
    split; [destruct s as [? []]; done|]. split; [apply outside_kept_but, outside_kept_refl | done].
  - destruct Hl as (e & t' & He & Hl & ->). unfold render in Hr. cbn in Hr.
    rewrite console_puts_app in Hr. destruct (console_puts (event_text e) k) as [k1|] eqn:E1; [|done].
    cbn in Hr. cbn [do_calls]. apply wp_bind.
    eapply wp_mono; [eapply do_call_spec; [exact Hs | exact Hsh | exact Hbuf | exact He | exact E1]|].
    intros [] s1 (g & m & d & o & -> & Hk & Hsh1).
    eapply wp_mono; [eapply (IH t'); [exact Hs | exact Hsh1 | eauto using buffer_ok_kept | | exact Hr]|].
    + eapply Forall2_impl; [exact Hl|]. intros p' e'. now apply records_kept.
    + intros [] s2 (g2 & m2 & d2 & o2 & -> & Hk2 & Hsh2). exists g2, m2, d2, o2.
      split; [done|]. split; [|done]. cbn in Hk2. eauto using kept_but_trans.
Qed.

(** C2: a sequence of calls of [put_str], [put_int] and [put_char], with strings
    outside the video memory and the buffer, turns a screen that shows [k] into
    one that shows what [render] makes of the recorded output; every register
    but [gs], the stack and RAM elsewhere are as before. *)
Theorem calls_render l t s k k' :
  machine_ok s -> shows (x_mem s) (x_dev s) k -> buffer_ok put_int_buffer (x_mem s) ->
  Forall2 (records (x_mem s)) l t -> render t k = Some k' ->
  wp (do_calls l) (fun _ => only_printed s k') s.
Proof. apply do_calls_spec. Qed.

(** [put_char] writes a character at the cursor, or acts on CR, LF and BS, the
    way [console_put] says; a backspace at the first cell makes a store beyond
    the video segment, a general protection fault. *)
Theorem put_char_shows s k c :
  machine_ok s -> shows (x_mem s) (x_dev s) k ->
  match console_put (u8 c) k with
  | Some k' => wp (call1 put_char c) (fun _ => printed 0 0 s (x_eip s) (x_stack s) k') s
  | None => halts (call1 put_char c) (Fault 0xfffe) s
  end.
Proof.
  intros Hs Hsh. pose proof Hs as [Hr Heip]. destruct (console_put (u8 c) k) as [k'|] eqn:Ec.
  - apply call1_spec; [done|].
    eapply put_char_spec; [done | reflexivity | apply u32_range | exact Hsh | now rewrite lo8_u32].
  - unfold call1. apply halts_bind. apply wp_after, wp_push. apply halts_bind_first.
    unfold call. apply halts_bind. apply wp_bind, wp_gets, wp_push.
    eapply put_char_faults; [done | reflexivity | apply u32_range | exact Hsh | now rewrite lo8_u32].
Qed.

End calls.

(** ** An example *)

Definition string_writes (pa : Z) (str : string) : list (Z * Z) :=
  zip (seqZ pa (Z.of_nat (length (string_bytes str)) + 1)) (string_bytes str ++ [0]).

(** The machine after [setup_page], with a string at 0xc0020000 and a blank
    screen. *)
Definition ex_memory : paged :=
  setup_page (write_all ∅ (string_writes 0x20000 "int vector: 0x" ++
    zip (seqZ VIDEO_PHYS 4000) (mjoin (replicate 2000 [0x20; 0x07])))).

(** The even bytes of the blank screen are spaces, the odd ones their colour. *)
Lemma pairs_lookup {A} (a b : A) n i : (i < n)%nat ->
  mjoin (replicate n [a; b]) !! (2 * i)%nat = Some a /\ mjoin (replicate n [a; b]) !! S (2 * i) = Some b.
Proof.
  revert i. induction n as [|n IH]; intros [|i] Hi; [lia | lia | now split |].
  replace (2 * S i)%nat with (S (S (2 * i))) by lia. apply (IH i). lia.
Qed.

Lemma length_pairs {A} (a b : A) n : length (mjoin (replicate n [a; b])) = (2 * n)%nat.
Proof.
  induction n as [|n IH]; [done|].
  change (mjoin (replicate (S n) [a; b])) with ([a; b] ++ mjoin (replicate n [a; b])).
  rewrite length_app, IH. cbn [length]. lia.
Qed.

Lemma block_screen ram l j : 0 <= j < 4000 -> length l = 4000%nat ->
  pread8 (setup_page (write_all ram (zip (seqZ VIDEO_PHYS 4000) l))) (VIDEO_PHYS + j) = default 0 (l !! Z.to_nat j).
Proof.
  intros Hj Hl. rewrite pread8_setup_page by (unfold VIDEO_PHYS, LOW_MEM; lia).
  replace 4000 with (Z.of_nat (length l)) by lia. rewrite write_all_block, decide_True by lia.
  now replace (VIDEO_PHYS + j - VIDEO_PHYS) with j by lia.
Qed.

Lemma ex_screen i : 0 <= i < 2000 ->
  pread8 ex_memory (VIDEO_PHYS + 2 * i) = 0x20 /\ pread8 ex_memory (VIDEO_PHYS + (2 * i + 1)) = 0x07.
Proof.
  intros Hi. destruct (pairs_lookup 0x20 0x07 2000 (Z.to_nat i)) as [E0 E1]; [lia|].
  unfold ex_memory. rewrite write_all_app, !block_screen by (rewrite ?length_pairs; lia).
  replace (Z.to_nat (2 * i)) with (2 * Z.to_nat i)%nat by lia.
  replace (Z.to_nat (2 * i + 1)) with (S (2 * Z.to_nat i)) by lia. now rewrite E0, E1.
Qed.

Lemma ex_memory_byte a : a < LOW_MEM -> is_byte (pread8 ex_memory a).
Proof.
  intros Ha. unfold ex_memory. rewrite pread8_setup_page by done. apply write_all_bytes; [done|].
  apply Forall_app. split; [repeat constructor; done|]. apply zip_bytes, Forall_join, Forall_replicate.
  repeat constructor; done.
Qed.

(** The string alone; below the screen the memory has nothing else. *)
Definition ex_string : paged := Paged (write_all ∅ (string_writes 0x20000 "int vector: 0x")) 0.

Lemma ex_memory_below a : a < VIDEO_PHYS -> pread8 ex_string a = pread8 ex_memory a.
Proof.
  intros Ha. unfold ex_memory, VIDEO_PHYS in *. rewrite pread8_setup_page by (unfold LOW_MEM; lia).
  rewrite write_all_app. replace 4000 with (Z.of_nat (length (mjoin (replicate 2000 [0x20; 0x07])))).
  - rewrite write_all_block, decide_False by lia. done.
  - now rewrite length_pairs.
Qed.

Lemma ex_memory_holds a l :
  KERNEL_BASE <= a -> a + Z.of_nat (length l) <= KERNEL_BASE + VIDEO_PHYS ->
  paged_holds ex_string a l = true -> bytes_at ex_memory a l.
Proof.
  intros Ha Hl Hc. apply paged_bytes_at; [apply setup_page_boot_tables | exact Ha | unfold VIDEO_PHYS, LOW_MEM in *; lia|].
  apply (paged_holds_agree ex_string); [|exact Hc]. intros x Hx. apply ex_memory_below. lia.
Qed.

Definition ex_cpu : x86 paged vga_sim :=
  X86 (Regs 1 2 3 4 5 6 7) (SRegs 0x10 0x10 0x10 0x18) 0x8 0xc0001500 0x202 0xc009f000 [0xc0001503]
    ex_memory (VgaSim 0 0 0) [].

Lemma ex_boot_tables : boot_tables ex_memory.
Proof. apply setup_page_boot_tables. Qed.

Lemma ex_machine_ok : machine_ok ex_cpu.
Proof. split; [|now split]. intros []; now split. Qed.

Lemma ex_shows : shows (x_mem ex_cpu) (x_dev ex_cpu) cleared.
Proof.
  split; [split; [apply boot_low_maps, ex_boot_tables|]|].
  { intros j Hj. apply ex_memory_byte. unfold VIDEO_PHYS, VIDEO_SIZE, LOW_MEM in *. lia. }
  split; [exists 0; split; [reflexivity | split; now split]|]. split; [|done].
  change (cells cleared) with (replicate 2000 blank). apply replicate_as_Forall. unfold screen_of. split; [now rewrite length_fmap, length_seqZ|].
  apply Forall_fmap, Forall_forall. intros i Hi%elem_of_seqZ. destruct (ex_screen i) as [E0 E1]; [lia|].
  unfold compose, blank. f_equal; symmetry; [exact E0 | exact E1].
Qed.

Lemma ex_buffer_ok : buffer_ok 0xc0030000 (x_mem ex_cpu).
Proof.
  split; [|left; done]. apply (bytes_at_writable _ _ (replicate 10 0)).
  apply ex_memory_holds; [done | done | vm_compute; reflexivity].
Qed.

Lemma ex_records :
  records 0xc0030000 (x_mem ex_cpu) (CallStr 0xc0020000) (PutStr "int vector: 0x").
Proof.
  eexists. split; [reflexivity|]. split; [|left; done]. split; [|split; [|left; done]].
  - apply ex_memory_holds; [done | done | vm_compute; reflexivity].
  - repeat constructor; done.
Qed.

Definition ex_output : list event := [PutStr "int vector: 0x"; PutInt 14; PutChar 10].
Definition ex_console_after : console := default cleared (render ex_output cleared).

Lemma ex_rendered : render ex_output cleared = Some ex_console_after.
Proof. vm_compute. reflexivity. Qed.

Lemma calls_render_witness :
  wp (do_calls 0xc0030000 [CallStr 0xc0020000; CallInt 14; CallChar 10])
    (fun _ => only_printed 0xc0030000 ex_cpu ex_console_after) ex_cpu /\
  line_text ex_console_after 0 = "int vector: 0xE"%string.
Proof.
  split; [|vm_compute; reflexivity].
  apply (calls_render 0xc0030000 _ ex_output _ cleared);
    [exact ex_machine_ok | exact ex_shows | exact ex_buffer_ok | | exact ex_rendered].
  constructor; [exact ex_records|]. repeat constructor.
Defined.

Lemma put_char_shows_witness : halts (call1 put_char 8) (Fault 0xfffe) ex_cpu.
Proof. apply (put_char_shows ex_cpu cleared 8 ex_machine_ok ex_shows). Defined.
