(* ===== verification/Entry.v ===== *)
(** * Entry: kernel/kernel.S

    The interrupt entries: what the CPU pushes, what the macro [VECTOR] saves
    around the call of the C handler, and [intr_exit].  The frame on the stack
    is the [struct intr_stack] of thread/thread.h. *)

From stdpp Require Import base numbers list strings gmap.
From S2P Require Import Prelude Machine Interrupt Paging Kernel X86 Screen Print.
From Stdlib Require Import ZArith Lia.
Open Scope Z_scope.

(** ** thread/thread.h *)

Record intr_stack : Type := IntrStack {
  vec_no : Z;
  f_edi : Z; f_esi : Z; f_ebp : Z; f_esp_dummy : Z; f_ebx : Z; f_edx : Z; f_ecx : Z; f_eax : Z;
  f_gs : Z; f_fs : Z; f_es : Z; f_ds : Z;
  err_code : Z;
  f_eip : Z; f_cs : Z; f_eflags : Z;
  f_esp : Z; f_ss : Z;
}.

(** Its words, from the lowest address on; without a change of privilege the
    CPU does not push the last two. *)
Definition intr_stack_words (f : intr_stack) : list Z :=
  [vec_no f; f_edi f; f_esi f; f_ebp f; f_esp_dummy f; f_ebx f; f_edx f; f_ecx f; f_eax f;
   f_gs f; f_fs f; f_es f; f_ds f; err_code f; f_eip f; f_cs f; f_eflags f; f_esp f; f_ss f].

(** ** The code *)

Section code.
  Context {mem dev : Type} `{Memory mem} `{Ports dev}.
  Abbreviation X := (M (x86 mem dev)).

(** [idt_table] is the C array, [code] what a code address stands for. *)
Context (idt_table : list Z) (code : Z -> X unit).

(** The CPU takes an interrupt in the kernel: through an interrupt gate, with
    the interrupt flag cleared. *)
Definition interrupt (g : gate_desc) (error_code : option Z) : X unit :=
  (eflags <- gets x_eflags ;; push eflags) ;;;
  (cs <- gets x_cs ;; push cs) ;;;
  (eip <- gets x_eip ;; push eip) ;;;
  match error_code with
  | Some e => push e
  | None => ret tt
  end ;;;
  modify (fun s => set_control (selector g) (gate_offset g) (Z.ldiff (x_eflags s) EFLAGS_IF) s).

Definition iretd : X unit :=
  eip <- pop ;; cs <- pop ;; eflags <- pop ;;
  modify (fun s => set_control (u16 cs) eip eflags s).

(** The second argument of [VECTOR]: [ERROR_CODE] is [nop], [ZERO] is [push 0]. *)
Inductive vector_kind : Type := ERROR_CODE | ZERO.

Definition intr_exit : X unit :=
  drop_stack 1 ;;;
  popad ;;;
  pop_sreg GS ;;;
  pop_sreg FS ;;;
  pop_sreg ES ;;;
  pop_sreg DS ;;;
  drop_stack 1 ;;;
  iretd.

Definition save_context : X unit :=
  (ds <- rds DS ;; push ds) ;;;
  (es <- rds ES ;; push es) ;;;
  (fs <- rds FS ;; push fs) ;;;
  (gs <- rds GS ;; push gs) ;;;
  pushad.

Definition send_eoi : X unit :=
  wrl EAX 0x20 ;;;
  (al <- rdl EAX ;; out8 0xa0 al) ;;;
  (al <- rdl EAX ;; out8 0x20 al).

Definition VECTOR (vec : Z) (kind : vector_kind) : X unit :=
  match kind with
  | ZERO => push 0
  | ERROR_CODE => ret tt
  end ;;;
  save_context ;;;
  send_eoi ;;;
  push vec ;;;
  match idt_table !! Z.to_nat vec with
  | Some f => call (code f)
  | None => stop_with (Fault vec)
  end ;;;
  intr_exit.

End code.

(** The 33 uses of the macro *)
Definition vectors : list vector_kind := [
  ZERO; ZERO; ZERO; ZERO; ZERO; ZERO; ZERO; ZERO;
  ERROR_CODE; ZERO; ERROR_CODE; ERROR_CODE; ZERO; ERROR_CODE; ERROR_CODE; ZERO;
  ZERO; ERROR_CODE; ZERO; ZERO; ZERO; ZERO; ZERO; ZERO;
  ERROR_CODE; ZERO; ERROR_CODE; ERROR_CODE; ZERO; ERROR_CODE; ERROR_CODE; ZERO;
  ZERO].

(** The exceptions for which the CPU pushes an error code: #DF, #TS, #NP, #SS,
    #GP, #PF and #AC *)
Definition cpu_pushes_error (vec : Z) : bool :=
  bool_decide (vec ∈ [8; 10; 11; 12; 13; 14; 17]).

Definition kind_of (vec : Z) : vector_kind := default ZERO (vectors !! Z.to_nat vec).

(** The vectors whose entry agrees with the CPU *)
Definition entry_agrees (vec : Z) : bool :=
  match kind_of vec with
  | ERROR_CODE => cpu_pushes_error vec
  | ZERO => negb (cpu_pushes_error vec)
  end.

(** ** general_intr_handler of kernel/interrupt.c, compiled

    The function of Interrupt.v with its argument on the stack and its calls of
    the print routines; [message] is the address of its string. *)

Section handler.
  Context {mem dev : Type} `{Memory mem} `{Ports dev}.
  Context (put_int_buffer message : Z).

Definition general_intr_handler_code : M (x86 mem dev) unit :=
  esp <- gets esp ;; vec_nr <- load_stack (u32 (esp + 4)) ;;
  (if (u8 vec_nr =? 0x27) || (u8 vec_nr =? 0x2f) then ret tt
   else do_calls put_int_buffer [CallStr message; CallInt (u8 vec_nr); CallChar 10]) ;;;
  retn.

End handler.

(** ** Lemmas *)

Create Rewrite HintDb x86_state.

Section fields.
  Context {mem dev : Type}.
  Implicit Types s : x86 mem dev.

Lemma x_eflags_after r (m : mem) (d : dev) o s : x_eflags (after r m d o s) = x_eflags s.
Proof. done. Qed.
Lemma x_cs_after r (m : mem) (d : dev) o s : x_cs (after r m d o s) = x_cs s.
Proof. done. Qed.
Lemma x_eip_after r (m : mem) (d : dev) o s : x_eip (after r m d o s) = x_eip s.
Proof. done. Qed.
Lemma x_eflags_set_stack l s : x_eflags (set_stack l s) = x_eflags s.
Proof. done. Qed.
Lemma x_cs_set_stack l s : x_cs (set_stack l s) = x_cs s.
Proof. done. Qed.
Lemma x_eip_set_stack l s : x_eip (set_stack l s) = x_eip s.
Proof. done. Qed.
Lemma x_sregs_set_stack l s : x_sregs (set_stack l s) = x_sregs s.
Proof. done. Qed.
Lemma x_stack_set_stack l s : x_stack (set_stack l s) = l.
Proof. done. Qed.
Lemma set_stack_twice l l' s : set_stack l (set_stack l' s) = set_stack l s.
Proof. done. Qed.
Lemma set_control_after c e f r (m : mem) (d : dev) o s :
  set_control c e f (after r m d o s) = after r m d o (set_control c e f s).
Proof. done. Qed.
Lemma set_stack_set_control l c e f s : set_stack l (set_control c e f s) = set_control c e f (set_stack l s).
Proof. done. Qed.
Lemma x_eip_set_control c e f s : x_eip (set_control c e f s) = e.
Proof. done. Qed.
Lemma x_sregs_set_control c e f s : x_sregs (set_control c e f s) = x_sregs s.
Proof. done. Qed.
Lemma x_stack_set_control c e f s : x_stack (set_control c e f s) = x_stack s.
Proof. done. Qed.

End fields.

#[local] Hint Rewrite @x_eflags_after @x_cs_after @x_eip_after @x_eflags_set_stack @x_cs_set_stack
  @x_eip_set_stack @x_sregs_set_stack @x_stack_set_stack @set_stack_twice @set_control_after
  @set_stack_set_control @x_eip_set_control @x_sregs_set_control @x_stack_set_control : x86_state.

Local Ltac e_step := x_rule; autorewrite with x86_state.
Local Ltac e_steps := repeat e_step.

Section facts.
  Context {mem dev : Type} `{Memory mem} `{Ports dev}.
  Context (idt_table : list Z) (code : Z -> M (x86 mem dev) unit).
  Implicit Types s : x86 mem dev.

(** A state of the kernel, with registers of their widths *)
Definition at_rest s : Prop :=
  machine_ok s /\ (forall g, 0 <= sreg_of g (x_sregs s) < 2 ^ 16) /\
  0 <= x_cs s < 2 ^ 16 /\ is_u32 (x_eflags s).

(** A frame with the registers of [s] and these words of the CPU *)
Definition frame_of s (vec err eip cs fl dummy : Z) : intr_stack :=
  let r := x_regs s in let sr := x_sregs s in
  IntrStack vec (edi r) (esi r) (ebp r) dummy (ebx r) (edx r) (ecx r) (eax r)
    (gs sr) (fs sr) (es sr) (ds sr) err eip cs fl 0 0.

(** The handler is called with interrupts off, after both interrupt controllers
    were acknowledged; below its return address and the vector is the rest of
    the frame. *)
Definition called s (g : gate_desc) (fr : Z -> intr_stack) (rest : list Z) (s1 : x86 mem dev) : Prop :=
  exists r dummy, regs_ok r /\
    s1 = X86 r (x_sregs s) (selector g) (gate_offset g) (Z.ldiff (x_eflags s) EFLAGS_IF) (x_bottom s)
      (gate_offset g :: take 17 (intr_stack_words (fr dummy)) ++ rest)
      (x_mem s) (port_out 0x20 0x20 (port_out 0xa0 0x20 (x_dev s)))
      ((x_outs s ++ [(0xa0, 0x20)]) ++ [(0x20, 0x20)]).

(** A C function has returned: its argument's slot and all registers but esp
    may have changed. *)
Definition c_returns s1 (R : mem -> dev -> list (Z * Z) -> Prop) (s2 : x86 mem dev) : Prop :=
  exists r sr fl v m d o ret w l,
    x_stack s1 = ret :: w :: l /\
    s2 = X86 r sr (x_cs s1) ret fl (x_bottom s1) (v :: l) m d o /\ R m d o.

Lemma u32_of_u16 v : 0 <= v < 2 ^ 16 -> u32 v = v.
Proof. intros Hv. apply u32_small. unfold is_u32. lia. Qed.

Definition segments_ok s : Prop := forall g, 0 <= sreg_of g (x_sregs s) < 2 ^ 16.

(** [intr_exit] undoes what the CPU and the entry did. *)
Lemma intr_exit_spec s r sr cs0 eip0 fl0 vec err eip cs fl dummy rest v m d o
    (Q : unit -> x86 mem dev -> Prop) :
  regs_ok (x_regs s) -> segments_ok s ->
  Q tt (X86 (x_regs s) (x_sregs s) (u16 cs) eip fl (x_bottom s) rest m d o) ->
  wp intr_exit Q (X86 r sr cs0 eip0 fl0 (x_bottom s)
    (v :: drop 1 (take 17 (intr_stack_words (frame_of s vec err eip cs fl dummy))) ++ rest) m d o).
Proof.
  intros Hr Hsr HQ. match goal with |- wp _ _ ?st => change st with (after r m d o st) end.
  unfold intr_exit. apply wp_bind, wp_drop_stack; [cbn; lia|].
  apply wp_bind. eapply (wp_popad _ (x_regs s)); [done | reflexivity|].
  do 4 (apply wp_bind; eapply wp_pop_sreg; [reflexivity|]).
  apply wp_bind, wp_drop_stack; [cbn; lia|]. unfold iretd.
  do 3 (apply wp_bind; eapply wp_pop; [reflexivity|]). apply wp_modify. cbn.
  pose proof (Hsr DS) as Hds. pose proof (Hsr ES) as Hes. pose proof (Hsr FS) as Hfs. pose proof (Hsr GS) as Hgs.
  destruct s as [r0 [ds0 es0 fs0 gs0] cs1 eip1 fl1 bot st m0 d0 o0]. cbn in *.
  rewrite (u16_small gs0), (u16_small fs0), (u16_small es0), (u16_small ds0) by done. exact HQ.
Qed.

(** From the error code on: [VECTOR] calls the handler and returns through the
    frame, whatever words are in it. *)
Lemma entry_runs s g vec err eip cs fl rest f R :
  regs_ok (x_regs s) -> segments_ok s -> is_u32 vec -> is_u32 (gate_offset g) ->
  (forall s1, called s g (frame_of s vec err eip cs fl) rest s1 -> wp (code f) (fun _ => c_returns s1 R) s1) ->
  wp (save_context ;;; send_eoi ;;; push vec ;;; call (code f) ;;; intr_exit)
    (fun _ s' => exists m d o, R m d o /\
      s' = X86 (x_regs s) (x_sregs s) (u16 cs) eip fl (x_bottom s) rest m d o)
    (after (x_regs s) (x_mem s) (x_dev s) (x_outs s)
       (set_control (selector g) (gate_offset g) (Z.ldiff (x_eflags s) EFLAGS_IF)
          (set_stack (err :: eip :: cs :: fl :: rest) s))).
Proof.
  intros Hr Hsr Hvec Hg Hcode.
  pose proof (Hsr DS) as Hds. pose proof (Hsr ES) as Hes. pose proof (Hsr FS) as Hfs. pose proof (Hsr GS) as Hgs.
  cbn [sreg_of] in *. unfold save_context, send_eoi. e_steps. rewrite !u32_of_u16 by done.
  apply wp_pushad; [done|]. autorewrite with x86_state. set (dummy := esp _).
  e_steps. change (u8 32) with 32. rewrite (u32_small vec) by done.
  apply wp_bind, wp_call. autorewrite with x86_state. rewrite u32_small by done.
  eapply wp_mono; [apply Hcode; eexists _, dummy; split; [|reflexivity]|].
  - apply regs_ok_of; [apply with_lo8_u32, (Hr EAX) | apply (Hr ECX) | apply (Hr EDX) | apply (Hr EBX)
      | apply (Hr EBP) | apply (Hr ESI) | apply (Hr EDI)].
  - intros [] s2 (r & sr & fl2 & v & m & d & o & ret & w & l & Hl & -> & HR).
    change (gate_offset g :: vec :: (drop 1 (take 17 (intr_stack_words
      (frame_of s vec err eip cs fl dummy))) ++ rest) = ret :: w :: l) in Hl.
    injection Hl as <- <- <-.
    apply (intr_exit_spec s r sr _ _ fl2 vec err eip cs fl dummy rest v m d o); [done | done|].
    exists m, d, o. done.
Qed.

(** What the CPU pushed, with the zero of the entry, when the two agree *)
Definition frame_agrees (e : option Z) (kind : vector_kind) (err : Z) : Prop :=
  match e, kind with
  | Some e, ERROR_CODE => e = err /\ is_u32 err
  | None, ZERO => err = 0
  | _, _ => False
  end.

Lemma interrupt_run s g e err vec f R :
  at_rest s -> is_u32 vec -> is_u32 (gate_offset g) -> frame_agrees e (kind_of vec) err ->
  idt_table !! Z.to_nat vec = Some f ->
  (forall s1, called s g (frame_of s vec err (x_eip s) (x_cs s) (x_eflags s)) (x_stack s) s1 ->
    wp (code f) (fun _ => c_returns s1 R) s1) ->
  wp (interrupt g e ;;; VECTOR idt_table code vec (kind_of vec))
    (fun _ s' => exists m d o, R m d o /\
      s' = X86 (x_regs s) (x_sregs s) (x_cs s) (x_eip s) (x_eflags s) (x_bottom s) (x_stack s) m d o) s.
Proof.
  intros ([Hr Heip] & Hsr & Hcs & Hfl) Hvec Hg He Hf Hcode.
  pose proof (entry_runs s g vec err (x_eip s) (x_cs s) (x_eflags s) (x_stack s) f R Hr Hsr Hvec Hg Hcode) as Hrun.
  rewrite u16_small in Hrun by done. apply wp_after. unfold interrupt, VECTOR. rewrite Hf.
  destruct e as [e|], (kind_of vec); [destruct He as [-> Herr] | destruct He | destruct He | cbn in He; subst err];
    e_steps; apply wp_modify; autorewrite with x86_state; e_steps;
    rewrite (u32_small (x_eip s)), (u32_of_u16 (x_cs s)), (u32_small (x_eflags s)) by done.
  - rewrite (u32_small err) by done. exact Hrun.
  - exact Hrun.
Qed.

(** C6: an interrupt whose entry knows whether the CPU pushes an error code calls
    the handler of its vector with a [struct intr_stack] on the stack, and when
    that has returned the machine is where it was: every register, segment
    register and flag, the stack and the place of execution, whatever the
    handler did to them. *)
Theorem interrupt_restores s g e err vec f R :
  at_rest s -> is_u32 vec -> is_u32 (gate_offset g) -> frame_agrees e (kind_of vec) err ->
  idt_table !! Z.to_nat vec = Some f ->
  (forall s1, called s g (frame_of s vec err (x_eip s) (x_cs s) (x_eflags s)) (x_stack s) s1 ->
    wp (code f) (fun _ => c_returns s1 R) s1) ->
  wp (interrupt g e ;;; VECTOR idt_table code vec (kind_of vec))
    (fun _ s' => exists m d o, R m d o /\
      s' = X86 (x_regs s) (x_sregs s) (x_cs s) (x_eip s) (x_eflags s) (x_bottom s) (x_stack s) m d o) s.
Proof. apply interrupt_run. Qed.

(** The entry of the stack fault, vector 12, pushes a zero although the CPU
    has pushed an error code: [intr_exit] drops the zero and returns to the
    error code as an address, with the return address as code segment, and the
    saved flags stay on the stack. *)
Theorem stack_fault_returns_to_error_code s g err f R :
  at_rest s -> is_u32 (gate_offset g) -> is_u32 err -> idt_table !! Z.to_nat 12 = Some f ->
  (forall s1, called s g (frame_of s 12 0 err (x_eip s) (x_cs s)) (x_eflags s :: x_stack s) s1 ->
    wp (code f) (fun _ => c_returns s1 R) s1) ->
  cpu_pushes_error 12 = true /\
  wp (interrupt g (Some err) ;;; VECTOR idt_table code 12 (kind_of 12))
    (fun _ s' => x_eip s' = err /\ x_cs s' = u16 (x_eip s) /\ x_eflags s' = x_cs s /\
      x_stack s' = x_eflags s :: x_stack s) s.
Proof.
  intros ([Hr Heip] & Hsr & Hcs & Hfl) Hg Herr Hf Hcode. split; [done|].
  pose proof (entry_runs s g 12 0 err (x_eip s) (x_cs s) (x_eflags s :: x_stack s) f R Hr Hsr ltac:(done) Hg
    Hcode) as Hrun.
  apply wp_after. unfold interrupt, VECTOR. rewrite Hf. change (kind_of 12) with ZERO.
  e_steps. apply wp_modify. autorewrite with x86_state. e_steps.
  rewrite (u32_small (x_eip s)), (u32_of_u16 (x_cs s)), (u32_small (x_eflags s)), (u32_small err) by done.
  change (u32 0) with 0. eapply wp_mono; [exact Hrun|].
  intros [] s' (m & d & o & _ & ->). done.
Qed.

End facts.

(** ** An exception in the running kernel *)

Section exception.
  Context {mem dev : Type} `{Video mem} `{Crtc dev}.
  Context (put_int_buffer message : Z) (idt_table : list Z) (code : Z -> M (x86 mem dev) unit).
  Implicit Types s : x86 mem dev.

(** The output of [general_intr_handler], as Interrupt.v has it *)
Definition handler_output (vec : Z) : list event :=
  [PutStr "int vector: 0x"; PutInt vec; PutChar 10].

Lemma handler_code_spec s vec ret l k k' :
  machine_ok s -> x_stack s = ret :: vec :: l -> 0 <= vec < 33 ->
  shows (x_mem s) (x_dev s) k -> buffer_ok put_int_buffer (x_mem s) ->
  records put_int_buffer (x_mem s) (CallStr message) (PutStr "int vector: 0x") ->
  render (handler_output vec) k = Some k' ->
  wp (general_intr_handler_code put_int_buffer message) (fun _ => c_returns s (fun m d _ =>
    kept_but put_int_buffer (put_int_buffer + 8) (x_mem s) m /\ shows m d k')) s.
Proof.
  intros Hs Hst Hvec Hsh Hbuf Hmsg Hr. assert (Hu : u8 vec = vec) by (apply u8_small; unfold is_byte; lia).
  apply wp_after. unfold general_intr_handler_code. x_steps. apply wp_bind.
  eapply (wp_load_stack _ _ _ _ _ 1); [rewrite Hst; reflexivity | done | reflexivity |]. cbv beta.
  rewrite !Hu, (proj2 (Z.eqb_neq vec 0x27)), (proj2 (Z.eqb_neq vec 0x2f)) by lia. cbn [orb].
  rewrite after_id. apply wp_bind.
  eapply wp_mono; [eapply (do_calls_spec _ _ (handler_output vec)); [exact Hs | exact Hsh | exact Hbuf | | exact Hr]|].
  { constructor; [exact Hmsg|]. constructor; [cbn; now rewrite u32_small by (unfold is_u32; lia)|].
    constructor; [reflexivity | constructor]. }
  intros [] s' (g & m & d & o & -> & Hk & Hsh').
  match goal with |- wp _ _ ?st => change st with (after (x_regs s) m d o st) end.
  eapply wp_retn; [exact Hst|].
  exists (x_regs s), (set_sreg GS g (x_sregs s)), (x_eflags s), vec, m, d, o, ret, vec, l. done.
Qed.

(** C15: an exception or interrupt whose handler is [general_intr_handler] prints
    "int vector: 0x", the number of the vector in base 16 and a new line on the
    console, acknowledges both interrupt controllers and goes on where it was,
    with all registers and the stack as they were. *)
Theorem exception_prints s g e err vec f k k' :
  at_rest s -> 0 <= vec < 33 -> is_u32 (gate_offset g) -> frame_agrees e (kind_of vec) err ->
  idt_table !! Z.to_nat vec = Some f -> code f = general_intr_handler_code put_int_buffer message ->
  shows (x_mem s) (x_dev s) k -> buffer_ok put_int_buffer (x_mem s) ->
  records put_int_buffer (x_mem s) (CallStr message) (PutStr "int vector: 0x") ->
  render (handler_output vec) k = Some k' ->
  wp (interrupt g e ;;; VECTOR idt_table code vec (kind_of vec))
    (fun _ s' => exists m d o, s' = after (x_regs s) m d o s /\
      kept_but put_int_buffer (put_int_buffer + 8) (x_mem s) m /\ shows m d k') s.
Proof.
  intros Hs Hvec Hg He Hf Hcode (Hm & (i & Hd) & Hcells & Hc) Hbuf Hmsg Hr.
  eapply wp_mono; [eapply (interrupt_run _ _ _ _ _ err vec f (fun m d _ =>
    kept_but put_int_buffer (put_int_buffer + 8) (x_mem s) m /\ shows m d k'))|];
    [done | unfold is_u32; lia | done | done | done | |].
  - intros s1 (r & dummy & Hrok & ->). rewrite Hcode.
    match goal with |- wp _ _ ?st => eapply (handler_code_spec st vec _ _ k k') end;
      [split; [exact Hrok | exact Hg] | reflexivity | done | | done | exact Hmsg | exact Hr].
    split; [done|]. split; [|done]. exists i. cbn. do 2 (apply crtc_other; [done | done|]). exact Hd.
  - intros [] s' (m & d & o & [Hk Hsh] & ->). exists m, d, o. done.
Qed.

End exception.

(** ** Examples *)

Definition ex_gate : gate_desc := GateDesc 0x1600 0x8 0 0x8e 0xc000.
Definition ex_idt_table : list Z := replicate 33 0xc0001234.

(** A handler that changes a register and the interrupted code's [gs] *)
Definition ex_handler (f : Z) : M (x86 paged vga_sim) unit := wr EAX 0xdead ;;; wrs GS 0 ;;; retn.

Definition handler_changes_no_memory (m : paged) (d : vga_sim) (o : list (Z * Z)) : Prop := m = ex_memory.

Lemma ex_at_rest : at_rest ex_cpu.
Proof. split; [exact ex_machine_ok|]. split; [intros []; now split|]. split; now split. Qed.

Lemma ex_handler_returns g fr rest s1 :
  called ex_cpu g fr rest s1 -> wp (ex_handler 0xc0001234) (fun _ => c_returns s1 handler_changes_no_memory) s1.
Proof.
  intros (r & dummy & Hr & ->). cbn. do 10 eexists. split; [reflexivity|]. split; [reflexivity | done].
Qed.

Lemma interrupt_restores_witness :
  wp (interrupt ex_gate (Some 0x10) ;;; VECTOR ex_idt_table ex_handler 13 (kind_of 13))
    (fun _ s' => exists m d o, handler_changes_no_memory m d o /\
      s' = X86 (Regs 1 2 3 4 5 6 7) (SRegs 0x10 0x10 0x10 0x18) 0x8 0xc0001500 0x202 0xc009f000
        [0xc0001503] m d o) ex_cpu.
Proof.
  apply (interrupt_restores ex_idt_table ex_handler ex_cpu ex_gate (Some 0x10) 0x10 13 0xc0001234);
    [exact ex_at_rest | now split | now split | now split | reflexivity | apply ex_handler_returns].
Defined.

Lemma stack_fault_returns_to_error_code_witness :
  cpu_pushes_error 12 = true /\
  wp (interrupt ex_gate (Some 0x18) ;;; VECTOR ex_idt_table ex_handler 12 (kind_of 12))
    (fun _ s' => x_eip s' = 0x18 /\ x_cs s' = 0x1500 /\ x_eflags s' = 0x8 /\
      x_stack s' = [0x202; 0xc0001503]) ex_cpu.
Proof.
  apply (stack_fault_returns_to_error_code ex_idt_table ex_handler ex_cpu ex_gate 0x18 0xc0001234
    handler_changes_no_memory); [exact ex_at_rest | now split | now split | reflexivity | apply ex_handler_returns].
Defined.

Lemma exception_prints_witness :
  wp (interrupt ex_gate (Some 2) ;;;
      VECTOR ex_idt_table (fun _ => general_intr_handler_code 0xc0030000 0xc0020000) 14 (kind_of 14))
    (fun _ s' => exists m d o, s' = after (x_regs ex_cpu) m d o ex_cpu /\
      kept_but 0xc0030000 0xc0030008 ex_memory m /\ shows m d ex_console_after) ex_cpu.
Proof.
  apply (exception_prints 0xc0030000 0xc0020000 ex_idt_table _ ex_cpu ex_gate (Some 2) 2 14 0xc0001234 cleared);
    [exact ex_at_rest | done | now split | now split | reflexivity | reflexivity | exact ex_shows
    | exact ex_buffer_ok | exact ex_records | exact ex_rendered].
Defined.
