(* ===== verification/Boot.v ===== *)
(** * Boot: what the kernel shows

    The composition of the loader's probe with the boot sequence of Kernel.v,
    whose calls of the print routines are recorded in its trace, and with the
    console of Screen.v, which Print.v proves to be what lib/kernel/print.S makes
    of those calls. *)

From stdpp Require Import base numbers list strings gmap.
From S2P Require Import Prelude Machine FlatMemory Interrupt Paging PageAlloc PageMap Kernel X86 Loader Screen Print.
From Stdlib Require Import ZArith Lia.
Open Scope Z_scope.

(** ** Screens stay well-formed *)

Definition event_ok (e : event) : Prop :=
  match e with PutChar c => is_byte c | PutInt n => is_u32 n | _ => True end.

Lemma string_bytes_ok str : Forall is_byte (string_bytes str).
Proof.
  unfold string_bytes. apply Forall_fmap, Forall_true. intros c. cbn.
  pose proof (Ascii.nat_ascii_bounded c). unfold is_byte. lia.
Qed.

Lemma nibbles_range n : Forall (fun d => 0 <= d < 16) (nibbles n).
Proof. unfold nibbles. apply Forall_fmap, Forall_true. intros i. cbn. apply Z.mod_pos_bound. lia. Qed.

Lemma strip_zeros_range l : Forall (fun d => 0 <= d < 16) l -> Forall (fun d => 0 <= d < 16) (strip_zeros l).
Proof.
  induction 1 as [|d l Hd Hl IH]; cbn; [repeat constructor; lia|].
  case_match; [done | now constructor].
Qed.

(** The digits of a number are printable characters. *)
Lemma hex_text_range n : Forall (fun c => 48 <= c <= 70) (hex_text n).
Proof.
  unfold hex_text. apply Forall_fmap. eapply Forall_impl; [apply strip_zeros_range, nibbles_range|].
  intros d Hd. cbn in Hd |- *. unfold hex_char. destruct (Z.leb_spec d 9); lia.
Qed.

Lemma event_text_ok e : event_ok e -> Forall is_byte (event_text e).
Proof.
  destruct e; cbn; intros He; try constructor; try done; try apply string_bytes_ok.
  eapply Forall_impl; [apply hex_text_range|]. intros c Hc. cbn in Hc. unfold is_byte. lia.
Qed.

Lemma console_puts_ok l k k' :
  Forall is_byte l -> console_ok k -> console_puts l k = Some k' -> console_ok k'.
Proof.
  intros Hl. revert k. induction Hl as [|c l Hc Hl IH]; intros k Hk Hp; cbn in Hp; [now simplify_eq|].
  destruct (console_put c k) as [k1|] eqn:E; [|done]. cbn in Hp. eauto using console_put_ok.
Qed.

(** Only a backspace can fail. *)
Lemma console_puts_total l k : Forall (fun c => c <> 8) l -> is_Some (console_puts l k).
Proof.
  intros Hl. revert k. induction Hl as [|c l Hc Hl IH]; intros k; [by eexists|]. cbn.
  assert (is_Some (console_put c k)) as [k1 ->].
  { unfold console_put. rewrite (proj2 (Z.eqb_neq c 8)) by done. repeat case_match; by eexists. }
  apply IH.
Qed.

Lemma render_text_ok t : Forall event_ok t -> Forall is_byte (mjoin (event_text <$> t)).
Proof.
  intros Ht. apply Forall_join, Forall_fmap. eapply Forall_impl; [exact Ht | apply event_text_ok].
Qed.

(** Whatever is printed, the cursor stays on one of 2000 cells and each cell is
    two bytes. *)
Lemma render_ok t k k' :
  Forall event_ok t -> console_ok k -> render t k = Some k' -> console_ok k'.
Proof. intros Ht. apply console_puts_ok. now apply render_text_ok. Qed.

Lemma cleared_ok : console_ok cleared.
Proof.
  split; [done|]. split; [reflexivity|]. apply Forall_replicate. split; cbn; unfold is_byte; lia.
Qed.

Section well_typed.
  Context {mem dev : Type} `{Video mem} `{Crtc dev}.
  Implicit Types s : x86 mem dev.

(** What the print routines ask of the machine they run on *)
Definition printable (put_int_buffer : Z) s : Prop :=
  machine_ok s /\ buffer_ok put_int_buffer (x_mem s) /\
  exists k, shows (x_mem s) (x_dev s) k /\ console_ok k.

(** C16: calls of the print routines on a machine whose registers are in range,
    whose cursor is on the screen and whose video memory is mapped never fault
    and lead to such a machine, if they print no backspace. *)
Theorem calls_well_typed put_int_buffer l t s :
  printable put_int_buffer s -> Forall2 (records put_int_buffer (x_mem s)) l t ->
  Forall (fun c => c <> 8) (mjoin (event_text <$> t)) ->
  wp (do_calls put_int_buffer l) (fun _ => printable put_int_buffer) s.
Proof.
  intros (Hs & Hbuf & k & Hk & _) Hl Hn. destruct (console_puts_total _ k Hn) as [k' Hr].
  eapply wp_mono; [eapply do_calls_spec; [exact Hs | exact Hk | exact Hbuf | exact Hl | exact Hr]|].
  intros [] s' (g & m & d & o & -> & Hkept & Hsh). split; [exact Hs|].
  split; [eauto using buffer_ok_kept|]. exists k'. split; [exact Hsh | now apply (shows_ok m d)].
Qed.

End well_typed.

Lemma calls_well_typed_witness :
  wp (do_calls 0xc0030000 [CallStr 0xc0020000; CallInt 14; CallChar 10]) (fun _ => printable 0xc0030000) ex_cpu.
Proof.
  apply (calls_well_typed 0xc0030000 _ ex_output).
  - split; [exact ex_machine_ok|]. split; [exact ex_buffer_ok|]. exists cleared.
    split; [exact ex_shows | exact cleared_ok].
  - constructor; [exact ex_records|]. repeat constructor.
  - vm_compute. repeat constructor; done.
Defined.

(** ** The screen after booting *)

Definition boot_lines : list string :=
  ["I am kernel"; "init_all"; "idt_init start"; "   idt_desc_init done"; "   pic_init done";
   "idt_init done"; "timer_init start"; "timer_init done"; "mem_init start"; "   mem_pool_init start";
   "      kernel_pool_bitmap_start:C009A000"; "      kernel_pool_bitmap_end:C009A1E0";
   "       kernel_pool_phy_addr_start:200000"; "       kernel_pool_phy_addr_end:1100000";
   "      user_pool_bitmap_start:C009A1E0"; "      user_pool_bitmap_end:C009A3C0";
   "       user_pool_phy_addr_start:1100000"; "       user_pool_phy_addr_end:2000000";
   "     kernel_vaddr.vaddr_bitmap.start:C009A3C0"; "     kernel_vaddr.vaddr_bitmap.end:C009A5A0";
   "   mem_pool_init done"; "mem_init done"; ""; " get_kernel_pages start vaddr is C0100000"; ""]%string.

(** What a stopped kernel shows *)
Definition final_screen (r : outcome (kernel paged) Z) : option (Z * list string) :=
  match r with
  | Stop Hang s => k ← render (k_trace s) cleared; Some (cursor k, line_text k <$> seq 0 25)
  | _ => None
  end.

Lemma final_screen_inv r c l :
  final_screen r = Some (c, l) ->
  exists s k, r = Stop Hang s /\ render (k_trace s) cleared = Some k /\ cursor k = c /\
    line_text k <$> seq 0 25 = l.
Proof.
  destruct r as [|[] s]; try done.
  cbn. destruct (render (k_trace s) cleared) as [k|] eqn:E; [|done]. cbn. intros [= <- <-]. exists s, k. done.
Qed.

(** The kernel on the memory that the loader leaves *)
Definition enter_kernel (m : flat) : outcome (kernel paged) Z :=
  main 0xc0004000 0xc0001234 ex_table (blank_kernel (setup_page m)).

Definition loaded (r : outcome (x86 flat unit) unit) : option (Z * list string) :=
  match r with Ret _ s => final_screen (enter_kernel (x_mem s)) | _ => None end.

Lemma loaded_inv r c l :
  loaded r = Some (c, l) -> exists s, r = Ret tt s /\ final_screen (enter_kernel (x_mem s)) = Some (c, l).
Proof. unfold loaded. destruct r as [[] s|]; [|done]. intros E. exists s. split; [reflexivity | exact E]. Qed.

