(* ===== verification/Elf.v ===== *)
(** * Elf: loading the kernel's segments in boot/loader.S

    [kernel_init] and [mem_cpy]: the loader has read the kernel's ELF file to
    0x70000 and switched paging on, and copies the segments of the file to the
    addresses they are linked for.  The result is refined to a function on the
    bytes of physical memory that reads the program headers as the ELF format
    defines them. *)

From stdpp Require Import base numbers list strings gmap.
From S2P Require Import Prelude Machine FlatMemory Paging X86 Screen.
From Stdlib Require Import ZArith Lia.
Open Scope Z_scope.

(** ** The code *)

(** boot/include/boot.inc *)
Definition KERNEL_BIN_BASE_ADDR : Z := 0x70000.
Definition PT_NULL : Z := 0.

Section code.
  Context {mem dev : Type} `{Memory mem}.
  Abbreviation X := (M (x86 mem dev)).

(** [rep movsb], with the direction flag clear and flat [ds] and [es] *)
Definition rep_movsb : X unit :=
  loop 33 (fun _ : unit =>
    ecx <- rd ECX ;;
    if ecx =? 0 then ret (inr tt)
    else
      esi <- rd ESI ;; edi <- rd EDI ;;
      v <- load_byte esi ;; store_byte edi v ;;;
      wr ESI (esi + 1) ;;; wr EDI (edi + 1) ;;; wr ECX (ecx - 1) ;;;
      ret (inl tt)) tt.

Definition mem_cpy : X unit :=
  (ebp <- rd EBP ;; push ebp) ;;;
  (esp <- gets esp ;; wr EBP esp) ;;;
  (ecx <- rd ECX ;; push ecx) ;;;
  (ebp <- rd EBP ;; dst <- load_stack (u32 (ebp + 8)) ;; wr EDI dst) ;;;
  (ebp <- rd EBP ;; src <- load_stack (u32 (ebp + 12)) ;; wr ESI src) ;;;
  (ebp <- rd EBP ;; size <- load_stack (u32 (ebp + 16)) ;; wr ECX size) ;;;
  rep_movsb ;;;
  pop_reg ECX ;;;
  pop_reg EBP ;;;
  retn.

(** The arguments of [mem_cpy] from the program header at [ebx], and the call *)
Definition copy_segment : X unit :=
  (ebx <- rd EBX ;; p_filesz <- load_word (u32 (ebx + 16)) ;; push p_filesz) ;;;
  (ebx <- rd EBX ;; p_offset <- load_word (u32 (ebx + 4)) ;; wr EAX p_offset) ;;;
  upd EAX (fun eax => eax + KERNEL_BIN_BASE_ADDR) ;;;
  (eax <- rd EAX ;; push eax) ;;;
  (ebx <- rd EBX ;; p_vaddr <- load_word (u32 (ebx + 8)) ;; push p_vaddr) ;;;
  call mem_cpy ;;;
  drop_stack 3.

(** The body of the loop *)
Definition each_segment : X unit :=
  p_type <- (ebx <- rd EBX ;; load_byte (u32 (ebx + 0))) ;;
  (if p_type =? PT_NULL then ret tt else copy_segment) ;;;
  (edx <- rd EDX ;; upd EBX (fun ebx => ebx + edx)).

Definition kernel_init : X unit :=
  wr EAX 0 ;;;
  wr EBX 0 ;;;
  wr ECX 0 ;;;
  wr EDX 0 ;;;
  (v <- load_half (KERNEL_BIN_BASE_ADDR + 42) ;; wr16 EDX v) ;;;
  (v <- load_word (KERNEL_BIN_BASE_ADDR + 28) ;; wr EBX v) ;;;
  upd EBX (fun ebx => ebx + KERNEL_BIN_BASE_ADDR) ;;;
  (v <- load_half (KERNEL_BIN_BASE_ADDR + 44) ;; wr16 ECX v) ;;;
  loop_ecx each_segment ;;;
  retn.

End code.

(** ** The ELF file *)

(** Numbers in bytes [f] *)
Definition half_at (f : Z -> Z) (a : Z) : Z := f a + 2 ^ 8 * f (a + 1).
Definition long_at (f : Z -> Z) (a : Z) : Z := le32 (f a) (f (a + 1)) (f (a + 2)) (f (a + 3)).

Definition e_phoff (f : Z -> Z) : Z := long_at f 28.
Definition e_phentsize (f : Z -> Z) : Z := half_at f 42.
Definition e_phnum (f : Z -> Z) : Z := half_at f 44.

Record phdr : Type := Phdr { p_type : Z; p_offset : Z; p_vaddr : Z; p_filesz : Z }.

Definition phdr_at (f : Z -> Z) (a : Z) : phdr :=
  Phdr (long_at f a) (long_at f (a + 4)) (long_at f (a + 8)) (long_at f (a + 16)).

(** Where program header [i] is in the file *)
Definition phdr_pos (f : Z -> Z) (i : nat) : Z := e_phoff f + e_phentsize f * Z.of_nat i.

Definition phdrs (f : Z -> Z) : list phdr :=
  (fun i => phdr_at f (phdr_pos f i)) <$> seq 0 (Z.to_nat (e_phnum f)).

(** What loading a segment, and all segments in order, makes of the bytes [g]
    of physical memory, the kernel's addresses being mapped to the first
    megabyte *)
Definition load_segment (f : Z -> Z) (g : Z -> Z) (ph : phdr) : Z -> Z := fun a =>
  let dst := p_vaddr ph - KERNEL_BASE in
  if negb (p_type ph =? PT_NULL) && (dst <=? a) && (a <? dst + p_filesz ph)
  then f (p_offset ph + (a - dst)) else g a.

Definition load_segments (f : Z -> Z) (phs : list phdr) (g : Z -> Z) : Z -> Z :=
  foldl (load_segment f) g phs.

(** Address [a] of the kernel belongs to the segment. *)
Definition occupies (ph : phdr) (a : Z) : Prop :=
  p_type ph <> PT_NULL /\ p_vaddr ph <= a < p_vaddr ph + p_filesz ph.

(** What the loader needs of the file: 200 sectors were read; the headers and
    the segments are within them; a segment is linked for the kernel's window,
    behind the loader, whose four sectors end at 0x1100, and its stack, which
    grows down from 0x900, and clear of the file.
    Only the lowest byte of a type is looked at. *)
Definition IMAGE : Z := 200 * 512.

Record segment_ok (ph : phdr) : Prop := {
  so_type : p_type ph <> PT_NULL -> p_type ph mod 2 ^ 8 <> 0;
  so_file : p_offset ph + p_filesz ph <= IMAGE;
  so_low : KERNEL_BASE + 0x1100 <= p_vaddr ph;
  so_high : p_vaddr ph + p_filesz ph <= KERNEL_BASE + LOW_MEM;
  so_clear : p_vaddr ph + p_filesz ph <= KERNEL_BASE + KERNEL_BIN_BASE_ADDR \/
    KERNEL_BASE + KERNEL_BIN_BASE_ADDR + IMAGE <= p_vaddr ph;
}.

Record loadable (f : Z -> Z) : Prop := {
  lo_bytes : forall i, 0 <= i < IMAGE -> is_byte (f i);
  lo_some : 1 <= e_phnum f;
  lo_inside : forall i, Z.of_nat i < e_phnum f -> phdr_pos f i + 20 <= IMAGE;
  lo_segments : Forall (fun ph => p_type ph <> PT_NULL -> segment_ok ph) (phdrs f);
}.

(** ** The bytes of physical memory *)

(** The first megabyte of [m] is mapped twice and holds [g]. *)
Definition view (m : paged) (g : Z -> Z) : Prop :=
  low_maps m /\ forall a, 0 <= a < LOW_MEM -> pread8 m a = g a.

Lemma view_ext m g g' : (forall a, 0 <= a < LOW_MEM -> g a = g' a) -> view m g -> view m g'.
Proof. intros He [Hm Hv]. split; [done|]. intros a Ha. rewrite Hv by done. auto. Qed.

Lemma view_load8 m g a : view m g -> 0 <= a < LOW_MEM -> load8 m a = Some (g a).
Proof.
  intros [Hm Hv] Ha. cbn. unfold paged_load8. rewrite translate_identity by done. cbn. now rewrite Hv.
Qed.

Lemma view_load32 m g a : view m g -> 0 <= a -> a + 4 <= LOW_MEM -> load32 m a = Some (long_at g a).
Proof.
  intros Hv H0 H1. pose proof Hv as [Hm Hp]. cbn. unfold paged_load32.
  destruct (page_off a <=? 4092).
  - rewrite translate_identity by (done || lia). cbn. unfold pread32, long_at. now rewrite !Hp by lia.
  - change paged_load8 with (load8 (mem := paged)). now rewrite !(view_load8 m g) by (done || lia).
Qed.

(** The same through the kernel's addresses *)
Lemma window_load32 m g a :
  view m g -> 0 <= a -> a + 4 <= LOW_MEM -> load32 m (KERNEL_BASE + a) = Some (long_at g a).
Proof.
  intros [[Hm Hl] Hv] H0 H1. cbn. unfold paged_load32, LOW_MEM, KERNEL_BASE in *.
  assert (Ht : forall x, 0 <= x < 0x100000 -> translate m (0xc0000000 + x) = Some x).
  { intros x Hx. rewrite translate_low by (done || (unfold LOW_MEM, KERNEL_BASE; lia)).
    f_equal. unfold KERNEL_BASE. lia. }
  destruct (page_off (0xc0000000 + a) <=? 4092).
  - rewrite Ht by lia. cbn. unfold pread32, long_at. now rewrite !Hv by lia.
  - unfold paged_load8. rewrite <- !Z.add_assoc, !Ht by lia. cbn. unfold long_at. now rewrite !Hv by lia.
Qed.

Definition put (g : Z -> Z) (p b : Z) : Z -> Z := fun a => if a =? p then b else g a.

Lemma view_store8 m g p b :
  view m g -> 0 <= p < LOW_MEM ->
  exists m', store8 m (KERNEL_BASE + p) b = Some m' /\ view m' (put g p b) /\ keeps_tables m m'.
Proof.
  intros [Hm Hv] Hp. exists (pwrite8 m p b). cbn. unfold paged_store8.
  rewrite translate_low by (apply Hm || lia). cbn. replace (KERNEL_BASE + p - KERNEL_BASE) with p by lia.
  assert (Hk : keeps_tables m (pwrite8 m p b)).
  { split; [done|]. intros pa Hpa. rewrite pread8_pwrite8, decide_False; [done | lia]. }
  split; [done|]. split; [|done]. split; [eauto using low_maps_keeps|].
  intros a Ha. rewrite pread8_pwrite8. unfold put.
  destruct (Z.eqb_spec a p); case_decide; subst; try done. auto.
Qed.

(** [n] bytes copied from [src] to [p] *)
Definition copied (g : Z -> Z) (p src n : Z) : Z -> Z := fun a =>
  if (p <=? a) && (a <? p + n) then g (src + (a - p)) else g a.

Lemma copied_next g p src i a :
  0 <= i -> src + i < p \/ p + i < src \/ i = 0 ->
  put (copied g p src i) (p + i) (copied g p src i (src + i)) a = copied g p src (i + 1) a.
Proof.
  intros Hi Hd. unfold put, copied. destruct (Z.eqb_spec a (p + i)) as [->|Hne].
  - replace ((p <=? p + i) && (p + i <? p + (i + 1))) with true by lia.
    replace (p + i - p) with i by lia.
    destruct (Z.leb_spec p (src + i)), (Z.ltb_spec (src + i) (p + i)); try reflexivity. lia.
  - destruct (Z.leb_spec p a), (Z.ltb_spec a (p + i)), (Z.ltb_spec a (p + (i + 1))); try reflexivity; lia.
Qed.

(** ** Segments *)

Lemma load_segment_other f g ph a :
  ~ occupies ph a -> load_segment f g ph (a - KERNEL_BASE) = g (a - KERNEL_BASE).
Proof.
  unfold occupies, load_segment. intros Hno. destruct (Z.eqb_spec (p_type ph) PT_NULL) as [|Hne]; [done|].
  destruct (Z.leb_spec (p_vaddr ph - KERNEL_BASE) (a - KERNEL_BASE)),
    (Z.ltb_spec (a - KERNEL_BASE) (p_vaddr ph - KERNEL_BASE + p_filesz ph)); try done.
  destruct Hno. split; [done | lia].
Qed.

Lemma load_segment_here f g ph k :
  occupies ph (p_vaddr ph + k) ->
  load_segment f g ph (p_vaddr ph + k - KERNEL_BASE) = f (p_offset ph + k).
Proof.
  intros [Hne Hk]. unfold load_segment. rewrite (proj2 (Z.eqb_neq _ _) Hne).
  destruct (Z.leb_spec (p_vaddr ph - KERNEL_BASE) (p_vaddr ph + k - KERNEL_BASE)); [|lia].
  destruct (Z.ltb_spec (p_vaddr ph + k - KERNEL_BASE) (p_vaddr ph - KERNEL_BASE + p_filesz ph)); [|lia].
  cbn. f_equal. lia.
Qed.

(** A byte is that of the last segment it belongs to. *)
Lemma load_segments_here f phs g i ph k :
  phs !! i = Some ph -> occupies ph (p_vaddr ph + k) ->
  (forall j ph', (i < j)%nat -> phs !! j = Some ph' -> ~ occupies ph' (p_vaddr ph + k)) ->
  load_segments f phs g (p_vaddr ph + k - KERNEL_BASE) = f (p_offset ph + k).
Proof.
  intros Hi Hk Hlater. rewrite <- (take_drop_middle _ _ _ Hi). unfold load_segments.
  rewrite foldl_app. cbn [foldl]. rewrite <- (load_segment_here f (foldl (load_segment f) g (take i phs)) ph k Hk).
  generalize (load_segment f (foldl (load_segment f) g (take i phs)) ph) as g1.
  assert (Hrest : Forall (fun ph' => ~ occupies ph' (p_vaddr ph + k)) (drop (S i) phs)).
  { apply Forall_lookup. intros j ph' Hj. rewrite lookup_drop in Hj. eapply Hlater; [|exact Hj]. lia. }
  induction Hrest as [|ph' l Hno _ IH]; intros g1; [done|]. cbn [foldl]. rewrite IH. now apply load_segment_other.
Qed.

Section segments.
  Context (f g0 : Z -> Z).
  Hypothesis Hf : forall i, 0 <= i < IMAGE -> g0 (KERNEL_BIN_BASE_ADDR + i) = f i.
  Hypothesis Hl : loadable f.

(** The file stays as it is while segments are loaded. *)
Lemma image_intact l i :
  Forall (fun ph => p_type ph <> PT_NULL -> segment_ok ph) l -> 0 <= i < IMAGE ->
  load_segments f l g0 (KERNEL_BIN_BASE_ADDR + i) = f i.
Proof.
  intros Hok Hi. unfold load_segments. rewrite <- (Hf i Hi). generalize g0 as g.
  induction Hok as [|ph l Hph Hok IH]; intros g; [done|]. cbn [foldl]. rewrite IH.
  unfold load_segment. destruct (Z.eqb_spec (p_type ph) PT_NULL) as [|Hne]; [done|]. cbn [negb andb].
  destruct (Hph Hne) as [_ _ _ _ Hc]. unfold KERNEL_BASE in *.
  destruct (Z.leb_spec (p_vaddr ph - 0xc0000000) (KERNEL_BIN_BASE_ADDR + i)),
    (Z.ltb_spec (KERNEL_BIN_BASE_ADDR + i) (p_vaddr ph - 0xc0000000 + p_filesz ph)); try done; lia.
Qed.

Lemma byte_in i : 0 <= i < IMAGE -> is_byte (f i).
Proof. exact (lo_bytes f Hl i). Qed.

Lemma long_in i : 0 <= i -> i + 4 <= IMAGE -> is_u32 (long_at f i) /\ long_at f i mod 2 ^ 8 = f i.
Proof.
  intros H0 H1. pose proof (byte_in i ltac:(lia)). pose proof (byte_in (i + 1) ltac:(lia)).
  pose proof (byte_in (i + 2) ltac:(lia)). pose proof (byte_in (i + 3) ltac:(lia)).
  unfold long_at, le32, is_byte, is_u32 in *. split; [lia|].
  symmetry. apply Z.mod_unique with (f (i + 1) + 2 ^ 8 * f (i + 2) + 2 ^ 16 * f (i + 3)); lia.
Qed.

Lemma half_in i : 0 <= i -> i + 2 <= IMAGE -> 0 <= half_at f i < 2 ^ 16.
Proof.
  intros H0 H1. pose proof (byte_in i ltac:(lia)). pose proof (byte_in (i + 1) ltac:(lia)).
  unfold half_at, is_byte in *. lia.
Qed.

Lemma phdrs_lookup i ph : phdrs f !! i = Some ph -> ph = phdr_at f (phdr_pos f i) /\ Z.of_nat i < e_phnum f.
Proof.
  unfold phdrs. rewrite list_lookup_fmap. intros (j & Hj & ->)%fmap_Some.
  apply lookup_seq in Hj as [-> Hj]. split; [done | lia].
Qed.

Lemma length_phdrs : Z.of_nat (length (phdrs f)) = e_phnum f.
Proof.
  unfold phdrs. rewrite length_fmap, length_seq. pose proof (half_in 44). unfold e_phnum, IMAGE in *. lia.
Qed.

Lemma phdr_pos_range i : Z.of_nat i < e_phnum f ->
  0 <= phdr_pos f i /\ phdr_pos f i + 20 <= IMAGE /\ 0 <= e_phentsize f < 2 ^ 16.
Proof.
  intros Hi. pose proof (lo_inside f Hl i Hi). pose proof (half_in 42). pose proof (long_in 28) as [Hu _].
  - lia.
  - unfold IMAGE. lia.
  - unfold phdr_pos, e_phentsize, e_phoff, is_u32, IMAGE in *. nia.
Qed.

(** The numbers of the file, read from memory *)
Lemma long_loaded l i :
  Forall (fun ph => p_type ph <> PT_NULL -> segment_ok ph) l -> 0 <= i -> i + 4 <= IMAGE ->
  long_at (load_segments f l g0) (KERNEL_BIN_BASE_ADDR + i) = long_at f i.
Proof.
  intros Hok H0 H1. unfold long_at. rewrite <- !Z.add_assoc. now rewrite !image_intact by (done || lia).
Qed.

(** The program header behind the first [i] segments, read from memory *)
Lemma header_loaded i ph :
  phdrs f !! i = Some ph ->
  let g := load_segments f (take i (phdrs f)) g0 in
  let a := KERNEL_BIN_BASE_ADDR + phdr_pos f i in
  g a = p_type ph mod 2 ^ 8 /\ long_at g (a + 4) = p_offset ph /\ long_at g (a + 8) = p_vaddr ph /\
  long_at g (a + 16) = p_filesz ph /\ 0 <= p_offset ph /\ is_u32 (p_filesz ph) /\
  (g a = PT_NULL <-> p_type ph = PT_NULL).
Proof.
  intros Hph g a. destruct (phdrs_lookup i ph Hph) as [Eph Hi]. destruct (phdr_pos_range i Hi) as (Hp0 & Hp1 & _).
  assert (Hok : Forall (fun ph => p_type ph <> PT_NULL -> segment_ok ph) (take i (phdrs f)))
    by apply Forall_take, (lo_segments f Hl).
  pose proof (Forall_lookup_1 _ _ _ _ (lo_segments f Hl) Hph) as Hsok. cbv beta in Hsok.
  unfold a, g. rewrite <- !Z.add_assoc, !long_loaded, image_intact by (done || lia).
  destruct (long_in (phdr_pos f i)) as [_ Ht]; [lia.. |].
  destruct (long_in (phdr_pos f i + 4)) as [Ho _]; [lia.. |].
  destruct (long_in (phdr_pos f i + 16)) as [Hn _]; [lia.. |].
  rewrite <- Ht. unfold is_u32 in Ho. rewrite Eph in Hsok |- *. unfold phdr_at in *. cbn in *.
  split_and!; try (done || lia). split.
  - intros Hz. destruct (decide (long_at f (phdr_pos f i) = PT_NULL)) as [|Hne]; [done|].
    now destruct (so_type _ (Hsok Hne) Hne).
  - now intros ->.
Qed.

Lemma load_segments_next i ph :
  phdrs f !! i = Some ph ->
  load_segments f (take (S i) (phdrs f)) g0 = load_segment f (load_segments f (take i (phdrs f)) g0) ph.
Proof. intros Hph. unfold load_segments. now rewrite (take_S_r _ _ _ Hph), foldl_app. Qed.

(** Copying a segment is loading it. *)
Lemma copied_segment l ph a :
  Forall (fun ph => p_type ph <> PT_NULL -> segment_ok ph) l -> p_type ph <> PT_NULL ->
  0 <= p_offset ph -> p_offset ph + p_filesz ph <= IMAGE ->
  copied (load_segments f l g0) (p_vaddr ph - KERNEL_BASE) (KERNEL_BIN_BASE_ADDR + p_offset ph) (p_filesz ph) a
  = load_segment f (load_segments f l g0) ph a.
Proof.
  intros Hok Hne H0 H1. unfold copied, load_segment. rewrite (proj2 (Z.eqb_neq _ _) Hne). cbn [negb andb].
  destruct (Z.leb_spec (p_vaddr ph - KERNEL_BASE) a),
    (Z.ltb_spec a (p_vaddr ph - KERNEL_BASE + p_filesz ph)); cbn [andb]; try done.
  rewrite <- Z.add_assoc. apply image_intact; [done | lia].
Qed.

End segments.

Section copying.
  Context {dev : Type}.
  Implicit Types s : x86 paged dev.
  Implicit Types m : paged.
  Implicit Types d : dev.

Section rules.
  Context (r : regs) (m : paged) (d : dev) (o : list (Z * Z)) (s : x86 paged dev).

Lemma wp_load_byte_view g a (Q : Z -> x86 paged dev -> Prop) :
  view m g -> 0 <= a < LOW_MEM -> Q (g a) (after r m d o s) -> wp (load_byte a) Q (after r m d o s).
Proof. intros Hv Ha HQ. unfold wp, load_byte. cbn [x_mem after]. now rewrite (view_load8 m g). Qed.

Lemma wp_load_word_view g a (Q : Z -> x86 paged dev -> Prop) :
  view m g -> 0 <= a -> a + 4 <= LOW_MEM -> Q (long_at g a) (after r m d o s) ->
  wp (load_word a) Q (after r m d o s).
Proof. intros Hv H0 H1 HQ. unfold wp, load_word. cbn [x_mem after]. now rewrite (view_load32 m g). Qed.

Lemma wp_load_half_view g a (Q : Z -> x86 paged dev -> Prop) :
  view m g -> 0 <= a -> a + 2 <= LOW_MEM -> Q (half_at g a) (after r m d o s) ->
  wp (load_half a) Q (after r m d o s).
Proof.
  intros Hv H0 H1 HQ. unfold load_half. apply wp_bind, (wp_load_byte_view g); [done | lia|].
  unfold LOW_MEM in *. apply wp_bind. rewrite u32_small by (unfold is_u32; lia).
  apply (wp_load_byte_view g); [done | unfold LOW_MEM; lia|]. apply wp_ret. exact HQ.
Qed.

Lemma wp_store_byte_view g p b (Q : unit -> x86 paged dev -> Prop) :
  view m g -> 0 <= p < LOW_MEM -> is_byte b ->
  (forall m', view m' (put g p b) -> keeps_tables m m' -> Q tt (after r m' d o s)) ->
  wp (store_byte (KERNEL_BASE + p) b) Q (after r m d o s).
Proof.
  intros Hv Hp Hb HQ. destruct (view_store8 m g p b Hv Hp) as (m' & E & Hv' & Hk).
  unfold wp, store_byte. cbn [x_mem after]. rewrite (u8_small b Hb), E. now apply HQ.
Qed.

End rules.

(** [rep movsb] copies bytes from the file to the kernel's window. *)
Lemma movsb_run a n dx bx bp src p m d o s g (Q : unit -> x86 paged dev -> Prop) :
  view m g -> 0 <= n -> 0 <= src -> src + n <= LOW_MEM -> 0 <= p -> p + n <= LOW_MEM ->
  src + n <= p \/ p + n <= src -> (forall i, 0 <= i < n -> is_byte (g (src + i))) ->
  (forall si di m', view m' (copied g p src n) -> keeps_tables m m' ->
    Q tt (after (Regs a 0 dx bx bp si di) m' d o s)) ->
  wp rep_movsb Q (after (Regs a n dx bx bp src (KERNEL_BASE + p)) m d o s).
Proof.
  intros Hv Hn Hs0 Hs1 Hp0 Hp1 Hd Hb HQ. unfold rep_movsb, LOW_MEM, KERNEL_BASE in *.
  apply (wp_loop_measure _ (fun _ s1 => exists i m', 0 <= i <= n /\
    s1 = after (Regs a (n - i) dx bx bp (src + i) (0xc0000000 + (p + i))) m' d o s /\
    view m' (copied g p src i) /\ keeps_tables m m') _ (fun _ s1 => ecx (x_regs s1))).
  - intros [] s1 (i & m' & Hi & -> & Hv' & Hk). x_steps. destruct (Z.eqb_spec (n - i) 0) as [Hz|Hz].
    + apply wp_ret. replace (n - i) with 0 by lia. replace i with n in * by lia. now apply HQ.
    + x_steps. apply wp_bind, (wp_load_byte_view _ _ _ _ _ (copied g p src i)); [done | unfold LOW_MEM; lia|].
      assert (Hg : copied g p src i (src + i) = g (src + i)).
      { unfold copied. destruct (Z.leb_spec p (src + i)), (Z.ltb_spec (src + i) (p + i)); try reflexivity. lia. }
      apply wp_bind, (wp_store_byte_view _ _ _ _ _ (copied g p src i));
        [done | unfold LOW_MEM; lia | rewrite Hg; apply Hb; lia|].
      intros m2 Hv2 Hk2. x_steps. rewrite !u32_small by (unfold is_u32; lia). apply wp_ret.
      split; [|cbn; lia]. exists (i + 1), m2. split; [lia|]. split; [do 2 f_equal; lia|].
      split; [|eauto using keeps_tables_trans].
      eapply view_ext; [|exact Hv2]. intros x _. apply copied_next; lia.
  - intros [] s1 (i & m' & Hi & -> & _). cbn. lia.
  - exists 0, m. split; [lia|]. rewrite Z.sub_0_r, !Z.add_0_r. split; [done|]. split; [|apply keeps_tables_refl].
    eapply view_ext; [|exact Hv]. intros x _. unfold copied.
    destruct (Z.leb_spec p x), (Z.ltb_spec x (p + 0)); try reflexivity. lia.
  - cbn. lia.
Qed.

(** The frame of [mem_cpy]: its arguments are three words below its top. *)
Lemma frame_address s top1 top2 rest (k : nat) :
  x_stack s = top1 :: top2 :: rest -> 1 <= Z.of_nat k ->
  u32 (u32 (esp (set_stack (top2 :: rest) s)) + 4 * (Z.of_nat k - 1)) = u32 (esp s + 4 * Z.of_nat k).
Proof.
  intros Hs Hk. unfold esp, u32. cbn [x_bottom x_stack set_stack]. rewrite Hs. cbn [length].
  rewrite Zmod_mod, !Zplus_mod_idemp_l. f_equal. lia.
Qed.

Lemma mem_cpy_run a n cx dx bx bp si di src p m d o s g eip l (Q : unit -> x86 paged dev -> Prop) :
  x_stack s = eip :: KERNEL_BASE + p :: src :: n :: l -> is_u32 cx -> is_u32 bp ->
  view m g -> is_u32 n -> 0 <= src -> src + n <= LOW_MEM -> 0 <= p -> p + n <= LOW_MEM ->
  src + n <= p \/ p + n <= src -> (forall i, 0 <= i < n -> is_byte (g (src + i))) ->
  (forall si' di' m', view m' (copied g p src n) -> keeps_tables m m' ->
    Q tt (after (Regs a cx dx bx bp si' di') m' d o
      (set_control (x_cs s) eip (x_eflags s) (set_stack (KERNEL_BASE + p :: src :: n :: l) s)))) ->
  wp mem_cpy Q (after (Regs a cx dx bx bp si di) m d o s).
Proof.
  intros Hst Hcx Hbp Hv Hn Hs0 Hs1 Hp0 Hp1 Hd Hb HQ. pose proof Hn as Hn'. unfold is_u32, LOW_MEM in *.
  unfold mem_cpy. x_steps.
  set (s2 := set_stack (u32 cx :: u32 bp :: x_stack s) s).
  match goal with |- context [u32 (esp ?t)] => change (esp t) with (esp (set_stack (u32 bp :: x_stack s) s)) end.
  match goal with |- context [set_stack (u32 cx :: ?l1) ?t] => change (set_stack (u32 cx :: l1) t) with s2 end.
  set (frame := u32 (esp (set_stack (u32 bp :: x_stack s) s))).
  assert (Hf : forall k : nat, 1 <= Z.of_nat k -> u32 (frame + 4 * (Z.of_nat k - 1)) = u32 (esp s2 + 4 * Z.of_nat k)).
  { intros k Hk. exact (frame_address s2 _ _ _ k eq_refl Hk). }
  assert (Hs2 : x_stack s2 = u32 cx :: u32 bp :: eip :: KERNEL_BASE + p :: src :: n :: l)
    by (unfold s2; cbn; now rewrite Hst).
  apply wp_bind, (wp_load_stack _ _ _ _ _ 3 (KERNEL_BASE + p));
    [now rewrite Hs2 | done | exact (Hf 3%nat ltac:(lia)) |]. x_steps.
  apply wp_bind, (wp_load_stack _ _ _ _ _ 4 src);
    [now rewrite Hs2 | done | exact (Hf 4%nat ltac:(lia)) |]. x_steps.
  apply wp_bind, (wp_load_stack _ _ _ _ _ 5 n);
    [now rewrite Hs2 | done | exact (Hf 5%nat ltac:(lia)) |]. x_steps.
  rewrite (u32_small n Hn), (u32_small src), (u32_small (KERNEL_BASE + p))
    by (unfold is_u32, KERNEL_BASE; lia).
  apply wp_bind, (movsb_run _ _ _ _ _ _ p _ _ _ _ g); try (assumption || (unfold LOW_MEM; lia)).
  intros si' di' m' Hv' Hk'.
  apply wp_bind. eapply wp_pop_reg; [exact Hs2|]. apply wp_bind.
  eapply wp_pop_reg; [reflexivity|]. eapply wp_retn; [reflexivity|].
  cbn [set_reg eax ecx edx ebx ebp esi edi]. rewrite !(u32_small (u32 _)) by apply u32_range.
  rewrite (u32_small cx Hcx), (u32_small bp Hbp). exact (HQ si' di' m' Hv' Hk').
Qed.

Lemma copy_segment_run pos off n p a cx dx bp si di m d o s g (Q : unit -> x86 paged dev -> Prop) :
  view m g -> is_u32 cx -> is_u32 bp -> is_u32 (x_eip s) ->
  0 <= pos -> pos + 20 <= LOW_MEM -> is_u32 n -> 0 <= off -> off + n <= IMAGE -> 0 <= p -> p + n <= LOW_MEM ->
  long_at g (pos + 16) = n -> long_at g (pos + 4) = off -> long_at g (pos + 8) = KERNEL_BASE + p ->
  KERNEL_BIN_BASE_ADDR + off + n <= p \/ p + n <= KERNEL_BIN_BASE_ADDR + off ->
  (forall i, 0 <= i < n -> is_byte (g (KERNEL_BIN_BASE_ADDR + off + i))) ->
  (forall a' si' di' m', view m' (copied g p (KERNEL_BIN_BASE_ADDR + off) n) -> keeps_tables m m' ->
    Q tt (after (Regs a' cx dx pos bp si' di') m' d o s)) ->
  wp copy_segment Q (after (Regs a cx dx pos bp si di) m d o s).
Proof.
  intros Hv Hcx Hbp Hip Hpos0 Hpos1 Hn Ho0 Ho1 Hp0 Hp1 En Eo Ep Hd Hb HQ. pose proof Hn as Hn'.
  unfold is_u32, LOW_MEM, IMAGE, KERNEL_BIN_BASE_ADDR, KERNEL_BASE in *.
  unfold copy_segment, KERNEL_BIN_BASE_ADDR. x_steps. rewrite (u32_small (pos + 16)) by (unfold is_u32; lia).
  apply wp_bind, (wp_load_word_view _ _ _ _ _ g); [done | lia | unfold LOW_MEM; lia|]. rewrite En. x_steps.
  rewrite (u32_small (pos + 4)) by (unfold is_u32; lia).
  apply wp_bind, (wp_load_word_view _ _ _ _ _ g); [done | lia | unfold LOW_MEM; lia|]. rewrite Eo. x_steps.
  rewrite (u32_small (pos + 8)) by (unfold is_u32; lia).
  apply wp_bind, (wp_load_word_view _ _ _ _ _ g); [done | lia | unfold LOW_MEM; lia|]. rewrite Ep. x_steps.
  rewrite !(u32_small n), !(u32_small off), !(u32_small (off + _)), !(u32_small (0xc0000000 + p))
    by (unfold is_u32; lia).
  rewrite !(Z.add_comm 0x70000 off) in *. apply wp_bind, wp_call. rewrite (u32_small (x_eip _)) by done.
  apply (mem_cpy_run _ n _ _ _ _ _ _ (off + 0x70000) p _ _ _ _ g (x_eip s) (x_stack s));
    try (assumption || reflexivity || (unfold LOW_MEM; lia)).
  intros si' di' m' Hv' Hk'. apply wp_drop_stack; [cbn; lia|].
  specialize (HQ (off + 0x70000) si' di' m' Hv' Hk'). destruct s. exact HQ.
Qed.

(** One round of the loop *)
Lemma each_segment_run f g0 i ph a cx bp si di m d o s (Q : unit -> x86 paged dev -> Prop) :
  (forall i, 0 <= i < IMAGE -> g0 (KERNEL_BIN_BASE_ADDR + i) = f i) -> loadable f ->
  phdrs f !! i = Some ph -> view m (load_segments f (take i (phdrs f)) g0) ->
  is_u32 cx -> is_u32 bp -> is_u32 (x_eip s) ->
  (forall a' si' di' m', view m' (load_segments f (take (S i) (phdrs f)) g0) -> keeps_tables m m' ->
    Q tt (after (Regs a' cx (e_phentsize f) (KERNEL_BIN_BASE_ADDR + phdr_pos f (S i)) bp si' di') m' d o s)) ->
  wp each_segment Q
    (after (Regs a cx (e_phentsize f) (KERNEL_BIN_BASE_ADDR + phdr_pos f i) bp si di) m d o s).
Proof.
  intros Hf Hl Hph Hv Hcx Hbp Hip HQ. rewrite (load_segments_next f g0 i ph Hph) in HQ.
  destruct (header_loaded f g0 Hf Hl i ph Hph) as (_ & Eo & Ep & En & Ho & Hn & Hnull).
  destruct (phdrs_lookup f i ph Hph) as [_ Hi]. destruct (phdr_pos_range f Hl i Hi) as (Hp0 & Hp1 & He).
  assert (Hok : Forall (fun ph => p_type ph <> PT_NULL -> segment_ok ph) (take i (phdrs f)))
    by apply Forall_take, (lo_segments f Hl).
  pose proof (Forall_lookup_1 _ _ _ _ (lo_segments f Hl) Hph) as Hsok. cbv beta in Hsok.
  assert (Hnext : phdr_pos f (S i) = phdr_pos f i + e_phentsize f) by (unfold phdr_pos; lia).
  set (g := load_segments f (take i (phdrs f)) g0) in *. set (pos := phdr_pos f i) in *.
  pose proof Hn as Hn'. unfold is_u32, IMAGE in Hn', Hp1.
  assert (Htail : forall a1 si1 di1 m1, view m1 (load_segment f g ph) -> keeps_tables m m1 ->
    wp (edx <- rd EDX ;; upd EBX (fun ebx => ebx + edx)) Q
      (after (Regs a1 cx (e_phentsize f) (KERNEL_BIN_BASE_ADDR + pos) bp si1 di1) m1 d o s)).
  { intros a1 si1 di1 m1 Hv1 Hk1. unfold KERNEL_BIN_BASE_ADDR in *. x_steps.
    rewrite u32_small by (unfold is_u32; lia).
    specialize (HQ a1 si1 di1 m1 Hv1 Hk1). rewrite Hnext in HQ. now rewrite <- Z.add_assoc. }
  unfold each_segment. x_steps. unfold KERNEL_BIN_BASE_ADDR in *. rewrite Z.add_0_r, u32_small by (unfold is_u32; lia).
  apply (wp_load_byte_view _ _ _ _ _ g); [done | unfold LOW_MEM; lia|].
  destruct (Z.eqb_spec (g (0x70000 + pos)) PT_NULL) as [Hz|Hz].
  - apply wp_bind, wp_ret. apply Htail; [|apply keeps_tables_refl].
    eapply view_ext; [|exact Hv]. intros x _. unfold load_segment. now rewrite (proj1 Hnull Hz).
  - assert (Hne : p_type ph <> PT_NULL) by tauto. destruct (Hsok Hne) as [_ Hfile Hlow Hhigh Hclear].
    unfold IMAGE, KERNEL_BASE, LOW_MEM, KERNEL_BIN_BASE_ADDR in *.
    apply wp_bind, (copy_segment_run _ (p_offset ph) (p_filesz ph) (p_vaddr ph - 0xc0000000) _ _ _ _ _ _ _ _ _ _ g);
      try (assumption || (unfold IMAGE, LOW_MEM, KERNEL_BIN_BASE_ADDR, KERNEL_BASE in *; lia)).
    + intros k Hk. rewrite <- Z.add_assoc. unfold g. unfold KERNEL_BIN_BASE_ADDR.
      rewrite (image_intact f g0 Hf _ _ Hok) by (unfold IMAGE; lia). apply (lo_bytes f Hl). unfold IMAGE. lia.
    + intros a' si' di' m' Hv' Hk'. apply Htail; [|done]. eapply view_ext; [|exact Hv'].
      intros x _. apply (copied_segment f g0 Hf); try done; unfold IMAGE; lia.
Qed.

(** The loop over the program headers; [ecx] counts those left. *)
Lemma segments_run f g0 a bp si di m d o s (Q : unit -> x86 paged dev -> Prop) :
  (forall i, 0 <= i < IMAGE -> g0 (KERNEL_BIN_BASE_ADDR + i) = f i) -> loadable f ->
  view m g0 -> is_u32 bp -> is_u32 (x_eip s) ->
  (forall a' b' si' di' m', view m' (load_segments f (phdrs f) g0) -> keeps_tables m m' ->
    Q tt (after (Regs a' 0 (e_phentsize f) b' bp si' di') m' d o s)) ->
  wp (loop_ecx each_segment) Q
    (after (Regs a (e_phnum f) (e_phentsize f) (KERNEL_BIN_BASE_ADDR + phdr_pos f 0) bp si di) m d o s).
Proof.
  intros Hf Hl Hv Hbp Hip HQ. pose proof (length_phdrs f Hl) as Hlen. pose proof (lo_some f Hl) as Hsome.
  assert (Hnum : e_phnum f < 2 ^ 16) by (apply (half_in f Hl 44); unfold IMAGE; lia).
  unfold loop_ecx.
  apply (wp_loop_measure _ (fun _ s1 => exists i a' si' di' m', Z.of_nat i < e_phnum f /\
    s1 = after (Regs a' (e_phnum f - Z.of_nat i) (e_phentsize f) (KERNEL_BIN_BASE_ADDR + phdr_pos f i) bp si' di')
      m' d o s /\
    view m' (load_segments f (take i (phdrs f)) g0) /\ keeps_tables m m') _ (fun _ s1 => ecx (x_regs s1))).
  - intros [] s1 (i & a' & si' & di' & m' & Hi & -> & Hv' & Hk).
    destruct (lookup_lt_is_Some_2 (phdrs f) i) as [ph Hph]; [lia|].
    apply wp_bind, (each_segment_run f g0 i ph); try (assumption || (unfold is_u32; lia)).
    intros a2 si2 di2 m2 Hv2 Hk2. x_steps. rewrite u32_small by (unfold is_u32; lia).
    destruct (Z.eqb_spec (e_phnum f - Z.of_nat i - 1) 0) as [Hz|Hz]; apply wp_ret.
    + rewrite Hz. apply HQ; [|eauto using keeps_tables_trans]. now rewrite take_ge in Hv2 by lia.
    + split; [|cbn; lia]. exists (S i), a2, si2, di2, m2. split; [lia|].
      split; [do 2 f_equal; lia|]. split; [done | eauto using keeps_tables_trans].
  - intros [] s1 (i & a' & si' & di' & m' & Hi & -> & _). cbn. lia.
  - exists O, a, si, di, m. split; [lia|]. rewrite Z.sub_0_r. split; [done|].
    split; [exact Hv | apply keeps_tables_refl].
  - cbn. lia.
Qed.

Lemma kernel_init_run f g0 s :
  (forall i, 0 <= i < IMAGE -> g0 (KERNEL_BIN_BASE_ADDR + i) = f i) -> loadable f ->
  view (x_mem s) g0 -> is_u32 (ebp (x_regs s)) -> is_u32 (x_eip s) ->
  wp (call kernel_init) (fun _ s' => exists r m', s' = after r m' (x_dev s) (x_outs s) s /\
    ebp r = ebp (x_regs s) /\ view m' (load_segments f (phdrs f) g0) /\ keeps_tables (x_mem s) m') s.
Proof.
  intros Hf Hl Hv Hbp Hip. pose proof (lo_some f Hl) as Hsome.
  assert (Hh : forall i, 0 <= i -> i + 2 <= IMAGE ->
    half_at g0 (KERNEL_BIN_BASE_ADDR + i) = half_at f i /\ with_lo16 0 (half_at f i) = half_at f i).
  { intros i H0 H1. pose proof (half_in f Hl i H0 H1). unfold half_at at 1. rewrite <- Z.add_assoc, !Hf by lia.
    split; [done|]. unfold with_lo16. rewrite Z.mul_0_r. apply Z.mod_small. lia. }
  destruct (phdr_pos_range f Hl 0) as (Hp0 & Hp1 & _); [lia|].
  apply wp_after. destruct (x_regs s) as [a c dx b bp si di] eqn:Er. cbn [ebp] in Hbp.
  apply wp_call. unfold kernel_init, IMAGE, KERNEL_BIN_BASE_ADDR in *. x_steps.
  rewrite !(u32_small (x_eip s)) by done. change (u32 0) with 0.
  apply wp_bind, wp_bind, (wp_load_half_view _ _ _ _ _ g0); [done | lia | unfold LOW_MEM; lia|].
  destruct (Hh 42) as [-> Ed]; [lia.. |]. x_steps. rewrite Ed.
  apply wp_bind, wp_bind, (wp_load_word_view _ _ _ _ _ g0); [done | lia | unfold LOW_MEM; lia|].
  assert (Eo : long_at g0 (0x70000 + 28) = phdr_pos f 0).
  { unfold phdr_pos. rewrite Z.mul_0_r, Z.add_0_r.
    apply (long_loaded f g0 Hf [] 28 (Forall_nil_2 _)); unfold IMAGE; lia. }
  rewrite Eo. x_steps. rewrite (u32_small (phdr_pos f 0)), u32_small by (unfold is_u32; lia).
  apply wp_bind, wp_bind, (wp_load_half_view _ _ _ _ _ g0); [done | lia | unfold LOW_MEM; lia|].
  destruct (Hh 44) as [-> En]; [lia.. |]. x_steps. rewrite En, (Z.add_comm _ 0x70000).
  apply wp_bind, (segments_run f g0); try assumption.
  intros a' b' si' di' m' Hv' Hk. eapply wp_retn; [reflexivity|].
  do 2 eexists. split; [|split; [|split; [exact Hv' | exact Hk]]]; [now destruct s | done].
Qed.

(** Every byte of a segment is at the address it is linked for, unless a later
    segment covers it. *)
Definition at_link_addresses (f : Z -> Z) (m : paged) : Prop :=
  forall i ph k, phdrs f !! i = Some ph -> occupies ph (p_vaddr ph + k) ->
    (forall j ph', (i < j)%nat -> phdrs f !! j = Some ph' -> ~ occupies ph' (p_vaddr ph + k)) ->
    load8 m (p_vaddr ph + k) = Some (f (p_offset ph + k)).

Lemma loaded_at_link_addresses f g0 m :
  loadable f -> view m (load_segments f (phdrs f) g0) -> at_link_addresses f m.
Proof.
  intros Hl [Hmap Hbytes] i ph k Hi Hk' Hlater.
  rewrite <- (load_segments_here f _ g0 i ph k Hi Hk' Hlater).
  pose proof (Forall_lookup_1 _ _ _ _ (lo_segments f Hl) Hi) as Hsok.
  destruct Hk' as [Hne Hr]. destruct (Hsok Hne) as [_ _ Hlow Hhigh _]. unfold KERNEL_BASE, LOW_MEM in *.
  cbn. unfold paged_load8. replace (p_vaddr ph + k) with (KERNEL_BASE + (p_vaddr ph + k - 0xc0000000))
    by (unfold KERNEL_BASE; lia).
  rewrite translate_low by (apply Hmap || (unfold LOW_MEM; lia)). cbn. f_equal.
  unfold KERNEL_BASE. now rewrite Hbytes by (unfold LOW_MEM; lia).
Qed.

(** What [kernel_init] makes of a machine: nothing but registers and the bytes
    that the segments are loaded to has changed. *)
Definition has_loaded (f g0 : Z -> Z) (s s' : x86 paged dev) : Prop :=
  exists r m', s' = after r m' (x_dev s) (x_outs s) s /\ ebp r = ebp (x_regs s) /\
    keeps_tables (x_mem s) m' /\ view m' (load_segments f (phdrs f) g0) /\ at_link_addresses f m'.

(** C22: when 200 sectors of an ELF file [f] are at 0x70000 and the kernel's
    addresses are mapped to the first megabyte, [kernel_init] returns and has
    loaded the segments of the file in the order of their headers: memory is the
    fold of [load_segment] over the program headers, and the kernel's code and
    data are at the addresses they are linked for.  Nothing else of memory has
    changed, the page tables, the loader and the file itself included. *)
Theorem kernel_init_loads f g0 s :
  (forall i, 0 <= i < IMAGE -> g0 (KERNEL_BIN_BASE_ADDR + i) = f i) -> loadable f ->
  view (x_mem s) g0 -> is_u32 (ebp (x_regs s)) -> is_u32 (x_eip s) ->
  wp (call kernel_init) (fun _ => has_loaded f g0 s) s.
Proof.
  intros Hf Hl Hv Hbp Hip. eapply wp_mono; [now apply (kernel_init_run f g0)|].
  intros _ s' (r & m' & -> & Eb & Hv' & Hk). exists r, m'.
  split_and!; [done | done | done | done | now apply (loaded_at_link_addresses f g0)].
Qed.

End copying.

(** ** A file *)

Section example.

(** An ELF file with two headers, the second of them unused; four bytes of the
    file, at 0x74, are linked for 0xc0001500. *)
Definition ex_elf : list Z :=
  replicate 28 0 ++ [52; 0; 0; 0] ++ replicate 10 0 ++ [32; 0; 2; 0] ++ replicate 6 0 ++
  [1; 0; 0; 0; 0x74; 0; 0; 0; 0; 0x15; 0; 0xc0; 0; 0; 0; 0; 4; 0; 0; 0; 4; 0; 0; 0] ++ replicate 8 0 ++
  [0; 0; 0; 0; 9; 9; 9; 9; 9; 9; 9; 9; 9; 9; 9; 9; 9; 9; 9; 9; 9; 9; 9; 9] ++ replicate 8 0 ++
  [0xb0; 0x4b; 0xeb; 0xfe].

Definition ex_image (i : Z) : Z := if i <? 0x78 then default 0 (ex_elf !! Z.to_nat i) else 0.

(** The machine with the file at 0x70000 *)
Definition ex_ram : gmap Z Z := write_all ∅ (zip (seqZ KERNEL_BIN_BASE_ADDR 0x78) ex_elf).
Definition ex_paged : paged := setup_page ex_ram.
Definition ex_loader : x86 paged unit :=
  X86 (Regs 7 7 7 7 0 7 7) (SRegs 16 16 0 24) 8 0xd20 0x2 0xc0000900 [] ex_paged tt [].

Lemma ex_image_checked :
  forallb (fun i => (0 <=? ex_image i) && (ex_image i <? 256)) (seqZ 0 0x78) = true.
Proof. vm_compute. reflexivity. Qed.

Lemma ex_paged_byte i : 0 <= i < IMAGE -> pread8 ex_paged (KERNEL_BIN_BASE_ADDR + i) = ex_image i.
Proof.
  intros Hi. unfold ex_paged, IMAGE in *.
  rewrite pread8_setup_page by (unfold KERNEL_BIN_BASE_ADDR, LOW_MEM; lia).
  unfold ex_ram. replace 0x78 with (Z.of_nat (length ex_elf)) by reflexivity. rewrite write_all_block.
  replace (Z.of_nat (length ex_elf)) with 0x78 by reflexivity. unfold ex_image.
  destruct (Z.ltb_spec i 0x78).
  - rewrite decide_True by lia. do 2 f_equal. lia.
  - now rewrite decide_False by lia.
Qed.

Lemma ex_image_at i : 0 <= i < IMAGE ->
  pread8 ex_paged (KERNEL_BIN_BASE_ADDR + i) = ex_image i /\ is_byte (ex_image i).
Proof.
  intros Hi. split; [now apply ex_paged_byte|]. destruct (Z.ltb_spec i 0x78) as [Hlt|Hge].
  - pose proof (forallb_seqZ _ _ ex_image_checked i ltac:(lia)) as Hc. cbv beta in Hc. unfold is_byte. lia.
  - unfold ex_image. rewrite (proj2 (Z.ltb_ge _ _) Hge). unfold is_byte. lia.
Qed.

Definition ex_phdrs : list phdr :=
  [Phdr 1 0x74 0xc0001500 4; Phdr 0 0x09090909 0x09090909 0x09090909].

Lemma ex_phdrs_eq : phdrs ex_image = ex_phdrs.
Proof. vm_compute. reflexivity. Qed.

Lemma ex_phdrs_ok : Forall (fun ph => p_type ph <> PT_NULL -> segment_ok ph) ex_phdrs.
Proof.
  unfold ex_phdrs. constructor; [|constructor; [|constructor]]; cbn; intros Hne; [|done].
  split; cbn; unfold IMAGE, KERNEL_BASE, LOW_MEM, PT_NULL, KERNEL_BIN_BASE_ADDR; (lia || done).
Qed.

Lemma ex_loadable : loadable ex_image.
Proof.
  assert (En : e_phnum ex_image = 2) by (vm_compute; reflexivity). split.
  - intros i Hi. now apply ex_image_at.
  - rewrite En. lia.
  - rewrite En. intros i Hi. assert (i = 0%nat \/ i = 1%nat) as [-> | ->] by lia; vm_compute; discriminate.
  - rewrite ex_phdrs_eq. exact ex_phdrs_ok.
Qed.

Lemma kernel_init_loads_witness :
  wp (call kernel_init) (fun _ => has_loaded ex_image (pread8 ex_paged) ex_loader) ex_loader /\
  load_segments ex_image ex_phdrs (pread8 ex_paged) 0x1502 = 0xeb.
Proof.
  split; [|vm_compute; reflexivity].
  apply (kernel_init_loads ex_image (pread8 ex_paged) ex_loader).
  - intros i Hi. now apply ex_image_at.
  - exact ex_loadable.
  - split; [|done]. apply boot_low_maps, setup_page_boot_tables.
  - vm_compute. split; [discriminate | reflexivity].
  - vm_compute. split; [discriminate | reflexivity].
Defined.

End example.
