(* ===== verification/SetupPage.v ===== *)
(** * SetupPage: the instructions of setup_page in boot/loader.S

    Paging.v gives the page tables as the list of writes that [setup_page] makes
    before paging is on.  Here is the routine itself, on the machine of X86.v
    with unpaged memory: it makes those writes, in that order. *)

From stdpp Require Import base numbers list strings gmap.
From S2P Require Import Prelude Machine FlatMemory Paging Kernel X86.
From Stdlib Require Import ZArith Lia.
Open Scope Z_scope.

(** ** The code *)

Section code.
  Context {mem dev : Type} `{Memory mem}.
  Abbreviation X := (M (x86 mem dev)).

Definition PG_US_RW_P : Z := Z.lor (Z.lor PG_US_U PG_RW_W) PG_P.

Definition clear_page_dir : X unit :=
  wr ECX 4096 ;;;
  wr ESI 0 ;;;
  loop_ecx (
    (esi <- rd ESI ;; store_byte (u32 (PAGE_DIR_TABLE_POS + esi)) 0) ;;;
    upd ESI (fun esi => esi + 1)).

Definition create_pde : X unit :=
  wr EAX PAGE_DIR_TABLE_POS ;;;
  upd EAX (fun eax => eax + 0x1000) ;;;
  (eax <- rd EAX ;; wr EBX eax) ;;;
  upd EAX (fun eax => Z.lor eax PG_US_RW_P) ;;;
  (eax <- rd EAX ;; store_word (PAGE_DIR_TABLE_POS + 0x0) eax) ;;;
  (eax <- rd EAX ;; store_word (PAGE_DIR_TABLE_POS + 0xc00) eax) ;;;
  upd EAX (fun eax => eax - 0x1000) ;;;
  (eax <- rd EAX ;; store_word (PAGE_DIR_TABLE_POS + 4092) eax).

Definition create_pte : X unit :=
  wr ECX 256 ;;;
  wr ESI 0 ;;;
  wr EDX PG_US_RW_P ;;;
  loop_ecx (
    (ebx <- rd EBX ;; esi <- rd ESI ;; edx <- rd EDX ;; store_word (u32 (ebx + esi * 4)) edx) ;;;
    upd EDX (fun edx => edx + 4096) ;;;
    upd ESI (fun esi => esi + 1)).

Definition create_kernel_pde : X unit :=
  wr EAX PAGE_DIR_TABLE_POS ;;;
  upd EAX (fun eax => eax + 0x2000) ;;;
  upd EAX (fun eax => Z.lor eax PG_US_RW_P) ;;;
  wr EBX PAGE_DIR_TABLE_POS ;;;
  wr ECX 254 ;;;
  wr ESI 769 ;;;
  loop_ecx (
    (ebx <- rd EBX ;; esi <- rd ESI ;; eax <- rd EAX ;; store_word (u32 (ebx + esi * 4)) eax) ;;;
    upd ESI (fun esi => esi + 1) ;;;
    upd EAX (fun eax => eax + 0x1000)).

Definition setup_page_code : X unit :=
  clear_page_dir ;;; create_pde ;;; create_pte ;;; create_kernel_pde ;;; retn.

End code.

(** ** Writes *)

(** Every address of the range has a byte. *)
Definition mapped (lo hi : Z) (m : flat) : Prop := forall a, lo <= a < hi -> is_Some (m !! a).

Lemma mapped_writes lo hi l m : mapped lo hi m -> mapped lo hi (write_all m l).
Proof.
  intros Hm. revert m Hm. unfold write_all.
  induction l as [|[x b] l IH]; intros m Hm; [done|]. cbn. apply IH. intros a Ha.
  rewrite lookup_insert. case_decide; [by eexists | auto].
Qed.

(** The writes of a word leave what the store of a word leaves. *)
Lemma flat_store32_writes (m : flat) a v :
  mapped a (a + 4) m -> flat_store32 m a v = Some (write_all m (word_writes a v)).
Proof.
  intros Hm. unfold flat_store32, flat_load32.
  destruct (Hm a ltac:(lia)) as [b0 ->], (Hm (a + 1) ltac:(lia)) as [b1 ->],
    (Hm (a + 2) ltac:(lia)) as [b2 ->], (Hm (a + 3) ltac:(lia)) as [b3 ->].
  f_equal. apply map_eq. intros x. unfold write_all, word_writes. cbn. rewrite Z.add_0_r.
  rewrite !lookup_insert. repeat case_decide; done || lia.
Qed.

Section rules.
  Context {dev : Type} (r : regs) (m : flat) (d : dev) (o : list (Z * Z)) (s : x86 flat dev).

Lemma wp_store_byte_flat a b (Q : unit -> x86 flat dev -> Prop) :
  is_Some (m !! a) -> is_byte b -> Q tt (after r (write_all m [(a, b)]) d o s) ->
  wp (store_byte a b) Q (after r m d o s).
Proof.
  intros [c Hc] Hb HQ. unfold wp, store_byte. cbn [x_mem after]. cbn. unfold flat_store8. rewrite Hc.
  rewrite u8_small by done. exact HQ.
Qed.

Lemma wp_store_word_flat a v (Q : unit -> x86 flat dev -> Prop) :
  mapped a (a + 4) m -> is_u32 v -> Q tt (after r (write_all m (word_writes a v)) d o s) ->
  wp (store_word a v) Q (after r m d o s).
Proof.
  intros Hm Hv HQ. unfold wp, store_word. cbn [x_mem after]. cbn.
  rewrite flat_store32_writes, u32_small by done. exact HQ.
Qed.

End rules.

(** A [loop] instruction that runs its body [n] times: [I i] describes the
    machine when [i] rounds are done, [ecx] counts the rest. *)
Lemma wp_loop_ecx {mem dev : Type} (body : M (x86 mem dev) unit) n (I : Z -> x86 mem dev -> Prop)
    (Q : unit -> x86 mem dev -> Prop) s :
  1 <= n < 2 ^ 32 ->
  (forall i s1, 0 <= i < n -> I i s1 -> ecx (x_regs s1) = n - i ->
    wp body (fun _ s2 => ecx (x_regs s2) = n - i /\
      I (i + 1) (set_regs (set_reg ECX (n - i - 1) (x_regs s2)) s2)) s1) ->
  (forall s1, I n s1 -> ecx (x_regs s1) = 0 -> Q tt s1) ->
  I 0 s -> ecx (x_regs s) = n -> wp (loop_ecx body) Q s.
Proof.
  intros Hn Hbody HQ H0 Hc. unfold loop_ecx.
  apply (wp_loop_measure _ (fun _ s1 => exists i, 0 <= i < n /\ I i s1 /\ ecx (x_regs s1) = n - i) _
    (fun _ s1 => ecx (x_regs s1))).
  - intros [] s1 (i & Hi & HI & Hci). apply wp_bind. eapply wp_mono; [now apply (Hbody i)|].
    intros [] s2 [Hc2 HI2]. apply wp_after. do 3 (apply wp_bind; first [apply wp_rd | apply wp_wr]).
    cbn [reg_of set_reg ecx]. rewrite Hc2, u32_small by (unfold is_u32; lia).
    change (after (set_reg ECX (n - i - 1) (x_regs s2)) (x_mem s2) (x_dev s2) (x_outs s2) s2)
      with (set_regs (set_reg ECX (n - i - 1) (x_regs s2)) s2).
    change (reg_of ECX (set_reg ECX (n - i - 1) (x_regs s2))) with (n - i - 1).
    destruct (Z.eqb_spec (n - i - 1) 0) as [Hz|Hz]; apply wp_ret.
    + apply HQ; [|exact Hz]. now replace n with (i + 1) at 1 by lia.
    + cbn [x_regs set_regs set_reg ecx after]. split; [|lia]. exists (i + 1). split; [lia|]. split; [exact HI2 | lia].
  - intros [] s1 (i & Hi & _ & Hci). lia.
  - exists 0. split; [lia|]. split; [exact H0 | lia].
  - lia.
Qed.

(** ** The parts of the routine *)

Lemma seqZ_snoc n : 0 <= n -> seqZ 0 (n + 1) = seqZ 0 n ++ [n].
Proof. intros Hn. rewrite seqZ_app by lia. now rewrite Z.add_0_l. Qed.

Lemma writes_snoc (f : Z -> list (Z * Z)) n :
  0 <= n -> mjoin (f <$> seqZ 0 (n + 1)) = mjoin (f <$> seqZ 0 n) ++ f n.
Proof.
  intros Hn. rewrite seqZ_snoc, fmap_app, join_app by done. cbn. now rewrite app_nil_r.
Qed.

(** What the routine writes to *)
Definition tables_mapped (m : flat) : Prop := mapped PAGE_DIR_TABLE_POS (PAGE_DIR_TABLE_POS + 0x2000) m.

(** The value of an expression of constants *)
Local Ltac u32_consts := repeat match goal with |- context [u32 ?v] =>
  let z := eval vm_compute in (u32 v) in
  lazymatch z with Z0 => idtac | Zpos _ => idtac end; change (u32 v) with z end.

Section parts.
  Context {dev : Type}.
  Implicit Types s : x86 flat dev.
  Implicit Types d : dev.

Definition clear_writes : list (Z * Z) := (fun esi => (PAGE_DIR_TABLE_POS + esi, 0)) <$> seqZ 0 4096.

Lemma clear_page_dir_run a c dx b bp si di m d o s (Q : unit -> x86 flat dev -> Prop) :
  tables_mapped m ->
  (forall si', Q tt (after (Regs a 0 dx b bp si' di) (write_all m clear_writes) d o s)) ->
  wp clear_page_dir Q (after (Regs a c dx b bp si di) m d o s).
Proof.
  intros Hm HQ. unfold clear_page_dir. x_steps.
  apply (wp_loop_ecx _ 4096 (fun i s1 => s1 = after (Regs a (4096 - i) dx b bp i di)
    (write_all m ((fun esi => (PAGE_DIR_TABLE_POS + esi, 0)) <$> seqZ 0 i)) d o s)); [lia | | | done | done].
  - intros i s1 Hi -> _. x_steps. unfold tables_mapped, PAGE_DIR_TABLE_POS in *.
    rewrite (u32_small (0x100000 + i)) by (unfold is_u32; lia).
    apply wp_store_byte_flat; [apply (mapped_writes _ _ _ _ Hm); lia | unfold is_byte; lia|]. x_steps.
    rewrite u32_small by (unfold is_u32; lia). split; [done|]. unfold set_regs, after. cbn.
    rewrite seqZ_snoc, fmap_app, write_all_app by lia. do 2 f_equal. lia.
  - intros s1 -> _. apply HQ.
Qed.

Definition pde_writes : list (Z * Z) :=
  let eax := Z.lor (PAGE_DIR_TABLE_POS + 0x1000) PG_US_RW_P in
  word_writes (PAGE_DIR_TABLE_POS + 0x0) eax ++ word_writes (PAGE_DIR_TABLE_POS + 0xc00) eax ++
  word_writes (PAGE_DIR_TABLE_POS + 4092) (eax - 0x1000).

Lemma create_pde_run a c dx b bp si di m d o s (Q : unit -> x86 flat dev -> Prop) :
  tables_mapped m ->
  (forall a', Q tt (after (Regs a' c dx (PAGE_DIR_TABLE_POS + 0x1000) bp si di) (write_all m pde_writes) d o s)) ->
  wp create_pde Q (after (Regs a c dx b bp si di) m d o s).
Proof.
  intros Hm HQ. unfold create_pde. x_steps.
  assert (Hw : forall l a, PAGE_DIR_TABLE_POS <= a -> a + 4 <= PAGE_DIR_TABLE_POS + 0x2000 ->
    mapped a (a + 4) (write_all m l)).
  { intros l x H0 H1 y Hy. apply (mapped_writes _ _ _ _ Hm). lia. }
  do 2 u32_consts. apply wp_store_word_flat; [apply (Hw []); unfold PAGE_DIR_TABLE_POS; lia | unfold is_u32; lia|].
  x_steps. apply wp_store_word_flat; [apply Hw; unfold PAGE_DIR_TABLE_POS; lia | unfold is_u32; lia|].
  x_steps. u32_consts. rewrite <- write_all_app.
  apply wp_store_word_flat; [apply Hw; unfold PAGE_DIR_TABLE_POS; lia | unfold is_u32; lia|].
  rewrite <- write_all_app, <- app_assoc. apply HQ.
Qed.

Definition pte_writes (esi : Z) : list (Z * Z) :=
  word_writes (PAGE_DIR_TABLE_POS + 0x1000 + esi * 4) (PG_US_RW_P + 4096 * esi).

Lemma create_pte_run a c dx bp si di m d o s (Q : unit -> x86 flat dev -> Prop) :
  tables_mapped m ->
  (forall si' dx', Q tt (after (Regs a 0 dx' (PAGE_DIR_TABLE_POS + 0x1000) bp si' di)
    (write_all m (mjoin (pte_writes <$> seqZ 0 256))) d o s)) ->
  wp create_pte Q (after (Regs a c dx (PAGE_DIR_TABLE_POS + 0x1000) bp si di) m d o s).
Proof.
  intros Hm HQ. unfold create_pte. x_steps.
  apply (wp_loop_ecx _ 256 (fun i s1 => s1 = after (Regs a (256 - i) (PG_US_RW_P + 4096 * i)
    (PAGE_DIR_TABLE_POS + 0x1000) bp i di) (write_all m (mjoin (pte_writes <$> seqZ 0 i))) d o s));
    [lia | | | reflexivity | reflexivity].
  - intros i s1 Hi -> _. change PG_US_RW_P with 7. x_steps. unfold tables_mapped, PAGE_DIR_TABLE_POS in *.
    rewrite (u32_small (0x100000 + 0x1000 + i * 4)) by (unfold is_u32; lia).
    apply wp_store_word_flat; [intros x Hx; apply (mapped_writes _ _ _ _ Hm); lia | unfold is_u32; lia|].
    x_steps. rewrite !u32_small by (unfold is_u32; lia). split; [done|]. unfold set_regs, after. cbn.
    rewrite writes_snoc, write_all_app by lia. do 2 f_equal; lia.
  - intros s1 -> _. apply HQ.
Qed.

Definition kernel_pde_writes (i : Z) : list (Z * Z) :=
  word_writes (PAGE_DIR_TABLE_POS + (769 + i) * 4) (Z.lor (PAGE_DIR_TABLE_POS + 0x2000) PG_US_RW_P + 0x1000 * i).

Lemma create_kernel_pde_run a c dx b bp si di m d o s (Q : unit -> x86 flat dev -> Prop) :
  tables_mapped m ->
  (forall a' b' si', Q tt (after (Regs a' 0 dx b' bp si' di)
    (write_all m (mjoin (kernel_pde_writes <$> seqZ 0 254))) d o s)) ->
  wp create_kernel_pde Q (after (Regs a c dx b bp si di) m d o s).
Proof.
  intros Hm HQ. unfold create_kernel_pde. x_steps. do 2 u32_consts.
  apply (wp_loop_ecx _ 254 (fun i s1 => s1 = after (Regs (0x102007 + 4096 * i) (254 - i) dx
    PAGE_DIR_TABLE_POS bp (769 + i) di) (write_all m (mjoin (kernel_pde_writes <$> seqZ 0 i))) d o s));
    [lia | | | reflexivity | reflexivity].
  - intros i s1 Hi -> _. x_steps. unfold tables_mapped, PAGE_DIR_TABLE_POS in *.
    rewrite (u32_small (0x100000 + (769 + i) * 4)) by (unfold is_u32; lia).
    apply wp_store_word_flat; [intros x Hx; apply (mapped_writes _ _ _ _ Hm); lia | unfold is_u32; lia|].
    x_steps. rewrite !u32_small by (unfold is_u32; lia). split; [done|]. unfold set_regs, after. cbn.
    rewrite writes_snoc, write_all_app by lia. do 2 f_equal; lia.
  - intros s1 -> _. apply HQ.
Qed.

Lemma setup_page_parts :
  setup_page_writes = clear_writes ++ pde_writes ++ mjoin (pte_writes <$> seqZ 0 256) ++
    mjoin (kernel_pde_writes <$> seqZ 0 254).
Proof.
  unfold setup_page_writes. cbv zeta. change (Z.lor (Z.lor PG_US_U PG_RW_W) PG_P) with PG_US_RW_P.
  reflexivity.
Qed.

Lemma setup_page_code_run r m d o s eip l (Q : unit -> x86 flat dev -> Prop) :
  tables_mapped m -> x_stack s = eip :: l ->
  (forall r', ebp r' = ebp r ->
    Q tt (after r' (write_all m setup_page_writes) d o (set_control (x_cs s) eip (x_eflags s) (set_stack l s)))) ->
  wp setup_page_code Q (after r m d o s).
Proof.
  intros Hm Hst HQ. destruct r as [a c dx b bp si di]. unfold setup_page_code.
  apply wp_bind, clear_page_dir_run; [done|]. intros si1.
  apply wp_bind, create_pde_run; [now apply mapped_writes|]. intros a2.
  apply wp_bind, create_pte_run; [now do 2 apply mapped_writes|]. intros si3 dx3.
  apply wp_bind, create_kernel_pde_run; [now do 3 apply mapped_writes|]. intros a4 b4 si4.
  rewrite <- !write_all_app, <- setup_page_parts. eapply wp_retn; [exact Hst|]. now apply HQ.
Qed.

End parts.

(** The routine, called: the memory it leaves is the one that [setup_page] of
    Paging.v starts paging with, registers other than ebp are used freely, and
    everything else is as before. *)
Definition has_tables {dev : Type} (s s' : x86 flat dev) : Prop :=
  exists r', ebp r' = ebp (x_regs s) /\
    s' = after r' (write_all (x_mem s) setup_page_writes) (x_dev s) (x_outs s) s.

(** C24: the instructions of [setup_page], called where the two pages of the
    tables are in memory, end and have made exactly the writes that define the
    page tables, in their order; the stack is as before. *)
Theorem setup_page_code_writes {dev : Type} (s : x86 flat dev) :
  tables_mapped (x_mem s) -> is_u32 (x_eip s) ->
  wp (call setup_page_code) (fun _ => has_tables s) s /\
  boot_tables (Paged (write_all (x_mem s) setup_page_writes) PAGE_DIR_TABLE_POS).
Proof.
  intros Hm Hip. split; [|apply (setup_page_boot_tables (x_mem s))].
  apply wp_after, wp_call. eapply setup_page_code_run; [done | reflexivity|].
  intros r' Hbp. exists r'. split; [done|]. rewrite (u32_small _ Hip). now destruct s.
Qed.

(** Two pages of memory at the place of the tables. *)
Definition ex_pages : flat := gset_to_gmap 0xcc (list_to_set (seqZ PAGE_DIR_TABLE_POS 0x2000)).
Definition ex_before : x86 flat unit :=
  X86 (Regs 0 0 0 0 0 0 0) (SRegs 16 16 0 24) 8 0xd20 0x2 0x900 [] ex_pages tt [].

Lemma ex_pages_mapped : tables_mapped ex_pages.
Proof.
  intros a Ha. exists 0xcc. apply lookup_gset_to_gmap_Some. split; [|done].
  apply elem_of_list_to_set, elem_of_seqZ. lia.
Qed.

Lemma setup_page_code_writes_witness :
  wp (call setup_page_code) (fun _ => has_tables ex_before) ex_before.
Proof.
  refine (proj1 (setup_page_code_writes ex_before ex_pages_mapped _)).
  unfold is_u32, ex_before, x_eip. lia.
Defined.
