(* ===== verification/Startup.v ===== *)
(** * Startup: from the memory probe to the kernel in boot/loader.S

    Protected mode, the kernel read from the disk, paging switched on, the
    kernel's segments loaded, and the jump to the kernel.  The routines it calls
    are those of Disk.v, SetupPage.v and Elf.v.  To the machine of X86.v come the
    control registers and the table of segment descriptors, which the CPU reads
    from memory whenever a segment register is loaded. *)

From stdpp Require Import base numbers list strings gmap.
From S2P Require Import Prelude Machine FlatMemory Paging Kernel X86 Loader Disk Screen PageMap Elf SetupPage.
From Stdlib Require Import ZArith Lia.
Open Scope Z_scope.

(** ** The machine *)

Record pc (mem dev : Type) : Type := Pc {
  pc_cpu : x86 mem dev; cr0 : Z; cr3 : Z; gdtr_limit : Z; gdtr_base : Z;
}.
Arguments Pc {mem dev} _ _ _ _ _.
Arguments pc_cpu {mem dev} _.
Arguments cr0 {mem dev} _.
Arguments cr3 {mem dev} _.
Arguments gdtr_limit {mem dev} _.
Arguments gdtr_base {mem dev} _.

(** ** Constants *)

(** boot/include/boot.inc *)
Definition LOADER_STACK_TOP : Z := LOADER_BASE_ADDR.
Definition KERNEL_START_SECTOR : Z := 0x9.
Definition KERNEL_ENTRY_POINT : Z := 0xc0001500.
Definition DESC_LIMIT_CODE2 : Z := 15 * 2 ^ 16.
Definition DESC_LIMIT_DATA2 : Z := DESC_LIMIT_CODE2.
Definition DESC_S_CODE : Z := 2 ^ 12.
Definition DESC_TYPE_CODE : Z := 8 * 2 ^ 8.
Definition DESC_CODE_HIGH4 : Z :=
  Z.shiftl 0x00 24 + DESC_G_4K + DESC_D_32 + DESC_L + DESC_AVL + DESC_LIMIT_CODE2 + DESC_P +
  DESC_DPL_0 + DESC_S_CODE + DESC_TYPE_CODE + 0x00.
Definition DESC_DATA_HIGH4 : Z :=
  Z.shiftl 0x00 24 + DESC_G_4K + DESC_D_32 + DESC_L + DESC_AVL + DESC_LIMIT_DATA2 + DESC_P +
  DESC_DPL_0 + DESC_S_DATA + DESC_TYPE_DATA + 0x00.

(** The table at the start of the loader *)
Definition GDT_BASE : Z := LOADER_BASE_ADDR.
Definition gdt : list Z :=
  [0x00000000; 0x00000000; 0x0000FFFF; DESC_CODE_HIGH4; 0x0000FFFF; DESC_DATA_HIGH4;
   VIDEO_DESC_low; DESC_VIDEO_HIGH4].
Definition GDT_SIZE : Z := 32.
Definition GDT_LIMIT : Z := GDT_SIZE - 1.
Definition SELECTOR_CODE : Z := Z.shiftl 0x0001 3 + 0 + 0.
Definition SELECTOR_DATA : Z := Z.shiftl 0x0002 3 + 0 + 0.
Definition gdt_ptr : Z := total_mem_bytes + 4.

(** The first bytes of the loader, [v] being the word [total_mem_bytes] *)
Definition loader_data (v : Z) : list Z :=
  mjoin (word_bytes <$> gdt) ++ replicate (60 * 8) 0 ++ word_bytes v ++
  half_bytes GDT_LIMIT ++ word_bytes GDT_BASE.

(** ** The code *)

Section code.
  Context {mem dev : Type} `{Memory mem}.
  Abbreviation P := (M (pc mem dev)).

Definition set_cpu (c : x86 mem dev) (s : pc mem dev) : pc mem dev :=
  Pc c (cr0 s) (cr3 s) (gdtr_limit s) (gdtr_base s).

(** Instructions of X86.v *)
Definition cpu {A} (f : M (x86 mem dev) A) : P A := fun s =>
  match f (pc_cpu s) with
  | Ret a c => Ret a (set_cpu c s)
  | Stop w c => Stop w (set_cpu c s)
  end.

(** [lgdt] loads 24 bits of the base in 16-bit code and 32 in 32-bit code. *)
Definition lgdt (bits a : Z) : P unit :=
  limit <- cpu (load_half a) ;; base <- cpu (load_word (u32 (a + 2))) ;;
  modify (fun s => Pc (pc_cpu s) (cr0 s) (cr3 s) limit (base mod 2 ^ bits)).
Definition sgdt (a : Z) : P unit :=
  limit <- gets gdtr_limit ;; base <- gets gdtr_base ;;
  cpu (store_half a limit ;;; store_word (u32 (a + 2)) base).

Definition mov_from_cr0 (g : gpr) : P unit := v <- gets cr0 ;; cpu (wr g v).
Definition mov_to_cr0 (g : gpr) : P unit :=
  v <- cpu (rd g) ;; modify (fun s => Pc (pc_cpu s) v (cr3 s) (gdtr_limit s) (gdtr_base s)).
Definition mov_to_cr3 (g : gpr) : P unit :=
  v <- cpu (rd g) ;; modify (fun s => Pc (pc_cpu s) (cr0 s) v (gdtr_limit s) (gdtr_base s)).

(** [mov esp, v] and [add esp, v] *)
Definition set_bottom (v : Z) (l : list Z) (s : x86 mem dev) : x86 mem dev :=
  X86 (x_regs s) (x_sregs s) (x_cs s) (x_eip s) (x_eflags s) (u32 v) l (x_mem s) (x_dev s) (x_outs s).
Definition mov_esp (v : Z) : P unit := cpu (modify (set_bottom v [])).
Definition add_esp (v : Z) : P unit := cpu (modify (fun s => set_bottom (x_bottom s + v) (x_stack s) s)).

(** The descriptor of a selector of the global table *)
Definition descriptor (sel : Z) : P (Z * Z) :=
  limit <- gets gdtr_limit ;; base <- gets gdtr_base ;;
  let a := 8 * (sel / 8) in
  if a + 7 <=? limit then
    low <- cpu (load_word (u32 (base + a))) ;; high <- cpu (load_word (u32 (base + a + 4))) ;;
    ret (low, high)
  else stop_with (Panic "#GP").

(** A segment must be present and of code or data.  Code, and data other than
    the video segment, are addressed by the definitions of X86.v without a base
    and a limit, so that such a segment must start at 0 and have 4 GiB. *)
Definition usable (code : bool) (high : Z) : bool :=
  Z.testbit high 15 && Z.testbit high 12 && Bool.eqb (Z.testbit high 11) code &&
  (code || Z.testbit high 9).
Definition flat_segment (low high : Z) : bool :=
  (desc_base low high =? 0) && (desc_limit low high =? 2 ^ 32 - 1).

Definition data_segment (flat : bool) (sel : Z) : P unit :=
  let* (low, high) := descriptor sel in
  if usable false high && (negb flat || flat_segment low high) then ret tt
  else stop_with (Panic "segment").
Definition mov_seg (flat : bool) (g : sreg) (sel : Z) : P unit :=
  data_segment flat sel ;;; cpu (wrs g sel).

(** The far jumps go to the next definition. *)
Definition jmp_far (sel : Z) : P unit :=
  let* (low, high) := descriptor sel in
  if usable true high && flat_segment low high
  then cpu (modify (fun s => set_control sel (x_eip s) (x_eflags s) s))
  else stop_with (Panic "segment").

(** From [.mem_get_ok] to [p_mode_start] *)
Definition protected_mode `{Ports dev} : P unit :=
  cpu ((v <- in8 0x92 ;; wrl EAX v) ;;;
       (al <- rdl EAX ;; wrl EAX (Z.lor al 2)) ;;;
       (al <- rdl EAX ;; out8 0x92 al)) ;;;
  lgdt 24 gdt_ptr ;;;
  mov_from_cr0 EAX ;;;
  cpu (upd EAX (fun eax => Z.lor eax 0x00000001)) ;;;
  mov_to_cr0 EAX ;;;
  jmp_far SELECTOR_CODE.

(** The video segment and the pointer to the table are moved to the kernel's
    addresses. *)
Definition move_gdt : M (x86 mem dev) unit :=
  (v <- load_word (gdt_ptr + 2) ;; wr EBX v) ;;;
  (ebx <- rd EBX ;; v <- load_word (u32 (ebx + 0x18 + 4)) ;;
   store_word (u32 (ebx + 0x18 + 4)) (Z.lor v 0xc0000000)) ;;;
  (v <- load_word (gdt_ptr + 2) ;; store_word (gdt_ptr + 2) (u32 (v + 0xc0000000))).

(** The start of [p_mode_start].  The stack segment is the data segment; X86.v
    has no register for it. *)
Definition load_selectors : P unit :=
  cpu (wr16 EAX SELECTOR_DATA) ;;;
  (ax <- cpu (rd16 EAX) ;; mov_seg true DS ax) ;;;
  (ax <- cpu (rd16 EAX) ;; mov_seg true ES ax) ;;;
  (ax <- cpu (rd16 EAX) ;; data_segment true ax) ;;;
  mov_esp LOADER_STACK_TOP ;;;
  cpu (wr16 EAX SELECTOR_VIDEO) ;;;
  (ax <- cpu (rd16 EAX) ;; mov_seg false GS ax).

(** From [call setup_page] up to the instruction that switches paging on *)
Definition prepare_paging : P unit :=
  cpu (call setup_page_code) ;;;
  sgdt gdt_ptr ;;;
  cpu move_gdt ;;;
  add_esp 0xc0000000 ;;;
  cpu (wr EAX PAGE_DIR_TABLE_POS) ;;;
  mov_to_cr3 EAX ;;;
  mov_from_cr0 EAX ;;;
  cpu (upd EAX (fun eax => Z.lor eax 0x80000000)) ;;;
  mov_to_cr0 EAX.

(** Up to that instruction *)
Definition p_mode_start `{Ports dev} : P unit :=
  load_selectors ;;;
  cpu (wr EAX KERNEL_START_SECTOR ;;;
       wr EBX KERNEL_BIN_BASE_ADDR ;;;
       wr ECX 200 ;;;
       call rd_disk_m_32) ;;;
  prepare_paging.

(** The rest, with paging *)
Definition enter_kernel : P unit :=
  lgdt 32 gdt_ptr ;;;
  jmp_far SELECTOR_CODE ;;;
  cpu (call kernel_init) ;;;
  mov_esp 0xc009f000 ;;;
  cpu (modify (fun s => set_control (x_cs s) KERNEL_ENTRY_POINT (x_eflags s) s)).

End code.

(** The machine before and after cr0 says that addresses are translated *)
Inductive machine (dev : Type) : Type :=
  | Unpaged (s : pc flat dev)
  | Paged_on (s : pc paged dev).
Arguments Unpaged {dev} _.
Arguments Paged_on {dev} _.

Section whole.
  Context {dev : Type} `{Ports dev}.

Definition unpaged {A} (f : M (pc flat dev) A) : M (machine dev) A := fun s =>
  match s with
  | Unpaged p => match f p with Ret a p' => Ret a (Unpaged p') | Stop w p' => Stop w (Unpaged p') end
  | Paged_on _ => Stop (Panic "paging") s
  end.
Definition with_paging {A} (f : M (pc paged dev) A) : M (machine dev) A := fun s =>
  match s with
  | Paged_on p => match f p with Ret a p' => Ret a (Paged_on p') | Stop w p' => Stop w (Paged_on p') end
  | Unpaged _ => Stop (Panic "no paging") s
  end.

(** cr0 and cr3 take effect: bits 31 and 0 of cr0 switch paging on. *)
Definition translate_from_now : M (machine dev) unit := fun s =>
  match s with
  | Unpaged p =>
      if Z.testbit (cr0 p) 31 && Z.testbit (cr0 p) 0 then
        let c := pc_cpu p in
        Ret tt (Paged_on (Pc (X86 (x_regs c) (x_sregs c) (x_cs c) (x_eip c) (x_eflags c) (x_bottom c)
          (x_stack c) (Paged (x_mem c) (cr3 p)) (x_dev c) (x_outs c))
          (cr0 p) (cr3 p) (gdtr_limit p) (gdtr_base p)))
      else Stop (Panic "no paging") s
  | Paged_on _ => Ret tt s
  end.

(** boot/loader.S from [.mem_get_ok] on *)
Definition load_kernel : M (machine dev) unit :=
  unpaged protected_mode ;;; unpaged p_mode_start ;;; translate_from_now ;;; with_paging enter_kernel.

End whole.

(** ** Lemmas *)

(** *** Words of memory *)

Lemma word_in_ext (m m' : flat) a :
  (forall i, 0 <= i < 4 -> m' !! (a + i) = m !! (a + i)) -> word_in m' a = word_in m a.
Proof.
  intros He. unfold word_in. pose proof (He 0 ltac:(lia)) as E0. rewrite Z.add_0_r in E0.
  now rewrite E0, !He by lia.
Qed.

Lemma word_in_written m a v : is_u32 v -> word_in (write_all m (word_writes a v)) a = Some v.
Proof.
  intros Hv. unfold word_in, write_all, word_writes. cbn. rewrite Z.add_0_r.
  rewrite !lookup_insert. repeat case_decide; try lia. cbn. now rewrite le32_bytes.
Qed.

Lemma write_word_other m b v a : a < b \/ b + 4 <= a -> write_all m (word_writes b v) !! a = m !! a.
Proof. intros Hd. apply write_all_other. unfold word_writes. repeat constructor; cbn; lia. Qed.

Lemma word_in_other m a b v :
  a + 4 <= b \/ b + 4 <= a -> word_in (write_all m (word_writes b v)) a = word_in m a.
Proof. intros Hd. apply word_in_ext. intros i Hi. apply write_word_other. lia. Qed.

Lemma word_in_bytes (m : flat) a v : bytes_at m a (word_bytes v) -> is_u32 v -> word_in m a = Some v.
Proof.
  intros (_ & _ & Hb) Hv.
  pose proof (Hb 0%nat _ eq_refl) as (_ & _ & E0). pose proof (Hb 1%nat _ eq_refl) as (_ & _ & E1).
  pose proof (Hb 2%nat _ eq_refl) as (_ & _ & E2). pose proof (Hb 3%nat _ eq_refl) as (_ & _ & E3).
  change (Z.of_nat 0) with 0 in E0. change (Z.of_nat 1) with 1 in E1.
  change (Z.of_nat 2) with 2 in E2. change (Z.of_nat 3) with 3 in E3. rewrite Z.add_0_r in E0.
  cbn in *. unfold flat_load8 in *. unfold word_in. rewrite E0, E1, E2, E3. cbn. now rewrite le32_bytes.
Qed.

Lemma lor_u32 a b : is_u32 a -> is_u32 b -> is_u32 (Z.lor a b).
Proof.
  unfold is_u32. intros Ha Hb. assert (H0 : 0 <= Z.lor a b) by (apply Z.lor_nonneg; lia). split; [done|].
  assert (Hl : forall z, 0 <= z < 2 ^ 32 -> Z.log2 z < 32).
  { intros z Hz. destruct (Z.eq_dec z 0) as [->|Hne]; [done|]. apply Z.log2_lt_pow2; lia. }
  destruct (Z.eq_dec (Z.lor a b) 0) as [->|Hne]; [done|]. apply Z.log2_lt_pow2; [lia|].
  rewrite Z.log2_lor by lia. pose proof (Hl a Ha). pose proof (Hl b Hb). lia.
Qed.

Lemma u32_one : is_u32 1.
Proof. unfold is_u32. lia. Qed.

(** A word of a list of words *)
Lemma word_of_list {mem} `{RamSpec mem} (m : mem) a l i v :
  bytes_at m a (mjoin (word_bytes <$> l)) -> l !! i = Some v -> bytes_at m (a + 4 * Z.of_nat i) (word_bytes v).
Proof.
  intros Hb Hi. revert a i Hb Hi. induction l as [|w l IH]; intros a i Hb Hi; [done|].
  rewrite fmap_cons in Hb. change (mjoin (?x :: ?y)) with (x ++ mjoin y) in Hb.
  pose proof Hb as (Ha & _). apply bytes_at_app in Hb as [Hw Hb]; [|done].
  change (Z.of_nat (length (word_bytes w))) with 4 in Hb.
  destruct i as [|i]; cbn in Hi; [simplify_eq; now rewrite Z.add_0_r|].
  replace (a + 4 * Z.of_nat (S i)) with (a + 4 + 4 * Z.of_nat i) by lia. now apply IH.
Qed.

(** *** Rules *)

Section rules.
  Context {mem dev : Type} `{Memory mem}.
  Implicit Types s : x86 mem dev.

Lemma wp_cpu {A} (f : M (x86 mem dev) A) (Q : A -> pc mem dev -> Prop) c r0 r3 l b :
  wp f (fun a c' => Q a (Pc c' r0 r3 l b)) c -> wp (cpu f) Q (Pc c r0 r3 l b).
Proof. unfold wp, cpu. cbn. destruct (f c); done. Qed.

(** A descriptor whose words can be loaded *)
Lemma wp_descriptor sel low high (Q : Z * Z -> pc mem dev -> Prop) c r0 r3 l b :
  8 * (sel / 8) + 7 <= l -> is_u32 (b + 8 * (sel / 8)) -> is_u32 (b + 8 * (sel / 8) + 4) ->
  load32 (x_mem c) (b + 8 * (sel / 8)) = Some low -> load32 (x_mem c) (b + 8 * (sel / 8) + 4) = Some high ->
  Q (low, high) (Pc c r0 r3 l b) -> wp (descriptor sel) Q (Pc c r0 r3 l b).
Proof.
  intros Hl Hu0 Hu1 E0 E1 HQ. unfold descriptor. apply wp_bind, wp_gets, wp_bind, wp_gets. cbn [gdtr_limit gdtr_base].
  cbv zeta. rewrite (proj2 (Z.leb_le _ _) Hl). rewrite !u32_small by done.
  apply wp_bind, wp_cpu. unfold wp at 1, load_word. rewrite E0.
  apply wp_bind, wp_cpu. unfold wp at 1, load_word. rewrite E1. exact HQ.
Qed.

End rules.

Lemma wp_load_word_in {dev : Type} (r : regs) (m : flat) (d : dev) o s a v (Q : Z -> x86 flat dev -> Prop) :
  word_in m a = Some v -> Q v (after r m d o s) -> wp (load_word a) Q (after r m d o s).
Proof.
  intros E HQ. unfold wp, load_word. cbn [x_mem after]. cbn.
  assert (Hl : flat_load32 m a = word_in m a).
  { unfold flat_load32, word_in. destruct (m !! a), (m !! (a + 1)), (m !! (a + 2)), (m !! (a + 3)); done. }
  now rewrite Hl, E.
Qed.

(** *** Protected mode *)

(** What the loader has in memory before it switches *)
Definition gdt_at (m : flat) : Prop :=
  bytes_at m GDT_BASE (mjoin (word_bytes <$> gdt)) /\
  bytes_at m gdt_ptr (half_bytes GDT_LIMIT ++ word_bytes GDT_BASE).

(** The parts of the loader's data *)
Lemma loader_data_parts (m : flat) v :
  is_u32 v -> bytes_at m GDT_BASE (loader_data v) -> gdt_at m /\ word_at m total_mem_bytes v.
Proof.
  intros Hv Hb. unfold loader_data in Hb.
  apply bytes_at_app in Hb as [Hg Hb]; [|done]. apply bytes_at_app in Hb as [_ Hb]; [|done].
  apply bytes_at_app in Hb as [Hs Hp]; [|done]. split; [split; [exact Hg | exact Hp]|].
  split; [reflexivity|]. split; [exact Hv | exact Hs].
Qed.

Lemma gdt_load (m : flat) (i : nat) v :
  gdt_at m -> gdt !! i = Some v -> load32 m (GDT_BASE + 4 * Z.of_nat i) = Some v.
Proof.
  intros [Hg _] Hi. apply load32_any; [exact (word_of_list m _ _ _ _ Hg Hi)|].
  assert (Hall : Forall is_u32 gdt) by (repeat constructor; vm_compute; (discriminate || reflexivity)).
  exact (Forall_lookup_1 _ _ _ _ Hall Hi).
Qed.

Lemma gdt_at_mod lo hi (m m' : flat) : mod_only lo hi m m' -> gdt_ptr + 6 <= lo -> gdt_at m -> gdt_at m'.
Proof.
  intros Hm Hlo [Hg Hp]. split; (eapply bytes_at_mod; [eassumption | exact Hm | left]).
  - change (GDT_BASE + 32 <= lo). unfold gdt_ptr, total_mem_bytes, GDT_BASE in *. lia.
  - exact Hlo.
Qed.

(** Port 0x92, which switches the gate of address line 20, is none of the disk's. *)
Class A20 (dev : Type) `{Ata dev} : Prop := {
  a20_in d : exists v d', port_in 0x92 d = (v, d') /\ sector d' = sector d;
  a20_out v d : is_byte v -> sector (port_out 0x92 v d) = sector d;
}.

Section unpaged_runs.
  Context {dev : Type} `{A20 dev}.
  Implicit Types s : x86 flat dev.
  Implicit Types m : flat.
  Implicit Types d : dev.

(** The descriptors of code, data and video *)
Lemma descriptor_run (k : nat) low high (Q : Z * Z -> pc flat dev -> Prop) r m d o s r0 r3 :
  (k < 4)%nat -> gdt_at m -> gdt !! (2 * k)%nat = Some low -> gdt !! (2 * k + 1)%nat = Some high ->
  Q (low, high) (Pc (after r m d o s) r0 r3 GDT_LIMIT GDT_BASE) ->
  wp (descriptor (8 * Z.of_nat k)) Q (Pc (after r m d o s) r0 r3 GDT_LIMIT GDT_BASE).
Proof.
  intros Hk Hg Elow Ehigh HQ. replace (8 * (8 * Z.of_nat k / 8)) with (4 * Z.of_nat (2 * k)).
  2: { rewrite (Z.mul_comm 8 (Z.of_nat k)), Z.div_mul by lia. lia. }
  assert (E8 : 8 * (8 * Z.of_nat k / 8) = 4 * Z.of_nat (2 * k)).
  { rewrite (Z.mul_comm 8 (Z.of_nat k)), Z.div_mul by lia. lia. }
  pose proof (gdt_load m (2 * k) low Hg Elow) as L0. pose proof (gdt_load m (2 * k + 1) high Hg Ehigh) as L1.
  apply (wp_descriptor _ low high); rewrite ?E8; unfold GDT_LIMIT, GDT_SIZE, GDT_BASE, LOADER_BASE_ADDR, is_u32 in *;
    try lia; [exact L0 | | exact HQ].
  replace (0x900 + 4 * Z.of_nat (2 * k) + 4) with (0x900 + 4 * Z.of_nat (2 * k + 1)) by lia. exact L1.
Qed.

Lemma jmp_far_run (Q : unit -> pc flat dev -> Prop) r m d o s r0 r3 :
  gdt_at m ->
  Q tt (Pc (after r m d o (set_control SELECTOR_CODE (x_eip s) (x_eflags s) s)) r0 r3 GDT_LIMIT GDT_BASE) ->
  wp (jmp_far SELECTOR_CODE) Q (Pc (after r m d o s) r0 r3 GDT_LIMIT GDT_BASE).
Proof.
  intros Hg HQ. unfold jmp_far. apply wp_bind. eapply (descriptor_run 1); [lia | exact Hg | reflexivity | reflexivity |].
  exact HQ.
Qed.

Lemma data_segment_run (Q : unit -> pc flat dev -> Prop) r m d o s r0 r3 :
  gdt_at m -> Q tt (Pc (after r m d o s) r0 r3 GDT_LIMIT GDT_BASE) ->
  wp (data_segment true SELECTOR_DATA) Q (Pc (after r m d o s) r0 r3 GDT_LIMIT GDT_BASE).
Proof.
  intros Hg HQ. unfold data_segment. apply wp_bind.
  eapply (descriptor_run 2); [lia | exact Hg | reflexivity | reflexivity |]. exact HQ.
Qed.

Lemma video_segment_run (Q : unit -> pc flat dev -> Prop) r m d o s r0 r3 :
  gdt_at m -> Q tt (Pc (after r m d o s) r0 r3 GDT_LIMIT GDT_BASE) ->
  wp (data_segment false SELECTOR_VIDEO) Q (Pc (after r m d o s) r0 r3 GDT_LIMIT GDT_BASE).
Proof.
  intros Hg HQ. unfold data_segment. apply wp_bind.
  eapply (descriptor_run 3); [lia | exact Hg | reflexivity | reflexivity |]. exact HQ.
Qed.

Lemma lgdt_run m base bits (Q : unit -> pc flat dev -> Prop) r d o s r0 r3 l b :
  bytes_at m gdt_ptr (half_bytes GDT_LIMIT ++ word_bytes base) -> is_u32 base -> base < 2 ^ bits ->
  Q tt (Pc (after r m d o s) r0 r3 GDT_LIMIT base) ->
  wp (lgdt bits gdt_ptr) Q (Pc (after r m d o s) r0 r3 l b).
Proof.
  intros Hb Hu Hbits HQ. apply bytes_at_app in Hb as [Hl Hw]; [|done]. unfold lgdt.
  apply wp_bind, wp_cpu. eapply wp_load_half; [exact Hl | done|].
  apply wp_bind, wp_cpu. eapply (wp_load_word _ _ _ _ _ _ base); [exact Hw | exact Hu|].
  unfold wp, modify. rewrite Z.mod_small; [exact HQ | unfold is_u32 in Hu; lia].
Qed.

Lemma protected_mode_run (Q : unit -> pc flat dev -> Prop) a c dx bx bp si di m d o s r0 r3 l b :
  gdt_at m -> is_u32 r0 ->
  (forall a' d' o', sector d' = sector d ->
    Q tt (Pc (after (Regs a' c dx bx bp si di) m d' o' (set_control SELECTOR_CODE (x_eip s) (x_eflags s) s))
      (Z.lor r0 1) r3 GDT_LIMIT GDT_BASE)) ->
  wp protected_mode Q (Pc (after (Regs a c dx bx bp si di) m d o s) r0 r3 l b).
Proof.
  intros Hg Hr0 HQ. unfold protected_mode. destruct (a20_in d) as (v & d1 & E & S1).
  apply wp_bind, wp_cpu, wp_bind, wp_bind. eapply wp_in8; [exact E|]. x_steps.
  apply wp_bind, (lgdt_run _ GDT_BASE); [apply Hg | vm_compute; split; [discriminate | reflexivity] | vm_compute; reflexivity|].
  unfold mov_from_cr0, mov_to_cr0.
  apply wp_bind, wp_bind, wp_gets, wp_cpu. x_steps. apply wp_bind, wp_cpu. x_steps.
  apply wp_bind, wp_bind, wp_cpu. x_steps. cbn [cr0]. rewrite (u32_small r0), u32_small by auto using lor_u32, u32_one.
  apply wp_modify. cbn [pc_cpu cr3 gdtr_limit gdtr_base]. apply jmp_far_run; [done|]. apply HQ.
  rewrite a20_out by apply u8_range. exact S1.
Qed.

(** What the loader writes to its table and to the pointer to it *)
Definition gdt_writes : list (Z * Z) :=
  ([(gdt_ptr, GDT_LIMIT)] ++ [(gdt_ptr + 1, GDT_LIMIT / 2 ^ 8)] ++ word_writes (gdt_ptr + 2) GDT_BASE) ++
  word_writes (GDT_BASE + 0x18 + 4) video_desc_high ++ word_writes (gdt_ptr + 2) (KERNEL_BASE + GDT_BASE).

Lemma writable_mapped m a n : writable m a n -> mapped a (a + n) m.
Proof. intros (_ & _ & Hw) x Hx. destruct (Hw x Hx) as (_ & b & E & _). by eexists. Qed.

Lemma sgdt_run m (Q : unit -> pc flat dev -> Prop) r d o s r0 r3 :
  mapped gdt_ptr (gdt_ptr + 6) m ->
  Q tt (Pc (after r (write_all m ([(gdt_ptr, GDT_LIMIT)] ++ [(gdt_ptr + 1, GDT_LIMIT / 2 ^ 8)] ++
    word_writes (gdt_ptr + 2) GDT_BASE)) d o s) r0 r3 GDT_LIMIT GDT_BASE) ->
  wp (sgdt gdt_ptr) Q (Pc (after r m d o s) r0 r3 GDT_LIMIT GDT_BASE).
Proof.
  intros Hm HQ. unfold sgdt. apply wp_bind, wp_gets, wp_bind, wp_gets, wp_cpu. cbn [gdtr_limit gdtr_base].
  unfold store_half. apply wp_bind, wp_bind, wp_store_byte_flat; [apply Hm; lia | unfold is_byte; vm_compute; split; (discriminate || reflexivity)|].
  rewrite u32_small by (vm_compute; split; (discriminate || reflexivity)).
  apply wp_store_byte_flat; [apply (mapped_writes _ _ _ _ Hm); lia | vm_compute; split; (discriminate || reflexivity)|].
  rewrite u32_small by (vm_compute; split; (discriminate || reflexivity)). rewrite <- write_all_app.
  apply wp_store_word_flat; [intros x Hx; apply (mapped_writes _ _ _ _ Hm); lia | vm_compute; split; (discriminate || reflexivity)|].
  rewrite <- write_all_app, <- app_assoc. exact HQ.
Qed.

Lemma move_gdt_run m (Q : unit -> x86 flat dev -> Prop) a c dx b bp si di d o s :
  mapped gdt_ptr (gdt_ptr + 6) m -> mapped GDT_BASE (GDT_BASE + 32) m ->
  word_in m (gdt_ptr + 2) = Some GDT_BASE -> word_in m (GDT_BASE + 0x18 + 4) = Some DESC_VIDEO_HIGH4 ->
  Q tt (after (Regs a c dx GDT_BASE bp si di) (write_all m (word_writes (GDT_BASE + 0x18 + 4) video_desc_high ++
    word_writes (gdt_ptr + 2) (KERNEL_BASE + GDT_BASE))) d o s) ->
  wp move_gdt Q (after (Regs a c dx b bp si di) m d o s).
Proof.
  intros Hp Hg Ep Ev HQ. unfold move_gdt.
  apply wp_bind, wp_bind. eapply wp_load_word_in; [exact Ep|]. x_steps.
  change (u32 GDT_BASE) with GDT_BASE. change (u32 (GDT_BASE + 0x18 + 4)) with (GDT_BASE + 0x18 + 4).
  apply wp_bind. eapply wp_load_word_in; [exact Ev|]. change (Z.lor DESC_VIDEO_HIGH4 0xc0000000) with video_desc_high.
  apply wp_store_word_flat; [intros x Hx; apply Hg; lia | vm_compute; split; (discriminate || reflexivity)|].
  apply wp_bind. eapply wp_load_word_in.
  { rewrite word_in_other by (unfold gdt_ptr, total_mem_bytes, GDT_BASE, LOADER_BASE_ADDR; lia). exact Ep. }
  change (u32 (GDT_BASE + 0xc0000000)) with (KERNEL_BASE + GDT_BASE).
  apply wp_store_word_flat; [intros x Hx; apply (mapped_writes _ _ _ _ Hp); lia |
    vm_compute; split; (discriminate || reflexivity)|].
  rewrite <- write_all_app. exact HQ.
Qed.

(** The segments up to the disk *)
Definition segments_set s : x86 flat dev :=
  set_bottom LOADER_STACK_TOP []
    (set_sregs (SRegs SELECTOR_DATA SELECTOR_DATA (fs (x_sregs s)) SELECTOR_VIDEO) s).

Lemma load_selectors_run (Q : unit -> pc flat dev -> Prop) a c dx bx bp si di m d o s r0 r3 :
  gdt_at m ->
  (forall a', Q tt (Pc (after (Regs a' c dx bx bp si di) m d o (segments_set s)) r0 r3 GDT_LIMIT GDT_BASE)) ->
  wp load_selectors Q (Pc (after (Regs a c dx bx bp si di) m d o s) r0 r3 GDT_LIMIT GDT_BASE).
Proof.
  intros Hg HQ. unfold load_selectors. apply wp_bind, wp_cpu. x_steps.
  apply wp_bind, wp_bind, wp_cpu. x_steps. change (u16 SELECTOR_DATA) with SELECTOR_DATA.
  apply wp_bind, data_segment_run; [done|]. apply wp_cpu. x_steps.
  apply wp_bind, wp_bind, wp_cpu. x_steps. change (u16 SELECTOR_DATA) with SELECTOR_DATA.
  apply wp_bind, data_segment_run; [done|]. apply wp_cpu. x_steps.
  apply wp_bind, wp_bind, wp_cpu. x_steps. change (u16 SELECTOR_DATA) with SELECTOR_DATA.
  apply data_segment_run; [done|].
  apply wp_bind, wp_cpu, wp_modify.
  match goal with |- context [set_bottom ?v ?l (after ?r m d o ?t)] =>
    change (set_bottom v l (after r m d o t)) with (after r m d o (set_bottom v l t)) end.
  apply wp_bind, wp_cpu. x_steps.
  apply wp_bind, wp_cpu. x_steps. change (u16 SELECTOR_VIDEO) with SELECTOR_VIDEO.
  apply wp_bind, video_segment_run; [done|]. apply wp_cpu. x_steps. exact (HQ _).
Qed.

(** What [p_mode_start] needs in memory *)
Record loader_memory m : Prop := {
  lm_gdt : gdt_at m;
  lm_file : writable m KERNEL_BIN_BASE_ADDR IMAGE;
  lm_tables : writable m PAGE_DIR_TABLE_POS 0x2000;
}.

(** The memory that it leaves, [m1] being the memory with the kernel's file *)
Definition tables_and_gdt m1 : flat := write_all (write_all m1 setup_page_writes) gdt_writes.

(** What [move_gdt] finds after [sgdt] *)
Lemma gdt_found m1 :
  gdt_at m1 ->
  let m2 := write_all (write_all m1 setup_page_writes)
    ([(gdt_ptr, GDT_LIMIT)] ++ [(gdt_ptr + 1, GDT_LIMIT / 2 ^ 8)] ++ word_writes (gdt_ptr + 2) GDT_BASE) in
  word_in m2 (gdt_ptr + 2) = Some GDT_BASE /\ word_in m2 (GDT_BASE + 0x18 + 4) = Some DESC_VIDEO_HIGH4.
Proof.
  intros [Hg _] m2. unfold m2. rewrite app_assoc, write_all_app. split.
  - apply word_in_written. vm_compute. split; (discriminate || reflexivity).
  - rewrite word_in_other by (unfold gdt_ptr, total_mem_bytes, GDT_BASE, LOADER_BASE_ADDR; lia).
    rewrite <- (word_in_bytes m1 (GDT_BASE + 0x18 + 4)).
    + apply word_in_ext. intros i Hi. rewrite write_all_other.
      * apply setup_low. unfold GDT_BASE, LOADER_BASE_ADDR, LOW_MEM. lia.
      * repeat constructor; cbn; unfold gdt_ptr, total_mem_bytes, GDT_BASE, LOADER_BASE_ADDR; lia.
    + exact (word_of_list m1 _ _ 7 _ Hg eq_refl).
    + vm_compute. split; (discriminate || reflexivity).
Qed.

Lemma prepare_paging_run (Q : unit -> pc flat dev -> Prop) r m1 d o s r0 r3 :
  gdt_at m1 -> mapped PAGE_DIR_TABLE_POS (PAGE_DIR_TABLE_POS + 0x2000) m1 -> is_u32 r0 -> is_u32 (x_eip s) ->
  (forall r', ebp r' = ebp r ->
    Q tt (Pc (after r' (tables_and_gdt m1) d o (set_bottom (x_bottom s + 0xc0000000) (x_stack s) s))
      (Z.lor r0 0x80000000) PAGE_DIR_TABLE_POS GDT_LIMIT GDT_BASE)) ->
  wp prepare_paging Q (Pc (after r m1 d o s) r0 r3 GDT_LIMIT GDT_BASE).
Proof.
  intros Hg Htab Hr0 Hip HQ. destruct (gdt_found m1 Hg) as [Ep Ev]. pose proof Hg as [Hg1 Hp1].
  assert (Hmg : mapped GDT_BASE (GDT_BASE + 32) m1) by exact (writable_mapped _ _ _ (bytes_at_writable _ _ _ Hg1)).
  assert (Hmp : mapped gdt_ptr (gdt_ptr + 6) m1) by exact (writable_mapped _ _ _ (bytes_at_writable _ _ _ Hp1)).
  unfold prepare_paging. apply wp_bind, wp_cpu, wp_call.
  eapply setup_page_code_run; [exact Htab | reflexivity|]. intros r2 Hbp. rewrite returned by done.
  apply wp_bind, sgdt_run; [now apply mapped_writes|].
  destruct r2 as [a2 c2 dx2 bx2 bp2 si2 di2].
  apply wp_bind, wp_cpu, move_gdt_run; [now do 2 apply mapped_writes.. | exact Ep | exact Ev|].
  rewrite <- write_all_app. fold gdt_writes.
  change (write_all (write_all m1 setup_page_writes) gdt_writes) with (tables_and_gdt m1).
  apply wp_bind, wp_cpu, wp_modify.
  set (r2 := Regs a2 c2 dx2 GDT_BASE bp2 si2 di2).
  match goal with |- context [set_bottom ?v ?l (after r2 ?m d o s)] =>
    change (set_bottom v l (after r2 m d o s)) with (after r2 m d o (set_bottom (x_bottom s + 0xc0000000) (x_stack s) s)) end.
  unfold r2. apply wp_bind, wp_cpu. x_steps. change (u32 PAGE_DIR_TABLE_POS) with PAGE_DIR_TABLE_POS.
  unfold mov_to_cr3, mov_to_cr0, mov_from_cr0. apply wp_bind, wp_bind, wp_cpu. x_steps. apply wp_modify.
  apply wp_bind, wp_bind, wp_gets, wp_cpu. x_steps. apply wp_bind, wp_cpu. x_steps.
  apply wp_bind, wp_cpu. x_steps. apply wp_modify. cbn [pc_cpu cr0 cr3 gdtr_limit gdtr_base].
  assert (Hu : is_u32 (Z.lor r0 0x80000000)) by (apply lor_u32; [exact Hr0 | unfold is_u32; lia]).
  rewrite (u32_small r0 Hr0), (u32_small _ Hu). apply HQ. exact Hbp.
Qed.

Lemma p_mode_start_run (Q : unit -> pc flat dev -> Prop) a c dx bx bp si di m d o s r0 r3 :
  loader_memory m -> gap = O -> is_u32 r0 -> is_u32 (x_eip s) ->
  (forall r' m1 d' o', ebp r' = bp -> sector d' = sector d ->
    bytes_at m1 KERNEL_BIN_BASE_ADDR (disk_bytes d KERNEL_START_SECTOR 200) ->
    mod_only KERNEL_BIN_BASE_ADDR (KERNEL_BIN_BASE_ADDR + IMAGE) m m1 ->
    Q tt (Pc (after r' (tables_and_gdt m1) d' o' (set_bottom (LOADER_STACK_TOP + 0xc0000000) [] (segments_set s)))
      (Z.lor r0 0x80000000) PAGE_DIR_TABLE_POS GDT_LIMIT GDT_BASE)) ->
  wp p_mode_start Q (Pc (after (Regs a c dx bx bp si di) m d o s) r0 r3 GDT_LIMIT GDT_BASE).
Proof.
  intros [Hgdt Hfile Htab] Hgap Hr0 Hip HQ. unfold p_mode_start.
  apply wp_bind, load_selectors_run; [done|]. intros a1.
  apply wp_bind, wp_cpu. x_steps. change (u32 KERNEL_START_SECTOR) with 9.
  change (u32 KERNEL_BIN_BASE_ADDR) with KERNEL_BIN_BASE_ADDR. change (u32 200) with 200.
  apply wp_call. eapply wp_mono.
  { eapply (rd_disk_m_32_run _ _ _ _ _ 9 200 KERNEL_BIN_BASE_ADDR); try reflexivity; try lia. exact Hfile. }
  intros [] s1 (r1 & m1 & d1 & o1 & -> & Hbp & HS & Hb & Hm).
  rewrite (returned (segments_set s)) by exact Hip.
  apply prepare_paging_run.
  - eapply gdt_at_mod; [exact Hm | vm_compute; discriminate | exact Hgdt].
  - eapply (writable_mapped _ _ 0x2000), writable_mod; [exact Htab | exact Hm].
  - done.
  - exact Hip.
  - intros r' Hbp'. apply HQ; [now rewrite Hbp', Hbp | exact HS | exact Hb | exact Hm].
Qed.

End unpaged_runs.

(** *** The paged memory that the loader makes *)

Definition kernel_memory m1 : paged := Paged (tables_and_gdt m1) PAGE_DIR_TABLE_POS.

Local Ltac gdt_lia := unfold gdt_ptr, total_mem_bytes, GDT_BASE, LOADER_BASE_ADDR, LOW_MEM in *; lia.

Lemma gdt_writes_other m a :
  a < gdt_ptr \/ gdt_ptr + 6 <= a -> a < GDT_BASE + 0x18 + 4 \/ GDT_BASE + 0x18 + 8 <= a ->
  write_all m gdt_writes !! a = m !! a.
Proof.
  intros Hp Hv. unfold gdt_writes. rewrite 2!write_all_app, 2!write_word_other by gdt_lia.
  rewrite 2!write_all_app, write_word_other by gdt_lia. rewrite !write_all_other; [done | |];
    repeat constructor; cbn; gdt_lia.
Qed.

Lemma gdt_writes_pointer m :
  word_in (write_all m gdt_writes) (gdt_ptr + 2) = Some (KERNEL_BASE + GDT_BASE).
Proof.
  unfold gdt_writes. rewrite app_assoc, write_all_app. apply word_in_written.
  vm_compute. split; (discriminate || reflexivity).
Qed.

Lemma gdt_writes_video m :
  word_in (write_all m gdt_writes) (GDT_BASE + 0x18 + 4) = Some video_desc_high.
Proof.
  unfold gdt_writes. rewrite app_assoc, write_all_app, word_in_other by gdt_lia. rewrite write_all_app.
  apply word_in_written. vm_compute. split; (discriminate || reflexivity).
Qed.

Lemma gdt_writes_limit m :
  half_at (fun a => default 0 (write_all m gdt_writes !! a)) gdt_ptr = GDT_LIMIT.
Proof.
  unfold gdt_writes, half_at. rewrite 2!write_all_app, 4!write_word_other by gdt_lia.
  rewrite 2!write_all_app, 2!write_word_other by gdt_lia. unfold write_all. cbn [foldl fst snd].
  rewrite lookup_insert_ne, !lookup_insert_eq by gdt_lia. reflexivity.
Qed.

Lemma tables_and_gdt_low m1 a :
  a < LOW_MEM -> a < gdt_ptr \/ gdt_ptr + 6 <= a -> a < GDT_BASE + 0x18 + 4 \/ GDT_BASE + 0x18 + 8 <= a ->
  tables_and_gdt m1 !! a = m1 !! a.
Proof. intros Hl Hp Hv. unfold tables_and_gdt. rewrite gdt_writes_other by done. now apply setup_low. Qed.

Lemma tables_and_gdt_high m1 a :
  LOW_MEM <= a -> tables_and_gdt m1 !! a = write_all m1 setup_page_writes !! a.
Proof. intros Ha. unfold tables_and_gdt. rewrite gdt_writes_other by gdt_lia. reflexivity. Qed.

Lemma boot_tables_over (m m' : flat) c :
  (forall a, LOW_MEM <= a -> m' !! a = m !! a) -> boot_tables (Paged m c) -> boot_tables (Paged m' c).
Proof.
  intros He. apply boot_tables_keeps. split; [done|]. intros a Ha. unfold pread8. cbn [p_ram]. now rewrite He.
Qed.

Lemma kernel_memory_boot_tables m1 : boot_tables (kernel_memory m1).
Proof.
  unfold kernel_memory. apply (boot_tables_over (write_all m1 setup_page_writes)).
  - intros a Ha. now apply tables_and_gdt_high.
  - exact (setup_page_boot_tables m1).
Qed.

Lemma kernel_memory_view m1 : view (kernel_memory m1) (pread8 (kernel_memory m1)).
Proof. split; [apply boot_low_maps, kernel_memory_boot_tables | done]. Qed.

Lemma long_at_word (m : flat) c a v : word_in m a = Some v -> long_at (pread8 (Paged m c)) a = v.
Proof.
  unfold word_in, long_at, pread8. cbn.
  destruct (m !! a), (m !! (a + 1)), (m !! (a + 2)), (m !! (a + 3)); cbn; congruence.
Qed.

(** What the CPU finds through the new pointer *)
Record table_facts (g : Z -> Z) : Prop := {
  tf_limit : half_at g gdt_ptr = GDT_LIMIT;
  tf_base : long_at g (gdt_ptr + 2) = KERNEL_BASE + GDT_BASE;
  tf_code_low : long_at g (GDT_BASE + 8) = 0x0000FFFF;
  tf_code_high : long_at g (GDT_BASE + 8 + 4) = DESC_CODE_HIGH4;
  tf_video_low : long_at g (GDT_BASE + 0x18) = VIDEO_DESC_low;
  tf_video_high : long_at g (GDT_BASE + 0x18 + 4) = video_desc_high;
}.

Lemma kernel_memory_table m1 : gdt_at m1 -> table_facts (pread8 (kernel_memory m1)).
Proof.
  intros [Hg Hp].
  assert (Hword : forall a (i : nat) v, a = GDT_BASE + 4 * Z.of_nat i -> gdt !! i = Some v -> is_u32 v ->
    (i < 7)%nat -> long_at (pread8 (kernel_memory m1)) a = v).
  { intros a i v -> Hi Hv Hlt. apply long_at_word.
    rewrite <- (word_in_bytes m1 _ v (word_of_list m1 _ _ _ _ Hg Hi) Hv). apply word_in_ext. intros k Hk.
    apply tables_and_gdt_low; gdt_lia. }
  split.
  - apply gdt_writes_limit.
  - apply long_at_word, gdt_writes_pointer.
  - apply (Hword _ 2%nat); (reflexivity || lia || (vm_compute; split; (discriminate || reflexivity))).
  - apply (Hword _ 3%nat); (reflexivity || lia || (vm_compute; split; (discriminate || reflexivity))).
  - apply (Hword _ 6%nat); (reflexivity || lia || (vm_compute; split; (discriminate || reflexivity))).
  - apply long_at_word, gdt_writes_video.
Qed.

(** *** With paging *)

Section paged_runs.
  Context {dev : Type}.
  Implicit Types s : x86 paged dev.
  Implicit Types m : paged.

Lemma enter_kernel_run f g0 r m d o s r0 r3 l b :
  view m g0 -> table_facts g0 ->
  (forall i, 0 <= i < IMAGE -> g0 (KERNEL_BIN_BASE_ADDR + i) = f i) -> loadable f ->
  is_u32 (ebp r) -> is_u32 (x_eip s) ->
  wp enter_kernel (fun _ t => exists r' m', view m' (load_segments f (phdrs f) g0) /\ keeps_tables m m' /\
    t = Pc (after r' m' d o (set_control SELECTOR_CODE KERNEL_ENTRY_POINT (x_eflags s)
      (set_bottom 0xc009f000 [] s))) r0 r3 GDT_LIMIT (KERNEL_BASE + GDT_BASE))
    (Pc (after r m d o s) r0 r3 l b).
Proof.
  intros Hv [Hlim Hbase Hcl Hch Hvl Hvh] Hf Hload Hbp Hip. unfold enter_kernel, lgdt.
  apply wp_bind, wp_bind, wp_cpu, (wp_load_half_view _ _ _ _ _ g0);
    [done | vm_compute; discriminate | vm_compute; discriminate|].
  rewrite u32_small by (vm_compute; split; (discriminate || reflexivity)).
  apply wp_bind, wp_cpu, (wp_load_word_view _ _ _ _ _ g0);
    [done | vm_compute; discriminate | vm_compute; discriminate|].
  rewrite Hlim, Hbase. apply wp_modify. cbn [pc_cpu cr0 cr3].
  change ((KERNEL_BASE + GDT_BASE) mod 2 ^ 32) with (KERNEL_BASE + GDT_BASE).
  apply wp_bind. unfold jmp_far. apply wp_bind.
  change (8 * (SELECTOR_CODE / 8)) with 8.
  apply (wp_descriptor _ 0x0000FFFF DESC_CODE_HIGH4);
    [vm_compute; discriminate | vm_compute; split; (discriminate || reflexivity) |
     vm_compute; split; (discriminate || reflexivity) | | | ].
  - change (load32 m (KERNEL_BASE + (GDT_BASE + 8)) = Some 0x0000FFFF).
    rewrite (window_load32 m g0), Hcl; [done | done | gdt_lia..].
  - change (load32 m (KERNEL_BASE + (GDT_BASE + 8 + 4)) = Some DESC_CODE_HIGH4).
    rewrite (window_load32 m g0), Hch; [done | done | gdt_lia..].
  - change (usable true DESC_CODE_HIGH4 && flat_segment 0xffff DESC_CODE_HIGH4) with true. cbn iota.
    apply wp_cpu, wp_modify, wp_bind, wp_cpu. eapply wp_mono; [apply (kernel_init_run f g0); assumption|].
    intros _ s1 (r' & m' & -> & _ & Hv' & Hk). apply wp_bind, wp_cpu, wp_modify, wp_cpu, wp_modify.
    exists r', m'. split; [exact Hv'|]. split; [exact Hk | done].
Qed.

End paged_runs.

(** ** The whole *)

(** Below the segments memory is as it was. *)
Lemma load_segments_low f g a :
  loadable f -> a < 0x1100 -> load_segments f (phdrs f) g a = g a.
Proof.
  intros Hl Ha. replace a with (KERNEL_BASE + a - KERNEL_BASE) by lia. pose proof (lo_segments f Hl) as Hs.
  unfold load_segments. revert g. induction Hs as [|ph l Hph _ IH]; intros g; [done|]. cbn [foldl].
  rewrite IH. apply load_segment_other. intros [Hne Hr]. destruct (Hph Hne). lia.
Qed.

Lemma long_at_low f g a : loadable f -> a + 4 <= 0x1100 -> long_at (load_segments f (phdrs f) g) a = long_at g a.
Proof. intros Hl Ha. unfold long_at. now rewrite !load_segments_low by (done || lia). Qed.

Section whole_theorem.
  Context {dev : Type} `{A20 dev}.

(** The machine at [.mem_get_ok], with [v] bytes of memory found and the file [f]
    on the disk from sector 9 on *)
Record ready_to_load (f : Z -> Z) (v : Z) (s : pc flat dev) : Prop := {
  rl_memory : loader_memory (x_mem (pc_cpu s));
  rl_size : word_at (x_mem (pc_cpu s)) total_mem_bytes v;
  rl_regs : is_u32 (cr0 s) /\ is_u32 (ebp (x_regs (pc_cpu s))) /\ is_u32 (x_eip (pc_cpu s));
  rl_drive : gap = O;
  rl_file : forall i, 0 <= i < IMAGE ->
    disk_bytes (x_dev (pc_cpu s)) KERNEL_START_SECTOR 200 !! Z.to_nat i = Some (f i);
  rl_elf : loadable f;
}.

(** The machine that the kernel is entered on *)
Record kernel_entered (f : Z -> Z) (v : Z) (s : pc flat dev) (t : pc paged dev) : Prop := {
  ke_entry : x_eip (pc_cpu t) = KERNEL_ENTRY_POINT;
  ke_stack : x_stack (pc_cpu t) = [] /\ esp (pc_cpu t) = 0xc009f000;
  ke_segments : x_cs (pc_cpu t) = SELECTOR_CODE /\
    x_sregs (pc_cpu t) = SRegs SELECTOR_DATA SELECTOR_DATA (fs (x_sregs (pc_cpu s))) SELECTOR_VIDEO;
  ke_modes : Z.testbit (cr0 t) 0 = true /\ Z.testbit (cr0 t) 31 = true /\ cr3 t = PAGE_DIR_TABLE_POS;
  ke_tables : boot_tables (x_mem (pc_cpu t));
  ke_kernel : at_link_addresses f (x_mem (pc_cpu t));
  ke_size : load32 (x_mem (pc_cpu t)) total_mem_bytes = Some v;
  ke_gdt : gdtr_limit t = GDT_LIMIT /\ gdtr_base t = KERNEL_BASE + GDT_BASE;
  ke_video : load32 (x_mem (pc_cpu t)) (KERNEL_BASE + (GDT_BASE + 8 * 3)) = Some VIDEO_DESC_low /\
    load32 (x_mem (pc_cpu t)) (KERNEL_BASE + (GDT_BASE + 8 * 3 + 4)) = Some video_desc_high;
}.

Lemma kernel_memory_file m m1 d f i :
  mod_only KERNEL_BIN_BASE_ADDR (KERNEL_BIN_BASE_ADDR + IMAGE) m m1 ->
  bytes_at m1 KERNEL_BIN_BASE_ADDR (disk_bytes d KERNEL_START_SECTOR 200) -> 0 <= i < IMAGE ->
  disk_bytes d KERNEL_START_SECTOR 200 !! Z.to_nat i = Some (f i) ->
  pread8 (kernel_memory m1) (KERNEL_BIN_BASE_ADDR + i) = f i.
Proof.
  intros Hm Hb Hi E. unfold pread8. cbn [p_ram kernel_memory].
  rewrite tables_and_gdt_low by (unfold KERNEL_BIN_BASE_ADDR, IMAGE in *; gdt_lia).
  destruct (bytes_at_lookup _ _ _ _ _ Hb E) as (_ & _ & El). rewrite Z2Nat.id in El by lia.
  cbn in El. unfold flat_load8 in El. now rewrite El.
Qed.

Lemma kernel_memory_size (m m1 : flat) v :
  mod_only KERNEL_BIN_BASE_ADDR (KERNEL_BIN_BASE_ADDR + IMAGE) m m1 -> word_at m total_mem_bytes v ->
  long_at (pread8 (kernel_memory m1)) total_mem_bytes = v.
Proof.
  intros Hm (_ & Hv & Hb). apply long_at_word.
  assert (Hb1 : bytes_at m1 total_mem_bytes (word_bytes v))
    by (eapply bytes_at_mod; [exact Hb | exact Hm | left; vm_compute; discriminate]).
  rewrite <- (word_in_bytes m1 _ v Hb1 Hv). apply word_in_ext. intros i Hi. apply tables_and_gdt_low; gdt_lia.
Qed.

Lemma cr0_bits c : Z.testbit (Z.lor (Z.lor c 1) 0x80000000) 0 = true /\
  Z.testbit (Z.lor (Z.lor c 1) 0x80000000) 31 = true.
Proof. rewrite !Z.lor_spec. change (Z.testbit 0x80000000 31) with true. cbn. now rewrite !orb_true_r. Qed.

(** The memory in the end *)
Lemma loaded_memory (m m1 : flat) m3 f v :
  mod_only KERNEL_BIN_BASE_ADDR (KERNEL_BIN_BASE_ADDR + IMAGE) m m1 -> gdt_at m1 ->
  word_at m total_mem_bytes v -> loadable f ->
  view m3 (load_segments f (phdrs f) (pread8 (kernel_memory m1))) -> keeps_tables (kernel_memory m1) m3 ->
  boot_tables m3 /\ at_link_addresses f m3 /\ load32 m3 total_mem_bytes = Some v /\
  load32 m3 (KERNEL_BASE + (GDT_BASE + 8 * 3)) = Some VIDEO_DESC_low /\
  load32 m3 (KERNEL_BASE + (GDT_BASE + 8 * 3 + 4)) = Some video_desc_high.
Proof.
  intros Hm Hg Hsize Hl Hv Hk. destruct (kernel_memory_table m1 Hg) as [_ _ _ _ Hvl Hvh]. split_and!.
  - exact (boot_tables_keeps _ _ Hk (kernel_memory_boot_tables m1)).
  - now apply (loaded_at_link_addresses f (pread8 (kernel_memory m1))).
  - rewrite (view_load32 m3 _ _ Hv) by gdt_lia. f_equal. rewrite long_at_low by (done || gdt_lia).
    now apply (kernel_memory_size m).
  - rewrite (window_load32 m3 _ _ Hv) by gdt_lia. f_equal. rewrite long_at_low by (done || gdt_lia). exact Hvl.
  - rewrite (window_load32 m3 _ _ Hv) by gdt_lia. f_equal. rewrite long_at_low by (done || gdt_lia). exact Hvh.
Qed.

Lemma wp_unpaged {A} (f : M (pc flat dev) A) (Q : A -> machine dev -> Prop) p :
  wp f (fun a p' => Q a (Unpaged p')) p -> wp (unpaged f) Q (Unpaged p).
Proof. unfold wp, unpaged. destruct (f p); done. Qed.

Lemma wp_with_paging {A} (f : M (pc paged dev) A) (Q : A -> machine dev -> Prop) p :
  wp f (fun a p' => Q a (Paged_on p')) p -> wp (with_paging f) Q (Paged_on p).
Proof. unfold wp, with_paging. destruct (f p); done. Qed.

(** The state that [translate_from_now] makes *)
Lemma wp_translate r m1 d o s c0 (Q : unit -> machine dev -> Prop) :
  Q tt (Paged_on (Pc (after r (kernel_memory m1) d o (X86 (x_regs s) (x_sregs s) (x_cs s) (x_eip s) (x_eflags s)
      (x_bottom s) (x_stack s) (kernel_memory m1) d o))
    (Z.lor (Z.lor c0 1) 0x80000000) PAGE_DIR_TABLE_POS GDT_LIMIT GDT_BASE)) ->
  wp translate_from_now Q (Unpaged (Pc (after r (tables_and_gdt m1) d o s)
    (Z.lor (Z.lor c0 1) 0x80000000) PAGE_DIR_TABLE_POS GDT_LIMIT GDT_BASE)).
Proof.
  intros HQ. unfold wp, translate_from_now. cbn [cr0]. destruct (cr0_bits c0) as [-> ->]. exact HQ.
Qed.

(** C21: from the end of the memory probe on, with the kernel's ELF file on the
    disk from sector 9 and a drive that is never busy between two sectors, the
    loader switches to protected mode, reads the file, builds the page tables,
    switches paging on and enters the kernel at its entry point: with flat
    segments, the kernel's stack, the page tables that [setup_page] defines, every
    segment of the file at the address it is linked for, the size of memory where
    memory.c reads it and the video segment where print.S expects it. *)
Theorem load_kernel_enters f v s :
  ready_to_load f v s ->
  wp load_kernel (fun _ t => match t with Paged_on p => kernel_entered f v s p | Unpaged _ => False end)
    (Unpaged s).
Proof.
  intros [Hlm Hsize (Hc0 & Hbp & Hip) Hgap Hfile Hload]. destruct s as [c c0 c3 lim base]. cbn [pc_cpu cr0] in *.
  pose proof Hlm as [Hgdt Hw _]. rewrite <- (after_id c). destruct (x_regs c) as [a cx dx bx bp si di] eqn:Er.
  unfold load_kernel. apply wp_bind, wp_unpaged, protected_mode_run; [done | done|].
  intros a1 d1 o1 HS1. apply wp_bind, wp_unpaged, p_mode_start_run;
    [done | done | apply lor_u32; [done | exact u32_one] | exact Hip|].
  intros r2 m1 d2 o2 Hbp2 HS2 Hb Hm. apply wp_bind, wp_translate, wp_with_paging.
  assert (Hd : disk_bytes d1 KERNEL_START_SECTOR 200 = disk_bytes (x_dev c) KERNEL_START_SECTOR 200)
    by (unfold disk_bytes; now rewrite HS1).
  rewrite Hd in Hb. assert (Hg1 : gdt_at m1) by (eapply gdt_at_mod; [exact Hm | vm_compute; discriminate | exact Hgdt]).
  eapply wp_mono.
  { apply (enter_kernel_run f (pread8 (kernel_memory m1)));
      [| now apply kernel_memory_table | | exact Hload | | exact Hip].
    - apply kernel_memory_view.
    - intros i Hi. apply (kernel_memory_file (x_mem c) m1 (x_dev c)); [done | done | done | now apply Hfile].
    - rewrite Hbp2. exact Hbp. }
  intros [] t (r3 & m3 & Hv3 & Hk3 & ->).
  destruct (loaded_memory (x_mem c) m1 m3 f v Hm Hg1 Hsize Hload Hv3 Hk3) as (Ht & Hlink & Hs & Hv0 & Hv1).
  destruct (cr0_bits c0) as [B0 B31]. split; try assumption; cbn [pc_cpu cr0 cr3 gdtr_limit gdtr_base].
  - reflexivity.
  - now split.
  - now split.
  - now split.
  - now split.
  - split; [exact Hv0 | exact Hv1].
Qed.

End whole_theorem.


(** ** A machine *)

Section example.

(** The kernel's file is the one of Elf.v, on the disk from sector 9 on. *)
Fixpoint words_of (l : list Z) : list Z :=
  match l with b0 :: b1 :: l => b0 + 2 ^ 8 * b1 :: words_of l | _ => [] end.

Definition ex_kernel_disk : ata :=
  AtaDrive (fun lba => if lba =? KERNEL_START_SECTOR then words_of ex_elf else []) (Taskfile 0 0 0 0 0) [] 0.

#[local] Instance ex_Ports : Ports ata := ata_Ports 3 0.
#[local] Instance ex_Ata : Ata ata := ata_Ata 3 0 ex_first.
#[local] Instance ex_A20 : A20 ata.
Proof.
  split.
  - intros d. exists 0, d. done.
  - intros v d _. done.
Qed.

(** What 200 sectors from the kernel's on hold *)
Definition ex_file (i : Z) : Z :=
  default 0 (disk_bytes ex_kernel_disk KERNEL_START_SECTOR 200 !! Z.to_nat i).

(** Memory from 0x900 up to the end of the first two page tables, with the
    loader's data; 32 MiB have been found. *)
Definition ex_zeros : flat := gset_to_gmap 0 (list_to_set (seqZ GDT_BASE 0x101700)).
Definition ex_data : list Z := loader_data 0x2000000.
Definition ex_loaded : flat := flat_of GDT_BASE ex_data.
Definition ex_pc : pc flat ata :=
  Pc (X86 (Regs 0 0 0 0 0 0 0) (SRegs 0 0 0 0xb800) 0 0xc00 0x2 0x7c00 [] (ex_loaded ∪ ex_zeros) ex_kernel_disk [])
    0x10 0 0 0.

Lemma ex_zeros_ram a : GDT_BASE <= a < GDT_BASE + 0x101700 -> ex_zeros !! a = Some 0.
Proof.
  intros Ha. apply lookup_gset_to_gmap_Some. split; [|done]. apply elem_of_list_to_set, elem_of_seqZ. lia.
Qed.

Lemma ex_loaded_bytes : bytes_at ex_loaded GDT_BASE ex_data.
Proof. apply flat_check_bytes_at. vm_compute. reflexivity. Qed.

(** More memory beside it does not change what is in memory. *)
Lemma bytes_at_union (m1 m2 : flat) a l : bytes_at m1 a l -> bytes_at (m1 ∪ m2) a l.
Proof.
  intros (H0 & H1 & Hb). split; [done|]. split; [done|]. intros i b Hi. destruct (Hb i b Hi) as (Hbyte & (Hu & c & Ec & Hc) & El).
  assert (E : (m1 ∪ m2) !! (a + Z.of_nat i) = Some c) by now apply lookup_union_Some_l.
  split; [done|]. split; [split; [done|]; eauto|]. cbn in *. unfold flat_load8 in *. congruence.
Qed.

Lemma ex_loaded_checked : forallb (fun '(_, b) => (0 <=? b) && (b <? 256)) (map_to_list ex_loaded) = true.
Proof. vm_compute. reflexivity. Qed.

Lemma ex_ram a : GDT_BASE <= a < GDT_BASE + 0x101700 -> ram (ex_loaded ∪ ex_zeros) a.
Proof.
  intros Ha. split; [unfold is_u32, GDT_BASE, LOADER_BASE_ADDR in *; lia|].
  rewrite lookup_union, (ex_zeros_ram a Ha). destruct (ex_loaded !! a) as [c|] eqn:E.
  - exists c. split; [done|]. apply elem_of_map_to_list, list_elem_of_In in E.
    pose proof ex_loaded_checked as Hc. rewrite forallb_forall in Hc. apply Hc in E. cbv beta iota in E.
    unfold is_byte. lia.
  - exists 0. split; [done | unfold is_byte; lia].
Qed.

Lemma ex_writable a n : GDT_BASE <= a -> a + n <= GDT_BASE + 0x101700 -> writable (ex_loaded ∪ ex_zeros) a n.
Proof.
  intros H0 H1. unfold GDT_BASE, LOADER_BASE_ADDR in *. split; [lia|]. split; [lia|].
  intros x Hx. apply ex_ram. unfold GDT_BASE, LOADER_BASE_ADDR. lia.
Qed.

Lemma ex_data_parts :
  gdt_at (ex_loaded ∪ ex_zeros) /\ word_at (ex_loaded ∪ ex_zeros) total_mem_bytes 0x2000000.
Proof. apply loader_data_parts, bytes_at_union; [unfold is_u32; lia | exact ex_loaded_bytes]. Qed.

Lemma ex_file_length : length (disk_bytes ex_kernel_disk KERNEL_START_SECTOR 200) = Z.to_nat IMAGE.
Proof.
  unfold disk_bytes. rewrite length_words_bytes.
  destruct (sectors_words ex_kernel_disk KERNEL_START_SECTOR 200) as [E _]. change (Z.of_nat 200) with 200 in E.
  rewrite E. unfold IMAGE. lia.
Qed.

Lemma ex_file_at i : 0 <= i < IMAGE ->
  disk_bytes ex_kernel_disk KERNEL_START_SECTOR 200 !! Z.to_nat i = Some (ex_file i).
Proof.
  intros Hi. destruct (lookup_lt_is_Some_2 (disk_bytes ex_kernel_disk KERNEL_START_SECTOR 200) (Z.to_nat i)) as [b E].
  - rewrite ex_file_length. lia.
  - unfold ex_file. now rewrite E.
Qed.

Lemma ex_file_byte i : is_byte (ex_file i).
Proof.
  unfold ex_file. destruct (_ !! Z.to_nat i) as [b|] eqn:E; [|cbn; unfold is_byte; lia]. cbn.
  revert E. unfold disk_bytes, words_bytes. intros E. apply list_elem_of_lookup_2, list_elem_of_join in E as (l & Hb & Hl).
  apply list_elem_of_fmap in Hl as (w & -> & _). unfold half_bytes in Hb.
  rewrite !elem_of_cons in Hb. destruct Hb as [-> | [-> | Hb]]; [apply u8_range | apply u8_range | now apply not_elem_of_nil in Hb].
Qed.

Lemma ex_file_headers : e_phnum ex_file = 2 /\ e_phoff ex_file = 52 /\ e_phentsize ex_file = 32 /\
  phdrs ex_file = ex_phdrs.
Proof. vm_compute. done. Qed.

Lemma ex_file_loadable : loadable ex_file.
Proof.
  destruct ex_file_headers as (En & Eo & Es & Ep). split.
  - intros i _. apply ex_file_byte.
  - rewrite En. lia.
  - intros i Hi. unfold phdr_pos. rewrite En in Hi. rewrite Eo, Es. unfold IMAGE. lia.
  - rewrite Ep. exact ex_phdrs_ok.
Qed.

Lemma load_kernel_enters_witness :
  wp load_kernel (fun _ t => match t with Paged_on p => kernel_entered ex_file 0x2000000 ex_pc p | Unpaged _ => False end)
    (Unpaged ex_pc).
Proof.
  apply (load_kernel_enters ex_file 0x2000000 ex_pc). split.
  - split; [exact (proj1 ex_data_parts) | |]; apply ex_writable; vm_compute; discriminate.
  - exact (proj2 ex_data_parts).
  - unfold is_u32. cbn. lia.
  - reflexivity.
  - exact ex_file_at.
  - exact ex_file_loadable.
Defined.

End example.
