(* ===== verification/Mbr.v ===== *)
(** * Mbr: the boot sector, boot/mbr.S

    The BIOS loads the boot sector to 0x7c00 and jumps there in real mode.  It
    clears the screen, writes a greeting, reads the four sectors of the loader to
    0x900 and jumps into them.  The BIOS's video service, which is not part of the
    repository, is the class [Bios10]; the disk routine is the one of Disk.v. *)

From stdpp Require Import base numbers list strings gmap.
From S2P Require Import Prelude Machine FlatMemory Paging Kernel X86 Loader Disk Screen SetupPage Startup.
From Stdlib Require Import ZArith Lia.
Open Scope Z_scope.

(** ** The code *)

(** boot/include/boot.inc *)
Definition LOADER_START_SECTOR : Z := 0x2.

(** int 0x10 *)
Class Bios10 (mem dev : Type) : Type := int10 : M (x86 mem dev) unit.

Section code.
  Context {mem dev : Type} `{Memory mem} `{Ports dev} `{Bios10 mem dev}.
  Abbreviation X := (M (x86 mem dev)).

(** [mov byte [gs:off], b] in real mode *)
Definition gs_byte (off b : Z) : X unit := gs <- rds GS ;; store_byte (16 * gs + off) b.

(** The stack segment is cs as well; X86.v has no register for it. *)
Definition mbr_segments : X unit :=
  (cs <- gets x_cs ;; wr16 EAX cs) ;;;
  (ax <- rd16 EAX ;; wrs DS ax) ;;;
  (ax <- rd16 EAX ;; wrs ES ax) ;;;
  (ax <- rd16 EAX ;; wrs FS ax) ;;;
  modify (set_bottom 0x7c00 []) ;;;
  wr16 EAX 0xb800 ;;;
  (ax <- rd16 EAX ;; wrs GS ax).

Definition mbr_screen : X unit :=
  wr16 EAX 0x0600 ;;;
  wr16 EBX 0x0700 ;;;
  wr16 ECX 0 ;;;
  wr16 EDX 0x184f ;;;
  int10 ;;;
  gs_byte 0x00 49 ;;; gs_byte 0x01 0xA4 ;;;
  gs_byte 0x02 32 ;;; gs_byte 0x03 0xA4 ;;;
  gs_byte 0x04 77 ;;; gs_byte 0x05 0xA4 ;;;
  gs_byte 0x06 66 ;;; gs_byte 0x07 0xA4 ;;;
  gs_byte 0x08 82 ;;; gs_byte 0x09 0xA4.

Definition MBR : X unit :=
  mbr_segments ;;;
  mbr_screen ;;;
  wr EAX LOADER_START_SECTOR ;;;
  wr16 EBX LOADER_BASE_ADDR ;;;
  wr16 ECX 4 ;;;
  call rd_disk_m_16 ;;;
  modify (fun s => set_control (x_cs s) (LOADER_BASE_ADDR + 0x300) (x_eflags s) s).

End code.

(** ** The video service *)

(** The video memory in text mode: 2000 cells of a character and an attribute *)
Definition VIDEO_TEXT : Z := 0xb8000.
Definition blank_cells : list Z := mjoin (replicate 2000 [0x20; 0x07]).

(** Function 6 with al = 0 blanks the window from (cl, ch) to (dl, dh) with the
    attribute in bh.  The law is that of the whole screen. *)
Class Bios10Spec (mem dev : Type) `{RamSpec mem} `{Ata dev} `{Bios10 mem dev} : Prop := {
  int10_clear (s : x86 mem dev) :
    lo16 (eax (x_regs s)) = 0x0600 -> lo16 (ebx (x_regs s)) = 0x0700 -> lo16 (ecx (x_regs s)) = 0 ->
    lo16 (edx (x_regs s)) = 0x184f -> writable (x_mem s) VIDEO_TEXT 4000 ->
    exists r m d o, int10 s = Ret tt (after r m d o s) /\ sector d = sector (x_dev s) /\
      bytes_at m VIDEO_TEXT blank_cells /\ mod_only VIDEO_TEXT (VIDEO_TEXT + 4000) (x_mem s) m;
}.

(** ** Lemmas *)

(** The greeting, with its attribute *)
Definition greeting : list Z :=
  [49; 0xA4; 32; 0xA4; 77; 0xA4; 66; 0xA4; 82; 0xA4].

Section runs.
  Context {mem dev : Type} `{Bios10Spec mem dev}.
  Implicit Types s : x86 mem dev.
  Implicit Types m : mem.
  Implicit Types d : dev.

(** The cells [l] are on the screen, and nothing else has changed since [m0]. *)
Definition on_screen m0 (l : list Z) m : Prop :=
  bytes_at m VIDEO_TEXT l /\ length l = 4000%nat /\ mod_only VIDEO_TEXT (VIDEO_TEXT + 4000) m0 m.

(** One more byte of the greeting *)
Lemma wp_gs_byte r m d o s m0 (i : nat) b off l (Q : unit -> x86 mem dev -> Prop) :
  gs (x_sregs s) = 0xb800 -> on_screen m0 l m -> off = Z.of_nat i -> (i < 4000)%nat -> is_byte b ->
  (forall m', on_screen m0 (<[i := b]> l) m' -> Q tt (after r m' d o s)) ->
  wp (gs_byte off b) Q (after r m d o s).
Proof.
  intros Hgs (Hb & Hlen & Hm0) -> Hi Hbyte HQ. unfold gs_byte. x_steps. rewrite Hgs.
  change (16 * 0xb800) with VIDEO_TEXT. destruct (lookup_lt_is_Some_2 l i) as [c Hc]; [lia|].
  destruct (bytes_at_lookup _ _ _ _ _ Hb Hc) as (_ & Hr & _).
  destruct (store8_ram m (VIDEO_TEXT + Z.of_nat i) b Hr Hbyte) as (m' & E & L & Hm).
  unfold wp, store_byte. cbn [x_mem after]. rewrite (u8_small b Hbyte), E. apply HQ. split; [|split].
  - apply (bytes_at_insert m m'); [done | lia | done..].
  - now rewrite length_insert.
  - eapply mod_only_trans; [exact Hm0|]. eapply mod_only_weaken; [exact Hm | lia | lia].
Qed.

(** The screen with the greeting *)
Definition mbr_cells : list Z := greeting ++ drop 10 blank_cells.

Lemma greeting_written :
  <[9%nat := 0xA4]> (<[8%nat := 82]> (<[7%nat := 0xA4]> (<[6%nat := 66]> (<[5%nat := 0xA4]> (<[4%nat := 77]>
  (<[3%nat := 0xA4]> (<[2%nat := 32]> (<[1%nat := 0xA4]> (<[0%nat := 49]> blank_cells))))))))) = mbr_cells.
Proof. vm_compute. reflexivity. Qed.

Local Ltac cell_step m0 n Hgs := eapply (wp_gs_byte _ _ _ _ _ m0 n); [exact Hgs | eassumption | reflexivity |
  lia | unfold is_byte; lia |]; intros ? ?.

Lemma mbr_screen_run a c dx b bp si di m d o s (Q : unit -> x86 mem dev -> Prop) :
  gs (x_sregs s) = 0xb800 -> writable m VIDEO_TEXT 4000 ->
  (forall r m' d' o', sector d' = sector d -> on_screen m mbr_cells m' -> Q tt (after r m' d' o' s)) ->
  wp mbr_screen Q (after (Regs a c dx b bp si di) m d o s).
Proof.
  intros Hgs Hw HQ. unfold mbr_screen. x_steps. apply wp_bind.
  match goal with |- wp int10 _ ?s1 => destruct (int10_clear s1) as (r & m1 & d1 & o1 & E & HS & Hb & Hm) end;
    [apply lo16_with_lo16.. | exact Hw |].
  unfold wp at 1. rewrite E. rewrite after_after.
  assert (Hscr : on_screen m blank_cells m1) by (split; [exact Hb | split; [reflexivity | exact Hm]]).
  apply wp_bind. cell_step m 0%nat Hgs. apply wp_bind. cell_step m 1%nat Hgs.
  apply wp_bind. cell_step m 2%nat Hgs. apply wp_bind. cell_step m 3%nat Hgs.
  apply wp_bind. cell_step m 4%nat Hgs. apply wp_bind. cell_step m 5%nat Hgs.
  apply wp_bind. cell_step m 6%nat Hgs. apply wp_bind. cell_step m 7%nat Hgs.
  apply wp_bind. cell_step m 8%nat Hgs. cell_step m 9%nat Hgs.
  apply HQ; [exact HS|]. now rewrite <- greeting_written.
Qed.

(** The segments and the stack of real mode, for a boot sector that was entered at
    0:0x7c00 *)
Definition real_segments s : x86 mem dev := set_bottom 0x7c00 [] (set_sregs (SRegs 0 0 0 0xb800) s).

Lemma mbr_segments_run a c dx b bp si di m d o s (Q : unit -> x86 mem dev -> Prop) :
  x_cs s = 0 -> (forall a', Q tt (after (Regs a' c dx b bp si di) m d o (real_segments s))) ->
  wp mbr_segments Q (after (Regs a c dx b bp si di) m d o s).
Proof.
  intros Hcs HQ. unfold mbr_segments. x_steps. cbn [x_cs after]. rewrite Hcs. change (lo16 0) with 0.
  apply wp_bind, wp_modify.
  match goal with |- context [set_bottom ?v ?l (after ?r m d o ?t)] =>
    change (set_bottom v l (after r m d o t)) with (after r m d o (set_bottom v l t)) end.
  x_steps. exact (HQ _).
Qed.

(** What the boot sector leaves: the four sectors in memory, the greeting on the
    screen, the rest of memory as it was, and the loader's first instruction next. *)
Definition loader_loaded s s' : Prop :=
  exists r m d o, s' = after r m d o (set_control (x_cs s) (LOADER_BASE_ADDR + 0x300) (x_eflags s) (real_segments s)) /\
    sector d = sector (x_dev s) /\
    bytes_at m LOADER_BASE_ADDR (disk_bytes (x_dev s) LOADER_START_SECTOR 4) /\
    bytes_at m VIDEO_TEXT mbr_cells /\
    forall a, ram (x_mem s) a -> ~ (LOADER_BASE_ADDR <= a < LOADER_BASE_ADDR + 2048) ->
      ~ (VIDEO_TEXT <= a < VIDEO_TEXT + 4000) -> load8 m a = load8 (x_mem s) a.

(** C25: entered at 0:0x7c00, the boot sector clears the screen, writes its greeting,
    reads sectors 2 to 5 of the disk to 0x900 and jumps to 0xc00, with the rest of
    memory as it was - provided that the drive is never busy between two sectors. *)
Theorem MBR_loads_loader s :
  x_cs s = 0 -> is_u32 (x_eip s) -> writable (x_mem s) VIDEO_TEXT 4000 ->
  writable (x_mem s) LOADER_BASE_ADDR 2048 -> gap = O ->
  wp MBR (fun _ => loader_loaded s) s.
Proof.
  intros Hcs Hip Hv Hw Hgap. apply wp_after. destruct (x_regs s) as [a c dx b bp si di]. unfold MBR.
  apply wp_bind, mbr_segments_run; [done|]. intros a1.
  apply wp_bind, mbr_screen_run; [done | done|]. intros r1 m1 d1 o1 HS1 (Hb1 & _ & Hm1).
  destruct r1 as [a2 c2 dx2 b2 bp2 si2 di2]. x_steps. change (u32 LOADER_START_SECTOR) with 2.
  apply wp_bind, wp_call. eapply wp_mono.
  { eapply (rd_disk_m_16_run _ _ _ _ _ 2 4 LOADER_BASE_ADDR); try reflexivity; try lia.
    - apply lo16_with_lo16.
    - apply lo16_with_lo16.
    - eapply writable_mod; [exact Hw | exact Hm1]. }
  intros [] s2 (r3 & m3 & d3 & o3 & -> & _ & HS3 & Hb3 & Hm3). rewrite (returned (real_segments s)) by exact Hip.
  apply wp_modify. exists r3, m3, d3, o3. split; [reflexivity|]. split; [congruence|].
  assert (Hd : disk_bytes d1 2 4 = disk_bytes (x_dev s) LOADER_START_SECTOR 4) by (unfold disk_bytes; now rewrite HS1).
  rewrite <- Hd. split; [exact Hb3|]. split; [|].
  - eapply bytes_at_mod; [exact Hb1 | exact Hm3 | right; vm_compute; discriminate].
  - intros x Hx Hn1 Hn2. pose proof Hm1 as (R1 & L1 & _). pose proof Hm3 as (_ & L3 & _).
    rewrite L3; [now apply L1 | now apply R1 | lia].
Qed.

End runs.

(** With the loader on the disk, the boot sector leaves the data that [load_kernel]
    starts from, the size of memory being still 0. *)
Theorem MBR_leaves_loader_data {dev : Type} `{Ata dev} (s s' : x86 flat dev) rest :
  loader_loaded s s' -> disk_bytes (x_dev s) LOADER_START_SECTOR 4 = loader_data 0 ++ rest ->
  gdt_at (x_mem s') /\ word_at (x_mem s') total_mem_bytes 0.
Proof.
  intros (r & m & d & o & -> & _ & Hb & _) E. rewrite E in Hb. apply bytes_at_app in Hb as [Hb _]; [|done].
  apply loader_data_parts; [unfold is_u32; lia | exact Hb].
Qed.

(** ** A machine *)

Section example.

(** The video service as its law says *)
#[local] Instance ex_int10 : Bios10 flat ata := fun s =>
  Ret tt (after (x_regs s) (flat_write (x_mem s) VIDEO_TEXT blank_cells) (x_dev s) (x_outs s) s).

#[local] Instance ex_Bios10Spec : Bios10Spec (H1 := ex_Ports) (H2 := ex_Ata) flat ata.
Proof.
  constructor. intros s _ _ _ _ Hw. do 4 eexists. split; [reflexivity|]. split; [done|].
  apply flat_write_facts; [exact Hw|].
  unfold blank_cells. apply Forall_join, Forall_replicate. repeat constructor; cbn; unfold is_byte; lia.
Qed.

(** Memory from 0x500 up to the end of the cells *)
Definition ex_ram_zeros : flat := gset_to_gmap 0 (list_to_set (seqZ 0x500 0xb8aa0)).
Definition ex_mbr : x86 flat ata :=
  X86 (Regs 0xaa55 0 0x80 0 0 0 0) (SRegs 0 0 0 0) 0 0x7c00 0x202 0x7000 [] ex_ram_zeros ex_drive [].

Lemma ex_ram_writable a n : 0x500 <= a -> a + n <= 0x500 + 0xb8aa0 -> writable ex_ram_zeros a n.
Proof.
  intros H0 H1. split; [lia|]. split; [lia|]. intros x Hx. split; [unfold is_u32; lia|]. exists 0.
  split; [|unfold is_byte; lia]. apply lookup_gset_to_gmap_Some. split; [|done].
  apply elem_of_list_to_set, elem_of_seqZ. lia.
Qed.

Lemma MBR_loads_loader_witness :
  wp (MBR (H0 := ex_Ports)) (fun _ => loader_loaded (H1 := ex_Ports) (H2 := ex_Ata) ex_mbr) ex_mbr.
Proof.
  apply (MBR_loads_loader (H1 := ex_Ports) (H2 := ex_Ata) ex_mbr); [reflexivity | | | | reflexivity].
  - unfold is_u32. cbn. lia.
  - apply ex_ram_writable; vm_compute; discriminate.
  - apply ex_ram_writable; vm_compute; discriminate.
Defined.

End example.
