(* ===== verification/FreeBSD.v ===== *)
(** * FreeBSD: what tptfs sees of the FreeBSD kernel

    src/tptfs is a stackable file system for the FreeBSD kernel, whose sources
    are not in the repository.  The structures of which tptfs reads or writes
    fields are records here, restricted to those fields, in one [world]; the
    functions of the kernel that tptfs calls are the operations of the class
    [FreeBSD], about which nothing is known but what a theorem assumes, and
    the constants of the kernel's headers are those of the class [Headers]. *)

From stdpp Require Import base numbers list strings gmap.
From S2P Require Import Prelude.
From Stdlib Require Import ZArith Lia.
Open Scope Z_scope.

(** ** Data

    Pointers are integers, 0 being NULL; an object that is not allocated is not
    in its map, and a field access to it faults. *)

Definition NULLVP : Z := 0.

Inductive vtype : Type :=
  | VNON | VREG | VDIR | VBLK | VCHR | VLNK | VSOCK | VFIFO | VBAD | VMARKER.

#[export] Instance vtype_eq_dec : EqDecision vtype.
Proof. solve_decision. Defined.

(** Operation vectors: that of tptfs, that of dead vnodes, any other. *)
Inductive vop_vector : Type :=
  | tpt_vnodeops
  | dead_vnodeops
  | other_vnodeops (n : Z).

#[export] Instance vop_vector_eq_dec : EqDecision vop_vector.
Proof. solve_decision. Defined.

(** A lock: the [v_lock] inside a vnode, or another one. *)
Inductive lock_ptr : Type :=
  | v_lock (vp : Z)
  | other_lock (n : Z).

#[export] Instance lock_ptr_eq_dec : EqDecision lock_ptr.
Proof. solve_decision. Defined.

Record vnode : Type := Vnode {
  v_type : vtype;
  v_data : Z;
  v_mount : Z;
  v_op : vop_vector;
  v_vnlock : lock_ptr;
  v_object : Z;
  v_vflag : Z;
  v_usecount : Z;
  v_writecount : Z;
}.

(** src/tptfs/tpt.h *)
Record tpt_node : Type := TptNode {
  tpt_lowervp : Z;
  tpt_vnode : Z;
  tpt_flags : Z;
}.

Record tptfs : Type := Tptfs {
  magic : Z;
  nr_blocks : Z;
  nr_inodes : Z;
  nr_istore_blocks : Z;
  nr_ifree_blocks : Z;
  nr_bfree_blocks : Z;
  nr_free_inodes : Z;
  nr_free_blocks : Z;
  ifree_bitmap : Z;
  bfree_bitmap : Z;
}.

Record tpt_mount : Type := TptMount {
  nullm_vfs : Z;
  nullm_lowerrootvp : Z;
  nullm_flags : Z;
  fs : Z;
}.

Inductive vfsops : Type := tpt_vfsops | other_vfsops (n : Z).

#[export] Instance vfsops_eq_dec : EqDecision vfsops.
Proof. solve_decision. Defined.

Record mount : Type := Mount {
  mnt_op : vfsops;
  mnt_flag : Z;
  mnt_kern_flag : Z;
  mnt_data : Z;
  mnt_fsid : Z;  (* mnt_stat.f_fsid.val[0] *)
  mnt_nvnodelistsize : Z;
  mnt_uppers : list Z;
}.

(** Arguments of a vnode operation.  The vnode-valued fields are named as in
    the argument structures; an offset of [vdesc_vp_offsets] is such a name,
    and the list ends where the C array holds [VDESC_NO_OFFSET]. *)
Record vnodeop_desc : Type := VnodeopDesc {
  vdesc_name : string;
  vdesc_flags : Z;
  vdesc_vp_offsets : list string;
  vdesc_vpp_offset : bool;  (* a [vpp] is returned *)
}.

Record componentname : Type := Componentname {
  cn_flags : Z;
  cn_nameiop : Z;
}.

Record vop_args : Type := VopArgs {
  a_desc : vnodeop_desc;
  a_vnodes : gmap string Z;
  a_vpp : Z;  (* address of a [struct vnode *] *)
  a_vap : Z;  (* address of a [struct vattr] *)
  a_sb : Z;   (* address of a [struct stat] *)
  a_mpp : Z;  (* address of a [struct mount *] *)
  a_cnp : componentname;
  a_accmode : Z;
  a_flags : Z;
  a_inc : Z;
  a_unlock_vp : bool;
  a_rest : list Z;  (* arguments that tptfs only passes on *)
}.

Record vattr : Type := Vattr {
  va_mode : Z;
  va_uid : Z;
  va_gid : Z;
  va_fsid : Z;
  va_size : Z;
  va_atime : Z;  (* tv_sec *)
  va_mtime : Z;  (* tv_sec *)
  va_flags : Z;
}.

Record statfs : Type := Statfs {
  f_type : Z;
  f_flags : Z;
  f_bsize : Z;
  f_iosize : Z;
  f_blocks : Z;
  f_bfree : Z;
  f_bavail : Z;
  f_files : Z;
  f_ffree : Z;
}.

(** The world: kernel objects by address, the variables of the callers that
    are passed by address ([w_vars]), the globals of tpt_subr.c, and the rest
    of the kernel. *)
Record world (X : Type) : Type := World {
  w_vnodes : gmap Z vnode;
  w_nodes : gmap Z tpt_node;
  w_mounts : gmap Z mount;
  w_tmounts : gmap Z tpt_mount;
  w_fs : gmap Z tptfs;
  w_args : gmap Z vop_args;
  w_vattrs : gmap Z vattr;
  w_stats : gmap Z Z;      (* st_dev *)
  w_statfs : gmap Z statfs;
  w_vars : gmap Z Z;
  tpt_node_hashtbl : gmap Z (list Z);
  tpt_hash_mask : Z;
  w_ext : X;
}.
Arguments World {X}.
Arguments w_vnodes {X}.
Arguments w_nodes {X}.
Arguments w_mounts {X}.
Arguments w_tmounts {X}.
Arguments w_fs {X}.
Arguments w_args {X}.
Arguments w_vattrs {X}.
Arguments w_stats {X}.
Arguments w_statfs {X}.
Arguments w_vars {X}.
Arguments tpt_node_hashtbl {X}.
Arguments tpt_hash_mask {X}.
Arguments w_ext {X}.

(** One setter per component. *)
Section setters.
  Context {X : Type}.
  Implicit Types w : world X.

Definition set_vnodes a w : world X :=
  World a (w_nodes w) (w_mounts w) (w_tmounts w) (w_fs w) (w_args w) (w_vattrs w) (w_stats w)
    (w_statfs w) (w_vars w) (tpt_node_hashtbl w) (tpt_hash_mask w) (w_ext w).
Definition set_nodes a w : world X :=
  World (w_vnodes w) a (w_mounts w) (w_tmounts w) (w_fs w) (w_args w) (w_vattrs w) (w_stats w)
    (w_statfs w) (w_vars w) (tpt_node_hashtbl w) (tpt_hash_mask w) (w_ext w).
Definition set_mounts a w : world X :=
  World (w_vnodes w) (w_nodes w) a (w_tmounts w) (w_fs w) (w_args w) (w_vattrs w) (w_stats w)
    (w_statfs w) (w_vars w) (tpt_node_hashtbl w) (tpt_hash_mask w) (w_ext w).
Definition set_tmounts a w : world X :=
  World (w_vnodes w) (w_nodes w) (w_mounts w) a (w_fs w) (w_args w) (w_vattrs w) (w_stats w)
    (w_statfs w) (w_vars w) (tpt_node_hashtbl w) (tpt_hash_mask w) (w_ext w).
Definition set_fs a w : world X :=
  World (w_vnodes w) (w_nodes w) (w_mounts w) (w_tmounts w) a (w_args w) (w_vattrs w) (w_stats w)
    (w_statfs w) (w_vars w) (tpt_node_hashtbl w) (tpt_hash_mask w) (w_ext w).
Definition set_args a w : world X :=
  World (w_vnodes w) (w_nodes w) (w_mounts w) (w_tmounts w) (w_fs w) a (w_vattrs w) (w_stats w)
    (w_statfs w) (w_vars w) (tpt_node_hashtbl w) (tpt_hash_mask w) (w_ext w).
Definition set_vattrs a w : world X :=
  World (w_vnodes w) (w_nodes w) (w_mounts w) (w_tmounts w) (w_fs w) (w_args w) a (w_stats w)
    (w_statfs w) (w_vars w) (tpt_node_hashtbl w) (tpt_hash_mask w) (w_ext w).
Definition set_stats a w : world X :=
  World (w_vnodes w) (w_nodes w) (w_mounts w) (w_tmounts w) (w_fs w) (w_args w) (w_vattrs w) a
    (w_statfs w) (w_vars w) (tpt_node_hashtbl w) (tpt_hash_mask w) (w_ext w).
Definition set_statfs a w : world X :=
  World (w_vnodes w) (w_nodes w) (w_mounts w) (w_tmounts w) (w_fs w) (w_args w) (w_vattrs w)
    (w_stats w) a (w_vars w) (tpt_node_hashtbl w) (tpt_hash_mask w) (w_ext w).
Definition set_vars a w : world X :=
  World (w_vnodes w) (w_nodes w) (w_mounts w) (w_tmounts w) (w_fs w) (w_args w) (w_vattrs w)
    (w_stats w) (w_statfs w) a (tpt_node_hashtbl w) (tpt_hash_mask w) (w_ext w).
Definition set_hash a m w : world X :=
  World (w_vnodes w) (w_nodes w) (w_mounts w) (w_tmounts w) (w_fs w) (w_args w) (w_vattrs w)
    (w_stats w) (w_statfs w) (w_vars w) a m (w_ext w).
Definition set_ext a w : world X :=
  World (w_vnodes w) (w_nodes w) (w_mounts w) (w_tmounts w) (w_fs w) (w_args w) (w_vattrs w)
    (w_stats w) (w_statfs w) (w_vars w) (tpt_node_hashtbl w) (tpt_hash_mask w) a.

(** Reading an object through a pointer, and changing it. *)
Definition deref {A} (get : world X -> gmap Z A) (p : Z) : M (world X) A := fun w =>
  match get w !! p with
  | Some x => Ret x w
  | None => Stop (Fault p) w
  end.

Definition update {A} (get : world X -> gmap Z A) (set : gmap Z A -> world X -> world X)
    (p : Z) (f : A -> A) : M (world X) unit := fun w =>
  match get w !! p with
  | Some x => Ret tt (set (<[p := f x]> (get w)) w)
  | None => Stop (Fault p) w
  end.

Definition vnode_at (vp : Z) : M (world X) vnode := deref w_vnodes vp.
Definition node_at (xp : Z) : M (world X) tpt_node := deref w_nodes xp.
Definition mount_at (mp : Z) : M (world X) mount := deref w_mounts mp.
Definition tmount_at (xmp : Z) : M (world X) tpt_mount := deref w_tmounts xmp.
Definition args_at (ap : Z) : M (world X) vop_args := deref w_args ap.
Definition vattr_at (vap : Z) : M (world X) vattr := deref w_vattrs vap.
Definition var_at (p : Z) : M (world X) Z := deref w_vars p.
Definition update_vnode := update w_vnodes set_vnodes.
Definition update_node := update w_nodes set_nodes.
Definition update_mount := update w_mounts set_mounts.
Definition update_tmount := update w_tmounts set_tmounts.
Definition update_args := update w_args set_args.
Definition assign (p v : Z) : M (world X) unit := update w_vars set_vars p (fun _ => v).

End setters.

(** Field assignments. *)
Definition vn_set_type a v :=
  Vnode a (v_data v) (v_mount v) (v_op v) (v_vnlock v) (v_object v) (v_vflag v) (v_usecount v)
    (v_writecount v).
Definition vn_set_data a v :=
  Vnode (v_type v) a (v_mount v) (v_op v) (v_vnlock v) (v_object v) (v_vflag v) (v_usecount v)
    (v_writecount v).
Definition vn_set_mount a v :=
  Vnode (v_type v) (v_data v) a (v_op v) (v_vnlock v) (v_object v) (v_vflag v) (v_usecount v)
    (v_writecount v).
Definition vn_set_op a v :=
  Vnode (v_type v) (v_data v) (v_mount v) a (v_vnlock v) (v_object v) (v_vflag v) (v_usecount v)
    (v_writecount v).
Definition vn_set_vnlock a v :=
  Vnode (v_type v) (v_data v) (v_mount v) (v_op v) a (v_object v) (v_vflag v) (v_usecount v)
    (v_writecount v).
Definition vn_set_object a v :=
  Vnode (v_type v) (v_data v) (v_mount v) (v_op v) (v_vnlock v) a (v_vflag v) (v_usecount v)
    (v_writecount v).
Definition vn_set_vflag a v :=
  Vnode (v_type v) (v_data v) (v_mount v) (v_op v) (v_vnlock v) (v_object v) a (v_usecount v)
    (v_writecount v).
Definition vn_set_usecount a v :=
  Vnode (v_type v) (v_data v) (v_mount v) (v_op v) (v_vnlock v) (v_object v) (v_vflag v) a
    (v_writecount v).
Definition vn_set_writecount a v :=
  Vnode (v_type v) (v_data v) (v_mount v) (v_op v) (v_vnlock v) (v_object v) (v_vflag v)
    (v_usecount v) a.

Definition node_set_flags a x := TptNode (tpt_lowervp x) (tpt_vnode x) a.
Definition mount_set_data a m :=
  Mount (mnt_op m) (mnt_flag m) (mnt_kern_flag m) a (mnt_fsid m) (mnt_nvnodelistsize m)
    (mnt_uppers m).
Definition mount_set_kern_flag a m :=
  Mount (mnt_op m) (mnt_flag m) a (mnt_data m) (mnt_fsid m) (mnt_nvnodelistsize m)
    (mnt_uppers m).
Definition mount_set_uppers a m :=
  Mount (mnt_op m) (mnt_flag m) (mnt_kern_flag m) (mnt_data m) (mnt_fsid m)
    (mnt_nvnodelistsize m) a.
Definition mount_set_size a m :=
  Mount (mnt_op m) (mnt_flag m) (mnt_kern_flag m) (mnt_data m) (mnt_fsid m) a (mnt_uppers m).
Definition tm_set_vfs a t := TptMount a (nullm_lowerrootvp t) (nullm_flags t) (fs t).
Definition tm_set_lowerrootvp a t := TptMount (nullm_vfs t) a (nullm_flags t) (fs t).
Definition tm_set_fs a t := TptMount (nullm_vfs t) (nullm_lowerrootvp t) (nullm_flags t) a.
Definition args_set_vnodes a x :=
  VopArgs (a_desc x) a (a_vpp x) (a_vap x) (a_sb x) (a_mpp x) (a_cnp x) (a_accmode x) (a_flags x)
    (a_inc x) (a_unlock_vp x) (a_rest x).
Definition args_set_flags a x :=
  VopArgs (a_desc x) (a_vnodes x) (a_vpp x) (a_vap x) (a_sb x) (a_mpp x) (a_cnp x) (a_accmode x) a
    (a_inc x) (a_unlock_vp x) (a_rest x).
Definition vattr_set_fsid a x :=
  Vattr (va_mode x) (va_uid x) (va_gid x) a (va_size x) (va_atime x) (va_mtime x) (va_flags x).

(** ** Constants of the kernel's headers and configuration *)

Class Headers : Type := {
  INVARIANTS : bool;
  DIAGNOSTIC : bool;
  (* sys/errno.h *)
  ENOENT : Z; EBUSY : Z; EXDEV : Z; EISDIR : Z; EINVAL : Z; EROFS : Z; EOPNOTSUPP : Z;
  EJUSTRETURN : Z;
  (* sys/lockmgr.h *)
  LK_SHARED : Z; LK_EXCLUSIVE : Z; LK_UPGRADE : Z; LK_RETRY : Z; LK_INTERLOCK : Z;
  LK_TYPE_MASK : Z;
  (* sys/vnode.h *)
  VV_ROOT : Z; VV_NOSYNC : Z; VIRF_PGREAD : Z; VWRITE : Z; VNOVAL : Z; FORCECLOSE : Z;
  VDESC_MAX_VPS : nat; VDESC_VP0_WILLRELE : Z;
  (* sys/mount.h *)
  MNT_RDONLY : Z; MNT_ROOTFS : Z; MNT_FORCE : Z; MNT_NOEXEC : Z; MNT_NOSUID : Z; MNT_UNION : Z;
  MNT_NOSYMFOLLOW : Z; MNT_AUTOMOUNTED : Z; MNTK_VGONE_UPPER : Z; MNTK_VGONE_WAITER : Z;
  (* sys/namei.h *)
  ISLASTCN : Z; ISDOTDOT : Z; LOOKUP : Z; CREATE : Z; DELETE : Z; RENAME : Z; FOLLOW : Z;
  LOCKLEAF : Z;
}.


(** A flag test, [x & flag]. *)
Definition has (x flag : Z) : bool := negb (Z.land x flag =? 0).

(** ** Functions of the kernel

    Those that only read are functions of the world; out-parameters are
    results. *)

Class FreeBSD (X : Type) : Type := {
  (* reading *)
  VN_IS_DOOMED : world X -> Z -> bool;
  VOP_ISLOCKED : world X -> Z -> Z;
  vn_irflag_read : world X -> Z -> Z;
  vfs_hash_index : world X -> Z -> Z;
  tpt_bug_bypass : world X -> Z;  (* set by the sysctl debug.tptfs_bug_bypass *)
  (* references and holds *)
  vref : Z -> M (world X) unit;
  vrele : Z -> M (world X) unit;
  vput : Z -> M (world X) unit;
  vunref : Z -> M (world X) unit;
  vhold : Z -> M (world X) unit;
  vholdnz : Z -> M (world X) unit;
  vdrop : Z -> M (world X) unit;
  vget : Z -> Z -> M (world X) Z;
  vfs_ref : Z -> M (world X) unit;
  vfs_rel : Z -> M (world X) unit;
  (* life of vnodes *)
  getnewvnode : string -> Z -> vop_vector -> M (world X) (Z * Z);
  insmntque1 : Z -> Z -> (Z -> Z -> M (world X) unit) -> Z -> M (world X) Z;
  vgone : Z -> M (world X) unit;
  vrecycle : Z -> M (world X) unit;
  vflush : Z -> Z -> Z -> M (world X) Z;
  vn_irflag_set_cond : Z -> Z -> M (world X) unit;
  (* locks *)
  ASSERT_VOP_LOCKED : Z -> string -> M (world X) unit;
  ASSERT_VOP_ELOCKED : Z -> string -> M (world X) unit;
  VI_LOCK : Z -> M (world X) unit;
  VI_UNLOCK : Z -> M (world X) unit;
  MNT_ILOCK : Z -> M (world X) unit;
  MNT_IUNLOCK : Z -> M (world X) unit;
  msleep_uppers : Z -> M (world X) unit;
  lockmgr : lock_ptr -> Z -> M (world X) unit;
  vn_lock : Z -> Z -> M (world X) Z;
  rw_init : M (world X) unit;
  rw_destroy : M (world X) unit;
  rw_rlock : M (world X) unit;
  rw_runlock : M (world X) unit;
  rw_wlock : M (world X) unit;
  rw_wunlock : M (world X) unit;
  (* memory: the allocation of each structure, and free *)
  malloc_node : M (world X) Z;
  malloc_mount : M (world X) Z;
  malloc_fs : M (world X) Z;
  malloc_statfs : M (world X) Z;
  free_node : Z -> M (world X) unit;
  free_mount : Z -> M (world X) unit;
  free_statfs : Z -> M (world X) unit;
  hashinit : M (world X) (gmap Z (list Z) * Z);
  hashdestroy : gmap Z (list Z) -> Z -> M (world X) unit;
  (* operations of the lower layer *)
  VCALL : Z -> M (world X) Z;
  VOP_LOOKUP : Z -> componentname -> M (world X) (Z * Z);
  VOP_LOCK : Z -> Z -> M (world X) Z;
  VOP_UNLOCK : Z -> M (world X) Z;
  VOP_ADD_WRITECOUNT : Z -> Z -> M (world X) Z;
  VOP_GETWRITEMOUNT : Z -> Z -> M (world X) Z;
  VOP_VPTOFH : Z -> list Z -> M (world X) Z;
  VOP_READ_PGCACHE : Z -> list Z -> M (world X) Z;
  VOP_VPUT_PAIR : Z -> Z -> bool -> M (world X) (Z * Z);
  vn_vptocnp : Z -> list Z -> M (world X) (Z * Z);
  vop_stdlock : Z -> M (world X) Z;
  vop_stdunlock : Z -> M (world X) Z;
  vop_stdislocked : Z -> M (world X) Z;
  vop_stdadvlockpurge : Z -> M (world X) Z;
  vop_eopnotsupp : Z -> M (world X) Z;
  (* mounting *)
  vfs_getopt_from : Z -> M (world X) (Z * option string * Z);
  vfs_flagopt_ro : Z -> M (world X) bool;
  vfs_mountedfrom : Z -> string -> M (world X) unit;
  namei : Z -> Z -> string -> M (world X) (Z * Z);
  vn_isdisk_error : Z -> M (world X) (bool * Z);
  g_topology_lock : M (world X) unit;
  g_topology_unlock : M (world X) unit;
  g_vfs_open : Z -> Z -> M (world X) (Z * Z);
  g_vfs_close : Z -> M (world X) unit;
  bufobj_attach : Z -> Z -> M (world X) unit;
  bread : Z -> Z -> Z -> M (world X) (Z * Z * tptfs);
  brelse : Z -> M (world X) unit;
  (* output *)
  printf : string -> list Z -> M (world X) unit;
  uprintf : string -> list Z -> M (world X) unit;
  (* the same operations of another file system's [mount] *)
  other_VFS_QUOTACTL : Z -> Z -> Z -> Z -> M (world X) Z;
  other_VFS_STATFS : Z -> Z -> M (world X) Z;
  other_VFS_VGET : Z -> Z -> Z -> Z -> M (world X) Z;
  other_VFS_FHTOVP : Z -> Z -> Z -> Z -> M (world X) Z;
  other_VFS_EXTATTRCTL : Z -> Z -> Z -> Z -> Z -> M (world X) Z;
}.

Section macros.
  Context {X : Type} `{Headers} `{FreeBSD X}.
  Abbreviation K := (M (world X)).

(** [KASSERT], [VNASSERT], [VNPASS] and [MPASS] panic in a kernel with
    [INVARIANTS] only. *)
Definition KASSERT (c : K bool) (msg : string) : K unit :=
  if INVARIANTS then b <- c ;; if b then ret tt else stop_with (Panic msg) else ret tt.

Definition panic {A} (msg : string) : K A := stop_with (Panic msg).

(** src/tptfs/tpt.h *)
Definition NULLM_CACHE : Z := 0x0001.
Definition NULLV_NOUNLOCK : Z := 0x0001.
Definition NULLV_DROP : Z := 0x0002.

Definition MOUNTTONULLMOUNT (mp : Z) : K Z := m <- mount_at mp ;; ret (mnt_data m).
Definition VTONULL (vp : Z) : K Z := v <- vnode_at vp ;; ret (v_data v).
Definition NULLTOV (xp : Z) : K Z := x <- node_at xp ;; ret (tpt_vnode x).

(** [vp->v_mount] of the vnode of a node *)
Definition mount_of (vp : Z) : K Z := v <- vnode_at vp ;; ret (v_mount v).

Definition VREF (vp : Z) : K unit := vref vp.
Definition vrefcnt (vp : Z) : K Z := v <- vnode_at vp ;; ret (v_usecount v).

End macros.

(** ** What most theorems assume of the kernel

    [same_data]: only the rest of the kernel changed.  [Quiet]: the calls that
    only take or release short-term locks, hold vnodes or print do that, which
    is their behaviour when no other thread runs in between. *)

Definition same_data {X} (w w' : world X) : Prop := w' = set_ext (w_ext w') w.

Class quiet {X A} (m : M (world X) A) : Prop :=
  quiet_run : forall w, exists a w', m w = Ret a w' /\ same_data w w'.
Arguments quiet_run {X A} m {_} w.

Class Quiet (X : Type) `{FreeBSD X} : Prop := {
  quiet_rw_rlock :: quiet rw_rlock;
  quiet_rw_runlock :: quiet rw_runlock;
  quiet_rw_wlock :: quiet rw_wlock;
  quiet_rw_wunlock :: quiet rw_wunlock;
  quiet_ASSERT_VOP_LOCKED vp s :: quiet (ASSERT_VOP_LOCKED vp s);
  quiet_ASSERT_VOP_ELOCKED vp s :: quiet (ASSERT_VOP_ELOCKED vp s);
  quiet_VI_LOCK vp :: quiet (VI_LOCK vp);
  quiet_VI_UNLOCK vp :: quiet (VI_UNLOCK vp);
  quiet_vhold vp :: quiet (vhold vp);
  quiet_vholdnz vp :: quiet (vholdnz vp);
  quiet_lockmgr l f :: quiet (lockmgr l f);
  quiet_printf s l :: quiet (printf s l);
}.

(** The same for the reference to a mount and the release of a lock. *)
Class Releases (X : Type) `{FreeBSD X} : Prop := {
  quiet_vfs_ref mp :: quiet (vfs_ref mp);
  quiet_VOP_UNLOCK vp :: quiet (VOP_UNLOCK vp);
}.

(** References: [vref] takes one; [vrele], [vput] and [vunref] give one back while
    others remain; a vnode in use stays when a hold on it is dropped. *)
Definition add_use {X} (vp d : Z) (w : world X) : world X :=
  set_vnodes (alter (fun v => vn_set_usecount (v_usecount v + d) v) vp (w_vnodes w)) w.

Class References (X : Type) `{FreeBSD X} : Prop := {
  vref_spec vp w v : w_vnodes w !! vp = Some v ->
    exists w', vref vp w = Ret tt w' /\ same_data (add_use vp 1 w) w';
  vrele_spec vp w v : w_vnodes w !! vp = Some v -> 1 < v_usecount v ->
    exists w', vrele vp w = Ret tt w' /\ same_data (add_use vp (-1) w) w';
  vput_spec vp w v : w_vnodes w !! vp = Some v -> 1 < v_usecount v ->
    exists w', vput vp w = Ret tt w' /\ same_data (add_use vp (-1) w) w';
  vunref_spec vp w v : w_vnodes w !! vp = Some v -> 1 < v_usecount v ->
    exists w', vunref vp w = Ret tt w' /\ same_data (add_use vp (-1) w) w';
  vdrop_spec vp w v : w_vnodes w !! vp = Some v -> 0 < v_usecount v ->
    exists w', vdrop vp w = Ret tt w' /\ same_data w w';
}.

(** The hash index of a vnode is a function of the vnode alone. *)
Class StableHash (X : Type) `{FreeBSD X} : Prop := {
  stable_hash w w' vp : vfs_hash_index w vp = vfs_hash_index w' vp;
}.

(** New objects: [malloc] gives a node that was not allocated, [getnewvnode] a
    vnode that was not, with no data, no flags and one reference, and
    [insmntque1] puts the vnode on the mount or calls the destructor. *)
Class NewVnode (X : Type) `{FreeBSD X} : Prop := {
  malloc_node_spec w : exists xp n w', malloc_node w = Ret xp w' /\ w_nodes w !! xp = None /\
    same_data (set_nodes (<[xp := n]> (w_nodes w)) w) w';
  free_node_spec xp w : exists w', free_node xp w = Ret tt w' /\
    same_data (set_nodes (delete xp (w_nodes w)) w) w';
  getnewvnode_spec tag mp ops w :
    (exists e w', getnewvnode tag mp ops w = Ret (e, NULLVP) w' /\ e <> 0 /\ same_data w w') \/
    (exists vp v w', getnewvnode tag mp ops w = Ret (0, vp) w' /\ vp <> NULLVP /\
       w_vnodes w !! vp = None /\ same_data (set_vnodes (<[vp := v]> (w_vnodes w)) w) w' /\
       v_op v = ops /\ v_data v = 0 /\ v_vflag v = 0 /\ v_object v = 0 /\ v_usecount v = 1 /\
       v_writecount v = 0);
  insmntque1_spec vp mp dtr xp w v m :
    w_vnodes w !! vp = Some v -> w_mounts w !! mp = Some m ->
    (exists e w', insmntque1 vp mp dtr xp w = (dtr vp xp ;;; ret e) w' /\ e <> 0 /\ same_data w w') \/
    (exists w', insmntque1 vp mp dtr xp w = Ret 0 w' /\
       same_data (set_vnodes (<[vp := vn_set_mount mp v]> (w_vnodes w))
         (set_mounts (<[mp := mount_set_size (mnt_nvnodelistsize m + 1) m]> (w_mounts w)) w)) w');
}.

(** Mounting: the disk and mount calls change nothing that tptfs sees, and the
    allocations give new objects. *)
Class NewMount (X : Type) `{FreeBSD X} : Prop := {
  quiet_uprintf s l :: quiet (uprintf s l);
  quiet_vfs_flagopt_ro mp :: quiet (vfs_flagopt_ro mp);
  quiet_vfs_mountedfrom mp s :: quiet (vfs_mountedfrom mp s);
  quiet_g_topology_lock :: quiet g_topology_lock;
  quiet_g_topology_unlock :: quiet g_topology_unlock;
  quiet_g_vfs_open vp wr :: quiet (g_vfs_open vp wr);
  quiet_g_vfs_close cp :: quiet (g_vfs_close cp);
  quiet_bufobj_attach vp cp :: quiet (bufobj_attach vp cp);
  quiet_bread vp blk size :: quiet (bread vp blk size);
  quiet_brelse bp :: quiet (brelse bp);
  quiet_MNT_ILOCK mp :: quiet (MNT_ILOCK mp);
  quiet_MNT_IUNLOCK mp :: quiet (MNT_IUNLOCK mp);
  malloc_mount_spec w : exists p t w', malloc_mount w = Ret p w' /\ w_tmounts w !! p = None /\
    same_data (set_tmounts (<[p := t]> (w_tmounts w)) w) w';
  malloc_fs_spec w : exists p f w', malloc_fs w = Ret p w' /\ w_fs w !! p = None /\
    same_data (set_fs (<[p := f]> (w_fs w)) w) w';
  malloc_statfs_spec w : exists p f w', malloc_statfs w = Ret p w' /\ w_statfs w !! p = None /\
    same_data (set_statfs (<[p := f]> (w_statfs w)) w) w';
  free_mount_spec p w : exists w', free_mount p w = Ret tt w' /\
    same_data (set_tmounts (delete p (w_tmounts w)) w) w';
  free_statfs_spec p w : exists w', free_statfs p w = Ret tt w' /\
    same_data (set_statfs (delete p (w_statfs w)) w) w';
}.
