(* ===== verification/Sim.v ===== *)
(** * Sim: a kernel for tptfs to run on

    An instance of the classes of FreeBSD.v: the constants of FreeBSD's headers,
    and the simplest functions that satisfy the laws stated there.  Reference
    counts, allocation and the vnode list of a mount are kept in the world;
    every other call is recorded in [w_ext], and those with a result return
    what the parameters [lookup] and [err] say.  The theorems do not depend on
    this file: it shows that their assumptions hold somewhere and lets examples
    be computed. *)

From stdpp Require Import base numbers list strings gmap.
From S2P Require Import Prelude FreeBSD.
From Stdlib Require Import ZArith Lia.
Open Scope Z_scope.

#[export] Instance sim_headers : Headers := {|
  INVARIANTS := true;
  DIAGNOSTIC := false;
  ENOENT := 2; EBUSY := 16; EXDEV := 18; EISDIR := 21; EINVAL := 22; EROFS := 30;
  EOPNOTSUPP := 45; EJUSTRETURN := -2;
  LK_SHARED := 0x200000; LK_EXCLUSIVE := 0x080000; LK_UPGRADE := 0x400000; LK_RETRY := 0x400;
  LK_INTERLOCK := 0x10; LK_TYPE_MASK := 0xff0000;
  VV_ROOT := 0x1; VV_NOSYNC := 0x4; VIRF_PGREAD := 0x2; VWRITE := 0x80; VNOVAL := -1;
  FORCECLOSE := 0x2; VDESC_MAX_VPS := 8; VDESC_VP0_WILLRELE := 0x1;
  MNT_RDONLY := 0x1; MNT_ROOTFS := 0x4000; MNT_FORCE := 0x80000; MNT_NOEXEC := 0x4;
  MNT_NOSUID := 0x8; MNT_UNION := 0x20; MNT_NOSYMFOLLOW := 0x400000;
  MNT_AUTOMOUNTED := 0x200000000; MNTK_VGONE_UPPER := 0x800; MNTK_VGONE_WAITER := 0x1000;
  ISLASTCN := 0x8000; ISDOTDOT := 0x2000; LOOKUP := 0; CREATE := 1; DELETE := 2; RENAME := 3;
  FOLLOW := 0x40; LOCKLEAF := 0x4;
|}.

(** The calls that were recorded. *)
Definition sim : Type := list (string * list Z).

Section sim.
  Context (lookup : Z -> componentname -> Z * Z) (err : string -> Z).
  Abbreviation K := (M (world sim)).

Definition log (name : string) (args : list Z) : K unit :=
  modify (fun w => set_ext (w_ext w ++ [(name, args)]) w).

(** A recorded call with an error result. *)
Definition call (name : string) (args : list Z) : K Z := log name args ;;; ret (err name).

Definition z_fresh {A} (m : gmap Z A) : Z := 1 + map_fold (fun k _ b => Z.max k b) 0 m.

Definition alloc {A} (get : world sim -> gmap Z A) (set : gmap Z A -> world sim -> world sim)
    (x : A) : K Z := fun w =>
  let p := z_fresh (get w) in Ret p (set (<[p := x]> (get w)) w).

Definition use (vp d : Z) : K unit := modify (add_use vp d).

Definition sim_getnewvnode (tag : string) (mp : Z) (ops : vop_vector) : K (Z * Z) :=
  if err "getnewvnode" =? 0 then
    vp <- alloc w_vnodes set_vnodes (Vnode VNON 0 0 ops (other_lock 0) 0 0 1 0) ;;
    ret (0, vp)
  else ret (err "getnewvnode", NULLVP).

Definition sim_insmntque1 (vp mp : Z) (dtr : Z -> Z -> K unit) (xp : Z) : K Z :=
  if err "insmntque1" =? 0 then
    update_vnode vp (vn_set_mount mp) ;;;
    update_mount mp (fun m => mount_set_size (mnt_nvnodelistsize m + 1) m) ;;;
    ret 0
  else dtr vp xp ;;; ret (err "insmntque1").

(** The result of "vn_irflag_read" is the vnode whose pages may be read from the
    cache. *)
Definition sim_kernel : FreeBSD sim := {|
  VN_IS_DOOMED w vp :=
    match w_vnodes w !! vp with Some v => bool_decide (v_op v = dead_vnodeops) | None => true end;
  VOP_ISLOCKED w vp := if err "VOP_ISLOCKED" =? 0 then LK_EXCLUSIVE else LK_SHARED;
  vn_irflag_read w vp :=
    if negb (err "vn_irflag_read" =? 0) && (vp =? err "vn_irflag_read") then VIRF_PGREAD else 0;
  vfs_hash_index w vp := vp;
  tpt_bug_bypass w := 0;
  vref vp := use vp 1;
  vrele vp := use vp (-1);
  vput vp := use vp (-1) ;;; log "vput" [vp];
  vunref vp := use vp (-1) ;;; log "vunref" [vp];
  vhold vp := log "vhold" [vp];
  vholdnz vp := log "vholdnz" [vp];
  vdrop vp := log "vdrop" [vp];
  vget vp flags := use vp 1 ;;; call "vget" [vp; flags];
  vfs_ref mp := log "vfs_ref" [mp];
  vfs_rel mp := log "vfs_rel" [mp];
  getnewvnode := sim_getnewvnode;
  insmntque1 := sim_insmntque1;
  vgone vp := log "vgone" [vp];
  vrecycle vp := log "vrecycle" [vp];
  vflush mp rootrefs flags :=
    update_mount mp (mount_set_size 0) ;;; call "vflush" [mp; rootrefs; flags];
  vn_irflag_set_cond vp flag := log "vn_irflag_set_cond" [vp; flag];
  ASSERT_VOP_LOCKED vp msg := ret tt;
  ASSERT_VOP_ELOCKED vp msg := ret tt;
  VI_LOCK vp := log "VI_LOCK" [vp];
  VI_UNLOCK vp := log "VI_UNLOCK" [vp];
  MNT_ILOCK mp := log "MNT_ILOCK" [mp];
  MNT_IUNLOCK mp := log "MNT_IUNLOCK" [mp];
  msleep_uppers mp := log "msleep" [mp];
  lockmgr l flags := log "lockmgr" [flags];
  vn_lock vp flags := call "vn_lock" [vp; flags];
  rw_init := log "rw_init" [];
  rw_destroy := log "rw_destroy" [];
  rw_rlock := log "rw_rlock" [];
  rw_runlock := log "rw_runlock" [];
  rw_wlock := log "rw_wlock" [];
  rw_wunlock := log "rw_wunlock" [];
  malloc_node := alloc w_nodes set_nodes (TptNode 0 0 0);
  malloc_mount := alloc w_tmounts set_tmounts (TptMount 0 0 0 0);
  malloc_fs := alloc w_fs set_fs (Tptfs 0 0 0 0 0 0 0 0 0 0);
  malloc_statfs := alloc w_statfs set_statfs (Statfs 0 0 0 0 0 0 0 0 0);
  free_node xp := modify (fun w => set_nodes (delete xp (w_nodes w)) w);
  free_mount p := modify (fun w => set_tmounts (delete p (w_tmounts w)) w);
  free_statfs p := modify (fun w => set_statfs (delete p (w_statfs w)) w);
  hashinit := ret (∅, 63);
  hashdestroy tbl mask := log "hashdestroy" [mask];
  VCALL ap := call "VCALL" [ap];
  VOP_LOOKUP ldvp cnp := log "VOP_LOOKUP" [ldvp] ;;; use (lookup ldvp cnp).2 1 ;;; ret (lookup ldvp cnp);
  VOP_LOCK vp flags := call "VOP_LOCK" [vp; flags];
  VOP_UNLOCK vp := call "VOP_UNLOCK" [vp];
  VOP_ADD_WRITECOUNT vp inc := call "VOP_ADD_WRITECOUNT" [vp; inc];
  VOP_GETWRITEMOUNT vp mpp := call "VOP_GETWRITEMOUNT" [vp; mpp];
  VOP_VPTOFH vp rest := call "VOP_VPTOFH" (vp :: rest);
  VOP_READ_PGCACHE vp rest := call "VOP_READ_PGCACHE" (vp :: rest);
  VOP_VPUT_PAIR ldvp lvp unlock :=
    use ldvp (-1) ;;; when unlock (use lvp (-1)) ;;;
    e <- call "VOP_VPUT_PAIR" [ldvp; lvp; Z.b2z unlock] ;; ret (e, lvp);
  vn_vptocnp vp rest :=
    let '(e, ldvp) := lookup vp (Componentname 0 0) in
    log "vn_vptocnp" (vp :: rest) ;;; use vp (-1) ;;; when (e =? 0) (use ldvp 1) ;;; ret (e, ldvp);
  vop_stdlock ap := call "vop_stdlock" [ap];
  vop_stdunlock ap := call "vop_stdunlock" [ap];
  vop_stdislocked ap := call "vop_stdislocked" [ap];
  vop_stdadvlockpurge ap := call "vop_stdadvlockpurge" [ap];
  vop_eopnotsupp ap := ret EOPNOTSUPP;
  vfs_getopt_from mp := ret (err "vfs_getopt", Some (String.append "d" (String.String Ascii.zero "")), 2);
  vfs_flagopt_ro mp := ret false;
  vfs_mountedfrom mp from := log "vfs_mountedfrom" [mp];
  namei op flags path := e <- call "namei" [op; flags] ;; ret (e, 1);
  vn_isdisk_error vp := ret (err "vn_isdisk_error" =? 0, err "vn_isdisk_error");
  g_topology_lock := log "g_topology_lock" [];
  g_topology_unlock := log "g_topology_unlock" [];
  g_vfs_open vp wr := e <- call "g_vfs_open" [vp; wr] ;; ret (e, 7);
  g_vfs_close cp := log "g_vfs_close" [cp];
  bufobj_attach vp cp := log "bufobj_attach" [vp; cp];
  bread vp blk size :=
    e <- call "bread" [vp; blk; size] ;; ret (e, 9, Tptfs 1 2 3 4 5 6 7 8 9 10);
  brelse bp := log "brelse" [bp];
  printf msg args := log msg args;
  uprintf msg args := log msg args;
  other_VFS_QUOTACTL mp cmd uid arg := call "VFS_QUOTACTL" [mp; cmd; uid; arg];
  other_VFS_STATFS mp sbp :=
    update w_statfs set_statfs sbp (fun _ => Statfs 1 2 3 4 5 6 7 8 9) ;;;
    call "VFS_STATFS" [mp; sbp];
  other_VFS_VGET mp ino flags vpp := call "VFS_VGET" [mp; ino; flags; vpp];
  other_VFS_FHTOVP mp fidp flags vpp := call "VFS_FHTOVP" [mp; fidp; flags; vpp];
  other_VFS_EXTATTRCTL mp cmd vp ns attr := call "VFS_EXTATTRCTL" [mp; cmd; vp; ns; attr];
|}.

(** ** The laws *)

#[local] Existing Instance sim_kernel.

Lemma z_fresh_spec {A} (m : gmap Z A) : m !! z_fresh m = None.
Proof.
  assert (Hmax : forall k, is_Some (m !! k) -> k <= map_fold (fun k _ b => Z.max k b) 0 m).
  { apply (map_fold_weak_ind (fun b m => forall k, is_Some (m !! k) -> k <= b)).
    - intros k [x E]. now rewrite lookup_empty in E.
    - intros i x m' b Hi IH k Hk. destruct (decide (i = k)) as [->|Hne]; [lia|].
      rewrite lookup_insert_ne in Hk by done. specialize (IH k Hk). lia. }
  apply eq_None_not_Some. intros Hs%Hmax. unfold z_fresh in *. lia.
Qed.

Lemma z_fresh_pos {A} (m : gmap Z A) : 1 <= z_fresh m.
Proof.
  unfold z_fresh. assert (0 <= map_fold (fun k (_ : A) b => Z.max k b) 0 m); [|lia].
  apply (map_fold_weak_ind (fun b _ => 0 <= b)); [done | lia].
Qed.

Lemma log_quiet name args : quiet (log name args).
Proof. intros w. eexists _, _. split; [reflexivity | done]. Qed.

#[export] Instance sim_quiet : Quiet sim.
Proof. split; intros; intros w; (eexists _, _; split; [reflexivity | now destruct w]). Qed.

#[export] Instance sim_releases : Releases sim.
Proof. split; intros; intros w; (eexists _, _; split; [reflexivity | now destruct w]). Qed.

#[export] Instance sim_references : References sim.
Proof. split; intros; (eexists; split; [reflexivity |]); try done; now destruct w. Qed.

#[export] Instance sim_stable_hash : StableHash sim.
Proof. done. Qed.

#[export] Instance sim_new_vnode : NewVnode sim.
Proof.
  split.
  - intros w. eexists _, _, _. split; [reflexivity|]. split; [apply z_fresh_spec | done].
  - intros xp w. eexists. split; [reflexivity | done].
  - intros tag mp ops w. cbn [getnewvnode sim_kernel]. unfold sim_getnewvnode.
    destruct (Z.eqb_spec (err "getnewvnode") 0) as [E|E].
    + right. eexists _, _, _. split; [reflexivity|]. split.
      { pose proof (z_fresh_pos (w_vnodes w)). unfold NULLVP. lia. }
      split; [apply z_fresh_spec | done].
    + left. eexists _, w. split; [reflexivity|]. split; [done | now destruct w].
  - intros vp mp dtr xp w v m Hv Hm. cbn [insmntque1 sim_kernel]. unfold sim_insmntque1.
    destruct (Z.eqb_spec (err "insmntque1") 0) as [E|E].
    + right. unfold update_vnode, update_mount, update, bind. rewrite Hv. cbn. rewrite Hm.
      eexists. split; [reflexivity|]. done.
    + left. exists (err "insmntque1"), w. split; [done|]. split; [done | now destruct w].
Qed.

#[export] Instance sim_new_mount : NewMount sim.
Proof.
  split; intros;
    first [intros w; (eexists _, _; split; [reflexivity | now destruct w])
          | eexists _, _, _; split; [reflexivity|]; split; [apply z_fresh_spec | done]
          | eexists; split; [reflexivity | done]].
Qed.

End sim.

(** ** An example

    A lower file system (mount 50) with its root 1 and the files 2 and 3, and a
    tptfs (mount 100) over it, in which 1 and 2 have the vnodes 11 and 12; an
    operation's arguments at 300. *)

(** The kernel in which no call fails. *)
Definition demo_kernel : FreeBSD sim := sim_kernel (fun _ _ => (0, 0)) (fun _ => 0).

Definition demo_lower (vp : Z) (type : vtype) (vflag : Z) : vnode :=
  Vnode type 0 50 (other_vnodeops 1) (v_lock vp) (1000 + vp) vflag 3 0.

Definition demo_upper (xp lowervp : Z) (type : vtype) (vflag : Z) : vnode :=
  Vnode type xp 100 tpt_vnodeops (v_lock lowervp) 0 vflag 2 0.

Definition demo_args (desc : vnodeop_desc) (vnodes : gmap string Z) : vop_args :=
  VopArgs desc vnodes 400 500 600 401 (Componentname 0 0) 0 0 0 false [].

(** The table maps buckets to nodes; [mflag] are the flags of the tptfs mount. *)
Definition demo_world (tbl : gmap Z (list Z)) (mflag : Z) (a : vop_args) (va : vattr) : world sim :=
  {| w_vnodes := {[ 1 := demo_lower 1 VDIR 1; 2 := demo_lower 2 VREG 0; 3 := demo_lower 3 VREG 0;
       11 := demo_upper 21 1 VDIR 1; 12 := demo_upper 22 2 VREG 0 ]};
     w_nodes := {[ 21 := TptNode 1 11 0; 22 := TptNode 2 12 0 ]};
     w_mounts := {[ 50 := Mount (other_vfsops 1) 0 0 0 5 3 [100];
       100 := Mount tpt_vfsops mflag 0 200 77 2 [] ]};
     w_tmounts := {[ 200 := TptMount 50 1 0 0 ]};
     w_fs := ∅;
     w_args := {[ 300 := a ]};
     w_vattrs := {[ 500 := va ]};
     w_stats := {[ 600 := 0 ]};
     w_statfs := {[ 700 := Statfs 0 0 0 0 0 0 0 0 0 ]};
     w_vars := {[ 400 := 0; 401 := 0 ]};
     tpt_node_hashtbl := tbl;
     tpt_hash_mask := 63;
     w_ext := [] |}.

Definition demo_table : gmap Z (list Z) := {[ 1 := [21]; 2 := [22] ]}.

Definition no_args : vop_args := demo_args (VnodeopDesc "vop" 0 [] false) ∅.
Definition no_attrs : vattr := Vattr 0 0 0 0 0 0 0 0.

Definition demo : world sim := demo_world demo_table 0 no_args no_attrs.
