(* ===== verification/TptSubr.v ===== *)
(** * TptSubr: src/tptfs/tpt_subr.c

    The cache of tptfs vnodes: a hash table of [tpt_node]s keyed by mount and
    lower vnode, and the construction of the vnode that stands for a lower
    vnode.  The cache is refined to a partial map from (mount, lower vnode) to
    the tptfs vnode. *)

From stdpp Require Import base numbers list strings gmap.
From S2P Require Import Prelude FreeBSD Sim.
From Stdlib Require Import ZArith Lia.
Open Scope Z_scope.

Section code.
  Context {X : Type} `{Headers} `{FreeBSD X}.
  Abbreviation K := (M (world X)).

(** [NULL_NHASH(vp)], as the index of the bucket, and the bucket's list. *)
Definition NULL_NHASH (vp : Z) : K Z :=
  gets (fun w => Z.land (vfs_hash_index w vp) (tpt_hash_mask w)).

Definition bucket (w : world X) (hd : Z) : list Z := default [] (tpt_node_hashtbl w !! hd).

(** [LIST_INSERT_HEAD] *)
Definition insert_head (hd xp : Z) (w : world X) : world X :=
  set_hash (<[hd := xp :: bucket w hd]> (tpt_node_hashtbl w)) (tpt_hash_mask w) w.

Definition tptfs_init : K Z :=
  let* (tbl, mask) := hashinit in
  modify (set_hash tbl mask) ;;;
  rw_init ;;;
  ret 0.

Definition tptfs_uninit : K Z :=
  rw_destroy ;;;
  tbl <- gets tpt_node_hashtbl ;;
  mask <- gets tpt_hash_mask ;;
  hashdestroy tbl mask ;;;
  ret 0.

(** [LIST_FOREACH] for the entry of [lowervp] on [mp]: its vnode. *)
Fixpoint hash_foreach (mp lowervp : Z) (l : list Z) : K (option Z) :=
  match l with
  | [] => ret None
  | a :: l' =>
      x <- node_at a ;;
      if tpt_lowervp x =? lowervp then
        v <- vnode_at (tpt_vnode x) ;;
        if v_mount v =? mp then ret (Some (tpt_vnode x)) else hash_foreach mp lowervp l'
      else hash_foreach mp lowervp l'
  end.

Definition tpt_hashget (mp lowervp : Z) : K Z :=
  ASSERT_VOP_LOCKED lowervp "tpt_hashget" ;;;
  hd <- NULL_NHASH lowervp ;;
  l <- gets (fun w => bucket w hd) ;;
  if bool_decide (l = []) then ret NULLVP
  else
    rw_rlock ;;;
    l <- gets (fun w => bucket w hd) ;;
    found <- hash_foreach mp lowervp l ;;
    match found with
    | Some vp => vref vp ;;; rw_runlock ;;; ret vp
    | None => rw_runlock ;;; ret NULLVP
    end.

Definition tpt_hashins (mp xp : Z) : K Z :=
  x <- node_at xp ;;
  hd <- NULL_NHASH (tpt_lowervp x) ;;
  rw_wlock ;;;
  l <- gets (fun w => bucket w hd) ;;
  x <- node_at xp ;;
  found <- hash_foreach mp (tpt_lowervp x) l ;;
  match found with
  | Some ovp => vref ovp ;;; rw_wunlock ;;; ret ovp
  | None =>
      modify (insert_head hd xp) ;;;
      rw_wunlock ;;;
      ret NULLVP
  end.

Definition tpt_destroy_proto (vp xp : Z) : K unit :=
  lockmgr (v_lock vp) LK_EXCLUSIVE ;;;
  VI_LOCK vp ;;;
  update_vnode vp (vn_set_data 0) ;;;
  update_vnode vp (vn_set_vnlock (v_lock vp)) ;;;
  update_vnode vp (vn_set_op dead_vnodeops) ;;;
  VI_UNLOCK vp ;;;
  vgone vp ;;;
  vput vp ;;;
  free_node xp.

Definition tpt_insmntque_dtr (vp xp : Z) : K unit :=
  x <- node_at xp ;;
  vput (tpt_lowervp x) ;;;
  tpt_destroy_proto vp xp.

(** The part of [tpt_nodeget] that shares the lower vnode's VM object. *)
Definition share_object (vp lowervp : Z) : K unit :=
  irflag <- gets (fun w => vn_irflag_read w lowervp) ;;
  when (has irflag VIRF_PGREAD)
    (KASSERT (lv <- vnode_at lowervp ;; ret (negb (v_object lv =? 0))) "MPASS" ;;;
     irflag <- gets (fun w => vn_irflag_read w vp) ;;
     if negb (has irflag VIRF_PGREAD) then
       v <- vnode_at vp ;;
       (if v_object v =? 0 then
          lv <- vnode_at lowervp ;;
          update_vnode vp (vn_set_object (v_object lv))
        else
          KASSERT (v <- vnode_at vp ;; lv <- vnode_at lowervp ;;
                   ret (v_object v =? v_object lv)) "MPASS") ;;;
       vn_irflag_set_cond vp VIRF_PGREAD
     else KASSERT (v <- vnode_at vp ;; ret (negb (v_object v =? 0))) "MPASS").

(** The second half of [tpt_nodeget]: a new node and vnode.  The result is the
    error and the value of the out-parameter [vpp], which every path sets. *)
Definition nodeget_new (mp lowervp : Z) : K (Z * Z) :=
  xp <- malloc_node ;;
  let* (error, vp) := getnewvnode "tptfs" mp tpt_vnodeops in
  if negb (error =? 0) then
    vput lowervp ;;; free_node xp ;;; ret (error, NULLVP)
  else
    update_node xp (fun _ => TptNode lowervp vp 0) ;;;
    lv <- vnode_at lowervp ;;
    update_vnode vp (vn_set_type (v_type lv)) ;;;
    update_vnode vp (vn_set_data xp) ;;;
    lv <- vnode_at lowervp ;;
    update_vnode vp (vn_set_vnlock (v_vnlock lv)) ;;;
    error <- insmntque1 vp mp tpt_insmntque_dtr xp ;;
    if negb (error =? 0) then ret (error, NULLVP)
    else
      xmp <- MOUNTTONULLMOUNT mp ;;
      tm <- tmount_at xmp ;;
      when (lowervp =? nullm_lowerrootvp tm)
        (update_vnode vp (fun v => vn_set_vflag (Z.lor (v_vflag v) VV_ROOT) v)) ;;;
      share_object vp lowervp ;;;
      vpp <- tpt_hashins mp xp ;;
      if negb (vpp =? NULLVP) then
        vrele lowervp ;;;
        update_vnode vp (vn_set_object 0) ;;;
        tpt_destroy_proto vp xp ;;;
        ret (0, vpp)
      else ret (0, vp).

Definition tpt_nodeget (mp lowervp : Z) : K (Z * Z) :=
  ASSERT_VOP_LOCKED lowervp "lowervp" ;;;
  KASSERT (lv <- vnode_at lowervp ;; ret (0 <? v_usecount lv)) "VNPASS" ;;;
  vpp <- tpt_hashget mp lowervp ;;
  if negb (vpp =? NULLVP) then vrele lowervp ;;; ret (0, vpp)
  else
    islocked <- gets (fun w => VOP_ISLOCKED w lowervp) ;;
    doomed <-
      (if negb (islocked =? LK_EXCLUSIVE) then
         vn_lock lowervp (Z.lor LK_UPGRADE LK_RETRY) ;;;
         gets (fun w => VN_IS_DOOMED w lowervp)
       else ret false) ;;
    if doomed then vput lowervp ;;; ret (ENOENT, NULLVP)
    else nodeget_new mp lowervp.

(** [LIST_REMOVE]: the node leaves the list it is on; the links of a node that
    is on no list are garbage. *)
Definition on_list (w : world X) (xp : Z) : bool :=
  existsb (fun p : Z * list Z => bool_decide (xp ∈ p.2)) (map_to_list (tpt_node_hashtbl w)).

Definition unlink (xp : Z) (w : world X) : world X :=
  set_hash (filter (fun a => a <> xp) <$> tpt_node_hashtbl w) (tpt_hash_mask w) w.

Definition tpt_hashrem (xp : Z) : K unit :=
  rw_wlock ;;;
  linked <- gets (fun w => on_list w xp) ;;
  (if linked then modify (unlink xp)
   else stop_with (Fault xp)) ;;;
  rw_wunlock.

(** [NULLVPTOLOWERVP], which is [tpt_checkvp] in a kernel with [DIAGNOSTIC]. *)
Definition tpt_checkvp (vp : Z) : K Z :=
  a <- VTONULL vp ;;
  x <- node_at a ;;
  if tpt_lowervp x =? NULLVP then panic "tpt_checkvp"
  else
    VI_LOCK (tpt_lowervp x) ;;;
    lv <- vnode_at (tpt_lowervp x) ;;
    if v_usecount lv <? 1 then panic "null with unref'ed lowervp"
    else
      VI_UNLOCK (tpt_lowervp x) ;;;
      x <- node_at a ;;
      ret (tpt_lowervp x).

Definition NULLVPTOLOWERVP (vp : Z) : K Z :=
  if DIAGNOSTIC then tpt_checkvp vp
  else a <- VTONULL vp ;; x <- node_at a ;; ret (tpt_lowervp x).

End code.

(** ** The cache as a partial map *)

Section spec.
  Context {X : Type} `{Headers} `{FreeBSD X}.

(** The bucket of a lower vnode. *)
Definition hash_of (w : world X) (lowervp : Z) : Z :=
  Z.land (vfs_hash_index w lowervp) (tpt_hash_mask w).

(** The first matching entry of a list. *)
Fixpoint hash_lookup (w : world X) (mp lowervp : Z) (l : list Z) : option Z :=
  match l with
  | [] => None
  | a :: l' =>
      match w_nodes w !! a with
      | Some x =>
          match w_vnodes w !! tpt_vnode x with
          | Some v =>
              if (tpt_lowervp x =? lowervp) && (v_mount v =? mp) then Some (tpt_vnode x)
              else hash_lookup w mp lowervp l'
          | None => hash_lookup w mp lowervp l'
          end
      | None => hash_lookup w mp lowervp l'
      end
  end.

(** The tptfs vnode of [lowervp] on [mp]. *)
Definition alias (w : world X) (mp lowervp : Z) : option Z :=
  hash_lookup w mp lowervp (bucket w (hash_of w lowervp)).

(** [xp] is an entry of the cache, for the key ([mp], [lowervp]) and the vnode
    [vp]. *)
Definition entry (w : world X) (xp mp lowervp vp : Z) : Prop :=
  xp ∈ bucket w (hash_of w lowervp) /\
  exists x v, w_nodes w !! xp = Some x /\ w_vnodes w !! vp = Some v /\
    tpt_lowervp x = lowervp /\ tpt_vnode x = vp /\ v_mount v = mp /\ v_data v = xp.

(** The invariant of the table: entries are in the bucket of their lower vnode,
    node and vnode point to each other, no entry is linked twice, and no two
    entries have the same key. *)
Definition cache_ok (w : world X) : Prop :=
  w_vnodes w !! NULLVP = None /\
  (forall hd xp, xp ∈ bucket w hd -> exists mp lowervp vp,
     entry w xp mp lowervp vp /\ hd = hash_of w lowervp) /\
  (forall hd, NoDup (bucket w hd)) /\
  (forall xp1 xp2 mp lowervp vp1 vp2,
     entry w xp1 mp lowervp vp1 -> entry w xp2 mp lowervp vp2 -> xp1 = xp2).

End spec.

(** ** Lemmas *)

(** The equalities of [same_data_fields], one per field, applied to the goal. *)
Ltac rewrite_fields S :=
  destruct S as (-> & -> & -> & -> & -> & -> & -> & -> & -> & -> & -> & ->).

Section facts.
  Context {X : Type} `{Headers} `{FreeBSD X}.
  Implicit Types w : world X.

Lemma same_data_refl w : same_data w w.
Proof. now destruct w. Qed.

Lemma same_data_trans w1 w2 w3 : same_data w1 w2 -> same_data w2 w3 -> same_data w1 w3.
Proof. unfold same_data. intros E1 E2. rewrite E2, E1. done. Qed.

Lemma same_data_eq w w' : same_data w w' ->
  w_vnodes w' = w_vnodes w /\ w_nodes w' = w_nodes w /\ w_mounts w' = w_mounts w /\
  w_tmounts w' = w_tmounts w /\ w_args w' = w_args w /\ w_vars w' = w_vars w /\
  tpt_node_hashtbl w' = tpt_node_hashtbl w /\ tpt_hash_mask w' = tpt_hash_mask w.
Proof. intros ->. done. Qed.

(** Field by field. *)
Lemma same_data_fields w w' : same_data w w' <->
  w_vnodes w' = w_vnodes w /\ w_nodes w' = w_nodes w /\ w_mounts w' = w_mounts w /\
  w_tmounts w' = w_tmounts w /\ w_fs w' = w_fs w /\ w_args w' = w_args w /\
  w_vattrs w' = w_vattrs w /\ w_stats w' = w_stats w /\ w_statfs w' = w_statfs w /\
  w_vars w' = w_vars w /\ tpt_node_hashtbl w' = tpt_node_hashtbl w /\
  tpt_hash_mask w' = tpt_hash_mask w.
Proof.
  split; [now intros -> |]. destruct w, w'. unfold same_data, set_ext. cbn.
  intros (-> & -> & -> & -> & -> & -> & -> & -> & -> & -> & -> & ->). done.
Qed.

(** A quiet call inside a computation. *)
Lemma wp_quiet {A B} (m : M (world X) A) (k : A -> M (world X) B) Q w0 w :
  quiet m -> same_data w0 w ->
  (forall a w', same_data w0 w' -> wp (k a) Q w') -> wp (bind m k) Q w.
Proof.
  intros Hq Hs Hk. destruct (Hq w) as (a & w' & E & Hs'). unfold wp, bind. rewrite E.
  apply Hk. eauto using same_data_trans.
Qed.

Lemma wp_deref {A} (get : world X -> gmap Z A) p x Q w :
  get w !! p = Some x -> Q x w -> wp (deref get p) Q w.
Proof. unfold wp, deref. now intros ->. Qed.

Lemma wp_update {A} (get : world X -> gmap Z A) set p f x (Q : unit -> world X -> Prop) w :
  get w !! p = Some x -> Q tt (set (<[p := f x]> (get w)) w) -> wp (update get set p f) Q w.
Proof. unfold wp, update. now intros ->. Qed.

Lemma bucket_in w hd xp : xp ∈ bucket w hd <-> exists l, tpt_node_hashtbl w !! hd = Some l /\ xp ∈ l.
Proof.
  unfold bucket. destruct (tpt_node_hashtbl w !! hd) as [l|]; cbn; split.
  - eauto.
  - intros (l' & [= <-] & Hin). done.
  - now intros ?%elem_of_nil.
  - intros (l' & [=] & _).
Qed.

(** The walk over a list whose entries are complete. *)
Lemma hash_foreach_eq w mp lowervp l :
  (forall xp, xp ∈ l -> exists x v, w_nodes w !! xp = Some x /\ w_vnodes w !! tpt_vnode x = Some v) ->
  hash_foreach mp lowervp l w = Ret (hash_lookup w mp lowervp l) w.
Proof.
  induction l as [|a l IH]; intros Hall; [done|].
  destruct (Hall a) as (x & v & Hx & Hv); [now left|].
  assert (IH' : hash_foreach mp lowervp l w = Ret (hash_lookup w mp lowervp l) w)
    by (apply IH; intros xp Hin; apply Hall; now right).
  cbn [hash_foreach hash_lookup]. rewrite Hx, Hv. unfold node_at, deref at 1, bind at 1.
  rewrite Hx. destruct (tpt_lowervp x =? lowervp); cbn [andb]; [|done].
  unfold vnode_at, deref, bind. rewrite Hv. destruct (v_mount v =? mp); [done | exact IH'].
Qed.

Lemma hash_lookup_Some w mp lowervp l vp :
  hash_lookup w mp lowervp l = Some vp ->
  exists xp x v, xp ∈ l /\ w_nodes w !! xp = Some x /\ w_vnodes w !! vp = Some v /\
    tpt_lowervp x = lowervp /\ tpt_vnode x = vp /\ v_mount v = mp.
Proof.
  induction l as [|a l IH]; [done|]. cbn [hash_lookup]. intros E.
  assert (Hrec : hash_lookup w mp lowervp l = Some vp -> exists xp x v, xp ∈ a :: l /\
    w_nodes w !! xp = Some x /\ w_vnodes w !! vp = Some v /\
    tpt_lowervp x = lowervp /\ tpt_vnode x = vp /\ v_mount v = mp).
  { intros (xp & x & v & Hin & Hr)%IH. exists xp, x, v. split; [now right | done]. }
  destruct (w_nodes w !! a) as [x|] eqn:Hx; [|auto].
  destruct (w_vnodes w !! tpt_vnode x) as [v|] eqn:Hv; [|auto].
  destruct (Z.eqb_spec (tpt_lowervp x) lowervp), (Z.eqb_spec (v_mount v) mp); cbn in E; auto.
  simplify_eq. exists a, x, v. split; [now left | done].
Qed.

Lemma hash_lookup_None w mp lowervp l xp x v :
  hash_lookup w mp lowervp l = None -> xp ∈ l ->
  w_nodes w !! xp = Some x -> w_vnodes w !! tpt_vnode x = Some v ->
  ~ (tpt_lowervp x = lowervp /\ v_mount v = mp).
Proof.
  intros E Hin Hx Hv [<- <-]. induction l as [|a l IH]; [now apply elem_of_nil in Hin|].
  cbn [hash_lookup] in E. apply elem_of_cons in Hin as [<-|Hin].
  - rewrite Hx, Hv, !Z.eqb_refl in E. done.
  - apply IH; [|done]. destruct (w_nodes w !! a) as [y|]; [|done].
    destruct (w_vnodes w !! tpt_vnode y) as [u|]; [|done].
    now destruct ((tpt_lowervp y =? tpt_lowervp x) && (v_mount u =? v_mount v)).
Qed.

(** The cache holds the vnode of the one entry with the key. *)
Lemma alias_entry w mp lowervp vp :
  cache_ok w -> alias w mp lowervp = Some vp <-> exists xp, entry w xp mp lowervp vp.
Proof.
  intros (H0' & Hent & Hnd & Huniq). unfold alias. split.
  - intros (xp & x & v & Hin & Hx & Hv & Hl & Ht & Hm)%hash_lookup_Some. exists xp.
    split; [done|]. destruct (Hent _ _ Hin) as (mp' & low' & vp' & (_ & x' & v' & E1 & E2 & E3 & E4 & E5 & E6) & _).
    exists x, v. simplify_eq. done.
  - intros (xp & Hin & x & v & Hx & Hv & Hl & Ht & Hm & Hd).
    destruct (hash_lookup w mp lowervp (bucket w (hash_of w lowervp))) as [vp'|] eqn:E.
    + apply hash_lookup_Some in E as (xp' & x' & v' & Hin' & Hx' & Hv' & Hl' & Ht' & Hm').
      assert (xp' = xp) as ->; [|congruence].
      apply (Huniq xp' xp mp lowervp vp' vp); [|split; [done|]; now exists x, v].
      split; [done|]. destruct (Hent _ _ Hin') as (? & ? & ? & (_ & y & u & ? & ? & ? & ? & ? & ?) & _).
      exists x', v'. simplify_eq. done.
    + destruct (hash_lookup_None _ _ _ _ _ x v E Hin Hx); congruence || done.
Qed.

Lemma cache_ok_linked w hd :
  cache_ok w -> forall xp, xp ∈ bucket w hd ->
  exists x v, w_nodes w !! xp = Some x /\ w_vnodes w !! tpt_vnode x = Some v.
Proof.
  intros (_ & Hent & _) xp Hin. destruct (Hent _ _ Hin) as (? & ? & ? & (_ & x & v & Hx & Hv & _ & Ht & _) & _).
  exists x, v. now rewrite Ht.
Qed.

(** ** The table's updates *)

Context `{!StableHash X}.

Lemma hash_of_stable w w' lowervp :
  tpt_hash_mask w' = tpt_hash_mask w -> hash_of w' lowervp = hash_of w lowervp.
Proof. intros E. unfold hash_of. now rewrite E, (stable_hash w' w). Qed.

(** [w'] keeps the table of [w], its nodes, and the mount and node of its
    vnodes; it may have more nodes and vnodes. *)
Definition keeps_cache w w' : Prop :=
  tpt_node_hashtbl w' = tpt_node_hashtbl w /\ tpt_hash_mask w' = tpt_hash_mask w /\
  (forall p x, w_nodes w !! p = Some x -> w_nodes w' !! p = Some x) /\
  (forall p v, w_vnodes w !! p = Some v -> exists v', w_vnodes w' !! p = Some v' /\
     v_mount v' = v_mount v /\ v_data v' = v_data v) /\
  w_vnodes w' !! NULLVP = None.

Lemma keeps_cache_trans w1 w2 w3 : keeps_cache w1 w2 -> keeps_cache w2 w3 -> keeps_cache w1 w3.
Proof.
  intros (E1 & E2 & E3 & E4 & E5) (F1 & F2 & F3 & F4 & F5).
  split; [congruence|]. split; [congruence|]. split; [auto|]. split; [|done].
  intros p v Hv. destruct (E4 p v Hv) as (v' & Hv' & ? & ?).
  destruct (F4 p v' Hv') as (v'' & Hv'' & ? & ?). exists v''. split; [done|]. split; congruence.
Qed.

Lemma same_data_keeps w w' : cache_ok w -> same_data w w' -> keeps_cache w w'.
Proof.
  intros (Hn & _) ->. do 3 (split; [done|]). split; [|done]. intros p v Hv. now exists v.
Qed.

(** A change of one vnode that leaves its mount and node. *)
Lemma alter_vnode_keeps w vp (f : vnode -> vnode) :
  cache_ok w -> (forall v, v_mount (f v) = v_mount v /\ v_data (f v) = v_data v) ->
  keeps_cache w (set_vnodes (alter f vp (w_vnodes w)) w).
Proof.
  intros (Hn & _) Hf. do 3 (split; [done|]). cbn [w_vnodes set_vnodes]. split.
  - intros p v Hv. destruct (decide (vp = p)) as [->|Hne].
    + rewrite lookup_alter_eq, Hv. exists (f v). split; [done | apply Hf].
    + rewrite lookup_alter_ne by done. now exists v.
  - destruct (decide (vp = NULLVP)) as [->|Hne].
    + now rewrite lookup_alter_eq, Hn.
    + now rewrite lookup_alter_ne.
Qed.

Lemma add_use_keeps w vp d : cache_ok w -> keeps_cache w (add_use vp d w).
Proof. intros Hok. now apply alter_vnode_keeps. Qed.

(** The entries themselves are as they were, whatever happened to other nodes
    and vnodes. *)
Definition keeps_entries w w' : Prop :=
  tpt_node_hashtbl w' = tpt_node_hashtbl w /\ tpt_hash_mask w' = tpt_hash_mask w /\
  (forall xp mp lowervp vp, entry w xp mp lowervp vp ->
     w_nodes w' !! xp = w_nodes w !! xp /\
     exists v v', w_vnodes w !! vp = Some v /\ w_vnodes w' !! vp = Some v' /\
       v_mount v' = v_mount v /\ v_data v' = v_data v) /\
  w_vnodes w' !! NULLVP = None.

Lemma keeps_cache_entries w w' : keeps_cache w w' -> keeps_entries w w'.
Proof.
  intros (E1 & E2 & E3 & E4 & E5). do 2 (split; [done|]). split; [|done].
  intros xp mp low vp (_ & x & v & Hx & Hv & _). destruct (E4 vp v Hv) as (v' & Hv' & ? & ?).
  split; [now rewrite Hx, (E3 _ _ Hx) | now exists v, v'].
Qed.

Lemma entry_keeps_entries w w' xp mp lowervp vp :
  cache_ok w -> keeps_entries w w' -> entry w xp mp lowervp vp <-> entry w' xp mp lowervp vp.
Proof.
  intros (_ & Hent & _) (E1 & E2 & E3 & _).
  assert (Eb : forall hd, bucket w' hd = bucket w hd) by (intros; unfold bucket; now rewrite E1).
  assert (Eh : hash_of w' lowervp = hash_of w lowervp) by now apply hash_of_stable.
  split; intros He.
  - destruct (E3 _ _ _ _ He) as (Ex & v1 & v' & Hv1 & Hv' & Em & Ed).
    destruct He as (Hin & x & v & Hx & Hv & Hl & Ht & Hm & Hd). unfold entry. rewrite Eb, Eh.
    split; [done|]. exists x, v'. rewrite Ex. repeat split; congruence || done.
  - destruct He as (Hin & x & v & Hx & Hv & Hl & Ht & Hm & Hd). rewrite Eb, Eh in Hin.
    destruct (Hent _ _ Hin) as (mp0 & low0 & vp0 & He0 & _).
    destruct (E3 _ _ _ _ He0) as (Ex & v1 & v' & Hv1 & Hv' & Em & Ed).
    destruct He0 as (_ & x0 & v0 & Hx0 & Hv0 & Hl0 & Ht0 & Hm0 & Hd0).
    unfold entry. split; [done|]. exists x, v1. rewrite Ex in Hx. simplify_eq.
    repeat split; congruence || done.
Qed.

Lemma cache_ok_keeps_entries w w' : keeps_entries w w' -> cache_ok w -> cache_ok w'.
Proof.
  intros Hs Hok. pose proof Hok as (Hn & Hent & Hnd & Hu). pose proof Hs as (E1 & E2 & _ & E5).
  split; [done|]. split; [|split].
  - intros hd xp Hin. unfold bucket in Hin. rewrite E1 in Hin.
    destruct (Hent hd xp Hin) as (mp & low & vp & He & ->). exists mp, low, vp.
    split; [now apply (entry_keeps_entries w w')|]. symmetry. now apply hash_of_stable.
  - intros hd. unfold bucket. rewrite E1. apply Hnd.
  - intros xp1 xp2 mp low vp1 vp2 H1 H2.
    apply (Hu xp1 xp2 mp low vp1 vp2); now apply (entry_keeps_entries w w').
Qed.

Lemma cache_ok_keeps w w' : keeps_cache w w' -> cache_ok w -> cache_ok w'.
Proof. intros Hk. now apply cache_ok_keeps_entries, keeps_cache_entries. Qed.

Lemma option_eq_iff {A} (a b : option A) : (forall x, a = Some x <-> b = Some x) -> a = b.
Proof.
  intros Hi. destruct a as [x|], b as [y|]; try done.
  - symmetry. now apply Hi.
  - symmetry. now apply Hi.
  - now apply Hi.
Qed.

(** ... followed by a change of the rest of the kernel. *)
Lemma keeps_same_data w w1 w2 :
  cache_ok w -> keeps_cache w w1 -> same_data w1 w2 -> keeps_cache w w2.
Proof. eauto using keeps_cache_trans, same_data_keeps, cache_ok_keeps. Qed.

Lemma alias_keeps_entries w w' mp lowervp :
  keeps_entries w w' -> cache_ok w -> alias w' mp lowervp = alias w mp lowervp.
Proof.
  intros Hs Hok. apply option_eq_iff. intros vp.
  rewrite !alias_entry by eauto using cache_ok_keeps_entries.
  split; intros (xp & He); exists xp; now apply (entry_keeps_entries w w').
Qed.

Lemma alias_keeps w w' mp lowervp :
  keeps_cache w w' -> cache_ok w -> alias w' mp lowervp = alias w mp lowervp.
Proof. intros Hk. now apply alias_keeps_entries, keeps_cache_entries. Qed.

Lemma keeps_entries_trans w1 w2 w3 :
  cache_ok w1 -> keeps_entries w1 w2 -> keeps_entries w2 w3 -> keeps_entries w1 w3.
Proof.
  intros Hok Hk (F1 & F2 & F3 & F4). pose proof Hk as (E1 & E2 & E3 & E4).
  split; [congruence|]. split; [congruence|]. split; [|done]. intros xp mp low vp He.
  destruct (E3 _ _ _ _ He) as (Ex & v & v1 & Hv & Hv1 & ? & ?).
  apply (entry_keeps_entries w1 w2) in He; [|done|done].
  destruct (F3 _ _ _ _ He) as (Ex' & v2 & v3 & Hv2 & Hv3 & ? & ?).
  split; [congruence|]. exists v, v3. simplify_eq. repeat split; congruence || done.
Qed.

(** A vnode that is not in the cache may change at will, and a node that is not
    may go. *)
Lemma change_vnode_keeps w vp u :
  cache_ok w -> vp <> NULLVP -> (forall xp mp l, ~ entry w xp mp l vp) ->
  keeps_entries w (set_vnodes (<[vp := u]> (w_vnodes w)) w).
Proof.
  intros (Hn & _) Hvp Hno. do 2 (split; [done|]). split; cbn [w_vnodes w_nodes set_vnodes].
  - intros xp mp l vp' He. split; [done|].
    assert (vp <> vp') by (intros <-; exact (Hno _ _ _ He)).
    rewrite lookup_insert_ne by done. destruct He as (_ & x & v & _ & Hv & _). now exists v, v.
  - now rewrite lookup_insert_ne.
Qed.

Lemma delete_node_keeps w xp :
  cache_ok w -> (forall mp l vp, ~ entry w xp mp l vp) ->
  keeps_entries w (set_nodes (delete xp (w_nodes w)) w).
Proof.
  intros (Hn & _) Hno. do 2 (split; [done|]). split; [|done]. cbn [w_vnodes w_nodes set_nodes].
  intros xp' mp l vp He. rewrite lookup_delete_ne by (intros <-; exact (Hno _ _ _ He)).
  split; [done|]. destruct He as (_ & x & v & _ & Hv & _). now exists v, v.
Qed.

Lemma bucket_insert w hd xp hd' :
  bucket (insert_head hd xp w) hd' = if decide (hd = hd') then xp :: bucket w hd else bucket w hd'.
Proof.
  unfold bucket at 1, insert_head. cbn. rewrite lookup_insert. now case_decide.
Qed.

Lemma bucket_unlink w xp hd : bucket (unlink xp w) hd = filter (fun a => a <> xp) (bucket w hd).
Proof.
  unfold bucket, unlink. cbn. rewrite lookup_fmap. now destruct (tpt_node_hashtbl w !! hd).
Qed.

(** A complete new entry with a new key. *)
Lemma entry_insert w xp x v xp' mp lowervp vp :
  w_nodes w !! xp = Some x -> w_vnodes w !! tpt_vnode x = Some v -> v_data v = xp ->
  entry (insert_head (hash_of w (tpt_lowervp x)) xp w) xp' mp lowervp vp <->
  entry w xp' mp lowervp vp \/
    (xp' = xp /\ mp = v_mount v /\ lowervp = tpt_lowervp x /\ vp = tpt_vnode x).
Proof.
  intros Hx Hv Hd. unfold entry. rewrite bucket_insert.
  assert (Eh : forall l, hash_of (insert_head (hash_of w (tpt_lowervp x)) xp w) l = hash_of w l)
    by (intros; now apply hash_of_stable). rewrite Eh. cbn [w_nodes w_vnodes insert_head set_hash].
  split.
  - intros (Hin & x' & v' & Hx' & Hv' & Hl & Ht & Hm & Hd').
    case_decide as E; [apply elem_of_cons in Hin as [->|Hin]|].
    + right. simplify_eq. done.
    + left. split; [now rewrite <- E | now exists x', v'].
    + left. split; [done | now exists x', v'].
  - intros [(Hin & Hr)|(-> & -> & -> & ->)].
    + split; [|done]. case_decide as E; [right; now rewrite E | done].
    + rewrite decide_True by done. split; [now left|]. exists x, v. done.
Qed.

Lemma insert_head_ok w xp x v :
  cache_ok w -> w_nodes w !! xp = Some x -> w_vnodes w !! tpt_vnode x = Some v ->
  v_data v = xp -> (forall hd, xp ∉ bucket w hd) -> alias w (v_mount v) (tpt_lowervp x) = None ->
  let w' := insert_head (hash_of w (tpt_lowervp x)) xp w in
  cache_ok w' /\ forall mp lowervp, alias w' mp lowervp =
    if decide (mp = v_mount v /\ lowervp = tpt_lowervp x) then Some (tpt_vnode x)
    else alias w mp lowervp.
Proof.
  intros Hok Hx Hv Hd Hnew Hnone w'. pose proof Hok as (Hn & Hent & Hnd & Hu).
  assert (Hnokey : forall xp' vp', ~ entry w xp' (v_mount v) (tpt_lowervp x) vp').
  { intros xp' vp' He. assert (Hs : alias w (v_mount v) (tpt_lowervp x) = Some vp')
      by (apply alias_entry; eauto). congruence. }
  assert (Hi := fun xp' mp lowervp vp => entry_insert w xp x v xp' mp lowervp vp Hx Hv Hd).
  assert (Eh : forall l, hash_of w' l = hash_of w l) by (intros; now apply hash_of_stable).
  assert (Hok' : cache_ok w').
  { split; [done|]. split; [|split].
    - intros hd xp' Hin. unfold w' in Hin. rewrite bucket_insert in Hin.
      assert (Hcase : xp' ∈ bucket w hd \/ (xp' = xp /\ hd = hash_of w (tpt_lowervp x))).
      { case_decide as E; [|now left]. apply elem_of_cons in Hin as [->|Hin]; [now right|].
        left. now rewrite <- E. }
      destruct Hcase as [Hin'|[-> ->]].
      + destruct (Hent hd xp' Hin') as (mp & low & vp & He & ->). exists mp, low, vp.
        rewrite Eh. split; [|done]. apply Hi. now left.
      + exists (v_mount v), (tpt_lowervp x), (tpt_vnode x). rewrite Eh. split; [|done].
        apply Hi. now right.
    - intros hd. unfold w'. rewrite bucket_insert. case_decide; [|apply Hnd].
      constructor; [apply Hnew | apply Hnd].
    - intros xp1 xp2 mp low vp1 vp2 [H1|(-> & -> & -> & ->)]%Hi [H2|(-> & E1 & E2 & ->)]%Hi.
      + exact (Hu _ _ _ _ _ _ H1 H2).
      + subst. now apply Hnokey in H1.
      + now apply Hnokey in H2.
      + done. }
  split; [done|]. intros mp low. apply option_eq_iff. intros vp.
  rewrite (alias_entry w') by done. case_decide as E.
  - destruct E as [-> ->]. split.
    + intros (xp' & [He|(_ & _ & _ & ->)]%Hi); [now apply Hnokey in He | done].
    + intros [= <-]. exists xp. apply Hi. now right.
  - rewrite alias_entry by done. split.
    + intros (xp' & [He|(_ & -> & -> & _)]%Hi); [eauto | now destruct E].
    + intros (xp' & He). exists xp'. apply Hi. now left.
Qed.

Lemma entry_unlink w xp xp' mp lowervp vp :
  entry (unlink xp w) xp' mp lowervp vp <-> entry w xp' mp lowervp vp /\ xp' <> xp.
Proof.
  unfold entry. rewrite bucket_unlink, list_elem_of_filter.
  assert (Eh : hash_of (unlink xp w) lowervp = hash_of w lowervp) by now apply hash_of_stable.
  rewrite Eh. cbn [w_nodes w_vnodes unlink set_hash]. tauto.
Qed.

Lemma unlink_ok w xp mp0 low0 vp0 :
  cache_ok w -> entry w xp mp0 low0 vp0 ->
  cache_ok (unlink xp w) /\ forall mp lowervp, alias (unlink xp w) mp lowervp =
    if decide (mp = mp0 /\ lowervp = low0) then None else alias w mp lowervp.
Proof.
  intros Hok He0. pose proof Hok as (Hn & Hent & Hnd & Hu).
  assert (Hok' : cache_ok (unlink xp w)).
  { split; [done|]. split; [|split].
    - intros hd xp' Hin. rewrite bucket_unlink, list_elem_of_filter in Hin. destruct Hin as [Hne Hin].
      destruct (Hent hd xp' Hin) as (mp & low & vp & He & ->). exists mp, low, vp.
      split; [now apply entry_unlink | symmetry; now apply hash_of_stable].
    - intros hd. rewrite bucket_unlink. apply NoDup_filter, Hnd.
    - intros xp1 xp2 mp low vp1 vp2 [H1 _]%entry_unlink [H2 _]%entry_unlink.
      exact (Hu _ _ _ _ _ _ H1 H2). }
  split; [done|]. intros mp low. apply option_eq_iff. intros vp.
  rewrite alias_entry by done. case_decide as E.
  - destruct E as [-> ->]. split; [|done]. intros (xp' & [He Hne]%entry_unlink).
    destruct Hne. exact (Hu _ _ _ _ _ _ He He0).
  - rewrite alias_entry by done. split.
    + intros (xp' & [He _]%entry_unlink). eauto.
    + intros (xp' & He). exists xp'. apply entry_unlink. split; [done|]. intros ->. apply E.
      destruct He as (_ & x & v & Hx & Hv & Hl & Ht & Hm & _).
      destruct He0 as (_ & x0 & v0 & Hx0 & Hv0 & Hl0 & Ht0 & Hm0 & _). simplify_eq. done.
Qed.

Lemma on_list_spec w xp hd : xp ∈ bucket w hd -> on_list w xp = true.
Proof.
  intros (l & Hl & Hin)%bucket_in. apply existsb_exists. exists (hd, l). split.
  - apply list_elem_of_In, elem_of_map_to_list, Hl.
  - now apply bool_decide_eq_true.
Qed.

(** ** The operations on the table *)

Context `{!Quiet X} `{!References X}.

Lemma same_data_lookup w w' vp mp :
  same_data w w' ->
  hash_of w' vp = hash_of w vp /\ (forall hd, bucket w' hd = bucket w hd) /\
  (forall l, hash_lookup w' mp vp l = hash_lookup w mp vp l).
Proof.
  intros ->. split; [now apply hash_of_stable|]. split; [done|]. intros l. induction l as [|a l IH]; [done|].
  cbn [hash_lookup w_nodes w_vnodes set_ext]. now rewrite IH.
Qed.

Lemma tpt_hashget_spec w mp lowervp :
  cache_ok w ->
  exists w', tpt_hashget mp lowervp w = Ret (default NULLVP (alias w mp lowervp)) w' /\
    same_data (match alias w mp lowervp with Some vp => add_use vp 1 w | None => w end) w'.
Proof.
  intros Hok. unfold tpt_hashget.
  destruct (quiet_run (ASSERT_VOP_LOCKED lowervp "tpt_hashget") w) as ([] & w1 & E1 & S1).
  erewrite bind_Ret by exact E1. unfold NULL_NHASH, gets, bind at 1 2.
  fold (hash_of w1 lowervp).
  destruct (same_data_lookup w w1 lowervp mp S1) as (Eh & Eb & El). rewrite Eh, Eb.
  unfold alias. case_bool_decide as Hnil.
  { rewrite Hnil. exists w1. done. }
  destruct (quiet_run rw_rlock w1) as ([] & w2 & E2 & S2).
  erewrite bind_Ret by exact E2. pose proof (same_data_trans _ _ _ S1 S2) as S12.
  destruct (same_data_lookup w w2 lowervp mp S12) as (_ & Eb2 & El2).
  erewrite bind_Ret by reflexivity. rewrite Eb2.
  erewrite bind_Ret by (apply hash_foreach_eq; rewrite <- Eb2; apply cache_ok_linked;
    eauto using cache_ok_keeps, same_data_keeps).
  rewrite El2. destruct (hash_lookup w mp lowervp _) as [vp|] eqn:Ea; cbn [default].
  - destruct (hash_lookup_Some _ _ _ _ _ Ea) as (xp & x & v & _ & _ & Hv & _).
    destruct (vref_spec vp w2 v) as (w3 & E3 & S3); [now rewrite S12|].
    erewrite bind_Ret by exact E3.
    destruct (quiet_run rw_runlock w3) as ([] & w4 & E4 & S4).
    erewrite bind_Ret by exact E4. exists w4. split; [done|].
    eapply same_data_trans; [|exact S4]. eapply same_data_trans; [|exact S3].
    rewrite S12. done.
  - destruct (quiet_run rw_runlock w2) as ([] & w4 & E4 & S4).
    erewrite bind_Ret by exact E4. exists w4. split; [done|]. eauto using same_data_trans.
Qed.

(** An entry's node with its vnode, not yet linked. *)
Definition unlinked (w : world X) (xp : Z) (x : tpt_node) (v : vnode) : Prop :=
  w_nodes w !! xp = Some x /\ w_vnodes w !! tpt_vnode x = Some v /\ v_data v = xp /\
  forall hd, xp ∉ bucket w hd.

Lemma tpt_hashins_spec w mp xp x v :
  cache_ok w -> unlinked w xp x v -> v_mount v = mp ->
  exists w', tpt_hashins mp xp w = Ret (default NULLVP (alias w mp (tpt_lowervp x))) w' /\
    match alias w mp (tpt_lowervp x) with
    | Some ovp => same_data (add_use ovp 1 w) w'
    | None => same_data (insert_head (hash_of w (tpt_lowervp x)) xp w) w'
    end.
Proof.
  intros Hok (Hx & Hv & Hd & Hnew) Hm. unfold tpt_hashins.
  assert (Enode : forall w', same_data w w' -> node_at xp w' = Ret x w').
  { intros w' ->. unfold node_at, deref. cbn [w_nodes set_ext]. now rewrite Hx. }
  erewrite bind_Ret by apply Enode, same_data_refl.
  unfold NULL_NHASH. erewrite bind_Ret by reflexivity. fold (hash_of w (tpt_lowervp x)).
  set (low := tpt_lowervp x) in *.
  destruct (quiet_run rw_wlock w) as ([] & w1 & E1 & S1). erewrite bind_Ret by exact E1.
  destruct (same_data_lookup w w1 low mp S1) as (Eh1 & Eb1 & El1).
  erewrite bind_Ret by reflexivity. rewrite Eb1. erewrite bind_Ret by (apply Enode; exact S1).
  fold low.
  erewrite bind_Ret by (apply hash_foreach_eq; rewrite <- Eb1; apply cache_ok_linked;
    eauto using cache_ok_keeps, same_data_keeps).
  rewrite El1. unfold alias. destruct (hash_lookup w mp low _) as [ovp|] eqn:Ea; cbn [default].
  - destruct (hash_lookup_Some _ _ _ _ _ Ea) as (xp' & x' & v' & _ & _ & Hv' & _).
    destruct (vref_spec ovp w1 v') as (w3 & E3 & S3); [now rewrite S1|].
    erewrite bind_Ret by exact E3.
    destruct (quiet_run rw_wunlock w3) as ([] & w4 & E4 & S4).
    erewrite bind_Ret by exact E4. exists w4. split; [done|].
    eapply same_data_trans; [|exact S4]. eapply same_data_trans; [|exact S3]. now rewrite S1.
  - erewrite bind_Ret by reflexivity.
    destruct (quiet_run rw_wunlock (insert_head (hash_of w low) xp w1)) as ([] & w4 & E4 & S4).
    erewrite bind_Ret by exact E4. exists w4. split; [done|].
    eapply same_data_trans; [|exact S4]. rewrite S1. unfold insert_head, same_data.
    unfold bucket. cbn. done.
Qed.

Lemma tpt_hashrem_spec w xp mp lowervp vp :
  cache_ok w -> entry w xp mp lowervp vp ->
  exists w', tpt_hashrem xp w = Ret tt w' /\ same_data (unlink xp w) w'.
Proof.
  intros Hok He. unfold tpt_hashrem.
  destruct (quiet_run rw_wlock w) as ([] & w1 & E1 & S1). erewrite bind_Ret by exact E1.
  erewrite bind_Ret by reflexivity.
  assert (on_list w1 xp = true) as ->.
  { apply (on_list_spec w1 xp (hash_of w lowervp)). unfold bucket. rewrite S1. apply He. }
  erewrite bind_Ret by reflexivity.
  destruct (quiet_run rw_wunlock (unlink xp w1)) as ([] & w2 & E2 & S2).
  exists w2. split; [exact E2|]. eapply same_data_trans; [|exact S2]. now rewrite S1.
Qed.

End facts.

(** ** Properties of the table *)

Section table_properties.
  Context {X : Type} `{Headers} `{FreeBSD X} `{!StableHash X} `{!Quiet X} `{!References X}.

(** C4: [tpt_hashget] finds the tptfs vnode of the lower vnode on the mount and
    returns it with one more use reference, or returns NULLVP when there is
    none; the cache stays consistent, with the same entries, and the lower
    vnode's reference count is not touched unless it is itself the one found. *)
Theorem tpt_hashget_refines (w : world X) mp lowervp :
  cache_ok w ->
  exists r w', tpt_hashget mp lowervp w = Ret r w' /\
    match alias w mp lowervp with
    | Some vp => r = vp /\ same_data (add_use vp 1 w) w'
    | None => r = NULLVP /\ same_data w w'
    end /\
    cache_ok w' /\ forall mp' l, alias w' mp' l = alias w mp' l.
Proof.
  intros Hok. destruct (tpt_hashget_spec w mp lowervp Hok) as (w' & E & Hs).
  assert (Hk : keeps_cache w w').
  { destruct (alias w mp lowervp) as [vp|]; [|now apply same_data_keeps].
    exact (keeps_same_data _ _ _ Hok (add_use_keeps w vp 1 Hok) Hs). }
  eexists _, w'. split; [exact E|]. split; [now destruct (alias w mp lowervp)|].
  split; [eauto using cache_ok_keeps|]. intros. now apply alias_keeps.
Qed.

(** C3: seen as a partial map from (mount, lower vnode) to tptfs vnodes,
    [tpt_hashins] adds the new node's vnode under its key when the key is free
    and returns NULLVP; when it is taken it returns the vnode that is there,
    referenced, and the map stays as it was.  Either way no key ever has two
    vnodes. *)
Theorem tpt_hashins_refines (w : world X) mp xp x v :
  cache_ok w -> unlinked w xp x v -> v_mount v = mp ->
  exists r w', tpt_hashins mp xp w = Ret r w' /\ cache_ok w' /\
    match alias w mp (tpt_lowervp x) with
    | Some ovp => r = ovp /\ (forall mp' l, alias w' mp' l = alias w mp' l) /\
        same_data (add_use ovp 1 w) w'
    | None => r = NULLVP /\
        forall mp' l, alias w' mp' l =
          if decide (mp' = mp /\ l = tpt_lowervp x) then Some (tpt_vnode x) else alias w mp' l
    end.
Proof.
  intros Hok Hu Hm. destruct (tpt_hashins_spec w mp xp x v Hok Hu Hm) as (w' & E & Hs).
  eexists _, w'. split; [exact E|]. destruct Hu as (Hx & Hv & Hd & Hnew).
  destruct (alias w mp (tpt_lowervp x)) as [ovp|] eqn:Ea.
  - pose proof (keeps_same_data _ _ _ Hok (add_use_keeps w ovp 1 Hok) Hs) as Hk.
    split; [eauto using cache_ok_keeps|]. split; [done|]. split; [|done].
    intros. now apply alias_keeps.
  - rewrite <- Hm in Ea. destruct (insert_head_ok w xp x v Hok Hx Hv Hd Hnew Ea) as [Hok' Ha].
    pose proof (same_data_keeps _ _ Hok' Hs) as Hk. split; [eauto using cache_ok_keeps|].
    split; [done|]. intros mp' l. rewrite (alias_keeps _ _ _ _ Hk Hok'), Ha. now rewrite Hm.
Qed.

(** C5: [tpt_hashrem] of a node of the cache removes its key from the map and no
    other, so that the lower vnode can be given a new tptfs vnode. *)
Theorem tpt_hashrem_refines (w : world X) xp mp lowervp vp :
  cache_ok w -> entry w xp mp lowervp vp ->
  exists w', tpt_hashrem xp w = Ret tt w' /\ cache_ok w' /\
    forall mp' l, alias w' mp' l =
      if decide (mp' = mp /\ l = lowervp) then None else alias w mp' l.
Proof.
  intros Hok He. destruct (tpt_hashrem_spec w xp mp lowervp vp Hok He) as (w' & E & Hs).
  destruct (unlink_ok w xp mp lowervp vp Hok He) as [Hok' Ha].
  pose proof (same_data_keeps _ _ Hok' Hs) as Hk. exists w'. split; [done|].
  split; [eauto using cache_ok_keeps|]. intros mp' l. now rewrite (alias_keeps _ _ _ _ Hk Hok'), Ha.
Qed.

End table_properties.

(** ** tpt_nodeget *)

Section nodeget.
  Context {X : Type} `{Headers} `{FreeBSD X} `{!StableHash X} `{!Quiet X} `{!References X}
    `{!NewVnode X}.
  Implicit Types w : world X.

Lemma KASSERT_ok (c : M (world X) bool) msg w : c w = Ret true w -> KASSERT c msg w = Ret tt w.
Proof. intros E. unfold KASSERT. destruct INVARIANTS; [|done]. now erewrite bind_Ret by exact E. Qed.

(** A world with a new node and a new vnode. *)
Definition draft (w : world X) (xp : Z) (x : tpt_node) (vp : Z) (v : vnode) : world X :=
  set_vnodes (<[vp := v]> (w_vnodes w)) (set_nodes (<[xp := x]> (w_nodes w)) w).

Lemma draft_update w xp x vp v f w1 :
  same_data (draft w xp x vp v) w1 ->
  exists w2, update_vnode vp f w1 = Ret tt w2 /\ same_data (draft w xp x vp (f v)) w2.
Proof.
  intros ->. unfold update_vnode, update. cbn [w_vnodes set_ext draft set_vnodes].
  rewrite lookup_insert_eq. eexists. split; [reflexivity|]. unfold same_data, draft, set_ext. cbn.
  now rewrite insert_insert_eq.
Qed.

Lemma draft_read w xp x vp v lowervp lv w1 :
  same_data (draft w xp x vp v) w1 -> w_vnodes w !! lowervp = Some lv -> vp <> lowervp ->
  vnode_at lowervp w1 = Ret lv w1.
Proof.
  intros -> Hlv Hne. unfold vnode_at, deref. cbn [w_vnodes set_ext draft set_vnodes].
  now rewrite lookup_insert_ne, Hlv by done.
Qed.

Lemma draft_keeps w xp x vp v :
  cache_ok w -> w_nodes w !! xp = None -> w_vnodes w !! vp = None -> vp <> NULLVP ->
  keeps_cache w (draft w xp x vp v).
Proof.
  intros (Hn & _) Hxp Hvp Hne. split; [done|]. split; [done|]. cbn [w_nodes w_vnodes draft set_vnodes set_nodes].
  split; [|split].
  - intros p y Hy. rewrite lookup_insert_ne; [done | congruence].
  - intros p u Hu. rewrite lookup_insert_ne by congruence. now exists u.
  - now rewrite lookup_insert_ne.
Qed.

(** The first part of [nodeget_new]: up to the vnode's place on the mount. *)
Definition proto (lv : vnode) (xp : Z) (v : vnode) : vnode :=
  vn_set_vnlock (v_vnlock lv) (vn_set_data xp (vn_set_type (v_type lv) v)).

(** A call that is another computation and then returns [e]. *)
Lemma bind_tail {A B C} (m : M (world X) B) (d : M (world X) A) e (k : B -> M (world X) C) r w w' :
  m w = (d ;;; ret e) w' -> (forall w2, k e w2 = Ret r w2) ->
  bind m k w = (d ;;; ret r) w'.
Proof. intros Em Hk. unfold bind in *. rewrite Em. destruct (d w'); [apply Hk | done]. Qed.

(** What [nodeget_new] needs of the world: the lower vnode, the mount with its
    tptfs data, and a lower vnode that shares no VM object. *)
Record nodeget_pre (w : world X) (mp lowervp : Z) (lv : vnode) (m : mount) (tm : tpt_mount) : Prop := {
  np_cache : cache_ok w;
  np_lower : w_vnodes w !! lowervp = Some lv;
  np_mount : w_mounts w !! mp = Some m;
  np_tmount : w_tmounts w !! mnt_data m = Some tm;
  np_irflag : forall w', has (vn_irflag_read w' lowervp) VIRF_PGREAD = false;
}.

Definition root_flag (lowervp : Z) (tm : tpt_mount) : Z :=
  if lowervp =? nullm_lowerrootvp tm then Z.lor 0 VV_ROOT else 0.

(** [v] is the tptfs vnode that stands for [lowervp] on [mp], with node [xp]. *)
Definition tpt_vnode_for (w : world X) (mp lowervp : Z) (lv : vnode) (tm : tpt_mount)
    (xp vp : Z) (v : vnode) : Prop :=
  w_vnodes w !! vp = Some v /\ w_nodes w !! xp = Some (TptNode lowervp vp 0) /\ v_data v = xp /\
  v_mount v = mp /\ v_op v = tpt_vnodeops /\ v_type v = v_type lv /\ v_vnlock v = v_vnlock lv /\
  v_vflag v = root_flag lowervp tm /\ v_usecount v = 1 /\ v_object v = 0.

(** The node and the vnode are filled in. *)
Lemma proto_run w xp x vp v lowervp lv w2 :
  same_data (draft w xp x vp v) w2 -> w_vnodes w !! lowervp = Some lv -> vp <> lowervp ->
  exists w6, same_data (draft w xp (TptNode lowervp vp 0) vp (proto lv xp v)) w6 /\
  forall B (k : M (world X) B),
    (update_node xp (fun _ => TptNode lowervp vp 0) ;;;
     lv <- vnode_at lowervp ;;
     update_vnode vp (vn_set_type (v_type lv)) ;;;
     update_vnode vp (vn_set_data xp) ;;;
     lv <- vnode_at lowervp ;;
     update_vnode vp (vn_set_vnlock (v_vnlock lv)) ;;; k) w2 = k w6.
Proof.
  intros S2 Hlv Hne. set (node := TptNode lowervp vp 0).
  assert (Hup : exists w3, update_node xp (fun _ => node) w2 = Ret tt w3 /\
    same_data (draft w xp node vp v) w3).
  { rewrite S2. unfold update_node, update. cbn [w_nodes set_ext draft set_vnodes set_nodes].
    rewrite lookup_insert_eq. eexists. split; [reflexivity|]. unfold same_data, draft, set_ext. cbn.
    now rewrite insert_insert_eq. }
  destruct Hup as (w3 & E3 & S3).
  destruct (draft_update _ _ _ _ _ (vn_set_type (v_type lv)) _ S3) as (w4 & E4 & S4).
  destruct (draft_update _ _ _ _ _ (vn_set_data xp) _ S4) as (w5 & E5 & S5).
  destruct (draft_update _ _ _ _ _ (vn_set_vnlock (v_vnlock lv)) _ S5) as (w6 & E6 & S6).
  exists w6. split; [exact S6|]. intros B k.
  erewrite bind_Ret by exact E3.
  erewrite bind_Ret by (eapply draft_read; [exact S3 | exact Hlv | done]).
  erewrite bind_Ret by exact E4. erewrite bind_Ret by exact E5.
  erewrite bind_Ret by (eapply draft_read; [exact S5 | exact Hlv | done]).
  now erewrite bind_Ret by exact E6.
Qed.

(** The vnode of the mount's root is marked, and no VM object is shared. *)
Lemma root_run w xp x vp v mp lowervp m tm w7 :
  same_data (draft w xp x vp v) w7 -> w_mounts w7 !! mp = Some m ->
  w_tmounts w7 !! mnt_data m = Some tm -> v_vflag v = 0 ->
  (forall w', has (vn_irflag_read w' lowervp) VIRF_PGREAD = false) ->
  exists w8, same_data (draft w xp x vp (vn_set_vflag (root_flag lowervp tm) v)) w8 /\
  forall B (k : M (world X) B),
    (xmp <- MOUNTTONULLMOUNT mp ;;
     tm <- tmount_at xmp ;;
     when (lowervp =? nullm_lowerrootvp tm)
       (update_vnode vp (fun v => vn_set_vflag (Z.lor (v_vflag v) VV_ROOT) v)) ;;;
     share_object vp lowervp ;;; k) w7 = k w8.
Proof.
  intros S7 Hm Htm Hf Hir.
  assert (Ed : MOUNTTONULLMOUNT mp w7 = Ret (mnt_data m) w7).
  { unfold MOUNTTONULLMOUNT, mount_at, deref, bind. now rewrite Hm. }
  assert (Et : tmount_at (mnt_data m) w7 = Ret tm w7) by (unfold tmount_at, deref; now rewrite Htm).
  assert (Hw : exists w8, when (lowervp =? nullm_lowerrootvp tm)
      (update_vnode vp (fun v => vn_set_vflag (Z.lor (v_vflag v) VV_ROOT) v)) w7 = Ret tt w8 /\
    same_data (draft w xp x vp (vn_set_vflag (root_flag lowervp tm) v)) w8).
  { unfold root_flag. destruct (lowervp =? nullm_lowerrootvp tm); cbn [when].
    - destruct (draft_update _ _ _ _ _ (fun v => vn_set_vflag (Z.lor (v_vflag v) VV_ROOT) v) _ S7)
        as (w8 & E8 & S8). exists w8. split; [exact E8|]. cbn in S8. now rewrite Hf in S8.
    - exists w7. split; [done|]. replace (vn_set_vflag 0 v) with v; [done|]. rewrite <- Hf. now destruct v. }
  destruct Hw as (w8 & E8 & S8). exists w8. split; [exact S8|]. intros B k.
  erewrite bind_Ret by exact Ed. erewrite bind_Ret by exact Et. erewrite bind_Ret by exact E8.
  assert (Es : share_object vp lowervp w8 = Ret tt w8).
  { unfold share_object. erewrite bind_Ret by reflexivity. now rewrite Hir. }
  now erewrite bind_Ret by exact Es.
Qed.

(** The steps of [nodeget_new] from the allocation to the call of
    [tpt_hashins]: they fail in one of two ways or produce the vnode. *)
Lemma nodeget_new_draft w mp lowervp lv m tm :
  nodeget_pre w mp lowervp lv m tm ->
  exists xp vp v w1 wb, w_nodes w !! xp = None /\ keeps_cache w w1 /\
  ((exists e, e <> 0 /\ nodeget_new mp lowervp w =
      (vput lowervp ;;; free_node xp ;;; ret (e, NULLVP)) w1) \/
   (exists e, e <> 0 /\ w_nodes w1 !! xp = Some (TptNode lowervp vp 0) /\
      nodeget_new mp lowervp w = (tpt_insmntque_dtr vp xp ;;; ret (e, NULLVP)) w1) \/
   (vp <> NULLVP /\ w_vnodes w !! vp = None /\ keeps_cache w wb /\
    w_nodes wb = w_nodes w /\ w_vnodes wb = w_vnodes w /\ w_vars wb = w_vars w /\ cache_ok wb /\
    tpt_vnode_for w1 mp lowervp lv tm xp vp v /\
    same_data (draft wb xp (TptNode lowervp vp 0) vp v) w1 /\
    nodeget_new mp lowervp w =
      (vpp <- tpt_hashins mp xp ;;
       if negb (vpp =? NULLVP) then
         vrele lowervp ;;; update_vnode vp (vn_set_object 0) ;;; tpt_destroy_proto vp xp ;;;
         ret (0, vpp)
       else ret (0, vp)) w1)).
Proof.
  intros [Hok Hlv Hm Htm Hir]. unfold nodeget_new.
  destruct (malloc_node_spec w) as (xp & n & w1 & E1 & Hxp & S1). erewrite bind_Ret by exact E1.
  assert (Hk1 : keeps_cache w w1).
  { eapply keeps_same_data; [exact Hok| |exact S1]. split; [done|]. split; [done|].
    split; [intros p y Hy; cbn; rewrite lookup_insert_ne; congruence|].
    split; [intros p u Hu; now exists u | apply Hok]. }
  destruct (getnewvnode_spec "tptfs" mp tpt_vnodeops w1)
    as [(e & w2 & E2 & He & S2)|(vp & v & w2 & E2 & Hne & Hvp & S2 & Hops & Hd & Hf & Ho & Hu & _)].
  { exists xp, 0, lv, w2, w. split; [done|]. split.
    - apply (keeps_cache_trans w w1); [done|]. apply same_data_keeps; eauto using cache_ok_keeps.
    - left. exists e. split; [done|]. erewrite bind_Ret by exact E2.
      cbv beta iota. now rewrite (proj2 (Z.eqb_neq e 0) He). }
  assert (Hvp' : w_vnodes w !! vp = None) by now rewrite S1 in Hvp.
  assert (Hnl : vp <> lowervp) by congruence.
  assert (S2' : same_data (draft w xp n vp v) w2) by (rewrite S2, S1; done).
  erewrite bind_Ret by exact E2. cbv beta iota. change (negb (0 =? 0)) with false. cbv iota.
  set (node := TptNode lowervp vp 0).
  destruct (proto_run w xp n vp v lowervp lv w2 S2' Hlv Hnl) as (w6 & S6 & E6).
  rewrite E6. clear E6.
  set (v6 := proto lv xp v) in *. pose proof (draft_keeps w xp node vp v6 Hok Hxp Hvp' Hne) as Hkd.
  pose proof (keeps_same_data _ _ _ Hok Hkd S6) as Hk6.
  assert (H6 : w_vnodes w6 !! vp = Some v6 /\ w_mounts w6 !! mp = Some m /\ w_nodes w6 !! xp = Some node).
  { rewrite S6. cbn. now rewrite !lookup_insert_eq. }
  destruct H6 as (Hv6 & Hm6 & Hn6).
  destruct (insmntque1_spec vp mp tpt_insmntque_dtr xp w6 v6 m Hv6 Hm6)
    as [(e & w7 & E7 & He & S7)|(w7 & E7 & S7)].
  { exists xp, vp, lv, w7, w. split; [done|]. split; [exact (keeps_same_data _ _ _ Hok Hk6 S7)|].
    right. left. exists e. split; [done|]. split; [now rewrite S7|].
    eapply bind_tail; [exact E7|]. intros w8. now rewrite (proj2 (Z.eqb_neq e 0) He). }
  erewrite bind_Ret by exact E7. change (negb (0 =? 0)) with false. cbv iota.
  set (m7 := mount_set_size (mnt_nvnodelistsize m + 1) m) in *.
  set (wb := set_mounts (<[mp := m7]> (w_mounts w)) w).
  assert (Hkb : keeps_cache w wb).
  { split; [done|]. split; [done|]. split; [done|]. split; [intros p u ?; now exists u | apply Hok]. }
  pose proof (cache_ok_keeps _ _ Hkb Hok) as Hokb.
  assert (S7' : same_data (draft wb xp node vp (vn_set_mount mp v6)) w7).
  { rewrite S7, S6. unfold same_data, draft, wb, set_ext. cbn. now rewrite insert_insert_eq. }
  clear S7. assert (Hl7 : w_mounts w7 !! mp = Some m7 /\ w_tmounts w7 !! mnt_data m = Some tm).
  { rewrite S7'. cbn. now rewrite lookup_insert_eq. }
  destruct Hl7 as [Hm7 Htm7].
  set (v7 := vn_set_mount mp v6) in *.
  destruct (root_run wb xp node vp v7 mp lowervp m7 tm w7 S7' Hm7 Htm7 Hf Hir)
    as (w8 & S8 & E8). rewrite E8. clear E8.
  set (v8 := vn_set_vflag (root_flag lowervp tm) v7) in *.
  exists xp, vp, v8, w8, wb. split; [done|]. split.
  { eapply keeps_same_data; [exact Hok| |exact S8]. eapply keeps_cache_trans; [exact Hkb|].
    now apply draft_keeps. }
  right. right. do 7 (split; [done|]). split; [|done].
  unfold tpt_vnode_for. rewrite S8. cbn. rewrite !lookup_insert_eq. done.
Qed.

(** A vnode that is on no list of the cache cannot be found in it. *)
Lemma draft_unlinked w wb xp vp v w1 mp lowervp lv tm :
  cache_ok wb -> w_nodes wb !! xp = None -> keeps_cache wb (draft wb xp (TptNode lowervp vp 0) vp v) ->
  same_data (draft wb xp (TptNode lowervp vp 0) vp v) w1 ->
  tpt_vnode_for w1 mp lowervp lv tm xp vp v -> keeps_cache w wb ->
  unlinked w1 xp (TptNode lowervp vp 0) v.
Proof.
  intros Hok Hxp Hk Hs (Hv & Hx & Hd & _) _. split; [done|]. split; [done|]. split; [done|].
  intros hd Hin. assert (Eb : bucket w1 hd = bucket wb hd) by (rewrite Hs; done).
  rewrite Eb in Hin. destruct (cache_ok_linked wb hd Hok xp Hin) as (x & u & E & _). congruence.
Qed.

(** [tpt_nodeget] up to the creation of the vnode. *)
Lemma nodeget_start w mp lowervp lv :
  cache_ok w -> w_vnodes w !! lowervp = Some lv -> 0 < v_usecount lv ->
  exists w1, same_data w w1 /\ tpt_nodeget mp lowervp w =
    (vpp <- tpt_hashget mp lowervp ;;
     if negb (vpp =? NULLVP) then vrele lowervp ;;; ret (0, vpp)
     else
       islocked <- gets (fun w => VOP_ISLOCKED w lowervp) ;;
       doomed <-
         (if negb (islocked =? LK_EXCLUSIVE) then
            vn_lock lowervp (Z.lor LK_UPGRADE LK_RETRY) ;;;
            gets (fun w => VN_IS_DOOMED w lowervp)
          else ret false) ;;
       if doomed then vput lowervp ;;; ret (ENOENT, NULLVP)
       else nodeget_new mp lowervp) w1.
Proof.
  intros Hok Hlv Hu. unfold tpt_nodeget.
  destruct (quiet_run (ASSERT_VOP_LOCKED lowervp "lowervp") w) as ([] & w1 & E1 & S1).
  erewrite bind_Ret by exact E1. exists w1. split; [done|].
  assert (Ek : KASSERT (lv <- vnode_at lowervp ;; ret (0 <? v_usecount lv)) "VNPASS" w1 = Ret tt w1).
  { apply KASSERT_ok. unfold vnode_at, deref, bind, ret. rewrite S1. cbn. rewrite Hlv.
    f_equal. now apply Z.ltb_lt. }
  now erewrite bind_Ret by exact Ek.
Qed.

Lemma nodeget_miss w mp lowervp lv :
  cache_ok w -> w_vnodes w !! lowervp = Some lv -> 0 < v_usecount lv ->
  (forall w', VOP_ISLOCKED w' lowervp = LK_EXCLUSIVE) -> alias w mp lowervp = None ->
  exists w1, same_data w w1 /\ tpt_nodeget mp lowervp w = nodeget_new mp lowervp w1.
Proof.
  intros Hok Hlv Hu Hl Ha.
  destruct (nodeget_start w mp lowervp lv Hok Hlv Hu) as (w1 & S1 & ->).
  pose proof (same_data_keeps _ _ Hok S1) as Hk1.
  destruct (tpt_hashget_spec w1 mp lowervp (cache_ok_keeps _ _ Hk1 Hok)) as (w2 & E2 & S2).
  rewrite (alias_keeps _ _ _ _ Hk1 Hok), Ha in E2, S2.
  exists w2. split; [eauto using same_data_trans|]. erewrite bind_Ret by exact E2.
  cbn [negb default Z.eqb NULLVP]. erewrite bind_Ret by reflexivity. now rewrite Hl, Z.eqb_refl.
Qed.

Lemma nodeget_pre_same w w' mp lowervp lv m tm :
  same_data w w' -> nodeget_pre w mp lowervp lv m tm -> nodeget_pre w' mp lowervp lv m tm.
Proof.
  intros S [Hok Hlv Hm Htm Hir]. split; [|now rewrite S..|done].
  exact (cache_ok_keeps _ _ (same_data_keeps _ _ Hok S) Hok).
Qed.

(** A vnode of the cache is found. *)
Lemma nodeget_hit (w : world X) mp lowervp lv vp :
  cache_ok w -> w_vnodes w !! lowervp = Some lv -> 1 < v_usecount lv ->
  alias w mp lowervp = Some vp ->
  exists w', tpt_nodeget mp lowervp w = Ret (0, vp) w' /\
    same_data (add_use lowervp (-1) (add_use vp 1 w)) w' /\
    cache_ok w' /\ forall mp' l, alias w' mp' l = alias w mp' l.
Proof.
  intros Hok Hlv Hu Ha.
  destruct (nodeget_start w mp lowervp lv Hok Hlv) as (w1 & S1 & ->); [lia|].
  pose proof (same_data_keeps _ _ Hok S1) as Hk1. pose proof (cache_ok_keeps _ _ Hk1 Hok) as Hok1.
  destruct (tpt_hashget_spec w1 mp lowervp Hok1) as (w2 & E2 & S2).
  rewrite (alias_keeps _ _ _ _ Hk1 Hok), Ha in E2, S2.
  change (default NULLVP (Some vp)) with vp in E2.
  erewrite bind_Ret by exact E2.
  assert (Hvp : w_vnodes w !! vp <> None).
  { apply alias_entry in Ha as (xp & _ & x & v & _ & Hv & _); [congruence | done]. }
  assert ((vp =? NULLVP) = false) as ->.
  { apply Z.eqb_neq. intros ->. destruct Hok as [Hn _]. congruence. }
  cbn [negb]. assert (S2' : same_data (add_use vp 1 w) w2) by (rewrite S2, S1; done).
  destruct (w_vnodes (add_use vp 1 w) !! lowervp) as [lv2|] eqn:Elv2.
  2: { unfold add_use in Elv2. cbn in Elv2.
       destruct (decide (vp = lowervp)) as [->|]; [|rewrite lookup_alter_ne in Elv2 by done; congruence].
       rewrite lookup_alter_eq, Hlv in Elv2. done. }
  assert (Hu2 : 1 < v_usecount lv2).
  { unfold add_use in Elv2. cbn in Elv2.
    destruct (decide (vp = lowervp)) as [->|].
    - rewrite lookup_alter_eq, Hlv in Elv2. injection Elv2 as <-. cbn. lia.
    - rewrite lookup_alter_ne in Elv2 by done. simplify_eq. done. }
  destruct (vrele_spec lowervp w2 lv2) as (w3 & E3 & S3); [now rewrite S2' | done |].
  erewrite bind_Ret by exact E3. exists w3. split; [done|].
  assert (S3' : same_data (add_use lowervp (-1) (add_use vp 1 w)) w3) by (rewrite S3, S2'; done).
  split; [done|].
  assert (Hk : keeps_cache w w3).
  { pose proof (add_use_keeps w vp 1 Hok) as Ka. pose proof (cache_ok_keeps _ _ Ka Hok) as Oka.
    pose proof (add_use_keeps _ lowervp (-1) Oka) as Kb.
    exact (keeps_same_data _ _ _ Hok (keeps_cache_trans _ _ _ Ka Kb) S3'). }
  split; [exact (cache_ok_keeps _ _ Hk Hok)|]. intros. now apply alias_keeps.
Qed.

(** None is: a new one is made. *)
Lemma nodeget_create (w : world X) mp lowervp lv m tm :
  nodeget_pre w mp lowervp lv m tm -> 0 < v_usecount lv ->
  (forall w', VOP_ISLOCKED w' lowervp = LK_EXCLUSIVE) -> alias w mp lowervp = None ->
  (exists e xp vp w1, e <> 0 /\ cache_ok w1 /\ (forall mp' l, alias w1 mp' l = alias w mp' l) /\
     (tpt_nodeget mp lowervp w = (vput lowervp ;;; free_node xp ;;; ret (e, NULLVP)) w1 \/
      w_nodes w1 !! xp = Some (TptNode lowervp vp 0) /\
      tpt_nodeget mp lowervp w = (tpt_insmntque_dtr vp xp ;;; ret (e, NULLVP)) w1)) \/
  (exists xp vp v w', tpt_nodeget mp lowervp w = Ret (0, vp) w' /\
     w_vnodes w !! vp = None /\ w_vars w' = w_vars w /\
     tpt_vnode_for w' mp lowervp lv tm xp vp v /\
     (forall p u, w_vnodes w !! p = Some u -> w_vnodes w' !! p = Some u) /\
     cache_ok w' /\ forall mp' l, alias w' mp' l =
       if decide (mp' = mp /\ l = lowervp) then Some vp else alias w mp' l).
Proof.
  intros Hpre Hu Hl Ha. pose proof Hpre as [Hok Hlv _ _ _].
  destruct (nodeget_miss w mp lowervp lv Hok Hlv Hu Hl Ha) as (w0 & S0 & ->).
  pose proof (same_data_keeps _ _ Hok S0) as Hk0. pose proof (cache_ok_keeps _ _ Hk0 Hok) as Hok0.
  assert (Halias : forall w1, keeps_cache w0 w1 -> forall mp' l, alias w1 mp' l = alias w mp' l).
  { intros w1 Hk mp' l. rewrite (alias_keeps w0) by done. now apply alias_keeps. }
  destruct (nodeget_new_draft w0 mp lowervp lv m tm (nodeget_pre_same _ _ _ _ _ _ _ S0 Hpre))
    as (xp & vp & v & w1 & wb & Hxp & Hk1 & [(e & He & ->)|[(e & He & Hn & ->)|
      (Hne & Hvp & Hkb & En & Ev & Evb & Hokb & Hv & S1 & ->)]]).
  - left. exists e, xp, vp, w1. split; [done|]. split; [exact (cache_ok_keeps _ _ Hk1 Hok0)|].
    split; [exact (Halias w1 Hk1) | now left].
  - left. exists e, xp, vp, w1. split; [done|]. split; [exact (cache_ok_keeps _ _ Hk1 Hok0)|].
    split; [exact (Halias w1 Hk1) | now right].
  - right. assert (Hun : unlinked w1 xp (TptNode lowervp vp 0) v).
    { eapply (draft_unlinked w0 wb); try done; [congruence|]. apply draft_keeps; congruence. }
    pose proof (cache_ok_keeps _ _ Hk1 Hok0) as Hok1. pose proof Hv as (Hv1 & Hx1 & Hd1 & Hm1 & _).
    destruct (tpt_hashins_spec w1 mp xp _ v Hok1 Hun Hm1) as (w2 & E2 & S2).
    cbn [tpt_lowervp] in E2, S2. rewrite Halias, Ha in E2, S2 by done.
    exists xp, vp, v, w2. split; [now erewrite bind_Ret by exact E2|].
    split; [now rewrite S0 in Hvp|].
    rewrite <- Hm1 in Ha. destruct (insert_head_ok w1 xp _ v Hok1 Hx1 Hv1 Hd1 (proj2 (proj2 (proj2 Hun))))
      as [Hok2 Ha2]; [cbn; now rewrite Halias|]. cbn [tpt_lowervp tpt_vnode] in Hok2, Ha2.
    assert (Evars : w_vars w2 = w_vars w).
    { rewrite S2. cbn. rewrite S1. cbn. rewrite Evb. now rewrite S0. }
    split; [exact Evars|]. split; [|split; [|split]].
    + unfold tpt_vnode_for in *. rewrite S2. exact Hv.
    + intros p u Hp. rewrite S2. cbn. rewrite S1. cbn. rewrite Ev, S0. cbn.
      rewrite lookup_insert_ne; [done|]. intros ->. rewrite S0 in Hvp. cbn in Hvp. congruence.
    + exact (cache_ok_keeps _ _ (same_data_keeps _ _ Hok2 S2) Hok2).
    + intros mp' l. rewrite (alias_keeps _ _ _ _ (same_data_keeps _ _ Hok2 S2) Hok2), Ha2, Halias by done.
      now rewrite Hm1.
Qed.

End nodeget.

(** ** Properties of tpt_nodeget *)

Section nodeget_properties.
  Context {X : Type} `{Headers} `{FreeBSD X} `{!StableHash X} `{!Quiet X} `{!References X}
    `{!NewVnode X}.

(** C8: when the lower vnode already has a tptfs vnode on the mount,
    [tpt_nodeget] returns it with one more reference and gives back the
    caller's reference to the lower vnode; nothing else changes, in particular
    no second tptfs vnode appears. *)
Theorem tpt_nodeget_cached (w : world X) mp lowervp lv vp :
  cache_ok w -> w_vnodes w !! lowervp = Some lv -> 1 < v_usecount lv ->
  alias w mp lowervp = Some vp ->
  exists w', tpt_nodeget mp lowervp w = Ret (0, vp) w' /\
    same_data (add_use lowervp (-1) (add_use vp 1 w)) w' /\
    cache_ok w' /\ forall mp' l, alias w' mp' l = alias w mp' l.
Proof. exact (nodeget_hit w mp lowervp lv vp). Qed.

(** C7: when there is none, and the lower vnode is exclusively locked,
    [tpt_nodeget] makes one: a vnode that did not exist, of the lower vnode's
    type and with its lock, on the mount, with [VV_ROOT] exactly when the lower
    vnode is the root of the lower layer, owning the caller's reference to the
    lower vnode (no count of an existing vnode changes); the cache gains that
    key and no other.  If the kernel refuses the vnode or its place on the
    mount, the error is returned with a null vnode after the lower vnode is
    released, and the cache is as it was. *)
Theorem tpt_nodeget_creates (w : world X) mp lowervp lv m tm :
  nodeget_pre w mp lowervp lv m tm -> 0 < v_usecount lv ->
  (forall w', VOP_ISLOCKED w' lowervp = LK_EXCLUSIVE) -> alias w mp lowervp = None ->
  (exists e xp vp w1, e <> 0 /\ cache_ok w1 /\ (forall mp' l, alias w1 mp' l = alias w mp' l) /\
     (tpt_nodeget mp lowervp w = (vput lowervp ;;; free_node xp ;;; ret (e, NULLVP)) w1 \/
      w_nodes w1 !! xp = Some (TptNode lowervp vp 0) /\
      tpt_nodeget mp lowervp w = (tpt_insmntque_dtr vp xp ;;; ret (e, NULLVP)) w1)) \/
  (exists xp vp v w', tpt_nodeget mp lowervp w = Ret (0, vp) w' /\
     w_vnodes w !! vp = None /\ w_vars w' = w_vars w /\
     tpt_vnode_for w' mp lowervp lv tm xp vp v /\
     (forall p u, w_vnodes w !! p = Some u -> w_vnodes w' !! p = Some u) /\
     cache_ok w' /\ forall mp' l, alias w' mp' l =
       if decide (mp' = mp /\ l = lowervp) then Some vp else alias w mp' l).
Proof. exact (nodeget_create w mp lowervp lv m tm). Qed.


End nodeget_properties.

(** ** Examples *)

Section examples.
  #[local] Existing Instance demo_kernel.

Lemma cache_ok_empty {X} `{FreeBSD X} (w : world X) :
  tpt_node_hashtbl w = ∅ -> w_vnodes w !! NULLVP = None -> cache_ok w.
Proof.
  intros E Hn. assert (Hb : forall hd xp, xp ∉ bucket w hd).
  { intros hd xp. unfold bucket. rewrite E, lookup_empty. apply not_elem_of_nil. }
  split; [done|]. split; [|split].
  - intros hd xp Hin. now apply Hb in Hin.
  - intros hd. unfold bucket. rewrite E, lookup_empty. constructor.
  - intros xp1 xp2 mp l vp1 vp2 [Hin _]. now apply Hb in Hin.
Qed.

(** The example's cache, built entry by entry. *)
Lemma demo_cache_ok mflag a va : cache_ok (demo_world demo_table mflag a va).
Proof.
  set (w0 := demo_world ∅ mflag a va).
  assert (H0 : cache_ok w0) by (apply cache_ok_empty; reflexivity).
  destruct (insert_head_ok w0 21 (TptNode 1 11 0) (demo_upper 21 1 VDIR 1)) as [H1 _];
    [exact H0 | reflexivity | reflexivity | reflexivity | | reflexivity |].
  { intros hd. unfold bucket. cbn [tpt_node_hashtbl w0 demo_world]. rewrite lookup_empty.
    apply not_elem_of_nil. }
  set (w1 := insert_head _ _ _) in H1.
  destruct (insert_head_ok w1 22 (TptNode 2 12 0) (demo_upper 22 2 VREG 0)) as [H2 _];
    [exact H1 | reflexivity | reflexivity | reflexivity | | vm_compute; reflexivity | exact H2].
  intros hd. unfold w1. rewrite bucket_insert. unfold bucket. cbn [tpt_node_hashtbl w0 demo_world].
  rewrite !lookup_empty. case_decide; [|apply not_elem_of_nil].
  intros Hin%list_elem_of_singleton. lia.
Qed.

Lemma tpt_hashget_refines_witness :
  exists r w', tpt_hashget 100 2 demo = Ret r w' /\
    (r = 12 /\ same_data (add_use 12 1 demo) w') /\ cache_ok w' /\
    forall mp' l, alias w' mp' l = alias demo mp' l.
Proof. exact (tpt_hashget_refines demo 100 2 (demo_cache_ok _ _ _)). Defined.

(** The example with a node 23 and a vnode 13 for the lower vnode 3, not yet in
    the cache. *)
Definition demo_draft : world sim :=
  draft demo 23 (TptNode 3 13 0) 13 (demo_upper 23 3 VREG 0).

Lemma demo_draft_ok : cache_ok demo_draft.
Proof.
  apply (cache_ok_keeps demo); [|apply demo_cache_ok].
  apply draft_keeps; [apply demo_cache_ok | reflexivity | reflexivity | discriminate].
Qed.

Lemma demo_draft_unlinked : unlinked demo_draft 23 (TptNode 3 13 0) (demo_upper 23 3 VREG 0).
Proof.
  split; [reflexivity|]. split; [reflexivity|]. split; [reflexivity|]. intros hd Hin.
  destruct (cache_ok_linked demo hd (demo_cache_ok _ _ _) 23 Hin) as (x & v & E & _). discriminate.
Qed.

Lemma demo_entry : entry demo 22 100 2 12.
Proof.
  split; [vm_compute; now left|].
  exists (TptNode 2 12 0), (demo_upper 22 2 VREG 0). do 5 (split; [reflexivity|]). reflexivity.
Qed.

Lemma demo_pre lowervp lv :
  w_vnodes demo !! lowervp = Some lv ->
  nodeget_pre demo 100 lowervp lv (Mount tpt_vfsops 0 0 200 77 2 []) (TptMount 50 1 0 0).
Proof. intros E. split; [apply demo_cache_ok | exact E | reflexivity | reflexivity | reflexivity]. Qed.

Lemma tpt_hashins_refines_witness :
  exists r w', tpt_hashins 100 23 demo_draft = Ret r w' /\ cache_ok w' /\ r = NULLVP /\
    forall mp' l, alias w' mp' l =
      if decide (mp' = 100 /\ l = 3) then Some 13 else alias demo_draft mp' l.
Proof.
  exact (tpt_hashins_refines demo_draft 100 23 _ _ demo_draft_ok demo_draft_unlinked eq_refl).
Defined.

Lemma tpt_hashrem_refines_witness :
  exists w', tpt_hashrem 22 demo = Ret tt w' /\ cache_ok w' /\
    forall mp' l, alias w' mp' l = if decide (mp' = 100 /\ l = 2) then None else alias demo mp' l.
Proof. exact (tpt_hashrem_refines demo 22 100 2 12 (demo_cache_ok _ _ _) demo_entry). Defined.

Lemma tpt_nodeget_cached_witness :
  exists w', tpt_nodeget 100 2 demo = Ret (0, 12) w' /\
    same_data (add_use 2 (-1) (add_use 12 1 demo)) w' /\
    cache_ok w' /\ forall mp' l, alias w' mp' l = alias demo mp' l.
Proof.
  exact (tpt_nodeget_cached demo 100 2 (demo_lower 2 VREG 0) 12 (demo_cache_ok _ _ _) eq_refl
    eq_refl eq_refl).
Defined.

Lemma tpt_nodeget_creates_witness :
  alias demo 100 3 = None /\
  ((exists e xp vp w1, e <> 0 /\ cache_ok w1 /\ (forall mp' l, alias w1 mp' l = alias demo mp' l) /\
     (tpt_nodeget 100 3 demo = (vput 3 ;;; free_node xp ;;; ret (e, NULLVP)) w1 \/
      w_nodes w1 !! xp = Some (TptNode 3 vp 0) /\
      tpt_nodeget 100 3 demo = (tpt_insmntque_dtr vp xp ;;; ret (e, NULLVP)) w1)) \/
  (exists xp vp v w', tpt_nodeget 100 3 demo = Ret (0, vp) w' /\
     w_vnodes demo !! vp = None /\ w_vars w' = w_vars demo /\
     tpt_vnode_for w' 100 3 (demo_lower 3 VREG 0) (TptMount 50 1 0 0) xp vp v /\
     (forall p u, w_vnodes demo !! p = Some u -> w_vnodes w' !! p = Some u) /\
     cache_ok w' /\ forall mp' l, alias w' mp' l =
       if decide (mp' = 100 /\ l = 3) then Some vp else alias demo mp' l)).
Proof.
  split; [reflexivity|].
  exact (tpt_nodeget_creates demo 100 3 (demo_lower 3 VREG 0) _ _ (demo_pre 3 _ eq_refl)
    eq_refl (fun _ => eq_refl) eq_refl).
Defined.

(** In the example the creation succeeds. *)
Example demo_nodeget :
  match tpt_nodeget 100 3 demo with
  | Ret (e, vp) w' => e = 0 /\ vp = 13 /\ alias w' 100 3 = Some 13 /\ alias w' 100 2 = Some 12
  | Stop _ _ => False
  end.
Proof. vm_compute. done. Qed.


End examples.
