(* ===== verification/TptVnops.v ===== *)
(** * TptVnops: src/tptfs/tpt_vnops.c

    The vnode operations of tptfs: the bypass routine, which performs an
    operation on the lower vnodes, and the operations that tptfs does itself
    or surrounds with checks. *)

From stdpp Require Import base numbers list strings gmap.
From S2P Require Import Prelude FreeBSD Sim TptSubr.
From Stdlib Require Import ZArith Lia.
Open Scope Z_scope.

Section code.
  Context {X : Type} `{Headers} `{FreeBSD X}.
  Abbreviation K := (M (world X)).

(** The vnode-valued argument [name] of the operation, and its assignment. *)
Definition slot (ap : Z) (name : string) : K Z :=
  a <- args_at ap ;;
  match a_vnodes a !! name with
  | Some vp => ret vp
  | None => stop_with (Fault ap)
  end.

Definition set_slot (ap : Z) (name : string) (vp : Z) : K unit :=
  update_args ap (fun a => args_set_vnodes (<[name := vp]> (a_vnodes a)) a).

(** ** tpt_bypass *)

(** The first loop, from argument [i] on; [reles] holds the remaining flags.
    The result is [old_vps], with the names of the slots. *)
Fixpoint map_vnodes (ap : Z) (i : nat) (reles : Z) (offsets : list string) :
    K (list (string * Z)) :=
  match offsets with
  | [] => ret []
  | name :: offsets' =>
      this_vp <- slot ap name ;;
      foreign <-
        (if bool_decide (i <> O) then
           if this_vp =? NULLVP then ret true
           else v <- vnode_at this_vp ;; ret (negb (bool_decide (v_op v = tpt_vnodeops)))
         else ret false) ;;
      old_vp <-
        (if foreign then ret NULLVP
         else
           lowervp <- NULLVPTOLOWERVP this_vp ;;
           set_slot ap name lowervp ;;;
           when (has reles VDESC_VP0_WILLRELE) (this_vp' <- slot ap name ;; VREF this_vp') ;;;
           ret this_vp) ;;
      old_vps <- map_vnodes ap (S i) (Z.shiftr reles 1) offsets' ;;
      ret ((name, old_vp) :: old_vps)
  end.

(** The second loop. *)
Fixpoint restore_vnodes (ap : Z) (reles : Z) (old_vps : list (string * Z)) : K unit :=
  match old_vps with
  | [] => ret tt
  | (name, old_vp) :: old_vps' =>
      when (negb (old_vp =? NULLVP))
        (lvp <- slot ap name ;;
         moved <-
           (if negb (lvp =? NULLVP) then
              islocked <- gets (fun w => VOP_ISLOCKED w lvp) ;;
              if islocked =? LK_EXCLUSIVE then
                ov <- vnode_at old_vp ;;
                lv <- vnode_at lvp ;;
                ret (negb (bool_decide (v_vnlock ov = v_vnlock lv)))
              else ret false
            else ret false) ;;
         when moved
           (VOP_UNLOCK lvp ;;;
            VOP_LOCK old_vp (Z.lor LK_EXCLUSIVE LK_RETRY) ;;;
            ret tt) ;;;
         set_slot ap name old_vp ;;;
         when (has reles VDESC_VP0_WILLRELE) (vp <- slot ap name ;; vrele vp)) ;;;
      restore_vnodes ap (Z.shiftr reles 1) old_vps'
  end.

(** Between the loops: the call of the lower operation.  Without arguments,
    [vps_p[0]] is not initialised. *)
Definition call_lower (ap : Z) (descp : vnodeop_desc) (old_vps : list (string * Z)) : K Z :=
  match old_vps with
  | [] => stop_with (Fault 0)
  | (name, _) :: _ =>
      vp0 <- slot ap name ;;
      if negb (vp0 =? NULLVP) then VCALL ap
      else
        printf ("tpt_bypass: no map for " ++ vdesc_name descp) [] ;;;
        ret EINVAL
  end.

(** After the loops: the outgoing [vpp]. *)
Definition map_vpp (ap : Z) (descp : vnodeop_desc) (old_vps : list (string * Z)) (error : Z) : K Z :=
  if vdesc_vpp_offset descp && (error =? 0) then
    a <- args_at ap ;;
    if negb (a_vpp a =? 0) then
      old0 <- match old_vps with (_, vp) :: _ => ret vp | [] => stop_with (Fault 0) end ;;
      mp <- mount_of old0 ;;
      lvp <- var_at (a_vpp a) ;;
      let* (error, vp) := tpt_nodeget mp lvp in
      assign (a_vpp a) vp ;;;
      ret error
    else ret error
  else ret error.

Definition tpt_bypass (ap : Z) : K Z :=
  a <- args_at ap ;;
  let descp := a_desc a in
  bug <- gets tpt_bug_bypass ;;
  when (negb (bug =? 0)) (printf ("tpt_bypass: " ++ vdesc_name descp) []) ;;;
  (if DIAGNOSTIC && bool_decide (vdesc_vp_offsets descp = [])
   then panic "tpt_bypass: no vp's in map" else ret tt) ;;;
  old_vps <- map_vnodes ap 0 (vdesc_flags descp) (take VDESC_MAX_VPS (vdesc_vp_offsets descp)) ;;
  error <- call_lower ap descp old_vps ;;
  restore_vnodes ap (vdesc_flags descp) old_vps ;;;
  map_vpp ap descp old_vps error.

(** ** The operations *)

Definition tpt_add_writecount (ap : Z) : K Z :=
  vp <- slot ap "a_vp" ;;
  lvp <- NULLVPTOLOWERVP vp ;;
  VI_LOCK vp ;;;
  a <- args_at ap ;;
  KASSERT (v <- vnode_at vp ;; ret (0 <=? v_writecount v)) "wrong null writecount" ;;;
  KASSERT (v <- vnode_at vp ;; ret (0 <=? s32 (v_writecount v + a_inc a))) "wrong writecount inc" ;;;
  error <- VOP_ADD_WRITECOUNT lvp (a_inc a) ;;
  when (error =? 0)
    (a <- args_at ap ;;
     update_vnode vp (fun v => vn_set_writecount (s32 (v_writecount v + a_inc a)) v)) ;;;
  VI_UNLOCK vp ;;;
  ret error.

(** The tail of [tpt_lookup], from the vnode [lvp] that the lower layer found. *)
Definition lookup_result (ap dvp mp ldvp lvp error : Z) : K Z :=
  if ((error =? 0) || (error =? EJUSTRETURN)) && negb (lvp =? 0) then
    a <- args_at ap ;;
    if ldvp =? lvp then
      assign (a_vpp a) dvp ;;;
      VREF dvp ;;;
      vrele lvp ;;;
      ret error
    else
      let* (error, vp) := tpt_nodeget mp lvp in
      when (error =? 0) (assign (a_vpp a) vp) ;;;
      ret error
  else ret error.

Definition tpt_lookup (ap : Z) : K Z :=
  a <- args_at ap ;;
  let cnp := a_cnp a in
  dvp <- slot ap "a_dvp" ;;
  let flags := cn_flags cnp in
  mp <- mount_of dvp ;;
  readonly <-
    (if has flags ISLASTCN then m <- mount_at mp ;; ret (has (mnt_flag m) MNT_RDONLY)
     else ret false) ;;
  if readonly && ((cn_nameiop cnp =? DELETE) || (cn_nameiop cnp =? RENAME)) then ret EROFS
  else
    ldvp <- NULLVPTOLOWERVP dvp ;;
    KASSERT (ldv <- vnode_at ldvp ;;
             dv <- vnode_at dvp ;;
             ret (negb (has (v_vflag ldv) VV_ROOT) ||
                  has (v_vflag dv) VV_ROOT && negb (has flags ISDOTDOT))) "ldvp" ;;;
    vhold ldvp ;;;
    let* (error, lvp) := VOP_LOOKUP ldvp cnp in
    doomed <-
      (if (error =? 0) || (error =? EJUSTRETURN) then gets (fun w => VN_IS_DOOMED w dvp)
       else ret false) ;;
    error <-
      (if doomed then
         when (negb (lvp =? 0)) (vput lvp) ;;;
         VOP_UNLOCK ldvp ;;;
         vn_lock dvp (Z.lor LK_EXCLUSIVE LK_RETRY) ;;;
         ret ENOENT
       else ret error) ;;
    vdrop ldvp ;;;
    readonly <-
      (if (error =? EJUSTRETURN) && has flags ISLASTCN then
         m <- mount_at mp ;; ret (has (mnt_flag m) MNT_RDONLY)
       else ret false) ;;
    let error :=
      if readonly && ((cn_nameiop cnp =? CREATE) || (cn_nameiop cnp =? RENAME)) then EROFS
      else error in
    lookup_result ap dvp mp ldvp lvp error.

Definition tpt_open (ap : Z) : K Z :=
  vp <- slot ap "a_vp" ;;
  ldvp <- NULLVPTOLOWERVP vp ;;
  retval <- tpt_bypass ap ;;
  when (retval =? 0)
    (lv <- vnode_at ldvp ;;
     update_vnode vp (vn_set_object (v_object lv)) ;;;
     irflag <- gets (fun w => vn_irflag_read w ldvp) ;;
     when (has irflag VIRF_PGREAD)
       (KASSERT (v <- vnode_at vp ;; ret (negb (v_object v =? 0))) "MPASS" ;;;
        irflag <- gets (fun w => vn_irflag_read w vp) ;;
        when (negb (has irflag VIRF_PGREAD)) (vn_irflag_set_cond vp VIRF_PGREAD))) ;;;
  ret retval.

(** [uid_t] and [gid_t] are 32 bits wide, [mode_t] 16, the flags and the size
    unsigned of 64 bits; a time is signed. *)
Definition sets_attributes (va : vattr) : bool :=
  negb (va_flags va =? u64 VNOVAL) || negb (va_uid va =? u32 VNOVAL) ||
  negb (va_gid va =? u32 VNOVAL) || negb (va_atime va =? VNOVAL) ||
  negb (va_mtime va =? VNOVAL) || negb (va_mode va =? u16 VNOVAL).

Definition mounted_rdonly (vp : Z) : K bool :=
  v <- vnode_at vp ;;
  m <- mount_at (v_mount v) ;;
  ret (has (mnt_flag m) MNT_RDONLY).

Definition tpt_setattr (ap : Z) : K Z :=
  vp <- slot ap "a_vp" ;;
  a <- args_at ap ;;
  va <- vattr_at (a_vap a) ;;
  refused <- (if sets_attributes va then mounted_rdonly vp else ret false) ;;
  if refused then ret EROFS
  else if negb (va_size va =? u64 VNOVAL) then
    v <- vnode_at vp ;;
    match v_type v with
    | VDIR => ret EISDIR
    | VCHR | VBLK | VSOCK | VFIFO =>
        if negb (va_flags va =? u64 VNOVAL) then ret EOPNOTSUPP else ret 0
    | _ =>
        readonly <- mounted_rdonly vp ;;
        if readonly then ret EROFS else tpt_bypass ap
    end
  else tpt_bypass ap.

(** [ap->a_vp->v_mount->mnt_stat.f_fsid.val[0]] *)
Definition fsid_of (ap : Z) : K Z :=
  vp <- slot ap "a_vp" ;;
  v <- vnode_at vp ;;
  m <- mount_at (v_mount v) ;;
  ret (mnt_fsid m).

Definition tpt_stat (ap : Z) : K Z :=
  error <- tpt_bypass ap ;;
  if negb (error =? 0) then ret error
  else
    dev <- fsid_of ap ;;
    a <- args_at ap ;;
    update w_stats set_stats (a_sb a) (fun _ => dev) ;;;
    ret 0.

Definition tpt_getattr (ap : Z) : K Z :=
  error <- tpt_bypass ap ;;
  if negb (error =? 0) then ret error
  else
    fsid <- fsid_of ap ;;
    a <- args_at ap ;;
    update w_vattrs set_vattrs (a_vap a) (vattr_set_fsid fsid) ;;;
    ret 0.

(** The switch of [tpt_access] and [tpt_accessx]: whether to refuse. *)
Definition write_refused (vp : Z) : K bool :=
  v <- vnode_at vp ;;
  match v_type v with
  | VDIR | VLNK | VREG => mounted_rdonly vp
  | _ => ret false
  end.

Definition tpt_access (ap : Z) : K Z :=
  vp <- slot ap "a_vp" ;;
  a <- args_at ap ;;
  refused <- (if has (a_accmode a) VWRITE then write_refused vp else ret false) ;;
  if refused then ret EROFS else tpt_bypass ap.

Definition tpt_accessx (ap : Z) : K Z :=
  vp <- slot ap "a_vp" ;;
  a <- args_at ap ;;
  refused <- (if has (a_accmode a) VWRITE then write_refused vp else ret false) ;;
  if refused then ret EROFS else tpt_bypass ap.

(** [VTONULL(vp)->tpt_flags |= f] *)
Definition or_flags (vp f : Z) : K unit :=
  xp <- VTONULL vp ;;
  update_node xp (fun x => node_set_flags (Z.lor (tpt_flags x) f) x).

Definition tpt_remove (ap : Z) : K Z :=
  vp <- slot ap "a_vp" ;;
  n <- vrefcnt vp ;;
  lvp <-
    (if 1 <? n then lvp <- NULLVPTOLOWERVP vp ;; VREF lvp ;;; ret (Some lvp) else ret None) ;;
  or_flags vp NULLV_DROP ;;;
  retval <- tpt_bypass ap ;;
  match lvp with Some lvp => vrele lvp | None => ret tt end ;;;
  ret retval.

Definition tpt_rename (ap : Z) : K Z :=
  tdvp <- slot ap "a_tdvp" ;;
  fvp <- slot ap "a_fvp" ;;
  fdvp <- slot ap "a_fdvp" ;;
  tvp <- slot ap "a_tvp" ;;
  fmp <- mount_of fvp ;;
  tdmp <- mount_of tdvp ;;
  cross <-
    (if negb (fmp =? tdmp) then ret true
     else if negb (tvp =? 0) then tmp <- mount_of tvp ;; ret (negb (fmp =? tmp))
     else ret false) ;;
  if cross then
    (if tdvp =? tvp then vrele tdvp else vput tdvp) ;;;
    when (negb (tvp =? 0)) (vput tvp) ;;;
    vrele fdvp ;;;
    vrele fvp ;;;
    ret EXDEV
  else
    when (negb (tvp =? 0)) (or_flags tvp NULLV_DROP) ;;;
    tpt_bypass ap.

Definition tpt_rmdir (ap : Z) : K Z :=
  vp <- slot ap "a_vp" ;;
  or_flags vp NULLV_DROP ;;;
  tpt_bypass ap.

(** The lower vnode of a vnode that may have been reclaimed, NULL if it was. *)
Definition lower_or_null (vp : Z) : K Z :=
  nn <- VTONULL vp ;;
  if negb (nn =? 0) then NULLVPTOLOWERVP vp else ret NULLVP.

Definition set_flags (ap f : Z) : K unit := update_args ap (args_set_flags f).

Definition get_flags (ap : Z) : K Z := a <- args_at ap ;; ret (a_flags a).

(** The switch of [tpt_lock]: the request to repeat on the vnode's own lock. *)
Definition relock_flags (ap flags : Z) : K unit :=
  f <- get_flags ap ;;
  set_flags ap (Z.ldiff f LK_TYPE_MASK) ;;;
  f <- get_flags ap ;;
  let type := Z.land flags LK_TYPE_MASK in
  if type =? LK_SHARED then set_flags ap (Z.lor f LK_SHARED)
  else if (type =? LK_UPGRADE) || (type =? LK_EXCLUSIVE) then set_flags ap (Z.lor f LK_EXCLUSIVE)
  else panic "Unsupported lock request".

Definition tpt_lock (ap : Z) : K Z :=
  vp <- slot ap "a_vp" ;;
  f <- get_flags ap ;;
  (if negb (has f LK_INTERLOCK) then VI_LOCK vp
   else set_flags ap (Z.ldiff f LK_INTERLOCK)) ;;;
  flags <- get_flags ap ;;
  lvp <- lower_or_null vp ;;
  if negb (lvp =? NULLVP) then
    vholdnz lvp ;;;
    VI_UNLOCK vp ;;;
    error <- VOP_LOCK lvp flags ;;
    nn <- VTONULL vp ;;
    error <-
      (if (nn =? 0) && (error =? 0) then
         relock_flags ap flags ;;;
         VOP_UNLOCK lvp ;;;
         vop_stdlock ap
       else ret error) ;;
    vdrop lvp ;;;
    ret error
  else
    VI_UNLOCK vp ;;;
    vop_stdlock ap.

Definition tpt_unlock (ap : Z) : K Z :=
  vp <- slot ap "a_vp" ;;
  lvp <- lower_or_null vp ;;
  if negb (lvp =? NULLVP) then
    vholdnz lvp ;;;
    error <- VOP_UNLOCK lvp ;;
    vdrop lvp ;;;
    ret error
  else vop_stdunlock ap.

Definition tpt_want_recycle (vp : Z) : K bool :=
  xp <- VTONULL vp ;;
  lvp <- NULLVPTOLOWERVP vp ;;
  mp <- mount_of vp ;;
  xmp <- MOUNTTONULLMOUNT mp ;;
  tm <- tmount_at xmp ;;
  if negb (has (nullm_flags tm) NULLM_CACHE) then ret true
  else
    x <- node_at xp ;;
    if has (tpt_flags x) NULLV_DROP then ret true
    else lv <- vnode_at lvp ;; ret (has (v_vflag lv) VV_NOSYNC).

Definition tpt_inactive (ap : Z) : K Z :=
  vp <- slot ap "a_vp" ;;
  recycle <- tpt_want_recycle vp ;;
  when recycle (update_vnode vp (vn_set_object 0) ;;; vrecycle vp) ;;;
  ret 0.

Definition tpt_need_inactive (ap : Z) : K Z :=
  vp <- slot ap "a_vp" ;;
  recycle <- tpt_want_recycle vp ;;
  ret (if recycle then 1 else 0).

(** The part of [tpt_reclaim] on the write count. *)
Definition return_writecount (vp lowervp : Z) : K unit :=
  v <- vnode_at vp ;;
  if 0 <? v_writecount v then VOP_ADD_WRITECOUNT lowervp (s32 (- v_writecount v)) ;;; ret tt
  else when (v_writecount v <? 0) (update_vnode vp (vn_set_writecount 0)).

Definition tpt_reclaim (ap : Z) : K Z :=
  vp <- slot ap "a_vp" ;;
  xp <- VTONULL vp ;;
  x <- node_at xp ;;
  let lowervp := tpt_lowervp x in
  KASSERT (v <- vnode_at vp ;;
           ret (negb (lowervp =? NULLVP) && negb (bool_decide (v_vnlock v = v_lock vp))))
    "Reclaiming incomplete null vnode" ;;;
  tpt_hashrem xp ;;;
  lockmgr (v_lock vp) LK_EXCLUSIVE ;;;
  VI_LOCK vp ;;;
  update_vnode vp (vn_set_data 0) ;;;
  update_vnode vp (vn_set_object 0) ;;;
  update_vnode vp (vn_set_vnlock (v_lock vp)) ;;;
  return_writecount vp lowervp ;;;
  VI_UNLOCK vp ;;;
  x <- node_at xp ;;
  (if has (tpt_flags x) NULLV_NOUNLOCK then vunref lowervp else vput lowervp) ;;;
  free_node xp ;;;
  ret 0.

Definition tpt_print (ap : Z) : K Z :=
  vp <- slot ap "a_vp" ;;
  xp <- VTONULL vp ;;
  x <- node_at xp ;;
  printf "vp=%p, lowervp=%p" [vp; tpt_lowervp x] ;;;
  ret 0.

(** [xp ? xp->tpt_lowervp : NULL] *)
Definition node_lower (xp : Z) : K Z :=
  if negb (xp =? 0) then x <- node_at xp ;; ret (tpt_lowervp x) else ret NULLVP.

Definition tpt_getwritemount (ap : Z) : K Z :=
  vp <- slot ap "a_vp" ;;
  VI_LOCK vp ;;;
  xp <- VTONULL vp ;;
  lowervp <- node_lower xp ;;
  a <- args_at ap ;;
  (if negb (lowervp =? NULLVP) then
     vholdnz lowervp ;;;
     VI_UNLOCK vp ;;;
     VOP_GETWRITEMOUNT lowervp (a_mpp a) ;;;
     vdrop lowervp
   else
     VI_UNLOCK vp ;;;
     assign (a_mpp a) 0) ;;;
  ret 0.

Definition tpt_vptofh (ap : Z) : K Z :=
  vp <- slot ap "a_vp" ;;
  lvp <- NULLVPTOLOWERVP vp ;;
  a <- args_at ap ;;
  VOP_VPTOFH lvp (a_rest a).

(** The error returns of [tpt_vptocnp]: the vnode is locked again. *)
Definition vptocnp_relock (vp locked mp error : Z) : K Z :=
  vn_lock vp (Z.lor locked LK_RETRY) ;;;
  vfs_rel mp ;;;
  ret error.

Definition tpt_vptocnp (ap : Z) : K Z :=
  vp <- slot ap "a_vp" ;;
  a <- args_at ap ;;
  let dvp := a_vpp a in
  locked <- gets (fun w => VOP_ISLOCKED w vp) ;;
  lvp <- NULLVPTOLOWERVP vp ;;
  vhold lvp ;;;
  mp <- mount_of vp ;;
  vfs_ref mp ;;;
  VOP_UNLOCK vp ;;;
  vref lvp ;;;
  let* (error, ldvp) := vn_vptocnp lvp (a_rest a) in
  vdrop lvp ;;;
  if negb (error =? 0) then vptocnp_relock vp locked mp ENOENT
  else
    error <- vn_lock ldvp LK_SHARED ;;
    if negb (error =? 0) then
      vrele ldvp ;;;
      vptocnp_relock vp locked mp ENOENT
    else
      let* (error, nvp) := tpt_nodeget mp ldvp in
      assign dvp nvp ;;;
      when (error =? 0)
        ((if DIAGNOSTIC then
            nvp <- var_at dvp ;; NULLVPTOLOWERVP nvp ;;; ret tt
          else ret tt) ;;;
         nvp <- var_at dvp ;;
         VOP_UNLOCK nvp ;;; ret tt) ;;;
      vptocnp_relock vp locked mp error.

Definition tpt_read_pgcache (ap : Z) : K Z :=
  vp <- slot ap "a_vp" ;;
  VI_LOCK vp ;;;
  xp <- VTONULL vp ;;
  if xp =? 0 then
    VI_UNLOCK vp ;;;
    ret EJUSTRETURN
  else
    x <- node_at xp ;;
    let lvp := tpt_lowervp x in
    vref lvp ;;;
    VI_UNLOCK vp ;;;
    a <- args_at ap ;;
    error <- VOP_READ_PGCACHE lvp (a_rest a) ;;
    vrele lvp ;;;
    ret error.

(** The second half of [tpt_vput_pair], for a vnode [vp] on [mp] and the lower
    vnode [lvp] that the lower layer gave back. *)
Definition vput_pair_result (ap vpp vp mp lvp : Z) : K unit :=
  a <- args_at ap ;;
  split <-
    (if negb (a_unlock_vp a) then
       v <- vnode_at vp ;;
       lv <- vnode_at lvp ;;
       ret (negb (bool_decide (v_vnlock v = v_vnlock lv)))
     else ret false) ;;
  when split
    (let* (error, vp1) := tpt_nodeget mp lvp in
     when (error =? 0) (vput vp ;;; assign vpp vp1)) ;;;
  a <- args_at ap ;;
  when (a_unlock_vp a) (vrele vp) ;;;
  vdrop vp.

Definition tpt_vput_pair (ap : Z) : K Z :=
  dvp <- slot ap "a_dvp" ;;
  ldvp <- NULLVPTOLOWERVP dvp ;;
  vref ldvp ;;;
  a <- args_at ap ;;
  let vpp := a_vpp a in
  vp <- (if negb (vpp =? 0) then var_at vpp else ret NULLVP) ;;
  let* (mp, lvp) :=
    (if negb (vp =? NULLVP) then
       vhold vp ;;;
       mp <- mount_of vp ;;
       lvp <- NULLVPTOLOWERVP vp ;;
       when (a_unlock_vp a) (vref lvp) ;;;
       ret (mp, lvp)
     else ret (0, NULLVP)) in
  let* (res, lvp) := VOP_VPUT_PAIR ldvp lvp (a_unlock_vp a) in
  when (negb (vp =? NULLVP)) (vput_pair_result ap vpp vp mp lvp) ;;;
  vrele dvp ;;;
  ret res.

(** ** The operation vector *)

Inductive vop : Type :=
  | vop_access | vop_accessx | vop_advlockpurge | vop_bmap | vop_stat | vop_getattr
  | vop_getwritemount | vop_inactive | vop_need_inactive | vop_islocked | vop_lock1 | vop_lookup
  | vop_open | vop_print | vop_read_pgcache | vop_reclaim | vop_remove | vop_rename | vop_rmdir
  | vop_setattr | vop_strategy | vop_unlock | vop_vptocnp | vop_vptofh | vop_add_writecount
  | vop_vput_pair
  | vop_bypassed (name : string).

Definition vop_call (op : vop) (ap : Z) : K Z :=
  match op with
  | vop_access => tpt_access ap
  | vop_accessx => tpt_accessx ap
  | vop_advlockpurge => vop_stdadvlockpurge ap
  | vop_bmap => vop_eopnotsupp ap
  | vop_stat => tpt_stat ap
  | vop_getattr => tpt_getattr ap
  | vop_getwritemount => tpt_getwritemount ap
  | vop_inactive => tpt_inactive ap
  | vop_need_inactive => tpt_need_inactive ap
  | vop_islocked => vop_stdislocked ap
  | vop_lock1 => tpt_lock ap
  | vop_lookup => tpt_lookup ap
  | vop_open => tpt_open ap
  | vop_print => tpt_print ap
  | vop_read_pgcache => tpt_read_pgcache ap
  | vop_reclaim => tpt_reclaim ap
  | vop_remove => tpt_remove ap
  | vop_rename => tpt_rename ap
  | vop_rmdir => tpt_rmdir ap
  | vop_setattr => tpt_setattr ap
  | vop_strategy => vop_eopnotsupp ap
  | vop_unlock => tpt_unlock ap
  | vop_vptocnp => tpt_vptocnp ap
  | vop_vptofh => tpt_vptofh ap
  | vop_add_writecount => tpt_add_writecount ap
  | vop_vput_pair => tpt_vput_pair ap
  | vop_bypassed _ => tpt_bypass ap
  end.

End code.

(** ** Lemmas *)

Section facts.
  Context {X : Type} `{Headers} `{FreeBSD X}.
  Implicit Types w : world X.

Lemma deref_run {A} (get : world X -> gmap Z A) p x w :
  get w !! p = Some x -> deref get p w = Ret x w.
Proof. unfold deref. now intros ->. Qed.

End facts.

(** The next command reads an object that the context knows. *)
Ltac read_bind := erewrite bind_Ret by (eapply deref_run; eassumption).

Section more_facts.
  Context {X : Type} `{Headers} `{FreeBSD X}.
  Implicit Types w : world X.

Lemma update_run {A} (get : world X -> gmap Z A) set p f x w :
  get w !! p = Some x -> update get set p f w = Ret tt (set (<[p := f x]> (get w)) w).
Proof. unfold update. now intros ->. Qed.

Lemma slot_run ap name a vp w :
  w_args w !! ap = Some a -> a_vnodes a !! name = Some vp -> slot ap name w = Ret vp w.
Proof. intros Ha Hv. unfold slot, args_at. read_bind. now rewrite Hv. Qed.

Lemma mount_of_run vp v w : w_vnodes w !! vp = Some v -> mount_of vp w = Ret (v_mount v) w.
Proof. intros E. unfold mount_of, vnode_at. read_bind. reflexivity. Qed.

Lemma VTONULL_run vp v w : w_vnodes w !! vp = Some v -> VTONULL vp w = Ret (v_data v) w.
Proof. intros E. unfold VTONULL, vnode_at. read_bind. reflexivity. Qed.

Lemma rdonly_run vp v m w :
  w_vnodes w !! vp = Some v -> w_mounts w !! v_mount v = Some m ->
  mounted_rdonly vp w = Ret (has (mnt_flag m) MNT_RDONLY) w.
Proof.
  intros Hv Hm. unfold mounted_rdonly, vnode_at, mount_at.
  read_bind. read_bind. reflexivity.
Qed.

(** The operation's vnode argument [name] is [vp], a vnode [v] on the mount [m]. *)
Record on_vnode (w : world X) (ap : Z) (a : vop_args) (name : string) (vp : Z) (v : vnode)
    (m : mount) : Prop := {
  ov_args : w_args w !! ap = Some a;
  ov_slot : a_vnodes a !! name = Some vp;
  ov_vnode : w_vnodes w !! vp = Some v;
  ov_mount : w_mounts w !! v_mount v = Some m;
}.

Lemma on_vnode_slot w ap a name vp v m :
  on_vnode w ap a name vp v m -> slot ap name w = Ret vp w.
Proof. intros [Ha Hs _ _]. eauto using slot_run. Qed.

Lemma on_vnode_rdonly w ap a name vp v m :
  on_vnode w ap a name vp v m -> mounted_rdonly vp w = Ret (has (mnt_flag m) MNT_RDONLY) w.
Proof. intros [_ _ Hv Hm]. eauto using rdonly_run. Qed.

(** The lower vnode of [vp] is [lowervp], which is in use. *)
Definition lower (w : world X) (vp lowervp : Z) : Prop :=
  exists v x lv, w_vnodes w !! vp = Some v /\ w_nodes w !! v_data v = Some x /\
    tpt_lowervp x = lowervp /\ lowervp <> NULLVP /\ w_vnodes w !! lowervp = Some lv /\
    1 <= v_usecount lv.

Lemma lower_same w w' vp lowervp : same_data w w' -> lower w vp lowervp -> lower w' vp lowervp.
Proof. intros ->. done. Qed.

Context `{!Quiet X}.

(** [NULLVPTOLOWERVP], with or without [DIAGNOSTIC]. *)
Lemma lower_run w vp lowervp :
  lower w vp lowervp -> exists w', NULLVPTOLOWERVP vp w = Ret lowervp w' /\ same_data w w'.
Proof.
  intros (v & x & lv & Hv & Hx & Hl & Hne & Hlv & Hu). unfold NULLVPTOLOWERVP, tpt_checkvp, node_at.
  destruct DIAGNOSTIC.
  - erewrite bind_Ret by (eapply VTONULL_run; eassumption). read_bind.
    rewrite Hl, (proj2 (Z.eqb_neq lowervp NULLVP) Hne).
    destruct (quiet_run (VI_LOCK lowervp) w) as ([] & w1 & E1 & S1). erewrite bind_Ret by exact E1.
    unfold vnode_at. erewrite bind_Ret by (apply deref_run; rewrite S1; exact Hlv).
    rewrite (proj2 (Z.ltb_ge _ _) Hu).
    destruct (quiet_run (VI_UNLOCK lowervp) w1) as ([] & w2 & E2 & S2). erewrite bind_Ret by exact E2.
    erewrite bind_Ret by (apply deref_run; rewrite S2, S1; exact Hx).
    exists w2. rewrite Hl. split; [done|]. exact (same_data_trans _ _ _ S1 S2).
  - erewrite bind_Ret by (eapply VTONULL_run; eassumption). read_bind.
    exists w. rewrite Hl. split; [done | apply same_data_refl].
Qed.

End more_facts.

(** ** A read-only mount *)

Section readonly.
  Context {X : Type} `{Headers} `{FreeBSD X}.


(** [tpt_access] and [tpt_accessx] refuse write access to a directory, link
    or regular file of a read-only mount with EROFS, without the lower layer
    being asked and with nothing changed; every other request is passed down
    unchanged. *)
Theorem tpt_access_readonly (w : world X) ap a vp v m :
  on_vnode w ap a "a_vp" vp v m ->
  let refused := has (a_accmode a) VWRITE && has (mnt_flag m) MNT_RDONLY &&
    bool_decide (v_type v ∈ [VDIR; VLNK; VREG]) in
  tpt_access ap w = (if refused then Ret EROFS w else tpt_bypass ap w) /\
  tpt_accessx ap w = (if refused then Ret EROFS w else tpt_bypass ap w).
Proof.
  intros Hv refused. pose proof (on_vnode_rdonly _ _ _ _ _ _ _ Hv) as Er.
  assert (E : (if has (a_accmode a) VWRITE then write_refused vp else ret false) w = Ret refused w).
  { unfold refused. destruct (has (a_accmode a) VWRITE); [|done]. unfold write_refused, vnode_at.
    erewrite bind_Ret by apply deref_run, Hv.
    destruct (v_type v); rewrite ?Er; cbn; now rewrite ?andb_true_r, ?andb_false_r. }
  unfold tpt_access, tpt_accessx, args_at.
  split; erewrite bind_Ret by (eapply on_vnode_slot; exact Hv);
    erewrite bind_Ret by apply deref_run, Hv; erewrite bind_Ret by exact E; now destruct refused.
Qed.

End readonly.

(** ** Attributes, write counts, renames *)

Section attributes.
  Context {X : Type} `{Headers} `{FreeBSD X}.

(** [tpt_getattr] and [tpt_stat] answer with the lower layer's attributes in
    which only the file system id is replaced by that of the tptfs mount; when
    the lower operation fails they return its error and leave the attributes
    alone. *)
Theorem tpt_getattr_fsid (w w1 : world X) ap a vp v m va dev error :
  tpt_bypass ap w = Ret error w1 -> on_vnode w1 ap a "a_vp" vp v m ->
  w_vattrs w1 !! a_vap a = Some va -> w_stats w1 !! a_sb a = Some dev ->
  tpt_getattr ap w = Ret error (if error =? 0
    then set_vattrs (<[a_vap a := vattr_set_fsid (mnt_fsid m) va]> (w_vattrs w1)) w1 else w1) /\
  tpt_stat ap w = Ret error (if error =? 0
    then set_stats (<[a_sb a := mnt_fsid m]> (w_stats w1)) w1 else w1).
Proof.
  intros Eb Hv Hva Hdev. pose proof Hv as [Ha _ Hvn Hm].
  assert (Ef : fsid_of ap w1 = Ret (mnt_fsid m) w1).
  { unfold fsid_of, vnode_at, mount_at. erewrite bind_Ret by (eapply on_vnode_slot; exact Hv).
    read_bind. read_bind. reflexivity. }
  unfold tpt_getattr, tpt_stat, args_at.
  split; erewrite bind_Ret by exact Eb; destruct (Z.eqb_spec error 0) as [->|]; try done; cbn [negb];
    erewrite bind_Ret by exact Ef; read_bind.
  - now erewrite bind_Ret by (apply update_run; exact Hva).
  - now erewrite bind_Ret by (apply update_run; exact Hdev).
Qed.

Context `{!Quiet X}.

(** [tpt_add_writecount] adds the increment to the write count of the tptfs
    vnode exactly when the lower vnode took it, and returns the lower layer's
    answer; the two counts move together. *)
Theorem tpt_add_writecount_in_step (w : world X) ap a vp v m lowervp error :
  on_vnode w ap a "a_vp" vp v m -> lower w vp lowervp ->
  0 <= v_writecount v -> 0 <= v_writecount v + a_inc a < 2 ^ 31 ->
  (forall w1, same_data w w1 -> exists w2, VOP_ADD_WRITECOUNT lowervp (a_inc a) w1 = Ret error w2 /\
    w_vnodes w2 !! vp = Some v /\ w_args w2 !! ap = Some a) ->
  exists w' v', tpt_add_writecount ap w = Ret error w' /\ w_vnodes w' !! vp = Some v' /\
    v_writecount v' = v_writecount v + (if error =? 0 then a_inc a else 0).
Proof.
  intros Hv Hl Hwc Hinc Hlow. pose proof Hv as [Ha Hs Hvn _].
  assert (Es : s32 (v_writecount v + a_inc a) = v_writecount v + a_inc a) by (apply s32_small; lia).
  unfold tpt_add_writecount. erewrite bind_Ret by (eapply on_vnode_slot; exact Hv).
  destruct (lower_run w vp lowervp Hl) as (w1 & E1 & S1). erewrite bind_Ret by exact E1.
  destruct (quiet_run (VI_LOCK vp) w1) as ([] & w2 & E2 & S2'). erewrite bind_Ret by exact E2.
  pose proof (same_data_trans _ _ _ S1 S2') as S2.
  assert (Ha2 : w_args w2 !! ap = Some a) by now rewrite S2.
  assert (Hv2 : w_vnodes w2 !! vp = Some v) by now rewrite S2.
  unfold args_at. read_bind.
  erewrite bind_Ret by (apply KASSERT_ok; unfold vnode_at; read_bind; now rewrite (proj2 (Z.leb_le _ _) Hwc)).
  erewrite bind_Ret by (apply KASSERT_ok; unfold vnode_at; read_bind; rewrite Es;
    now rewrite (proj2 (Z.leb_le _ _) (proj1 Hinc))).
  destruct (Hlow w2 S2) as (w3 & E3 & Hv3 & Ha3). erewrite bind_Ret by exact E3.
  destruct (Z.eqb_spec error 0) as [->|He]; cbn [when].
  - erewrite bind_Ret by (read_bind; apply update_run; exact Hv3).
    destruct (quiet_run (VI_UNLOCK vp) (set_vnodes (<[vp := vn_set_writecount
      (s32 (v_writecount v + a_inc a)) v]> (w_vnodes w3)) w3)) as ([] & w4 & E4 & S4).
    erewrite bind_Ret by exact E4. eexists _, _. split; [reflexivity|]. split.
    + rewrite S4. cbn. now rewrite lookup_insert_eq.
    + cbn. exact Es.
  - erewrite bind_Ret by reflexivity.
    destruct (quiet_run (VI_UNLOCK vp) w3) as ([] & w4 & E4 & S4). erewrite bind_Ret by exact E4.
    exists w4, v. split; [done|]. split; [now rewrite S4 | lia].
Qed.

End attributes.

Section releasing.
  Context {X : Type} `{Headers} `{FreeBSD X} `{!References X}.
  Implicit Types w : world X.

(** [vp] has more than [n] references. *)
Definition used (w : world X) (vp n : Z) : Prop :=
  exists v, w_vnodes w !! vp = Some v /\ n < v_usecount v.

Lemma used_less w vp n k : used w vp n -> k <= n -> used w vp k.
Proof. intros (v & ? & ?) ?. exists v. split; [done | lia]. Qed.

Lemma used_add_use w w' q d vp n :
  used w vp n -> same_data (add_use q d w) w' -> -1 <= d -> used w' vp (n - 1).
Proof.
  intros (v & Hv & Hn) -> Hd. unfold used. cbn. destruct (decide (q = vp)) as [->|Hne].
  - rewrite lookup_alter_eq, Hv. eexists. split; [reflexivity|]. cbn. lia.
  - rewrite lookup_alter_ne by done. exists v. split; [done | lia].
Qed.

Lemma vrele_run w vp n : used w vp n -> 1 <= n ->
  exists w', vrele vp w = Ret tt w' /\ same_data (add_use vp (-1) w) w'.
Proof. intros (v & Hv & Hn) ?. apply (vrele_spec vp w v); [done | lia]. Qed.

Lemma vput_run w vp n : used w vp n -> 1 <= n ->
  exists w', vput vp w = Ret tt w' /\ same_data (add_use vp (-1) w) w'.
Proof. intros (v & Hv & Hn) ?. apply (vput_spec vp w v); [done | lia]. Qed.

(** A rename between two mounts is refused with EXDEV before the lower layer
    hears of it: the arguments are untouched and exactly the four references
    that the caller gave (three without a target) are released, also when some
    of the four are the same vnode. *)
Theorem tpt_rename_cross_device (w : world X) ap a tdvp fvp fdvp tvp fv tdv :
  w_args w !! ap = Some a -> a_vnodes a !! "a_tdvp" = Some tdvp -> a_vnodes a !! "a_fvp" = Some fvp ->
  a_vnodes a !! "a_fdvp" = Some fdvp -> a_vnodes a !! "a_tvp" = Some tvp ->
  used w tdvp 4 -> used w fvp 4 -> used w fdvp 4 -> (tvp <> 0 -> used w tvp 4) ->
  w_vnodes w !! fvp = Some fv -> w_vnodes w !! tdvp = Some tdv ->
  v_mount fv <> v_mount tdv ->
  exists w', tpt_rename ap w = Ret EXDEV w' /\
    same_data (add_use fvp (-1) (add_use fdvp (-1)
      (if tvp =? 0 then add_use tdvp (-1) w else add_use tvp (-1) (add_use tdvp (-1) w)))) w'.
Proof.
  intros Ha Es1 Es2 Es3 Es4 U1 U2 U3 U4 Hf Ht Hm. unfold tpt_rename.
  do 4 (erewrite bind_Ret by (eapply slot_run; eassumption)).
  erewrite bind_Ret by (apply mount_of_run; exact Hf).
  erewrite bind_Ret by (apply mount_of_run; exact Ht).
  rewrite (proj2 (Z.eqb_neq _ _) Hm). erewrite bind_Ret by reflexivity. cbv iota.
  assert (H1 : exists w1, (if tdvp =? tvp then vrele tdvp else vput tdvp) w = Ret tt w1 /\
    same_data (add_use tdvp (-1) w) w1).
  { destruct (tdvp =? tvp); [now apply (vrele_run _ _ 4) | now apply (vput_run _ _ 4)]. }
  destruct H1 as (w1 & E1 & S1). erewrite bind_Ret by exact E1.
  set (r := if tvp =? 0 then add_use tdvp (-1) w else add_use tvp (-1) (add_use tdvp (-1) w)).
  assert (H2 : exists w2, when (negb (tvp =? 0)) (vput tvp) w1 = Ret tt w2 /\ same_data r w2 /\
    used w2 fdvp 2 /\ used w2 fvp 2).
  { pose proof (used_add_use _ _ _ _ _ _ U3 S1 ltac:(lia)) as U3'.
    pose proof (used_add_use _ _ _ _ _ _ U2 S1 ltac:(lia)) as U2'.
    unfold r. destruct (Z.eqb_spec tvp 0) as [->|Hne]; cbn [negb when].
    - exists w1. split; [done|]. split; [done|]. split; eapply used_less; eauto; lia.
    - destruct (vput_run w1 tvp 3) as (w2 & E2 & S2);
        [exact (used_add_use _ _ _ _ _ _ (U4 Hne) S1 ltac:(lia)) | lia |].
      exists w2. split; [done|]. split; [now rewrite S2, S1|].
      split; [exact (used_add_use _ _ _ _ _ _ U3' S2 ltac:(lia)) |
              exact (used_add_use _ _ _ _ _ _ U2' S2 ltac:(lia))]. }
  destruct H2 as (w2 & E2 & S2 & V3 & V2). erewrite bind_Ret by exact E2.
  destruct (vrele_run w2 fdvp 2 V3 ltac:(lia)) as (w3 & E3 & S3). erewrite bind_Ret by exact E3.
  destruct (vrele_run w3 fvp 1) as (w4 & E4 & S4);
    [exact (used_add_use _ _ _ _ _ _ V2 S3 ltac:(lia)) | lia |].
  erewrite bind_Ret by exact E4. exists w4. split; [done|]. rewrite S4, S3, S2. done.
Qed.

End releasing.

(** ** Reclaiming *)

Section reclaim.
  Context {X : Type} `{Headers} `{FreeBSD X} `{!StableHash X} `{!Quiet X} `{!References X}
    `{!NewVnode X}.
  Implicit Types w : world X.

Lemma release_run w (nounlock : bool) vp n : used w vp n -> 1 <= n ->
  exists w', (if nounlock then vunref vp else vput vp) w = Ret tt w' /\
    same_data (add_use vp (-1) w) w'.
Proof.
  intros (v & Hv & Hn) ?. destruct nounlock; [apply (vunref_spec vp w v) | apply (vput_spec vp w v)];
    (exact Hv || lia).
Qed.

(** The vnode that [tpt_reclaim] leaves. *)
Definition reclaimed (vp : Z) (v : vnode) : vnode :=
  vn_set_vnlock (v_lock vp) (vn_set_object 0 (vn_set_data 0 v)).

(** What the lower layer may do when the write references are handed back. *)
Definition takes_writecount (lowervp n : Z) : Prop :=
  forall w, exists e k w', VOP_ADD_WRITECOUNT lowervp n w = Ret e w' /\
    same_data (set_vnodes (alter (vn_set_writecount k) lowervp (w_vnodes w)) w) w'.

Lemma return_writecount_run w vp lowervp v :
  w_vnodes w !! vp = Some v -> vp <> lowervp ->
  (0 < v_writecount v -> takes_writecount lowervp (s32 (- v_writecount v))) ->
  exists k1 k2 w', return_writecount vp lowervp w = Ret tt w' /\
    same_data (set_vnodes (alter (vn_set_writecount k2) lowervp
      (<[vp := vn_set_writecount k1 v]> (w_vnodes w))) w) w' /\ (k1 = v_writecount v \/ k1 = 0).
Proof.
  intros Hv Hne Hlow. unfold return_writecount, vnode_at. read_bind.
  assert (Hid : forall m : gmap Z vnode, exists k, alter (vn_set_writecount k) lowervp m = m).
  { intros m. destruct (m !! lowervp) as [u|] eqn:E.
    - exists (v_writecount u). apply map_eq. intros i. destruct (decide (lowervp = i)) as [<-|].
      + rewrite lookup_alter_eq, E. now destruct u.
      + now rewrite lookup_alter_ne.
    - exists 0. apply map_eq. intros i. destruct (decide (lowervp = i)) as [<-|].
      + now rewrite lookup_alter_eq, E.
      + now rewrite lookup_alter_ne. }
  assert (Hsame : <[vp := vn_set_writecount (v_writecount v) v]> (w_vnodes w) = w_vnodes w).
  { apply insert_id. rewrite Hv. now destruct v. }
  destruct (Z.ltb_spec 0 (v_writecount v)) as [Hpos|Hnp].
  - destruct (Hlow Hpos w) as (e & k & w' & E & S). erewrite bind_Ret by exact E.
    exists (v_writecount v), k, w'. split; [done|]. rewrite Hsame. split; [done | now left].
  - destruct (Z.ltb_spec (v_writecount v) 0) as [Hneg|Hz]; cbn [when].
    + unfold update_vnode. rewrite (update_run _ _ _ _ v) by exact Hv.
      destruct (Hid (<[vp := vn_set_writecount 0 v]> (w_vnodes w))) as [k Ek].
      exists 0, k. rewrite Ek. eexists. split; [reflexivity|]. split; [apply same_data_refl | now right].
    + destruct (Hid (w_vnodes w)) as [k Ek]. exists (v_writecount v), k, w.
      rewrite Hsame, Ek. split; [done|]. split; [now destruct w | now left].
Qed.

(** What the cache needs of the changes of [tpt_reclaim]: [vp] becomes [u], the
    lower vnode changes its counts, the node goes. *)
Lemma reclaim_keeps w xp mp lowervp vp u f :
  cache_ok w -> entry w xp mp lowervp vp ->
  (forall v : vnode, v_mount (f v) = v_mount v /\ v_data (f v) = v_data v) ->
  keeps_entries (unlink xp w) (set_nodes (delete xp (w_nodes w))
    (set_vnodes (alter f lowervp (<[vp := u]> (w_vnodes w))) (unlink xp w))).
Proof.
  intros Hok He Hf. destruct (unlink_ok w xp mp lowervp vp Hok He) as [Hok0 _].
  assert (K1 : keeps_entries (unlink xp w) (set_vnodes (<[vp := u]> (w_vnodes w)) (unlink xp w))).
  { destruct He as (_ & x & v0 & _ & Hv & _ & _ & _ & Hd).
    apply (change_vnode_keeps (unlink xp w)); [done | |].
    - intros ->. destruct Hok as [Hn _]. congruence.
    - intros xp' mp' l [He' Hne]%entry_unlink. destruct He' as (_ & ? & ? & _ & ? & _ & _ & _ & ?).
      congruence. }
  pose proof (cache_ok_keeps_entries _ _ K1 Hok0) as Hok1.
  pose proof (keeps_cache_entries _ _ (alter_vnode_keeps _ lowervp f Hok1 Hf)) as K2.
  pose proof (keeps_entries_trans _ _ _ Hok0 K1 K2) as K12.
  pose proof (cache_ok_keeps_entries _ _ K12 Hok0) as Hok2.
  eapply (keeps_entries_trans _ _ _ Hok0 K12). apply (delete_node_keeps _ xp Hok2).
  intros mp' l vp' He'. apply (entry_keeps_entries _ _ _ _ _ _ Hok0 K12) in He'.
  now apply entry_unlink in He'.
Qed.

Lemma detach_run {A} w vp v (k : M (world X) A) :
  w_vnodes w !! vp = Some v ->
  (update_vnode vp (vn_set_data 0) ;;; update_vnode vp (vn_set_object 0) ;;;
   update_vnode vp (vn_set_vnlock (v_lock vp)) ;;; k) w =
  k (set_vnodes (<[vp := reclaimed vp v]> (w_vnodes w)) w).
Proof.
  intros Hv. unfold update_vnode.
  erewrite bind_Ret by (eapply update_run; exact Hv).
  erewrite bind_Ret by (eapply update_run; cbn; apply lookup_insert_eq).
  erewrite bind_Ret by (eapply update_run; cbn; apply lookup_insert_eq).
  f_equal. unfold set_vnodes. cbn. now rewrite !insert_insert_eq.
Qed.

(** What is known when the vnode [vp], entry [xp] of the cache, is reclaimed. *)
Record reclaim_pre (w : world X) (ap : Z) (a : vop_args) (xp mp lowervp vp : Z) (v lv : vnode)
    (x : tpt_node) : Prop := {
  rp_cache : cache_ok w;
  rp_entry : entry w xp mp lowervp vp;
  rp_args : w_args w !! ap = Some a;
  rp_slot : a_vnodes a !! "a_vp" = Some vp;
  rp_vnode : w_vnodes w !! vp = Some v;
  rp_node : w_nodes w !! xp = Some x;
  rp_lower : w_vnodes w !! lowervp = Some lv;
  rp_used : 1 < v_usecount lv;
  rp_shared : v_vnlock v <> v_lock vp;
  rp_writes : 0 < v_writecount v -> takes_writecount lowervp (s32 (- v_writecount v));
}.

(** The first part of [tpt_reclaim], up to the vnode's own lock. *)
Lemma reclaim_start w ap a xp mp lowervp vp v lv x :
  reclaim_pre w ap a xp mp lowervp vp v lv x ->
  exists w1, same_data (set_vnodes (<[vp := reclaimed vp v]> (w_vnodes w)) (unlink xp w)) w1 /\
    tpt_reclaim ap w =
      (return_writecount vp lowervp ;;;
       VI_UNLOCK vp ;;;
       x <- node_at xp ;;
       (if has (tpt_flags x) NULLV_NOUNLOCK then vunref lowervp else vput lowervp) ;;;
       free_node xp ;;;
       ret 0) w1.
Proof.
  intros [Hok He Ha Hs Hv Hx Hlv Hu Hsh _].
  pose proof He as (_ & x' & v' & Hx' & Hv' & Hl & Ht & Hm & Hd).
  assert (x' = x) as -> by congruence. assert (v' = v) as -> by congruence. clear Hx' Hv' Ht Hm.
  unfold tpt_reclaim, node_at. erewrite bind_Ret by (eapply slot_run; eassumption).
  erewrite bind_Ret by (apply VTONULL_run; exact Hv). rewrite Hd. read_bind. rewrite Hl.
  erewrite bind_Ret.
  2: { apply KASSERT_ok. unfold vnode_at. read_bind.
       assert ((lowervp =? NULLVP) = false) as ->.
       { apply Z.eqb_neq. intros E. destruct Hok as [Hn _]. congruence. }
       now rewrite bool_decide_eq_false_2. }
  destruct (tpt_hashrem_spec w _ _ _ _ Hok He) as (w1 & E1 & S1). erewrite bind_Ret by exact E1.
  destruct (quiet_run (lockmgr (v_lock (vp)) LK_EXCLUSIVE) w1) as ([] & w2 & E2 & S2).
  erewrite bind_Ret by exact E2.
  destruct (quiet_run (VI_LOCK (vp)) w2) as ([] & w3 & E3 & S3).
  erewrite bind_Ret by exact E3.
  pose proof (same_data_trans _ _ _ S1 (same_data_trans _ _ _ S2 S3)) as S13.
  assert (Hv3 : w_vnodes w3 !! vp = Some v) by now rewrite S13.
  rewrite (detach_run _ _ v) by exact Hv3. eexists. split; [|reflexivity].
  rewrite S13. done.
Qed.

(** The second part. *)
Lemma reclaim_end w w1 ap a xp mp lowervp vp v lv x :
  reclaim_pre w ap a xp mp lowervp vp v lv x -> vp <> lowervp ->
  same_data (set_vnodes (<[vp := reclaimed vp v]> (w_vnodes w)) (unlink xp w)) w1 ->
  exists k1 k2 w', (return_writecount vp lowervp ;;;
       VI_UNLOCK vp ;;;
       x <- node_at xp ;;
       (if has (tpt_flags x) NULLV_NOUNLOCK then vunref lowervp else vput lowervp) ;;;
       free_node xp ;;;
       ret 0) w1 = Ret 0 w' /\
    same_data (set_nodes (delete xp (w_nodes w)) (set_vnodes
      (alter (fun lv => vn_set_usecount (v_usecount lv + -1) (vn_set_writecount k2 lv)) lowervp
        (<[vp := vn_set_writecount k1 (reclaimed vp v)]> (w_vnodes w))) (unlink xp w))) w'.
Proof.
  intros [Hok He Ha Hs Hv Hx Hlv Hu _ Hw] Hne S1.
  assert (Hv1 : w_vnodes w1 !! vp = Some (reclaimed vp v)).
  { rewrite S1. cbn. now rewrite lookup_insert_eq. }
  destruct (return_writecount_run w1 vp lowervp _ Hv1 Hne Hw) as (k1 & k2 & w2 & E2 & S2 & _).
  erewrite bind_Ret by exact E2.
  destruct (quiet_run (VI_UNLOCK vp) w2) as ([] & w3 & E3 & S3). erewrite bind_Ret by exact E3.
  pose proof (same_data_trans _ _ _ S2 S3) as S3'.
  assert (Hx3 : w_nodes w3 !! xp = Some x) by (rewrite S3', S1; exact Hx).
  unfold node_at. read_bind.
  assert (Hl3 : w_vnodes w3 !! lowervp = Some (vn_set_writecount k2 lv)).
  { rewrite S3'. cbn. rewrite lookup_alter_eq, lookup_insert_ne, S1 by done. cbn.
    now rewrite lookup_insert_ne, Hlv. }
  destruct (release_run w3 (has (tpt_flags x) NULLV_NOUNLOCK) lowervp 1) as (w4 & E4 & S4);
    [eexists; split; [exact Hl3 | exact Hu] | lia |].
  erewrite bind_Ret by exact E4.
  destruct (free_node_spec xp w4) as (w5 & E5 & S5). erewrite bind_Ret by exact E5.
  exists k1, k2, w5. split; [reflexivity|].
  apply same_data_fields in S5, S4, S3', S1. apply same_data_fields. cbn in *.
  rewrite_fields S5.
  rewrite_fields S4.
  rewrite_fields S3'.
  rewrite_fields S1.
  split; [|done]. now rewrite insert_insert_eq, alter_alter_eq.
Qed.

(** C10: [tpt_reclaim] of a vnode of the cache removes its key and no other from
    the cache, which stays consistent, so that the lower vnode can be given a
    new tptfs vnode; the vnode is left with no node, no VM object and its own
    lock, the node is freed, and the lower vnode loses the one reference that
    the node owned, whether it is unlocked on the way or not. *)
Theorem tpt_reclaim_removes (w : world X) ap a xp mp lowervp vp v lv x :
  reclaim_pre w ap a xp mp lowervp vp v lv x -> vp <> lowervp ->
  exists w' v' lv', tpt_reclaim ap w = Ret 0 w' /\ cache_ok w' /\
    (forall mp' l, alias w' mp' l =
       if decide (mp' = mp /\ l = lowervp) then None else alias w mp' l) /\
    w_vnodes w' !! vp = Some v' /\ v_data v' = 0 /\ v_object v' = 0 /\ v_vnlock v' = v_lock vp /\
    w_nodes w' !! xp = None /\
    w_vnodes w' !! lowervp = Some lv' /\ v_usecount lv' = v_usecount lv - 1.
Proof.
  intros Hpre Hne. destruct (reclaim_start _ _ _ _ _ _ _ _ _ _ Hpre) as (w1 & S1 & ->).
  destruct (reclaim_end _ _ _ _ _ _ _ _ _ _ _ Hpre Hne S1) as (k1 & k2 & w' & -> & S').
  destruct Hpre as [Hok He Ha Hs Hv Hx Hlv Hu _ _].
  destruct (unlink_ok w xp mp lowervp vp Hok He) as [Hok0 Ha0].
  set (f := fun lv => vn_set_usecount (v_usecount lv + -1) (vn_set_writecount k2 lv)) in *.
  pose proof (reclaim_keeps w xp mp lowervp vp (vn_set_writecount k1 (reclaimed vp v)) f Hok He
    (fun _ => conj eq_refl eq_refl)) as K.
  pose proof (cache_ok_keeps_entries _ _ K Hok0) as Hok1.
  pose proof (same_data_keeps _ _ Hok1 S') as K'.
  exists w', (vn_set_writecount k1 (reclaimed vp v)), (f lv). split; [done|].
  split; [exact (cache_ok_keeps _ _ K' Hok1)|]. split.
  { intros mp' l. rewrite (alias_keeps _ _ _ _ K' Hok1), (alias_keeps_entries _ _ _ _ K Hok0).
    apply Ha0. }
  rewrite S'. cbn [w_vnodes w_nodes set_ext set_nodes set_vnodes]. split.
  { now rewrite lookup_alter_ne, lookup_insert_eq by done. }
  do 3 (split; [done|]). split; [apply lookup_delete_eq|].
  split; [now rewrite lookup_alter_eq, lookup_insert_ne, Hlv by done | cbn; lia].
Qed.

End reclaim.

(** ** Recycling *)

Section recycling.
  Context {X : Type} `{Headers} `{FreeBSD X} `{!Quiet X}.
  Implicit Types w : world X.

(** A complete tptfs vnode [vp]: its node, its lower vnode, its mount. *)
Record stacked (w : world X) (vp : Z) (v : vnode) (x : tpt_node) (lv : vnode) (m : mount)
    (tm : tpt_mount) : Prop := {
  st_vnode : w_vnodes w !! vp = Some v;
  st_node : w_nodes w !! v_data v = Some x;
  st_lower : w_vnodes w !! tpt_lowervp x = Some lv;
  st_null : tpt_lowervp x <> NULLVP;
  st_used : 1 <= v_usecount lv;
  st_mount : w_mounts w !! v_mount v = Some m;
  st_tmount : w_tmounts w !! mnt_data m = Some tm;
}.

Lemma stacked_lower w vp v x lv m tm :
  stacked w vp v x lv m tm -> lower w vp (tpt_lowervp x).
Proof. intros [Hv Hx Hl Hn Hu _ _]. exists v, x, lv. auto 10. Qed.

Definition wants_recycle (x : tpt_node) (lv : vnode) (tm : tpt_mount) : bool :=
  negb (has (nullm_flags tm) NULLM_CACHE) || has (tpt_flags x) NULLV_DROP ||
  has (v_vflag lv) VV_NOSYNC.

Lemma want_recycle_run w vp v x lv m tm :
  stacked w vp v x lv m tm ->
  exists w', tpt_want_recycle vp w = Ret (wants_recycle x lv tm) w' /\ same_data w w'.
Proof.
  intros Hst. unfold tpt_want_recycle, MOUNTTONULLMOUNT, mount_at, tmount_at, node_at, vnode_at.
  erewrite bind_Ret by (eapply VTONULL_run; apply Hst).
  destruct (lower_run w vp _ (stacked_lower _ _ _ _ _ _ _ Hst)) as (w1 & E1 & S1).
  erewrite bind_Ret by exact E1. exists w1. split; [|done].
  destruct Hst as [Hv Hx Hl _ _ Hm Ht].
  assert (Hv1 : w_vnodes w1 !! vp = Some v) by now rewrite S1.
  assert (Hx1 : w_nodes w1 !! v_data v = Some x) by now rewrite S1.
  assert (Hl1 : w_vnodes w1 !! tpt_lowervp x = Some lv) by now rewrite S1.
  assert (Hm1 : w_mounts w1 !! v_mount v = Some m) by now rewrite S1.
  assert (Ht1 : w_tmounts w1 !! mnt_data m = Some tm) by now rewrite S1.
  erewrite bind_Ret by (apply mount_of_run; exact Hv1).
  erewrite bind_Ret by (read_bind; reflexivity). read_bind. unfold wants_recycle.
  destruct (has (nullm_flags tm) NULLM_CACHE); cbn [negb orb]; [|done].
  read_bind. destruct (has (tpt_flags x) NULLV_DROP); [done|]. read_bind. done.
Qed.

(** An inactive tptfs vnode is recycled, and its VM object forgotten,
    exactly when its mount does not cache vnodes, its file was removed through
    tptfs, or the lower vnode is marked not to be synced; [tpt_need_inactive]
    announces it with the same answer. *)
Theorem tpt_inactive_recycles (w : world X) ap a vp v x lv m tm :
  w_args w !! ap = Some a -> a_vnodes a !! "a_vp" = Some vp -> stacked w vp v x lv m tm ->
  (exists w1, same_data w w1 /\
    tpt_need_inactive ap w = Ret (if wants_recycle x lv tm then 1 else 0) w1) /\
  (exists w1, same_data w w1 /\
    tpt_inactive ap w =
      if wants_recycle x lv tm
      then (vrecycle vp ;;; ret 0) (set_vnodes (<[vp := vn_set_object 0 v]> (w_vnodes w1)) w1)
      else Ret 0 w1).
Proof.
  intros Ha Hs Hst. destruct (want_recycle_run _ _ _ _ _ _ _ Hst) as (w1 & E1 & S1).
  split; exists w1; (split; [done|]).
  - unfold tpt_need_inactive. erewrite bind_Ret by (eapply slot_run; eassumption).
    now erewrite bind_Ret by exact E1.
  - unfold tpt_inactive. erewrite bind_Ret by (eapply slot_run; eassumption).
    erewrite bind_Ret by exact E1. destruct (wants_recycle x lv tm); [|done]. cbn [when].
    assert (Hv1 : w_vnodes w1 !! vp = Some v) by (rewrite S1; apply Hst).
    unfold bind. unfold update_vnode. rewrite (update_run _ _ _ _ v) by exact Hv1.
    now destruct (vrecycle vp _).
Qed.

End recycling.

(** ** Locking a vnode that may be reclaimed *)

Section locking.
  Context {X : Type} `{Headers} `{FreeBSD X} `{!Quiet X}.
  Implicit Types w : world X.

(** The arguments when the lock of the lower vnode is asked for. *)
Definition lock_args (a : vop_args) : vop_args :=
  if has (a_flags a) LK_INTERLOCK then args_set_flags (Z.ldiff (a_flags a) LK_INTERLOCK) a else a.

(** The request on the vnode's own lock after a reclamation. *)
Definition own_lock_request (flags : Z) : option Z :=
  let type := Z.land flags LK_TYPE_MASK in
  if type =? LK_SHARED then Some (Z.lor (Z.ldiff flags LK_TYPE_MASK) LK_SHARED)
  else if (type =? LK_UPGRADE) || (type =? LK_EXCLUSIVE)
  then Some (Z.lor (Z.ldiff flags LK_TYPE_MASK) LK_EXCLUSIVE)
  else None.

Lemma set_flags_run ap f a w :
  w_args w !! ap = Some a ->
  set_flags ap f w = Ret tt (set_args (<[ap := args_set_flags f a]> (w_args w)) w).
Proof. intros Ha. unfold set_flags, update_args. now apply update_run. Qed.

Lemma get_flags_run ap a w : w_args w !! ap = Some a -> get_flags ap w = Ret (a_flags a) w.
Proof. intros Ha. unfold get_flags, args_at. read_bind. reflexivity. Qed.

(** The interlock is held, and the flag gone. *)
Lemma lock_start w ap a vp :
  w_args w !! ap = Some a ->
  exists w1, (if negb (has (a_flags a) LK_INTERLOCK) then VI_LOCK vp
     else set_flags ap (Z.ldiff (a_flags a) LK_INTERLOCK)) w = Ret tt w1 /\
    same_data (set_args (<[ap := lock_args a]> (w_args w)) w) w1.
Proof.
  intros Ha. unfold lock_args. destruct (has (a_flags a) LK_INTERLOCK); cbn [negb].
  - rewrite (set_flags_run _ _ _ _ Ha). eexists. split; [reflexivity | apply same_data_refl].
  - destruct (quiet_run (VI_LOCK vp) w) as ([] & w1 & E1 & S1). exists w1. split; [done|].
    rewrite insert_id by done. now destruct w.
Qed.

Lemma relock_flags_run w ap a flags :
  w_args w !! ap = Some a -> a_flags a = flags ->
  exists w', relock_flags ap flags w =
      match own_lock_request flags with
      | Some f => Ret tt (set_args (<[ap := args_set_flags f a]> (w_args w)) w)
      | None => Stop (Panic "Unsupported lock request") w'
      end.
Proof.
  intros Ha <-. unfold relock_flags, own_lock_request.
  erewrite bind_Ret by (eapply get_flags_run; exact Ha).
  erewrite bind_Ret by (eapply set_flags_run; exact Ha).
  erewrite bind_Ret by (eapply get_flags_run; cbn; apply lookup_insert_eq). cbn [a_flags args_set_flags].
  exists (set_args (<[ap := args_set_flags (Z.ldiff (a_flags a) LK_TYPE_MASK) a]> (w_args w)) w).
  destruct (Z.land (a_flags a) LK_TYPE_MASK =? LK_SHARED);
    [|destruct ((Z.land (a_flags a) LK_TYPE_MASK =? LK_UPGRADE) ||
                (Z.land (a_flags a) LK_TYPE_MASK =? LK_EXCLUSIVE)); [|done]];
    (erewrite set_flags_run by (cbn; apply lookup_insert_eq); cbn; now rewrite insert_insert_eq).
Qed.

Lemma lower_or_null_run w vp v lowervp :
  w_vnodes w !! vp = Some v -> v_data v <> 0 -> lower w vp lowervp ->
  exists w', lower_or_null vp w = Ret lowervp w' /\ same_data w w'.
Proof.
  intros Hv Hd Hl. unfold lower_or_null. erewrite bind_Ret by (eapply VTONULL_run; exact Hv).
  rewrite (proj2 (Z.eqb_neq _ _) Hd). cbn [negb]. now apply lower_run.
Qed.

Lemma lower_or_null_reclaimed w vp v :
  w_vnodes w !! vp = Some v -> v_data v = 0 -> lower_or_null vp w = Ret NULLVP w.
Proof.
  intros Hv Hd. unfold lower_or_null. erewrite bind_Ret by (eapply VTONULL_run; exact Hv).
  now rewrite Hd.
Qed.

Lemma lower_args w vp lowervp args : lower (set_args args w) vp lowervp <-> lower w vp lowervp.
Proof. reflexivity. Qed.

(** C30: [tpt_lock] locks the lower vnode, with the caller's flags less the
    interlock, which only concerns the tptfs vnode.  If the tptfs vnode is still
    alive when the lower lock is granted, that is all.  If it was reclaimed
    while the thread slept, so that its lock is no longer the lower one, the
    lower lock is given back and the vnode's own lock is taken in the requested
    mode (an upgrade becomes an exclusive lock, for the shared lock is lost);
    any other request panics. *)
Theorem tpt_lock_follows_reclaim (w : world X) ap a vp v lowervp v2 :
  w_args w !! ap = Some a -> a_vnodes a !! "a_vp" = Some vp -> w_vnodes w !! vp = Some v ->
  v_data v <> 0 -> lower w vp lowervp ->
  (forall w1, same_data (set_args (<[ap := lock_args a]> (w_args w)) w) w1 ->
     exists w2, VOP_LOCK lowervp (a_flags (lock_args a)) w1 = Ret 0 w2 /\
       w_args w2 !! ap = Some (lock_args a) /\ w_vnodes w2 !! vp = Some v2) ->
  exists w2, w_vnodes w2 !! vp = Some v2 /\
    if decide (v_data v2 = 0) then
      match own_lock_request (a_flags (lock_args a)) with
      | Some f => w_args w2 !! ap = Some (args_set_flags f (lock_args a)) /\
          tpt_lock ap w =
            (VOP_UNLOCK lowervp ;;; error <- vop_stdlock ap ;; vdrop lowervp ;;; ret error) w2
      | None => exists w3, tpt_lock ap w = Stop (Panic "Unsupported lock request") w3
      end
    else tpt_lock ap w = (vdrop lowervp ;;; ret 0) w2.
Proof.
  intros Ha Hs Hv Hd Hl Hlock. unfold tpt_lock. erewrite bind_Ret by (eapply slot_run; eassumption).
  erewrite bind_Ret by (eapply get_flags_run; exact Ha).
  destruct (lock_start w ap a vp Ha) as (w1 & E1 & S1). erewrite bind_Ret by exact E1.
  assert (Ha1 : w_args w1 !! ap = Some (lock_args a)) by (rewrite S1; apply lookup_insert_eq).
  erewrite bind_Ret by (eapply get_flags_run; exact Ha1).
  assert (Hl1 : lower w1 vp lowervp) by (eapply lower_same; [exact S1 | now apply lower_args]).
  destruct (lower_or_null_run w1 vp v lowervp) as (w2 & E2 & S2); [now rewrite S1 | done | done |].
  erewrite bind_Ret by exact E2.
  assert ((lowervp =? NULLVP) = false) as ->.
  { destruct Hl as (? & ? & ? & _ & _ & _ & Hne & _). now apply Z.eqb_neq. }
  cbn [negb].
  destruct (quiet_run (vholdnz lowervp) w2) as ([] & w3 & E3 & S3). erewrite bind_Ret by exact E3.
  destruct (quiet_run (VI_UNLOCK vp) w3) as ([] & w4 & E4 & S4). erewrite bind_Ret by exact E4.
  destruct (Hlock w4) as (w5 & E5 & Ha5 & Hv5).
  { exact (same_data_trans _ _ _ S1 (same_data_trans _ _ _ S2 (same_data_trans _ _ _ S3 S4))). }
  erewrite bind_Ret by exact E5. erewrite bind_Ret by (eapply VTONULL_run; exact Hv5).
  rewrite andb_true_r. case_decide as Hz.
  - rewrite Hz. change (0 =? 0) with true. cbv iota.
    destruct (relock_flags_run w5 ap _ _ Ha5 eq_refl) as (w6 & E6).
    destruct (own_lock_request (a_flags (lock_args a))) as [f|].
    + exists (set_args (<[ap := args_set_flags f (lock_args a)]> (w_args w5)) w5).
      split; [exact Hv5|]. split; [apply lookup_insert_eq|].
      unfold bind in *. rewrite E6. now destruct (VOP_UNLOCK lowervp _).
    + exists w5. split; [done|]. exists w6. apply bind_Stop, bind_Stop, E6.
  - rewrite (proj2 (Z.eqb_neq _ _) Hz). exists w5. split; [done|]. now erewrite bind_Ret by reflexivity.
Qed.

(** After a vnode was reclaimed (its node is gone), the operations that may
    still be called on it touch neither a node nor the lower layer: [tpt_lock]
    and [tpt_unlock] use the vnode's own lock, [tpt_getwritemount] answers with
    no mount, [tpt_read_pgcache] asks for the slow path. *)
Theorem reclaimed_vnode_is_safe (w : world X) ap a vp v mp :
  w_args w !! ap = Some a -> a_vnodes a !! "a_vp" = Some vp -> w_vnodes w !! vp = Some v ->
  v_data v = 0 -> w_vars w !! a_mpp a = Some mp ->
  (exists w1, same_data (set_args (<[ap := lock_args a]> (w_args w)) w) w1 /\
     tpt_lock ap w = vop_stdlock ap w1) /\
  tpt_unlock ap w = vop_stdunlock ap w /\
  (exists w1, same_data (set_vars (<[a_mpp a := 0]> (w_vars w)) w) w1 /\
     tpt_getwritemount ap w = Ret 0 w1) /\
  (exists w1, same_data w w1 /\ tpt_read_pgcache ap w = Ret EJUSTRETURN w1).
Proof.
  intros Ha Hs Hv Hd Hm.
  destruct (quiet_run (VI_LOCK vp) w) as ([] & w1 & E1 & S1).
  assert (Hv1 : w_vnodes w1 !! vp = Some v) by now rewrite S1.
  destruct (quiet_run (VI_UNLOCK vp) w1) as ([] & w2 & E2 & S2).
  split; [|split; [|split]].
  - unfold tpt_lock. erewrite bind_Ret by (eapply slot_run; eassumption).
    erewrite bind_Ret by (eapply get_flags_run; exact Ha).
    destruct (lock_start w ap a vp Ha) as (u1 & F1 & T1). erewrite bind_Ret by exact F1.
    erewrite bind_Ret by (eapply get_flags_run; rewrite T1; apply lookup_insert_eq).
    erewrite bind_Ret by (apply (lower_or_null_reclaimed _ _ v); [now rewrite T1 | done]).
    cbn [negb Z.eqb NULLVP]. destruct (quiet_run (VI_UNLOCK vp) u1) as ([] & u2 & F2 & T2).
    erewrite bind_Ret by exact F2. exists u2. split; [exact (same_data_trans _ _ _ T1 T2) | done].
  - unfold tpt_unlock. erewrite bind_Ret by (eapply slot_run; eassumption).
    erewrite bind_Ret by (apply (lower_or_null_reclaimed _ _ v); done). done.
  - unfold tpt_getwritemount, args_at. erewrite bind_Ret by (eapply slot_run; eassumption).
    erewrite bind_Ret by exact E1. erewrite bind_Ret by (eapply VTONULL_run; exact Hv1).
    rewrite Hd. unfold node_lower. erewrite bind_Ret by reflexivity.
    erewrite bind_Ret by (apply deref_run; rewrite S1; exact Ha). cbn [negb Z.eqb NULLVP].
    assert (Hm2 : w_vars w2 !! a_mpp a = Some mp) by now rewrite S2, S1.
    erewrite bind_Ret by (erewrite bind_Ret by exact E2; unfold assign; apply update_run; exact Hm2).
    eexists. split; [|reflexivity]. pose proof (same_data_trans _ _ _ S1 S2) as S12. now rewrite S12.
  - unfold tpt_read_pgcache. erewrite bind_Ret by (eapply slot_run; eassumption).
    erewrite bind_Ret by exact E1. erewrite bind_Ret by (eapply VTONULL_run; exact Hv1).
    rewrite Hd. cbn [Z.eqb]. erewrite bind_Ret by exact E2. exists w2.
    split; [exact (same_data_trans _ _ _ S1 S2) | done].
Qed.

End locking.

(** ** Lookup *)

Section lookup.
  Context {X : Type} `{Headers} `{FreeBSD X} `{!Quiet X}.
  Implicit Types w : world X.

(** [tpt_lookup] after the call of the lower layer. *)
Definition lookup_finish (ap : Z) (cnp : componentname) (dvp mp ldvp : Z)
    (error lvp : Z) : M (world X) Z :=
  doomed <-
    (if (error =? 0) || (error =? EJUSTRETURN) then gets (fun w => VN_IS_DOOMED w dvp)
     else ret false) ;;
  error <-
    (if doomed then
       when (negb (lvp =? 0)) (vput lvp) ;;;
       VOP_UNLOCK ldvp ;;;
       vn_lock dvp (Z.lor LK_EXCLUSIVE LK_RETRY) ;;;
       ret ENOENT
     else ret error) ;;
  vdrop ldvp ;;;
  readonly <-
    (if (error =? EJUSTRETURN) && has (cn_flags cnp) ISLASTCN then
       m <- mount_at mp ;; ret (has (mnt_flag m) MNT_RDONLY)
     else ret false) ;;
  let error :=
    if readonly && ((cn_nameiop cnp =? CREATE) || (cn_nameiop cnp =? RENAME)) then EROFS
    else error in
  lookup_result ap dvp mp ldvp lvp error.

(** The operation changes the directory: it removes or renames the last
    component of the path. *)
Definition removes_entry (cnp : componentname) : bool :=
  has (cn_flags cnp) ISLASTCN && ((cn_nameiop cnp =? DELETE) || (cn_nameiop cnp =? RENAME)).

Definition creates_entry (cnp : componentname) : bool :=
  has (cn_flags cnp) ISLASTCN && ((cn_nameiop cnp =? CREATE) || (cn_nameiop cnp =? RENAME)).

(** What holds when [tpt_lookup] is called for the directory [dvp] over
    [ldvp]: the root of the lower file system is reached through the root of
    the tptfs only, and never by "..". *)
Record lookup_pre (w : world X) (ap : Z) (a : vop_args) (dvp : Z) (dv : vnode) (m : mount)
    (ldvp : Z) (ldv : vnode) : Prop := {
  lp_dvp : on_vnode w ap a "a_dvp" dvp dv m;
  lp_lower : lower w dvp ldvp;
  lp_ldvp : w_vnodes w !! ldvp = Some ldv;
  lp_root : has (v_vflag ldv) VV_ROOT = true ->
    has (v_vflag dv) VV_ROOT = true /\ has (cn_flags (a_cnp a)) ISDOTDOT = false;
}.

Lemma readonly_run w ap a name vp v m (b : bool) :
  on_vnode w ap a name vp v m ->
  (if b return M (world X) bool then m <- mount_at (v_mount v) ;; ret (has (mnt_flag m) MNT_RDONLY)
   else ret false) w =
  Ret (b && has (mnt_flag m) MNT_RDONLY) w.
Proof. intros Hv. destruct b; [|done]. unfold mount_at. erewrite bind_Ret by apply deref_run, Hv. done. Qed.

Lemma andb_swap_last a b c : a && b && c = b && (a && c).
Proof. now destruct a, b. Qed.

Lemma lookup_start w ap a dvp dv m ldvp ldv :
  lookup_pre w ap a dvp dv m ldvp ldv ->
  has (mnt_flag m) MNT_RDONLY && removes_entry (a_cnp a) = false ->
  exists w1, same_data w w1 /\
    tpt_lookup ap w =
      (let* (error, lvp) := VOP_LOOKUP ldvp (a_cnp a) in
       lookup_finish ap (a_cnp a) dvp (v_mount dv) ldvp error lvp) w1.
Proof.
  intros [Hd Hl Hld Hroot] Hro. unfold tpt_lookup. erewrite bind_Ret by apply deref_run, Hd.
  cbv zeta. erewrite bind_Ret by (eapply on_vnode_slot; exact Hd).
  erewrite bind_Ret by apply mount_of_run, Hd.
  erewrite bind_Ret by (eapply readonly_run; exact Hd). rewrite andb_swap_last. fold (removes_entry (a_cnp a)).
  rewrite Hro. destruct (lower_run w dvp ldvp Hl) as (w1 & E1 & S1). erewrite bind_Ret by exact E1.
  assert (Hld1 : w_vnodes w1 !! ldvp = Some ldv) by now rewrite S1.
  assert (Hdv1 : w_vnodes w1 !! dvp = Some dv) by (rewrite S1; apply Hd).
  erewrite bind_Ret.
  2: { apply KASSERT_ok. unfold vnode_at. read_bind. read_bind. unfold ret. f_equal.
       destruct (has (v_vflag ldv) VV_ROOT); [|done]. now destruct (Hroot eq_refl) as [-> ->]. }
  destruct (quiet_run (vhold ldvp) w1) as ([] & w2 & E2 & S2). erewrite bind_Ret by exact E2.
  exists w2. split; [exact (same_data_trans _ _ _ S1 S2) | reflexivity].
Qed.

(** The lower layer answers [error] and [lvp], which has a new reference, and
    the directory is not reclaimed meanwhile. *)
Definition lower_finds (w : world X) (ldvp : Z) (cnp : componentname) (dvp error lvp : Z) : Prop :=
  forall w1, same_data w w1 -> exists w2, VOP_LOOKUP ldvp cnp w1 = Ret (error, lvp) w2 /\
    same_data (add_use lvp 1 w) w2 /\ VN_IS_DOOMED w2 dvp = false.

Context `{!References X}.

(** [tpt_lookup] up to the mapping of the vnode that was found. *)
Lemma lookup_run w ap a dvp dv m ldvp ldv error lvp :
  lookup_pre w ap a dvp dv m ldvp ldv ->
  has (mnt_flag m) MNT_RDONLY && removes_entry (a_cnp a) = false ->
  lower_finds w ldvp (a_cnp a) dvp error lvp ->
  exists w1, same_data (add_use lvp 1 w) w1 /\
    tpt_lookup ap w = lookup_result ap dvp (v_mount dv) ldvp lvp
      (if (error =? EJUSTRETURN) && (has (mnt_flag m) MNT_RDONLY && creates_entry (a_cnp a))
       then EROFS else error) w1.
Proof.
  intros Hpre Hro Hfind. destruct (lookup_start _ _ _ _ _ _ _ _ Hpre Hro) as (w1 & S1 & ->).
  destruct (Hfind w1 S1) as (w2 & E2 & S2 & Hnd). erewrite bind_Ret by exact E2.
  cbv beta iota. unfold lookup_finish.
  assert (Ed : (if (error =? 0) || (error =? EJUSTRETURN) return M (world X) bool
    then gets (fun w => VN_IS_DOOMED w dvp) else ret false) w2 = Ret false w2).
  { unfold gets, ret. destruct ((error =? 0) || (error =? EJUSTRETURN)); [now rewrite Hnd | done]. }
  erewrite bind_Ret by exact Ed.
  erewrite bind_Ret by reflexivity.
  assert (Hu : exists u, w_vnodes w2 !! ldvp = Some u /\ 0 < v_usecount u).
  { destruct Hpre as [_ (_ & _ & lv & _ & _ & _ & _ & Hlv & Hpos) _ _]. rewrite S2. cbn.
    destruct (decide (lvp = ldvp)) as [->|Hne].
    - rewrite lookup_alter_eq, Hlv. eexists. split; [reflexivity | cbn; lia].
    - rewrite lookup_alter_ne by done. exists lv. split; [done | lia]. }
  destruct Hu as (u & Hu & Hpos).
  destruct (vdrop_spec ldvp w2 u Hu Hpos) as (w3 & E3 & S3). erewrite bind_Ret by exact E3.
  exists w3. split; [exact (same_data_trans _ _ _ S2 S3)|].
  assert (Hm3 : w_mounts w3 !! v_mount dv = Some m) by (rewrite S3, S2; apply Hpre).
  unfold mount_at, creates_entry. destruct (error =? EJUSTRETURN); cbn [andb]; [|done].
  destruct (has (cn_flags (a_cnp a)) ISLASTCN); cbn [andb].
  - erewrite bind_Ret by (read_bind; reflexivity). done.
  - erewrite bind_Ret by reflexivity. now rewrite andb_false_r.
Qed.

(** On a read-only mount [tpt_lookup] refuses to prepare a removal or a
    renaming with EROFS before the lower layer is asked, nothing being changed;
    and it refuses to prepare a creation with EROFS when the lower layer says
    that the name is free, giving no vnode back. *)
Theorem tpt_lookup_readonly (w : world X) ap a dvp dv m ldvp ldv :
  lookup_pre w ap a dvp dv m ldvp ldv -> has (mnt_flag m) MNT_RDONLY = true ->
  (removes_entry (a_cnp a) = true -> tpt_lookup ap w = Ret EROFS w) /\
  (removes_entry (a_cnp a) = false -> creates_entry (a_cnp a) = true ->
   w_vnodes w !! NULLVP = None -> lower_finds w ldvp (a_cnp a) dvp EJUSTRETURN NULLVP ->
   exists w', tpt_lookup ap w = Ret EROFS w' /\ w_vars w' = w_vars w /\ w_vnodes w' = w_vnodes w).
Proof.
  intros Hpre Hro. split.
  - intros Hr. destruct Hpre as [Hd _ _ _]. unfold tpt_lookup. erewrite bind_Ret by apply deref_run, Hd.
    cbv zeta. erewrite bind_Ret by (eapply on_vnode_slot; exact Hd).
    erewrite bind_Ret by apply mount_of_run, Hd.
    erewrite bind_Ret by (eapply readonly_run; exact Hd). rewrite andb_swap_last.
    fold (removes_entry (a_cnp a)). now rewrite Hro, Hr.
  - intros Hr Hc Hnull Hf.
    destruct (lookup_run w ap a dvp dv m ldvp ldv EJUSTRETURN NULLVP Hpre) as (w1 & S1 & ->);
      [now rewrite Hro, Hr | done |].
    rewrite Z.eqb_refl, Hro, Hc. cbn [andb]. unfold lookup_result. cbn [NULLVP Z.eqb negb].
    rewrite andb_false_r. exists w1. split; [done|]. rewrite S1. split; [done|]. cbn.
    apply map_eq. intros i. destruct (decide (NULLVP = i)) as [<-|].
    + now rewrite lookup_alter_eq, Hnull.
    + now rewrite lookup_alter_ne.
Qed.

(** If the directory was reclaimed while the lower layer looked the name up,
    [tpt_lookup] fails with ENOENT: the vnode that was found is released, the
    lock, which is no longer shared, is moved from the lower directory to the
    reclaimed one, and nothing is returned. *)
Theorem tpt_lookup_doomed (w : world X) ap a dvp dv m ldvp ldv error lvp :
  lookup_pre w ap a dvp dv m ldvp ldv ->
  has (mnt_flag m) MNT_RDONLY && removes_entry (a_cnp a) = false ->
  ENOENT <> 0 -> ENOENT <> EJUSTRETURN -> error = 0 \/ error = EJUSTRETURN ->
  (forall w0, same_data w w0 -> exists w1, VOP_LOOKUP ldvp (a_cnp a) w0 = Ret (error, lvp) w1 /\
     VN_IS_DOOMED w1 dvp = true) ->
  exists w1, VN_IS_DOOMED w1 dvp = true /\ tpt_lookup ap w =
    (when (negb (lvp =? 0)) (vput lvp) ;;;
     VOP_UNLOCK ldvp ;;;
     vn_lock dvp (Z.lor LK_EXCLUSIVE LK_RETRY) ;;;
     vdrop ldvp ;;;
     ret ENOENT) w1.
Proof.
  intros Hpre Hro He0 Hej Herr Hlow.
  destruct (lookup_start _ _ _ _ _ _ _ _ Hpre Hro) as (w0 & S0 & ->).
  destruct (Hlow w0 S0) as (w1 & E1 & Hdoom). exists w1. split; [done|].
  erewrite bind_Ret by exact E1. cbv beta iota. unfold lookup_finish.
  assert (Eb : (error =? 0) || (error =? EJUSTRETURN) = true).
  { destruct Herr as [->| ->]; rewrite ?Z.eqb_refl; [done | apply orb_true_r]. }
  rewrite Eb. erewrite bind_Ret by reflexivity. rewrite Hdoom. unfold bind.
  destruct (when (negb (lvp =? 0)) (vput lvp) w1); [|done].
  destruct (VOP_UNLOCK ldvp _); [|done]. destruct (vn_lock dvp _ _); [|done]. unfold ret.
  destruct (vdrop ldvp _); [|done].
  rewrite (proj2 (Z.eqb_neq _ _) Hej). cbn [andb]. unfold lookup_result.
  rewrite (proj2 (Z.eqb_neq _ _) He0), (proj2 (Z.eqb_neq _ _) Hej). done.
Qed.

Context `{!StableHash X}.

(** The use count of [vp] in [w'] is [d] more than in [w]. *)
Definition use_changes (w w' : world X) (vp d : Z) : Prop :=
  exists v v', w_vnodes w !! vp = Some v /\ w_vnodes w' !! vp = Some v' /\
    v_usecount v' = v_usecount v + d.

Lemma use_changes_add w0 w w' vp q e d :
  use_changes w0 w vp e -> same_data (add_use q d w) w' ->
  use_changes w0 w' vp (e + if decide (q = vp) then d else 0).
Proof.
  intros (v & v1 & Hv & Hv1 & E) S. exists v. rewrite S. cbn. case_decide as Hq.
  - subst. rewrite lookup_alter_eq, Hv1. eexists. split; [done|]. split; [reflexivity | cbn; lia].
  - rewrite lookup_alter_ne by done. exists v1. split; [done|]. split; [done | lia].
Qed.

Lemma use_changes_vnodes w0 w w' vp e :
  use_changes w0 w vp e -> w_vnodes w' = w_vnodes w -> use_changes w0 w' vp e.
Proof. intros (v & v1 & Hv & Hv1 & E) Ev. exists v, v1. now rewrite Ev. Qed.

Lemma used_change w vp n : used w vp n -> use_changes w w vp 0.
Proof. intros (v & Hv & _). exists v, v. split; [done|]. split; [done | lia]. Qed.

(** A variable is stored. *)
Lemma assign_run w p old v :
  w_vars w !! p = Some old -> assign p v w = Ret tt (set_vars (<[p := v]> (w_vars w)) w).
Proof. intros Hp. exact (update_run _ _ _ (fun _ => v) old _ Hp). Qed.

Lemma set_vars_keeps w vars : cache_ok w -> keeps_cache w (set_vars vars w).
Proof. intros (Hn & _). do 3 (split; [done|]). split; [|done]. intros p v Hv. now exists v. Qed.

(** The lookup of ".": the directory is returned. *)
Lemma lookup_result_dot w ap a dvp dv mp lvp old :
  w_args w !! ap = Some a -> w_vars w !! a_vpp a = Some old -> lvp <> 0 ->
  w_vnodes w !! dvp = Some dv -> used w lvp 1 ->
  exists w', lookup_result ap dvp mp lvp lvp 0 w = Ret 0 w' /\
    same_data (set_vars (<[a_vpp a := dvp]> (w_vars w)) (add_use lvp (-1) (add_use dvp 1 w))) w'.
Proof.
  intros Ha Hold Hne Hdv (lv & Hlv & Hu). unfold lookup_result, args_at, VREF.
  rewrite (proj2 (Z.eqb_neq _ _) Hne), !Z.eqb_refl. cbn [negb andb orb]. read_bind.
  erewrite bind_Ret by (eapply assign_run; exact Hold).
  set (w1 := set_vars (<[a_vpp a := dvp]> (w_vars w)) w).
  destruct (vref_spec dvp w1 dv Hdv) as (w2 & E2 & S2). erewrite bind_Ret by exact E2.
  assert (Hlv2 : used w2 lvp 1).
  { rewrite S2. unfold used. cbn. destruct (decide (dvp = lvp)) as [->|].
    - rewrite lookup_alter_eq, Hlv. eexists. split; [reflexivity | cbn; lia].
    - rewrite lookup_alter_ne by done. now exists lv. }
  destruct (vrele_run w2 lvp 1 Hlv2 ltac:(lia)) as (w3 & E3 & S3). erewrite bind_Ret by exact E3.
  exists w3. split; [done|]. now rewrite S3, S2.
Qed.

(** The lookup of another vnode that the cache has. *)
Lemma lookup_result_hit w ap a dvp mp ldvp lvp vp old :
  w_args w !! ap = Some a -> w_vars w !! a_vpp a = Some old -> ldvp <> lvp ->
  cache_ok w -> used w lvp 1 -> alias w mp lvp = Some vp ->
  exists w', lookup_result ap dvp mp ldvp lvp 0 w = Ret 0 w' /\
    same_data (set_vars (<[a_vpp a := vp]> (w_vars w)) (add_use lvp (-1) (add_use vp 1 w))) w'.
Proof.
  intros Ha Hold Hne Hok (lv & Hlv & Hu) Hal. unfold lookup_result, args_at.
  assert ((lvp =? 0) = false) as ->.
  { apply Z.eqb_neq. intros ->. destruct Hok as [Hn _]. unfold NULLVP in Hn. congruence. }
  rewrite (proj2 (Z.eqb_neq _ _) Hne), Z.eqb_refl. cbn [negb andb orb]. read_bind.
  destruct (nodeget_hit w mp lvp lv vp Hok Hlv Hu Hal) as (w1 & E1 & S1 & _).
  erewrite bind_Ret by exact E1. cbv beta iota. rewrite Z.eqb_refl. cbn [when].
  assert (Hold1 : w_vars w1 !! a_vpp a = Some old) by now rewrite S1.
  erewrite bind_Ret by (eapply assign_run; exact Hold1). eexists. split; [reflexivity|].
  assert (Ev : w_vars w1 = w_vars w) by now rewrite S1. rewrite Ev, S1. done.
Qed.

(** What both cases do: the vnode that is returned has one more reference, the
    one of the lower layer has one less, and the cache is as it was. *)
Lemma lookup_result_mapped w ap a dvp dv mp ldvp lvp vp old :
  w_args w !! ap = Some a -> w_vars w !! a_vpp a = Some old -> cache_ok w ->
  w_vnodes w !! dvp = Some dv -> used w lvp 1 ->
  (if ldvp =? lvp then Some dvp else alias w mp lvp) = Some vp ->
  exists w', lookup_result ap dvp mp ldvp lvp 0 w = Ret 0 w' /\
    same_data (set_vars (<[a_vpp a := vp]> (w_vars w)) (add_use lvp (-1) (add_use vp 1 w))) w'.
Proof.
  intros Ha Hold Hok Hdv Hul Hvp. destruct (Z.eqb_spec ldvp lvp) as [->|Hnd].
  - injection Hvp as <-. apply (lookup_result_dot w ap a dvp dv _ lvp old Ha Hold); [|done|done].
    intros ->. destruct Hul as (? & Hx & _). destruct Hok as [Hn _]. unfold NULLVP in Hn. congruence.
  - exact (lookup_result_hit w ap a dvp _ ldvp lvp vp old Ha Hold Hnd Hok Hul Hvp).
Qed.

Lemma hand_over_keeps w w' vars vp lvp :
  cache_ok w -> same_data (set_vars vars (add_use lvp (-1) (add_use vp 1 w))) w' ->
  keeps_cache w w'.
Proof.
  intros Hok S. pose proof (add_use_keeps w vp 1 Hok) as Ka.
  pose proof (cache_ok_keeps _ _ Ka Hok) as Oka.
  pose proof (add_use_keeps _ lvp (-1) Oka) as Kb. pose proof (cache_ok_keeps _ _ Kb Oka) as Okb.
  exact (keeps_same_data _ _ _ Hok (keeps_cache_trans _ _ _ (keeps_cache_trans _ _ _ Ka Kb)
    (set_vars_keeps _ _ Okb)) S).
Qed.

Lemma hand_over_uses w0 w w' vars vp lvp q e :
  same_data (set_vars vars (add_use lvp (-1) (add_use vp 1 w))) w' -> use_changes w0 w q e ->
  use_changes w0 w' q
    (e + (if decide (vp = q) then 1 else 0) + (if decide (lvp = q) then -1 else 0)).
Proof.
  intros S Hq. pose proof (use_changes_add _ _ _ q vp e 1 Hq (same_data_refl _)) as H1.
  pose proof (use_changes_add _ _ _ q lvp _ (-1) H1 (same_data_refl _)) as H2.
  exact (use_changes_vnodes _ _ w' _ _ H2 ltac:(now rewrite S)).
Qed.

(** A vnode that stands for another one exists. *)
Lemma mapped_exists w (here : bool) dvp dv mp lvp vp :
  cache_ok w -> w_vnodes w !! dvp = Some dv ->
  (if here then Some dvp else alias w mp lvp) = Some vp -> exists v, w_vnodes w !! vp = Some v.
Proof.
  intros Hok Hdv Hvp. destruct here; [injection Hvp as <-; now exists dv|].
  destruct (proj1 (alias_entry _ _ _ _ Hok) Hvp) as (? & _ & x & u & _ & Hu & _). now exists u.
Qed.

(** C29: when the lower layer finds a vnode, [tpt_lookup] stores the tptfs vnode
    that stands for it: the directory itself for "." and otherwise the one of
    the cache.  That vnode has one more reference and the reference that the
    lower layer took is given back; the cache is as it was. *)
Theorem tpt_lookup_maps_up (w : world X) ap a dvp dv m ldvp ldv lvp vp old :
  lookup_pre w ap a dvp dv m ldvp ldv ->
  has (mnt_flag m) MNT_RDONLY && removes_entry (a_cnp a) = false -> EJUSTRETURN <> 0 ->
  lower_finds w ldvp (a_cnp a) dvp 0 lvp -> used w lvp 0 -> cache_ok w ->
  (if ldvp =? lvp then Some dvp else alias w (v_mount dv) lvp) = Some vp -> vp <> lvp ->
  w_vars w !! a_vpp a = Some old ->
  exists w', tpt_lookup ap w = Ret 0 w' /\ w_vars w' !! a_vpp a = Some vp /\
    use_changes w w' vp 1 /\ use_changes w w' lvp 0 /\
    cache_ok w' /\ forall mp l, alias w' mp l = alias w mp l.
Proof.
  intros Hpre Hro Hej Hf Hul Hok Hvp Hne Hold.
  destruct (lookup_run w ap a dvp dv m ldvp ldv 0 lvp Hpre Hro Hf) as (w1 & S1 & ->).
  rewrite (proj2 (Z.eqb_neq 0 EJUSTRETURN)) by congruence. cbn [andb].
  pose proof (add_use_keeps w lvp 1 Hok) as K0.
  pose proof (keeps_same_data _ _ _ Hok K0 S1) as K1. pose proof (cache_ok_keeps _ _ K1 Hok) as Hok1.
  assert (Ha1 : w_args w1 !! ap = Some a) by (rewrite S1; apply Hpre).
  assert (Hold1 : w_vars w1 !! a_vpp a = Some old) by now rewrite S1.
  assert (Hl1 : use_changes w w1 lvp 1).
  { pose proof (use_changes_add _ _ _ _ _ _ _ (used_change _ _ _ Hul) S1) as Hc.
    now rewrite decide_True in Hc. }
  assert (Hul1 : used w1 lvp 1).
  { destruct Hul as (u & Hu & ?). destruct Hl1 as (u' & u1 & Hu' & Hu1 & E). simplify_eq.
    exists u1. split; [done | lia]. }
  destruct (mapped_exists w _ dvp dv _ lvp vp Hok ltac:(apply Hpre) Hvp) as (u & Hu).
  assert (Hv1 : use_changes w w1 vp 0).
  { exists u, u. split; [done|]. split; [|lia]. rewrite S1. cbn. now rewrite lookup_alter_ne. }
  destruct (proj1 (proj2 (proj2 (proj2 K1))) dvp dv ltac:(apply Hpre)) as (dv1 & Hdv1 & _).
  destruct (lookup_result_mapped w1 ap a dvp dv1 (v_mount dv) ldvp lvp vp old Ha1 Hold1 Hok1 Hdv1 Hul1)
    as (w2 & E2 & S2).
  { now destruct (ldvp =? lvp); [|rewrite (alias_keeps _ _ _ _ K1 Hok)]. }
  exists w2. split; [done|]. pose proof (hand_over_keeps _ _ _ _ _ Hok1 S2) as K2.
  assert (Hc := fun q e => hand_over_uses w w1 w2 _ vp lvp q e S2).
  split; [rewrite S2; cbn; apply lookup_insert_eq|]. split; [|split; [|split]].
  - specialize (Hc vp 0 Hv1). now rewrite decide_True, decide_False in Hc.
  - specialize (Hc lvp 1 Hl1). now rewrite decide_False, decide_True in Hc.
  - exact (cache_ok_keeps _ _ K2 Hok1).
  - intros mp l. rewrite (alias_keeps _ _ _ _ K2 Hok1). now apply alias_keeps.
Qed.

End lookup.

(** ** The bypass *)

Section bypass.
  Context {X : Type} `{Headers} `{FreeBSD X} `{!Quiet X}.
  Implicit Types w : world X.

(** An argument that is passed down as it is, and one that is mapped. *)
Definition foreign (w : world X) (vp : Z) : Prop :=
  vp = NULLVP \/ exists v, w_vnodes w !! vp = Some v /\ v_op v <> tpt_vnodeops.

Definition ours (w : world X) (vp : Z) : Prop :=
  vp <> NULLVP /\ exists v, w_vnodes w !! vp = Some v /\ v_op v = tpt_vnodeops.

(** What the lower layer sees: [lowers w first offsets vns olds vns'] when the
    vnode-valued arguments [vns] at the [offsets] become [vns'], [olds] being
    the vnodes that were replaced.  The first argument is always mapped. *)
Inductive lowers (w : world X) :
    bool -> list string -> gmap string Z -> list (string * Z) -> gmap string Z -> Prop :=
  | lowers_nil first vns : lowers w first [] vns [] vns
  | lowers_keep name offsets vns vp olds vns' :
      vns !! name = Some vp -> foreign w vp ->
      lowers w false offsets vns olds vns' ->
      lowers w false (name :: offsets) vns ((name, NULLVP) :: olds) vns'
  | lowers_map first name offsets vns vp lowervp olds vns' :
      vns !! name = Some vp -> first = true \/ ours w vp -> vp <> NULLVP -> lower w vp lowervp ->
      lowers w false offsets (<[name := lowervp]> vns) olds vns' ->
      lowers w first (name :: offsets) vns ((name, vp) :: olds) vns'.

(** The arguments at [ap], all else being as in [w]. *)
Definition with_args (w : world X) (ap : Z) (a : vop_args) (vns : gmap string Z) : world X :=
  set_args (<[ap := args_set_vnodes vns a]> (w_args w)) w.

(** The operation releases none of its arguments. *)
Definition releases_none (reles : Z) : Prop :=
  forall k, has (Z.shiftr reles (Z.of_nat k)) VDESC_VP0_WILLRELE = false.

Lemma releases_none_now reles : releases_none reles -> has reles VDESC_VP0_WILLRELE = false.
Proof. intros Hr. specialize (Hr O). now rewrite Z.shiftr_0_r in Hr. Qed.

Lemma releases_none_next reles : releases_none reles -> releases_none (Z.shiftr reles 1).
Proof.
  intros Hr k. rewrite Z.shiftr_shiftr by lia. specialize (Hr (S k)).
  now replace (1 + Z.of_nat k) with (Z.of_nat (S k)) by lia.
Qed.

Lemma with_args_slot w ap a vns name vp w1 :
  same_data (with_args w ap a vns) w1 -> vns !! name = Some vp -> slot ap name w1 = Ret vp w1.
Proof.
  intros -> Hv. eapply slot_run; [apply lookup_insert_eq | exact Hv].
Qed.

Lemma with_args_set w ap a vns name vp w1 :
  same_data (with_args w ap a vns) w1 ->
  exists w2, set_slot ap name vp w1 = Ret tt w2 /\ same_data (with_args w ap a (<[name := vp]> vns)) w2.
Proof.
  intros ->. unfold set_slot, update_args. erewrite update_run by apply lookup_insert_eq.
  eexists. split; [reflexivity|]. unfold same_data, with_args, set_ext, set_args. cbn.
  now rewrite insert_insert_eq.
Qed.

(** The first loop. *)
Lemma map_vnodes_run w ap a offsets : forall i reles vns olds vns' w1,
  lowers w (bool_decide (i = O)) offsets vns olds vns' -> releases_none reles ->
  same_data (with_args w ap a vns) w1 ->
  exists w2, map_vnodes ap i reles offsets w1 = Ret olds w2 /\
    same_data (with_args w ap a vns') w2.
Proof.
  induction offsets as [|name offsets IH]; intros i reles vns olds vns' w1 Hl Hr S1.
  { inversion Hl; subst. now exists w1. }
  cbn [map_vnodes]. inversion Hl as [|? ? ? vp olds' ? Hn Hfor Hl' | ? ? ? ? vp low olds' ? Hn Hf Hne Hlow Hl']; subst.
  - erewrite bind_Ret by (eapply with_args_slot; eassumption).
    case_bool_decide as Hi; [discriminate|]. rewrite bool_decide_eq_true_2 by done.
    assert (Ef : (if vp =? NULLVP return M (world X) bool then ret true
      else v <- vnode_at vp ;; ret (negb (bool_decide (v_op v = tpt_vnodeops)))) w1 = Ret true w1).
    { destruct Hfor as [->|(v & Hv & Hop)]; [done|]. destruct (vp =? NULLVP); [done|].
      unfold vnode_at. erewrite bind_Ret by (apply deref_run; rewrite S1; exact Hv).
      now rewrite bool_decide_eq_false_2. }
    erewrite bind_Ret by exact Ef. erewrite bind_Ret by reflexivity.
    destruct (IH (S i) (Z.shiftr reles 1) vns olds' vns' w1) as (w2 & E2 & S2);
      [exact Hl' | now apply releases_none_next | done |].
    erewrite bind_Ret by exact E2. now exists w2.
  - erewrite bind_Ret by (eapply with_args_slot; eassumption).
    assert (Ef : (if bool_decide (i <> O) return M (world X) bool then
      if vp =? NULLVP then ret true
      else v <- vnode_at vp ;; ret (negb (bool_decide (v_op v = tpt_vnodeops))) else ret false) w1 =
      Ret false w1).
    { destruct Hf as [Hi|[_ (v & Hv & Hop)]].
      - apply bool_decide_eq_true in Hi. now rewrite bool_decide_eq_false_2 by tauto.
      - destruct (bool_decide (i <> O)); [|done]. rewrite (proj2 (Z.eqb_neq _ _) Hne).
        unfold vnode_at. erewrite bind_Ret by (apply deref_run; rewrite S1; exact Hv).
        now rewrite bool_decide_eq_true_2. }
    erewrite bind_Ret by exact Ef.
    destruct (lower_run w1 vp low) as (w2 & E2 & S2); [eapply lower_same; [exact S1 | exact Hlow]|].
    destruct (with_args_set w ap a vns name low w2) as (w3 & E3 & S3);
      [exact (same_data_trans _ _ _ S1 S2)|].
    erewrite bind_Ret.
    2: { erewrite bind_Ret by exact E2. erewrite bind_Ret by exact E3.
         rewrite (releases_none_now _ Hr). cbn [when]. erewrite bind_Ret by reflexivity. reflexivity. }
    destruct (IH (S i) (Z.shiftr reles 1) (<[name := low]> vns) olds' vns' w3) as (w4 & E4 & S4);
      [exact Hl' | now apply releases_none_next | done |].
    erewrite bind_Ret by exact E4. now exists w4.
Qed.

(** The restoration of the arguments, as a function. *)
Definition restored (olds : list (string * Z)) (vns : gmap string Z) : gmap string Z :=
  foldl (fun m p => if p.2 =? NULLVP then m else <[p.1 := p.2]> m) vns olds.

Lemma lowers_names w first offsets vns olds vns' :
  lowers w first offsets vns olds vns' -> olds.*1 = offsets.
Proof. induction 1; cbn; congruence. Qed.

Lemma lowers_other w first offsets vns olds vns' name :
  lowers w first offsets vns olds vns' -> name ∉ offsets -> vns' !! name = vns !! name.
Proof.
  induction 1 as [|? ? ? ? ? ? ? ? ? IH|? ? ? ? ? ? ? ? ? ? ? ? ? IH]; intros Hn; [done| |];
    apply not_elem_of_cons in Hn as [Hn1 Hn2].
  - now apply IH.
  - rewrite IH by done. now rewrite lookup_insert_ne.
Qed.

Lemma restored_insert olds name vp vns :
  name ∉ olds.*1 -> restored olds (<[name := vp]> vns) = <[name := vp]> (restored olds vns).
Proof.
  revert vns. induction olds as [|[n o] olds IH]; intros vns Hn; [done|].
  cbn in Hn. apply not_elem_of_cons in Hn as [Hn1 Hn2]. unfold restored in *. cbn.
  destruct (o =? NULLVP); [now apply IH|]. rewrite <- IH by done. f_equal.
  rewrite insert_insert_ne by done. done.
Qed.

(** Restoring undoes the mapping. *)
Lemma restored_lowers w first offsets vns olds vns' :
  NoDup offsets -> lowers w first offsets vns olds vns' -> restored olds vns' = vns.
Proof.
  intros Hnd Hl. induction Hl as [|? ? ? ? ? ? ? ? Hl IH|? ? ? ? vp ? ? ? Hn ? Hne ? Hl IH]; [done| |];
    inversion Hnd as [|? ? Hni Hnd']; subst.
  - cbn. now apply IH.
  - cbn. rewrite (proj2 (Z.eqb_neq _ _) Hne). change (restored olds (<[name := vp]> vns') = vns).
    rewrite restored_insert by (now rewrite (lowers_names _ _ _ _ _ _ Hl)).
    rewrite IH by done. rewrite insert_insert_eq. now apply insert_id.
Qed.

(** In [w], each replaced vnode still shares its lock with the lower vnode
    that stands in its slot. *)
Definition still_shared (w : world X) (olds : list (string * Z)) (vns : gmap string Z) : Prop :=
  forall name vp, (name, vp) ∈ olds -> vp <> NULLVP ->
    exists lowervp v lv, vns !! name = Some lowervp /\ w_vnodes w !! vp = Some v /\
      w_vnodes w !! lowervp = Some lv /\ v_vnlock v = v_vnlock lv.

(** The second loop. *)
Lemma restore_vnodes_run w ap a olds : forall reles vns,
  NoDup olds.*1 -> releases_none reles -> still_shared w olds vns ->
  restore_vnodes ap reles olds (with_args w ap a vns) = Ret tt (with_args w ap a (restored olds vns)).
Proof.
  induction olds as [|[name vp] olds IH]; intros reles vns Hnd Hr Hsh; [done|].
  cbn in Hnd. inversion Hnd as [|? ? Hni Hnd']; subst. cbn [restore_vnodes].
  unfold restored. cbn [foldl fst snd].
  destruct (Z.eqb_spec vp NULLVP) as [->|Hne]; cbn [negb when].
  { erewrite bind_Ret by reflexivity. apply IH; [done | now apply releases_none_next |].
    intros n q Hin. apply Hsh. now right. }
  destruct (Hsh name vp) as (low & v & lv & Hlow & Hv & Hlv & Hlk); [now left | done |].
  erewrite bind_Ret.
  2: { erewrite bind_Ret by (eapply with_args_slot; [apply same_data_refl | exact Hlow]).
       assert (Em : (if negb (low =? NULLVP) return M (world X) bool then
            islocked <- gets (fun w => VOP_ISLOCKED w low) ;;
            if islocked =? LK_EXCLUSIVE then
              ov <- vnode_at vp ;; lv <- vnode_at low ;;
              ret (negb (bool_decide (v_vnlock ov = v_vnlock lv)))
            else ret false
          else ret false) (with_args w ap a vns) = Ret false (with_args w ap a vns)).
       { destruct (negb (low =? NULLVP)); [|done]. erewrite bind_Ret by reflexivity.
         destruct (_ =? LK_EXCLUSIVE); [|done]. unfold vnode_at.
         erewrite bind_Ret by (apply deref_run; exact Hv).
         erewrite bind_Ret by (apply deref_run; exact Hlv). now rewrite bool_decide_eq_true_2. }
       erewrite bind_Ret by exact Em. cbn [when]. erewrite bind_Ret by reflexivity.
       unfold set_slot, update_args. erewrite bind_Ret by (apply update_run, lookup_insert_eq).
       rewrite (releases_none_now _ Hr). reflexivity. }
  replace (set_args _ _) with (with_args w ap a (<[name := vp]> vns)).
  2: { unfold with_args, set_args. cbn. now rewrite insert_insert_eq. }
  apply IH; [done | now apply releases_none_next |]. intros n q Hin Hq.
  destruct (Hsh n q) as (low' & v' & lv' & Hl' & Hrest); [now right | done |].
  exists low', v', lv'. rewrite lookup_insert_ne; [done|].
  intros ->. apply Hni, list_elem_of_fmap. now exists (n, q).
Qed.

(** What the arguments of the operation must be. *)
Record bypass_pre (w : world X) (ap : Z) (a : vop_args) (name0 : string) (vp0 : Z)
    (olds : list (string * Z)) (vns : gmap string Z) : Prop := {
  bp_args : w_args w !! ap = Some a;
  bp_offsets : exists rest, vdesc_vp_offsets (a_desc a) = name0 :: rest;
  bp_max : (length (vdesc_vp_offsets (a_desc a)) <= VDESC_MAX_VPS)%nat;
  bp_nodup : NoDup (vdesc_vp_offsets (a_desc a));
  bp_first : a_vnodes a !! name0 = Some vp0;
  bp_lowers : lowers w true (vdesc_vp_offsets (a_desc a)) (a_vnodes a) olds vns;
  bp_flags : releases_none (vdesc_flags (a_desc a));
}.

(** [tpt_bypass] up to the call of the lower layer. *)
Lemma bypass_start w ap a name0 vp0 olds vns :
  bypass_pre w ap a name0 vp0 olds vns ->
  exists w1, same_data (with_args w ap a vns) w1 /\
    tpt_bypass ap w =
      (error <- VCALL ap ;;
       restore_vnodes ap (vdesc_flags (a_desc a)) olds ;;;
       map_vpp ap (a_desc a) olds error) w1.
Proof.
  intros [Ha (rest & Eo) Hmax Hnd Hfirst Hl Hfl]. unfold tpt_bypass, args_at. read_bind. cbv zeta.
  erewrite bind_Ret by reflexivity.
  assert (Hp : exists w1, when (negb (tpt_bug_bypass w =? 0))
    (printf ("tpt_bypass: " ++ vdesc_name (a_desc a)) []) w = Ret tt w1 /\ same_data w w1).
  { destruct (tpt_bug_bypass w =? 0); cbn [negb when]; [now exists w; split; [|apply same_data_refl]|].
    destruct (quiet_run (printf ("tpt_bypass: " ++ vdesc_name (a_desc a)) []) w) as ([] & w1 & E & S).
    now exists w1. }
  destruct Hp as (w1 & E1 & S1). erewrite bind_Ret by exact E1.
  rewrite bool_decide_eq_false_2 by (rewrite Eo; discriminate). rewrite andb_false_r.
  erewrite bind_Ret by reflexivity. rewrite firstn_all2 by exact Hmax.
  assert (Hid : same_data (with_args w ap a (a_vnodes a)) w1).
  { assert (with_args w ap a (a_vnodes a) = w) as ->; [|exact S1].
    unfold with_args. rewrite insert_id; [now destruct w|]. rewrite Ha. now destruct a. }
  destruct (map_vnodes_run w ap a _ O (vdesc_flags (a_desc a)) _ olds vns w1 Hl Hfl Hid) as (w2 & E2 & S2).
  erewrite bind_Ret by exact E2. exists w2. split; [done|].
  assert (Ec : forall k : Z -> M (world X) Z, bind (call_lower ap (a_desc a) olds) k w2 = bind (VCALL ap) k w2).
  { intros k. unfold bind. replace (call_lower ap (a_desc a) olds w2) with (VCALL ap w2); [done|].
    rewrite Eo in Hl, Hnd. inversion Hnd as [|? ? Hni Hnd']; subst.
    inversion Hl as [| |? ? ? ? vp low olds' ? Hn _ _ Hlow Hl']; subst. unfold call_lower.
    erewrite bind_Ret.
    2: { eapply with_args_slot; [exact S2|]. rewrite (lowers_other _ _ _ _ _ _ _ Hl' Hni).
         apply lookup_insert_eq. }
    destruct Hlow as (? & ? & ? & _ & _ & _ & Hnz & _). now rewrite (proj2 (Z.eqb_neq _ _) Hnz). }
  apply Ec.
Qed.

(** C1: [tpt_bypass] performs the operation on the lower layer and gives the
    illusion of call by value.  The lower layer is called once, with the
    arguments mapped (the first one always, another one if it is a tptfs vnode)
    and nothing else changed; if it returns, leaving its argument structure and
    the sharing of locks alone, the arguments are exactly the caller's again and
    its answer is returned, a vnode that it gives back having been replaced by
    the tptfs vnode that stands for it. *)
Theorem tpt_bypass_roundtrip (w : world X) ap a name0 vp0 v0 olds vns :
  bypass_pre w ap a name0 vp0 olds vns ->
  exists w1, same_data (with_args w ap a vns) w1 /\
  forall error w2, VCALL ap w1 = Ret error w2 ->
    w_args w2 !! ap = Some (args_set_vnodes vns a) -> still_shared w2 olds vns ->
    w_vnodes w2 !! vp0 = Some v0 ->
    tpt_bypass ap w =
      (if vdesc_vpp_offset (a_desc a) && (error =? 0) && negb (a_vpp a =? 0) then
         lvp <- var_at (a_vpp a) ;;
         let* (error, vp) := tpt_nodeget (v_mount v0) lvp in
         assign (a_vpp a) vp ;;;
         ret error
       else ret error) (set_args (<[ap := a]> (w_args w2)) w2).
Proof.
  intros Hpre. destruct (bypass_start _ _ _ _ _ _ _ Hpre) as (w1 & S1 & ->).
  destruct Hpre as [Ha (rest & Eo) Hmax Hnd Hfirst Hl Hfl].
  exists w1. split; [done|]. intros error w2 E2 Ha2 Hsh Hv0. erewrite bind_Ret by exact E2.
  assert (Ew : with_args w2 ap a vns = w2).
  { unfold with_args. rewrite insert_id by done. now destruct w2. }
  assert (Hnd' : NoDup olds.*1) by now rewrite (lowers_names _ _ _ _ _ _ Hl).
  pose proof (restore_vnodes_run w2 ap a olds _ vns Hnd' Hfl Hsh) as Er. rewrite Ew in Er.
  erewrite bind_Ret by exact Er. rewrite (restored_lowers _ _ _ _ _ _ Hnd Hl).
  assert (Eb : with_args w2 ap a (a_vnodes a) = set_args (<[ap := a]> (w_args w2)) w2).
  { unfold with_args. now destruct a. }
  rewrite Eb. unfold map_vpp, args_at. set (w3 := set_args (<[ap := a]> (w_args w2)) w2).
  destruct (vdesc_vpp_offset (a_desc a) && (error =? 0)); [|done]. cbn [andb].
  erewrite bind_Ret by (apply deref_run, lookup_insert_eq).
  destruct (negb (a_vpp a =? 0)); [|done].
  rewrite Eo in Hl. inversion Hl as [| |? ? ? ? vp low olds' ? Hn _ _ Hlow Hl']; subst.
  assert (vp = vp0) as -> by congruence. erewrite bind_Ret by reflexivity.
  now erewrite bind_Ret by (apply mount_of_run; exact Hv0).
Qed.

Context `{!References X}.

(** The loops for one argument that is released. *)
Lemma map_one_run w ap a name vp lowervp reles :
  w_args w !! ap = Some a -> a_vnodes a !! name = Some vp -> lower w vp lowervp ->
  has reles VDESC_VP0_WILLRELE = true ->
  exists w1, map_vnodes ap 0 reles [name] w = Ret [(name, vp)] w1 /\
    same_data (add_use lowervp 1 (with_args w ap a (<[name := lowervp]> (a_vnodes a)))) w1.
Proof.
  intros Ha Hn Hl Hfl. pose proof Hl as (v & x & lv & _ & _ & _ & _ & Hlv & _).
  assert (Hid : same_data (with_args w ap a (a_vnodes a)) w).
  { assert (with_args w ap a (a_vnodes a) = w) as ->; [|apply same_data_refl].
    unfold with_args. rewrite insert_id; [now destruct w|]. rewrite Ha. now destruct a. }
  cbn [map_vnodes]. erewrite bind_Ret by (eapply slot_run; eassumption).
  change (bool_decide (0%nat <> 0%nat)) with false. cbv iota. erewrite bind_Ret by reflexivity. cbv iota.
  destruct (lower_run w vp lowervp Hl) as (w1 & E1 & S1).
  destruct (with_args_set w ap a _ name lowervp w1 (same_data_trans _ _ _ Hid S1)) as (w2 & E2 & S2).
  destruct (vref_spec lowervp w2 lv) as (w3 & E3 & S3); [now rewrite S2|].
  erewrite bind_Ret.
  2: { erewrite bind_Ret by exact E1. erewrite bind_Ret by exact E2. rewrite Hfl. cbn [when].
       erewrite bind_Ret.
       2: { erewrite bind_Ret by (eapply with_args_slot; [exact S2 | apply lookup_insert_eq]). exact E3. }
       reflexivity. }
  erewrite bind_Ret by reflexivity. exists w3. split; [done|]. now rewrite S3, S2.
Qed.

Lemma restore_one_run w ap a name vp vns reles :
  w_args w !! ap = Some (args_set_vnodes vns a) -> still_shared w [(name, vp)] vns ->
  vp <> NULLVP -> has reles VDESC_VP0_WILLRELE = true -> used w vp 1 ->
  exists w1, restore_vnodes ap reles [(name, vp)] w = Ret tt w1 /\
    same_data (add_use vp (-1) (with_args w ap a (<[name := vp]> vns))) w1.
Proof.
  intros Ha Hsh Hne Hfl Hu. cbn [restore_vnodes].
  destruct (Hsh name vp) as (low & v & lv & Hlow & Hv & Hlv & Hlk); [now left | done |].
  rewrite (proj2 (Z.eqb_neq _ _) Hne). cbn [negb when].
  destruct (vrele_run (with_args w ap a (<[name := vp]> vns)) vp 1 Hu ltac:(lia)) as (w2 & E2 & S2).
  exists w2. split; [|done]. erewrite bind_Ret; [reflexivity|].
  erewrite bind_Ret by (eapply slot_run; [exact Ha | exact Hlow]).
  assert (Em : (if negb (low =? NULLVP) return M (world X) bool then
       islocked <- gets (fun w => VOP_ISLOCKED w low) ;;
       if islocked =? LK_EXCLUSIVE then
         ov <- vnode_at vp ;; lv <- vnode_at low ;;
         ret (negb (bool_decide (v_vnlock ov = v_vnlock lv)))
       else ret false
     else ret false) w = Ret false w).
  { destruct (negb (low =? NULLVP)); [|done]. erewrite bind_Ret by reflexivity.
    destruct (_ =? LK_EXCLUSIVE); [|done]. unfold vnode_at. read_bind. read_bind.
    now rewrite bool_decide_eq_true_2. }
  erewrite bind_Ret by exact Em. cbn [when]. erewrite bind_Ret by reflexivity.
  unfold set_slot, update_args. erewrite bind_Ret by (apply update_run; exact Ha).
  rewrite Hfl. cbn [when]. fold (with_args w ap (args_set_vnodes vns a) (<[name := vp]> vns)).
  change (args_set_vnodes (<[name := vp]> (a_vnodes (args_set_vnodes vns a))) (args_set_vnodes vns a))
    with (args_set_vnodes (<[name := vp]> vns) a).
  fold (with_args w ap a (<[name := vp]> vns)).
  erewrite bind_Ret by (eapply with_args_slot; [apply same_data_refl | apply lookup_insert_eq]).
  exact E2.
Qed.

(** When the operation releases its argument (a [WILLRELE] flag), the lower
    layer is given a reference of its own to consume, and afterwards the
    caller's reference to the tptfs vnode is released: both counts end as if the
    operation had been performed on the tptfs vnode. *)
Theorem tpt_bypass_releases (w : world X) ap a name vp lowervp :
  w_args w !! ap = Some a -> vdesc_vp_offsets (a_desc a) = [name] -> (1 <= VDESC_MAX_VPS)%nat ->
  a_vnodes a !! name = Some vp -> vp <> NULLVP -> lower w vp lowervp ->
  has (vdesc_flags (a_desc a)) VDESC_VP0_WILLRELE = true -> vdesc_vpp_offset (a_desc a) = false ->
  tpt_bug_bypass w = 0 ->
  exists w1, same_data (add_use lowervp 1 (with_args w ap a (<[name := lowervp]> (a_vnodes a)))) w1 /\
  forall error w2, VCALL ap w1 = Ret error w2 ->
    w_args w2 !! ap = Some (args_set_vnodes (<[name := lowervp]> (a_vnodes a)) a) ->
    still_shared w2 [(name, vp)] (<[name := lowervp]> (a_vnodes a)) -> used w2 vp 1 ->
    exists w3, tpt_bypass ap w = Ret error w3 /\
      same_data (add_use vp (-1) (set_args (<[ap := a]> (w_args w2)) w2)) w3.
Proof.
  intros Ha Eo Hmax Hn Hne Hl Hfl Hvpp Hbug.
  destruct (map_one_run w ap a name vp lowervp _ Ha Hn Hl Hfl) as (w1 & E1 & S1).
  exists w1. split; [done|]. intros error w2 E2 Ha2 Hsh Hu.
  unfold tpt_bypass, args_at. read_bind. cbv zeta. erewrite bind_Ret by reflexivity.
  rewrite Hbug. cbn [Z.eqb negb when]. erewrite bind_Ret by reflexivity.
  rewrite Eo, bool_decide_eq_false_2, andb_false_r by discriminate. erewrite bind_Ret by reflexivity.
  rewrite firstn_all2 by exact Hmax. erewrite bind_Ret by exact E1.
  destruct Hl as (_ & _ & _ & _ & _ & _ & Hlz & _).
  erewrite bind_Ret.
  2: { unfold call_lower. erewrite bind_Ret.
       2: { eapply slot_run; [rewrite S1; apply lookup_insert_eq | apply lookup_insert_eq]. }
       rewrite (proj2 (Z.eqb_neq _ _) Hlz). exact E2. }
  destruct (restore_one_run w2 ap a name vp _ _ Ha2 Hsh Hne Hfl Hu) as (w3 & E3 & S3).
  erewrite bind_Ret by exact E3. unfold map_vpp. rewrite Hvpp. exists w3. split; [done|].
  rewrite insert_insert_eq, insert_id in S3 by done. unfold with_args in S3.
  now destruct a.
Qed.

End bypass.

(** ** Examples *)

Section examples.
  #[local] Existing Instance demo_kernel.

Definition one_vp (vp : Z) : gmap string Z := {[ "a_vp"%string := vp ]}.
Definition vp_desc (flags : Z) : vnodeop_desc := VnodeopDesc "op" flags ["a_vp"%string] false.
Definition vp_args (vp : Z) : vop_args := demo_args (vp_desc 0) (one_vp vp).
Definition demo_mount (mflag : Z) : mount := Mount tpt_vfsops mflag 0 200 77 2 [].

(** The example with an operation on the file 12 of a tptfs mounted with
    [mflag]. *)
Definition demo_op (mflag : Z) (a : vop_args) : world sim := demo_world demo_table mflag a no_attrs.

Lemma demo_on_vnode mflag a name :
  a_vnodes a !! name = Some 12 ->
  on_vnode (demo_op mflag a) 300 a name 12 (demo_upper 22 2 VREG 0) (demo_mount mflag).
Proof. intros E. split; [reflexivity | exact E | reflexivity | reflexivity]. Qed.

Lemma demo_lower_12 tbl mflag a va : lower (demo_world tbl mflag a va) 12 2.
Proof.
  exists (demo_upper 22 2 VREG 0), (TptNode 2 12 0), (demo_lower 2 VREG 0).
  do 3 (split; [reflexivity|]). split; [discriminate|]. split; [reflexivity | discriminate].
Qed.

Lemma demo_lower_11 tbl mflag a va : lower (demo_world tbl mflag a va) 11 1.
Proof.
  exists (demo_upper 21 1 VDIR 1), (TptNode 1 11 0), (demo_lower 1 VDIR 1).
  do 3 (split; [reflexivity|]). split; [discriminate|]. split; [reflexivity | discriminate].
Qed.

Lemma demo_stacked_12 tbl mflag a va :
  stacked (demo_world tbl mflag a va) 12 (demo_upper 22 2 VREG 0) (TptNode 2 12 0)
    (demo_lower 2 VREG 0) (demo_mount mflag) (TptMount 50 1 0 0).
Proof. split; [reflexivity | reflexivity | reflexivity | discriminate | discriminate | reflexivity | reflexivity]. Qed.


Definition write_args : vop_args :=
  VopArgs (vp_desc 0) (one_vp 12) 400 500 600 401 (Componentname 0 0) VWRITE 0 0 false [].

Lemma tpt_access_readonly_witness :
  tpt_access 300 (demo_op 1 write_args) = Ret EROFS (demo_op 1 write_args) /\
  tpt_accessx 300 (demo_op 1 write_args) = Ret EROFS (demo_op 1 write_args).
Proof.
  exact (tpt_access_readonly (H := sim_headers) (demo_op 1 write_args) 300 _ 12 _ _
    (demo_on_vnode 1 write_args "a_vp" eq_refl)).
Defined.

(** The state that a run ends in. *)
Definition final {S A} (r : outcome S A) : S := match r with Ret _ s => s | Stop _ s => s end.

Definition after_bypass : world sim := final (tpt_bypass 300 (demo_op 0 (vp_args 12))).

Lemma tpt_getattr_fsid_witness :
  tpt_getattr 300 (demo_op 0 (vp_args 12)) =
    Ret 0 (set_vattrs (<[500 := vattr_set_fsid 77 no_attrs]> (w_vattrs after_bypass)) after_bypass).
Proof.
  refine (proj1 (tpt_getattr_fsid (H := sim_headers) (demo_op 0 (vp_args 12)) after_bypass 300 (vp_args 12) 12
    (demo_upper 22 2 VREG 0) (demo_mount 0) no_attrs 0 0 _ _ _ _)).
  - vm_compute. reflexivity.
  - split; vm_compute; reflexivity.
  - vm_compute. reflexivity.
  - vm_compute. reflexivity.
Defined.

Definition inc_args : vop_args :=
  VopArgs (vp_desc 0) (one_vp 12) 400 500 600 401 (Componentname 0 0) 0 0 3 false [].

Lemma tpt_add_writecount_in_step_witness :
  exists w' v', tpt_add_writecount 300 (demo_op 0 inc_args) = Ret 0 w' /\
    w_vnodes w' !! 12 = Some v' /\ v_writecount v' = 0 + 3.
Proof.
  apply (tpt_add_writecount_in_step (H := sim_headers) (demo_op 0 inc_args) 300 inc_args 12 (demo_upper 22 2 VREG 0)
    (demo_mount 0) 2 0 (demo_on_vnode 0 inc_args "a_vp" eq_refl) (demo_lower_12 _ _ _ _)).
  - discriminate.
  - split; [discriminate | reflexivity].
  - intros w1 S1. eexists. split; [reflexivity|]. cbn. rewrite S1. split; reflexivity.
Defined.

Definition rename_args : vop_args :=
  demo_args (vp_desc 0) {[ "a_tdvp"%string := 11; "a_fvp"%string := 2; "a_fdvp"%string := 1;
    "a_tvp"%string := 0 ]}.

(** Many references on every vnode. *)
Definition demo_rename : world sim :=
  set_vnodes (vn_set_usecount 9 <$> w_vnodes (demo_op 0 rename_args)) (demo_op 0 rename_args).

Lemma tpt_rename_cross_device_witness :
  exists w', tpt_rename 300 demo_rename = Ret EXDEV w' /\
    same_data (add_use 2 (-1) (add_use 1 (-1) (add_use 11 (-1) demo_rename))) w'.
Proof.
  assert (Hu : forall vp, vp = 1 \/ vp = 2 \/ vp = 11 -> used demo_rename vp 4).
  { intros vp [->|[->| ->]]; (eexists; split; [reflexivity | reflexivity]). }
  apply (tpt_rename_cross_device (H := sim_headers) demo_rename 300 rename_args 11 2 1 0
    (vn_set_usecount 9 (demo_lower 2 VREG 0)) (vn_set_usecount 9 (demo_upper 21 1 VDIR 1)) eq_refl eq_refl eq_refl
    eq_refl eq_refl); [auto | auto | auto | intros []; reflexivity | reflexivity | reflexivity |].
  discriminate.
Defined.

Lemma demo_reclaim_pre :
  reclaim_pre (demo_op 0 (vp_args 12)) 300 (vp_args 12) 22 100 2 12 (demo_upper 22 2 VREG 0)
    (demo_lower 2 VREG 0) (TptNode 2 12 0).
Proof.
  split; [apply demo_cache_ok | | reflexivity.. | discriminate | discriminate].
  split; [vm_compute; now left|].
  exists (TptNode 2 12 0), (demo_upper 22 2 VREG 0). do 5 (split; [reflexivity|]). reflexivity.
Qed.

Lemma tpt_reclaim_removes_witness :
  exists w', tpt_reclaim 300 (demo_op 0 (vp_args 12)) = Ret 0 w' /\ cache_ok w' /\
    alias w' 100 2 = None.
Proof.
  destruct (tpt_reclaim_removes (H := sim_headers) _ _ _ _ _ _ _ _ _ _ demo_reclaim_pre) as (w' & v' & lv' & E & Hok & Ha & _);
    [discriminate|].
  exists w'. split; [exact E|]. split; [exact Hok|]. rewrite Ha. now rewrite decide_True.
Defined.

Lemma tpt_inactive_recycles_witness :
  exists w1, same_data (demo_op 0 (vp_args 12)) w1 /\
    tpt_need_inactive 300 (demo_op 0 (vp_args 12)) = Ret 1 w1.
Proof.
  exact (proj1 (tpt_inactive_recycles (H := sim_headers) (demo_op 0 (vp_args 12)) 300 (vp_args 12) 12 _ _ _ _ _
    eq_refl eq_refl (demo_stacked_12 _ _ _ _))).
Defined.

Lemma tpt_lock_follows_reclaim_witness :
  exists w2, w_vnodes w2 !! 12 = Some (demo_upper 22 2 VREG 0) /\
    tpt_lock 300 (demo_op 0 (vp_args 12)) = (vdrop 2 ;;; ret 0) w2.
Proof.
  exact (tpt_lock_follows_reclaim (H := sim_headers) (demo_op 0 (vp_args 12)) 300 (vp_args 12) 12
    (demo_upper 22 2 VREG 0) 2 (demo_upper 22 2 VREG 0) eq_refl eq_refl eq_refl
    ltac:(discriminate) (demo_lower_12 _ _ _ _)
    ltac:(intros w1 S1; eexists; split; [reflexivity|]; cbn; rewrite S1; split; reflexivity)).
Defined.

(** The file 12 after its reclamation. *)
Definition demo_reclaimed : world sim :=
  set_vnodes (<[12 := reclaimed 12 (demo_upper 22 2 VREG 0)]> (w_vnodes (demo_op 0 (vp_args 12))))
    (demo_op 0 (vp_args 12)).

Lemma reclaimed_vnode_is_safe_witness :
  tpt_unlock 300 demo_reclaimed = vop_stdunlock 300 demo_reclaimed /\
  exists w1, same_data demo_reclaimed w1 /\ tpt_read_pgcache 300 demo_reclaimed = Ret EJUSTRETURN w1.
Proof.
  destruct (reclaimed_vnode_is_safe (H := sim_headers) demo_reclaimed 300 (vp_args 12) 12
    (reclaimed 12 (demo_upper 22 2 VREG 0)) 0 eq_refl eq_refl eq_refl eq_refl eq_refl)
    as (_ & E & _ & E').
  exact (conj E E').
Defined.

End examples.

(** ** Examples of lookups *)

(** The kernel whose lower layer answers every lookup with [error] and [lvp]. *)
Definition find_kernel (error lvp : Z) : FreeBSD sim := sim_kernel (fun _ _ => (error, lvp)) (fun _ => 0).

Section lookup_examples.

Definition dir_args (nameiop flags : Z) : vop_args :=
  VopArgs (VnodeopDesc "lookup" 0 ["a_dvp"%string] true) {[ "a_dvp"%string := 11 ]} 400 500 600 401
    (Componentname flags nameiop) 0 0 0 false [].

Lemma demo_lookup_pre mflag nameiop flags :
  has flags ISDOTDOT = false ->
  lookup_pre (demo_op mflag (dir_args nameiop flags)) 300 (dir_args nameiop flags) 11
    (demo_upper 21 1 VDIR 1) (demo_mount mflag) 1 (demo_lower 1 VDIR 1).
Proof.
  intros Hf. split; [split; reflexivity | apply demo_lower_11 | reflexivity | done].
Qed.

Lemma find_finds mflag a error lvp dvp :
  VN_IS_DOOMED (FreeBSD := find_kernel error lvp) (add_use lvp 1 (demo_op mflag a)) dvp = false ->
  lower_finds (H0 := find_kernel error lvp) (demo_op mflag a) 1 (a_cnp a) dvp error lvp.
Proof.
  intros Hd w1 S1. eexists. split; [reflexivity|]. rewrite S1. split; [done | exact Hd].
Qed.

(** The lower layer finds the file 2; the caller gets 12. *)
Lemma tpt_lookup_maps_up_witness :
  exists w', tpt_lookup (H0 := find_kernel 0 2) 300 (demo_op 0 (dir_args 0 0)) = Ret 0 w' /\
    w_vars w' !! 400 = Some 12 /\ use_changes (demo_op 0 (dir_args 0 0)) w' 12 1 /\
    use_changes (demo_op 0 (dir_args 0 0)) w' 2 0.
Proof.
  assert (Hu : used (demo_op 0 (dir_args 0 0)) 2 0) by (eexists; split; reflexivity).
  destruct (tpt_lookup_maps_up (H := sim_headers) (H0 := find_kernel 0 2) (demo_op 0 (dir_args 0 0))
    300 (dir_args 0 0) 11 (demo_upper 21 1 VDIR 1) (demo_mount 0) 1 (demo_lower 1 VDIR 1) 2 12 0
    (demo_lookup_pre 0 0 0 eq_refl) eq_refl ltac:(discriminate)
    (find_finds 0 (dir_args 0 0) 0 2 11 eq_refl) Hu (demo_cache_ok _ _ _) eq_refl ltac:(discriminate)
    eq_refl) as (w' & E & Hv & H1 & H2 & _).
  exists w'. exact (conj E (conj Hv (conj H1 H2))).
Defined.

(** The last component of a path, to be removed or created. *)
Definition remove_args : vop_args := dir_args 2 0x8000.
Definition create_args : vop_args := dir_args 1 0x8000.

(** Removing and creating on a read-only mount. *)
Lemma tpt_lookup_readonly_witness :
  tpt_lookup (H0 := find_kernel (-2) 0) 300 (demo_op 1 remove_args) =
    Ret EROFS (demo_op 1 remove_args) /\
  exists w', tpt_lookup (H0 := find_kernel (-2) 0) 300 (demo_op 1 create_args) =
    Ret EROFS w'.
Proof.
  split.
  - exact (proj1 (tpt_lookup_readonly (H := sim_headers) (H0 := find_kernel (-2) 0)
      (demo_op 1 remove_args) 300 _ 11 _ _ 1 _
      (demo_lookup_pre 1 2 0x8000 eq_refl) eq_refl) eq_refl).
  - destruct (proj2 (tpt_lookup_readonly (H := sim_headers) (H0 := find_kernel (-2) 0)
      (demo_op 1 create_args) 300 _ 11 _ _ 1 _
      (demo_lookup_pre 1 1 0x8000 eq_refl) eq_refl) eq_refl eq_refl eq_refl
      (find_finds 1 create_args (-2) 0 11 eq_refl)) as (w' & E & _).
    exists w'. exact E.
Defined.

(** The directory 11 is dead when the lower layer returns. *)
Definition demo_dead : world sim :=
  set_vnodes (<[11 := vn_set_op dead_vnodeops (demo_upper 21 1 VDIR 1)]>
    (w_vnodes (demo_op 0 (dir_args 0 0)))) (demo_op 0 (dir_args 0 0)).

Lemma tpt_lookup_doomed_witness :
  exists w1, VN_IS_DOOMED (FreeBSD := find_kernel 0 2) w1 11 = true /\
    tpt_lookup (H0 := find_kernel 0 2) 300 demo_dead =
      (when (negb (2 =? 0)) (vput (FreeBSD := find_kernel 0 2) 2) ;;;
       VOP_UNLOCK (FreeBSD := find_kernel 0 2) 1 ;;;
       vn_lock (FreeBSD := find_kernel 0 2) 11 (Z.lor LK_EXCLUSIVE LK_RETRY) ;;;
       vdrop (FreeBSD := find_kernel 0 2) 1 ;;;
       ret ENOENT) w1.
Proof.
  apply (tpt_lookup_doomed (H := sim_headers) (H0 := find_kernel 0 2) demo_dead 300 (dir_args 0 0) 11
    (vn_set_op dead_vnodeops (demo_upper 21 1 VDIR 1)) (demo_mount 0) 1 (demo_lower 1 VDIR 1) 0 2).
  - split; [split; reflexivity | | reflexivity | done].
    exists (vn_set_op dead_vnodeops (demo_upper 21 1 VDIR 1)), (TptNode 1 11 0), (demo_lower 1 VDIR 1).
    do 3 (split; [reflexivity|]). split; [discriminate|]. split; [reflexivity | discriminate].
  - reflexivity.
  - discriminate.
  - discriminate.
  - now left.
  - intros w0 S0. eexists. split; [reflexivity|]. rewrite S0. reflexivity.
Defined.

End lookup_examples.

(** ** Examples of the bypass *)

Section bypass_examples.
  #[local] Existing Instance demo_kernel.

(** An operation on the directory 11, the file 12 and a lower vnode 3. *)
Definition three_desc : vnodeop_desc :=
  VnodeopDesc "op" 0 ["a_dvp"%string; "a_vp"%string; "a_tvp"%string] false.
Definition three_args : vop_args :=
  demo_args three_desc {[ "a_dvp"%string := 11; "a_vp"%string := 12; "a_tvp"%string := 3 ]}.
Definition three_olds : list (string * Z) :=
  [("a_dvp"%string, 11); ("a_vp"%string, 12); ("a_tvp"%string, NULLVP)].
Definition three_lowered : gmap string Z :=
  <["a_vp"%string := 2]> (<["a_dvp"%string := 1]> (a_vnodes three_args)).

Lemma three_lowers w : w = demo_op 0 three_args ->
  lowers w true (vdesc_vp_offsets three_desc) (a_vnodes three_args) three_olds three_lowered.
Proof.
  intros ->. apply (lowers_map _ _ _ _ _ 11 1); [reflexivity | now left | discriminate | apply demo_lower_11 |].
  apply (lowers_map _ _ _ _ _ 12 2); [reflexivity | | discriminate | apply demo_lower_12 |].
  { right. split; [discriminate|]. eexists. split; reflexivity. }
  apply (lowers_keep _ _ _ _ 3); [reflexivity | | constructor].
  right. eexists. split; [reflexivity | discriminate].
Qed.

Lemma has_zero k f : has (Z.shiftr 0 k) f = false.
Proof. now rewrite Z.shiftr_0_l. Qed.

Lemma three_pre :
  bypass_pre (demo_op 0 three_args) 300 three_args "a_dvp" 11 three_olds three_lowered.
Proof.
  split; [reflexivity | | cbn; lia | | reflexivity | now apply three_lowers | intros k; apply has_zero].
  - eexists. reflexivity.
  - apply NoDup_ListNoDup. repeat constructor; cbn; intuition congruence.
Qed.

Lemma tpt_bypass_roundtrip_witness :
  exists w1 w2, w_args w1 !! 300 = Some (args_set_vnodes three_lowered three_args) /\
    VCALL 300 w1 = Ret 0 w2 /\
    tpt_bypass 300 (demo_op 0 three_args) = Ret 0 (set_args (<[300 := three_args]> (w_args w2)) w2).
Proof.
  destruct (tpt_bypass_roundtrip (H := sim_headers) (demo_op 0 three_args) 300 three_args "a_dvp" 11
    (demo_upper 21 1 VDIR 1) three_olds three_lowered three_pre) as (w1 & S1 & Hk).
  eexists w1, _. split; [rewrite S1; reflexivity|]. split; [reflexivity|].
  apply (Hk 0 _ eq_refl).
  - cbn. rewrite S1. reflexivity.
  - intros name vp Hin Hne. cbn [w_vnodes set_ext]. rewrite S1. unfold three_olds in Hin.
    apply list_elem_of_In in Hin. destruct Hin as [[= <- <-]|[[= <- <-]|[[= <- <-]|[]]]]; [| |done].
    + exists 1, (demo_upper 21 1 VDIR 1), (demo_lower 1 VDIR 1). repeat split; reflexivity.
    + exists 2, (demo_upper 22 2 VREG 0), (demo_lower 2 VREG 0). repeat split; reflexivity.
  - cbn. rewrite S1. reflexivity.
Defined.

Definition release_args : vop_args := demo_args (vp_desc 1) (one_vp 12).

Lemma tpt_bypass_releases_witness :
  exists w2 w3, tpt_bypass 300 (demo_op 0 release_args) = Ret 0 w3 /\
    same_data (add_use 12 (-1) (set_args (<[300 := release_args]> (w_args w2)) w2)) w3.
Proof.
  destruct (tpt_bypass_releases (H := sim_headers) (demo_op 0 release_args) 300 release_args "a_vp" 12 2
    eq_refl eq_refl ltac:(cbn; lia) eq_refl ltac:(discriminate) (demo_lower_12 _ _ _ _) eq_refl eq_refl
    eq_refl) as (w1 & S1 & Hk).
  eexists. apply (Hk 0 _ eq_refl).
  - cbn. rewrite S1. reflexivity.
  - intros name vp Hin _. apply list_elem_of_singleton in Hin as [= -> ->].
    cbn [w_vnodes set_ext]. rewrite S1.
    exists 2, (demo_upper 22 2 VREG 0), (vn_set_usecount (3 + 1) (demo_lower 2 VREG 0)).
    repeat split; reflexivity.
  - cbn [w_vnodes set_ext]. exists (demo_upper 22 2 VREG 0). cbn. rewrite S1. split; reflexivity.
Defined.

End bypass_examples.
