(* ===== verification/TptPaths.v ===== *)
(** * TptPaths: the operations of tpt_vnops.c that take part in path lookups

    [tpt_open], [tpt_vput_pair] and [tpt_vptocnp]: which references they take,
    pass to the lower layer and give back, also when a vnode was reclaimed in
    between; and [tpt_nodeget] for a lower vnode with a shared lock, as
    [tpt_vptocnp] calls it. *)

From stdpp Require Import base numbers list strings gmap.
From S2P Require Import Prelude FreeBSD Sim TptSubr TptVnops.
From Stdlib Require Import ZArith Lia.
Open Scope Z_scope.

(** ** Reference counts *)

Section uses.
  Context {X : Type} `{Headers} `{FreeBSD X}.
  Implicit Types w : world X.

Lemma add_use_cancel w p d : add_use p (- d) (add_use p d w) = w.
Proof.
  unfold add_use, set_vnodes. cbn. destruct w; cbn. f_equal. rewrite alter_alter_eq.
  apply map_eq. intros i. destruct (decide (p = i)) as [->|Hne].
  - rewrite lookup_alter_eq. destruct (w_vnodes !! i) as [v|]; [|done]. destruct v. cbn. unfold vn_set_usecount. cbn. do 2 f_equal. lia.
  - now rewrite lookup_alter_ne.
Qed.

Lemma add_use_comm w p q d e : add_use p d (add_use q e w) = add_use q e (add_use p d w).
Proof.
  unfold add_use, set_vnodes. cbn. f_equal. destruct (decide (p = q)) as [->|Hne].
  - rewrite !alter_alter_eq. apply alter_ext. intros v _. destruct v. unfold vn_set_usecount. cbn. f_equal. lia.
  - now apply alter_alter_ne.
Qed.

Lemma add_use_same w w' p d : same_data w w' -> same_data (add_use p d w) (add_use p d w').
Proof. intros ->. done. Qed.

(** A reference that is taken and given back. *)
Lemma same_data_cancel w w1 w2 p :
  same_data (add_use p 1 w) w1 -> same_data (add_use p (-1) w1) w2 -> same_data w w2.
Proof.
  intros S1 S2. pose proof (add_use_same _ _ p (-1) S1) as S3. unfold same_data in S3.
  pose proof (same_data_trans _ _ _ S3 S2) as S4. rewrite <- (add_use_cancel w p 1). exact S4.
Qed.

Lemma used_same w w' vp n : same_data w w' -> used w vp n -> used w' vp n.
Proof. intros ->. done. Qed.

(** What [add_use] makes of a vnode [v] at [p]. *)
Definition bump (q d p : Z) (v : vnode) : vnode :=
  if decide (q = p) then vn_set_usecount (v_usecount v + d) v else v.

Lemma add_use_lookup w q d p v :
  w_vnodes w !! p = Some v -> w_vnodes (add_use q d w) !! p = Some (bump q d p v).
Proof.
  intros Hv. unfold bump. cbn. case_decide as E.
  - subst. now rewrite lookup_alter_eq, Hv.
  - now rewrite lookup_alter_ne.
Qed.

Lemma bump_fields q d p v :
  v_data (bump q d p v) = v_data v /\ v_mount (bump q d p v) = v_mount v /\
  v_vnlock (bump q d p v) = v_vnlock v /\ (0 <= d -> v_usecount v <= v_usecount (bump q d p v)).
Proof. unfold bump. case_decide; cbn; repeat split; lia. Qed.

Lemma used_more w q d vp n : used w vp n -> 0 <= d -> used (add_use q d w) vp n.
Proof.
  intros (v & Hv & Hn) Hd. exists (bump q d vp v). split; [now apply add_use_lookup|].
  destruct (bump_fields q d vp v) as (_ & _ & _ & Hu). specialize (Hu Hd). lia.
Qed.

Lemma used_again w vp d n : used w vp n -> used (add_use vp d w) vp (n + d).
Proof.
  intros (v & Hv & Hn). eexists. split; [apply add_use_lookup; exact Hv|].
  unfold bump. rewrite decide_True by done. cbn. lia.
Qed.

Lemma lower_add_use w q d vp lowervp :
  lower w vp lowervp -> 0 <= d -> lower (add_use q d w) vp lowervp.
Proof.
  intros (v & x & lv & Hv & Hx & Hl & Hne & Hlv & Hu) Hd.
  exists (bump q d vp v), x, (bump q d lowervp lv).
  destruct (bump_fields q d vp v) as (-> & _). destruct (bump_fields q d lowervp lv) as (_ & _ & _ & Hb).
  specialize (Hb Hd). repeat (split; [first [now apply add_use_lookup | done]|]). lia.
Qed.

Lemma lower_used w vp lowervp : lower w vp lowervp -> used w lowervp 0.
Proof. intros (v & x & lv & _ & _ & _ & _ & Hlv & Hu). exists lv. split; [done | lia]. Qed.

Lemma used_lower w xp vp mp lowervp :
  cache_ok w -> entry w xp mp lowervp vp -> used w lowervp 0 -> lower w vp lowervp.
Proof.
  intros [Hn _] (_ & x & v & Hx & Hv & Hl & _ & _ & Hd) (lv & Hlv & Hu). exists v, x, lv.
  rewrite Hd. split; [done|]. split; [done|]. split; [done|].
  split; [intros ->; congruence|]. split; [done | lia].
Qed.

End uses.

(** ** tpt_open *)

Section open.
  Context {X : Type} `{Headers} `{FreeBSD X} `{!Quiet X}.
  Implicit Types w : world X.

(** The reads of pages from the cache are allowed on a tptfs vnode when they
    are on the lower one. *)
Definition pgread (w : world X) (vp : Z) : bool := has (vn_irflag_read w vp) VIRF_PGREAD.

(** [tpt_open] opens the lower vnode; if that succeeds, the tptfs vnode uses
    the VM object that the lower vnode has by then, which open may have
    created, and is marked for reads from the page cache if the lower one is and
    it was not; if the open fails, nothing else happens. *)
Theorem tpt_open_shares_object (w w0 : world X) ap a vp v lowervp lv e :
  w_args w !! ap = Some a -> a_vnodes a !! "a_vp" = Some vp -> lower w vp lowervp ->
  (forall w1, same_data w w1 -> exists w2, tpt_bypass ap w1 = Ret e w2 /\ same_data w0 w2) ->
  w_vnodes w0 !! vp = Some v -> w_vnodes w0 !! lowervp = Some lv ->
  (forall w3, pgread w3 lowervp = true -> v_object lv <> 0) ->
  exists w2, same_data w0 w2 /\ tpt_open ap w =
    if e =? 0 then
      let w3 := set_vnodes (<[vp := vn_set_object (v_object lv) v]> (w_vnodes w2)) w2 in
      (when (pgread w3 lowervp && negb (pgread w3 vp)) (vn_irflag_set_cond vp VIRF_PGREAD) ;;;
       ret 0) w3
    else Ret e w2.
Proof.
  intros Ha Hs Hl Hb Hv0 Hlv0 Hobj. unfold tpt_open.
  erewrite bind_Ret by (eapply slot_run; eassumption).
  destruct (lower_run w vp lowervp Hl) as (w1 & E1 & S1). erewrite bind_Ret by exact E1.
  destruct (Hb w1 S1) as (w2 & E2 & S2). exists w2. split; [exact S2|].
  assert (Hv : w_vnodes w2 !! vp = Some v) by now rewrite S2.
  assert (Hlv : w_vnodes w2 !! lowervp = Some lv) by now rewrite S2.
  erewrite bind_Ret by exact E2.
  destruct (Z.eqb_spec e 0) as [->|He]; cbn [when]; [|done]. cbv zeta.
  set (w3 := set_vnodes _ w2). unfold vnode_at.
  assert (Hv3 : w_vnodes w3 !! vp = Some (vn_set_object (v_object lv) v)) by apply lookup_insert_eq.
  unfold bind at 1. erewrite bind_Ret by (apply deref_run; exact Hlv).
  erewrite bind_Ret by (unfold update_vnode; apply update_run; exact Hv). fold w3.
  erewrite bind_Ret by reflexivity. fold (pgread w3 lowervp).
  destruct (pgread w3 lowervp) eqn:Ep; cbn [when andb]; [|done].
  erewrite bind_Ret.
  2: { apply KASSERT_ok. read_bind. cbn. unfold ret. f_equal.
       now rewrite (proj2 (Z.eqb_neq _ _) (Hobj _ Ep)). }
  erewrite bind_Ret by reflexivity. fold (pgread w3 vp). unfold bind.
  now destruct (when (negb (pgread w3 vp)) _ w3).
Qed.

(** [share_object], which [tpt_nodeget] runs on a new vnode: when the pages of the
    lower vnode may be read from the cache, the new vnode gets the lower one's VM
    object and the same mark, and otherwise neither. *)
Theorem share_object_shares (w : world X) vp v lowervp lv :
  w_vnodes w !! vp = Some v -> w_vnodes w !! lowervp = Some lv -> v_object v = 0 ->
  v_object lv <> 0 -> pgread w vp = false ->
  share_object vp lowervp w =
    if pgread w lowervp
    then vn_irflag_set_cond vp VIRF_PGREAD
      (set_vnodes (<[vp := vn_set_object (v_object lv) v]> (w_vnodes w)) w)
    else Ret tt w.
Proof.
  intros Hv Hlv Hnew Hobj Hflag. unfold share_object, vnode_at.
  erewrite bind_Ret by reflexivity. fold (pgread w lowervp). destruct (pgread w lowervp); [|done]. cbn [when].
  erewrite bind_Ret.
  2: { apply KASSERT_ok. erewrite bind_Ret by (apply deref_run; exact Hlv). unfold ret. f_equal.
       now rewrite (proj2 (Z.eqb_neq _ _) Hobj). }
  erewrite bind_Ret by reflexivity. fold (pgread w vp). rewrite Hflag. cbn [negb].
  erewrite bind_Ret by (apply deref_run; exact Hv). rewrite Hnew. cbn [Z.eqb].
  erewrite bind_Ret; [reflexivity|]. erewrite bind_Ret by (apply deref_run; exact Hlv).
  unfold update_vnode. apply update_run. exact Hv.
Qed.

End open.

(** ** tpt_vput_pair *)

Section vput_pair.
  Context {X : Type} `{Headers} `{FreeBSD X} `{!Quiet X} `{!References X} `{!StableHash X}.
  Implicit Types w : world X.

(** The lower layer gives back the references to [ldvp] and, when it unlocks
    it, to [lvp]; afterwards all is as in [w]. *)
Definition lower_puts_pair (w : world X) (ldvp lvp : Z) (unlock : bool) (res : Z) : Prop :=
  forall w1, same_data (if unlock then add_use lvp 1 (add_use ldvp 1 w) else add_use ldvp 1 w) w1 ->
    exists w2, VOP_VPUT_PAIR ldvp lvp unlock w1 = Ret (res, lvp) w2 /\ same_data w w2.

(** The directory [dvp] of the operation. *)
Record pair_dir (w : world X) (ap : Z) (a : vop_args) (dvp ldvp : Z) : Prop := {
  pd_args : w_args w !! ap = Some a;
  pd_slot : a_vnodes a !! "a_dvp" = Some dvp;
  pd_lower : lower w dvp ldvp;
  pd_used : used w dvp 1;
}.

(** The vnode [vp] that the caller's variable holds. *)
Record pair_vp (w : world X) (a : vop_args) (dvp vp : Z) (v : vnode) (lvp : Z) : Prop := {
  pv_vpp : a_vpp a <> 0;
  pv_var : w_vars w !! a_vpp a = Some vp;
  pv_null : vp <> NULLVP;
  pv_vnode : w_vnodes w !! vp = Some v;
  pv_lower : lower w vp lvp;
  pv_used : used w vp 1;
  pv_dvp : dvp <> vp;
}.

(** Up to the call of the lower layer. *)
Lemma vput_pair_start w ap a dvp ldvp vp v lvp :
  pair_dir w ap a dvp ldvp -> pair_vp w a dvp vp v lvp ->
  exists w1, same_data (if a_unlock_vp a then add_use lvp 1 (add_use ldvp 1 w) else add_use ldvp 1 w) w1 /\
    tpt_vput_pair ap w =
      (let* (res, lvp) := VOP_VPUT_PAIR ldvp lvp (a_unlock_vp a) in
       vput_pair_result ap (a_vpp a) vp (v_mount v) lvp ;;; vrele dvp ;;; ret res) w1.
Proof.
  intros [Ha Hs Hl Hud] [Hvpp Hvar Hnull Hv Hlv Huv _]. unfold tpt_vput_pair, args_at, var_at.
  erewrite bind_Ret by (eapply slot_run; eassumption).
  destruct (lower_run w dvp ldvp Hl) as (w1 & E1 & S1). erewrite bind_Ret by exact E1.
  destruct (lower_used w1 dvp ldvp (lower_same _ _ _ _ S1 Hl)) as (ld & Hld & _).
  destruct (vref_spec ldvp w1 ld Hld) as (w2 & E2 & S2'). erewrite bind_Ret by exact E2.
  assert (S2 : same_data (add_use ldvp 1 w) w2) by (rewrite S2', S1; done).
  assert (Ha2 : w_args w2 !! ap = Some a) by now rewrite S2. read_bind. cbv zeta.
  rewrite (proj2 (Z.eqb_neq _ _) Hvpp). cbn [negb].
  assert (Hvar2 : w_vars w2 !! a_vpp a = Some vp) by now rewrite S2. read_bind.
  rewrite (proj2 (Z.eqb_neq _ _) Hnull). cbn [negb when].
  destruct (quiet_run (vhold vp) w2) as ([] & w3 & E3 & S3').
  pose proof (same_data_trans _ _ _ S2 S3') as S3.
  assert (Hv3 : w_vnodes w3 !! vp = Some (bump ldvp 1 vp v)).
  { rewrite S3. exact (add_use_lookup w ldvp 1 vp v Hv). }
  assert (Hl3 : lower w3 vp lvp).
  { eapply lower_same; [exact S3|]. apply lower_add_use; [done | lia]. }
  destruct (lower_run w3 vp lvp Hl3) as (w4 & E4 & S4'). pose proof (same_data_trans _ _ _ S3 S4') as S4.
  assert (H5 : exists w5, when (a_unlock_vp a) (vref lvp) w4 = Ret tt w5 /\ same_data
    (if a_unlock_vp a then add_use lvp 1 (add_use ldvp 1 w) else add_use ldvp 1 w) w5).
  { destruct (a_unlock_vp a); cbn [when]; [|now exists w4].
    destruct (lower_used w4 vp lvp (lower_same _ _ _ _ S4' Hl3)) as (lv & Hlv4 & _).
    destruct (vref_spec lvp w4 lv Hlv4) as (w5 & E5 & S5). exists w5. split; [done|].
    now rewrite S5, S4. }
  destruct H5 as (w5 & E5 & S5). exists w5. split; [exact S5|].
  erewrite bind_Ret.
  2: { erewrite bind_Ret by exact E3. erewrite bind_Ret by (eapply mount_of_run; exact Hv3).
       erewrite bind_Ret by exact E4. erewrite bind_Ret by exact E5. reflexivity. }
  cbv beta iota. destruct (bump_fields ldvp 1 vp v) as (_ & -> & _). reflexivity.
Qed.

(** The end, when the vnode is not replaced. *)
Lemma vput_pair_result_run w ap a vp v mp lvp lv :
  w_args w !! ap = Some a -> w_vnodes w !! vp = Some v -> 1 < v_usecount v ->
  w_vnodes w !! lvp = Some lv -> (a_unlock_vp a = false -> v_vnlock v = v_vnlock lv) ->
  exists w', vput_pair_result ap (a_vpp a) vp mp lvp w = Ret tt w' /\
    same_data (if a_unlock_vp a then add_use vp (-1) w else w) w'.
Proof.
  intros Ha Hv Hu Hlv Hlock. unfold vput_pair_result, args_at, vnode_at. read_bind.
  erewrite bind_Ret.
  2: { destruct (a_unlock_vp a) eqn:E; cbn [negb]; [reflexivity|].
       read_bind. read_bind. rewrite (Hlock eq_refl), bool_decide_true by done. reflexivity. }
  replace (if a_unlock_vp a then _ else _) with false by now destruct (a_unlock_vp a).
  cbn [when]. erewrite bind_Ret by reflexivity. read_bind.
  assert (H1 : exists w1 v1, when (a_unlock_vp a) (vrele vp) w = Ret tt w1 /\
    same_data (if a_unlock_vp a then add_use vp (-1) w else w) w1 /\
    w_vnodes w1 !! vp = Some v1 /\ 0 < v_usecount v1).
  { destruct (a_unlock_vp a); cbn [when].
    - destruct (vrele_spec vp w v Hv Hu) as (w1 & E1 & S1).
      exists w1, (bump vp (-1) vp v). split; [done|]. split; [done|]. split.
      + rewrite S1. exact (add_use_lookup w vp (-1) vp v Hv).
      + unfold bump. rewrite decide_True by done. cbn. lia.
    - exists w, v. split; [done|]. split; [apply same_data_refl|]. split; [done | lia]. }
  destruct H1 as (w1 & v1 & E1 & S1 & Hv1 & Hu1). erewrite bind_Ret by exact E1.
  destruct (vdrop_spec vp w1 v1 Hv1 Hu1) as (w2 & E2 & S2). exists w2.
  split; [done | exact (same_data_trans _ _ _ S1 S2)].
Qed.

Lemma used_other w p d vp n : used w vp n -> p <> vp -> used (add_use p d w) vp n.
Proof.
  intros (v & Hv & Hn) Hne. exists (bump p d vp v). split; [now apply add_use_lookup|].
  unfold bump. now rewrite decide_False.
Qed.

(** [tpt_vput_pair] gives back the caller's reference to the directory, and the
    one to the other vnode exactly when it is to be unlocked too; every
    reference that it takes on a lower vnode for the lower layer to consume is
    consumed, so that no other count changes, nor the caller's variable. *)
Theorem tpt_vput_pair_balanced (w : world X) ap a dvp ldvp vp v lvp lv res :
  pair_dir w ap a dvp ldvp -> pair_vp w a dvp vp v lvp -> w_vnodes w !! lvp = Some lv ->
  (a_unlock_vp a = false -> v_vnlock v = v_vnlock lv) ->
  lower_puts_pair w ldvp lvp (a_unlock_vp a) res ->
  exists w', tpt_vput_pair ap w = Ret res w' /\
    same_data (add_use dvp (-1) (if a_unlock_vp a then add_use vp (-1) w else w)) w'.
Proof.
  intros Hd Hp Hlv Hlock Hlow.
  destruct (vput_pair_start _ _ _ _ _ _ _ _ Hd Hp) as (w1 & S1 & ->).
  destruct (Hlow w1 S1) as (w2 & E2 & S2). erewrite bind_Ret by exact E2. cbv beta iota.
  destruct Hd as [Ha _ _ Hud]. destruct Hp as [_ _ _ Hv _ Huv Hne].
  destruct (vput_pair_result_run w2 ap a vp v (v_mount v) lvp lv) as (w3 & E3 & S3).
  { now rewrite S2. }
  { now rewrite S2. }
  { destruct Huv as (u & Hu & ?). congruence. }
  { now rewrite S2. }
  { exact Hlock. }
  erewrite bind_Ret by exact E3.
  set (r := if a_unlock_vp a then add_use vp (-1) w else w).
  assert (Sr : same_data r w3) by (unfold r; destruct (a_unlock_vp a); rewrite S3, S2; done).
  assert (Hur : used w3 dvp 1).
  { eapply used_same; [exact Sr|]. unfold r. destruct (a_unlock_vp a); [|done]. now apply used_other. }
  destruct (vrele_run w3 dvp 1 Hur ltac:(lia)) as (w4 & E4 & S4). erewrite bind_Ret by exact E4.
  exists w4. split; [done|]. now rewrite S4, Sr.
Qed.

(** Without a second vnode, only the reference to the directory goes. *)
Theorem tpt_vput_pair_directory (w : world X) ap a dvp ldvp res :
  pair_dir w ap a dvp ldvp -> a_vpp a = 0 \/ w_vars w !! a_vpp a = Some NULLVP ->
  (forall w1, same_data (add_use ldvp 1 w) w1 -> exists w2,
     VOP_VPUT_PAIR ldvp NULLVP (a_unlock_vp a) w1 = Ret (res, NULLVP) w2 /\ same_data w w2) ->
  exists w', tpt_vput_pair ap w = Ret res w' /\ same_data (add_use dvp (-1) w) w'.
Proof.
  intros [Ha Hs Hl Hud] Hnone Hlow. unfold tpt_vput_pair, args_at, var_at.
  erewrite bind_Ret by (eapply slot_run; eassumption).
  destruct (lower_run w dvp ldvp Hl) as (w1 & E1 & S1). erewrite bind_Ret by exact E1.
  destruct (lower_used w1 dvp ldvp (lower_same _ _ _ _ S1 Hl)) as (ld & Hld & _).
  destruct (vref_spec ldvp w1 ld Hld) as (w2 & E2 & S2'). erewrite bind_Ret by exact E2.
  assert (S2 : same_data (add_use ldvp 1 w) w2) by (rewrite S2', S1; done).
  assert (Ha2 : w_args w2 !! ap = Some a) by now rewrite S2. read_bind. cbv zeta.
  assert (Ev : (if negb (a_vpp a =? 0) then deref w_vars (a_vpp a) else ret NULLVP) w2 = Ret NULLVP w2).
  { destruct Hnone as [->|Hn]; [done|]. destruct (negb (a_vpp a =? 0)); [|done].
    apply deref_run. now rewrite S2. }
  erewrite bind_Ret by exact Ev. cbn [NULLVP Z.eqb negb]. erewrite bind_Ret by reflexivity.
  cbv beta iota. destruct (Hlow w2 S2) as (w3 & E3 & S3). erewrite bind_Ret by exact E3.
  cbv beta iota. cbn [when]. erewrite bind_Ret by reflexivity.
  destruct (vrele_run w3 dvp 1) as (w4 & E4 & S4); [now apply (used_same w) | lia |].
  erewrite bind_Ret by exact E4. exists w4. split; [done|]. now rewrite S4, S3.
Qed.

(** The end, when the vnode is replaced: what it leaves. *)
Definition replaced (w : world X) (vpp vp lvp' vp' : Z) : world X :=
  set_vars (<[vpp := vp']> (w_vars w)) (add_use vp (-1) (add_use lvp' (-1) (add_use vp' 1 w))).

Lemma vput_pair_result_replaces w ap a vp v mp lvp' lv vp' old :
  cache_ok w -> w_args w !! ap = Some a -> a_unlock_vp a = false -> w_vars w !! a_vpp a = Some old ->
  w_vnodes w !! vp = Some v -> w_vnodes w !! lvp' = Some lv -> v_vnlock v <> v_vnlock lv ->
  1 < v_usecount v -> 1 < v_usecount lv -> alias w mp lvp' = Some vp' -> vp' <> vp -> lvp' <> vp ->
  exists w', vput_pair_result ap (a_vpp a) vp mp lvp' w = Ret tt w' /\
    same_data (replaced w (a_vpp a) vp lvp' vp') w'.
Proof.
  intros Hok Ha Hun Hold Hv Hlv Hlock Hu Hul Hal Hne1 Hne2.
  unfold vput_pair_result, args_at, vnode_at. read_bind. rewrite Hun. cbn [negb].
  erewrite bind_Ret.
  2: { read_bind. read_bind. rewrite bool_decide_false by done. reflexivity. }
  cbn [negb when].
  destruct (nodeget_hit w mp lvp' lv vp' Hok Hlv Hul Hal) as (w1 & E1 & S1 & _).
  assert (Hv1 : w_vnodes w1 !! vp = Some v).
  { rewrite S1. cbn. now rewrite !lookup_alter_ne. }
  destruct (vput_spec vp w1 v Hv1 Hu) as (w2 & E2 & S2'). 
  assert (S2 : same_data (add_use vp (-1) (add_use lvp' (-1) (add_use vp' 1 w))) w2) by now rewrite S2', S1.
  assert (Hold2 : w_vars w2 !! a_vpp a = Some old) by now rewrite S2.
  erewrite bind_Ret.
  2: { erewrite bind_Ret by exact E1. cbv beta iota. cbn [Z.eqb when].
       erewrite bind_Ret by exact E2. eapply assign_run. exact Hold2. }
  set (w3 := set_vars _ w2).
  assert (S3 : same_data (replaced w (a_vpp a) vp lvp' vp') w3) by (unfold w3; now rewrite S2).
  assert (Ha3 : w_args w3 !! ap = Some a) by now rewrite S3.
  read_bind. rewrite Hun. cbn [when]. erewrite bind_Ret by reflexivity.
  destruct (vdrop_spec vp w3 (vn_set_usecount (v_usecount v + -1) v)) as (w4 & E4 & S4).
  { rewrite S3. cbn. now rewrite lookup_alter_eq, !lookup_alter_ne, Hv by done. }
  { cbn. lia. }
  exists w4. split; [exact E4 | exact (same_data_trans _ _ _ S3 S4)].
Qed.

Lemma replaced_keeps w vpp vp lvp' vp' :
  cache_ok w -> keeps_cache w (replaced w vpp vp lvp' vp').
Proof.
  intros Hok. pose proof (add_use_keeps w vp' 1 Hok) as K1. pose proof (cache_ok_keeps _ _ K1 Hok) as O1.
  pose proof (add_use_keeps _ lvp' (-1) O1) as K2. pose proof (cache_ok_keeps _ _ K2 O1) as O2.
  pose proof (add_use_keeps _ vp (-1) O2) as K3. pose proof (cache_ok_keeps _ _ K3 O2) as O3.
  exact (keeps_cache_trans _ _ _ (keeps_cache_trans _ _ _ (keeps_cache_trans _ _ _ K1 K2) K3)
    (set_vars_keeps _ _ O3)).
Qed.

(** The counts in the end, [dvp] being released too. *)
Lemma replaced_uses w w' vpp dvp vp lvp' vp' q u :
  same_data (add_use dvp (-1) (replaced w vpp vp lvp' vp')) w' -> w_vnodes w !! q = Some u ->
  use_changes w w' q
    ((if decide (vp' = q) then 1 else 0) + (if decide (lvp' = q) then -1 else 0) +
     (if decide (vp = q) then -1 else 0) + (if decide (dvp = q) then -1 else 0)).
Proof.
  intros S Hq. assert (H0q : use_changes w w q 0) by (exists u, u; split; [done | split; [done | lia]]).
  pose proof (use_changes_add _ _ _ q vp' _ 1 H0q (same_data_refl _)) as H1q.
  pose proof (use_changes_add _ _ _ q lvp' _ (-1) H1q (same_data_refl _)) as H2q.
  pose proof (use_changes_add _ _ _ q vp _ (-1) H2q (same_data_refl _)) as H3q.
  pose proof (use_changes_vnodes _ _ (replaced w vpp vp lvp' vp') _ _ H3q eq_refl) as H4q.
  exact (use_changes_add _ _ _ q dvp _ (-1) H4q S).
Qed.

(** C32: while the lower layer had the directory unlocked, the vnode [vp] was
    reclaimed, so that its lock is no longer the one of the lower vnode, and the
    lower vnode has got another tptfs vnode: [tpt_vput_pair] puts that one,
    referenced, in the caller's variable, and the caller's reference to [vp] is
    given back. *)
Theorem tpt_vput_pair_replaces (w w0 : world X) ap a dvp ldvp vp v lvp res v2 lvp' lv2 vp' :
  pair_dir w ap a dvp ldvp -> pair_vp w a dvp vp v lvp -> a_unlock_vp a = false ->
  (forall w1, same_data (add_use ldvp 1 w) w1 -> exists w2,
     VOP_VPUT_PAIR ldvp lvp false w1 = Ret (res, lvp') w2 /\ same_data w0 w2) ->
  cache_ok w0 -> w_args w0 !! ap = Some a -> w_vars w0 !! a_vpp a = Some vp ->
  w_vnodes w0 !! vp = Some v2 -> w_vnodes w0 !! lvp' = Some lv2 -> v_vnlock v2 <> v_vnlock lv2 ->
  alias w0 (v_mount v) lvp' = Some vp' -> NoDup [dvp; vp; vp'; lvp'] ->
  used w0 dvp 1 -> 1 < v_usecount v2 -> 1 < v_usecount lv2 ->
  exists w', tpt_vput_pair ap w = Ret res w' /\ w_vars w' !! a_vpp a = Some vp' /\
    use_changes w0 w' dvp (-1) /\ use_changes w0 w' vp (-1) /\ use_changes w0 w' vp' 1 /\
    use_changes w0 w' lvp' (-1) /\ cache_ok w' /\ forall mp l, alias w' mp l = alias w0 mp l.
Proof.
  intros Hd Hp Hun Hlow Hok Ha Hvar Hv Hlv Hlock Hal Hnd Hud Hu Hul.
  rewrite !NoDup_cons, !not_elem_of_cons in Hnd.
  destruct Hnd as ((Hn1 & Hn2 & Hn3 & _) & (Hn4 & Hn5 & _) & (Hn6 & _) & _).
  destruct (vput_pair_start _ _ _ _ _ _ _ _ Hd Hp) as (w1 & S1 & ->). rewrite Hun in S1 |- *.
  destruct (Hlow w1 S1) as (w2 & E2 & S2). erewrite bind_Ret by exact E2. cbv beta iota.
  pose proof (same_data_keeps _ _ Hok S2) as K0. pose proof (cache_ok_keeps _ _ K0 Hok) as Hok2.
  destruct (vput_pair_result_replaces w2 ap a vp v2 (v_mount v) lvp' lv2 vp' vp) as (w3 & E3 & S3');
    try done; try (rewrite S2; done); [now rewrite (alias_keeps _ _ _ _ K0 Hok)|].
  assert (S3 : same_data (replaced w0 (a_vpp a) vp lvp' vp') w3) by (rewrite S3', S2; done).
  erewrite bind_Ret by exact E3.
  destruct (vrele_run w3 dvp 1) as (w4 & E4 & S4'); [|lia|].
  { eapply used_same; [exact S3|]. unfold replaced. do 3 (apply (used_other _ _ _ dvp 1); [|done]). done. }
  erewrite bind_Ret by exact E4. exists w4. split; [done|].
  assert (S4 : same_data (add_use dvp (-1) (replaced w0 (a_vpp a) vp lvp' vp')) w4).
  { rewrite S4', S3. done. }
  split; [rewrite S4; cbn; apply lookup_insert_eq|].
  pose proof (fun q u => replaced_uses _ _ _ _ _ _ _ q u S4) as Hq.
  assert (Hvp' : exists u, w_vnodes w0 !! vp' = Some u) by exact (mapped_exists w0 false vp v2 _ _ _ Hok Hv Hal).
  pose proof (replaced_keeps w0 (a_vpp a) vp lvp' vp' Hok) as K1.
  pose proof (cache_ok_keeps _ _ K1 Hok) as O1. pose proof (add_use_keeps _ dvp (-1) O1) as K2.
  pose proof (keeps_same_data _ _ _ Hok (keeps_cache_trans _ _ _ K1 K2) S4) as K.
  destruct Hvp' as [u Hvp']. destruct Hud as (du & Hdv & _).
  split; [|split; [|split; [|split; [|split]]]].
  - specialize (Hq dvp du Hdv). repeat case_decide; first [congruence | exact Hq].
  - specialize (Hq vp v2 Hv). repeat case_decide; first [congruence | exact Hq].
  - specialize (Hq vp' u Hvp'). repeat case_decide; first [congruence | exact Hq].
  - specialize (Hq lvp' lv2 Hlv). repeat case_decide; first [congruence | exact Hq].
  - exact (cache_ok_keeps _ _ K Hok).
  - intros mp l. now apply alias_keeps.
Qed.

End vput_pair.

(** ** tpt_vptocnp *)

Section vptocnp.
  Context {X : Type} `{Headers} `{FreeBSD X} `{!Quiet X} `{!References X} `{!Releases X}
    `{!StableHash X}.
  Implicit Types w : world X.

(** [tpt_vptocnp] after the call of the lower layer. *)
Definition vptocnp_finish (vp lvp dvpp locked mp error ldvp : Z) : M (world X) Z :=
  vdrop lvp ;;;
  if negb (error =? 0) then vptocnp_relock vp locked mp ENOENT
  else
    error <- vn_lock ldvp LK_SHARED ;;
    if negb (error =? 0) then
      vrele ldvp ;;;
      vptocnp_relock vp locked mp ENOENT
    else
      let* (error, nvp) := tpt_nodeget mp ldvp in
      assign dvpp nvp ;;;
      when (error =? 0)
        ((if DIAGNOSTIC then
            nvp <- var_at dvpp ;; NULLVPTOLOWERVP nvp ;;; ret tt
          else ret tt) ;;;
         nvp <- var_at dvpp ;;
         VOP_UNLOCK nvp ;;; ret tt) ;;;
      vptocnp_relock vp locked mp error.

(** The vnode [vp] of the operation. *)
Record vptocnp_pre w (ap : Z) (a : vop_args) (vp : Z) (v : vnode) (lvp : Z) : Prop := {
  vc_args : w_args w !! ap = Some a;
  vc_slot : a_vnodes a !! "a_vp" = Some vp;
  vc_vnode : w_vnodes w !! vp = Some v;
  vc_lower : lower w vp lvp;
}.

(** The lower layer consumes the reference to [lvp]; when it finds the directory
    [ldvp] that holds the name, it returns it with a reference. *)
Definition lower_names w (lvp : Z) (rest : list Z) (error ldvp : Z) : Prop :=
  forall w1, same_data (add_use lvp 1 w) w1 -> exists w2,
    vn_vptocnp lvp rest w1 = Ret (error, ldvp) w2 /\
    same_data (if error =? 0 then add_use ldvp 1 w else w) w2.

(** The shared lock of [ldvp] is granted, or refused with [error]. *)
Definition locks_shared w (ldvp error : Z) : Prop :=
  forall w1, same_data (add_use ldvp 1 w) w1 -> exists w2,
    vn_lock ldvp LK_SHARED w1 = Ret error w2 /\ same_data w1 w2.

Lemma vptocnp_start w ap a vp v lvp error ldvp :
  vptocnp_pre w ap a vp v lvp -> lower_names w lvp (a_rest a) error ldvp ->
  exists w1, same_data (if error =? 0 then add_use ldvp 1 w else w) w1 /\
    tpt_vptocnp ap w =
      vptocnp_finish vp lvp (a_vpp a) (VOP_ISLOCKED w vp) (v_mount v) error ldvp w1.
Proof.
  intros [Ha Hs Hv Hl] Hname. unfold tpt_vptocnp, args_at.
  erewrite bind_Ret by (eapply slot_run; eassumption). read_bind. cbv zeta.
  erewrite bind_Ret by reflexivity.
  destruct (lower_run w vp lvp Hl) as (w1 & E1 & S1). erewrite bind_Ret by exact E1.
  destruct (quiet_run (vhold lvp) w1) as ([] & w2 & E2 & S2'). erewrite bind_Ret by exact E2.
  pose proof (same_data_trans _ _ _ S1 S2') as S2.
  assert (Hv2 : w_vnodes w2 !! vp = Some v) by now rewrite S2.
  erewrite bind_Ret by (eapply mount_of_run; exact Hv2).
  destruct (quiet_run (vfs_ref (v_mount v)) w2) as ([] & w3 & E3 & S3'). erewrite bind_Ret by exact E3.
  pose proof (same_data_trans _ _ _ S2 S3') as S3.
  destruct (quiet_run (VOP_UNLOCK vp) w3) as (e4 & w4 & E4 & S4'). erewrite bind_Ret by exact E4.
  pose proof (same_data_trans _ _ _ S3 S4') as S4.
  destruct (lower_used w vp lvp Hl) as (lv & Hlv & _).
  destruct (vref_spec lvp w4 lv) as (w5 & E5 & S5'); [now rewrite S4|]. erewrite bind_Ret by exact E5.
  destruct (Hname w5) as (w6 & E6 & S6); [now rewrite S5', S4|].
  erewrite bind_Ret by exact E6. exists w6. split; [exact S6 | reflexivity].
Qed.

Lemma vptocnp_drop w w1 vp lvp ldvp error :
  lower w vp lvp -> same_data (if error =? 0 then add_use ldvp 1 w else w) w1 ->
  exists w2, vdrop lvp w1 = Ret tt w2 /\
    same_data (if error =? 0 then add_use ldvp 1 w else w) w2.
Proof.
  intros Hl S1. assert (Hu : used w1 lvp 0).
  { eapply used_same; [exact S1|]. destruct (error =? 0); [apply used_more; [|lia]|];
      exact (lower_used w vp lvp Hl). }
  destruct Hu as (u & Hu & Hpos). destruct (vdrop_spec lvp w1 u Hu Hpos) as (w2 & E2 & S2).
  exists w2. split; [done | exact (same_data_trans _ _ _ S1 S2)].
Qed.

(** When the lower layer does not find the name, or the directory it finds can
    not be locked, [tpt_vptocnp] answers ENOENT; no reference is kept and no
    variable changed when the vnode is locked again the way it was. *)
Theorem tpt_vptocnp_not_found (w : world X) ap a vp v lvp error ldvp e2 :
  vptocnp_pre w ap a vp v lvp -> lower_names w lvp (a_rest a) error ldvp ->
  (error = 0 -> locks_shared w ldvp e2 /\ used w ldvp 0) -> error <> 0 \/ e2 <> 0 ->
  exists w1, same_data w w1 /\ tpt_vptocnp ap w =
    (vn_lock vp (Z.lor (VOP_ISLOCKED w vp) LK_RETRY) ;;; vfs_rel (v_mount v) ;;; ret ENOENT) w1.
Proof.
  intros Hpre Hname Hlock Hfail.
  destruct (vptocnp_start _ _ _ _ _ _ _ _ Hpre Hname) as (w1 & S1 & ->).
  destruct (vptocnp_drop w w1 vp lvp ldvp error ltac:(apply Hpre) S1) as (w2 & E2 & S2).
  unfold vptocnp_finish. erewrite bind_Ret by exact E2.
  destruct (Z.eqb_spec error 0) as [->|He]; cbn [negb]; [|now exists w2].
  destruct (Hlock eq_refl) as [Hl Hu]. destruct Hfail as [[]|He]; [reflexivity|].
  destruct (Hl w2 S2) as (w3 & E3 & S3). erewrite bind_Ret by exact E3.
  rewrite (proj2 (Z.eqb_neq _ _) He). cbn [negb]. pose proof (same_data_trans _ _ _ S2 S3) as S23.
  destruct (vrele_run w3 ldvp 1) as (w4 & E4 & S4); [|lia|].
  { eapply used_same; [exact S23|]. exact (used_again w ldvp 1 0 Hu). }
  erewrite bind_Ret by exact E4. exists w4. split; [|reflexivity].
  exact (same_data_cancel _ _ _ _ S23 S4).
Qed.

(** The vnode that [tpt_nodeget] returns for [ldvp] is unlocked. *)
Lemma vptocnp_store w vpp old dvp ldvp (k : M (world X) Z) :
  w_vars w !! vpp = Some old -> lower w dvp ldvp ->
  exists w', same_data (set_vars (<[vpp := dvp]> (w_vars w)) w) w' /\
    (assign vpp dvp ;;;
     when (0 =? 0)
       ((if DIAGNOSTIC then nvp <- var_at vpp ;; NULLVPTOLOWERVP nvp ;;; ret tt else ret tt) ;;;
        nvp <- var_at vpp ;; VOP_UNLOCK nvp ;;; ret tt) ;;; k) w = k w'.
Proof.
  intros Hold Hl. erewrite bind_Ret by (eapply assign_run; exact Hold). set (w1 := set_vars _ w).
  assert (Hv1 : w_vars w1 !! vpp = Some dvp) by apply lookup_insert_eq.
  assert (H2 : exists w2, (if DIAGNOSTIC return M (world X) unit
    then nvp <- var_at vpp ;; NULLVPTOLOWERVP nvp ;;; ret tt else ret tt) w1 = Ret tt w2 /\
    same_data w1 w2).
  { destruct DIAGNOSTIC; [|exists w1; split; [done | apply same_data_refl]].
    destruct (lower_run w1 dvp ldvp) as (w2 & E2 & S2); [exact Hl|]. exists w2. split; [|done].
    unfold var_at. read_bind. now erewrite bind_Ret by exact E2. }
  destruct H2 as (w2 & E2 & S2). assert (Hv2 : w_vars w2 !! vpp = Some dvp) by now rewrite S2.
  destruct (quiet_run (VOP_UNLOCK dvp) w2) as (e3 & w3 & E3 & S3). exists w3.
  split; [exact (same_data_trans _ _ _ S2 S3)|]. cbn [Z.eqb when]. erewrite bind_Ret.
  2: { erewrite bind_Ret by exact E2. unfold var_at. read_bind. erewrite bind_Ret by exact E3. reflexivity. }
  reflexivity.
Qed.


End vptocnp.

(** ** A lower vnode with a shared lock *)

Section shared.
  Context {X : Type} `{Headers} `{FreeBSD X} `{!Quiet X} `{!References X} `{!StableHash X}.
  Implicit Types w : world X.

(** For a lower vnode that is locked shared and has no tptfs vnode yet,
    [tpt_nodeget] first gets the lock exclusively.  The thread may sleep then:
    if the lower vnode is reclaimed meanwhile the answer is ENOENT with a null
    vnode, the caller's reference being given back and the cache being what the
    others made of it; otherwise the vnode is created, which looks into the
    cache once more. *)
Theorem tpt_nodeget_upgrades (w w0 : world X) mp lowervp lv e (doomed : bool) :
  cache_ok w -> w_vnodes w !! lowervp = Some lv -> 0 < v_usecount lv ->
  (forall w1, VOP_ISLOCKED w1 lowervp <> LK_EXCLUSIVE) -> alias w mp lowervp = None ->
  (forall w1, same_data w w1 -> exists w2,
     vn_lock lowervp (Z.lor LK_UPGRADE LK_RETRY) w1 = Ret e w2 /\ same_data w0 w2 /\
     VN_IS_DOOMED w2 lowervp = doomed) ->
  cache_ok w0 -> used w0 lowervp 1 ->
  if doomed then
    exists w', tpt_nodeget mp lowervp w = Ret (ENOENT, NULLVP) w' /\
      same_data (add_use lowervp (-1) w0) w' /\ cache_ok w' /\
      forall mp' l, alias w' mp' l = alias w0 mp' l
  else exists w2, same_data w0 w2 /\ tpt_nodeget mp lowervp w = nodeget_new mp lowervp w2.
Proof.
  intros Hok Hlv Hu Hl Ha Hlock Hok0 Hu0.
  destruct (nodeget_start w mp lowervp lv Hok Hlv Hu) as (w1 & S1 & ->).
  pose proof (same_data_keeps _ _ Hok S1) as Hk1.
  destruct (tpt_hashget_spec w1 mp lowervp (cache_ok_keeps _ _ Hk1 Hok)) as (w2 & E2 & S2).
  rewrite (alias_keeps _ _ _ _ Hk1 Hok), Ha in E2, S2.
  erewrite bind_Ret by exact E2. cbn [negb default Z.eqb NULLVP]. erewrite bind_Ret by reflexivity.
  rewrite (proj2 (Z.eqb_neq _ _) (Hl w2)). cbn [negb].
  destruct (Hlock w2 (same_data_trans _ _ _ S1 S2)) as (w3 & E3 & S3 & Hd).
  erewrite bind_Ret by (erewrite bind_Ret by exact E3; reflexivity). rewrite Hd.
  destruct doomed; [|now exists w3].
  destruct (vput_run w3 lowervp 1) as (w4 & E4 & S4'); [now apply (used_same w0) | lia |].
  erewrite bind_Ret by exact E4. exists w4. split; [done|].
  assert (S4 : same_data (add_use lowervp (-1) w0) w4) by (rewrite S4', S3; done).
  pose proof (keeps_same_data _ _ _ Hok0 (add_use_keeps w0 lowervp (-1) Hok0) S4) as K.
  split; [exact S4|]. split; [exact (cache_ok_keeps _ _ K Hok0)|]. intros. now apply alias_keeps.
Qed.

End shared.

(** ** Examples *)

Section examples.

(** The kernel in which the lower layer finds the names in the vnode 1. *)
Definition path_kernel : FreeBSD sim := find_kernel 0 1.
#[local] Existing Instance path_kernel.

(** The file 12 is opened. *)
Lemma tpt_open_shares_object_witness :
  exists w2, same_data (demo_op 0 (vp_args 12)) w2 /\
    tpt_open 300 (demo_op 0 (vp_args 12)) =
      ret 0 (set_vnodes (<[12 := vn_set_object 1002 (demo_upper 22 2 VREG 0)]> (w_vnodes w2)) w2).
Proof.
  destruct (tpt_open_shares_object (H := sim_headers) (demo_op 0 (vp_args 12)) (demo_op 0 (vp_args 12))
    300 (vp_args 12) 12 (demo_upper 22 2 VREG 0) 2 (demo_lower 2 VREG 0) 0 eq_refl eq_refl
    (demo_lower_12 _ _ _ _)) as (w2 & S2 & E).
  - intros w1 ->. eexists. split; [vm_compute; reflexivity | vm_compute; reflexivity].
  - reflexivity.
  - reflexivity.
  - discriminate.
  - exists w2. split; [exact S2 | exact E].
Defined.

(** The pages of the lower vnode 2 may be read from the cache; the vnode 12 is new. *)
Definition pages_kernel : FreeBSD sim :=
  sim_kernel (fun _ _ => (0, 0)) (fun s => if String.eqb s "vn_irflag_read" then 2 else 0).

Lemma share_object_shares_witness :
  exists w1, share_object (H0 := pages_kernel) 12 2 (demo_op 0 (vp_args 12)) = Ret tt w1 /\
    v_object <$> w_vnodes w1 !! 12 = Some 1002.
Proof.
  rewrite (share_object_shares (H := sim_headers) (H0 := pages_kernel) (demo_op 0 (vp_args 12)) 12
    (demo_upper 22 2 VREG 0) 2 (demo_lower 2 VREG 0) eq_refl eq_refl eq_refl ltac:(discriminate) eq_refl).
  eexists. split; [vm_compute; reflexivity | vm_compute; reflexivity].
Defined.

(** The pair of the directory 11 and the vnode [vp], held in the variable 400. *)
Definition pair_args (unlock : bool) : vop_args :=
  VopArgs (vp_desc 0) {[ "a_dvp"%string := 11 ]} 400 500 600 401 (Componentname 0 0) 0 0 0 unlock [].
Definition demo_pair (unlock : bool) (vp : Z) : world sim :=
  set_vars (<[400 := vp]> (w_vars (demo_op 0 (pair_args unlock)))) (demo_op 0 (pair_args unlock)).

Lemma demo_pair_dir unlock vp : pair_dir (demo_pair unlock vp) 300 (pair_args unlock) 11 1.
Proof.
  split; [reflexivity | reflexivity | exact (demo_lower_11 _ _ _ _) |].
  eexists. split; reflexivity.
Qed.

Lemma demo_pair_vp unlock :
  pair_vp (demo_pair unlock 12) (pair_args unlock) 11 12 (demo_upper 22 2 VREG 0) 2.
Proof.
  split; [discriminate | reflexivity | discriminate | reflexivity | exact (demo_lower_12 _ _ _ _) | |
    discriminate].
  eexists. split; reflexivity.
Qed.

Lemma demo_puts_pair unlock vp : lower_puts_pair (demo_pair unlock vp) 1 2 unlock 0.
Proof.
  intros w1 S1. destruct unlock; (eexists; split; [reflexivity|]); rewrite S1; vm_compute; reflexivity.
Qed.

Lemma tpt_vput_pair_balanced_witness :
  exists w', tpt_vput_pair 300 (demo_pair true 12) = Ret 0 w' /\
    same_data (add_use 11 (-1) (add_use 12 (-1) (demo_pair true 12))) w'.
Proof.
  exact (tpt_vput_pair_balanced (H := sim_headers) _ 300 _ 11 1 12 _ 2 (demo_lower 2 VREG 0) 0
    (demo_pair_dir true 12) (demo_pair_vp true) eq_refl ltac:(discriminate) (demo_puts_pair true 12)).
Defined.

Lemma tpt_vput_pair_directory_witness :
  exists w', tpt_vput_pair 300 (demo_pair true 0) = Ret 0 w' /\
    same_data (add_use 11 (-1) (demo_pair true 0)) w'.
Proof.
  apply (tpt_vput_pair_directory (H := sim_headers) _ 300 (pair_args true) 11 1 0 (demo_pair_dir true 0)).
  - right. reflexivity.
  - intros w1 S1. eexists. split; [reflexivity|]. rewrite S1. vm_compute. reflexivity.
Defined.

(** The vnode 14 was reclaimed and the lower vnode 3 has got the vnode 13. *)
Definition demo_moved : world sim :=
  draft (insert_head 3 23 (draft (demo_pair false 14) 23 (TptNode 3 13 0) 13 (demo_upper 23 3 VREG 0)))
    24 (TptNode 3 14 0) 14 (vn_set_vnlock (v_lock 14) (demo_upper 24 3 VREG 0)).

Lemma demo_moved_ok : cache_ok demo_moved.
Proof.
  assert (H0 : cache_ok (demo_pair false 14)).
  { eapply cache_ok_keeps; [apply set_vars_keeps|]; apply demo_cache_ok. }
  set (d := draft (demo_pair false 14) 23 (TptNode 3 13 0) 13 (demo_upper 23 3 VREG 0)).
  assert (H1 : cache_ok d).
  { apply (cache_ok_keeps (demo_pair false 14)); [|done].
    apply draft_keeps; [done | reflexivity | reflexivity | discriminate]. }
  destruct (insert_head_ok d 23 (TptNode 3 13 0) (demo_upper 23 3 VREG 0)) as [H2 _];
    [exact H1 | reflexivity | reflexivity | reflexivity | | vm_compute; reflexivity |].
  { intros hd Hin.
    destruct (cache_ok_linked (demo_pair false 14) hd H0 23 Hin) as (x & v & E & _). discriminate. }
  refine (cache_ok_keeps _ _ (draft_keeps _ _ _ _ _ H2 _ _ _) H2); [reflexivity | reflexivity | discriminate].
Qed.

Lemma tpt_vput_pair_replaces_witness :
  exists w', tpt_vput_pair 300 demo_moved = Ret 0 w' /\ w_vars w' !! 400 = Some 13 /\
    use_changes demo_moved w' 14 (-1) /\ use_changes demo_moved w' 13 1.
Proof.
  destruct (tpt_vput_pair_replaces (H := sim_headers) demo_moved demo_moved 300 (pair_args false) 11 1 14
    (vn_set_vnlock (v_lock 14) (demo_upper 24 3 VREG 0)) 3 0
    (vn_set_vnlock (v_lock 14) (demo_upper 24 3 VREG 0)) 3 (demo_lower 3 VREG 0) 13)
    as (w' & E & Hv & _ & H1 & H2 & _).
  - split; [reflexivity | reflexivity | | eexists; split; reflexivity].
    exists (demo_upper 21 1 VDIR 1), (TptNode 1 11 0), (demo_lower 1 VDIR 1).
    do 3 (split; [reflexivity|]). split; [discriminate|]. split; [reflexivity | discriminate].
  - split; [discriminate | reflexivity | discriminate | reflexivity | | eexists; split; reflexivity |
      discriminate].
    exists (vn_set_vnlock (v_lock 14) (demo_upper 24 3 VREG 0)), (TptNode 3 14 0), (demo_lower 3 VREG 0).
    do 3 (split; [reflexivity|]). split; [discriminate|]. split; [reflexivity | discriminate].
  - reflexivity.
  - intros w1 S1. eexists. split; [reflexivity|]. rewrite S1. vm_compute. reflexivity.
  - exact demo_moved_ok.
  - reflexivity.
  - reflexivity.
  - reflexivity.
  - reflexivity.
  - discriminate.
  - vm_compute. reflexivity.
  - apply (bool_decide_unpack _). vm_compute. exact I.
  - eexists. split; reflexivity.
  - reflexivity.
  - reflexivity.
  - exists w'. exact (conj E (conj Hv (conj H1 H2))).
Defined.

(** The name of the file 12 is looked for: the directory is 1, and 11 above. *)
Definition demo_named : world sim := demo_op 0 (vp_args 12).

Lemma demo_vptocnp_pre : vptocnp_pre demo_named 300 (vp_args 12) 12 (demo_upper 22 2 VREG 0) 2.
Proof. split; [reflexivity | reflexivity | reflexivity | exact (demo_lower_12 _ _ _ _)]. Qed.

Lemma demo_locks : locks_shared demo_named 1 0.
Proof. intros w1 S1. eexists. split; [reflexivity|]. rewrite S1. vm_compute. reflexivity. Qed.

Lemma demo_used_1 : used demo_named 1 0.
Proof. eexists. split; reflexivity. Qed.


(** The lower layer does not know the name. *)
Lemma tpt_vptocnp_not_found_witness :
  exists w1, same_data demo_named w1 /\ tpt_vptocnp (H0 := find_kernel 2 0) 300 demo_named =
    (vn_lock (FreeBSD := find_kernel 2 0) 12 (Z.lor LK_EXCLUSIVE LK_RETRY) ;;;
     vfs_rel (FreeBSD := find_kernel 2 0) 100 ;;; ret ENOENT) w1.
Proof.
  apply (tpt_vptocnp_not_found (H := sim_headers) (H0 := find_kernel 2 0) demo_named 300 (vp_args 12) 12
    (demo_upper 22 2 VREG 0) 2 2 0 0 demo_vptocnp_pre).
  - intros w1 S1. eexists. split; [reflexivity|]. rewrite S1. vm_compute. reflexivity.
  - discriminate.
  - left. discriminate.
Defined.

(** The kernel whose locks are shared. *)
Definition shared_kernel : FreeBSD sim :=
  sim_kernel (fun _ _ => (0, 0)) (fun call => if bool_decide (call = "VOP_ISLOCKED"%string) then 1 else 0).

(** The lower vnode 3, which was reclaimed when its lock is granted. *)
Definition demo_gone : world sim :=
  set_vnodes (<[3 := vn_set_op dead_vnodeops (demo_lower 3 VREG 0)]> (w_vnodes demo)) demo.

Lemma demo_gone_ok : cache_ok demo_gone.
Proof.
  refine (cache_ok_keeps_entries _ _ (change_vnode_keeps demo 3 _ (demo_cache_ok _ _ _) _ _) (demo_cache_ok _ _ _)).
  - discriminate.
  - intros xp' mp' l (_ & x & v & Hx & Hv & _ & _ & _ & Hd).
    injection Hv as <-. cbn in Hd. subst xp'. discriminate.
Qed.

Lemma tpt_nodeget_upgrades_witness :
  exists w', tpt_nodeget (H0 := shared_kernel) 100 3 demo_gone = Ret (ENOENT, NULLVP) w' /\
    same_data (add_use 3 (-1) demo_gone) w'.
Proof.
  destruct (tpt_nodeget_upgrades (H := sim_headers) (H0 := shared_kernel) demo_gone demo_gone 100 3
    (vn_set_op dead_vnodeops (demo_lower 3 VREG 0)) 0 true demo_gone_ok eq_refl eq_refl
    ltac:(discriminate) eq_refl) as (w' & E & S & _).
  - intros w1 S1. eexists. split; [reflexivity|].
    split; [rewrite S1; vm_compute; reflexivity | rewrite S1; vm_compute; reflexivity].
  - exact demo_gone_ok.
  - eexists. split; reflexivity.
  - exists w'. exact (conj E S).
Defined.

End examples.
