(* ===== verification/TptVfsops.v ===== *)
(** * TptVfsops: src/tptfs/tpt_vfsops.c

    Mounting, unmounting and the operations on a mounted tptfs.  The kernel's
    macros [VFS_STATFS] and the like dispatch on the mount's operations, so
    those that tptfs passes to [nullm_vfs] recurse when that is a tptfs again:
    they are defined with fuel. *)

From stdpp Require Import base numbers list strings gmap.
From S2P Require Import Prelude FreeBSD Sim TptSubr TptVnops.
From Stdlib Require Import ZArith Lia.
Open Scope Z_scope.

Section code.
  Context {X : Type} `{Headers} `{FreeBSD X}.
  Abbreviation K := (M (world X)).

(** ** Mounting *)

(** Not written yet in the source: it accepts every superblock. *)
Definition tpt_compute_sb_data (devvp fs : Z) : K Z := ret 0.

(** The label [out] of [tpt_mountfs]; [bread] leaves [bp] null when it fails. *)
Definition mountfs_out (bp cp : Z) : K Z :=
  when (negb (bp =? 0)) (brelse bp) ;;;
  when (negb (cp =? 0))
    (g_topology_lock ;;;
     g_vfs_close cp ;;;
     g_topology_unlock) ;;;
  ret (-1).

(** From the superblock [tmpfs] in the buffer [bp] to the mount. *)
Definition mountfs_fill (devvp mp cp bp : Z) (tmpfs : tptfs) : K Z :=
  uprintf "fs->magic=%x" [magic tmpfs] ;;;
  tptmp <- malloc_mount ;;
  update_tmount tptmp (fun _ => TptMount 0 0 0 0) ;;;
  fsp <- malloc_fs ;;
  update_tmount tptmp (tm_set_fs fsp) ;;;
  update w_fs set_fs fsp (fun _ => tmpfs) ;;;
  error <- tpt_compute_sb_data devvp fsp ;;
  if negb (error =? 0) then mountfs_out bp cp
  else
    update_mount mp (mount_set_data tptmp) ;;;
    update_tmount tptmp (tm_set_vfs mp) ;;;
    update_tmount tptmp (tm_set_lowerrootvp devvp) ;;;
    ret 0.

Definition tpt_mountfs (devvp mp : Z) : K Z :=
  uprintf "geom consumer" [] ;;;
  ronly <- vfs_flagopt_ro mp ;;
  g_topology_lock ;;;
  let* (error, cp) := g_vfs_open devvp (if ronly then 0 else 1) in
  g_topology_unlock ;;;
  VOP_UNLOCK devvp ;;;
  if negb (error =? 0) then ret error
  else
    uprintf "bread" [] ;;;
    bufobj_attach devvp cp ;;;
    let* (error, bp, tmpfs) := bread devvp 0 1024 in
    if negb (error =? 0) then
      uprintf "bread fail" [] ;;;
      mountfs_out bp cp
    else mountfs_fill devvp mp cp bp tmpfs.

(** [fspec[len - 1] != '\0'], for the option's value of length [len]. *)
Definition unterminated (fspec : option string) (len : Z) : K bool :=
  match fspec with
  | None => stop_with (Fault (len - 1))
  | Some s =>
      match String.get (Z.to_nat (len - 1)) s with
      | Some c => ret (negb (bool_decide (c = Ascii.zero)))
      | None => stop_with (Fault (len - 1))
      end
  end.

(** From the vnode that [namei] found. *)
Definition mount_device (mp : Z) (fspec : string) (devvp : Z) : K Z :=
  let* (isdisk, error) := vn_isdisk_error devvp in
  if negb isdisk then
    vput devvp ;;;
    ret error
  else
    uprintf "tpt_mountfs" [] ;;;
    error <- tpt_mountfs devvp mp ;;
    if negb (error =? 0) then
      vrele devvp ;;;
      ret error
    else
      uprintf "mounted" [] ;;;
      xmp <- MOUNTTONULLMOUNT mp ;;
      tmount_at xmp ;;;
      vfs_mountedfrom mp fspec ;;;
      ret 0.

Definition tptfs_mount (mp : Z) : K Z :=
  uprintf "tptfs_mount" [] ;;;
  m <- mount_at mp ;;
  if has (mnt_flag m) MNT_ROOTFS then ret EOPNOTSUPP
  else
    uprintf "options" [] ;;;
    let* (error, fspec, len) := vfs_getopt_from mp in
    bad <- (if negb (error =? 0) then ret true else unterminated fspec len) ;;
    if bad then ret EINVAL
    else
      match fspec with
      | None => ret EINVAL
      | Some path =>
          uprintf "device" [] ;;;
          let* (error, devvp) := namei LOOKUP (Z.lor FOLLOW LOCKLEAF) path in
          if negb (error =? 0) then ret error else mount_device mp path devvp
      end.

(** ** Unmounting *)

(** One round of the loop of [tptfs_unmount]: [inl] to go on, [inr] with the
    value to return or, when the vnodes are gone, none. *)
Definition flush_round (mp mntflags flags : Z) : K (unit + option Z) :=
  error <- vflush mp 0 flags ;;
  if negb (error =? 0) then ret (inr (Some error))
  else
    MNT_ILOCK mp ;;;
    m <- mount_at mp ;;
    if mnt_nvnodelistsize m =? 0 then
      MNT_IUNLOCK mp ;;;
      ret (inr None)
    else
      MNT_IUNLOCK mp ;;;
      if negb (has mntflags MNT_FORCE) then ret (inr (Some EBUSY)) else ret (inl tt).

(** [while (ump->mnt_kern_flag & MNTK_VGONE_UPPER) msleep] *)
Definition wait_upper (ump : Z) (_ : unit) : K (unit + unit) :=
  m <- mount_at ump ;;
  if has (mnt_kern_flag m) MNTK_VGONE_UPPER then
    update_mount ump (fun m => mount_set_kern_flag (Z.lor (mnt_kern_flag m) MNTK_VGONE_WAITER) m) ;;;
    msleep_uppers ump ;;;
    ret (inl tt)
  else ret (inr tt).

(** After the loop. *)
Definition unmount_finish (fuel : nat) (mp : Z) : K Z :=
  mntdata <- MOUNTTONULLMOUNT mp ;;
  tm <- tmount_at mntdata ;;
  let ump := nullm_vfs tm in
  when (has (nullm_flags tm) NULLM_CACHE)
    (MNT_ILOCK ump ;;;
     loop fuel (wait_upper ump) tt ;;;
     update_mount ump (fun m => mount_set_uppers (filter (fun q => q <> mp) (mnt_uppers m)) m) ;;;
     MNT_IUNLOCK ump) ;;;
  tm <- tmount_at mntdata ;;
  vrele (nullm_lowerrootvp tm) ;;;
  update_mount mp (mount_set_data 0) ;;;
  free_mount mntdata ;;;
  ret 0.

Definition tptfs_unmount (fuel : nat) (mp mntflags : Z) : K Z :=
  let flags := if has mntflags MNT_FORCE then FORCECLOSE else 0 in
  r <- loop fuel (fun _ => flush_round mp mntflags flags) tt ;;
  match r with
  | Some error => ret error
  | None => unmount_finish fuel mp
  end.

(** ** The root *)

Definition tptfs_root (mp flags vpp : Z) : K Z :=
  mntdata <- MOUNTTONULLMOUNT mp ;;
  tm <- tmount_at mntdata ;;
  error <- vget (nullm_lowerrootvp tm) flags ;;
  if error =? 0 then
    tm <- tmount_at mntdata ;;
    let* (error, vp) := tpt_nodeget mp (nullm_lowerrootvp tm) in
    when (error =? 0) (assign vpp vp) ;;;
    ret error
  else ret error.

(** ** Operations passed to [nullm_vfs] *)

Definition passed_to (mp : Z) : K Z :=
  mntdata <- MOUNTTONULLMOUNT mp ;;
  tm <- tmount_at mntdata ;;
  ret (nullm_vfs tm).

Definition tptfs_quotactl (VFS_QUOTACTL : Z -> Z -> Z -> Z -> K Z) (mp cmd uid arg : Z) : K Z :=
  q <- passed_to mp ;;
  VFS_QUOTACTL q cmd uid arg.

(** The statistics that [tptfs_statfs] reports, from the caller's [sb] and the
    lower layer's [m]. *)
Definition merge_statfs (sb m : statfs) : statfs := {|
  f_type := f_type m;
  f_flags := Z.lor
    (Z.land (f_flags sb) (Z.lor MNT_RDONLY (Z.lor MNT_NOEXEC (Z.lor MNT_NOSUID
      (Z.lor MNT_UNION (Z.lor MNT_NOSYMFOLLOW MNT_AUTOMOUNTED))))))
    (Z.ldiff (f_flags m) (Z.lor MNT_ROOTFS MNT_AUTOMOUNTED));
  f_bsize := f_bsize m;
  f_iosize := f_iosize m;
  f_blocks := f_blocks m;
  f_bfree := f_bfree m;
  f_bavail := f_bavail m;
  f_files := f_files m;
  f_ffree := f_ffree m;
|}.

Definition tptfs_statfs (VFS_STATFS : Z -> Z -> K Z) (mp sbp : Z) : K Z :=
  mstat <- malloc_statfs ;;
  update w_statfs set_statfs mstat (fun _ => Statfs 0 0 0 0 0 0 0 0 0) ;;;
  q <- passed_to mp ;;
  error <- VFS_STATFS q mstat ;;
  if negb (error =? 0) then
    free_statfs mstat ;;;
    ret error
  else
    m <- deref w_statfs mstat ;;
    update w_statfs set_statfs sbp (fun sb => merge_statfs sb m) ;;;
    free_statfs mstat ;;;
    ret 0.

Definition tptfs_sync (mp waitfor : Z) : K Z := ret 0.

(** [return (tpt_nodeget(mp, *vpp, vpp))] *)
Definition nodeget_vpp (mp vpp : Z) : K Z :=
  lowervp <- var_at vpp ;;
  let* (error, vp) := tpt_nodeget mp lowervp in
  assign vpp vp ;;;
  ret error.

Definition tptfs_vget (VFS_VGET : Z -> Z -> Z -> Z -> K Z) (mp ino flags vpp : Z) : K Z :=
  KASSERT (ret (negb (Z.land flags LK_TYPE_MASK =? 0))) "tptfs_vget: no lock requested" ;;;
  q <- passed_to mp ;;
  error <- VFS_VGET q ino flags vpp ;;
  if negb (error =? 0) then ret error else nodeget_vpp mp vpp.

Definition tptfs_fhtovp (VFS_FHTOVP : Z -> Z -> Z -> Z -> K Z) (mp fidp flags vpp : Z) : K Z :=
  q <- passed_to mp ;;
  error <- VFS_FHTOVP q fidp flags vpp ;;
  if negb (error =? 0) then ret error else nodeget_vpp mp vpp.

Definition tptfs_extattrctl (VFS_EXTATTRCTL : Z -> Z -> Z -> Z -> Z -> K Z)
    (mp cmd filename_vp namespace attrname : Z) : K Z :=
  q <- passed_to mp ;;
  VFS_EXTATTRCTL q cmd filename_vp namespace attrname.

(** ** Notifications from the lower file system *)

Definition tptfs_reclaim_lowervp (mp lowervp : Z) : K unit :=
  vp <- tpt_hashget mp lowervp ;;
  if vp =? NULLVP then ret tt
  else
    or_flags vp NULLV_NOUNLOCK ;;;
    vgone vp ;;;
    vput vp.

Definition tptfs_unlink_lowervp (mp lowervp : Z) : K unit :=
  vp <- tpt_hashget mp lowervp ;;
  if vp =? NULLVP then ret tt
  else
    xp <- VTONULL vp ;;
    update_node xp (fun x => node_set_flags (Z.lor (tpt_flags x) (Z.lor NULLV_DROP NULLV_NOUNLOCK)) x) ;;;
    vhold vp ;;;
    vunref vp ;;;
    v <- vnode_at vp ;;
    (if v_usecount v =? 0 then
       KASSERT (gets (fun w => VN_IS_DOOMED w vp)) "not reclaimed tptfs vnode" ;;;
       VOP_UNLOCK vp ;;;
       ret tt
     else
       ASSERT_VOP_ELOCKED vp "unlink_lowervp" ;;;
       KASSERT (doomed <- gets (fun w => VN_IS_DOOMED w vp) ;; ret (negb doomed))
         "reclaimed tptfs vnode" ;;;
       update_node xp (fun x => node_set_flags (Z.ldiff (tpt_flags x) NULLV_NOUNLOCK) x)) ;;;
    vdrop vp.

(** ** The dispatch of the kernel's macros

    Operations of a tptfs mount are those above, [tpt_vfsops] of the source;
    those of another mount are the kernel's. *)

Fixpoint VFS_QUOTACTL (fuel : nat) (mp cmd uid arg : Z) : K Z :=
  match fuel with
  | O => stop_with Fuel
  | S fuel =>
      m <- mount_at mp ;;
      match mnt_op m with
      | tpt_vfsops => tptfs_quotactl (VFS_QUOTACTL fuel) mp cmd uid arg
      | other_vfsops _ => other_VFS_QUOTACTL mp cmd uid arg
      end
  end.

Fixpoint VFS_STATFS (fuel : nat) (mp sbp : Z) : K Z :=
  match fuel with
  | O => stop_with Fuel
  | S fuel =>
      m <- mount_at mp ;;
      match mnt_op m with
      | tpt_vfsops => tptfs_statfs (VFS_STATFS fuel) mp sbp
      | other_vfsops _ => other_VFS_STATFS mp sbp
      end
  end.

Fixpoint VFS_VGET (fuel : nat) (mp ino flags vpp : Z) : K Z :=
  match fuel with
  | O => stop_with Fuel
  | S fuel =>
      m <- mount_at mp ;;
      match mnt_op m with
      | tpt_vfsops => tptfs_vget (VFS_VGET fuel) mp ino flags vpp
      | other_vfsops _ => other_VFS_VGET mp ino flags vpp
      end
  end.

Fixpoint VFS_FHTOVP (fuel : nat) (mp fidp flags vpp : Z) : K Z :=
  match fuel with
  | O => stop_with Fuel
  | S fuel =>
      m <- mount_at mp ;;
      match mnt_op m with
      | tpt_vfsops => tptfs_fhtovp (VFS_FHTOVP fuel) mp fidp flags vpp
      | other_vfsops _ => other_VFS_FHTOVP mp fidp flags vpp
      end
  end.

Fixpoint VFS_EXTATTRCTL (fuel : nat) (mp cmd filename_vp namespace attrname : Z) : K Z :=
  match fuel with
  | O => stop_with Fuel
  | S fuel =>
      m <- mount_at mp ;;
      match mnt_op m with
      | tpt_vfsops => tptfs_extattrctl (VFS_EXTATTRCTL fuel) mp cmd filename_vp namespace attrname
      | other_vfsops _ => other_VFS_EXTATTRCTL mp cmd filename_vp namespace attrname
      end
  end.

End code.

(** ** Mounting *)

Section mounting.
  Context {X : Type} `{Headers} `{FreeBSD X} `{!NewMount X}.
  Implicit Types w : world X.

(** A quiet call goes on from a world with the same data. *)
Lemma quiet_bind {A B} (m : M (world X) A) (k : A -> M (world X) B) w :
  quiet m -> exists a w1, same_data w w1 /\ bind m k w = k a w1.
Proof.
  intros Hq. destruct (quiet_run m w) as (a & w1 & E & S). exists a, w1. split; [done|].
  now erewrite bind_Ret by exact E.
Qed.

(** The world with the tptfs of superblock [sb] mounted on [mp]. *)
Definition installed (mp devvp xmp fsp : Z) (sb : tptfs) (m : mount) (w : world X) : world X :=
  set_mounts (<[mp := mount_set_data xmp m]> (w_mounts w))
    (set_tmounts (<[xmp := TptMount mp devvp 0 fsp]> (w_tmounts w))
      (set_fs (<[fsp := sb]> (w_fs w)) w)).

Lemma mountfs_out_run bp cp w :
  exists w', mountfs_out bp cp w = Ret (-1) w' /\ same_data w w'.
Proof.
  unfold mountfs_out.
  assert (H1 : exists w1, when (negb (bp =? 0)) (brelse bp) w = Ret tt w1 /\ same_data w w1).
  { destruct (bp =? 0); cbn [negb when]; [exists w; split; [done | apply same_data_refl]|].
    destruct (quiet_run (brelse bp) w) as ([] & w1 & E & S). now exists w1. }
  destruct H1 as (w1 & E1 & S1). erewrite bind_Ret by exact E1.
  destruct (cp =? 0); cbn [negb when].
  { erewrite bind_Ret by reflexivity. now exists w1. }
  destruct (quiet_run g_topology_lock w1) as ([] & w2 & E2 & S2).
  destruct (quiet_run (g_vfs_close cp) w2) as ([] & w3 & E3 & S3).
  destruct (quiet_run g_topology_unlock w3) as ([] & w4 & E4 & S4).
  erewrite bind_Ret by (erewrite bind_Ret by exact E2; erewrite bind_Ret by exact E3; exact E4).
  exists w4. split; [done|]. eauto using same_data_trans.
Qed.

Lemma mountfs_fill_run devvp mp cp bp sb m w :
  w_mounts w !! mp = Some m ->
  exists xmp fsp w', mountfs_fill devvp mp cp bp sb w = Ret 0 w' /\
    w_tmounts w !! xmp = None /\ w_fs w !! fsp = None /\
    same_data (installed mp devvp xmp fsp sb m w) w'.
Proof.
  intros Hm. unfold mountfs_fill, tpt_compute_sb_data.
  destruct (quiet_run (uprintf "fs->magic=%x" [magic sb]) w) as ([] & w1 & E1 & S1).
  erewrite bind_Ret by exact E1.
  destruct (malloc_mount_spec w1) as (xmp & t & w2 & E2 & Hx & S2). erewrite bind_Ret by exact E2.
  assert (T2 : w_tmounts w2 !! xmp = Some t) by (rewrite S2; apply lookup_insert_eq).
  unfold update_tmount at 1. erewrite bind_Ret by (eapply update_run; exact T2).
  set (w3 := set_tmounts (<[xmp := TptMount 0 0 0 0]> (w_tmounts w2)) w2).
  destruct (malloc_fs_spec w3) as (fsp & f & w4 & E4 & Hf & S4). erewrite bind_Ret by exact E4.
  assert (T4 : w_tmounts w4 !! xmp = Some (TptMount 0 0 0 0)) by (rewrite S4; apply lookup_insert_eq).
  assert (F4 : w_fs w4 !! fsp = Some f) by (rewrite S4; apply lookup_insert_eq).
  unfold update_tmount at 1. erewrite bind_Ret by (eapply update_run; exact T4).
  erewrite bind_Ret by (eapply update_run; exact F4).
  erewrite bind_Ret by reflexivity. change (negb (0 =? 0)) with false. cbv iota.
  assert (M4 : w_mounts w4 !! mp = Some m).
  { rewrite S4. cbn. rewrite S2. cbn. now rewrite S1. }
  unfold update_mount. erewrite bind_Ret by (eapply update_run; exact M4).
  unfold update_tmount. erewrite bind_Ret by (eapply update_run; cbn; apply lookup_insert_eq).
  erewrite bind_Ret by (eapply update_run; cbn; apply lookup_insert_eq).
  exists xmp, fsp. eexists. split; [reflexivity|]. split; [now rewrite S1 in Hx|].
  split; [unfold w3 in Hf; cbn in Hf; rewrite S2 in Hf; cbn in Hf; now rewrite S1 in Hf|].
  apply same_data_fields in S1, S2, S4. apply same_data_fields. unfold w3 in *. cbn in *.
  rewrite_fields S4.
  rewrite_fields S2.
  rewrite_fields S1.
  now rewrite !insert_insert_eq.
Qed.


End mounting.

(** ** A tptfs whose lower mount is itself *)

Section self_mount.
  Context {X : Type} `{Headers} `{FreeBSD X} `{!NewMount X}.
  Implicit Types w : world X.

(** [mp] is a tptfs mount that passes its operations to itself, which is what
    [tpt_mountfs] makes. *)
Definition self_mounted (w : world X) (mp : Z) : Prop :=
  exists m tm, w_mounts w !! mp = Some m /\ mnt_op m = tpt_vfsops /\
    w_tmounts w !! mnt_data m = Some tm /\ nullm_vfs tm = mp.

Lemma passed_to_run (w : world X) mp m tm :
  w_mounts w !! mp = Some m -> w_tmounts w !! mnt_data m = Some tm ->
  passed_to mp w = Ret (nullm_vfs tm) w.
Proof.
  intros Hm Ht. unfold passed_to, MOUNTTONULLMOUNT, mount_at, tmount_at.
  erewrite bind_Ret by (read_bind; reflexivity). now read_bind.
Qed.

Lemma passed_to_self w mp : self_mounted w mp -> passed_to mp w = Ret mp w.
Proof.
  intros (m & tm & Hm & _ & Ht & <-). now apply (passed_to_run w _ m tm).
Qed.

Lemma installed_self_mounted mp devvp xmp fsp sb m w :
  mnt_op m = tpt_vfsops -> self_mounted (installed mp devvp xmp fsp sb m w) mp.
Proof.
  intros Hop. exists (mount_set_data xmp m), (TptMount mp devvp 0 fsp).
  split; [apply lookup_insert_eq|]. split; [done|]. split; [apply lookup_insert_eq | done].
Qed.

(** One level of a dispatch on the mount's operations. *)
Lemma dispatch_self {A} w mp (tpt : M (world X) A) (other : M (world X) A) :
  self_mounted w mp ->
  (m <- mount_at mp ;; match mnt_op m with tpt_vfsops => tpt | other_vfsops _ => other end) w = tpt w.
Proof. intros (m & tm & Hm & Hop & _). unfold mount_at. read_bind. now rewrite Hop. Qed.

(** C34: on a mount that [tpt_mountfs] made, the operations that tptfs passes to
    the mount below (quota control, [vget], file handles, extended attribute
    control, statistics) never return: below is the mount itself, and no depth
    of recursion is enough. *)
Theorem self_mount_never_returns (w0 w : world X) mp devvp xmp fsp sb m fuel :
  mnt_op m = tpt_vfsops -> same_data (installed mp devvp xmp fsp sb m w0) w ->
  (forall cmd uid arg, VFS_QUOTACTL fuel mp cmd uid arg w = Stop Fuel w) /\
  (forall ino flags vpp, Z.land flags LK_TYPE_MASK <> 0 ->
     VFS_VGET fuel mp ino flags vpp w = Stop Fuel w) /\
  (forall fidp flags vpp, VFS_FHTOVP fuel mp fidp flags vpp w = Stop Fuel w) /\
  (forall cmd vp ns attr, VFS_EXTATTRCTL fuel mp cmd vp ns attr w = Stop Fuel w) /\
  (forall sbp, exists w', VFS_STATFS fuel mp sbp w = Stop Fuel w').
Proof.
  intros Hop S. assert (Hself : self_mounted w mp).
  { pose proof (installed_self_mounted mp devvp xmp fsp sb m w0 Hop) as (m' & tm & Hr).
    exists m', tm. rewrite S. exact Hr. }
  clear S w0. split; [|split; [|split; [|split]]].
  - intros cmd uid arg. induction fuel as [|fuel IH]; [done|]. cbn [VFS_QUOTACTL].
    rewrite dispatch_self by done. unfold tptfs_quotactl.
    now erewrite bind_Ret by (apply passed_to_self; exact Hself).
  - intros ino flags vpp Hf. induction fuel as [|fuel IH]; [done|]. cbn [VFS_VGET].
    rewrite dispatch_self by done. unfold tptfs_vget.
    erewrite bind_Ret by (apply KASSERT_ok; now rewrite (proj2 (Z.eqb_neq _ _) Hf)).
    erewrite bind_Ret by (apply passed_to_self; exact Hself). now erewrite bind_Stop by exact IH.
  - intros fidp flags vpp. induction fuel as [|fuel IH]; [done|]. cbn [VFS_FHTOVP].
    rewrite dispatch_self by done. unfold tptfs_fhtovp.
    erewrite bind_Ret by (apply passed_to_self; exact Hself). now erewrite bind_Stop by exact IH.
  - intros cmd vp ns attr. induction fuel as [|fuel IH]; [done|]. cbn [VFS_EXTATTRCTL].
    rewrite dispatch_self by done. unfold tptfs_extattrctl.
    now erewrite bind_Ret by (apply passed_to_self; exact Hself).
  - intros sbp. revert w sbp Hself. induction fuel as [|fuel IH]; intros w sbp Hself; [now exists w|].
    cbn [VFS_STATFS]. rewrite dispatch_self by done. unfold tptfs_statfs.
    destruct (malloc_statfs_spec w) as (p & f & w1 & E1 & _ & S1). erewrite bind_Ret by exact E1.
    assert (F1 : w_statfs w1 !! p = Some f) by (rewrite S1; apply lookup_insert_eq).
    erewrite bind_Ret by (eapply update_run; exact F1).
    set (w2 := set_statfs _ w1).
    assert (Hself2 : self_mounted w2 mp).
    { destruct Hself as (m' & tm & Hr). exists m', tm. unfold w2. cbn. rewrite S1. exact Hr. }
    erewrite bind_Ret by (apply passed_to_self; exact Hself2).
    destruct (IH w2 p Hself2) as (w' & E'). exists w'. now erewrite bind_Stop by exact E'.
Qed.

(** Over another file system [tptfs_statfs] reports its statistics, and
    the flags of both mounts in the way of [merge_statfs]; the buffer that it
    allocates for the purpose is freed again, also when the call below fails,
    whose error it returns. *)
Theorem tptfs_statfs_merges (w : world X) mp m tm sbp sb fuel n error st :
  w_mounts w !! mp = Some m -> mnt_op m = tpt_vfsops -> w_tmounts w !! mnt_data m = Some tm ->
  (exists lm, w_mounts w !! nullm_vfs tm = Some lm /\ mnt_op lm = other_vfsops n) ->
  w_statfs w !! sbp = Some sb ->
  (forall p w1, w_statfs w1 !! p <> None -> exists w2,
     other_VFS_STATFS (nullm_vfs tm) p w1 = Ret error w2 /\
     same_data (set_statfs (<[p := st]> (w_statfs w1)) w1) w2) ->
  exists w', VFS_STATFS (S (S fuel)) mp sbp w = Ret error w' /\
    same_data (if error =? 0 then set_statfs (<[sbp := merge_statfs sb st]> (w_statfs w)) w else w) w'.
Proof.
  intros Hm Hop Ht (lm & Hlm & Hlop) Hsb Hlow.
  change (VFS_STATFS (S (S fuel)) mp sbp w) with
    ((m <- mount_at mp ;;
      match mnt_op m with
      | tpt_vfsops => tptfs_statfs (VFS_STATFS (S fuel)) mp sbp
      | other_vfsops _ => other_VFS_STATFS mp sbp
      end) w).
  unfold mount_at. erewrite bind_Ret by (eapply deref_run; exact Hm). rewrite Hop. unfold tptfs_statfs.
  destruct (malloc_statfs_spec w) as (p & f & w1 & E1 & Hp & S1). erewrite bind_Ret by exact E1.
  assert (F1 : w_statfs w1 !! p = Some f) by (rewrite S1; apply lookup_insert_eq).
  erewrite bind_Ret by (eapply update_run; exact F1).
  set (w2 := set_statfs (<[p := Statfs 0 0 0 0 0 0 0 0 0]> (w_statfs w1)) w1).
  assert (Hne : p <> sbp) by congruence.
  assert (M2 : w_mounts w2 = w_mounts w /\ w_tmounts w2 = w_tmounts w) by (unfold w2; cbn; now rewrite S1).
  destruct M2 as [M2 T2].
  rewrite <- M2 in Hm, Hlm. rewrite <- T2 in Ht.
  erewrite bind_Ret by (eapply passed_to_run; eassumption).
  destruct (Hlow p w2) as (w3 & E3 & S3); [unfold w2; cbn; now rewrite lookup_insert_eq|].
  assert (Ev : VFS_STATFS (S fuel) (nullm_vfs tm) p w2 = Ret error w3).
  { cbn [VFS_STATFS]. unfold mount_at. read_bind. now rewrite Hlop. }
  erewrite bind_Ret by exact Ev.
  assert (F3 : w_statfs w3 !! p = Some st) by (rewrite S3; apply lookup_insert_eq).
  assert (B3 : w_statfs w3 !! sbp = Some sb).
  { rewrite S3. cbn. rewrite !lookup_insert_ne by done. rewrite S1. cbn. now rewrite lookup_insert_ne. }
  apply same_data_fields in S1, S3. unfold w2 in S3. cbn in S1, S3.
  destruct (Z.eqb_spec error 0) as [->|He]; cbn [negb].
  - read_bind. erewrite bind_Ret by (eapply update_run; exact B3).
    destruct (free_statfs_spec p (set_statfs (<[sbp := merge_statfs sb st]> (w_statfs w3)) w3))
      as (w4 & E4 & S4).
    erewrite bind_Ret by exact E4. exists w4. split; [done|].
    apply same_data_fields in S4. apply same_data_fields. cbn in *.
    rewrite_fields S4.
    rewrite_fields S3.
    rewrite_fields S1.
    do 8 (split; [done|]). split; [|done].
    rewrite delete_insert_ne by done. rewrite !insert_insert_eq. now rewrite delete_insert_id.
  - destruct (free_statfs_spec p w3) as (w4 & E4 & S4).
    erewrite bind_Ret by exact E4. exists w4. split; [done|].
    apply same_data_fields in S4. apply same_data_fields. cbn in *.
    rewrite_fields S4.
    rewrite_fields S3.
    rewrite_fields S1.
    do 8 (split; [done|]). split; [|done]. rewrite !insert_insert_eq. now rewrite delete_insert_id.
Qed.

End self_mount.

(** ** Unmounting *)

Section unmounting.
  Context {X : Type} `{Headers} `{FreeBSD X} `{!References X} `{!NewMount X}.
  Implicit Types w : world X.
  Context (mp xmp lroot : Z).

(** [mp] is a tptfs mount without caching whose list holds [n] vnodes. *)
Definition mounted (n : Z) (w : world X) : Prop :=
  exists m tm, w_mounts w !! mp = Some m /\ mnt_data m = xmp /\ mnt_nvnodelistsize m = n /\
    w_tmounts w !! xmp = Some tm /\ nullm_flags tm = 0 /\ nullm_lowerrootvp tm = lroot /\
    used w lroot 1.

(** [vflush] fails or leaves fewer vnodes, none below zero. *)
Definition flushes (flags : Z) : Prop :=
  forall n w, 0 <= n -> mounted n w ->
    exists e n' w', vflush mp 0 flags w = Ret e w' /\ 0 <= n' /\ mounted n' w' /\
      (e = 0 -> n' = 0 \/ n' < n).

Lemma mounted_same n w w' : same_data w w' -> mounted n w -> mounted n w'.
Proof. intros ->. done. Qed.

Definition list_size (w : world X) : Z :=
  match w_mounts w !! mp with Some m => mnt_nvnodelistsize m | None => 0 end.

Lemma mounted_size n w : mounted n w -> list_size w = n.
Proof. intros (m & tm & Hm & _ & Hs & _). unfold list_size. now rewrite Hm. Qed.

(** One round: an error, the end, or another round with fewer vnodes. *)
Lemma flush_round_run mntflags flags n w :
  flushes flags -> 0 <= n -> mounted n w ->
  wp (flush_round mp mntflags flags) (fun r w' =>
    match r with
    | inl tt => has mntflags MNT_FORCE = true /\ exists n', 0 <= n' < n /\ mounted n' w'
    | inr (Some e) => e <> 0 \/ (e = EBUSY /\ has mntflags MNT_FORCE = false)
    | inr None => mounted 0 w'
    end) w.
Proof.
  intros Hfl Hn Hm. destruct (Hfl n w Hn Hm) as (e & n' & w1 & E1 & Hn' & Hm1 & Hless).
  unfold wp, flush_round. erewrite bind_Ret by exact E1.
  destruct (Z.eqb_spec e 0) as [->|He]; cbn [negb]; [|now left].
  destruct (quiet_run (MNT_ILOCK mp) w1) as ([] & w2 & E2 & S2). erewrite bind_Ret by exact E2.
  pose proof (mounted_same _ _ _ S2 Hm1) as Hm2.
  pose proof Hm2 as (m & tm & Hmm & _ & Hs & _). unfold mount_at. erewrite bind_Ret by (eapply deref_run; exact Hmm).
  destruct (quiet_run (MNT_IUNLOCK mp) w2) as ([] & w3 & E3 & S3). rewrite Hs.
  destruct (Z.eqb_spec n' 0) as [->|Hnz]; erewrite bind_Ret by exact E3.
  - exact (mounted_same _ _ _ S3 Hm2).
  - destruct (has mntflags MNT_FORCE) eqn:Ef; cbn.
    + split; [done|]. exists n'. split; [destruct (Hless eq_refl); lia | exact (mounted_same _ _ _ S3 Hm2)].
    + now right.
Qed.

(** The structure is freed and the lower root released. *)
Lemma unmount_finish_run fuel w :
  mounted 0 w -> exists w', unmount_finish fuel mp w = Ret 0 w' /\
    (exists m, w_mounts w' !! mp = Some m /\ mnt_data m = 0) /\ w_tmounts w' !! xmp = None /\
    use_changes w w' lroot (-1).
Proof.
  intros (m & tm & Hm & Hd & Hs & Ht & Hf & Hl & Hu). unfold unmount_finish, MOUNTTONULLMOUNT, mount_at, tmount_at.
  erewrite bind_Ret by (read_bind; reflexivity). rewrite Hd. read_bind. cbv zeta. rewrite Hf.
  change (has 0 NULLM_CACHE) with false. cbn [when]. erewrite bind_Ret by reflexivity. read_bind. rewrite Hl.
  destruct (vrele_run w lroot 1 Hu ltac:(lia)) as (w1 & E1 & S1). erewrite bind_Ret by exact E1.
  assert (Hm1 : w_mounts w1 !! mp = Some m) by now rewrite S1.
  unfold update_mount. erewrite bind_Ret by (eapply update_run; exact Hm1).
  destruct (free_mount_spec xmp (set_mounts (<[mp := mount_set_data 0 m]> (w_mounts w1)) w1)) as (w2 & E2 & S2).
  erewrite bind_Ret by exact E2. exists w2. split; [done|].
  apply same_data_fields in S2. cbn in S2. destruct S2 as (Ev & _ & -> & -> & _).
  split; [exists (mount_set_data 0 m); split; [apply lookup_insert_eq | done]|].
  split; [apply lookup_delete_eq|]. destruct Hu as (v & Hv & Hu).
  exists v. rewrite Ev, S1. cbn. rewrite lookup_alter_eq, Hv. eexists. split; [done|].
  split; [reflexivity | done].
Qed.


End unmounting.

(** ** The root and the lower layer's notifications *)

Section notifications.
  Context {X : Type} `{Headers} `{FreeBSD X} `{!StableHash X} `{!Quiet X} `{!References X}
    `{!NewVnode X}.
  Implicit Types w : world X.

(** An error of [tpt_nodeget] is passed on, the out-parameter left alone. *)
Lemma nodeget_error {A} (d : M (world X) A) e mp low vpp w w2 :
  e <> 0 -> tpt_nodeget mp low w = (d ;;; ret (e, NULLVP)) w2 ->
  (let* (error, vp) := tpt_nodeget mp low in
   when (error =? 0) (assign vpp vp) ;;; ret error) w = (d ;;; ret e) w2.
Proof.
  intros He E. unfold bind in *. rewrite E. destruct (d w2); [|done]. cbn.
  now rewrite (proj2 (Z.eqb_neq _ _) He).
Qed.

(** The flags of a node whose lower file was removed. *)
Definition unlinked_flags (f : Z) : Z :=
  Z.ldiff (Z.lor f (Z.lor NULLV_DROP NULLV_NOUNLOCK)) NULLV_NOUNLOCK.

Lemma unlinked_flags_bits f :
  Z.testbit (unlinked_flags f) 1 = true /\ Z.testbit (unlinked_flags f) 0 = false /\
  has (unlinked_flags f) NULLV_DROP = true.
Proof.
  assert (Hb : Z.testbit (unlinked_flags f) 1 = true).
  { unfold unlinked_flags. rewrite Z.ldiff_spec, !Z.lor_spec. apply andb_true_iff. split; [|done].
    apply orb_true_iff. now right. }
  split; [done|]. split; [unfold unlinked_flags; now rewrite Z.ldiff_spec, andb_false_r|].
  unfold has. change NULLV_DROP with (Z.shiftl 1 1). now rewrite land_shiftl_one_eqb, Hb by lia.
Qed.

(** The reference of [tpt_hashget] is turned into a hold and given back. *)
Lemma hold_unref w vp v :
  w_vnodes w !! vp = Some v -> 1 < v_usecount v ->
  exists w', (vhold vp ;;; vunref vp) w = Ret tt w' /\ same_data (add_use vp (-1) w) w'.
Proof.
  intros Hv Hu. destruct (quiet_run (vhold vp) w) as ([] & w3 & E3 & S3).
  assert (Hv3 : w_vnodes w3 !! vp = Some v) by (rewrite S3; exact Hv).
  destruct (vunref_spec vp w3 v Hv3 Hu) as (w4 & E4 & S4). exists w4.
  split; [erewrite bind_Ret by exact E3; exact E4|]. rewrite S4, S3. done.
Qed.

(** The rest of [tptfs_unlink_lowervp], for a vnode still in use. *)
Lemma unlink_finish w vp xp v x :
  w_vnodes w !! vp = Some v -> 0 < v_usecount v -> w_nodes w !! xp = Some x ->
  (forall w', w_vnodes w' = w_vnodes w -> VN_IS_DOOMED w' vp = false) ->
  exists w',
    (v <- vnode_at vp ;;
     (if v_usecount v =? 0 then
        KASSERT (gets (fun w => VN_IS_DOOMED w vp)) "not reclaimed tptfs vnode" ;;;
        VOP_UNLOCK vp ;;;
        ret tt
      else
        ASSERT_VOP_ELOCKED vp "unlink_lowervp" ;;;
        KASSERT (doomed <- gets (fun w => VN_IS_DOOMED w vp) ;; ret (negb doomed))
          "reclaimed tptfs vnode" ;;;
        update_node xp (fun x => node_set_flags (Z.ldiff (tpt_flags x) NULLV_NOUNLOCK) x)) ;;;
     vdrop vp) w = Ret tt w' /\
    same_data (set_nodes (<[xp := node_set_flags (Z.ldiff (tpt_flags x) NULLV_NOUNLOCK) x]> (w_nodes w)) w) w'.
Proof.
  intros Hv Hu Hx Hdoom. unfold vnode_at. erewrite bind_Ret by (eapply deref_run; exact Hv).
  rewrite (proj2 (Z.eqb_neq (v_usecount v) 0)) by lia.
  destruct (quiet_run (ASSERT_VOP_ELOCKED vp "unlink_lowervp") w) as ([] & w5 & E5 & S5).
  assert (Hdo : KASSERT (doomed <- gets (fun w => VN_IS_DOOMED w vp) ;; ret (negb doomed))
    "reclaimed tptfs vnode" w5 = Ret tt w5).
  { apply KASSERT_ok. erewrite bind_Ret by reflexivity. rewrite (Hdoom w5); [done|]. now rewrite S5. }
  assert (N5 : w_nodes w5 !! xp = Some x) by (rewrite S5; exact Hx). unfold update_node.
  set (w6 := set_nodes (<[xp := node_set_flags (Z.ldiff (tpt_flags x) NULLV_NOUNLOCK) x]> (w_nodes w5)) w5).
  erewrite (bind_Ret _ _ w tt w6) by (erewrite bind_Ret by exact E5; erewrite bind_Ret by exact Hdo;
    exact (update_run _ _ _ _ _ _ N5)).
  assert (Hv6 : w_vnodes w6 !! vp = Some v) by (unfold w6; cbn; rewrite S5; exact Hv).
  destruct (vdrop_spec vp w6 v Hv6 Hu) as (w7 & E7 & S7). exists w7. split; [exact E7|].
  rewrite S7. unfold w6. now rewrite S5.
Qed.

(** When the lower file system removes a file under a vnode of the cache,
    [tptfs_unlink_lowervp] marks the vnode so that it is recycled once it is
    inactive, whatever the mount's caching; the mark that would keep the lower
    lock on reclamation does not stay, no reference is gained or lost, and the
    cache is as it was.  Without a vnode in the cache nothing happens. *)
Theorem tptfs_unlink_lowervp_marks (w : world X) mp lowervp :
  cache_ok w ->
  (forall w' vp, alias w mp lowervp = Some vp -> w_vnodes w' = w_vnodes w ->
     VN_IS_DOOMED w' vp = false) ->
  match alias w mp lowervp with
  | None => exists w', tptfs_unlink_lowervp mp lowervp w = Ret tt w' /\ same_data w w'
  | Some vp => used w vp 0 ->
      exists xp x v w', w_vnodes w !! vp = Some v /\ v_data v = xp /\ w_nodes w !! xp = Some x /\
        tptfs_unlink_lowervp mp lowervp w = Ret tt w' /\
        (exists x', w_nodes w' !! xp = Some x' /\ tpt_lowervp x' = tpt_lowervp x /\
           tpt_vnode x' = tpt_vnode x /\ Z.testbit (tpt_flags x') 1 = true /\
           Z.testbit (tpt_flags x') 0 = false /\ forall lv tm, wants_recycle x' lv tm = true) /\
        w_vnodes w' = w_vnodes w /\ tpt_node_hashtbl w' = tpt_node_hashtbl w
  end.
Proof.
  intros Hok Hdoom. unfold tptfs_unlink_lowervp.
  destruct (tpt_hashget_spec w mp lowervp Hok) as (w1 & E1 & S1). erewrite bind_Ret by exact E1.
  destruct (alias w mp lowervp) as [vp|] eqn:Ea; cbn [default].
  2: { exists w1. done. }
  intros (v & Hv & Hu). change (id vp) with vp.
  apply alias_entry in Ea as (xp & _ & x & v' & Hx & Hv' & _ & _ & _ & Hd); [|done].
  assert (v' = v) as -> by congruence. exists xp, x, v.
  assert ((vp =? NULLVP) = false) as ->.
  { apply Z.eqb_neq. intros ->. destruct Hok as [Hn _]. congruence. }
  cbn [negb]. apply same_data_fields in S1. cbn in S1. destruct S1 as (V1 & N1 & _ & _ & _ & _ & _ & _ & _ & _ & T1 & _).
  set (v1 := vn_set_usecount (v_usecount v + 1) v).
  assert (Hv1 : w_vnodes w1 !! vp = Some v1) by (rewrite V1, lookup_alter_eq, Hv; done).
  erewrite bind_Ret by (apply VTONULL_run; exact Hv1). change (v_data v1) with (v_data v). rewrite Hd.
  assert (Hx1 : w_nodes w1 !! xp = Some x) by now rewrite N1.
  unfold update_node. erewrite bind_Ret by (eapply update_run; exact Hx1).
  set (x1 := node_set_flags (Z.lor (tpt_flags x) (Z.lor NULLV_DROP NULLV_NOUNLOCK)) x).
  set (w2 := set_nodes (<[xp := x1]> (w_nodes w1)) w1).
  destruct (hold_unref w2 vp v1) as (w4 & E4 & S4); [exact Hv1 | cbn; lia|].
  assert (V4 : w_vnodes w4 = w_vnodes w).
  { rewrite S4. cbn. rewrite V1, alter_alter_eq. apply alter_id. intros u _.
    destruct u. unfold vn_set_usecount. cbn. f_equal. lia. }
  assert (N4 : w_nodes w4 !! xp = Some x1) by (rewrite S4; apply lookup_insert_eq).
  assert (T4 : tpt_node_hashtbl w4 = tpt_node_hashtbl w) by (rewrite S4; exact T1).
  destruct (unlink_finish w4 vp xp v x1) as (w7 & E7 & S7); [now rewrite V4 | lia | exact N4 | |].
  { intros w' Ew. apply Hdoom; [done | congruence]. }
  exists w7. split; [done|]. split; [done|]. split; [done|]. split.
  { unfold bind in E4 |- *. destruct (vhold vp w2); [|done]. rewrite E4. exact E7. }
  destruct (unlinked_flags_bits (tpt_flags x)) as (B1 & B0 & BD). split; [|split].
  - eexists. split; [rewrite S7; apply lookup_insert_eq|]. do 4 (split; [done|]).
    intros lv tm. unfold wants_recycle. cbn [tpt_flags node_set_flags x1].
    unfold unlinked_flags in BD. now rewrite BD, orb_true_r.
  - rewrite S7. exact V4.
  - rewrite S7. exact T4.
Qed.

(** The first [tptfs_root] of a mount makes its root vnode: a vnode marked
    [VV_ROOT] over the lower root, with the lower root's type, which the cache
    then holds; or the kernel refuses and the error is returned. *)
Theorem tptfs_root_makes_root (w w1 : world X) mp flags vpp m tm lv old :
  w_mounts w !! mp = Some m -> w_tmounts w !! mnt_data m = Some tm ->
  vget (nullm_lowerrootvp tm) flags w = Ret 0 w1 ->
  nodeget_pre w1 mp (nullm_lowerrootvp tm) lv m tm -> 0 < v_usecount lv ->
  (forall w', VOP_ISLOCKED w' (nullm_lowerrootvp tm) = LK_EXCLUSIVE) ->
  alias w1 mp (nullm_lowerrootvp tm) = None -> w_vars w1 !! vpp = Some old ->
  (exists e (d : M (world X) unit) w2, e <> 0 /\ tptfs_root mp flags vpp w = (d ;;; ret e) w2) \/
  (exists vp v w', tptfs_root mp flags vpp w = Ret 0 w' /\ w_vars w' !! vpp = Some vp /\
     w_vnodes w' !! vp = Some v /\ v_vflag v = VV_ROOT /\ v_type v = v_type lv /\
     v_mount v = mp /\ cache_ok w' /\ alias w' mp (nullm_lowerrootvp tm) = Some vp).
Proof.
  intros Hm Ht Hg Hpre Hu Hl Ha Hold. set (low := nullm_lowerrootvp tm) in *.
  assert (E0 : tptfs_root mp flags vpp w =
    (let* (error, vp) := tpt_nodeget mp low in
     when (error =? 0) (assign vpp vp) ;;; ret error) w1).
  { unfold tptfs_root, MOUNTTONULLMOUNT, mount_at, tmount_at.
    erewrite bind_Ret by (read_bind; reflexivity). read_bind. erewrite bind_Ret by exact Hg.
    rewrite Z.eqb_refl. destruct Hpre as [_ _ _ Ht1 _].
    now erewrite bind_Ret by (eapply deref_run; exact Ht1). }
  rewrite E0. destruct (nodeget_create w1 mp low lv m tm Hpre Hu Hl Ha)
    as [(e & xp & vp & w2 & He & _ & _ & Hd)|(xp & vp & v & w2 & E2 & _ & Evars & Hv & _ & Hok2 & Ha2)].
  - left. exists e. destruct Hd as [E2|[_ E2]].
    + exists (vput low ;;; free_node xp), w2. split; [done|]. apply nodeget_error; [done|].
      rewrite E2. unfold bind. now destruct (vput low w2).
    + exists (tpt_insmntque_dtr vp xp), w2. split; [done|]. now apply nodeget_error.
  - right. erewrite bind_Ret by exact E2. cbv beta iota. rewrite Z.eqb_refl. cbn [when].
    assert (Hold2 : w_vars w2 !! vpp = Some old) by now rewrite Evars.
    erewrite bind_Ret by (eapply assign_run; exact Hold2).
    exists vp, v, (set_vars (<[vpp := vp]> (w_vars w2)) w2). split; [done|].
    split; [apply lookup_insert_eq|].
    destruct Hv as (Hv & _ & _ & Hmv & _ & Hty & _ & Hfl & _). split; [exact Hv|].
    split; [rewrite Hfl; unfold root_flag; now rewrite Z.eqb_refl|]. split; [done|]. split; [done|].
    pose proof (set_vars_keeps w2 (<[vpp := vp]> (w_vars w2)) Hok2) as K.
    split; [exact (cache_ok_keeps _ _ K Hok2)|]. rewrite (alias_keeps _ _ _ _ K Hok2), Ha2.
    now rewrite decide_True.
Qed.

End notifications.

(** ** Errors of mounting *)

Section mount_errors.
  Context {X : Type} `{Headers} `{FreeBSD X} `{!NewMount X}.
  Implicit Types w : world X.

(** [m] answers [a] and changes nothing that tptfs sees, wherever only the rest
    of the kernel differs from [w]. *)
Definition answers {A} (w : world X) (m : M (world X) A) (a : A) : Prop :=
  forall w1, same_data w w1 -> exists w2, m w1 = Ret a w2 /\ same_data w w2.

(** [tptfs_mount] refuses the root file system with EOPNOTSUPP and a missing
    or unterminated "from" option with EINVAL, before a vnode is looked up and
    with nothing changed; an option without a value, which it means to refuse
    too, is dereferenced first, a null pointer fault. *)
Theorem tptfs_mount_rejects (w : world X) mp m error fspec len :
  w_mounts w !! mp = Some m -> answers w (vfs_getopt_from mp) (error, fspec, len) ->
  (has (mnt_flag m) MNT_ROOTFS = true ->
     exists w', tptfs_mount mp w = Ret EOPNOTSUPP w' /\ same_data w w') /\
  (has (mnt_flag m) MNT_ROOTFS = false -> error <> 0 ->
     exists w', tptfs_mount mp w = Ret EINVAL w' /\ same_data w w') /\
  (has (mnt_flag m) MNT_ROOTFS = false -> error = 0 ->
     match fspec with
     | None => exists w', tptfs_mount mp w = Stop (Fault (len - 1)) w' /\ same_data w w'
     | Some s => forall c, String.get (Z.to_nat (len - 1)) s = Some c -> c <> Ascii.zero ->
         exists w', tptfs_mount mp w = Ret EINVAL w' /\ same_data w w'
     end).
Proof.
  intros Hm Hopt.
  destruct (quiet_run (uprintf "tptfs_mount" []) w) as ([] & w1 & E1 & S1).
  assert (Hm1 : w_mounts w1 !! mp = Some m) by now rewrite S1.
  destruct (quiet_run (uprintf "options" []) w1) as ([] & w2 & E2 & S2).
  destruct (Hopt w2 (same_data_trans _ _ _ S1 S2)) as (w3 & E3 & S3).
  assert (Es : tptfs_mount mp w = (m <- mount_at mp ;;
    if has (mnt_flag m) MNT_ROOTFS then ret EOPNOTSUPP
    else
      uprintf "options" [] ;;;
      let* (error, fspec, len) := vfs_getopt_from mp in
      bad <- (if negb (error =? 0) then ret true else unterminated fspec len) ;;
      if bad then ret EINVAL
      else
        match fspec with
        | None => ret EINVAL
        | Some path =>
            uprintf "device" [] ;;;
            let* (error, devvp) := namei LOOKUP (Z.lor FOLLOW LOCKLEAF) path in
            if negb (error =? 0) then ret error else mount_device mp path devvp
        end) w1) by (unfold tptfs_mount; now erewrite bind_Ret by exact E1).
  rewrite Es. unfold mount_at. erewrite bind_Ret by (eapply deref_run; exact Hm1).
  split; [|split]; intros Hr; rewrite Hr.
  - now exists w1.
  - intros He. erewrite bind_Ret by exact E2. erewrite bind_Ret by exact E3. cbv beta iota.
    rewrite (proj2 (Z.eqb_neq _ _) He). now exists w3.
  - intros ->. erewrite bind_Ret by exact E2. erewrite bind_Ret by exact E3. cbv beta iota.
    change (negb (0 =? 0)) with false. cbv iota. unfold unterminated. destruct fspec as [s|].
    + intros c -> Hc. rewrite bool_decide_eq_false_2 by done. now exists w3.
    + now exists w3.
Qed.

(** Whatever error the first read of the disk reports, [tpt_mountfs]
    forgets it and returns -1, having closed the disk's consumer. *)
Theorem tpt_mountfs_forgets_error (w : world X) devvp mp cp error bp sb :
  quiet (VOP_UNLOCK devvp) -> (forall wr, answers w (g_vfs_open devvp wr) (0, cp)) ->
  answers w (bread devvp 0 1024) (error, bp, sb) -> error <> 0 ->
  exists w1, same_data w w1 /\ tpt_mountfs devvp mp w = mountfs_out bp cp w1 /\
    exists w', mountfs_out bp cp w1 = Ret (-1) w' /\ same_data w w'.
Proof.
  intros Hun Hopen Hread He. unfold tpt_mountfs.
  destruct (quiet_run (uprintf "geom consumer" []) w) as ([] & w1 & E1 & S1).
  erewrite bind_Ret by exact E1.
  destruct (quiet_run (vfs_flagopt_ro mp) w1) as (ronly & w2 & E2 & S2). erewrite bind_Ret by exact E2.
  destruct (quiet_run g_topology_lock w2) as ([] & w3 & E3 & S3). erewrite bind_Ret by exact E3.
  destruct (Hopen (if ronly then 0 else 1) w3) as (w4 & E4 & S4); [eauto 10 using same_data_trans|].
  erewrite bind_Ret by exact E4. cbv beta iota.
  destruct (quiet_run g_topology_unlock w4) as ([] & w5 & E5 & S5). erewrite bind_Ret by exact E5.
  destruct (quiet_run (VOP_UNLOCK devvp) w5) as (u & w6 & E6 & S6). erewrite bind_Ret by exact E6.
  change (negb (0 =? 0)) with false. cbv iota.
  destruct (quiet_run (uprintf "bread" []) w6) as ([] & w7 & E7 & S7). erewrite bind_Ret by exact E7.
  destruct (quiet_run (bufobj_attach devvp cp) w7) as ([] & w8 & E8 & S8). erewrite bind_Ret by exact E8.
  destruct (Hread w8) as (w9 & E9 & S9); [eauto 10 using same_data_trans|].
  erewrite bind_Ret by exact E9. cbv beta iota. rewrite (proj2 (Z.eqb_neq _ _) He). cbn [negb].
  destruct (quiet_run (uprintf "bread fail" []) w9) as ([] & w10 & E10 & S10).
  erewrite bind_Ret by exact E10. destruct (mountfs_out_run bp cp w10) as (w' & E & S').
  exists w10. split; [eauto using same_data_trans|]. split; [done|]. exists w'.
  split; [exact E | eauto using same_data_trans].
Qed.

End mount_errors.

(** ** Examples *)

Section examples.
  #[local] Existing Instance demo_kernel.

Lemma VOP_UNLOCK_quiet vp : quiet (VOP_UNLOCK vp).
Proof. intros w. eexists _, _. split; [reflexivity | now destruct w]. Qed.


(** In the example the mount succeeds. *)
Example demo_mountfs :
  match tpt_mountfs 1 100 demo with
  | Ret r w' => r = 0 /\ w_mounts w' !! 100 = Some (Mount tpt_vfsops 0 0 201 77 2 []) /\
      w_tmounts w' !! 201 = Some (TptMount 100 1 0 1) /\ w_fs w' !! 1 = Some (Tptfs 1 2 3 4 5 6 7 8 9 10)
  | Stop _ _ => False
  end.
Proof. vm_compute. done. Qed.

Definition demo_installed : world sim :=
  installed 100 1 201 1 (Tptfs 1 2 3 4 5 6 7 8 9 10) (demo_mount 0) demo.

Lemma self_mount_never_returns_witness :
  (forall cmd uid arg, VFS_QUOTACTL 1000 100 cmd uid arg demo_installed = Stop Fuel demo_installed) /\
  (forall sbp, exists w', VFS_STATFS 1000 100 sbp demo_installed = Stop Fuel w').
Proof.
  destruct (self_mount_never_returns (H := sim_headers) demo demo_installed 100 1 201 1
    (Tptfs 1 2 3 4 5 6 7 8 9 10) (demo_mount 0) 1000 eq_refl (same_data_refl _)) as (H1 & _ & _ & _ & H2).
  exact (conj H1 H2).
Defined.

(** In [demo] the lower mount is the other file system 50. *)
Lemma tptfs_statfs_merges_witness :
  exists w', VFS_STATFS 2 100 700 demo = Ret 0 w' /\
    same_data (set_statfs (<[700 := merge_statfs (Statfs 0 0 0 0 0 0 0 0 0) (Statfs 1 2 3 4 5 6 7 8 9)]>
      (w_statfs demo)) demo) w'.
Proof.
  apply (tptfs_statfs_merges (H := sim_headers) demo 100 (demo_mount 0) (TptMount 50 1 0 0) 700
    (Statfs 0 0 0 0 0 0 0 0 0) 0 1 0 (Statfs 1 2 3 4 5 6 7 8 9) eq_refl eq_refl eq_refl).
  - eexists. split; reflexivity.
  - reflexivity.
  - intros p w1 Hp. destruct (w_statfs w1 !! p) as [s|] eqn:E; [|congruence].
    cbn [nullm_vfs other_VFS_STATFS demo_kernel sim_kernel]. unfold bind, update. rewrite E.
    eexists. split; [reflexivity | done].
Defined.

Lemma demo_flushes flags : flushes 100 200 1 flags.
Proof.
  intros n w Hn (m & tm & Hm & Hd & Hs & Ht & Hf & Hl & Hu).
  exists 0, 0. cbn [vflush demo_kernel sim_kernel]. unfold update_mount, update, bind. rewrite Hm.
  eexists. split; [reflexivity|]. split; [lia|]. split; [|now left].
  exists (mount_set_size 0 m), tm. cbn. split; [apply lookup_insert_eq|]. done.
Qed.


Lemma tptfs_unlink_lowervp_marks_witness :
  exists xp x v w', w_vnodes demo !! 12 = Some v /\ v_data v = xp /\ w_nodes demo !! xp = Some x /\
    tptfs_unlink_lowervp 100 2 demo = Ret tt w' /\
    (exists x', w_nodes w' !! xp = Some x' /\ tpt_lowervp x' = tpt_lowervp x /\
       tpt_vnode x' = tpt_vnode x /\ Z.testbit (tpt_flags x') 1 = true /\
       Z.testbit (tpt_flags x') 0 = false /\ forall lv tm, wants_recycle x' lv tm = true) /\
    w_vnodes w' = w_vnodes demo /\ tpt_node_hashtbl w' = tpt_node_hashtbl demo.
Proof.
  assert (Hd : forall w' vp, alias demo 100 2 = Some vp -> w_vnodes w' = w_vnodes demo ->
    VN_IS_DOOMED w' vp = false).
  { intros w' vp [= <-] E. cbn [VN_IS_DOOMED demo_kernel sim_kernel]. rewrite E. reflexivity. }
  pose proof (tptfs_unlink_lowervp_marks (H := sim_headers) demo 100 2 (demo_cache_ok _ _ _) Hd) as Hm.
  change (alias demo 100 2) with (Some 12) in Hm. apply Hm. eexists. split; reflexivity.
Defined.

(** The example with an empty cache. *)
Definition demo_fresh : world sim := demo_world ∅ 0 no_args no_attrs.
Definition demo_vget : world sim := final (vget 1 0 demo_fresh).

Lemma tptfs_root_makes_root_witness :
  (exists e (d : M (world sim) unit) w2, e <> 0 /\ tptfs_root 100 0 400 demo_fresh = (d ;;; ret e) w2) \/
  (exists vp v w', tptfs_root 100 0 400 demo_fresh = Ret 0 w' /\ w_vars w' !! 400 = Some vp /\
     w_vnodes w' !! vp = Some v /\ v_vflag v = VV_ROOT /\ v_type v = VDIR /\
     v_mount v = 100 /\ cache_ok w' /\ alias w' 100 1 = Some vp).
Proof.
  apply (tptfs_root_makes_root (H := sim_headers) (H0 := demo_kernel) demo_fresh demo_vget 100 0 400 (demo_mount 0)
    (TptMount 50 1 0 0) (vn_set_usecount 4 (demo_lower 1 VDIR 1)) 0 eq_refl eq_refl eq_refl);
    [split; [apply cache_ok_empty; reflexivity | reflexivity..] | reflexivity | reflexivity
    | reflexivity | reflexivity].
Defined.

Example demo_root :
  match tptfs_root 100 0 400 demo_fresh with
  | Ret r w' => r = 0 /\ w_vars w' !! 400 = Some 13 /\ alias w' 100 1 = Some 13
  | Stop _ _ => False
  end.
Proof. vm_compute. done. Qed.

(** Mounting as the root file system. *)
Lemma tptfs_mount_rejects_witness :
  exists w', tptfs_mount 100 (demo_op 0x4000 no_args) = Ret EOPNOTSUPP w' /\
    same_data (demo_op 0x4000 no_args) w'.
Proof.
  refine (proj1 (tptfs_mount_rejects (H := sim_headers) (demo_op 0x4000 no_args) 100 (demo_mount 0x4000)
    0 (Some (String.append "d" (String.String Ascii.zero ""))) 2 eq_refl _) eq_refl).
  intros w1 S1. exists w1. split; [reflexivity | exact S1].
Defined.

End examples.

(** A kernel that cannot read the disk. *)
Definition broken_disk : FreeBSD sim :=
  sim_kernel (fun _ _ => (0, 0)) (fun name => if String.eqb name "bread" then 5 else 0).

Lemma tpt_mountfs_forgets_error_witness :
  exists w1, same_data demo w1 /\
    tpt_mountfs (H0 := broken_disk) 1 100 demo = mountfs_out (H0 := broken_disk) 9 7 w1 /\
    exists w', mountfs_out (H0 := broken_disk) 9 7 w1 = Ret (-1) w' /\ same_data demo w'.
Proof.
  apply (tpt_mountfs_forgets_error (H0 := broken_disk) demo 1 100 7 5 9
    (Tptfs 1 2 3 4 5 6 7 8 9 10)).
  - intros w. eexists _, _. split; [reflexivity | now destruct w].
  - intros wr w1 S1. eexists. split; [reflexivity|]. rewrite S1. done.
  - intros w1 S1. eexists. split; [reflexivity|]. rewrite S1. done.
  - discriminate.
Defined.
