(* ===== verification/Riscv.v ===== *)
(** * Riscv: the machine of src/toyos

    toyos runs on a 64-bit RISC-V hart in supervisor mode, without address
    translation (Kernel/Arch/riscv/boot.S never writes satp): memory is a finite
    map from physical addresses to bytes.  Pointers and [long] have 64 bits,
    [int] and the [size_t] of Library/libc/stddef.h 32, and [char] is unsigned,
    as in the lp64 ABI that the CMakeLists.txt selects. *)

From stdpp Require Import base numbers list strings gmap.
From S2P Require Import Prelude.
From Stdlib Require Import ZArith Lia.
Open Scope Z_scope.

Definition s8 (z : Z) : Z := (z + 2 ^ 7) mod 2 ^ 8 - 2 ^ 7.

(** The registers of an [ecall] into the SBI firmware. *)
Record sbi_call : Type := SbiCall { r_a7 : Z; r_a6 : Z; r_a0 : Z; r_a1 : Z; r_a2 : Z; r_a3 : Z; r_a4 : Z }.

(** Memory, and the calls of the firmware so far. *)
Record hart : Type := Hart { m_ram : gmap Z Z; m_calls : list sbi_call }.

Definition set_ram (r : gmap Z Z) (s : hart) : hart := Hart r (m_calls s).

Abbreviation C := (M hart).

(** ** Memory accesses *)

Definition load_byte (a : Z) : C Z := fun s =>
  match m_ram s !! a with
  | Some b => Ret b s
  | None => Stop (Fault a) s
  end.

Definition store_byte (a b : Z) : C unit := fun s =>
  match m_ram s !! a with
  | Some _ => Ret tt (set_ram (<[a := u8 b]> (m_ram s)) s)
  | None => Stop (Fault a) s
  end.

(** Little-endian words of [n] bytes. *)
Fixpoint load_le (n : nat) (a : Z) : C Z :=
  match n with
  | O => ret 0
  | S n => b <- load_byte a ;; r <- load_le n (u64 (a + 1)) ;; ret (b + 2 ^ 8 * r)
  end.

Fixpoint store_le (n : nat) (a v : Z) : C unit :=
  match n with
  | O => ret tt
  | S n => store_byte a v ;;; store_le n (u64 (a + 1)) (v / 2 ^ 8)
  end.

(** Library/libc/stdarg.h on this ABI: a [va_list] is the address of the next
    argument, and every argument takes eight bytes. *)
Definition va_int (args : Z) : C (Z * Z) :=
  v <- load_le 4 args ;; ret (s32 v, u64 (args + 8)).
Definition va_ptr (args : Z) : C (Z * Z) :=
  v <- load_le 8 args ;; ret (v, u64 (args + 8)).

(** ** Contents of memory *)

Fixpoint write (m : gmap Z Z) (a : Z) (l : list Z) : gmap Z Z :=
  match l with
  | [] => m
  | b :: l => write (<[a := b]> m) (a + 1) l
  end.

(** [s] after the bytes [l] were stored at [a]. *)
Definition wr (s : hart) (a : Z) (l : list Z) : hart := set_ram (write (m_ram s) a l) s.

(** The [n] bytes from [a] on exist, below the end of the address space. *)
Definition mapped (m : gmap Z Z) (a n : Z) : Prop :=
  0 <= a /\ a + n < 2 ^ 64 /\ forall x, a <= x < a + n -> is_Some (m !! x).

Definition holds (m : gmap Z Z) (a : Z) (l : list Z) : Prop :=
  0 <= a /\ a + Z.of_nat (length l) < 2 ^ 64 /\
  forall i b, l !! i = Some b -> m !! (a + Z.of_nat i) = Some b.

(** The C string [l] is at [a]. *)
Definition cstring (m : gmap Z Z) (a : Z) (l : list Z) : Prop :=
  Forall (fun b => 0 < b < 256) l /\ holds m a (l ++ [0]).

(** Two ranges of addresses without a common one. *)
Definition apart (a n b k : Z) : Prop := a + n <= b \/ b + k <= a.

(** The little-endian bytes of a word. *)
Fixpoint le_bytes (n : nat) (v : Z) : list Z :=
  match n with
  | O => []
  | S n => u8 v :: le_bytes n (v / 2 ^ 8)
  end.

(** The character codes of a string literal. *)
Fixpoint codes (t : string) : list Z :=
  match t with
  | EmptyString => []
  | String c t => Z.of_N (Ascii.N_of_ascii c) :: codes t
  end.

(** ** Lemmas *)

Lemma u64_small z : 0 <= z < 2 ^ 64 -> u64 z = z.
Proof. apply Z.mod_small. Qed.

Lemma s8_small z : - 2 ^ 7 <= z < 2 ^ 7 -> s8 z = z.
Proof. intros H. unfold s8. rewrite Z.mod_small; lia. Qed.

Lemma write_app m a l1 l2 : write m a (l1 ++ l2) = write (write m a l1) (a + Z.of_nat (length l1)) l2.
Proof.
  revert m a. induction l1 as [|b l1 IH]; intros m a; cbn [write app length].
  - now rewrite Z.add_0_r.
  - rewrite IH. f_equal. lia.
Qed.

Lemma write_snoc m a l b : write m a (l ++ [b]) = <[a + Z.of_nat (length l) := b]> (write m a l).
Proof. now rewrite write_app. Qed.

Lemma write_out m a l x : x < a \/ a + Z.of_nat (length l) <= x -> write m a l !! x = m !! x.
Proof.
  revert m a. induction l as [|b l IH]; intros m a; cbn [write length]; [done|]. intros Hx.
  rewrite IH by lia. now rewrite lookup_insert_ne by lia.
Qed.

Lemma write_in m a l i b : l !! i = Some b -> write m a l !! (a + Z.of_nat i) = Some b.
Proof.
  revert m a i. induction l as [|c l IH]; intros m a i; [done|]. destruct i as [|i]; cbn [write].
  - intros [= ->]. rewrite write_out by lia. rewrite Z.add_0_r. now rewrite lookup_insert_eq.
  - intros Hi. replace (a + Z.of_nat (S i)) with (a + 1 + Z.of_nat i) by lia. now apply IH.
Qed.

Lemma write_is_Some m a l x : is_Some (m !! x) -> is_Some (write m a l !! x).
Proof.
  revert m a. induction l as [|b l IH]; intros m a Hx; cbn [write]; [done|].
  apply IH. rewrite lookup_insert. now case_decide.
Qed.

Lemma mapped_write m a l x n : mapped m x n -> mapped (write m a l) x n.
Proof. intros (? & ? & Hm). split; [done|]. split; [done|]. auto using write_is_Some. Qed.

Lemma mapped_sub m a n b k : mapped m a n -> a <= b -> b + k <= a + n -> mapped m b k.
Proof. intros (? & ? & Hm) ??. split; [lia|]. split; [lia|]. intros x Hx. apply Hm. lia. Qed.

Lemma holds_mapped m a l : holds m a l -> mapped m a (Z.of_nat (length l)).
Proof.
  intros (? & ? & Hb). split; [done|]. split; [done|]. intros x Hx.
  destruct (lookup_lt_is_Some_2 l (Z.to_nat (x - a))) as [b E]; [lia|].
  exists b. rewrite <- (Hb _ _ E). f_equal. lia.
Qed.

Lemma holds_write m a l b w :
  holds m a l -> apart a (Z.of_nat (length l)) b (Z.of_nat (length w)) -> holds (write m b w) a l.
Proof.
  intros (? & ? & Hb) Hd. split; [done|]. split; [done|]. intros i c Hi.
  pose proof (lookup_lt_Some _ _ _ Hi). rewrite write_out; [auto|]. destruct Hd; lia.
Qed.

Lemma holds_written m a l : 0 <= a -> a + Z.of_nat (length l) < 2 ^ 64 -> holds (write m a l) a l.
Proof. intros. split; [done|]. split; [done|]. intros i b. apply write_in. Qed.

Lemma holds_app m a l1 l2 :
  holds m a (l1 ++ l2) <-> holds m a l1 /\ holds m (a + Z.of_nat (length l1)) l2.
Proof.
  unfold holds. rewrite length_app. split.
  - intros (? & ? & Hb). split; (split; [lia|]; split; [lia|]); intros i b Hi.
    + apply Hb. now apply lookup_app_l_Some.
    + replace (a + Z.of_nat (length l1) + Z.of_nat i) with (a + Z.of_nat (length l1 + i)) by lia.
      apply Hb. rewrite lookup_app_r by lia. rewrite <- Hi. f_equal. lia.
  - intros ((? & ? & H1) & (? & ? & H2)). split; [done|]. split; [lia|]. intros i b Hi.
    apply lookup_app_Some in Hi as [Hi|[? Hi]]; [now apply H1|].
    rewrite <- (H2 _ _ Hi). f_equal. lia.
Qed.

Lemma holds_cons m a b l : holds m a (b :: l) <-> 0 <= a /\ m !! a = Some b /\ holds m (a + 1) l.
Proof.
  change (b :: l) with ([b] ++ l). rewrite holds_app. cbn [length]. split.
  - intros [(? & ? & H1) H2]. split; [done|]. split; [|done]. rewrite <- (Z.add_0_r a). now apply (H1 O).
  - intros (? & E & H2). split; [|done]. pose proof H2 as (_ & ? & _). split; [done|].
    split; [cbn; lia|]. intros [|i] c Hi; cbn in Hi; [|done]. simplify_eq. now rewrite Z.add_0_r.
Qed.

Lemma holds_lookup m a l i b : holds m a l -> l !! i = Some b -> m !! (a + Z.of_nat i) = Some b.
Proof. intros (_ & _ & Hb). apply Hb. Qed.

Lemma cstring_char m a l i b :
  cstring m a l -> l !! i = Some b -> m !! (a + Z.of_nat i) = Some b /\ 0 < b < 256.
Proof.
  intros [Hl Hh] Hi. split; [|exact (Forall_lookup_1 _ _ _ _ Hl Hi)].
  apply (holds_lookup _ _ _ _ _ Hh). now apply lookup_app_l_Some.
Qed.

Lemma cstring_end m a l : cstring m a l -> m !! (a + Z.of_nat (length l)) = Some 0.
Proof. intros [_ Hh]. apply (holds_lookup _ _ _ _ _ Hh). now apply list_lookup_middle. Qed.

Lemma cstring_range m a l : cstring m a l -> 0 <= a /\ a + Z.of_nat (length l) + 1 < 2 ^ 64.
Proof. intros [_ (? & Hr & _)]. rewrite length_app in Hr. cbn in Hr. lia. Qed.

Lemma cstring_write m a l b w :
  cstring m a l -> apart a (Z.of_nat (length l) + 1) b (Z.of_nat (length w)) ->
  cstring (write m b w) a l.
Proof.
  intros [Hl Hh] Hd. split; [done|]. apply holds_write; [done|].
  rewrite length_app. unfold apart in *. cbn. lia.
Qed.

(** ** Runs *)

Lemma load_run s a b : m_ram s !! a = Some b -> load_byte a s = Ret b s.
Proof. unfold load_byte. now intros ->. Qed.

(** A store that continues a write. *)
Lemma store_run s a l b x :
  mapped (m_ram s) a x -> Z.of_nat (length l) < x ->
  store_byte (a + Z.of_nat (length l)) b (wr s a l) = Ret tt (wr s a (l ++ [u8 b])).
Proof.
  intros (_ & _ & Hm) Hx. destruct (Hm (a + Z.of_nat (length l))) as [c E]; [lia|].
  unfold store_byte, wr. cbn [m_ram set_ram]. rewrite write_out by lia. now rewrite E, write_snoc.
Qed.

Lemma wr_nil s a : wr s a [] = s.
Proof. now destruct s. Qed.

Lemma wr_app s a l1 l2 : wr s a (l1 ++ l2) = wr (wr s a l1) (a + Z.of_nat (length l1)) l2.
Proof. unfold wr. cbn. now rewrite write_app. Qed.

Lemma load_le_run l : forall s a v,
  holds (m_ram s) a l -> l = le_bytes (length l) v ->
  load_le (length l) a s = Ret (v mod 2 ^ (8 * Z.of_nat (length l))) s.
Proof.
  induction l as [|b l IH]; intros s a v Hh E; cbn [length load_le].
  - now rewrite Z.mod_1_r.
  - cbn [length le_bytes] in E. injection E as Eb El. apply holds_cons in Hh as (Ha & Hb & Hh).
    erewrite bind_Ret by exact (load_run _ _ _ Hb). pose proof Hh as (_ & ? & _).
    rewrite u64_small by lia. erewrite bind_Ret by exact (IH _ _ _ Hh El).
    unfold ret. f_equal. rewrite Eb. unfold u8.
    replace (8 * Z.of_nat (S (length l))) with (8 + 8 * Z.of_nat (length l)) by lia.
    rewrite Z.pow_add_r, Z.rem_mul_r by lia. lia.
Qed.

Lemma length_le_bytes n v : length (le_bytes n v) = n.
Proof. revert v. induction n as [|n IH]; intros v; cbn; [done|]. now rewrite IH. Qed.

Lemma store_le_run n : forall s a v,
  mapped (m_ram s) a (Z.of_nat n) -> store_le n a v s = Ret tt (wr s a (le_bytes n v)).
Proof.
  induction n as [|n IH]; intros s a v Hm; cbn [store_le le_bytes]; [now rewrite wr_nil|].
  pose proof Hm as (? & ? & _).
  pose proof (store_run s a [] v _ Hm ltac:(cbn; lia)) as E. rewrite Z.add_0_r, wr_nil in E.
  erewrite bind_Ret by exact E. rewrite u64_small by lia. cbn [app].
  rewrite IH; [done|].
  apply mapped_write. apply (mapped_sub _ _ _ _ _ Hm); lia.
Qed.

(** A loop whose variables and state at the start of iteration [i] are [st i]
    and [w i], and which ends at iteration [n]. *)
Section loop_run.
  Context {X A B : Type} (step : A -> M X (A + B)) (st : nat -> A) (w : nat -> X) (n : nat).
  Hypothesis Hstep : forall i, (i < n)%nat -> step (st i) (w i) = Ret (inl (st (S i))) (w (S i)).

Lemma loop_steps_run k r z :
  step (st n) (w n) = Ret (inr r) z -> forall i, (i <= n)%nat ->
  loop_steps k step (st i) (w i) =
    if (n <? i + 2 ^ k)%nat then Ret (inr r) z
    else Ret (inl (st (i + 2 ^ k)%nat)) (w (i + 2 ^ k)%nat).
Proof.
  intros Hend. induction k as [|k IH]; intros i Hi; cbn [loop_steps].
  - change (2 ^ 0)%nat with 1%nat. destruct (Nat.ltb_spec n (i + 1)).
    + now replace i with n by lia.
    + rewrite Hstep by lia. now replace (i + 1)%nat with (S i) by lia.
  - pose proof (IH i Hi) as E. rewrite Nat.pow_succ_r' by lia. remember (2 ^ k)%nat as p.
    destruct (Nat.ltb_spec n (i + p)).
    + erewrite bind_Ret by exact E. cbv beta iota. now rewrite (proj2 (Nat.ltb_lt _ (i + 2 * p))) by lia.
    + erewrite bind_Ret by exact E. cbv beta iota. rewrite IH by lia.
      now replace (i + p + p)%nat with (i + 2 * p)%nat by lia.
Qed.

Lemma loop_run k r z :
  step (st n) (w n) = Ret (inr r) z -> Z.of_nat n < 2 ^ Z.of_nat k ->
  loop k step (st O) (w O) = Ret r z.
Proof.
  intros Hend Hk. unfold loop. pose proof (loop_steps_run k r z Hend O ltac:(lia)) as E.
  rewrite (proj2 (Nat.ltb_lt _ _)) in E.
  - now erewrite bind_Ret by exact E.
  - apply Nat2Z.inj_lt. rewrite Nat2Z.inj_add, Nat2Z.inj_pow. exact Hk.
Qed.

End loop_run.

(** ** Concrete memories *)

(** The bytes [l] at [a], over [m]. *)
Definition put (a : Z) (l : list Z) (m : gmap Z Z) : gmap Z Z := write m a l.

Definition booted (m : gmap Z Z) : hart := Hart m [].

Fixpoint holds_check (m : gmap Z Z) (a : Z) (l : list Z) : bool :=
  match l with
  | [] => (0 <=? a) && (a <? 2 ^ 64)
  | b :: l => (0 <=? a) && bool_decide (m !! a = Some b) && holds_check m (a + 1) l
  end.

Definition cstring_check (m : gmap Z Z) (a : Z) (l : list Z) : bool :=
  forallb (fun b => (0 <? b) && (b <? 256)) l && holds_check m a (l ++ [0]).

Fixpoint mapped_check (m : gmap Z Z) (a : Z) (n : nat) : bool :=
  match n with
  | O => (0 <=? a) && (a <? 2 ^ 64)
  | S n => (0 <=? a) && bool_decide (is_Some (m !! a)) && mapped_check m (a + 1) n
  end.

Lemma holds_check_ok m a l : holds_check m a l = true -> holds m a l.
Proof.
  revert a. induction l as [|b l IH]; intros a E; cbn [holds_check] in E.
  - split; [lia|]. split; [cbn; lia|]. intros i b Hi. done.
  - rewrite !andb_true_iff, bool_decide_eq_true in E. destruct E as ((? & ?) & E).
    apply holds_cons. split; [lia|]. split; [done | now apply IH].
Qed.

Lemma cstring_check_ok m a l : cstring_check m a l = true -> cstring m a l.
Proof.
  intros [Hf Hh]%andb_true_iff. split; [|now apply holds_check_ok].
  apply Forall_forall. intros b Hb. rewrite forallb_forall in Hf.
  apply list_elem_of_In, Hf in Hb. lia.
Qed.

Lemma mapped_check_ok m a n : mapped_check m a n = true -> mapped m a (Z.of_nat n).
Proof.
  revert a. induction n as [|n IH]; intros a E; cbn [mapped_check] in E.
  - split; [lia|]. split; [lia|]. lia.
  - rewrite !andb_true_iff, bool_decide_eq_true in E. destruct E as ((? & ?) & E).
    destruct (IH _ E) as (_ & ? & Hm). split; [lia|]. split; [lia|]. intros x Hx.
    destruct (decide (x = a)) as [->|]; [done | apply Hm; lia].
Qed.
