(* ===== verification/Csr.v ===== *)
(** * Csr: Kernel/Arch/riscv/riscvreg.h of src/toyos

    The macros that access control and status registers, as instructions on a
    register file, and the tables of constants, evaluated as the compiler
    evaluates them: with the type of each literal, so that a shift that C++ does
    not define has no value.  sbi.cpp includes the header and uses none of it. *)

From stdpp Require Import base numbers list strings gmap.
From S2P Require Import Prelude.
From Stdlib Require Import ZArith Lia.
Open Scope Z_scope.

(** ** Constant expressions *)

(** The types of the literals; [int] has 32 bits, the others 64 (lp64). *)
Inductive cty : Type := TInt | TLong | TULong | TULLong.

Definition width (t : cty) : Z := match t with TInt => 32 | _ => 64 end.
Definition signed (t : cty) : bool := match t with TInt | TLong => true | _ => false end.

Record cval : Type := CVal { c_ty : cty; c_val : Z }.

(** [a << n].  The count is below the width; a signed result fits the unsigned
    type of its width, and is converted back (C++17, [expr.shift]). *)
Definition shl (a : cval) (n : Z) : option cval :=
  let w := width (c_ty a) in
  if negb ((0 <=? n) && (n <? w)) then None
  else if signed (c_ty a) then
    if (0 <=? c_val a) && (c_val a * 2 ^ n <? 2 ^ w) then
      Some (CVal (c_ty a) ((c_val a * 2 ^ n + 2 ^ (w - 1)) mod 2 ^ w - 2 ^ (w - 1)))
    else None
  else Some (CVal (c_ty a) ((c_val a * 2 ^ n) mod 2 ^ w)).

(** [~a] of an unsigned value. *)
Definition complement (a : cval) : cval := CVal (c_ty a) (2 ^ width (c_ty a) - 1 - c_val a).

Definition int (z : Z) : cval := CVal TInt z.

(** A macro and its value *)
Definition macro : Type := string * option cval.
Definition value (l : list macro) (name : string) : option Z :=
  match (list_find (fun m => m.1 = name) l : option (nat * macro)) with
  | Some (_, (_, Some v)) => Some (c_val v)
  | _ => None
  end.

Definition bit (n : Z) : option cval := shl (int 1) n.
Definition lit (z : Z) : option cval := Some (int z).

Definition SCAUSE_INTR : option cval := shl (CVal TULong 1) 63.
Definition SCAUSE_CODE : option cval := complement <$> SCAUSE_INTR.

Definition scause_codes : list macro := [
  ("SCAUSE_INST_MISALIGNED", lit 0);
  ("SCAUSE_INST_ACCESS_FAULT", lit 1);
  ("SCAUSE_ILLEGAL_INSTRUCTION", lit 2);
  ("SCAUSE_BREAKPOINT", lit 3);
  ("SCAUSE_LOAD_MISALIGNED", lit 4);
  ("SCAUSE_LOAD_ACCESS_FAULT", lit 5);
  ("SCAUSE_STORE_MISALIGNED", lit 6);
  ("SCAUSE_STORE_ACCESS_FAULT", lit 7);
  ("SCAUSE_ECALL_USER", lit 8);
  ("SCAUSE_ECALL_SUPERVISOR", lit 9);
  ("SCAUSE_INST_PAGE_FAULT", lit 12);
  ("SCAUSE_LOAD_PAGE_FAULT", lit 13);
  ("SCAUSE_STORE_PAGE_FAULT", lit 15)]%string.

Definition SSTATUS_FS_SHIFT : Z := 13.
Definition SSTATUS_XS_SHIFT : Z := 15.

(** The sign bit, which depends on [__riscv_xlen] *)
Definition sd_bit (xlen : Z) : option cval :=
  if xlen =? 64 then shl (CVal TULong 1) 63 else bit 31.

Definition sstatus (xlen : Z) : list macro := [
  ("SSTATUS_UIE", bit 0); ("SSTATUS_SIE", bit 1); ("SSTATUS_UPIE", bit 4); ("SSTATUS_SPIE", bit 5);
  ("SSTATUS_SPIE_SHIFT", lit 5);
  ("SSTATUS_SPP", bit 8);
  ("SSTATUS_SPP_SHIFT", lit 8);
  ("SSTATUS_FS_SHIFT", lit SSTATUS_FS_SHIFT);
  ("SSTATUS_FS_OFF", shl (int 0x0) SSTATUS_FS_SHIFT);
  ("SSTATUS_FS_INITIAL", shl (int 0x1) SSTATUS_FS_SHIFT);
  ("SSTATUS_FS_CLEAN", shl (int 0x2) SSTATUS_FS_SHIFT);
  ("SSTATUS_FS_DIRTY", shl (int 0x3) SSTATUS_FS_SHIFT);
  ("SSTATUS_FS_MASK", shl (int 0x3) SSTATUS_FS_SHIFT);
  ("SSTATUS_XS_SHIFT", lit SSTATUS_XS_SHIFT);
  ("SSTATUS_XS_MASK", shl (int 0x3) SSTATUS_XS_SHIFT);
  ("SSTATUS_SUM", bit 18);
  ("SSTATUS_SD", sd_bit xlen)]%string.

(** The masks of the fields here are not shifted. *)
Definition mstatus (xlen : Z) : list macro := [
  ("MSTATUS_UIE", bit 0); ("MSTATUS_SIE", bit 1); ("MSTATUS_HIE", bit 2); ("MSTATUS_MIE", bit 3);
  ("MSTATUS_UPIE", bit 4); ("MSTATUS_SPIE", bit 5); ("MSTATUS_SPIE_SHIFT", lit 5);
  ("MSTATUS_HPIE", bit 6); ("MSTATUS_MPIE", bit 7); ("MSTATUS_MPIE_SHIFT", lit 7);
  ("MSTATUS_SPP", bit 8); ("MSTATUS_SPP_SHIFT", lit 8);
  ("MSTATUS_HPP_MASK", lit 0x3); ("MSTATUS_HPP_SHIFT", lit 9);
  ("MSTATUS_MPP_MASK", lit 0x3); ("MSTATUS_MPP_SHIFT", lit 11);
  ("MSTATUS_FS_MASK", lit 0x3); ("MSTATUS_FS_SHIFT", lit 13);
  ("MSTATUS_XS_MASK", lit 0x3); ("MSTATUS_XS_SHIFT", lit 15);
  ("MSTATUS_MPRV", bit 17); ("MSTATUS_PUM", bit 18);
  ("MSTATUS_VM_MASK", lit 0x1f); ("MSTATUS_VM_SHIFT", lit 24);
  ("MSTATUS_VM_MBARE", lit 0); ("MSTATUS_VM_MBB", lit 1); ("MSTATUS_VM_MBBID", lit 2);
  ("MSTATUS_VM_SV32", lit 8); ("MSTATUS_VM_SV39", lit 9); ("MSTATUS_VM_SV48", lit 10);
  ("MSTATUS_VM_SV57", lit 11); ("MSTATUS_VM_SV64", lit 12);
  ("MSTATUS_SD", sd_bit xlen);
  ("MSTATUS_PRV_U", lit 0); ("MSTATUS_PRV_S", lit 1); ("MSTATUS_PRV_H", lit 2);
  ("MSTATUS_PRV_M", lit 3)]%string.

Definition mie : list macro := [
  ("MIE_USIE", bit 0); ("MIE_SSIE", bit 1); ("MIE_HSIE", bit 2); ("MIE_MSIE", bit 3);
  ("MIE_UTIE", bit 4); ("MIE_STIE", bit 5); ("MIE_HTIE", bit 6); ("MIE_MTIE", bit 7)]%string.

Definition mip : list macro := [
  ("MIP_USIP", bit 0); ("MIP_SSIP", bit 1); ("MIP_HSIP", bit 2); ("MIP_MSIP", bit 3);
  ("MIP_UTIP", bit 4); ("MIP_STIP", bit 5); ("MIP_HTIP", bit 6); ("MIP_MTIP", bit 7);
  ("MIP_SEIP", bit 9)]%string.

Definition sie : list macro := [
  ("SIE_USIE", bit 0); ("SIE_SSIE", bit 1); ("SIE_UTIE", bit 4); ("SIE_STIE", bit 5);
  ("SIE_UEIE", bit 8); ("SIE_SEIE", bit 9)]%string.

Definition sip : list macro := [("SIP_SSIP", bit 1); ("SIP_STIP", bit 5)]%string.

Definition SATP_PPN_S : Z := 0.
Definition SATP_ASID_S : Z := 44.
Definition SATP_MODE_S : Z := 60.

(** A hexadecimal literal that no [int] holds is a [long]. *)
Definition satp : list macro := [
  ("SATP_PPN_S", lit SATP_PPN_S);
  ("SATP_PPN_M", shl (CVal TLong 0xfffffffffff) SATP_PPN_S);
  ("SATP_ASID_S", lit SATP_ASID_S);
  ("SATP_ASID_M", shl (int 0xffff) SATP_ASID_S);
  ("SATP_MODE_S", lit SATP_MODE_S);
  ("SATP_MODE_M", shl (int 0xf) SATP_MODE_S);
  ("SATP_MODE_SV39", shl (CVal TULLong 8) SATP_MODE_S);
  ("SATP_MODE_SV48", shl (CVal TULLong 9) SATP_MODE_S)]%string.

Definition sizes (xlen : Z) : list macro := [
  ("XLEN", lit xlen); ("XLEN_BYTES", lit (xlen / 8)); ("INSN_SIZE", lit 4); ("INSN_C_SIZE", lit 2)]%string.

Definition X_RA : Z := 1.
Definition X_SP : Z := 2.

Definition registers : list macro := [
  ("X_RA", lit X_RA); ("X_SP", lit X_SP); ("X_GP", lit 3); ("X_TP", lit 4);
  ("X_T0", lit 5); ("X_T1", lit 6); ("X_T2", lit 7); ("X_T3", lit 28)]%string.

(** Fields of an instruction, and of a compressed one *)
Definition RD_SHIFT : Z := 7.
Definition RS1_SHIFT : Z := 15.
Definition RS2_SHIFT : Z := 20.
Definition IMM_SHIFT : Z := 20.
Definition RS2_C_SHIFT : Z := 2.

Definition encoding : list macro := [
  ("RD_SHIFT", lit RD_SHIFT); ("RD_MASK", shl (int 0x1f) RD_SHIFT);
  ("RS1_SHIFT", lit RS1_SHIFT); ("RS1_MASK", shl (int 0x1f) RS1_SHIFT);
  ("RS1_SP", shl (int X_SP) RS1_SHIFT);
  ("RS2_SHIFT", lit RS2_SHIFT); ("RS2_MASK", shl (int 0x1f) RS2_SHIFT);
  ("RS2_RA", shl (int X_RA) RS2_SHIFT);
  ("IMM_SHIFT", lit IMM_SHIFT); ("IMM_MASK", shl (int 0xfff) IMM_SHIFT);
  ("RS2_C_SHIFT", lit RS2_C_SHIFT); ("RS2_C_MASK", shl (int 0x1f) RS2_C_SHIFT);
  ("RS2_C_RA", shl (int X_RA) RS2_C_SHIFT)]%string.

Definition header (xlen : Z) : list macro :=
  ("SCAUSE_INTR"%string, SCAUSE_INTR) :: ("SCAUSE_CODE"%string, SCAUSE_CODE) ::
  scause_codes ++ sstatus xlen ++ mstatus xlen ++ mie ++ mip ++ sie ++ sip ++ satp ++ sizes xlen ++
  registers ++ encoding.

(** ** Access to the registers *)

(** The hart: its word size; the values of the read-only registers at a moment,
    counters among them; and what a register holds after a write, a function of
    its name, of what it held and of what was written (the fields are WARL). *)
Class CsrHw : Type := {
  xlen : Z;
  csr_input : nat -> string -> option Z;
  csr_legal : string -> Z -> Z -> Z;
}.

(** The writable registers, and the moment: every instruction takes one. *)
Record csrs : Type := Csrs { c_now : nat; c_regs : gmap string Z }.

Abbreviation C := (M csrs).

Section access.
  Context `{CsrHw}.

Definition ux (z : Z) : Z := z mod 2 ^ xlen.

Definition tick (s : csrs) : csrs := Csrs (S (c_now s)) (c_regs s).

(** A register that does not exist, or that is read-only and written, is an
    illegal instruction, exception 2. *)
Definition read_register (csr : string) (s : csrs) : option Z :=
  match c_regs s !! csr with Some v => Some v | None => csr_input (c_now s) csr end.

Definition csrr (csr : string) : C Z := fun s =>
  match read_register csr s with
  | Some v => Ret v (tick s)
  | None => Stop (Fault 2) s
  end.

(** Reads a register and writes what [f] makes of its value. *)
Definition csr_rmw (csr : string) (f : Z -> Z) : C Z := fun s =>
  match c_regs s !! csr with
  | Some v => Ret v (tick (Csrs (c_now s) (<[csr := csr_legal csr v (f v)]> (c_regs s))))
  | None => Stop (Fault 2) s
  end.

Definition csrrw (csr : string) (v : Z) : C Z := csr_rmw csr (fun _ => v).
Definition csrrs (csr : string) (v : Z) : C Z := csr_rmw csr (fun old => Z.lor old v).
Definition csrrc (csr : string) (v : Z) : C Z := csr_rmw csr (fun old => Z.ldiff old v).

(** The immediate forms have a 5-bit operand; with 0 the last two only read. *)
Definition csrrwi (csr : string) (v : Z) : C Z := csrrw csr v.
Definition csrrsi (csr : string) (v : Z) : C Z := if v =? 0 then csrr csr else csrrs csr v.
Definition csrrci (csr : string) (v : Z) : C Z := if v =? 0 then csrr csr else csrrc csr v.

(** [const] is [__builtin_constant_p (val)], which the compiler decides. *)
Definition CSR_ZIMM (const : bool) (val : Z) : bool := const && (ux val <? 32).

(** The value is that of [val] after the macro. *)
Definition csr_swap (csr : string) (const : bool) (val : Z) : C Z :=
  if CSR_ZIMM const val then csrrwi csr val else csrrw csr (ux val).

Definition csr_write (csr : string) (const : bool) (val : Z) : C unit :=
  (if CSR_ZIMM const val then csrrwi csr val else csrrw csr (ux val)) ;;; ret tt.

Definition csr_set (csr : string) (const : bool) (val : Z) : C unit :=
  (if CSR_ZIMM const val then csrrsi csr val else csrrs csr (ux val)) ;;; ret tt.

Definition csr_clear (csr : string) (const : bool) (val : Z) : C unit :=
  (if CSR_ZIMM const val then csrrci csr val else csrrc csr (ux val)) ;;; ret tt.

Definition csr_read (csr : string) : C Z := val <- csrr csr ;; ret (ux val).

(** On 32 bits the loop repeats while the high half changes. *)
Definition csr_read64 (csr : string) : C Z :=
  if xlen =? 32 then
    let* (high, low) := loop 33 (fun _ : unit =>
      t0 <- csrr (csr +:+ "h") ;;
      low <- csrr csr ;;
      high <- csrr (csr +:+ "h") ;;
      if t0 =? high then ret (inr (u32 high, u32 low)) else ret (inl tt)) tt in
    ret (Z.lor low (u64 (Z.shiftl high 32)))
  else
    v <- csr_read csr ;; ret (u64 v).

End access.

(** A 64-bit counter that is read in two halves and never runs backwards *)
Class Counter `{CsrHw} (csr : string) (c : nat -> Z) : Prop := {
  counter_low t : csr_input t csr = Some (c t mod 2 ^ 32);
  counter_high t : csr_input t (csr +:+ "h") = Some (c t / 2 ^ 32);
  counter_range t : 0 <= c t < 2 ^ 64;
  counter_grows t : c t <= c (S t);
}.

(** A register whose bits in [mask] hold what is written, the others what they
    held *)
Definition writable_bits `{CsrHw} (csr : string) (mask : Z) : Prop :=
  forall old v, csr_legal csr old v = Z.lor (Z.ldiff old mask) (Z.land v mask).

(** ** Lemmas *)

Section lemmas.
  Context `{CsrHw}.
  Implicit Types s : csrs.

Lemma wp_csrr csr v s (Q : Z -> csrs -> Prop) :
  read_register csr s = Some v -> Q v (tick s) -> wp (csrr csr) Q s.
Proof. unfold wp, csrr. now intros ->. Qed.

Lemma counter_mono csr (c : nat -> Z) `{!Counter csr c} t n : c t <= c (t + n)%nat.
Proof.
  induction n as [|n IH]; [now rewrite Nat.add_0_r|].
  pose proof (counter_grows (csr := csr) (t + n)). rewrite Nat.add_succ_r. lia.
Qed.

(** Between two equal high halves the low one does not wrap around. *)
Lemma counter_pieces (a b c : Z) :
  0 <= a -> a <= b <= c -> a / 2 ^ 32 = c / 2 ^ 32 ->
  Z.lor (u32 (b mod 2 ^ 32)) (u64 (Z.shiftl (u32 (c / 2 ^ 32)) 32)) = b \/ 2 ^ 64 <= c.
Proof.
  intros Ha Hb He. destruct (Z.le_gt_cases (2 ^ 64) c) as [|Hc]; [now right | left].
  assert (Hq : b / 2 ^ 32 = c / 2 ^ 32).
  { pose proof (Z.div_le_mono a b (2 ^ 32)). pose proof (Z.div_le_mono b c (2 ^ 32)). lia. }
  rewrite <- Hq. assert (Hr : is_u32 (b mod 2 ^ 32)) by (apply Z.mod_pos_bound; lia).
  assert (Hd : is_u32 (b / 2 ^ 32)).
  { split; [apply Z.div_pos; lia | apply Z.div_lt_upper_bound; lia]. }
  rewrite !u32_small by done. rewrite Z.shiftl_mul_pow2 by lia. unfold u64.
  pose proof (Z.div_mod b (2 ^ 32) ltac:(lia)). unfold is_u32 in *.
  rewrite (Z.mod_small (b / 2 ^ 32 * 2 ^ 32)) by lia. rewrite Z.lor_comm, lor_mul_pow2; lia.
Qed.

(** One round of the loop *)
Lemma read64_round csr (c : nat -> Z) `{!Counter csr c} s (Q : () + Z * Z -> csrs -> Prop) :
  c_regs s !! csr = None -> c_regs s !! (csr +:+ "h") = None ->
  Q (if c (c_now s) / 2 ^ 32 =? c (2 + c_now s)%nat / 2 ^ 32
     then inr (u32 (c (2 + c_now s)%nat / 2 ^ 32), u32 (c (1 + c_now s)%nat mod 2 ^ 32)) else inl tt)
    (tick (tick (tick s))) ->
  wp (t0 <- csrr (csr +:+ "h") ;;
      low <- csrr csr ;;
      high <- csrr (csr +:+ "h") ;;
      if t0 =? high then ret (inr (u32 high, u32 low)) else ret (inl tt)) Q s.
Proof.
  intros Hl Hh HQ.
  apply wp_bind. eapply wp_csrr; [unfold read_register; rewrite Hh; apply counter_high|].
  apply wp_bind. eapply wp_csrr; [unfold read_register, tick; cbn; rewrite Hl; apply counter_low|].
  apply wp_bind. eapply wp_csrr; [unfold read_register, tick; cbn; rewrite Hh; apply counter_high|].
  cbn [c_now tick] in *. change (2 + c_now s)%nat with (S (S (c_now s))) in HQ. case_match; now apply wp_ret.
Qed.

(** The second round ends the loop, unless the counter runs through its low half
    meanwhile. *)
Lemma read64_second_round csr (c : nat -> Z) `{!Counter csr c} t :
  c (t + 5)%nat < c t + 2 ^ 32 -> c t / 2 ^ 32 <> c (t + 2)%nat / 2 ^ 32 ->
  c (t + 3)%nat / 2 ^ 32 = c (t + 3 + 2)%nat / 2 ^ 32.
Proof.
  intros Hfast Hne. pose proof (counter_mono csr c t 2). pose proof (counter_mono csr c (t + 2) 1).
  pose proof (counter_mono csr c (t + 3) 2). rewrite <- Nat.add_assoc in *. cbn [Nat.add] in *.
  pose proof (Z.div_le_mono (c t) (c (t + 2)%nat) (2 ^ 32)).
  pose proof (Z.div_le_mono (c (t + 2)%nat) (c (t + 3)%nat) (2 ^ 32)).
  pose proof (Z.div_le_mono (c (t + 3)%nat) (c (t + 5)%nat) (2 ^ 32)).
  assert (c (t + 5)%nat / 2 ^ 32 < c t / 2 ^ 32 + 2).
  { apply Z.div_lt_upper_bound; [lia|]. pose proof (Z.div_mod (c t) (2 ^ 32)).
    pose proof (Z.mod_pos_bound (c t) (2 ^ 32)). lia. }
  lia.
Qed.

Lemma csr_read64_run csr (c : nat -> Z) `{!Counter csr c} s :
  xlen = 32 -> c_regs s !! csr = None -> c_regs s !! (csr +:+ "h") = None ->
  c (c_now s + 5)%nat < c (c_now s) + 2 ^ 32 ->
  wp (csr_read64 csr) (fun v s' => c_regs s' = c_regs s /\
    exists t, (c_now s <= t < c_now s' /\ c_now s' <= c_now s + 6)%nat /\ v = c t) s.
Proof.
  intros Hx Hl Hh Hfast. unfold csr_read64. rewrite Hx, Z.eqb_refl. apply wp_bind.
  apply (wp_loop_measure _ (fun _ s1 => c_regs s1 = c_regs s /\
      (c_now s1 = c_now s \/ c_now s1 = (c_now s + 3)%nat /\
        c (c_now s) / 2 ^ 32 <> c (c_now s + 2)%nat / 2 ^ 32))
    _ (fun _ s1 => Z.of_nat (c_now s + 3) - Z.of_nat (c_now s1))); [|lia|tauto|lia].
  intros [] s1 (Hr & Hround). apply (read64_round csr c); [now rewrite Hr | now rewrite Hr|].
  destruct (Z.eqb_spec (c (c_now s1) / 2 ^ 32) (c (2 + c_now s1)%nat / 2 ^ 32)) as [He|He].
  - apply wp_ret. split; [done|]. exists (1 + c_now s1)%nat. split; [cbn; lia|].
    pose proof (counter_range (csr := csr) (c_now s1)) as [? _].
    pose proof (counter_range (csr := csr) (2 + c_now s1)) as [_ ?].
    destruct (counter_pieces (c (c_now s1)) (c (1 + c_now s1)%nat) (c (2 + c_now s1)%nat)) as [E|]; [..|lia]; auto.
    split; [apply (counter_grows (csr := csr)) | apply (counter_grows (csr := csr) (S (c_now s1)))].
  - destruct Hround as [E|[E Hne]].
    + cbn. split; [split; [done|]|lia]. right. rewrite E in *. split; [lia|].
      replace (c_now s + 2)%nat with (2 + c_now s)%nat by lia. done.
    + exfalso. apply He. rewrite E. rewrite (Nat.add_comm 2). now apply (read64_second_round csr c).
Qed.

(** C40: on a 32-bit hart [csr_read64] returns a value that the counter really had,
    all of it at one moment during the macro, although it is read in halves that
    change meanwhile; it is done after two rounds at most, if the counter does
    not advance by [2 ^ 32] in five instructions. *)
Theorem csr_read64_no_tearing csr (c : nat -> Z) `{!Counter csr c} s :
  xlen = 32 -> c_regs s !! csr = None -> c_regs s !! (csr +:+ "h") = None ->
  c (c_now s + 5)%nat < c (c_now s) + 2 ^ 32 ->
  exists v s' t, csr_read64 csr s = Ret v s' /\ c_regs s' = c_regs s /\
    (c_now s <= t < c_now s' /\ c_now s' <= c_now s + 6)%nat /\ v = c t.
Proof.
  intros Hx Hl Hh Hfast. pose proof (csr_read64_run csr c s Hx Hl Hh Hfast) as Hw.
  apply wp_run in Hw as (v & s' & E & Hr & t & Ht & Hv). exists v, s', t. done.
Qed.

(** *** Setting and clearing bits *)

Definition with_reg (csr : string) (v : Z) s : csrs := Csrs (c_now s) (<[csr := v]> (c_regs s)).

Lemma ux_small z : 0 <= z < 2 ^ xlen -> ux z = z.
Proof. apply Z.mod_small. Qed.

Lemma csr_rmw_run csr f v s :
  c_regs s !! csr = Some v ->
  csr_rmw csr f s = Ret v (tick (with_reg csr (csr_legal csr v (f v)) s)).
Proof. unfold csr_rmw. now intros ->. Qed.

(** A form that only reads leaves what a write of the old value leaves. *)
Lemma csrr_run csr mask v s :
  writable_bits csr mask -> c_regs s !! csr = Some v ->
  csrr csr s = Ret v (tick (with_reg csr (csr_legal csr v v) s)).
Proof.
  intros Hw Hv. unfold csrr, read_register. rewrite Hv. f_equal. unfold with_reg. f_equal.
  rewrite Hw, Z.lor_ldiff_and. rewrite insert_id by done. now destruct s.
Qed.

Lemma csr_set_run csr mask const val v s :
  writable_bits csr mask -> c_regs s !! csr = Some v -> 0 <= val < 2 ^ xlen ->
  csr_set csr const val s = Ret tt (tick (with_reg csr (csr_legal csr v (Z.lor v val)) s)).
Proof.
  intros Hw Hv Hr. unfold csr_set, csrrsi, csrrs. rewrite ux_small by done.
  destruct (CSR_ZIMM const val); [destruct (Z.eqb_spec val 0) as [->|]|].
  - rewrite Z.lor_0_r. erewrite bind_Ret by (eapply csrr_run; done). done.
  - erewrite bind_Ret by exact (csr_rmw_run _ _ v _ Hv). done.
  - erewrite bind_Ret by exact (csr_rmw_run _ _ v _ Hv). done.
Qed.

Lemma csr_clear_run csr mask const val v s :
  writable_bits csr mask -> c_regs s !! csr = Some v -> 0 <= val < 2 ^ xlen ->
  csr_clear csr const val s = Ret tt (tick (with_reg csr (csr_legal csr v (Z.ldiff v val)) s)).
Proof.
  intros Hw Hv Hr. unfold csr_clear, csrrci, csrrc. rewrite ux_small by done.
  destruct (CSR_ZIMM const val); [destruct (Z.eqb_spec val 0) as [->|]|].
  - rewrite Z.ldiff_0_r. erewrite bind_Ret by (eapply csrr_run; done). done.
  - erewrite bind_Ret by exact (csr_rmw_run _ _ v _ Hv). done.
  - erewrite bind_Ret by exact (csr_rmw_run _ _ v _ Hv). done.
Qed.

Lemma csr_write_run csr const val v s :
  c_regs s !! csr = Some v -> 0 <= val < 2 ^ xlen ->
  csr_write csr const val s = Ret tt (tick (with_reg csr (csr_legal csr v val) s)).
Proof.
  intros Hv Hr. unfold csr_write, csrrwi, csrrw. rewrite ux_small by done.
  destruct (CSR_ZIMM const val); now erewrite bind_Ret by exact (csr_rmw_run _ _ v _ Hv).
Qed.

(** What the bits of a register are after [csr_set] and [csr_clear] *)
Lemma set_bits csr mask v val :
  writable_bits csr mask -> csr_legal csr v (Z.lor v val) = Z.lor v (Z.land val mask).
Proof.
  intros ->. apply Z.bits_inj'. intros i Hi.
  rewrite !Z.lor_spec, Z.ldiff_spec, !Z.land_spec, Z.lor_spec.
  destruct (Z.testbit v i), (Z.testbit val i), (Z.testbit mask i); reflexivity.
Qed.

Lemma clear_bits csr mask v val :
  writable_bits csr mask -> csr_legal csr v (Z.ldiff v val) = Z.ldiff v (Z.land val mask).
Proof.
  intros ->. apply Z.bits_inj'. intros i Hi.
  rewrite Z.lor_spec, !Z.ldiff_spec, !Z.land_spec, Z.ldiff_spec.
  destruct (Z.testbit v i), (Z.testbit val i), (Z.testbit mask i); reflexivity.
Qed.

Lemma clear_set v b : Z.land v b = 0 -> Z.ldiff (Z.lor v b) b = v.
Proof.
  intros Hd. apply Z.bits_inj'. intros i Hi. assert (Hb : Z.testbit (Z.land v b) i = false) by (rewrite Hd; apply Z.bits_0).
  rewrite Z.land_spec in Hb. rewrite Z.ldiff_spec, Z.lor_spec.
  destruct (Z.testbit v i), (Z.testbit b i); done.
Qed.

(** [csr_set] of bits that were clear makes [csr_read] return the old value
    with the writable ones of them set, and [csr_clear] of the same bits brings
    the old value back, whichever of the two instructions the compiler chooses
    for each macro. *)
Theorem csr_set_clear_roundtrip csr mask k1 k2 val v s :
  writable_bits csr mask -> c_regs s !! csr = Some v -> 0 <= val < 2 ^ xlen ->
  Z.land v val = 0 ->
  exists s1 s2, csr_set csr k1 val s = Ret tt s1 /\
    csr_read csr s1 = Ret (ux (Z.lor v (Z.land val mask))) (tick s1) /\
    csr_clear csr k2 val s1 = Ret tt s2 /\ c_regs s2 = c_regs s.
Proof.
  intros Hw Hv Hr Hd. eexists _, _. split; [exact (csr_set_run csr mask _ _ _ _ Hw Hv Hr)|]. rewrite (set_bits csr mask) by done.
  set (s1 := tick _). assert (H1 : c_regs s1 !! csr = Some (Z.lor v (Z.land val mask))) by apply lookup_insert_eq.
  split; [|split; [exact (csr_clear_run csr mask _ _ _ _ Hw H1 Hr)|]].
  - unfold csr_read. erewrite bind_Ret; [reflexivity|]. unfold csrr, read_register. now rewrite H1.
  - rewrite (clear_bits csr mask) by done. rewrite clear_set.
    + cbn. now rewrite insert_insert_eq, insert_id by done.
    + now rewrite Z.land_assoc, Hd.
Qed.

(** The immediate and the register form of each macro have the same effect,
    so that it does not matter which values the compiler takes for constants. *)
Theorem csr_forms_agree csr mask val v s :
  writable_bits csr mask -> c_regs s !! csr = Some v -> 0 <= val < 2 ^ xlen ->
  csr_swap csr true val s = csr_swap csr false val s /\
  csr_write csr true val s = csr_write csr false val s /\
  csr_set csr true val s = csr_set csr false val s /\
  csr_clear csr true val s = csr_clear csr false val s.
Proof.
  intros Hw Hv Hr. split; [|split; [|split]].
  - unfold csr_swap, csrrwi. rewrite ux_small by done. now destruct (CSR_ZIMM true val), (CSR_ZIMM false val).
  - now rewrite !(csr_write_run csr _ val v s Hv Hr).
  - now rewrite !(csr_set_run csr mask _ val v s Hw Hv Hr).
  - now rewrite !(csr_clear_run csr mask _ val v s Hw Hv Hr).
Qed.

End lemmas.

(** ** The constants *)

Definition undefined (l : list macro) : list string :=
  fst <$> filter (fun m => m.2 = None) l.

(** Every constant of the header has a value on a 64-bit and on a 32-bit hart
    but two: [SATP_ASID_M] and [SATP_MODE_M] shift an [int] by 44 and 60 places,
    which C++ leaves undefined. *)
Theorem header_undefined : undefined (header 64) = ["SATP_ASID_M"; "SATP_MODE_M"]%string /\
  undefined (header 32) = ["SATP_ASID_M"; "SATP_MODE_M"]%string.
Proof. split; vm_compute; reflexivity. Qed.

(** Masks of which no two share a bit *)
Fixpoint disjoint (l : list Z) : bool :=
  match l with
  | [] => true
  | a :: l => forallb (fun b => Z.land a b =? 0) l && disjoint l
  end.

Definition sstatus_fields : list string :=
  ["SSTATUS_UIE"; "SSTATUS_SIE"; "SSTATUS_UPIE"; "SSTATUS_SPIE"; "SSTATUS_SPP"; "SSTATUS_FS_MASK";
   "SSTATUS_XS_MASK"; "SSTATUS_SUM"; "SSTATUS_SD"]%string.

Definition mstatus_bits : list string :=
  ["MSTATUS_UIE"; "MSTATUS_SIE"; "MSTATUS_HIE"; "MSTATUS_MIE"; "MSTATUS_UPIE"; "MSTATUS_SPIE";
   "MSTATUS_HPIE"; "MSTATUS_MPIE"; "MSTATUS_SPP"; "MSTATUS_MPRV"; "MSTATUS_PUM"]%string.

(** The fields with a mask that is not shifted *)
Definition mstatus_fields : list (string * string) :=
  [("MSTATUS_HPP_MASK", "MSTATUS_HPP_SHIFT"); ("MSTATUS_MPP_MASK", "MSTATUS_MPP_SHIFT");
   ("MSTATUS_FS_MASK", "MSTATUS_FS_SHIFT"); ("MSTATUS_XS_MASK", "MSTATUS_XS_SHIFT");
   ("MSTATUS_VM_MASK", "MSTATUS_VM_SHIFT")]%string.

Definition mstatus_masks (xlen : Z) : list Z :=
  omap (value (mstatus xlen)) mstatus_bits ++
  omap (fun f => m ← value (mstatus xlen) f.1; n ← value (mstatus xlen) f.2; Some (Z.shiftl m n)) mstatus_fields.

(** In [sstatus] a supervisor sees some fields of [mstatus], at their places; the
    user bits of the older header names are the machine's. *)
Definition shared : list (string * string) :=
  [("SSTATUS_UIE", "MSTATUS_UIE"); ("SSTATUS_SIE", "MSTATUS_SIE"); ("SSTATUS_UPIE", "MSTATUS_UPIE");
   ("SSTATUS_SPIE", "MSTATUS_SPIE"); ("SSTATUS_SPP", "MSTATUS_SPP"); ("SSTATUS_SUM", "MSTATUS_PUM");
   ("SSTATUS_SD", "MSTATUS_SD")]%string.

(** The masks of [sstatus] are nine fields without a common bit, and so are
    the sixteen of [mstatus]; the bits that both registers have are at the same
    places. *)
Theorem status_layout xlen : xlen = 32 \/ xlen = 64 ->
  let fields := omap (value (sstatus xlen)) sstatus_fields in
  length fields = 9%nat /\ disjoint fields = true /\
  length (mstatus_masks xlen) = 16%nat /\ disjoint (mstatus_masks xlen) = true /\
  forall s m, In (s, m) shared -> is_Some (value (sstatus xlen) s) /\
    value (sstatus xlen) s = value (mstatus xlen) m.
Proof.
  intros Hx. assert (Hs : Forall (fun p => is_Some (value (sstatus xlen) p.1) /\
      value (sstatus xlen) p.1 = value (mstatus xlen) p.2) shared).
  { destruct Hx as [-> | ->]; repeat (apply Forall_cons; split; [split; [eexists|]; reflexivity|]); constructor. }
  split; [|split; [|split; [|split]]]; [destruct Hx as [-> | ->]; reflexivity ..|].
  intros s m Hin. rewrite Forall_forall in Hs. apply (Hs (s, m)). now apply list_elem_of_In.
Qed.

(** ** Examples *)

(** A 32-bit hart with a counter near the end of its low half, a writable
    register of six bits, and nothing else *)
Definition ex_counter (t : nat) : Z := 0x1fffffffe + Z.of_nat t.

#[local] Instance ex_hw : CsrHw := {|
  xlen := 32;
  csr_input t name :=
    if decide (name = "cycle"%string) then Some (ex_counter (t `min` 1000) mod 2 ^ 32)
    else if decide (name = "cycleh"%string) then Some (ex_counter (t `min` 1000) / 2 ^ 32) else None;
  csr_legal _ old v := Z.lor (Z.ldiff old 0x333) (Z.land v 0x333);
|}.

#[local] Instance ex_cycle : Counter "cycle" (fun t => ex_counter (t `min` 1000)).
Proof.
  constructor; intros t; [reflexivity | reflexivity| |]; unfold ex_counter; lia.
Qed.

Definition ex_csrs : csrs := Csrs 0 {["sie"%string := 0x202]}.

Lemma csr_read64_no_tearing_witness :
  exists v s' t, csr_read64 "cycle" ex_csrs = Ret v s' /\ c_regs s' = c_regs ex_csrs /\
    (0 <= t < c_now s' /\ c_now s' <= 6)%nat /\ v = ex_counter (t `min` 1000).
Proof.
  apply (csr_read64_no_tearing "cycle" (fun t => ex_counter (t `min` 1000)) ex_csrs);
    [reflexivity | reflexivity | reflexivity | unfold ex_counter; cbn; lia].
Defined.

Lemma csr_set_clear_roundtrip_witness :
  exists s1 s2, csr_set "sie" true 0x30 ex_csrs = Ret tt s1 /\
    csr_read "sie" s1 = Ret 0x232 (tick s1) /\
    csr_clear "sie" false 0x30 s1 = Ret tt s2 /\ c_regs s2 = c_regs ex_csrs.
Proof.
  change 0x232 with (ux (Z.lor 0x202 (Z.land 0x30 0x333))).
  apply (csr_set_clear_roundtrip "sie" 0x333 true false 0x30 0x202 ex_csrs);
    [intros old v; reflexivity | reflexivity | now split | reflexivity].
Defined.

Lemma csr_forms_agree_witness : csr_clear "sie" true 2 ex_csrs = csr_clear "sie" false 2 ex_csrs.
Proof.
  apply (csr_forms_agree "sie" 0x333 2 0x202 ex_csrs); [intros old v; reflexivity | reflexivity | now split].
Defined.

Lemma status_layout_witness :
  value (sstatus 64) "SSTATUS_SPP" = value (mstatus 64) "MSTATUS_SPP".
Proof. apply (status_layout 64); [now right | cbn; tauto]. Defined.
