(* ===== verification/ToyString.v ===== *)
(** * ToyString: src/toyos/Library/libc/string.cpp

    The string routines of toyos, over the memory of Riscv.v.  Pointers have 64
    bits and [size_t] 32: the loops that advance a counter take [loop 33], those
    that advance a pointer [loop 65]. *)

From stdpp Require Import base numbers list strings gmap.
From S2P Require Import Prelude Riscv.
From Stdlib Require Import ZArith Lia.
Open Scope Z_scope.

Definition strlen (str : Z) : C Z :=
  loop 33 (fun len =>
    b <- load_byte (u64 (str + len)) ;;
    if negb (b =? 0) then ret (inl (u32 (len + 1))) else ret (inr len)) 0.

(** The result is an [int8_t]. *)
Definition strcmp (src dest : Z) : C Z :=
  let* (src, dest) := loop 65 (fun '(src, dest) =>
    b <- load_byte src ;;
    if b =? 0 then ret (inr (src, dest))
    else
      c <- load_byte dest ;;
      if c =? 0 then ret (inr (src, dest))
      else if b =? c then ret (inl (u64 (src + 1), u64 (dest + 1)))
      else ret (inr (src, dest))) (src, dest) in
  b <- load_byte src ;;
  c <- load_byte dest ;;
  ret (s8 (b - c)).

Definition strcpy (dest src : Z) : C Z :=
  let address := dest in
  loop 65 (fun '(dest, src) =>
    b <- load_byte src ;;
    store_byte dest b ;;;
    if negb (b =? 0) then ret (inl (u64 (dest + 1), u64 (src + 1))) else ret (inr tt)) (dest, src) ;;;
  ret address.

Definition backspace (src : Z) : C unit :=
  len <- strlen src ;;
  store_byte (u64 (src + u32 (len - 1))) 0.

Definition append (src dest : Z) : C unit :=
  len <- strlen src ;;
  store_byte (u64 (src + len)) dest ;;;
  store_byte (u64 (src + u32 (len + 1))) 0.

Definition strcat (dest src : Z) : C Z :=
  let add_d := dest in
  (if negb (dest =? 0) && negb (src =? 0) then
     add_d <- loop 65 (fun add_d =>
       b <- load_byte add_d ;;
       if negb (b =? 0) then ret (inl (u64 (add_d + 1))) else ret (inr add_d)) add_d ;;
     loop 65 (fun '(add_d, src) =>
       b <- load_byte src ;;
       if negb (b =? 0) then
         store_byte add_d b ;;; ret (inl (u64 (add_d + 1), u64 (src + 1)))
       else ret (inr tt)) (add_d, src)
   else ret tt) ;;;
  ret dest.

Definition memcpy (dest src len : Z) : C unit :=
  loop 33 (fun '(dst, sr, len) =>
    if negb (len =? 0) then
      b <- load_byte sr ;;
      store_byte dst b ;;;
      ret (inl (u64 (dst + 1), u64 (sr + 1), u32 (len - 1)))
    else ret (inr tt)) (dest, src, len).

Definition memset (dest val len : Z) : C unit :=
  loop 33 (fun '(dst, len) =>
    if negb (len =? 0) then
      store_byte dst val ;;; ret (inl (u64 (dst + 1), u32 (len - 1)))
    else ret (inr tt)) (dest, len).

Definition bzero (dest len : Z) : C unit := memset dest 0 len.

(** ** Specifications *)

(** The difference of the first characters that differ, the terminator being a
    character 0. *)
Fixpoint first_difference (l1 l2 : list Z) : Z :=
  match l1, l2 with
  | [], [] => 0
  | b :: _, [] => b
  | [], c :: _ => - c
  | b :: l1, c :: l2 => if b =? c then first_difference l1 l2 else b - c
  end.

(** ** Lemmas *)

Lemma nonzero_char b : 0 < b < 256 -> (b =? 0) = false.
Proof. intros Hb. apply Z.eqb_neq. lia. Qed.

Lemma char_u8 b : 0 < b < 256 -> u8 b = b.
Proof. intros Hb. apply u8_small. unfold is_byte. lia. Qed.

(** The character at a pointer into a C string, with the pointer kept below
    the end of the address space. *)
Lemma walk_char m a l i :
  cstring m a l -> (i < length l)%nat ->
  exists b, l !! i = Some b /\ m !! (a + Z.of_nat i) = Some b /\ 0 < b < 256 /\
    u64 (a + Z.of_nat i + 1) = a + Z.of_nat (S i).
Proof.
  intros Hc Hi. destruct (lookup_lt_is_Some_2 l i Hi) as [b Hb]. exists b.
  destruct (cstring_char _ _ _ _ _ Hc Hb) as [Hm Hb']. pose proof (cstring_range _ _ _ Hc).
  repeat split; [done | done | lia | lia|]. rewrite u64_small; lia.
Qed.

Lemma strlen_run s a l :
  cstring (m_ram s) a l -> Z.of_nat (length l) < 2 ^ 32 -> strlen a s = Ret (Z.of_nat (length l)) s.
Proof.
  intros Hc Hl. pose proof (cstring_range _ _ _ Hc).
  apply (loop_run _ Z.of_nat (fun _ => s) (length l)); [| |lia].
  - intros i Hi. destruct (walk_char _ _ _ _ Hc Hi) as (b & _ & Hm & Hb & _). cbv beta.
    rewrite u64_small by lia. erewrite bind_Ret by exact (load_run _ _ _ Hm).
    rewrite nonzero_char by done. cbn [negb]. unfold ret. rewrite u32_small by (unfold is_u32; lia).
    do 2 f_equal. lia.
  - cbv beta. rewrite u64_small by lia.
    now erewrite bind_Ret by exact (load_run _ _ _ (cstring_end _ _ _ Hc)).
Qed.

Lemma strcpy_run s dest src l :
  cstring (m_ram s) src l -> mapped (m_ram s) dest (Z.of_nat (length l) + 1) ->
  apart src (Z.of_nat (length l) + 1) dest (Z.of_nat (length l) + 1) ->
  strcpy dest src s = Ret dest (wr s dest (l ++ [0])).
Proof.
  intros Hc Hm Hd. pose proof (cstring_range _ _ _ Hc). pose proof Hm as (? & ? & _).
  assert (Hc' : forall i, cstring (m_ram (wr s dest (take i l))) src l).
  { intros i. apply cstring_write; [done|]. rewrite length_take. unfold apart in *. lia. }
  unfold strcpy. cbv zeta. erewrite bind_Ret; [done|].
  rewrite <- (Z.add_0_r dest) at 1. rewrite <- (Z.add_0_r src), <- (wr_nil s dest) at 1.
  apply (loop_run _ (fun i => (dest + Z.of_nat i, src + Z.of_nat i)) (fun i => wr s dest (take i l)) (length l));
    [| |lia].
  - intros i Hi. destruct (walk_char _ _ _ i (Hc' i) Hi) as (b & Hl & Hb & Hb' & Hu). cbv beta iota.
    erewrite bind_Ret by exact (load_run _ _ _ Hb).
    pose proof (store_run s dest (take i l) b _ Hm) as E. rewrite length_take_le in E by lia.
    erewrite bind_Ret by (apply E; lia). rewrite nonzero_char by done. cbn [negb]. unfold ret.
    rewrite char_u8, <- take_S_r by done. rewrite Hu, u64_small by lia. do 3 f_equal. lia.
  - cbv beta iota. erewrite bind_Ret by exact (load_run _ _ _ (cstring_end _ _ _ (Hc' _))).
    pose proof (store_run s dest (take (length l) l) 0 _ Hm) as E. rewrite firstn_all in *.
    now erewrite bind_Ret by (apply E; lia).
Qed.

(** Two strings share a prefix and then differ, or one of them ends. *)
Lemma common_prefix (l1 l2 : list Z) :
  exists p r1 r2, l1 = p ++ r1 /\ l2 = p ++ r2 /\
    match r1, r2 with b :: _, c :: _ => b <> c | _, _ => True end.
Proof.
  revert l2. induction l1 as [|b l1 IH]; intros l2; [now exists [], [], l2|].
  destruct l2 as [|c l2]; [now exists [], (b :: l1), []|].
  destruct (decide (b = c)) as [->|Hne]; [|now exists [], (b :: l1), (c :: l2)].
  destruct (IH l2) as (p & r1 & r2 & -> & -> & Hr). now exists (c :: p), r1, r2.
Qed.

Lemma first_difference_app p l1 l2 : first_difference (p ++ l1) (p ++ l2) = first_difference l1 l2.
Proof. induction p as [|b p IH]; cbn; [done|]. now rewrite Z.eqb_refl. Qed.

Lemma first_difference_range l1 l2 :
  Forall (fun b => 0 < b < 256) l1 -> Forall (fun b => 0 < b < 256) l2 ->
  -256 < first_difference l1 l2 < 256 /\ (first_difference l1 l2 = 0 <-> l1 = l2).
Proof.
  intros H1. revert l2. induction H1 as [|b l1 Hb _ IH]; intros l2 H2; destruct H2 as [|c l2 Hc H2]; cbn.
  - done.
  - split; [lia|]. split; [lia | done].
  - split; [lia|]. split; [lia | done].
  - destruct (Z.eqb_spec b c) as [->|Hne]; [|split; [lia|]; split; [lia | congruence]].
    destruct (IH l2 H2) as [? Hz]. split; [done|]. rewrite Hz. split; [now intros -> | congruence].
Qed.

(** A character of a string, the terminator included. *)
Lemma cstring_next m a l r :
  cstring m a (l ++ r) -> m !! (a + Z.of_nat (length l)) = Some (match r with b :: _ => b | [] => 0 end).
Proof.
  intros Hc. destruct r as [|b r].
  - rewrite app_nil_r in Hc. now apply cstring_end.
  - apply (cstring_char _ _ _ _ _ Hc). now apply list_lookup_middle.
Qed.

Lemma strcmp_run s src dest l1 l2 :
  cstring (m_ram s) src l1 -> cstring (m_ram s) dest l2 ->
  strcmp src dest s = Ret (s8 (first_difference l1 l2)) s.
Proof.
  intros H1 H2. destruct (common_prefix l1 l2) as (p & r1 & r2 & -> & -> & Hr).
  pose proof (cstring_range _ _ _ H1) as R1. rewrite length_app in R1.
  pose proof (cstring_next _ _ _ _ H1) as E1. pose proof (cstring_next _ _ _ _ H2) as E2.
  rewrite first_difference_app. unfold strcmp.
  erewrite (bind_Ret _ _ s (src + Z.of_nat (length p), dest + Z.of_nat (length p))).
  - cbv beta iota. erewrite bind_Ret by exact (load_run _ _ _ E1).
    erewrite bind_Ret by exact (load_run _ _ _ E2). unfold ret. do 2 f_equal.
    destruct r1 as [|b r1], r2 as [|c r2]; cbn; [done | lia | lia|].
    now rewrite (proj2 (Z.eqb_neq _ _) Hr).
  - rewrite <- (Z.add_0_r src) at 1. rewrite <- (Z.add_0_r dest) at 1.
    apply (loop_run _ (fun i => (src + Z.of_nat i, dest + Z.of_nat i)) (fun _ => s) (length p)); [| |lia].
    + intros i Hi. cbv beta iota.
      destruct (walk_char _ _ _ i H1) as (b & Hl1 & Hm1 & Hb & Hu1); [rewrite length_app; lia|].
      destruct (walk_char _ _ _ i H2) as (c & Hl2 & Hm2 & Hc & Hu2); [rewrite length_app; lia|].
      rewrite lookup_app_l in Hl1, Hl2 by done. assert (c = b) as -> by congruence.
      erewrite bind_Ret by exact (load_run _ _ _ Hm1). rewrite nonzero_char by done.
      erewrite bind_Ret by exact (load_run _ _ _ Hm2). rewrite nonzero_char by done.
      now rewrite Z.eqb_refl, Hu1, Hu2.
    + cbv beta iota. erewrite bind_Ret by exact (load_run _ _ _ E1).
      destruct r1 as [|b r1]; [done|]. destruct H1 as [F1 _], H2 as [F2 _].
      rewrite nonzero_char by (apply Forall_app in F1 as [_ F1]; now inversion F1).
      erewrite bind_Ret by exact (load_run _ _ _ E2). destruct r2 as [|c r2]; [done|].
      rewrite nonzero_char by (apply Forall_app in F2 as [_ F2]; now inversion F2).
      now rewrite (proj2 (Z.eqb_neq _ _) Hr).
Qed.

(** The bytes [0] and [c] that [append] leaves, and [backspace] after it. *)
Lemma append_run s a l c :
  cstring (m_ram s) a l -> Z.of_nat (length l) + 1 < 2 ^ 32 -> is_byte c ->
  mapped (m_ram s) a (Z.of_nat (length l) + 2) ->
  append a c s = Ret tt (wr s (a + Z.of_nat (length l)) [c; 0]).
Proof.
  intros Hc Hl Hb Hm. pose proof Hm as (? & ? & _). unfold append.
  erewrite bind_Ret by (apply strlen_run; [done | lia]).
  set (e := a + Z.of_nat (length l)).
  assert (Hm' : mapped (m_ram s) e 2) by (apply (mapped_sub _ _ _ _ _ Hm); subst e; lia).
  pose proof (store_run s e [] c 2 Hm' ltac:(cbn; lia)) as E1.
  pose proof (store_run s e [c] 0 2 Hm' ltac:(cbn; lia)) as E2. cbn [length app] in E1, E2.
  rewrite Z.add_0_r, wr_nil, u8_small in E1 by done.
  rewrite u64_small by (subst e; lia). erewrite bind_Ret by exact E1.
  rewrite u32_small, u64_small by (unfold is_u32; lia).
  replace (a + (Z.of_nat (length l) + 1)) with (e + Z.of_nat 1) by (subst e; lia). exact E2.
Qed.

Lemma backspace_run s a l c :
  cstring (m_ram s) a (l ++ [c]) -> Z.of_nat (length l) + 1 < 2 ^ 32 ->
  backspace a s = Ret tt (wr s (a + Z.of_nat (length l)) [0]).
Proof.
  intros Hc Hl. pose proof (cstring_range _ _ _ Hc) as R. rewrite length_app in R. cbn in R. unfold backspace.
  erewrite bind_Ret by (apply strlen_run; [done | rewrite length_app; cbn; lia]).
  rewrite length_app. cbn [length]. rewrite u32_small, u64_small by (unfold is_u32; lia).
  replace (a + (Z.of_nat (length l + 1) - 1)) with (a + Z.of_nat (length l)) by lia.
  destruct Hc as [_ Hh]. apply holds_mapped in Hh. rewrite !length_app in Hh. cbn in Hh.
  pose proof (store_run s (a + Z.of_nat (length l)) [] 0 1) as E. cbn [length app] in E.
  rewrite Z.add_0_r, wr_nil in E. apply E; [|lia]. apply (mapped_sub _ _ _ _ _ Hh); lia.
Qed.

(** The loop that moves [strcat]'s destination to its terminator. *)
Lemma seek_end s a l :
  cstring (m_ram s) a l ->
  loop 65 (fun add_d =>
    b <- load_byte add_d ;;
    if negb (b =? 0) then ret (inl (u64 (add_d + 1))) else ret (inr add_d)) a s =
  Ret (a + Z.of_nat (length l)) s.
Proof.
  intros Hc. pose proof (cstring_range _ _ _ Hc). rewrite <- (Z.add_0_r a) at 1.
  apply (loop_run _ (fun i => a + Z.of_nat i) (fun _ => s) (length l)); [| |lia].
  - intros i Hi. destruct (walk_char _ _ _ i Hc Hi) as (b & _ & Hm & Hb & Hu). cbv beta.
    erewrite bind_Ret by exact (load_run _ _ _ Hm). rewrite nonzero_char by done. now rewrite Hu.
  - cbv beta. now erewrite bind_Ret by exact (load_run _ _ _ (cstring_end _ _ _ Hc)).
Qed.

Lemma strcat_run s dest src l1 l2 :
  dest <> 0 -> src <> 0 -> cstring (m_ram s) dest l1 -> cstring (m_ram s) src l2 ->
  mapped (m_ram s) dest (Z.of_nat (length l1) + Z.of_nat (length l2)) ->
  apart src (Z.of_nat (length l2) + 1) dest (Z.of_nat (length l1) + Z.of_nat (length l2)) ->
  strcat dest src s = Ret dest (wr s (dest + Z.of_nat (length l1)) l2).
Proof.
  intros Hd0 Hs0 H1 H2 Hm Hd. pose proof (cstring_range _ _ _ H2). pose proof (cstring_range _ _ _ H1).
  pose proof Hm as (_ & ? & _). set (e := dest + Z.of_nat (length l1)).
  assert (Hm' : mapped (m_ram s) e (Z.of_nat (length l2))) by (apply (mapped_sub _ _ _ _ _ Hm); subst e; lia).
  assert (Hc' : forall i, cstring (m_ram (wr s e (take i l2))) src l2).
  { intros i. apply cstring_write; [done|]. rewrite length_take. unfold apart in *. lia. }
  unfold strcat. rewrite !(proj2 (Z.eqb_neq _ _)) by done. cbv zeta. cbn [negb andb].
  erewrite bind_Ret; [done|]. erewrite bind_Ret by exact (seek_end _ _ _ H1). fold e.
  rewrite <- (Z.add_0_r e) at 1. rewrite <- (Z.add_0_r src), <- (wr_nil s e) at 1.
  apply (loop_run _ (fun i => (e + Z.of_nat i, src + Z.of_nat i)) (fun i => wr s e (take i l2)) (length l2));
    [| |lia].
  - intros i Hi. destruct (walk_char _ _ _ i (Hc' i) Hi) as (b & Hl & Hb & Hb' & Hu). cbv beta iota.
    erewrite bind_Ret by exact (load_run _ _ _ Hb). rewrite nonzero_char by done. cbn [negb].
    pose proof (store_run s e (take i l2) b _ Hm') as E. rewrite length_take_le in E by lia.
    erewrite bind_Ret by (apply E; lia). unfold ret.
    rewrite char_u8, <- take_S_r by done. rewrite Hu, u64_small by (subst e; lia). do 3 f_equal. lia.
  - cbv beta iota. erewrite bind_Ret by exact (load_run _ _ _ (cstring_end _ _ _ (Hc' _))).
    cbn [negb]. unfold ret. now rewrite firstn_all.
Qed.

Lemma memcpy_run s dest src l :
  Forall is_byte l -> holds (m_ram s) src l -> mapped (m_ram s) dest (Z.of_nat (length l)) ->
  Z.of_nat (length l) < 2 ^ 32 -> apart src (Z.of_nat (length l)) dest (Z.of_nat (length l)) ->
  memcpy dest src (Z.of_nat (length l)) s = Ret tt (wr s dest l).
Proof.
  intros Hl Hh Hm Hn Hd. pose proof Hh as (? & ? & _). pose proof Hm as (? & ? & _).
  assert (Hh' : forall i, holds (m_ram (wr s dest (take i l))) src l).
  { intros i. apply holds_write; [done|]. rewrite length_take. unfold apart in *. lia. }
  unfold memcpy. rewrite <- (Z.add_0_r dest) at 1. rewrite <- (Z.add_0_r src) at 1.
  rewrite <- (Z.sub_0_r (Z.of_nat (length l))), <- (wr_nil s dest) at 1.
  apply (loop_run _ (fun i => (dest + Z.of_nat i, src + Z.of_nat i, Z.of_nat (length l) - Z.of_nat i))
    (fun i => wr s dest (take i l)) (length l)); [| |lia].
  - intros i Hi. cbv beta iota. rewrite (proj2 (Z.eqb_neq _ 0)) by lia. cbn [negb].
    destruct (lookup_lt_is_Some_2 l i Hi) as [b Hb].
    erewrite bind_Ret by exact (load_run _ _ _ (holds_lookup _ _ _ _ _ (Hh' i) Hb)).
    pose proof (store_run s dest (take i l) b _ Hm) as E. rewrite length_take_le in E by lia.
    erewrite bind_Ret by (apply E; lia). unfold ret.
    rewrite u8_small by exact (Forall_lookup_1 _ _ _ _ Hl Hb). rewrite <- take_S_r by done.
    rewrite !u64_small, u32_small by (unfold is_u32; lia). do 2 f_equal. f_equal; [f_equal|]; lia.
  - cbv beta iota. now rewrite Z.sub_diag, firstn_all.
Qed.

Lemma memset_run s dest val n :
  mapped (m_ram s) dest (Z.of_nat n) -> Z.of_nat n < 2 ^ 32 ->
  memset dest val (Z.of_nat n) s = Ret tt (wr s dest (replicate n (u8 val))).
Proof.
  intros Hm Hn. pose proof Hm as (? & ? & _). unfold memset.
  rewrite <- (Z.add_0_r dest) at 1. rewrite <- (Z.sub_0_r (Z.of_nat n)) at 1.
  rewrite <- (wr_nil s dest) at 1.
  apply (loop_run _ (fun i => (dest + Z.of_nat i, Z.of_nat n - Z.of_nat i))
    (fun i => wr s dest (replicate i (u8 val))) n); [| |lia].
  - intros i Hi. cbv beta iota. rewrite (proj2 (Z.eqb_neq _ 0)) by lia. cbn [negb].
    pose proof (store_run s dest (replicate i (u8 val)) val _ Hm) as E. rewrite length_replicate in E.
    erewrite bind_Ret by (apply E; lia). unfold ret.
    rewrite u64_small, u32_small by (unfold is_u32; lia). rewrite replicate_S_end.
    do 2 f_equal. f_equal; lia.
  - cbv beta iota. now rewrite Z.sub_diag.
Qed.

(** ** Properties *)

(** [strcmp] of two C strings returns the difference of the first
    characters that differ, as an [int8_t]: it is 0 exactly for equal strings
    and has the sign of the difference while that is below 128, but a
    difference of 128 or more makes the result negative. *)
Theorem strcmp_compares s src dest l1 l2 :
  cstring (m_ram s) src l1 -> cstring (m_ram s) dest l2 ->
  let d := first_difference l1 l2 in
  exists r, strcmp src dest s = Ret r s /\ (r = 0 <-> l1 = l2) /\
    (-128 <= d < 128 -> r = d) /\ (128 <= d -> r = d - 256) /\ (d < -128 -> r = d + 256).
Proof.
  intros H1 H2 d. destruct (first_difference_range l1 l2) as [Hd Hz]; [apply H1 | apply H2|]. fold d in Hd, Hz.
  exists (s8 d). split; [now apply strcmp_run|]. unfold s8. change (2 ^ 7) with 128. change (2 ^ 8) with 256.
  assert (E : (d + 128) mod 256 =
    if d <? -128 then d + 384 else if d <? 128 then d + 128 else d - 128).
  { destruct (Z.ltb_spec d (-128)); [|destruct (Z.ltb_spec d 128)];
      [symmetry; apply Z.mod_unique with (-1) | apply Z.mod_small | symmetry; apply Z.mod_unique with 1]; lia. }
  rewrite E, <- Hz. destruct (Z.ltb_spec d (-128)); [|destruct (Z.ltb_spec d 128)]; lia.
Qed.

(** [strcpy] to a place apart from its source writes exactly the string and
    its terminator there and returns the destination; [strlen] and [strcmp]
    then agree that it is the same string. *)
Theorem strcpy_copies s dest src l :
  cstring (m_ram s) src l -> mapped (m_ram s) dest (Z.of_nat (length l) + 1) ->
  apart src (Z.of_nat (length l) + 1) dest (Z.of_nat (length l) + 1) -> Z.of_nat (length l) < 2 ^ 32 ->
  exists s', strcpy dest src s = Ret dest s' /\ s' = wr s dest (l ++ [0]) /\
    strlen dest s' = Ret (Z.of_nat (length l)) s' /\ strcmp dest src s' = Ret 0 s'.
Proof.
  intros Hc Hm Hd Hl. exists (wr s dest (l ++ [0])). split; [now apply strcpy_run|]. split; [done|].
  pose proof Hm as (? & ? & _).
  assert (Hn : cstring (write (m_ram s) dest (l ++ [0])) dest l).
  { split; [apply Hc|]. apply holds_written; [done|]. rewrite length_app. cbn. lia. }
  assert (Ho : cstring (write (m_ram s) dest (l ++ [0])) src l).
  { apply cstring_write; [done|]. rewrite length_app. cbn. unfold apart in *. lia. }
  split; [now apply strlen_run|]. rewrite (strcmp_run (wr s dest (l ++ [0])) dest src l l Hn Ho).
  now replace (first_difference l l) with 0 by (symmetry; apply first_difference_range; [apply Hc.. | done]).
Qed.

(** [append] adds a character to a C string, and [backspace] takes it away
    again: the string is as before and only the byte behind its terminator has
    changed. *)
Theorem append_backspace_roundtrip s a l c :
  cstring (m_ram s) a l -> Z.of_nat (length l) + 1 < 2 ^ 32 -> 0 < c < 256 ->
  mapped (m_ram s) a (Z.of_nat (length l) + 2) ->
  exists s1 s2, append a c s = Ret tt s1 /\ cstring (m_ram s1) a (l ++ [c]) /\
    backspace a s1 = Ret tt s2 /\ cstring (m_ram s2) a l /\
    s2 = wr s (a + Z.of_nat (length l)) [0; 0].
Proof.
  intros Hc Hl Hb Hm. set (e := a + Z.of_nat (length l)). pose proof Hm as (? & ? & _).
  exists (wr s e [c; 0]), (wr s e [0; 0]). pose proof Hc as [Hf Hh]. apply holds_app in Hh as [Hh _].
  assert (Hk : forall b, holds (m_ram (wr s e [b; 0])) a (l ++ [b; 0])).
  { intros b. apply holds_app. split; [apply holds_write; [done | left; subst e; lia]|].
    apply holds_written; cbn; lia. }
  assert (Hc1 : cstring (m_ram (wr s e [c; 0])) a (l ++ [c])).
  { split; [now apply Forall_app; split; [|constructor] | rewrite <- app_assoc; apply Hk]. }
  split; [apply append_run; unfold is_byte; [done | lia | lia | done]|]. split; [done|].
  assert (E : wr (wr s e [c; 0]) e [0] = wr s e [0; 0]).
  { unfold wr, set_ram. cbn. f_equal. apply map_eq. intros x. rewrite !lookup_insert. now repeat case_decide. }
  split; [rewrite (backspace_run _ _ l c Hc1 Hl); fold e; now rewrite E|].
  split; [|done]. split; [done|]. pose proof (Hk 0) as H2. change [0; 0] with ([0] ++ [0]) in H2 at 2. rewrite app_assoc in H2.
  now apply holds_app in H2 as [H2 _].
Qed.

(** [backspace] on the empty string stores a 0 four gibibytes minus one
    above it, because [len - 1] is a 32-bit [size_t]. *)
Theorem backspace_empty_overruns s a :
  cstring (m_ram s) a [] -> a + 2 ^ 32 <= 2 ^ 64 ->
  backspace a s = store_byte (a + (2 ^ 32 - 1)) 0 s.
Proof.
  intros Hc Ha. pose proof (cstring_range _ _ _ Hc). unfold backspace.
  erewrite bind_Ret by exact (strlen_run s a [] Hc eq_refl). change (u32 (Z.of_nat (length []) - 1)) with (2 ^ 32 - 1).
  now rewrite u64_small by lia.
Qed.

(** [strcat] writes exactly the characters of its second argument over the
    terminator of the first and no terminator: the result is the concatenation
    only if the byte behind it happens to be 0. *)
Theorem strcat_forgets_terminator s dest src l1 l2 :
  dest <> 0 -> src <> 0 -> cstring (m_ram s) dest l1 -> cstring (m_ram s) src l2 ->
  let n := Z.of_nat (length l1) + Z.of_nat (length l2) in
  mapped (m_ram s) dest (n + 1) -> apart src (Z.of_nat (length l2) + 1) dest (n + 1) ->
  exists s', strcat dest src s = Ret dest s' /\ s' = wr s (dest + Z.of_nat (length l1)) l2 /\
    (cstring (m_ram s') dest (l1 ++ l2) <-> m_ram s !! (dest + n) = Some 0).
Proof.
  intros Hd0 Hs0 H1 H2 n Hm Hd. exists (wr s (dest + Z.of_nat (length l1)) l2).
  pose proof Hm as (? & Hn & _). split; [|split; [done|]].
  { apply strcat_run; [done.. | apply (mapped_sub _ _ _ _ _ Hm); lia | unfold apart in *; lia]. }
  unfold wr. cbn [m_ram set_ram].
  assert (E : write (m_ram s) (dest + Z.of_nat (length l1)) l2 !! (dest + n) = m_ram s !! (dest + n)).
  { apply write_out. lia. }
  rewrite <- E. split.
  - intros Hc. apply cstring_end in Hc. rewrite length_app, Nat2Z.inj_add in Hc. exact Hc.
  - intros E0. destruct H1 as [F1 Hh1], H2 as [F2 _]. split; [now apply Forall_app|].
    apply holds_app in Hh1 as [Hh1 _]. rewrite <- app_assoc. apply holds_app. split.
    { apply holds_write; [done | left; lia]. }
    apply holds_app. split; [apply holds_written; lia|].
    apply holds_cons. split; [lia|]. rewrite <- E0. split; [f_equal; lia|].
    split; [lia|]. split; [cbn; lia | done].
Qed.

(** [memcpy] and [memset] write exactly the bytes of the source, of the
    given length, and the given byte so many times. *)
Theorem memory_routines s dest src l val :
  Forall is_byte l -> holds (m_ram s) src l -> mapped (m_ram s) dest (Z.of_nat (length l)) ->
  Z.of_nat (length l) < 2 ^ 32 -> apart src (Z.of_nat (length l)) dest (Z.of_nat (length l)) ->
  memcpy dest src (Z.of_nat (length l)) s = Ret tt (wr s dest l) /\
  memset dest val (Z.of_nat (length l)) s = Ret tt (wr s dest (replicate (length l) (u8 val))) /\
  bzero dest (Z.of_nat (length l)) s = Ret tt (wr s dest (replicate (length l) 0)).
Proof.
  intros Hl Hh Hm Hn Hd. split; [now apply memcpy_run|].
  split; [now apply memset_run | now apply (memset_run s dest 0 (length l))].
Qed.

(** ** Examples *)

(** A memory with two strings above the start of the kernel's image. *)
Definition string_demo_ram : gmap Z Z :=
  put 0x80200000 (codes "hello" ++ replicate 16 7) (put 0x80200100 (codes "help" ++ [0])
    (put 0x80200005 [0] ∅)).
Definition string_demo : hart := booted (put 0x80200005 [0] string_demo_ram).

Lemma string_demo_hello : cstring (m_ram string_demo) 0x80200000 (codes "hello").
Proof. apply cstring_check_ok. vm_compute. reflexivity. Qed.

Lemma string_demo_help : cstring (m_ram string_demo) 0x80200100 (codes "help").
Proof. apply cstring_check_ok. vm_compute. reflexivity. Qed.

Lemma string_demo_room (n : nat) : (n <= 16)%nat -> mapped (m_ram string_demo) 0x80200000 (Z.of_nat n).
Proof.
  intros Hn. apply (mapped_sub _ 0x80200000 (Z.of_nat 16)); [|lia..].
  apply mapped_check_ok. vm_compute. reflexivity.
Qed.

Lemma strcmp_compares_witness :
  exists r, strcmp 0x80200000 0x80200100 string_demo = Ret r string_demo /\ r = -4.
Proof.
  destruct (strcmp_compares string_demo _ _ _ _ string_demo_hello string_demo_help) as (r & E & _ & Hr & _).
  exists r. split; [exact E|]. rewrite Hr; [reflexivity | vm_compute; split; congruence].
Defined.

Lemma strcpy_copies_witness :
  exists s', strcpy 0x80200008 0x80200100 string_demo = Ret 0x80200008 s' /\ strcmp 0x80200008 0x80200100 s' = Ret 0 s'.
Proof.
  destruct (strcpy_copies string_demo 0x80200008 _ _ string_demo_help) as (s' & E & _ & _ & Hs).
  - apply (mapped_sub _ _ _ _ _ (string_demo_room 16 ltac:(lia))); vm_compute; congruence.
  - right. vm_compute. congruence.
  - vm_compute. reflexivity.
  - exists s'. now split.
Defined.

Lemma append_backspace_roundtrip_witness :
  exists s1 s2, append 0x80200000 33 string_demo = Ret tt s1 /\
    cstring (m_ram s1) 0x80200000 (codes "hello!") /\
    backspace 0x80200000 s1 = Ret tt s2 /\ cstring (m_ram s2) 0x80200000 (codes "hello").
Proof.
  destruct (append_backspace_roundtrip string_demo _ _ 33 string_demo_hello) as (s1 & s2 & E1 & H1 & E2 & H2 & _).
  - vm_compute. reflexivity.
  - lia.
  - apply (string_demo_room 7). lia.
  - exists s1, s2. exact (conj E1 (conj H1 (conj E2 H2))).
Defined.

Lemma backspace_empty_overruns_witness : exists a, backspace 0x80200005 string_demo = Stop (Fault a) string_demo.
Proof.
  exists (0x80200005 + (2 ^ 32 - 1)). rewrite (backspace_empty_overruns string_demo 0x80200005).
  - vm_compute. reflexivity.
  - apply cstring_check_ok. vm_compute. reflexivity.
  - lia.
Defined.

Lemma strcat_forgets_terminator_witness :
  exists s', strcat 0x80200000 0x80200100 string_demo = Ret 0x80200000 s' /\
    ~ cstring (m_ram s') 0x80200000 (codes "hellohelp").
Proof.
  destruct (strcat_forgets_terminator string_demo 0x80200000 0x80200100 _ _ ltac:(done) ltac:(done) string_demo_hello string_demo_help)
    as (s' & E & _ & Hc).
  - apply (string_demo_room 10). lia.
  - right. vm_compute. congruence.
  - exists s'. split; [exact E|]. intros H. apply Hc in H. vm_compute in H. congruence.
Defined.

Lemma memory_routines_witness : exists s', memcpy 0x80200008 0x80200100 4 string_demo = Ret tt s'.
Proof.
  eexists. apply (memory_routines string_demo 0x80200008 0x80200100 (codes "help") 0).
  - repeat constructor; vm_compute; congruence.
  - apply holds_check_ok. vm_compute. reflexivity.
  - apply (mapped_sub _ _ _ _ _ (string_demo_room 16 ltac:(lia))); vm_compute; congruence.
  - vm_compute. reflexivity.
  - right. vm_compute. congruence.
Defined.
