(* ===== verification/ToyNumber.v ===== *)
(** * ToyNumber: integers in src/toyos/Library/libc/vsprintf.cpp

    [number], which writes an integer as text, and [skip_atoi], which reads one.
    [number] is compared with [rendering], a function on lists. *)

From stdpp Require Import base numbers list strings gmap.
From S2P Require Import Prelude Riscv ToyString.
From Stdlib Require Import ZArith Lia.
Open Scope Z_scope.

Definition ZEROPAD : Z := 1.
Definition SIGN : Z := 2.
Definition PLUS : Z := 4.
Definition SPACE : Z := 8.
Definition LEFT : Z := 16.
Definition SPECIAL : Z := 32.
Definition SMALL : Z := 64.

(** [flags & f], as a condition. *)
Definition on (flags f : Z) : bool := negb (Z.land flags f =? 0).

(** Where the compiler has put the two string literals of [number]. *)
Class Literals : Type := {
  digits_upper : Z;
  digits_lower : Z;
}.

Definition UPPER : list Z := codes "0123456789ABCDEFGHIJKLMNOPQRSTUVWXYZ".
Definition LOWER : list Z := codes "0123456789abcdefghijklmnopqrstuvwxyz".

Section code.
  Context `{Literals}.

Definition is_digit (c : Z) : bool := (48 <=? c) && (c <=? 57).

(** The value, and the pointer moved forward. *)
Definition skip_atoi (s : Z) : C (Z * Z) :=
  loop 65 (fun '(i, s) =>
    c <- load_byte s ;;
    if is_digit c then ret (inl (s32 (i * 10 + c - 48), u64 (s + 1)))
    else ret (inr (i, s))) (0, s).

(** The remainder, and the quotient that [*n] becomes. *)
Definition do_div (n base : Z) : Z * Z := (Z.rem n base, Z.quot n base).

(** The filled part of [tmp]; each round divides by at least 2, so that there
    are at most 32. *)
Definition convert_digits (num base digits : Z) : C (list Z) :=
  loop 6 (fun '(num, tmp) =>
    if negb (num =? 0) then
      let '(res, num) := do_div num base in
      d <- load_byte (u64 (digits + res)) ;;
      ret (inl (num, tmp ++ [d]))
    else ret (inr tmp)) (num, []).

(** [while (size-- > 0) *str++ = c;] *)
Definition fill (c str size : Z) : C (Z * Z) :=
  loop 33 (fun '(str, size) =>
    let size' := s32 (size - 1) in
    if size >? 0 then store_byte str c ;;; ret (inl (u64 (str + 1), size'))
    else ret (inr (str, size'))) (str, size).

(** [while (i < precision--) *str++ = '0';] *)
Definition fill_zeros (i str precision : Z) : C Z :=
  loop 33 (fun '(str, precision) =>
    let precision' := s32 (precision - 1) in
    if i <? precision then store_byte str 48 ;;; ret (inl (u64 (str + 1), precision'))
    else ret (inr str)) (str, precision).

(** [while (i-- > 0) *str++ = tmp[i];] *)
Definition put_digits (tmp : list Z) (i str : Z) : C Z :=
  loop 33 (fun '(str, i) =>
    let i' := i - 1 in
    if i >? 0 then
      store_byte str (nth (Z.to_nat i') tmp 0) ;;; ret (inl (u64 (str + 1), i'))
    else ret (inr str)) (str, i).

Definition emit_char (str c : Z) : C Z := store_byte str c ;;; ret (u64 (str + 1)).

Definition number (str num base size precision type : Z) : C Z :=
  let digits := if on type SMALL then digits_lower else digits_upper in
  let type := if on type LEFT then Z.land type (Z.lnot ZEROPAD) else type in
  if (base <? 2) || (base >? 36) then ret 0
  else
    let c := if on type ZEROPAD then 48 else 32 in
    let '(sign, num) :=
      if on type SIGN && (num <? 0) then (45, s32 (num - num))
      else (if on type PLUS then 43 else if on type SPACE then 32 else 0, num) in
    let size := if negb (sign =? 0) then s32 (size - 1) else size in
    let size :=
      if on type SPECIAL then
        if base =? 16 then s32 (size - 2) else if base =? 8 then s32 (size - 1) else size
      else size in
    tmp <- (if num =? 0 then ret [48] else convert_digits num base digits) ;;
    let i := Z.of_nat (length tmp) in
    let precision := if i >? precision then i else precision in
    let size := s32 (size - precision) in
    let* (str, size) :=
      if negb (on type (ZEROPAD + LEFT)) then fill 32 str size else ret (str, size) in
    str <- (if negb (sign =? 0) then emit_char str sign else ret str) ;;
    str <- (if on type SPECIAL then
              if base =? 8 then emit_char str 48
              else if base =? 16 then
                str <- emit_char str 48 ;;
                x <- load_byte (u64 (digits + 33)) ;;
                emit_char str x
              else ret str
            else ret str) ;;
    let* (str, size) := if negb (on type LEFT) then fill c str size else ret (str, size) in
    str <- fill_zeros i str precision ;;
    str <- put_digits tmp i str ;;
    let* (str, _) := fill 32 str size in
    ret str.

End code.

(** ** Integers as text *)

(** The digits of [n], least significant first; [fuel] bounds their number. *)
Fixpoint digits_le (fuel : nat) (base n : Z) : list Z :=
  match fuel with
  | O => []
  | S fuel => if n =? 0 then [] else n mod base :: digits_le fuel base (n / base)
  end.

(** The digits of a 32-bit [n], most significant first. *)
Definition digits_of (base n : Z) : list Z := if n =? 0 then [0] else rev (digits_le 32 base n).

(** What a sequence of digits stands for. *)
Definition value (base : Z) (l : list Z) : Z := fold_left (fun v d => v * base + d) l 0.

Definition glyph (small : bool) (d : Z) : Z := nth (Z.to_nat d) (if small then LOWER else UPPER) 0.

Definition int_text (small : bool) (base n : Z) : list Z := map (glyph small) (digits_of base n).

Definition decimal (n : Z) : list Z := int_text false 10 n.

(** An integer field: a sign, a prefix and digits, in a field of [width] with
    at least [precision] digits. *)
Definition field (sign prefix digits : list Z) (width precision flags : Z) : list Z :=
  let zeros := replicate (Z.to_nat (precision - Z.of_nat (length digits))) 48 in
  let body := zeros ++ digits in
  let pad := Z.to_nat (width - Z.of_nat (length (sign ++ prefix ++ body))) in
  if on flags LEFT then sign ++ prefix ++ body ++ replicate pad 32
  else if on flags ZEROPAD then sign ++ prefix ++ replicate pad 48 ++ body
  else replicate pad 32 ++ sign ++ prefix ++ body.

Definition sign_text (flags n : Z) : list Z :=
  if on flags SIGN && (n <? 0) then [45]
  else if on flags PLUS then [43] else if on flags SPACE then [32] else [].

Definition prefix_text (flags base : Z) : list Z :=
  if on flags SPECIAL then
    if base =? 8 then [48] else if base =? 16 then [48; glyph (on flags SMALL) 33] else []
  else [].

(** The text of [n] that the flags, width and precision ask for. *)
Definition rendering (n base width precision flags : Z) : list Z :=
  field (sign_text flags n) (prefix_text flags base) (int_text (on flags SMALL) base (Z.abs n))
    width precision flags.

(** ** Lemmas: flags and digits *)

Lemma on_masked flags f : Z.land (Z.lnot ZEROPAD) f = f -> on (Z.land flags (Z.lnot ZEROPAD)) f = on flags f.
Proof. unfold on. intros E. now rewrite <- Z.land_assoc, E. Qed.

Lemma on_both flags : on flags (ZEROPAD + LEFT) = on flags ZEROPAD || on flags LEFT.
Proof.
  unfold on. change (ZEROPAD + LEFT) with (Z.lor ZEROPAD LEFT). rewrite Z.land_lor_distr_r.
  rewrite <- negb_andb. f_equal. apply eq_true_iff_eq. now rewrite andb_true_iff, !Z.eqb_eq, Z.lor_eq_0_iff.
Qed.

(** The flags after [type &= ~ZEROPAD] for [LEFT]. *)
Definition adjusted (flags : Z) : Z := if on flags LEFT then Z.land flags (Z.lnot ZEROPAD) else flags.

Lemma on_adjusted flags f : Z.land (Z.lnot ZEROPAD) f = f -> on (adjusted flags) f = on flags f.
Proof. intros E. unfold adjusted. destruct (on flags LEFT); [now apply on_masked | done]. Qed.

Lemma on_adjusted_zero flags : on (adjusted flags) ZEROPAD = negb (on flags LEFT) && on flags ZEROPAD.
Proof.
  unfold adjusted. destruct (on flags LEFT); [|done]. unfold on.
  rewrite <- Z.land_assoc. change (Z.land (Z.lnot ZEROPAD) ZEROPAD) with 0. now rewrite Z.land_0_r.
Qed.

Lemma digits_le_range fuel base n : 2 <= base -> 0 <= n -> Forall (fun d => 0 <= d < base) (digits_le fuel base n).
Proof.
  intros Hb. revert n. induction fuel as [|fuel IH]; intros n Hn; cbn; [constructor|].
  destruct (n =? 0); constructor; [apply Z.mod_pos_bound; lia | apply IH, Z.div_pos; lia].
Qed.

Lemma digits_of_range base n : 2 <= base -> 0 <= n -> Forall (fun d => 0 <= d < base) (digits_of base n).
Proof.
  intros Hb Hn. unfold digits_of. destruct (n =? 0); [repeat constructor; lia|].
  apply Forall_rev, digits_le_range; lia.
Qed.

Lemma length_digits_le fuel base n : (length (digits_le fuel base n) <= fuel)%nat.
Proof.
  revert n. induction fuel as [|fuel IH]; intros n; cbn; [done|]. destruct (n =? 0); cbn; [lia|].
  specialize (IH (n / base)). lia.
Qed.

Lemma length_digits_of base n : (length (digits_of base n) <= 32)%nat.
Proof.
  unfold digits_of. destruct (n =? 0); [cbn; lia|]. rewrite length_rev. apply length_digits_le.
Qed.

Lemma value_app base l d : value base (l ++ [d]) = value base l * base + d.
Proof. unfold value. now rewrite fold_left_app. Qed.

Lemma value_digits_le fuel base n :
  2 <= base -> 0 <= n < 2 ^ Z.of_nat fuel -> value base (rev (digits_le fuel base n)) = n.
Proof.
  intros Hb. revert n. induction fuel as [|fuel IH]; intros n Hn; cbn [digits_le rev].
  - change (2 ^ Z.of_nat 0) with 1 in Hn. cbn. lia.
  - destruct (Z.eqb_spec n 0) as [->|Hne]; [done|]. cbn [rev]. rewrite value_app, IH.
    + rewrite (Z.div_mod n base) at 3 by lia. lia.
    + rewrite Nat2Z.inj_succ, Z.pow_succ_r in Hn by lia. split; [apply Z.div_pos; lia|].
      apply Z.div_lt_upper_bound; [lia|]. nia.
Qed.

Lemma value_digits_of base n : 2 <= base -> 0 <= n < 2 ^ 32 -> value base (digits_of base n) = n.
Proof.
  intros Hb Hn. unfold digits_of. destruct (Z.eqb_spec n 0) as [->|Hne]; [done|].
  now apply (value_digits_le 32).
Qed.

Lemma int_text_zero small base : int_text small base 0 = [48].
Proof. now destruct small. Qed.

Lemma length_int_text small base n : (1 <= length (int_text small base n) <= 32)%nat.
Proof.
  unfold int_text. rewrite length_map. split; [|apply length_digits_of].
  unfold digits_of. destruct (Z.eqb_spec n 0) as [->|Hne]; [done|].
  rewrite length_rev. cbn [digits_le]. rewrite (proj2 (Z.eqb_neq _ _) Hne). cbn. lia.
Qed.

(** ** Lemmas: writing *)

Section output.
  Context (s : hart) (a N : Z) (Hroom : mapped (m_ram s) a N).
  Implicit Types out l : list Z.

(** The next address after [out], and the machine that has written [out]. *)
Definition next (out : list Z) : Z := a + Z.of_nat (length out).

Lemma next_snoc out c : Z.of_nat (length out) < N -> u64 (next out + 1) = next (out ++ [c]).
Proof.
  intros Hl. destruct Hroom as (? & ? & _). unfold next. rewrite length_app. cbn [length].
  rewrite u64_small; lia.
Qed.

Lemma store_next out c :
  Z.of_nat (length out) < N -> store_byte (next out) c (wr s a out) = Ret tt (wr s a (out ++ [u8 c])).
Proof. intros Hl. now apply (store_run s a out c N). Qed.

Lemma emit_char_run out c :
  Z.of_nat (length out) < N ->
  emit_char (next out) c (wr s a out) = Ret (next (out ++ [u8 c])) (wr s a (out ++ [u8 c])).
Proof.
  intros Hl. unfold emit_char. erewrite bind_Ret by now apply store_next. now rewrite (next_snoc out (u8 c)).
Qed.

(** [while (size-- > 0) *str++ = c;] *)
Lemma fill_run c out size :
  - 2 ^ 31 < size < 2 ^ 31 -> Z.of_nat (length out) + Z.max 0 size <= N ->
  let out' := out ++ replicate (Z.to_nat size) (u8 c) in
  fill c (next out) size (wr s a out) = Ret (next out', Z.min size 0 - 1) (wr s a out').
Proof.
  intros Hs Hl out'. unfold fill. set (n := Z.to_nat size).
  assert (E0 : out = out ++ replicate 0 (u8 c)) by (cbn; now rewrite app_nil_r).
  rewrite E0 at 1 2. rewrite <- (Z.sub_0_r size) at 1.
  apply (loop_run _ (fun i => (next (out ++ replicate i (u8 c)), size - Z.of_nat i))
    (fun i => wr s a (out ++ replicate i (u8 c))) n); [| |lia].
  - intros i Hi. cbv beta iota zeta. replace (size - Z.of_nat i >? 0) with true by lia.
    assert (Hlen : Z.of_nat (length (out ++ replicate i (u8 c))) < N)
      by (rewrite length_app, length_replicate; lia).
    erewrite bind_Ret by now apply store_next. rewrite (next_snoc _ (u8 c)) by done.
    rewrite <- app_assoc, <- replicate_S_end. unfold ret. rewrite s32_small by lia. do 3 f_equal. lia.
  - cbv beta iota zeta. replace (size - Z.of_nat n >? 0) with false by lia.
    unfold ret. rewrite s32_small by lia. do 3 f_equal. lia.
Qed.

Lemma fill_zeros_run i out precision :
  0 <= i -> precision < 2 ^ 31 -> Z.of_nat (length out) + Z.max 0 (precision - i) <= N ->
  let out' := out ++ replicate (Z.to_nat (precision - i)) 48 in
  i <= precision ->
  fill_zeros i (next out) precision (wr s a out) = Ret (next out') (wr s a out').
Proof.
  intros Hi0 Hp Hl out' Hle. unfold fill_zeros. set (n := Z.to_nat (precision - i)).
  assert (E0 : out = out ++ replicate 0 48) by (cbn; now rewrite app_nil_r).
  rewrite E0 at 1 2. rewrite <- (Z.sub_0_r precision) at 1.
  apply (loop_run _ (fun j => (next (out ++ replicate j 48), precision - Z.of_nat j))
    (fun j => wr s a (out ++ replicate j 48)) n); [| |lia].
  - intros j Hj. cbv beta iota zeta. replace (i <? precision - Z.of_nat j) with true by lia.
    assert (Hlen : Z.of_nat (length (out ++ replicate j 48)) < N)
      by (rewrite length_app, length_replicate; lia).
    erewrite bind_Ret by now apply store_next. rewrite (next_snoc _ 48) by done. change (u8 48) with 48.
    rewrite <- app_assoc, <- replicate_S_end. unfold ret. rewrite s32_small by lia. do 3 f_equal. lia.
  - cbv beta iota zeta. now replace (i <? precision - Z.of_nat n) with false by lia.
Qed.

(** [while (i-- > 0) *str++ = tmp[i];] *)
Lemma put_digits_run tmp out :
  Forall is_byte tmp -> Z.of_nat (length out + length tmp) <= N -> Z.of_nat (length tmp) < 2 ^ 31 ->
  put_digits tmp (Z.of_nat (length tmp)) (next out) (wr s a out) =
    Ret (next (out ++ rev tmp)) (wr s a (out ++ rev tmp)).
Proof.
  intros Hb Hl Hn. unfold put_digits.
  assert (E0 : out = out ++ take 0 (rev tmp)) by (cbn; now rewrite app_nil_r).
  rewrite E0 at 1 2. rewrite <- (Z.sub_0_r (Z.of_nat (length tmp))) at 1.
  apply (loop_run _ (fun i => (next (out ++ take i (rev tmp)), Z.of_nat (length tmp) - Z.of_nat i))
    (fun i => wr s a (out ++ take i (rev tmp))) (length tmp)); [| |lia].
  - intros i Hi. cbv beta iota zeta. replace (Z.of_nat (length tmp) - Z.of_nat i >? 0) with true by lia.
    assert (Hlen : Z.of_nat (length (out ++ take i (rev tmp))) < N)
      by (rewrite length_app, length_take, length_rev; lia).
    assert (Hd : rev tmp !! i = Some (nth (Z.to_nat (Z.of_nat (length tmp) - Z.of_nat i - 1)) tmp 0)).
    { destruct (nth_lookup_or_length (rev tmp) i 0) as [E|E]; [|rewrite length_rev in E; lia].
      rewrite E, rev_nth by lia. do 2 f_equal. lia. }
    pose proof (Forall_lookup_1 _ _ _ _ (Forall_rev Hb) Hd) as Hbyte.
    erewrite bind_Ret by now apply store_next. rewrite u8_small by done.
    rewrite (next_snoc _ (nth (Z.to_nat (Z.of_nat (length tmp) - Z.of_nat i - 1)) tmp 0)) by done.
    rewrite <- app_assoc, <- take_S_r by done. unfold ret. do 3 f_equal. lia.
  - cbv beta iota zeta. rewrite Z.sub_diag. cbn. rewrite firstn_all2; [done|]. rewrite length_rev. lia.
Qed.

End output.

(** ** Lemmas: [number] *)

Lemma digits_le_nth fuel base n :
  2 <= base -> 0 <= n < 2 ^ Z.of_nat fuel ->
  let l := digits_le fuel base n in
  (forall i, (i < length l)%nat -> n / base ^ Z.of_nat i <> 0 /\
    l !! i = Some ((n / base ^ Z.of_nat i) mod base)) /\
  n / base ^ Z.of_nat (length l) = 0.
Proof.
  intros Hb. revert n. induction fuel as [|fuel IH]; intros n Hn; cbn [digits_le].
  - change (2 ^ Z.of_nat 0) with 1 in Hn. cbn. split; [lia|]. rewrite Z.div_1_r. lia.
  - destruct (Z.eqb_spec n 0) as [->|Hne].
    + cbn. split; [lia | done].
    + rewrite Nat2Z.inj_succ, Z.pow_succ_r in Hn by lia.
      assert (Hq : 0 <= n / base < 2 ^ Z.of_nat fuel).
      { split; [apply Z.div_pos; lia|]. apply Z.div_lt_upper_bound; [lia | nia]. }
      destruct (IH _ Hq) as [Hl He].
      assert (Ep : forall i, n / base ^ Z.of_nat (S i) = n / base / base ^ Z.of_nat i).
      { intros i. rewrite Nat2Z.inj_succ, Z.pow_succ_r, Z.div_div by (try apply Z.pow_pos_nonneg; lia). done. }
      cbn [length]. split; [|now rewrite Ep].
      intros [|i] Hi; cbn [lookup list_lookup].
      * change (base ^ Z.of_nat 0) with 1. now rewrite Z.div_1_r.
      * rewrite Ep. apply Hl. lia.
Qed.

Definition table (small : bool) : list Z := if small then LOWER else UPPER.

Lemma glyph_byte small d : is_byte (glyph small d).
Proof.
  unfold glyph. assert (H : Forall is_byte (if small then LOWER else UPPER)).
  { destruct small; repeat constructor; lia. }
  destruct (nth_lookup_or_length (if small then LOWER else UPPER) (Z.to_nat d) 0) as [E|E].
  - exact (Forall_lookup_1 _ _ _ _ H E).
  - rewrite nth_overflow by done. done.
Qed.

Lemma glyph_read s small digits d :
  holds (m_ram s) digits (table small) -> 0 <= d < 36 ->
  load_byte (u64 (digits + d)) s = Ret (glyph small d) s.
Proof.
  intros Hh Hd. pose proof Hh as (? & ? & _).
  assert (length (table small) = 36%nat) as Hl by now destruct small.
  destruct (nth_lookup_or_length (table small) (Z.to_nat d) 0) as [E|E]; [|lia].
  apply (holds_lookup _ _ _ _ _ Hh) in E. rewrite Z2Nat.id in E by lia.
  rewrite u64_small by lia. now apply load_run.
Qed.

Lemma convert_digits_run s small digits base num :
  holds (m_ram s) digits (table small) -> 2 <= base <= 36 -> 0 < num < 2 ^ 32 ->
  convert_digits num base digits s = Ret (rev (int_text small base num)) s.
Proof.
  intros Hh Hb Hn. unfold int_text, digits_of. rewrite (proj2 (Z.eqb_neq num 0)) by lia.
  rewrite <- map_rev, rev_involutive. set (l := digits_le 32 base num).
  destruct (digits_le_nth 32 base num) as [Hl He]; [lia | lia|]. fold l in Hl, He.
  unfold convert_digits. rewrite <- (Z.div_1_r num) at 1. change 1 with (base ^ Z.of_nat 0) at 1.
  apply (loop_run _ (fun i => (num / base ^ Z.of_nat i, map (glyph small) (take i l))) (fun _ => s) (length l)).
  - intros i Hi. destruct (Hl i Hi) as [Hne Hd]. cbv beta iota.
    assert (Hpos : 0 <= num / base ^ Z.of_nat i) by (apply Z.div_pos; [|apply Z.pow_pos_nonneg]; lia).
    rewrite (proj2 (Z.eqb_neq _ 0)) by done. cbn [negb do_div].
    rewrite Z.rem_mod_nonneg, Z.quot_div_nonneg by lia. cbv beta iota.
    pose proof (Z.mod_pos_bound (num / base ^ Z.of_nat i) base ltac:(lia)).
    erewrite bind_Ret by (apply (glyph_read s small); [done | lia]).
    unfold ret. rewrite Nat2Z.inj_succ, Z.pow_succ_r, Z.mul_comm, <- Z.div_div
      by (try apply Z.pow_pos_nonneg; lia). rewrite (take_S_r _ _ _ Hd), map_app. done.
  - cbv beta iota. rewrite He, firstn_all. done.
  - pose proof (length_digits_le 32 base num) as Hlen. fold l in Hlen. lia.
Qed.

Section number.
  Context `{Literals} (s : hart) (a N : Z) (Hroom : mapped (m_ram s) a N).

(** The tables of digits are in memory, and not where the output goes. *)
Record tables : Prop := {
  tb_upper : holds (m_ram s) digits_upper UPPER;
  tb_lower : holds (m_ram s) digits_lower LOWER;
  tb_upper_apart : apart digits_upper 36 a N;
  tb_lower_apart : apart digits_lower 36 a N;
}.

Definition digits_at (small : bool) : Z := if small then digits_lower else digits_upper.

Lemma tables_hold small out :
  tables -> Z.of_nat (length out) <= N -> holds (m_ram (wr s a out)) (digits_at small) (table small).
Proof.
  intros [Hu Hl Au Al] Ho. assert (0 <= a /\ 0 <= Z.of_nat (length out)) as [? ?] by (destruct Hroom; lia).
  destruct small; (apply holds_write; [done|]); unfold apart in *; cbn [length]; cbn; lia.
Qed.

(** The parts of [number] after the digits are known. *)
Definition put_sign (sign str : Z) : C Z := if negb (sign =? 0) then emit_char str sign else ret str.

Definition put_prefix (small : bool) (flags base str : Z) : C Z :=
  if on flags SPECIAL then
    if base =? 8 then emit_char str 48
    else if base =? 16 then
      str <- emit_char str 48 ;;
      x <- load_byte (u64 (digits_at small + 33)) ;;
      emit_char str x
    else ret str
  else ret str.

Definition number_end (i precision size : Z) (tmp : list Z) (str : Z) : C Z :=
  str <- fill_zeros i str precision ;;
  str <- put_digits tmp i str ;;
  let* (str, _) := fill 32 str size in
  ret str.

Definition number_tail (small : bool) (base size precision : Z) (sign : Z) (tmp : list Z) (flags str : Z) : C Z :=
  let i := Z.of_nat (length tmp) in
  let precision := if i >? precision then i else precision in
  let size := s32 (size - precision) in
  let c := if on (adjusted flags) ZEROPAD then 48 else 32 in
  let* (str, size) :=
    if negb (on (adjusted flags) (ZEROPAD + LEFT)) then fill 32 str size else ret (str, size) in
  str <- put_sign sign str ;;
  str <- put_prefix small (adjusted flags) base str ;;
  let* (str, size) := if negb (on (adjusted flags) LEFT) then fill c str size else ret (str, size) in
  number_end i precision size tmp str.

Definition sign_char (flags num : Z) : Z :=
  if on flags SIGN && (num <? 0) then 45 else if on flags PLUS then 43 else if on flags SPACE then 32 else 0.

(** The field width that is left after the sign and the prefix. *)
Definition width_left (sign base size flags : Z) : Z :=
  let size := if negb (sign =? 0) then s32 (size - 1) else size in
  if on flags SPECIAL then
    if base =? 16 then s32 (size - 2) else if base =? 8 then s32 (size - 1) else size
  else size.

(** [number] of a value that needs no absolute value. *)
Lemma number_split str num base size precision flags :
  2 <= base <= 36 -> on flags SIGN && (num <? 0) = false ->
  number str num base size precision flags =
    (tmp <- (if num =? 0 then ret [48] else convert_digits num base (digits_at (on flags SMALL))) ;;
     number_tail (on flags SMALL) base (width_left (sign_char flags num) base size flags) precision
       (sign_char flags num) tmp flags str).
Proof.
  intros Hb Hneg. unfold number. fold (adjusted flags). replace ((base <? 2) || (base >? 36)) with false by lia.
  rewrite (on_adjusted flags SIGN), (on_adjusted flags PLUS), (on_adjusted flags SPACE),
    (on_adjusted flags SPECIAL) by done.
  unfold number_tail, number_end, put_sign, put_prefix, width_left, sign_char, digits_at. rewrite (on_adjusted flags SPECIAL) by done.
  rewrite Hneg. done.
Qed.

(** [number] of a negative value: the value becomes 0. *)
Lemma number_negative str num base size precision flags :
  2 <= base <= 36 -> on flags SIGN = true -> num < 0 ->
  number str num base size precision flags =
    number_tail (on flags SMALL) base (width_left 45 base size flags) precision 45 [48] flags str.
Proof.
  intros Hb Hs Hn. unfold number. fold (adjusted flags). replace ((base <? 2) || (base >? 36)) with false by lia.
  rewrite (on_adjusted flags SIGN), (on_adjusted flags SPECIAL), Hs by done.
  replace (num <? 0) with true by lia. rewrite Z.sub_diag. cbn [andb].
  change (s32 0 =? 0) with true. unfold number_tail, number_end, put_sign, put_prefix, width_left, digits_at. now rewrite (on_adjusted flags SPECIAL) by done.
Qed.

(** [m], called with the next address, writes [text]. *)
Definition emits (m : Z -> C Z) (text : list Z) : Prop :=
  forall out, Z.of_nat (length out) + Z.of_nat (length text) <= N ->
    m (next a out) (wr s a out) = Ret (next a (out ++ text)) (wr s a (out ++ text)).

(** From the start of the room on. *)
Lemma emits_start m text :
  emits m text -> Z.of_nat (length text) <= N -> m a s = Ret (a + Z.of_nat (length text)) (wr s a text).
Proof.
  intros Hm Hl. specialize (Hm [] Hl). unfold next in Hm. cbn [length app] in Hm.
  now rewrite Z.add_0_r, wr_nil in Hm.
Qed.

Lemma emits_none : emits (fun str => ret str) [].
Proof. intros out _. now rewrite app_nil_r. Qed.

Lemma emits_char c : is_byte c -> emits (fun str => emit_char str c) [c].
Proof.
  intros Hc out Hl. cbn in Hl. pose proof (emit_char_run s a N Hroom out c ltac:(lia)) as E.
  now rewrite u8_small in E.
Qed.

Lemma emits_bind (m1 m2 : Z -> C Z) t1 t2 :
  emits m1 t1 -> emits m2 t2 -> emits (fun str => str <- m1 str ;; m2 str) (t1 ++ t2).
Proof.
  intros H1 H2 out Hl. rewrite length_app in Hl. erewrite bind_Ret by (apply H1; lia).
  rewrite app_assoc. apply H2. rewrite length_app. lia.
Qed.

Definition sign_list (sign : Z) : list Z := if sign =? 0 then [] else [sign].

Lemma emits_sign sign : is_byte sign -> emits (put_sign sign) (sign_list sign).
Proof.
  intros Hs. unfold sign_list, put_sign. destruct (sign =? 0); [apply emits_none | now apply emits_char].
Qed.

Lemma emits_table_char small d :
  tables -> 0 <= d < 36 ->
  emits (fun str => x <- load_byte (u64 (digits_at small + d)) ;; emit_char str x) [glyph small d].
Proof.
  intros Ht Hd out Hl. cbn [length] in Hl.
  erewrite bind_Ret by (apply (glyph_read _ small); [apply tables_hold; [done | lia] | done]).
  apply emits_char; [apply glyph_byte | cbn; lia].
Qed.

Lemma emits_prefix flags base :
  tables -> emits (put_prefix (on flags SMALL) (adjusted flags) base) (prefix_text flags base).
Proof.
  intros Ht. unfold prefix_text, put_prefix. rewrite (on_adjusted flags SPECIAL) by done.
  destruct (on flags SPECIAL); [|apply emits_none].
  destruct (base =? 8); [now apply emits_char|]. destruct (base =? 16); [|apply emits_none].
  apply (emits_bind (fun str => emit_char str 48) _ [48]); [now apply emits_char | now apply emits_table_char].
Qed.

Lemma emits_end precision size tmp :
  Forall is_byte tmp -> Z.of_nat (length tmp) <= precision < 2 ^ 31 -> - 2 ^ 31 < size < 2 ^ 31 ->
  emits (number_end (Z.of_nat (length tmp)) precision size tmp)
    (replicate (Z.to_nat (precision - Z.of_nat (length tmp))) 48 ++ rev tmp ++ replicate (Z.to_nat size) 32).
Proof.
  intros Hb Hp Hs out Hl. rewrite !length_app, !length_replicate, length_rev in Hl.
  unfold number_end. erewrite bind_Ret by (apply (fill_zeros_run s a N Hroom); lia).
  erewrite bind_Ret by (apply (put_digits_run s a N Hroom); [done | rewrite length_app, length_replicate; lia | lia]).
  erewrite bind_Ret by (apply (fill_run s a N Hroom); [lia | rewrite !length_app, length_replicate, length_rev; lia]).
  cbv beta iota. rewrite <- !app_assoc. done.
Qed.

Lemma emits_fill c size (k : Z -> Z -> C Z) t :
  is_byte c -> - 2 ^ 31 < size < 2 ^ 31 -> emits (fun str => k str (Z.min size 0 - 1)) t ->
  emits (fun str => let* (str, size) := fill c str size in k str size) (replicate (Z.to_nat size) c ++ t).
Proof.
  intros Hc Hs Hk out Hl. rewrite length_app, length_replicate in Hl.
  erewrite bind_Ret by (apply (fill_run s a N Hroom); lia). cbv beta iota. rewrite u8_small by done.
  rewrite app_assoc. apply Hk. rewrite length_app, length_replicate. lia.
Qed.

Lemma length_prefix_text flags base : (length (prefix_text flags base) <= 2)%nat.
Proof. unfold prefix_text. destruct (on flags SPECIAL), (base =? 8), (base =? 16); cbn; lia. Qed.

Lemma length_sign_list sign : (length (sign_list sign) <= 1)%nat.
Proof. unfold sign_list. destruct (sign =? 0); cbn; lia. Qed.

(** The three layouts of a field. *)
Lemma number_tail_run base width precision sign tmp flags :
  tables -> Forall is_byte tmp -> is_byte sign -> Z.of_nat (length tmp) <= 2 ^ 30 ->
  -1 <= width <= 2 ^ 30 -> precision <= 2 ^ 30 ->
  let size := width - Z.of_nat (length (sign_list sign)) - Z.of_nat (length (prefix_text flags base)) in
  emits (number_tail (on flags SMALL) base size precision sign tmp flags)
    (field (sign_list sign) (prefix_text flags base) (rev tmp) width precision flags).
Proof.
  intros Ht Hb Hsg Hlen Hw Hp size.
  pose proof (length_prefix_text flags base) as Hx. pose proof (length_sign_list sign) as Hs1.
  unfold number_tail, field. rewrite length_rev. set (i := Z.of_nat (length tmp)) in *.
  assert (Hi0 : 0 <= i) by (subst i; lia).
  set (P := if i >? precision then i else precision).
  assert (HP : i <= P <= 2 ^ 30 /\ Z.to_nat (P - i) = Z.to_nat (precision - i)) by (subst P; destruct (Z.gtb_spec i precision); lia).
  destruct HP as [HP Ez]. clearbody P. rewrite <- Ez. set (zeros := replicate (Z.to_nat (P - i)) 48).
  assert (Ep : width - Z.of_nat (length (sign_list sign ++ prefix_text flags base ++ zeros ++ rev tmp)) = size - P).
  { subst size zeros i. rewrite !length_app, length_replicate, length_rev. lia. }
  rewrite Ep. rewrite s32_small by (subst size; lia). set (sz := size - P) in *.
  assert (Hsz : - 2 ^ 31 + 5 < sz < 2 ^ 31) by (subst sz size; lia). clearbody sz.
  rewrite on_both, on_adjusted_zero, (on_adjusted flags LEFT) by done.
  pose proof (emits_sign sign Hsg) as S1. pose proof (emits_prefix flags base Ht) as S2.
  assert (HP' : i <= P < 2 ^ 31) by lia.
  pose proof (fun z => emits_end P z tmp Hb HP') as S3. fold i zeros in S3.
  destruct (on flags LEFT); [|destruct (on flags ZEROPAD)]; cbn [negb andb orb].
  - pose proof (emits_bind _ _ _ _ S1 (emits_bind _ _ _ _ S2 (S3 sz ltac:(lia)))) as S4.
    rewrite <- !app_assoc. exact S4.
  - pose proof (S3 (Z.min sz 0 - 1) ltac:(lia)) as S5.
    pose proof (emits_fill 48 sz (fun str size => number_end i P size tmp str) _ ltac:(done) ltac:(lia)
      S5) as S4. cbv beta in S4.
    replace (Z.to_nat (Z.min sz 0 - 1)) with O in S4 by lia. cbn [replicate] in S4. rewrite app_nil_r in S4.
    exact (emits_bind _ _ _ _ S1 (emits_bind _ _ _ _ S2 S4)).
  - pose proof (S3 (Z.min (Z.min sz 0 - 1) 0 - 1) ltac:(lia)) as S5.
    pose proof (emits_fill 32 (Z.min sz 0 - 1) (fun str size => number_end i P size tmp str) _ ltac:(done)
      ltac:(lia) S5) as S4. cbv beta in S4.
    replace (Z.to_nat (Z.min sz 0 - 1)) with O in S4 by lia.
    replace (Z.to_nat (Z.min (Z.min sz 0 - 1) 0 - 1)) with O in S4 by lia.
    cbn [replicate app] in S4. rewrite app_nil_r in S4.
    exact (emits_fill 32 sz (fun str size =>
      str <- put_sign sign str ;; str <- put_prefix (on flags SMALL) (adjusted flags) base str ;;
      let* (str, size) := fill 32 str size in number_end i P size tmp str) _ ltac:(done) ltac:(lia)
      (emits_bind _ _ _ _ S1 (emits_bind _ _ _ _ S2 S4))).
Qed.

End number.

(** ** Integers *)

Section integers.
  Context `{Literals} (s : hart) (a N : Z) (Hroom : mapped (m_ram s) a N).

Lemma sign_list_text flags n : sign_list (sign_char flags n) = sign_text flags n.
Proof.
  unfold sign_char, sign_text. destruct (on flags SIGN && (n <? 0)); [done|].
  destruct (on flags PLUS); [done|]. now destruct (on flags SPACE).
Qed.

Lemma sign_char_byte flags n : is_byte (sign_char flags n).
Proof.
  unfold sign_char, is_byte. destruct (_ && _); [lia|].
  destruct (on flags PLUS); [lia|]. destruct (on flags SPACE); lia.
Qed.

Lemma width_left_eq sign base width flags :
  -1 <= width <= 2 ^ 30 ->
  width_left sign base width flags =
    width - Z.of_nat (length (sign_list sign)) - Z.of_nat (length (prefix_text flags base)).
Proof.
  intros Hw. unfold width_left, sign_list, prefix_text.
  destruct (sign =? 0), (on flags SPECIAL), (Z.eqb_spec base 16), (Z.eqb_spec base 8); try lia;
    cbn [negb length]; rewrite ?(s32_small (width - 1)) by lia; rewrite ?s32_small by lia; lia.
Qed.

Lemma int_text_bytes small base n : Forall is_byte (int_text small base n).
Proof. apply Forall_forall. intros b (d & <- & _)%list_elem_of_In%in_map_iff. apply glyph_byte. Qed.

Lemma number_run num base width precision flags :
  tables s a N -> 2 <= base <= 36 -> 0 <= num < 2 ^ 31 -> -1 <= width <= 2 ^ 30 -> precision <= 2 ^ 30 ->
  emits s a N (fun str => number str num base width precision flags)
    (rendering num base width precision flags).
Proof.
  intros Ht Hb Hn Hw Hp out Hl. rewrite number_split by (destruct (on flags SIGN); cbn; lia).
  pose proof (length_int_text (on flags SMALL) base num) as Hd.
  set (tmp := rev (int_text (on flags SMALL) base num)).
  erewrite (bind_Ret _ _ _ tmp (wr s a out)).
  - rewrite width_left_eq by done. unfold rendering. rewrite Z.abs_eq, <- sign_list_text by lia.
    replace (int_text (on flags SMALL) base num) with (rev tmp) by apply rev_involutive.
    apply (number_tail_run s a N Hroom); [done | | apply sign_char_byte | | done | done|].
    + apply Forall_rev, int_text_bytes.
    + subst tmp. rewrite length_rev. lia.
    + unfold rendering in Hl. rewrite Z.abs_eq, <- sign_list_text in Hl by lia.
      now replace (rev tmp) with (int_text (on flags SMALL) base num) by (symmetry; apply rev_involutive).
  - destruct (Z.eqb_spec num 0) as [->|Hne]; [now subst tmp; rewrite int_text_zero|].
    apply convert_digits_run; [|done | lia].
    exact (tables_hold s a N Hroom (on flags SMALL) out Ht ltac:(lia)).
Qed.

Lemma number_negative_run num base width precision flags :
  tables s a N -> 2 <= base <= 36 -> num < 0 -> on flags SIGN = true ->
  -1 <= width <= 2 ^ 30 -> precision <= 2 ^ 30 ->
  emits s a N (fun str => number str num base width precision flags)
    (field [45] (prefix_text flags base) [48] width precision flags).
Proof.
  intros Ht Hb Hn Hs Hw Hp out Hl. rewrite number_negative by done. rewrite width_left_eq by done.
  apply (number_tail_run s a N Hroom base width precision 45 [48] flags Ht);
    [repeat constructor; lia | unfold is_byte; lia | cbn; lia | done..].
Qed.

(** A negative value that is not taken as signed: the first digit is read below
    the table. *)
Lemma convert_digits_below num base digits :
  2 <= base <= 36 -> num < 0 -> Z.rem num base <> 0 -> 36 <= digits < 2 ^ 64 ->
  m_ram s !! (digits + Z.rem num base) = None ->
  convert_digits num base digits s = Stop (Fault (digits + Z.rem num base)) s.
Proof.
  intros Hb Hn Hr Hd Hm. unfold convert_digits. apply loop_stop.
  rewrite (proj2 (Z.eqb_neq num 0)) by lia. cbn [negb do_div]. cbv beta iota.
  pose proof (Z.rem_bound_pos_neg num base ltac:(lia) ltac:(lia)).
  rewrite u64_small by lia. apply bind_Stop. unfold load_byte. now rewrite Hm.
Qed.

(** ** Reading digits *)

Lemma value_grows base l v : 2 <= base -> 0 <= v -> Forall (fun d => 0 <= d) l ->
  v <= fold_left (fun v d => v * base + d) l v.
Proof.
  intros Hb Hv Hl. revert v Hv. induction Hl as [|d l Hd _ IH]; intros v Hv; cbn; [lia|].
  specialize (IH (v * base + d)). nia.
Qed.

Lemma skip_atoi_loop l c : forall p v,
  holds (m_ram s) p (map (fun d => 48 + d) l ++ [c]) -> Forall (fun d => 0 <= d < 10) l ->
  is_digit c = false -> 0 <= v -> fold_left (fun v d => v * 10 + d) l v < 2 ^ 31 ->
  forall k, Z.of_nat (length l) < 2 ^ Z.of_nat k ->
  loop k (fun '(i, s) =>
    c <- load_byte s ;;
    if is_digit c then ret (inl (s32 (i * 10 + c - 48), u64 (s + 1)))
    else ret (inr (i, s))) (v, p) s =
  Ret (fold_left (fun v d => v * 10 + d) l v, p + Z.of_nat (length l)) s.
Proof.
  intros p v Hh Hl Hc Hv Hlt k Hk. pose proof Hh as (Hp & Hend & _). rewrite length_app, length_map in Hend. cbn in Hend.
  set (val := fun i => fold_left (fun v d => v * 10 + d) (take i l) v).
  assert (Hval : forall i d, l !! i = Some d -> val (S i) = val i * 10 + d).
  { intros i d Hi. subst val. cbv beta. now rewrite (take_S_r _ _ _ Hi), fold_left_app. }
  assert (Hpos : forall i, 0 <= val i < 2 ^ 31).
  { intros i. assert (Hl0 : Forall (fun d => 0 <= d) l) by (eapply Forall_impl; [exact Hl | cbv beta; lia]).
    split; [etrans; [exact Hv|]; apply value_grows; [lia | done | now apply Forall_take]|].
    eapply Z.le_lt_trans; [|exact Hlt]. rewrite <- (take_drop i l). rewrite fold_left_app.
    apply value_grows; [lia | | now apply Forall_drop].
    etrans; [exact Hv|]. apply value_grows; [lia | done | now apply Forall_take]. }
  rewrite <- (Z.add_0_r p) at 1. change v with (val O) at 1.
  apply (loop_run _ (fun i => (val i, p + Z.of_nat i)) (fun _ => s) (length l)); [| |done].
  - intros i Hi. destruct (lookup_lt_is_Some_2 l i Hi) as [d Hd].
    pose proof (Forall_lookup_1 _ _ _ _ Hl Hd) as Hd9. cbv beta in Hd9. cbv beta iota.
    assert (Hm : m_ram s !! (p + Z.of_nat i) = Some (48 + d)).
    { apply (holds_lookup _ _ _ _ _ Hh). rewrite lookup_app_l by (rewrite length_map; done).
      now rewrite list_lookup_fmap, Hd. }
    erewrite bind_Ret by exact (load_run _ _ _ Hm).
    replace (is_digit (48 + d)) with true by (unfold is_digit; lia). unfold ret.
    pose proof (Hpos (S i)) as Hb. rewrite (Hval i d Hd) in *. rewrite u64_small, s32_small by lia.
    do 3 f_equal; lia.
  - cbv beta iota. assert (Hm : m_ram s !! (p + Z.of_nat (length l)) = Some c).
    { rewrite <- (length_map (fun d => 48 + d) l). apply (holds_lookup _ _ _ _ _ Hh). now apply list_lookup_middle. }
    erewrite bind_Ret by exact (load_run _ _ _ Hm). rewrite Hc. subst val. cbv beta. now rewrite firstn_all.
Qed.

Lemma digit_text n : 0 <= n -> int_text false 10 n = map (fun d => 48 + d) (digits_of 10 n).
Proof.
  intros Hn. apply map_ext_Forall. eapply Forall_impl; [apply (digits_of_range 10 n); lia|].
  intros d Hd. cbv beta in Hd.
  assert (d = 0 \/ d = 1 \/ d = 2 \/ d = 3 \/ d = 4 \/ d = 5 \/ d = 6 \/ d = 7 \/ d = 8 \/ d = 9) as E by lia.
  repeat (destruct E as [->|E]; [done|]). now subst d.
Qed.

Lemma skip_atoi_run p n c :
  holds (m_ram s) p (int_text false 10 n ++ [c]) -> is_digit c = false -> 0 <= n < 2 ^ 31 ->
  skip_atoi p s = Ret (n, p + Z.of_nat (length (int_text false 10 n))) s.
Proof.
  intros Hh Hc Hn. rewrite digit_text in * by lia. rewrite length_map.
  pose proof (value_digits_of 10 n ltac:(lia) ltac:(lia)) as E. unfold value in E.
  pose proof (length_digits_of 10 n). unfold skip_atoi.
  rewrite (skip_atoi_loop (digits_of 10 n) c p 0 Hh); [now rewrite E | apply digits_of_range; lia | done | lia | lia | lia].
Qed.

End integers.

(** ** Properties of [number] *)

Lemma length_field sign prefix digits width precision flags :
  Z.of_nat (length (field sign prefix digits width precision flags)) =
  Z.max width (Z.of_nat (length sign) + Z.of_nat (length prefix) + Z.max precision (Z.of_nat (length digits))).
Proof.
  unfold field. destruct (on flags LEFT); [|destruct (on flags ZEROPAD)];
    rewrite !length_app, !length_replicate; lia.
Qed.

Section number_properties.
  Context `{Literals}.

(** C12: [number] of a value from 0 to [INT_MAX] writes exactly its rendering
    and returns the address behind it: the digits stand for the value, there
    are at least [precision] of them and the field is as wide as asked, or
    wider when the text does not fit. *)
Theorem number_renders s str num base width precision flags :
  2 <= base <= 36 -> 0 <= num < 2 ^ 31 -> -1 <= width <= 2 ^ 30 -> precision <= 2 ^ 30 ->
  let text := rendering num base width precision flags in
  let n := Z.of_nat (length text) in
  mapped (m_ram s) str n -> tables s str n ->
  number str num base width precision flags s = Ret (str + n) (wr s str text) /\
  n = Z.max width (Z.of_nat (length (sign_text flags num)) + Z.of_nat (length (prefix_text flags base)) +
        Z.max precision (Z.of_nat (length (digits_of base num)))) /\
  Forall (fun d => 0 <= d < base) (digits_of base num) /\ value base (digits_of base num) = num.
Proof.
  intros Hb Hn Hw Hp text n Hroom Ht. split; [|split; [|split]].
  - exact (emits_start s str n _ _ (number_run s str n Hroom num base width precision flags Ht Hb Hn Hw Hp)
      (Z.le_refl n)).
  - subst n text. unfold rendering. rewrite length_field, Z.abs_eq by lia. unfold int_text. now rewrite length_map.
  - apply digits_of_range; lia.
  - apply value_digits_of; lia.
Qed.

(** C37: [skip_atoi] reads back what [number] writes in base 10: from the text of
    a value followed by anything that is no digit it returns the value and the
    address behind the text. *)
Theorem skip_atoi_number_roundtrip s str num c :
  0 <= num < 2 ^ 31 -> is_digit c = false ->
  let n := Z.of_nat (length (decimal num)) in
  mapped (m_ram s) str n -> tables s str n -> m_ram s !! (str + n) = Some c -> str + n + 1 < 2 ^ 64 ->
  exists s', number str num 10 (-1) (-1) 0 s = Ret (str + n) s' /\
    skip_atoi str s' = Ret (num, str + n) s'.
Proof.
  intros Hn Hc n Hroom Ht Hm Hend. exists (wr s str (decimal num)). pose proof Hroom as (Hs0 & _).
  assert (E : rendering num 10 (-1) (-1) 0 = decimal num).
  { unfold rendering, field. cbn [on]. rewrite Z.abs_eq by lia.
    change (sign_text 0 num) with (@nil Z). change (prefix_text 0 10) with (@nil Z).
    change (on 0 LEFT) with false. change (on 0 ZEROPAD) with false. change (on 0 SMALL) with false.
    fold (decimal num). cbv beta iota zeta. cbn [app length].
    replace (Z.to_nat (-1 - Z.of_nat (length (decimal num)))) with O by lia. cbn [replicate app].
    now replace (Z.to_nat (-1 - Z.of_nat (length (decimal num)))) with O by lia. }
  split.
  - pose proof (number_run s str n Hroom num 10 (-1) (-1) 0 Ht ltac:(lia) Hn ltac:(lia) ltac:(lia)) as R.
    rewrite E in R. exact (emits_start s str n _ _ R (Z.le_refl n)).
  - apply (skip_atoi_run _ str num c); [|done | done]. fold (decimal num). apply holds_app. split.
    + apply holds_written; fold n; lia.
    + fold n. apply holds_cons. split; [lia|]. split.
      * unfold wr. cbn [m_ram set_ram]. now rewrite write_out by lia.
      * split; [lia|]. split; [cbn; lia | done].
Qed.

(** [number] of a negative value writes the same text for all of them: a
    minus sign and the digit 0, because [num -= num] takes the place of the
    absolute value. *)
Theorem number_negative_prints_zero s str num base width precision flags :
  2 <= base <= 36 -> num < 0 -> on flags SIGN = true -> -1 <= width <= 2 ^ 30 -> precision <= 2 ^ 30 ->
  let text := field [45] (prefix_text flags base) [48] width precision flags in
  let n := Z.of_nat (length text) in
  mapped (m_ram s) str n -> tables s str n ->
  number str num base width precision flags s = Ret (str + n) (wr s str text).
Proof.
  intros Hb Hn Hs Hw Hp text n Hroom Ht.
  exact (emits_start s str n _ _ (number_negative_run s str n Hroom num base width precision flags Ht Hb Hn Hs Hw Hp)
    (Z.le_refl n)).
Qed.

(** An unsigned value from [2 ^ 31] on is negative as the [int] that
    [number] takes; without [SIGN], the digit it writes first is read below the
    table of digits, at the address of the remainder of a negative division. *)
Theorem number_reads_below_table s str num base width precision flags :
  2 <= base <= 36 -> num < 0 -> Z.rem num base <> 0 -> on flags SIGN = false ->
  let digits := if on flags SMALL then digits_lower else digits_upper in
  36 <= digits < 2 ^ 64 -> m_ram s !! (digits + Z.rem num base) = None ->
  digits + Z.rem num base < digits /\
  number str num base width precision flags s = Stop (Fault (digits + Z.rem num base)) s.
Proof.
  intros Hb Hn Hr Hs digits Hd Hm. split.
  - pose proof (Z.rem_bound_pos_neg num base ltac:(lia) ltac:(lia)). lia.
  - rewrite number_split by (rewrite ?Hs; done). rewrite (proj2 (Z.eqb_neq num 0)) by lia.
    apply bind_Stop. now apply convert_digits_below.
Qed.

End number_properties.

(** ** Examples *)

(** The tables of digits in the image of the kernel, and room for output. *)
#[local] Instance number_demo_literals : Literals :=
  {| digits_upper := 0x80201000; digits_lower := 0x80201100 |}.

Definition number_demo_ram : gmap Z Z :=
  put 0x80201000 UPPER (put 0x80201100 LOWER (put 0x80205000 (replicate 16 44) ∅)).
Definition number_demo : hart := booted number_demo_ram.

Lemma number_demo_room (n : nat) : (n <= 16)%nat -> mapped (m_ram number_demo) 0x80205000 (Z.of_nat n).
Proof.
  intros Hn. apply (mapped_sub _ 0x80205000 (Z.of_nat 16)); [|lia..].
  apply mapped_check_ok. vm_compute. reflexivity.
Qed.

Lemma number_demo_tables n : tables number_demo 0x80205000 n.
Proof.
  split; [apply holds_check_ok; vm_compute; reflexivity.. | |]; left; vm_compute; congruence.
Qed.

Lemma number_renders_witness :
  exists s', number 0x80205000 255 16 6 (-1) (Z.lor SPECIAL (Z.lor ZEROPAD SMALL)) number_demo = Ret 0x80205006 s' /\
    holds (m_ram s') 0x80205000 (codes "0x00ff").
Proof.
  eexists. split.
  - apply (number_renders number_demo 0x80205000 255 16 6 (-1) (Z.lor SPECIAL (Z.lor ZEROPAD SMALL)));
      [lia | lia | lia | lia | apply (number_demo_room 6); lia | apply number_demo_tables].
  - apply holds_check_ok. vm_compute. reflexivity.
Defined.

Lemma skip_atoi_number_roundtrip_witness :
  exists s', number 0x80205000 1024 10 (-1) (-1) 0 number_demo = Ret 0x80205004 s' /\
    skip_atoi 0x80205000 s' = Ret (1024, 0x80205004) s'.
Proof.
  apply (skip_atoi_number_roundtrip number_demo 0x80205000 1024 44);
    [lia | reflexivity | apply (number_demo_room 4); lia | apply number_demo_tables | vm_compute; reflexivity | vm_compute; reflexivity].
Defined.

Lemma number_negative_prints_zero_witness :
  exists s', number 0x80205000 (-42) 10 (-1) (-1) SIGN number_demo = Ret 0x80205002 s' /\
    holds (m_ram s') 0x80205000 (codes "-0").
Proof.
  eexists. split.
  - apply (number_negative_prints_zero number_demo 0x80205000 (-42) 10 (-1) (-1) SIGN);
      [lia | lia | reflexivity | lia | lia | apply (number_demo_room 2); lia | apply number_demo_tables].
  - apply holds_check_ok. vm_compute. reflexivity.
Defined.

Lemma number_reads_below_table_witness :
  number 0x80205000 (-5) 10 (-1) (-1) 0 number_demo = Stop (Fault (0x80201000 + Z.rem (-5) 10)) number_demo.
Proof.
  refine (proj2 (number_reads_below_table number_demo 0x80205000 (-5) 10 (-1) (-1) 0 _ _ _ _ _ _));
    [lia | lia | vm_compute; congruence | reflexivity | vm_compute; split; congruence | vm_compute; reflexivity].
Defined.
