(* ===== verification/ToyPrintf.v ===== *)
(** * ToyPrintf: formats in src/toyos/Library/libc/vsprintf.cpp

    [vsprintf] and the parts of its loop, and a syntax of formats with the text
    that each directive stands for, which [vsprintf] is shown to write. *)

From stdpp Require Import base numbers list strings gmap.
From S2P Require Import Prelude Riscv ToyString ToyNumber.
From Stdlib Require Import ZArith Lia.
Open Scope Z_scope.

Section code.
  Context `{Literals}.

(** ** The parts of a directive *)

(** From the label [repeat] to the first character that is no flag. *)
Definition read_flags (fmt : Z) : C (Z * Z) :=
  loop 65 (fun '(fmt, flags) =>
    let fmt := u64 (fmt + 1) in
    c <- load_byte fmt ;;
    if c =? 45 then ret (inl (fmt, Z.lor flags LEFT))
    else if c =? 43 then ret (inl (fmt, Z.lor flags PLUS))
    else if c =? 32 then ret (inl (fmt, Z.lor flags SPACE))
    else if c =? 35 then ret (inl (fmt, Z.lor flags SPECIAL))
    else if c =? 48 then ret (inl (fmt, Z.lor flags ZEROPAD))
    else ret (inr (fmt, flags))) (fmt, 0).

(** The width, and [fmt], [args] and [flags] after it. *)
Definition read_width (fmt args flags : Z) : C (Z * Z * Z * Z) :=
  c <- load_byte fmt ;;
  if is_digit c then
    let* (field_width, fmt) := skip_atoi fmt in ret (field_width, fmt, args, flags)
  else if c =? 42 then
    let* (field_width, args) := va_int args in
    if field_width <? 0 then ret (s32 (- field_width), fmt, args, Z.lor flags LEFT)
    else ret (field_width, fmt, args, flags)
  else ret (-1, fmt, args, flags).

Definition read_precision (fmt args : Z) : C (Z * Z * Z) :=
  c <- load_byte fmt ;;
  if c =? 46 then
    let fmt := u64 (fmt + 1) in
    c <- load_byte fmt ;;
    let* (precision, fmt, args) :=
      if is_digit c then
        let* (precision, fmt) := skip_atoi fmt in ret (precision, fmt, args)
      else if c =? 42 then
        let* (precision, args) := va_int args in ret (precision, fmt, args)
      else ret (-1, fmt, args) in
    ret (if precision <? 0 then 0 else precision, fmt, args)
  else ret (-1, fmt, args).

Definition skip_qualifier (fmt : Z) : C Z :=
  c <- load_byte fmt ;;
  if (c =? 104) || (c =? 108) || (c =? 76) then ret (u64 (fmt + 1)) else ret fmt.

(** ** The conversions *)

(** [while (--field_width > 0) *str++ = ' ';] *)
Definition pad_char (str field_width : Z) : C (Z * Z) :=
  loop 33 (fun '(str, field_width) =>
    let field_width := s32 (field_width - 1) in
    if field_width >? 0 then store_byte str 32 ;;; ret (inl (u64 (str + 1), field_width))
    else ret (inr (str, field_width))) (str, field_width).

(** [while (len < field_width--) *str++ = ' ';] *)
Definition pad_string (len str field_width : Z) : C (Z * Z) :=
  loop 33 (fun '(str, field_width) =>
    let field_width' := s32 (field_width - 1) in
    if len <? field_width then
      store_byte str 32 ;;; ret (inl (u64 (str + 1), field_width'))
    else ret (inr (str, field_width'))) (str, field_width).

(** [for (i = 0; i < len; ++i) *str++ = *s++;] *)
Definition copy_string (len s str : Z) : C Z :=
  loop 33 (fun '(i, s, str) =>
    if i <? len then
      b <- load_byte s ;;
      store_byte str b ;;;
      ret (inl (s32 (i + 1), u64 (s + 1), u64 (str + 1)))
    else ret (inr str)) (0, s, str).

Definition convert_char (str args flags field_width : Z) : C (Z * Z) :=
  let* (str, field_width) :=
    if negb (on flags LEFT) then pad_char str field_width else ret (str, field_width) in
  let* (v, args) := va_int args in
  str <- emit_char str (u8 v) ;;
  let* (str, _) := pad_char str field_width in
  ret (str, args).

Definition convert_string (str args flags field_width precision : Z) : C (Z * Z) :=
  let* (s, args) := va_ptr args in
  len <- strlen s ;;
  let len := s32 len in
  let len := if precision <? 0 then len else if len >? precision then precision else len in
  let* (str, field_width) :=
    if negb (on flags LEFT) then pad_string len str field_width else ret (str, field_width) in
  str <- copy_string len s str ;;
  let* (str, _) := pad_string len str field_width in
  ret (str, args).

Definition convert_int (str args base field_width precision flags : Z) : C (Z * Z) :=
  let* (v, args) := va_int args in
  str <- number str v base field_width precision flags ;;
  ret (str, args).

(** The second [switch]: [str], [fmt] and [args] after it.  The arguments of
    'o', 'x', 'u' are [uint32_t] and that of 'p' is a [uint64_t], each of which
    [number] takes as an [int]. *)
Definition convert (buf str fmt args flags field_width precision : Z) : C (Z * Z * Z) :=
  c <- load_byte fmt ;;
  if c =? 99 then
    let* (str, args) := convert_char str args flags field_width in ret (str, fmt, args)
  else if c =? 115 then
    let* (str, args) := convert_string str args flags field_width precision in ret (str, fmt, args)
  else if c =? 111 then
    let* (str, args) := convert_int str args 8 field_width precision flags in ret (str, fmt, args)
  else if c =? 112 then
    let '(field_width, flags) :=
      if field_width =? -1 then (8, Z.lor flags ZEROPAD) else (field_width, flags) in
    let* (p, args) := va_ptr args in
    str <- number str (s32 p) 16 field_width precision flags ;;
    ret (str, fmt, args)
  else if c =? 120 then
    let* (str, args) := convert_int str args 16 field_width precision (Z.lor flags SMALL) in
    ret (str, fmt, args)
  else if c =? 88 then
    let* (str, args) := convert_int str args 16 field_width precision flags in ret (str, fmt, args)
  else if (c =? 100) || (c =? 105) then
    let* (str, args) := convert_int str args 10 field_width precision (Z.lor flags SIGN) in
    ret (str, fmt, args)
  else if c =? 117 then
    let* (str, args) := convert_int str args 10 field_width precision flags in ret (str, fmt, args)
  else if c =? 110 then
    let* (ip, args) := va_ptr args in
    store_le 4 ip (str - buf) ;;;
    ret (str, fmt, args)
  else
    str <- (if negb (c =? 37) then emit_char str 37 else ret str) ;;
    if negb (c =? 0) then
      str <- emit_char str c ;; ret (str, fmt, args)
    else ret (str, u64 (fmt - 1), args).

Definition directive (buf str fmt args : Z) : C (Z * Z * Z) :=
  let* (fmt, flags) := read_flags fmt in
  let* (field_width, fmt, args, flags) := read_width fmt args flags in
  let* (precision, fmt, args) := read_precision fmt args in
  fmt <- skip_qualifier fmt ;;
  convert buf str fmt args flags field_width precision.

(** One round of the main loop. *)
Definition round (buf : Z) : Z * Z * Z -> C (Z * Z * Z + Z) := fun '(str, fmt, args) =>
  c <- load_byte fmt ;;
  if c =? 0 then ret (inr str)
  else
    let* (str, fmt, args) :=
      if negb (c =? 37) then str <- emit_char str c ;; ret (str, fmt, args)
      else directive buf str fmt args in
    ret (inl (str, u64 (fmt + 1), args)).

Definition vsprintf (buf fmt args : Z) : C Z :=
  str <- loop 65 (round buf) (buf, fmt, args) ;;
  store_byte str 0 ;;;
  ret (s32 (str - buf)).

End code.

(** ** Formats

    The syntax of the formats that [vsprintf] understands, with the arguments
    that go with them, and the text that they stand for. *)

Inductive flag : Type := FLeft | FPlus | FSpace | FSpecial | FZero.

Definition flag_char (f : flag) : Z :=
  match f with FLeft => 45 | FPlus => 43 | FSpace => 32 | FSpecial => 35 | FZero => 48 end.

Definition flag_bit (f : flag) : Z :=
  match f with FLeft => LEFT | FPlus => PLUS | FSpace => SPACE | FSpecial => SPECIAL | FZero => ZEROPAD end.

Inductive conversion : Type := Cc | Cs | Co | Cp | Cx | CX | Cd | Ci | Cu.

Definition conversion_char (c : conversion) : Z :=
  match c with
  | Cc => 99 | Cs => 115 | Co => 111 | Cp => 112 | Cx => 120 | CX => 88 | Cd => 100 | Ci => 105 | Cu => 117
  end.

Record spec : Type := Spec {
  sp_flags : list flag;
  sp_width : option Z;
  sp_precision : option Z;
  sp_qualifier : option Z;
  sp_conversion : conversion;
}.

(** An argument is a number or the address of a string. *)
Inductive argument : Type :=
  | Int (v : Z)
  | Str (p : Z) (l : list Z).

Inductive item : Type :=
  | Char (c : Z)
  | Percent
  | Field (d : spec) (v : argument).

Definition after_flags (d : spec) : list Z :=
  match sp_width d with Some w => decimal w | None => [] end ++
  match sp_precision d with Some p => 46 :: decimal p | None => [] end ++
  match sp_qualifier d with Some q => [q] | None => [] end ++ [conversion_char (sp_conversion d)].

Definition syntax (i : item) : list Z :=
  match i with
  | Char c => [c]
  | Percent => [37; 37]
  | Field d _ => 37 :: map flag_char (sp_flags d) ++ after_flags d
  end.

Definition argument_value (v : argument) : Z := match v with Int n => n | Str p _ => p end.

Definition argument_slot (i : item) : list Z :=
  match i with Field _ v => le_bytes 8 (argument_value v) | _ => [] end.

Definition flags_value (l : list flag) : Z := fold_left (fun m f => Z.lor m (flag_bit f)) l 0.

Definition padded (flags width : Z) (text : list Z) : list Z :=
  let pad := replicate (Z.to_nat (width - Z.of_nat (length text))) 32 in
  if on flags LEFT then text ++ pad else pad ++ text.

Definition field_text (d : spec) (v : argument) : list Z :=
  let flags := flags_value (sp_flags d) in
  let width := default (-1) (sp_width d) in
  let precision := default (-1) (sp_precision d) in
  match sp_conversion d, v with
  | Cc, Int n => padded flags width [u8 n]
  | Cs, Str _ l => padded flags width (match sp_precision d with Some p => take (Z.to_nat p) l | None => l end)
  | Co, Int n => rendering n 8 width precision flags
  | Cp, Int n =>
      match sp_width d with
      | Some _ => rendering n 16 width precision flags
      | None => rendering n 16 8 precision (Z.lor flags ZEROPAD)
      end
  | Cx, Int n => rendering n 16 width precision (Z.lor flags SMALL)
  | CX, Int n => rendering n 16 width precision flags
  | (Cd | Ci), Int n => rendering n 10 width precision (Z.lor flags SIGN)
  | Cu, Int n => rendering n 10 width precision flags
  | _, _ => []
  end.

Definition item_text (i : item) : list Z :=
  match i with Char c => [c] | Percent => [37] | Field d v => field_text d v end.

Definition format (items : list item) : list Z := concat (map syntax items).
Definition slots (items : list item) : list Z := concat (map argument_slot items).
Definition output (items : list item) : list Z := concat (map item_text items).

(** The arguments that [vsprintf] prints as the format says: numbers from 0 to
    [INT_MAX]. *)
Definition argument_ok (c : conversion) (v : argument) : Prop :=
  match c, v with
  | Cs, Str p l => 0 <= p < 2 ^ 64 /\ Z.of_nat (length l) < 2 ^ 30
  | Cs, _ => False
  | _, Int n => 0 <= n < 2 ^ 31
  | _, _ => False
  end.

Definition spec_ok (d : spec) : Prop :=
  match sp_width d with Some w => 0 < w <= 2 ^ 30 | None => True end /\
  match sp_precision d with Some p => 0 <= p <= 2 ^ 30 | None => True end /\
  match sp_qualifier d with Some q => q = 104 \/ q = 108 \/ q = 76 | None => True end.

Definition item_ok (i : item) : Prop :=
  match i with
  | Char c => 0 < c < 256 /\ c <> 37
  | Percent => True
  | Field d v => spec_ok d /\ argument_ok (sp_conversion d) v
  end.

(** ** Lemmas: the parts of a directive *)

Definition is_flag (c : Z) : bool := (c =? 45) || (c =? 43) || (c =? 32) || (c =? 35) || (c =? 48).

Lemma read_flags_run s fmt l c :
  0 <= fmt -> holds (m_ram s) (fmt + 1) (map flag_char l ++ [c]) -> is_flag c = false ->
  read_flags fmt s = Ret (fmt + 1 + Z.of_nat (length l), flags_value l) s.
Proof.
  intros Hf Hh Hc. pose proof Hh as (_ & Hend & _). rewrite length_app, length_map in Hend. cbn in Hend.
  unfold read_flags. rewrite <- (Z.add_0_r fmt) at 1. change 0 with (flags_value (take 0 l)) at 2.
  apply (loop_run _ (fun i => (fmt + Z.of_nat i, flags_value (take i l))) (fun _ => s) (length l)); [| |lia].
  - intros i Hi. destruct (lookup_lt_is_Some_2 l i Hi) as [f Hl]. cbv beta iota zeta.
    assert (Hm : m_ram s !! u64 (fmt + Z.of_nat i + 1) = Some (flag_char f)).
    { rewrite u64_small by lia. replace (fmt + Z.of_nat i + 1) with (fmt + 1 + Z.of_nat i) by lia.
      apply (holds_lookup _ _ _ _ _ Hh). rewrite lookup_app_l by (rewrite length_map; done).
      now rewrite list_lookup_fmap, Hl. }
    erewrite bind_Ret by exact (load_run _ _ _ Hm).
    assert (Ev : flags_value (take (S i) l) = Z.lor (flags_value (take i l)) (flag_bit f))
      by (rewrite (take_S_r _ _ _ Hl); unfold flags_value; now rewrite fold_left_app).
    rewrite Ev, u64_small by lia. replace (fmt + Z.of_nat i + 1) with (fmt + Z.of_nat (S i)) by lia.
    now destruct f.
  - cbv beta iota zeta. assert (Hm : m_ram s !! u64 (fmt + Z.of_nat (length l) + 1) = Some c).
    { rewrite u64_small by lia. replace (fmt + Z.of_nat (length l) + 1) with (fmt + 1 + Z.of_nat (length (map flag_char l)))
        by (rewrite length_map; lia).
      apply (holds_lookup _ _ _ _ _ Hh). now apply list_lookup_middle. }
    erewrite bind_Ret by exact (load_run _ _ _ Hm). unfold is_flag in Hc. rewrite !orb_false_iff in Hc.
    destruct Hc as ((((-> & ->) & ->) & ->) & ->). rewrite firstn_all, u64_small by lia.
    unfold ret. do 3 f_equal. lia.
Qed.

Lemma decimal_head n : 0 <= n -> exists c t, decimal n = c :: t /\ is_digit c = true.
Proof.
  intros Hn. unfold decimal. rewrite digit_text by done.
  pose proof (digits_of_range 10 n ltac:(lia) Hn) as Hr. pose proof (length_int_text false 10 n) as Hl.
  unfold int_text in Hl. rewrite length_map in Hl.
  destruct (digits_of 10 n) as [|d l]; [cbn in Hl; lia|]. exists (48 + d), (map (fun d => 48 + d) l).
  split; [done|]. inversion Hr as [|? ? Hd]. unfold is_digit. lia.
Qed.

(** [m] reads the optional number [n] at [fmt], with [c] behind it. *)
Lemma skip_decimal_run s fmt n c :
  holds (m_ram s) fmt (decimal n ++ [c]) -> is_digit c = false -> 0 <= n < 2 ^ 31 ->
  (exists d, m_ram s !! fmt = Some d /\ is_digit d = true) /\
  skip_atoi fmt s = Ret (n, fmt + Z.of_nat (length (decimal n))) s.
Proof.
  intros Hh Hc Hn. split; [|now apply (skip_atoi_run s fmt n c)].
  destruct (decimal_head n ltac:(lia)) as (d & t & E & Hd). exists d. split; [|done].
  rewrite E in Hh. cbn [app] in Hh. now apply holds_cons in Hh as (_ & ? & _).
Qed.

Definition width_syntax (w : option Z) : list Z := match w with Some w => decimal w | None => [] end.
Definition precision_syntax (p : option Z) : list Z := match p with Some p => 46 :: decimal p | None => [] end.
Definition qualifier_syntax (q : option Z) : list Z := match q with Some q => [q] | None => [] end.

Lemma read_width_run s fmt args flags w c :
  holds (m_ram s) fmt (width_syntax w ++ [c]) -> is_digit c = false -> c <> 42 ->
  match w with Some w => 0 < w <= 2 ^ 30 | None => True end ->
  read_width fmt args flags s = Ret (default (-1) w, fmt + Z.of_nat (length (width_syntax w)), args, flags) s.
Proof.
  intros Hh Hc Hs Hw. unfold read_width. destruct w as [w|]; cbn [width_syntax default] in *.
  - destruct (skip_decimal_run s fmt w c Hh Hc ltac:(lia)) as [(d & Hm & Hd) E].
    erewrite bind_Ret by exact (load_run _ _ _ Hm). rewrite Hd. now erewrite bind_Ret by exact E.
  - cbn [app] in Hh. apply holds_cons in Hh as (_ & Hm & _).
    erewrite bind_Ret by exact (load_run _ _ _ Hm). rewrite Hc, (proj2 (Z.eqb_neq c 42)) by done.
    unfold ret. cbn. do 4 f_equal. lia.
Qed.

Lemma read_precision_run s fmt args p c :
  holds (m_ram s) fmt (precision_syntax p ++ [c]) -> is_digit c = false -> c <> 46 ->
  match p with Some p => 0 <= p <= 2 ^ 30 | None => True end ->
  read_precision fmt args s = Ret (default (-1) p, fmt + Z.of_nat (length (precision_syntax p)), args) s.
Proof.
  intros Hh Hc Hs Hp. unfold read_precision. destruct p as [p|]; cbn [precision_syntax default] in *.
  - cbn [app] in Hh. apply holds_cons in Hh as (? & Hm & Hh). pose proof Hh as (? & ? & _).
    erewrite bind_Ret by exact (load_run _ _ _ Hm). cbn [Z.eqb Pos.eqb]. cbv zeta.
    rewrite u64_small by lia.
    destruct (skip_decimal_run s (fmt + 1) p c Hh Hc ltac:(lia)) as [(d & Hm' & Hd) E].
    erewrite bind_Ret by exact (load_run _ _ _ Hm'). rewrite Hd.
    erewrite bind_Ret by (erewrite bind_Ret by exact E; reflexivity). cbv beta iota.
    replace (p <? 0) with false by lia. unfold ret. do 3 f_equal. cbn [length]. lia.
  - cbn [app] in Hh. apply holds_cons in Hh as (_ & Hm & _).
    erewrite bind_Ret by exact (load_run _ _ _ Hm). rewrite (proj2 (Z.eqb_neq c 46)) by done.
    unfold ret. cbn. do 3 f_equal. lia.
Qed.

Lemma skip_qualifier_run s fmt q c :
  holds (m_ram s) fmt (qualifier_syntax q ++ [c]) -> c <> 104 -> c <> 108 -> c <> 76 ->
  match q with Some q => q = 104 \/ q = 108 \/ q = 76 | None => True end ->
  skip_qualifier fmt s = Ret (fmt + Z.of_nat (length (qualifier_syntax q))) s.
Proof.
  intros Hh H1 H2 H3 Hq. unfold skip_qualifier. destruct q as [q|]; cbn [qualifier_syntax app] in *.
  - apply holds_cons in Hh as (? & Hm & Hh). pose proof Hh as (? & ? & _).
    erewrite bind_Ret by exact (load_run _ _ _ Hm).
    replace ((q =? 104) || (q =? 108) || (q =? 76)) with true by lia. now rewrite u64_small by (cbn in *; lia).
  - apply holds_cons in Hh as (? & Hm & Hh). erewrite bind_Ret by exact (load_run _ _ _ Hm).
    replace ((c =? 104) || (c =? 108) || (c =? 76)) with false by lia. cbn. unfold ret. f_equal. lia.
Qed.

(** ** Lemmas: arguments *)

Lemma le_bytes_take n k v : (n <= k)%nat -> take n (le_bytes k v) = le_bytes n v.
Proof.
  revert k v. induction n as [|n IH]; intros k v Hn; [done|].
  destruct k as [|k]; [lia|]. cbn. f_equal. apply IH. lia.
Qed.

Lemma va_int_run s args n :
  holds (m_ram s) args (le_bytes 8 n) -> 0 <= n < 2 ^ 31 -> va_int args s = Ret (n, args + 8) s.
Proof.
  intros Hh Hn. unfold va_int. pose proof Hh as (? & Hend & _). rewrite length_le_bytes in Hend.
  assert (H4 : holds (m_ram s) args (le_bytes 4 n)).
  { rewrite <- (take_drop 4 (le_bytes 8 n)), le_bytes_take in Hh by lia. now apply holds_app in Hh as [Hh _]. }
  erewrite bind_Ret by exact (load_le_run (le_bytes 4 n) s args n H4 eq_refl).
  change (8 * Z.of_nat (length (le_bytes 4 n))) with 32. rewrite Z.mod_small, s32_small, u64_small by lia. done.
Qed.

Lemma va_ptr_run s args p :
  holds (m_ram s) args (le_bytes 8 p) -> 0 <= p < 2 ^ 64 -> va_ptr args s = Ret (p, args + 8) s.
Proof.
  intros Hh Hp. unfold va_ptr. pose proof Hh as (? & Hend & _). rewrite length_le_bytes in Hend.
  erewrite bind_Ret by exact (load_le_run (le_bytes 8 p) s args p Hh eq_refl).
  change (8 * Z.of_nat (length (le_bytes 8 p))) with 64. now rewrite Z.mod_small, u64_small by lia.
Qed.

(** ** Lemmas: characters and strings *)

Section conversions.
  Context `{Literals} (s : hart) (a N : Z) (Hroom : mapped (m_ram s) a N).

Lemma pad_char_run out width :
  - 2 ^ 31 < width < 2 ^ 31 -> Z.of_nat (length out) + Z.max 0 (width - 1) <= N ->
  let out' := out ++ replicate (Z.to_nat (width - 1)) 32 in
  pad_char (next a out) width (wr s a out) = Ret (next a out', Z.min (width - 1) 0) (wr s a out').
Proof.
  intros Hw Hl out'. unfold pad_char. set (n := Z.to_nat (width - 1)).
  assert (E0 : out = out ++ replicate 0 32) by (cbn; now rewrite app_nil_r).
  rewrite E0 at 1 2. rewrite <- (Z.sub_0_r width) at 1.
  apply (loop_run _ (fun i => (next a (out ++ replicate i 32), width - Z.of_nat i))
    (fun i => wr s a (out ++ replicate i 32)) n); [| |lia].
  - intros i Hi. cbv beta iota zeta. rewrite s32_small by lia.
    replace (width - Z.of_nat i - 1 >? 0) with true by lia.
    assert (Hlen : Z.of_nat (length (out ++ replicate i 32)) < N)
      by (rewrite length_app, length_replicate; lia).
    erewrite bind_Ret by exact (store_next s a N Hroom _ 32 Hlen). rewrite (next_snoc s a N Hroom _ 32) by done.
    change (u8 32) with 32. rewrite <- app_assoc, <- replicate_S_end. unfold ret. do 3 f_equal. lia.
  - cbv beta iota zeta. rewrite s32_small by lia. replace (width - Z.of_nat n - 1 >? 0) with false by lia.
    unfold ret. do 3 f_equal. lia.
Qed.

Lemma pad_string_run len out width :
  0 <= len < 2 ^ 31 -> - 2 ^ 31 < width < 2 ^ 31 -> Z.of_nat (length out) + Z.max 0 (width - len) <= N ->
  let out' := out ++ replicate (Z.to_nat (width - len)) 32 in
  pad_string len (next a out) width (wr s a out) = Ret (next a out', Z.min width len - 1) (wr s a out').
Proof.
  intros Hn Hw Hl out'. unfold pad_string. set (n := Z.to_nat (width - len)).
  assert (E0 : out = out ++ replicate 0 32) by (cbn; now rewrite app_nil_r).
  rewrite E0 at 1 2. rewrite <- (Z.sub_0_r width) at 1.
  apply (loop_run _ (fun i => (next a (out ++ replicate i 32), width - Z.of_nat i))
    (fun i => wr s a (out ++ replicate i 32)) n); [| |lia].
  - intros i Hi. cbv beta iota zeta. rewrite s32_small by lia.
    replace (len <? width - Z.of_nat i) with true by lia.
    assert (Hlen : Z.of_nat (length (out ++ replicate i 32)) < N)
      by (rewrite length_app, length_replicate; lia).
    erewrite bind_Ret by exact (store_next s a N Hroom _ 32 Hlen). rewrite (next_snoc s a N Hroom _ 32) by done.
    change (u8 32) with 32. rewrite <- app_assoc, <- replicate_S_end. unfold ret. do 3 f_equal. lia.
  - cbv beta iota zeta. rewrite s32_small by lia. replace (len <? width - Z.of_nat n) with false by lia.
    unfold ret. do 3 f_equal. lia.
Qed.

Lemma copy_string_run p l out :
  Forall is_byte l -> holds (m_ram s) p l -> apart p (Z.of_nat (length l)) a N ->
  Z.of_nat (length l) < 2 ^ 31 -> Z.of_nat (length out) + Z.of_nat (length l) <= N ->
  copy_string (Z.of_nat (length l)) p (next a out) (wr s a out) = Ret (next a (out ++ l)) (wr s a (out ++ l)).
Proof.
  intros Hb Hh Ha Hn Hl. pose proof Hh as (Hp & Hend & _). pose proof Hroom as (? & _).
  assert (Hh' : forall i, holds (m_ram (wr s a (out ++ take i l))) p l).
  { intros i. apply holds_write; [done|]. rewrite length_app, length_take. unfold apart in *. lia. }
  unfold copy_string. assert (E0 : out = out ++ take 0 l) by (cbn; now rewrite app_nil_r).
  rewrite E0 at 1 2. rewrite <- (Z.add_0_r p) at 1. change 0 with (Z.of_nat 0) at 1.
  apply (loop_run _ (fun i => (Z.of_nat i, p + Z.of_nat i, next a (out ++ take i l)))
    (fun i => wr s a (out ++ take i l)) (length l)); [| |lia].
  - intros i Hi. cbv beta iota. replace (Z.of_nat i <? Z.of_nat (length l)) with true by lia.
    destruct (lookup_lt_is_Some_2 l i Hi) as [b Hb'].
    erewrite bind_Ret by exact (load_run _ _ _ (holds_lookup _ _ _ _ _ (Hh' i) Hb')).
    assert (Hlen : Z.of_nat (length (out ++ take i l)) < N) by (rewrite length_app, length_take; lia).
    erewrite bind_Ret by exact (store_next s a N Hroom _ b Hlen). rewrite (next_snoc s a N Hroom _ b) by done.
    rewrite u8_small by exact (Forall_lookup_1 _ _ _ _ Hb Hb'). rewrite <- app_assoc, <- take_S_r by done.
    unfold ret. rewrite s32_small, u64_small by lia.
    replace (p + Z.of_nat i + 1) with (p + Z.of_nat (S i)) by lia.
    now replace (Z.of_nat i + 1) with (Z.of_nat (S i)) by lia.
  - cbv beta iota. replace (Z.of_nat (length l) <? Z.of_nat (length l)) with false by lia.
    now rewrite firstn_all.
Qed.

(** A conversion at [args] that writes [text] and takes one argument. *)
Definition converts (m : Z -> Z -> C (Z * Z)) (args : Z) (text : list Z) : Prop :=
  forall out, Z.of_nat (length out) + Z.of_nat (length text) <= N ->
    m (next a out) args (wr s a out) = Ret (next a (out ++ text), args + 8) (wr s a (out ++ text)).

(** The argument at [args] is [v], and out of the way of the output. *)
Definition argument_at (args : Z) (v : argument) : Prop :=
  holds (m_ram s) args (le_bytes 8 (argument_value v)) /\ apart args 8 a N /\
  match v with
  | Int _ => True
  | Str p l => cstring (m_ram s) p l /\ apart p (Z.of_nat (length l) + 1) a N
  end.

Lemma argument_wr args v out :
  argument_at args v -> Z.of_nat (length out) <= N ->
  holds (m_ram (wr s a out)) args (le_bytes 8 (argument_value v)).
Proof.
  intros (Hh & Ha & _) Hl. pose proof Hroom as (? & _). apply holds_write; [done|].
  rewrite length_le_bytes. unfold apart in *. lia.
Qed.

Lemma convert_char_run args flags width n :
  argument_at args (Int n) -> 0 <= n < 2 ^ 31 -> -1 <= width <= 2 ^ 30 ->
  converts (fun str args => convert_char str args flags width) args (padded flags width [u8 n]).
Proof.
  intros Ha Hn Hw out Hl. unfold padded in *. cbn [length] in *.
  assert (Hl' : Z.of_nat (length out) + 1 + Z.max 0 (width - 1) <= N).
  { destruct (on flags LEFT); rewrite length_app, length_replicate in Hl; cbn in Hl; lia. }
  unfold convert_char. destruct (on flags LEFT); cbn [negb].
  - erewrite bind_Ret by reflexivity. cbv beta iota.
    erewrite bind_Ret by (apply va_int_run; [apply (argument_wr _ (Int n)); [done | lia] | done]). cbv beta iota.
    erewrite bind_Ret by (apply (emit_char_run s a N Hroom); lia).
    erewrite bind_Ret by (apply pad_char_run; [lia | rewrite length_app; cbn; lia]).
    cbn [argument_value]. cbv beta iota. rewrite (u8_small (u8 n)) by apply u8_range. now rewrite <- app_assoc.
  - erewrite bind_Ret by (apply pad_char_run; lia). cbv beta iota.
    erewrite bind_Ret by (apply va_int_run;
      [apply (argument_wr _ (Int n)); [done | rewrite length_app, length_replicate; lia] | done]). cbv beta iota.
    erewrite bind_Ret by (apply (emit_char_run s a N Hroom); rewrite length_app, length_replicate; lia).
    erewrite bind_Ret by (apply pad_char_run; [lia | rewrite !length_app, length_replicate; cbn; lia]).
    cbn [argument_value]. cbv beta iota. rewrite (u8_small (u8 n)) by apply u8_range.
    replace (Z.to_nat (Z.min (width - 1) 0 - 1)) with O by lia. cbn [replicate].
    now rewrite app_nil_r, <- app_assoc.
Qed.

Lemma cstring_bytes m p l : cstring m p l -> Forall is_byte l.
Proof. intros [Hl _]. eapply Forall_impl; [exact Hl|]. unfold is_byte. lia. Qed.

Lemma convert_string_run args flags width precision p l :
  argument_at args (Str p l) -> 0 <= p < 2 ^ 64 -> Z.of_nat (length l) < 2 ^ 30 -> -1 <= width <= 2 ^ 30 ->
  match precision with Some q => 0 <= q <= 2 ^ 30 | None => True end ->
  converts (fun str args => convert_string str args flags width (default (-1) precision)) args
    (padded flags width (match precision with Some q => take (Z.to_nat q) l | None => l end)).
Proof.
  intros Ha Hp Hl Hw Hq out Hlen. pose proof Ha as (_ & _ & Hc & Hd). pose proof Hroom as (? & _).
  set (t := match precision with Some q => take (Z.to_nat q) l | None => l end) in *.
  assert (Ht : exists r, l = t ++ r).
  { subst t. destruct precision as [q|]; [exists (drop (Z.to_nat q) l); now rewrite take_drop|].
    exists []. now rewrite app_nil_r. }
  destruct Ht as [r Hr].
  assert (Elen : (if default (-1) precision <? 0 then Z.of_nat (length l)
      else if Z.of_nat (length l) >? default (-1) precision then default (-1) precision
      else Z.of_nat (length l)) = Z.of_nat (length t)).
  { subst t. destruct precision as [q|]; cbn; [|done]. rewrite length_take.
    destruct (Z.ltb_spec q 0); [lia|]. destruct (Z.gtb_spec (Z.of_nat (length l)) q); lia. }
  clearbody t. assert (Htl : (length t <= length l)%nat) by (rewrite Hr, length_app; lia).
  pose proof (cstring_bytes _ _ _ Hc) as Hbytes. rewrite Hr in Hbytes. apply Forall_app in Hbytes as [Hbytes _].
  assert (Hht : holds (m_ram s) p t).
  { destruct Hc as [_ Hh]. rewrite Hr, <- app_assoc in Hh. now apply holds_app in Hh as [Hh _]. }
  assert (Hat : apart p (Z.of_nat (length t)) a N) by (unfold apart in *; lia).
  unfold padded in *. set (pad := Z.to_nat (width - Z.of_nat (length t))) in *.
  assert (Hl' : Z.of_nat (length out) + Z.of_nat (length t) + Z.max 0 (width - Z.of_nat (length t)) <= N).
  { subst pad. destruct (on flags LEFT); rewrite length_app, length_replicate in Hlen; lia. }
  unfold convert_string.
  erewrite bind_Ret by (apply va_ptr_run; [apply (argument_wr _ (Str p l)); [done | lia] | done]).
  cbn [argument_value]. cbv beta iota.
  erewrite bind_Ret by (apply strlen_run; [apply cstring_write; [exact Hc | unfold apart in *; lia] | lia]).
  cbv zeta. rewrite s32_small by lia. rewrite Elen. destruct (on flags LEFT); cbn [negb].
  - erewrite bind_Ret by reflexivity. cbv beta iota.
    erewrite bind_Ret by (apply copy_string_run; [done.. | lia | lia]).
    erewrite bind_Ret by (apply pad_string_run; [lia | lia | rewrite length_app; lia]).
    cbv beta iota. now rewrite <- app_assoc.
  - erewrite bind_Ret by (apply pad_string_run; lia). cbv beta iota.
    erewrite bind_Ret by (apply copy_string_run; [done.. | lia | rewrite length_app, length_replicate; lia]).
    erewrite bind_Ret by (apply pad_string_run; [lia | lia | rewrite !length_app, length_replicate; lia]).
    cbv beta iota. replace (Z.to_nat (Z.min width (Z.of_nat (length t)) - 1 - Z.of_nat (length t))) with O by lia.
    cbn [replicate]. now rewrite app_nil_r, <- app_assoc.
Qed.

Lemma convert_int_run args base width precision flags n :
  tables s a N -> argument_at args (Int n) -> 0 <= n < 2 ^ 31 -> 2 <= base <= 36 ->
  -1 <= width <= 2 ^ 30 -> precision <= 2 ^ 30 ->
  converts (fun str args => convert_int str args base width precision flags) args
    (rendering n base width precision flags).
Proof.
  intros Ht Ha Hn Hb Hw Hp out Hl. unfold convert_int.
  erewrite bind_Ret by (apply va_int_run; [apply (argument_wr _ (Int n)); [done | lia] | done]). cbv beta iota.
  now erewrite bind_Ret by exact (number_run s a N Hroom n base width precision flags Ht Hb Hn Hw Hp out Hl).
Qed.

End conversions.

(** ** Lemmas: directives *)

Lemma digits_le_last fuel base n :
  2 <= base -> 0 < n < 2 ^ Z.of_nat fuel -> exists l d, digits_le fuel base n = l ++ [d] /\ d <> 0.
Proof.
  intros Hb. revert n. induction fuel as [|fuel IH]; intros n Hn.
  - change (2 ^ Z.of_nat 0) with 1 in Hn. lia.
  - cbn [digits_le]. rewrite (proj2 (Z.eqb_neq n 0)) by lia. rewrite Nat2Z.inj_succ, Z.pow_succ_r in Hn by lia.
    destruct (Z.eq_dec (n / base) 0) as [E|Hne].
    + exists [], (n mod base). split; [rewrite E; now destruct fuel|].
      rewrite (Z.div_mod n base) in Hn by lia. lia.
    + assert (0 <= n / base) by (apply Z.div_pos; lia).
      destruct (IH (n / base)) as (l & d & -> & Hd).
      { split; [lia|]. apply Z.div_lt_upper_bound; [lia | nia]. }
      now exists (n mod base :: l), d.
Qed.

Lemma decimal_positive_head n :
  0 < n < 2 ^ 32 -> exists c t, decimal n = c :: t /\ is_digit c = true /\ c <> 48.
Proof.
  intros Hn. unfold decimal. rewrite digit_text by lia.
  pose proof (digits_of_range 10 n ltac:(lia) ltac:(lia)) as Hr. unfold digits_of in *.
  rewrite (proj2 (Z.eqb_neq n 0)) in * by lia.
  destruct (digits_le_last 32 10 n ltac:(lia) Hn) as (l & d & E & Hd). rewrite E, rev_app_distr in *. cbn [rev app] in *.
  exists (48 + d), (map (fun d => 48 + d) (rev l)). split; [done|].
  inversion Hr as [|? ? Hd10]. unfold is_digit. lia.
Qed.

(** What may follow the width, and what may follow the precision. *)
Definition after_precision (d : spec) : list Z :=
  qualifier_syntax (sp_qualifier d) ++ [conversion_char (sp_conversion d)].
Definition after_width (d : spec) : list Z := precision_syntax (sp_precision d) ++ after_precision d.

Lemma after_flags_eq d : after_flags d = width_syntax (sp_width d) ++ after_width d.
Proof. done. Qed.

Lemma conversion_char_facts c :
  is_flag (conversion_char c) = false /\ is_digit (conversion_char c) = false /\
  conversion_char c <> 42 /\ conversion_char c <> 46 /\ conversion_char c <> 104 /\
  conversion_char c <> 108 /\ conversion_char c <> 76.
Proof. destruct c; cbn; repeat split; lia. Qed.

Lemma after_precision_head d :
  spec_ok d -> exists c t, after_precision d = c :: t /\
    is_flag c = false /\ is_digit c = false /\ c <> 42 /\ c <> 46.
Proof.
  intros (_ & _ & Hq). unfold after_precision. destruct (sp_qualifier d) as [q|]; cbn [qualifier_syntax app].
  - eexists _, _. split; [done|]. destruct Hq as [-> | [-> | ->]]; cbn; repeat split; lia.
  - eexists _, _. split; [done|]. destruct (conversion_char_facts (sp_conversion d)) as (? & ? & ? & ? & _). done.
Qed.

Lemma after_width_head d :
  spec_ok d -> exists c t, after_width d = c :: t /\ is_flag c = false /\ is_digit c = false /\ c <> 42.
Proof.
  intros Hd. unfold after_width. destruct (sp_precision d) as [p|]; cbn [precision_syntax app].
  - eexists _, _. split; [done|]. cbn. repeat split; lia.
  - destruct (after_precision_head d Hd) as (c & t & -> & ? & ? & ? & _). now exists c, t.
Qed.

Lemma after_flags_head d :
  spec_ok d -> exists c t, after_flags d = c :: t /\ is_flag c = false.
Proof.
  intros Hd. rewrite after_flags_eq. destruct (sp_width d) as [w|] eqn:E; cbn [width_syntax app].
  - pose proof Hd as (Hw & _). rewrite E in Hw.
    destruct (decimal_positive_head w ltac:(lia)) as (c & t & -> & Hc & H0). exists c, (t ++ after_width d).
    split; [done|]. unfold is_flag, is_digit in *. lia.
  - destruct (after_width_head d Hd) as (c & t & -> & ? & _). now exists c, t.
Qed.

(** The first element of what comes after a part. *)
Lemma holds_head m f l c t : holds m f (l ++ c :: t) -> holds m f (l ++ [c]).
Proof. intros Hh. change (c :: t) with ([c] ++ t) in Hh. rewrite app_assoc in Hh. now apply holds_app in Hh as [Hh _]. Qed.

(** Comparisons of two known characters. *)
Ltac known_chars :=
  repeat match goal with
  | |- context [Z.eqb ?x ?y] =>
      let b := eval cbv in (Z.eqb x y) in
      lazymatch b with
      | true => change (Z.eqb x y) with true
      | false => change (Z.eqb x y) with false
      end
  end; cbn [orb negb].

Section directives.
  Context `{Literals} (s : hart) (a N : Z) (Hroom : mapped (m_ram s) a N).

Lemma convert_run d v fmt args out :
  tables s a N -> spec_ok d -> argument_ok (sp_conversion d) v -> argument_at s a N args v ->
  m_ram (wr s a out) !! fmt = Some (conversion_char (sp_conversion d)) ->
  Z.of_nat (length out) + Z.of_nat (length (field_text d v)) <= N ->
  convert a (next a out) fmt args (flags_value (sp_flags d)) (default (-1) (sp_width d))
    (default (-1) (sp_precision d)) (wr s a out) =
  Ret (next a (out ++ field_text d v), fmt, args + 8) (wr s a (out ++ field_text d v)).
Proof.
  intros Ht (Hw & Hp & _) Hv Ha Hm Hl. unfold convert. erewrite bind_Ret by exact (load_run _ _ _ Hm).
  assert (Hw' : -1 <= default (-1) (sp_width d) <= 2 ^ 30) by (destruct (sp_width d); cbn; lia).
  assert (Hp' : default (-1) (sp_precision d) <= 2 ^ 30) by (destruct (sp_precision d); cbn; lia).
  pose proof (fun base flags n Ha Hn Hb => convert_int_run s a N Hroom args base (default (-1) (sp_width d))
    (default (-1) (sp_precision d)) flags n Ht Ha Hn Hb Hw' Hp') as Hint.
  unfold field_text, argument_ok in *.
  destruct (sp_conversion d), v as [n|p l]; try done; cbn [conversion_char]; known_chars.
  1: erewrite bind_Ret by exact (convert_char_run s a N Hroom args _ _ n Ha Hv Hw' out Hl); done.
  1: erewrite bind_Ret by exact (convert_string_run s a N Hroom args _ _ _ p l Ha (proj1 Hv) (proj2 Hv) Hw' Hp out Hl); done.
  2: {
    destruct Ha as (Hh & Had & _). cbn [argument_value] in Hh. pose proof Hroom as (? & _).
    assert (Hh' : holds (m_ram (wr s a out)) args (le_bytes 8 n)).
    { apply (argument_wr s a N Hroom args (Int n)); [done|]. lia. }
    destruct (sp_width d) as [w|] eqn:Ew;
      [change (default (-1) (Some w)) with w in * | change (default (-1) (@None Z)) with (-1) in *].
    - rewrite (proj2 (Z.eqb_neq w (-1))) by lia.
      erewrite bind_Ret by (apply va_ptr_run; [exact Hh' | lia]). cbv beta iota. rewrite s32_small by lia.
      erewrite bind_Ret by (apply (number_run s a N Hroom); [done | lia | lia | done | done | exact Hl]). done.
    - known_chars. erewrite bind_Ret by (apply va_ptr_run; [exact Hh' | lia]).
      cbv beta iota. rewrite s32_small by lia.
      erewrite bind_Ret by (apply (number_run s a N Hroom); [done | lia | lia | lia | done | exact Hl]). done. }
  all: erewrite bind_Ret by (apply Hint; [exact Ha | done | lia | exact Hl]); done.
Qed.

(** Reading the format where the output does not go. *)
Lemma format_wr f l out :
  holds (m_ram s) f l -> apart f (Z.of_nat (length l)) a N -> Z.of_nat (length out) <= N ->
  holds (m_ram (wr s a out)) f l.
Proof. intros Hh Ha Hl. pose proof Hroom as (? & _). apply holds_write; [done|]. unfold apart in *. lia. Qed.

Lemma directive_run d v f args out :
  tables s a N -> spec_ok d -> argument_ok (sp_conversion d) v -> argument_at s a N args v ->
  holds (m_ram s) f (syntax (Field d v)) -> apart f (Z.of_nat (length (syntax (Field d v)))) a N ->
  Z.of_nat (length out) + Z.of_nat (length (field_text d v)) <= N ->
  directive a (next a out) f args (wr s a out) =
  Ret (next a (out ++ field_text d v), f + Z.of_nat (length (syntax (Field d v))) - 1, args + 8)
    (wr s a (out ++ field_text d v)).
Proof.
  intros Ht Hd Hv Ha Hf Hfa Hl. pose proof (format_wr f _ out Hf Hfa ltac:(lia)) as Hh. clear Hf Hfa.
  pose proof Hh as (Hf0 & _). cbn [syntax] in Hh |- *. apply holds_cons in Hh as (_ & _ & Hh).
  destruct (after_flags_head d Hd) as (c1 & t1 & E1 & F1).
  destruct (after_width_head d Hd) as (c2 & t2 & E2 & _ & D2 & S2).
  destruct (after_precision_head d Hd) as (c3 & t3 & E3 & _ & D3 & _ & S3).
  destruct (conversion_char_facts (sp_conversion d)) as (_ & _ & _ & _ & Q1 & Q2 & Q3).
  pose proof Hd as (Hw & Hp & Hq). unfold directive.
  pose proof Hh as H1. rewrite E1 in H1. apply holds_head in H1.
  erewrite bind_Ret by exact (read_flags_run _ f _ c1 Hf0 H1 F1). cbv beta iota.
  apply holds_app in Hh as [_ Hh]. rewrite length_map in Hh.
  rewrite after_flags_eq in Hh. pose proof Hh as H2. rewrite E2 in H2. apply holds_head in H2.
  erewrite bind_Ret by exact (read_width_run _ _ args _ _ c2 H2 D2 S2 Hw). cbv beta iota.
  apply holds_app in Hh as [_ Hh]. unfold after_width in Hh. pose proof Hh as H3.
  rewrite E3 in H3. apply holds_head in H3.
  erewrite bind_Ret by exact (read_precision_run _ _ args _ c3 H3 D3 S3 Hp). cbv beta iota.
  apply holds_app in Hh as [_ Hh]. unfold after_precision in Hh.
  erewrite bind_Ret by exact (skip_qualifier_run _ _ _ _ Hh Q1 Q2 Q3 Hq).
  apply holds_app in Hh as [_ Hh]. apply holds_cons in Hh as (_ & Hm & _).
  rewrite (convert_run d v _ args out Ht Hd Hv Ha Hm Hl). do 3 f_equal.
  cbn [length]. rewrite after_flags_eq. unfold after_width, after_precision.
  rewrite !length_app, length_map. cbn [length]. lia.
Qed.

Lemma percent_run f args out :
  holds (m_ram s) f [37; 37] -> apart f 2 a N -> Z.of_nat (length out) < N ->
  directive a (next a out) f args (wr s a out) =
  Ret (next a (out ++ [37]), f + 1, args) (wr s a (out ++ [37])).
Proof.
  intros Hf Hfa Hl. pose proof (format_wr f _ out Hf Hfa ltac:(lia)) as Hh.
  pose proof Hh as (Hf0 & _). apply holds_cons in Hh as (_ & _ & Hh).
  unfold directive. erewrite bind_Ret by exact (read_flags_run _ f [] 37 Hf0 Hh eq_refl). cbv beta iota.
  cbn [length]. rewrite Z.add_0_r.
  erewrite bind_Ret by exact (read_width_run _ _ args _ None 37 Hh eq_refl ltac:(lia) I). cbv beta iota.
  cbn [length width_syntax]. rewrite Z.add_0_r.
  erewrite bind_Ret by exact (read_precision_run _ _ args None 37 Hh eq_refl ltac:(lia) I). cbv beta iota.
  cbn [length precision_syntax]. rewrite Z.add_0_r.
  erewrite bind_Ret by exact (skip_qualifier_run _ _ None 37 Hh ltac:(lia) ltac:(lia) ltac:(lia) I).
  cbn [length qualifier_syntax]. rewrite Z.add_0_r.
  apply holds_cons in Hh as (_ & Hm & _). unfold convert. erewrite bind_Ret by exact (load_run _ _ _ Hm).
  known_chars. erewrite bind_Ret by reflexivity.
  now erewrite bind_Ret by exact (emit_char_run s a N Hroom out 37 Hl).
Qed.

End directives.

(** ** Lemmas: the main loop *)

Section main_loop.
  Context `{Literals} (s : hart) (a N : Z) (Hroom : mapped (m_ram s) a N).

Definition string_ok (i : item) : Prop :=
  match i with
  | Field _ (Str p l) => cstring (m_ram s) p l /\ apart p (Z.of_nat (length l) + 1) a N
  | _ => True
  end.

(** The format, its arguments and the strings among them are in memory, and not
    where the output goes. *)
Record ready (items : list item) (fmt args : Z) : Prop := {
  rd_items : Forall item_ok items;
  rd_format : holds (m_ram s) fmt (format items ++ [0]);
  rd_format_apart : apart fmt (Z.of_nat (length (format items)) + 1) a N;
  rd_args : holds (m_ram s) args (slots items);
  rd_args_apart : apart args (Z.of_nat (length (slots items))) a N;
  rd_strings : Forall string_ok items;
}.

(** A character that begins no directive. *)
Lemma char_round c f args out :
  0 < c < 256 -> c <> 37 -> m_ram (wr s a out) !! f = Some c -> 0 <= f < 2 ^ 64 - 1 ->
  Z.of_nat (length out) < N ->
  round a (next a out, f, args) (wr s a out) =
  Ret (inl (next a (out ++ [c]), f + 1, args)) (wr s a (out ++ [c])).
Proof.
  intros Hc Hp Hm Hf Hl. unfold round. erewrite bind_Ret by exact (load_run _ _ _ Hm).
  rewrite (proj2 (Z.eqb_neq c 0)), (proj2 (Z.eqb_neq c 37)) by lia. cbn [negb].
  erewrite bind_Ret by (erewrite bind_Ret by (apply (emit_char_run s a N Hroom); lia); reflexivity).
  cbv beta iota. now rewrite char_u8, u64_small by lia.
Qed.

Lemma syntax_positive i : (0 < length (syntax i))%nat.
Proof. destruct i; cbn; lia. Qed.

Lemma length_argument_slot d v : length (argument_slot (Field d v)) = 8%nat.
Proof. cbn [argument_slot]. apply length_le_bytes. Qed.

Lemma round_run i f args out :
  tables s a N -> item_ok i ->
  holds (m_ram s) f (syntax i) -> apart f (Z.of_nat (length (syntax i))) a N ->
  holds (m_ram s) args (argument_slot i) -> apart args (Z.of_nat (length (argument_slot i))) a N ->
  string_ok i ->
  Z.of_nat (length out) + Z.of_nat (length (item_text i)) <= N ->
  round a (next a out, f, args) (wr s a out) =
  Ret (inl (next a (out ++ item_text i), f + Z.of_nat (length (syntax i)), args + Z.of_nat (length (argument_slot i))))
    (wr s a (out ++ item_text i)).
Proof.
  intros Ht Hi Hf Hfa Hs Hsa Hstr Hl. pose proof Hf as (? & Hend & _).
  pose proof (format_wr s a N Hroom f _ out Hf Hfa ltac:(lia)) as Hh.
  destruct i as [c| |d v]; cbn [syntax item_text argument_slot] in *; apply holds_cons in Hh as (_ & Hm & _).
  - destruct Hi as [Hc Hp]. cbn [length] in *. rewrite (char_round c f args out Hc Hp Hm); [|lia | lia].
    now rewrite Z.add_0_r.
  - unfold round. erewrite bind_Ret by exact (load_run _ _ _ Hm).
    known_chars. erewrite bind_Ret by (apply (percent_run s a N Hroom); [done | done | cbn [length] in Hl; lia]).
    cbv beta iota. cbn [length] in *. rewrite u64_small by lia. rewrite Z.add_0_r.
    now replace (f + 1 + 1) with (f + Z.of_nat 2) by lia.
  - unfold round. erewrite bind_Ret by exact (load_run _ _ _ Hm). known_chars. destruct Hi as [Hd Hv]. rewrite length_le_bytes in *.
    assert (Ha : argument_at s a N args v) by (split; [done|]; split; [done | now destruct v]).
    erewrite bind_Ret by exact (directive_run s a N Hroom d v f args out Ht Hd Hv Ha Hf Hfa Hl).
    cbv beta iota. cbn [syntax] in *. rewrite Z.sub_add, u64_small by lia. done.
Qed.

Lemma concat_take {A} (g : A -> list Z) l i x :
  l !! i = Some x -> concat (map g (take (S i) l)) = concat (map g (take i l)) ++ g x.
Proof. intros Hi. rewrite (take_S_r _ _ _ Hi), map_app, concat_app. cbn. now rewrite app_nil_r. Qed.

(** What is behind the first [i] parts. *)
Lemma concat_split {A} (g : A -> list Z) l i x :
  l !! i = Some x ->
  concat (map g l) = concat (map g (take i l)) ++ g x ++ concat (map g (drop (S i) l)).
Proof.
  intros Hi. rewrite <- (take_drop_middle l i x Hi) at 1. rewrite map_app, concat_app. done.
Qed.

Lemma length_concat_take {A} (g : A -> list Z) l i :
  (length (concat (map g (take i l))) <= length (concat (map g l)))%nat.
Proof. rewrite <- (take_drop i l) at 2. rewrite map_app, concat_app, length_app. lia. Qed.

Lemma loop_run_items items fmt args :
  tables s a N -> ready items fmt args -> Z.of_nat (length (output items)) <= N ->
  loop 65 (round a) (a, fmt, args) s = Ret (next a (output items)) (wr s a (output items)).
Proof.
  intros Ht [Hok Hf Hfa Hs Hsa Hstr] Hl.
  rewrite <- (Z.add_0_r a) at 2. rewrite <- (Z.add_0_r fmt) at 1. rewrite <- (Z.add_0_r args) at 1.
  rewrite <- (wr_nil s a) at 1.
  apply (loop_run _ (fun i => (next a (output (take i items)), fmt + Z.of_nat (length (format (take i items))),
      args + Z.of_nat (length (slots (take i items))))) (fun i => wr s a (output (take i items))) (length items)).
  - intros i Hi. destruct (lookup_lt_is_Some_2 items i Hi) as [it Hit].
    unfold output, format, slots in *. rewrite !(concat_take _ _ _ _ Hit), !length_app, !Nat2Z.inj_add, !Z.add_assoc.
    rewrite (concat_split syntax items i it Hit) in Hf, Hfa.
    rewrite (concat_split argument_slot items i it Hit) in Hs, Hsa. rewrite (concat_split item_text items i it Hit) in Hl.
    rewrite !length_app in Hfa, Hsa, Hl. rewrite <- !app_assoc in Hf.
    apply holds_app in Hf as [_ Hf]. apply holds_app in Hf as [Hf _].
    apply holds_app in Hs as [_ Hs]. apply holds_app in Hs as [Hs _].
    apply round_run; [done | exact (Forall_lookup_1 _ _ _ _ Hok Hit) | done | unfold apart in *; lia | done
      | unfold apart in *; lia | exact (Forall_lookup_1 _ _ _ _ Hstr Hit) | lia].
  - unfold round. rewrite firstn_all. unfold apart in Hfa. pose proof Hroom as (? & _).
    assert (Hm : m_ram (wr s a (output items)) !! (fmt + Z.of_nat (length (format items))) = Some 0).
    { apply (holds_lookup _ _ (format items ++ [0])); [|now apply list_lookup_middle].
      apply holds_write; [done|]. rewrite length_app. cbn [length]. unfold apart. lia. }
    now erewrite bind_Ret by exact (load_run _ _ _ Hm).
  - destruct Hf as (? & Hlen & _). rewrite length_app in Hlen.
    assert (length items <= length (format items))%nat; [|lia].
    unfold format. clear. induction items as [|i l IH]; cbn; [lia|]. rewrite length_app.
    pose proof (syntax_positive i). lia.
Qed.

End main_loop.

Section vsprintf.
  Context `{Literals} (s : hart) (buf : Z).

Lemma vsprintf_run fmt args items :
  let n := Z.of_nat (length (output items)) in
  n < 2 ^ 31 -> mapped (m_ram s) buf (n + 1) -> tables s buf (n + 1) -> ready s buf (n + 1) items fmt args ->
  vsprintf buf fmt args s = Ret n (wr s buf (output items ++ [0])).
Proof.
  intros n Hn Hroom Ht Hr. unfold vsprintf.
  erewrite bind_Ret by (apply (loop_run_items s buf (n + 1) Hroom); [done | done | lia]).
  erewrite bind_Ret by (apply (store_next s buf (n + 1) Hroom); lia).
  unfold ret, next. rewrite s32_small by lia. f_equal. lia.
Qed.

End vsprintf.

(** ** Properties *)

Section properties.
  Context `{Literals}.


(** A directive that begins with '*'. *)
Lemma star_round s a N (Hroom : mapped (m_ram s) a N) f args w out :
  0 <= w < 2 ^ 31 -> holds (m_ram s) f [37; 42] -> holds (m_ram s) args (le_bytes 8 w) ->
  apart f 2 a N -> apart args 8 a N -> Z.of_nat (length out) + 2 <= N ->
  round a (next a out, f, args) (wr s a out) =
  Ret (inl (next a (out ++ [37; 42]), f + 2, args + 8)) (wr s a (out ++ [37; 42])).
Proof.
  intros Hw Hf Ha Hfa Haa Hl. pose proof (format_wr s a N Hroom f _ out Hf Hfa ltac:(lia)) as Hh.
  pose proof (argument_wr s a N Hroom args (Int w) out (conj Ha (conj Haa I)) ltac:(lia)) as Hargs.
  cbn [argument_value] in Hargs.
  pose proof Hh as (Hf0 & Hend & _). cbn in Hend. apply holds_cons in Hh as (_ & Hm0 & Hh).
  pose proof Hh as Hh1. apply holds_cons in Hh1 as (_ & Hm1 & _).
  unfold round. erewrite bind_Ret by exact (load_run _ _ _ Hm0). known_chars.
  erewrite (bind_Ret _ _ _ (next a (out ++ [37; 42]), f + 1, args + 8) (wr s a (out ++ [37; 42]))).
  { cbv beta iota. rewrite u64_small by lia. now replace (f + 1 + 1) with (f + 2) by lia. }
  unfold directive. erewrite bind_Ret by exact (read_flags_run _ f [] 42 Hf0 Hh eq_refl). cbv beta iota.
  cbn [length]. rewrite Z.add_0_r.
  assert (E : read_width (f + 1) args 0 (wr s a out) = Ret (w, f + 1, args + 8, 0) (wr s a out)).
  { unfold read_width. erewrite bind_Ret by exact (load_run _ _ _ Hm1).
    change (is_digit 42) with false. known_chars. cbv iota.
    erewrite bind_Ret by exact (va_int_run _ _ _ Hargs Hw). cbv beta iota. now replace (w <? 0) with false by lia. }
  erewrite bind_Ret by exact E. cbv beta iota.
  erewrite bind_Ret by exact (read_precision_run _ _ _ None 42 Hh eq_refl ltac:(lia) I). cbv beta iota.
  cbn [length precision_syntax]. rewrite Z.add_0_r.
  erewrite bind_Ret by exact (skip_qualifier_run _ _ None 42 Hh ltac:(lia) ltac:(lia) ltac:(lia) I).
  cbn [length qualifier_syntax]. rewrite Z.add_0_r. unfold convert.
  erewrite bind_Ret by exact (load_run _ _ _ Hm1). known_chars.
  erewrite bind_Ret by (apply (emit_char_run s a N Hroom); lia).
  erewrite bind_Ret by (apply (emit_char_run s a N Hroom); rewrite length_app; cbn; lia).
  rewrite <- app_assoc. done.
Qed.

(** A width given as '*' takes an argument, but the '*' itself is not passed
    over and the directive ends there: "%*d" prints itself. *)
Theorem vsprintf_star_width s buf fmt args w :
  0 <= w < 2 ^ 31 -> mapped (m_ram s) buf 4 -> holds (m_ram s) fmt (codes "%*d" ++ [0]) ->
  holds (m_ram s) args (le_bytes 8 w) -> apart fmt 4 buf 4 -> apart args 8 buf 4 ->
  vsprintf buf fmt args s = Ret 3 (wr s buf (codes "%*d" ++ [0])).
Proof.
  intros Hw Hroom Hf Ha Hfa Haa. unfold vsprintf. pose proof Hf as (? & Hend & _). cbn in Hend.
  assert (Hc : forall out, (length out <= 4)%nat -> holds (m_ram (wr s buf out)) fmt [37; 42; 100; 0]).
  { intros out Hl. apply (format_wr s buf 4 Hroom); [exact Hf | exact Hfa | lia]. }
  set (st := fun i : nat => match i with
    | O => (buf, fmt, args) | S O => (next buf [37; 42], fmt + 2, args + 8)
    | _ => (next buf [37; 42; 100], fmt + 3, args + 8) end).
  set (w_ := fun i : nat => wr s buf (match i with O => [] | S O => [37; 42] | _ => [37; 42; 100] end)).
  erewrite (bind_Ret _ _ s (next buf [37; 42; 100]) (w_ 2%nat)).
  - erewrite bind_Ret by (apply (store_next s buf 4 Hroom); cbn; lia). unfold ret, next. cbn [length].
    replace (buf + Z.of_nat 3 - buf) with 3 by lia. done.
  - change (buf, fmt, args) with (st O). replace s with (w_ O) at 1 by apply wr_nil.
    apply (loop_run _ st w_ 2); [| |done].
    + intros [|[|i]] Hi; [| |lia]; unfold st, w_.
      * pose proof (star_round s buf 4 Hroom fmt args w [] Hw) as E. unfold next at 1 in E. cbn [length app] in E.
        rewrite Z.add_0_r in E. apply E; [| |unfold apart in *; lia | done | lia].
        -- exact (holds_head _ _ [37] 42 _ Hf).
        -- exact Ha.
      * pose proof (Hc [37; 42] ltac:(cbn; lia)) as H2. do 2 apply holds_cons in H2 as (_ & _ & H2).
        apply holds_cons in H2 as (_ & Hm & _). rewrite <- Z.add_assoc in Hm.
        rewrite (char_round s buf 4 Hroom 100 (fmt + 2) (args + 8) [37; 42]) by (done || cbn [length]; lia).
        cbn [app]. now rewrite <- Z.add_assoc.
    + unfold st, w_, round. pose proof (Hc [37; 42; 100] ltac:(cbn; lia)) as H3.
      do 3 apply holds_cons in H3 as (_ & _ & H3). apply holds_cons in H3 as (_ & Hm & _).
      rewrite <- !Z.add_assoc in Hm. erewrite bind_Ret by exact (load_run _ _ _ Hm). done.
Qed.


(** '%p' takes the pointer as an [int]: for every address of the kernel's
    image, which begins at 0x80200000, and every other one in the upper half of
    the 32-bit range, the value is negative and the first digit, unless it is 0,
    is read below the table of digits. *)
Theorem pointer_reads_below_table s buf str fmt args flags width precision p :
  m_ram s !! fmt = Some 112 -> holds (m_ram s) args (le_bytes 8 p) -> 2 ^ 31 <= p < 2 ^ 32 ->
  p mod 16 <> 0 -> on flags SIGN = false -> on flags SMALL = false -> 36 <= digits_upper < 2 ^ 64 ->
  m_ram s !! (digits_upper - (16 - p mod 16)) = None ->
  convert buf str fmt args flags width precision s = Stop (Fault (digits_upper - (16 - p mod 16))) s.
Proof.
  intros Hf Ha Hp Hmod Hs Hsm Hd Hm. unfold convert. erewrite bind_Ret by exact (load_run _ _ _ Hf). known_chars.
  assert (Ep : s32 p = p - 2 ^ 32).
  { unfold s32. rewrite <- (Z.mod_unique (p + 2 ^ 31) (2 ^ 32) 1 (p + 2 ^ 31 - 2 ^ 32)); lia. }
  assert (Er : Z.rem (p - 2 ^ 32) 16 = p mod 16 - 16).
  { pose proof (Z.div_mod p 16 ltac:(lia)). pose proof (Z.mod_pos_bound p 16 ltac:(lia)).
    rewrite <- (Z.opp_involutive (p - 2 ^ 32)), Z.rem_opp_l by lia.
    rewrite Z.rem_mod_nonneg by lia.
    rewrite <- (Z.mod_unique (- (p - 2 ^ 32)) 16 (2 ^ 28 - p / 16 - 1) (16 - p mod 16)); lia. }
  assert (Hz : forall w f, on f SIGN = false -> on f SMALL = false ->
    number str (s32 p) 16 w precision f s = Stop (Fault (digits_upper - (16 - p mod 16))) s).
  { intros w f Hf1 Hf2. rewrite number_split by (rewrite ?Hf1; done || lia). rewrite Hf2.
    rewrite Ep, (proj2 (Z.eqb_neq (p - 2 ^ 32) 0)) by lia. apply bind_Stop.
    pose proof (Z.mod_pos_bound p 16 ltac:(lia)).
    assert (Ed : digits_upper - (16 - p mod 16) = digits_upper + Z.rem (p - 2 ^ 32) 16) by (rewrite Er; lia).
    rewrite Ed in *. apply convert_digits_below; [lia | lia | rewrite Er; lia | exact Hd | exact Hm]. }
  assert (Hon : forall f, Z.land ZEROPAD f = 0 -> on flags f = false -> on (Z.lor flags ZEROPAD) f = false).
  { intros f Hz0 Hoff. unfold on in *. rewrite Z.land_lor_distr_l, Hz0, Z.lor_0_r. done. }
  destruct (width =? -1); (erewrite bind_Ret by (apply va_ptr_run; [exact Ha | lia])); cbv beta iota;
    apply bind_Stop; apply Hz; auto.
Qed.

End properties.

(** ** Examples *)

(** A format with its arguments, the string among them, and a buffer. *)
#[local] Instance printf_demo_literals : Literals :=
  {| digits_upper := 0x80201000; digits_lower := 0x80201100 |}.

Definition printf_demo_items : list item :=
  [Char 120; Char 61;
   Field (Spec [FLeft] (Some 5) None (Some 108) Cd) (Int 42); Percent;
   Field (Spec [] None (Some 2) None Cs) (Str 0x80204000 (codes "hello"))].

Definition printf_demo : hart :=
  booted (put 0x80201000 UPPER (put 0x80201100 LOWER
    (put 0x80202000 (codes "x=%-5ld%%%.2s" ++ [0]) (put 0x80202100 (codes "%*d" ++ [0])
    (put 0x80202108 [112] (put 0x80203000 (le_bytes 8 42 ++ le_bytes 8 0x80204000 ++ le_bytes 8 0x80204007)
    (put 0x80204000 (codes "hello" ++ [0]) (put 0x80205000 (replicate 16 0) ∅)))))))).

Lemma printf_demo_tables n : tables printf_demo 0x80205000 n.
Proof.
  split; [apply holds_check_ok; vm_compute; reflexivity.. | |]; left; vm_compute; congruence.
Qed.

Lemma printf_demo_room (n : nat) : (n <= 16)%nat -> mapped (m_ram printf_demo) 0x80205000 (Z.of_nat n).
Proof.
  intros Hn. apply (mapped_sub _ 0x80205000 (Z.of_nat 16)); [|lia..].
  apply mapped_check_ok. vm_compute. reflexivity.
Qed.

Lemma printf_demo_ready : ready printf_demo 0x80205000 11 printf_demo_items 0x80202000 0x80203000.
Proof.
  split.
  - repeat constructor; cbn; auto; lia.
  - apply holds_check_ok. vm_compute. reflexivity.
  - left. vm_compute. congruence.
  - apply holds_check_ok. vm_compute. reflexivity.
  - left. vm_compute. congruence.
  - unfold printf_demo_items. rewrite !Forall_cons, Forall_nil. do 4 (split; [exact I|]). split; [|done].
    split; [apply cstring_check_ok; vm_compute; reflexivity | left; vm_compute; congruence].
Qed.


Lemma vsprintf_star_width_witness :
  exists s', vsprintf 0x80205000 0x80202100 0x80203000 printf_demo = Ret 3 s' /\
    cstring (m_ram s') 0x80205000 (codes "%*d").
Proof.
  eexists. split.
  - apply (vsprintf_star_width printf_demo 0x80205000 0x80202100 0x80203000 42);
      [lia | apply (printf_demo_room 4); lia | apply holds_check_ok; vm_compute; reflexivity
      | apply holds_check_ok; vm_compute; reflexivity | left; vm_compute; congruence
      | left; vm_compute; congruence].
  - apply cstring_check_ok. vm_compute. reflexivity.
Defined.

Lemma pointer_reads_below_table_witness :
  convert 0x80205000 0x80205000 0x80202108 0x80203010 0 (-1) (-1) printf_demo =
  Stop (Fault (digits_upper - (16 - 0x80204007 mod 16))) printf_demo.
Proof.
  apply (pointer_reads_below_table printf_demo 0x80205000 0x80205000 0x80202108 0x80203010 0 (-1) (-1) 0x80204007);
    [vm_compute; reflexivity | apply holds_check_ok; vm_compute; reflexivity | lia | vm_compute; congruence
    | reflexivity | reflexivity | vm_compute; split; congruence | vm_compute; reflexivity].
Defined.
