(* ===== verification/ToyKernel.v ===== *)
(** * ToyKernel: sbi.cpp, printk.cpp and KernelMain.cpp of src/toyos

    Calls of the SBI firmware, which is not part of the repository, formatted
    output to its console, and the main function of the kernel. *)

From stdpp Require Import base numbers list strings gmap.
From S2P Require Import Prelude Riscv ToyString ToyNumber ToyPrintf.
From Stdlib Require Import ZArith Lia.
Open Scope Z_scope.

(** ** Kernel/Arch/riscv/sbi.cpp *)

Definition SBI_EXT_ID_TIME : Z := 0x54494D45.
Definition SBI_TIME_SET_TIMER : Z := 0.
Definition SBI_CONSOLE_PUTCHAR : Z := 1.
Definition SBI_CONSOLE_GETCHAR : Z := 2.
Definition SBI_SHUTDOWN : Z := 8.

(** What the firmware leaves in [a0] and [a1], after the calls so far of which
    the last is to be answered; a call may also not return.  The firmware does
    not write to the kernel's memory. *)
Class Firmware : Type := {
  sbi_result : list sbi_call -> option (Z * Z);
}.

(** Where the compiler and the linker have put what the code refers to: the
    static [buf] of printk.cpp, the place where a call of [printk] saves its
    variable arguments, and the variable and the literal of [kernelMain]. *)
Class Image : Type := {
  image_literals :: Literals;
  printk_buf : Z;
  va_area : Z;
  main_str : Z;
  main_format : Z;
}.

Section sbi.
  Context `{Firmware}.

Definition ecall (c : sbi_call) : C (Z * Z) := fun s =>
  let s' := Hart (m_ram s) (m_calls s ++ [c]) in
  match sbi_result (m_calls s ++ [c]) with
  | Some r => Ret r s'
  | None => Stop Hang s'
  end.

(** sbi.cpp defines [uintptr_t] as [int]: every register variable holds 32
    bits, sign-extended in its register.  The result is [error] and [value]. *)
Definition SBICall (arg7 arg6 arg0 arg1 arg2 arg3 arg4 : Z) : C (Z * Z) :=
  let* (a0, a1) := ecall (SbiCall (s32 arg7) (s32 arg6) (s32 arg0) (s32 arg1) (s32 arg2) (s32 arg3) (s32 arg4)) in
  ret (s32 a0, s32 a1).

Definition SBIConsolePutchar (ch : Z) : C unit :=
  SBICall SBI_CONSOLE_PUTCHAR 0 (u64 ch) 0 0 0 0 ;;; ret tt.

Definition SBIConsoleGetchar : C Z :=
  let* (error, _) := SBICall SBI_CONSOLE_GETCHAR 0 0 0 0 0 0 in ret error.

Definition SBISetTimer (val : Z) : C unit :=
  SBICall SBI_EXT_ID_TIME SBI_TIME_SET_TIMER val 0 0 0 0 ;;; ret tt.

Definition SBIShutdown : C unit := SBICall SBI_SHUTDOWN 0 0 0 0 0 0 ;;; ret tt.

End sbi.

(** ** Library/libc/printk.cpp and Kernel/Arch/riscv/KernelMain.cpp *)

Section code.
  Context `{Firmware} `{Image}.

Fixpoint store_bytes (a : Z) (l : list Z) : C unit :=
  match l with
  | [] => ret tt
  | b :: l => store_byte a b ;;; store_bytes (u64 (a + 1)) l
  end.

(** The variable arguments [args] are saved at entry; [va_start] takes the
    address of the first. *)
Definition printk (fmt : Z) (args : list Z) : C Z :=
  store_bytes va_area (concat (map (le_bytes 8) args)) ;;;
  r <- vsprintf printk_buf fmt va_area ;;
  size <- strlen printk_buf ;;
  let size := s32 size in
  loop 33 (fun i =>
    if i <? size then
      c <- load_byte (u64 (printk_buf + i)) ;;
      SBIConsolePutchar c ;;;
      ret (inl (s32 (i + 1)))
    else ret (inr tt)) 0 ;;;
  ret r.

Definition kernelMain : C Z :=
  store_bytes main_str (codes "hello world!" ++ replicate 12 0) ;;;
  printk main_format [main_str; 1024] ;;;
  stop_with Hang.

End code.

(** The call that writes [c] to the console. *)
Definition putchar_call (c : Z) : sbi_call := SbiCall SBI_CONSOLE_PUTCHAR 0 c 0 0 0 0.

(** The legacy call of the SBI specification to write a character returns. *)
Class Console `{Firmware} : Prop := {
  console_returns calls c : is_Some (sbi_result (calls ++ [putchar_call c]));
}.

(** ** Lemmas *)

Lemma store_bytes_run l : forall s a,
  Forall is_byte l -> mapped (m_ram s) a (Z.of_nat (length l)) ->
  store_bytes a l s = Ret tt (wr s a l).
Proof.
  induction l as [|b l IH]; intros s a Hl Hm; cbn [store_bytes]; [now rewrite wr_nil|].
  apply Forall_cons in Hl as [Hb Hl]. cbn [length] in Hm. pose proof Hm as (? & ? & _).
  pose proof (store_run s a [] b _ Hm ltac:(cbn; lia)) as E. cbn [length app] in E.
  rewrite Z.add_0_r, wr_nil, u8_small in E by done. erewrite bind_Ret by exact E.
  rewrite u64_small by lia. rewrite IH; [done | done|].
  apply mapped_write. apply (mapped_sub _ _ _ _ _ Hm); lia.
Qed.

(** [s] after the characters [l] went to the console. *)
Definition console_got (s : hart) (l : list Z) : hart := Hart (m_ram s) (m_calls s ++ map putchar_call l).

Section facts.
  Context `{Firmware} `{!Console} `{Image}.

Lemma putchar_run s c : is_byte c -> SBIConsolePutchar c s = Ret tt (console_got s [c]).
Proof.
  intros Hc. unfold is_byte in Hc. unfold SBIConsolePutchar, SBICall.
  rewrite u64_small, (s32_small c) by lia. change (s32 SBI_CONSOLE_PUTCHAR) with SBI_CONSOLE_PUTCHAR.
  change (s32 0) with 0. destruct (console_returns (m_calls s) c) as [[r0 r1] E].
  unfold bind, ecall. fold (putchar_call c). now rewrite E.
Qed.

Lemma console_loop s a l :
  cstring (m_ram s) a l -> Z.of_nat (length l) < 2 ^ 31 ->
  loop 33 (fun i =>
    if i <? Z.of_nat (length l) then
      c <- load_byte (u64 (a + i)) ;;
      SBIConsolePutchar c ;;;
      ret (inl (s32 (i + 1)))
    else ret (inr tt)) 0 s = Ret tt (console_got s l).
Proof.
  intros Hc Hl. pose proof (cstring_range _ _ _ Hc).
  assert (E0 : s = console_got s (take 0 l)) by (unfold console_got; cbn; rewrite app_nil_r; now destruct s).
  rewrite E0 at 1. apply (loop_run _ Z.of_nat (fun i => console_got s (take i l)) (length l)); [| |lia].
  - intros i Hi. replace (Z.of_nat i <? Z.of_nat (length l)) with true by lia.
    destruct (lookup_lt_is_Some_2 l i Hi) as [b Hb]. destruct (cstring_char _ _ _ _ _ Hc Hb) as [Hm Hb'].
    rewrite u64_small by lia. erewrite bind_Ret by (apply load_run; exact Hm).
    erewrite bind_Ret by (apply putchar_run; unfold is_byte; lia).
    unfold ret. rewrite s32_small by lia. replace (Z.of_nat i + 1) with (Z.of_nat (S i)) by lia.
    f_equal. unfold console_got. cbn. now rewrite (take_S_r _ _ _ Hb), map_app, app_assoc.
  - replace (Z.of_nat (length l) <? Z.of_nat (length l)) with false by lia. now rewrite firstn_all.
Qed.

(** What [printk] needs: its arguments are those of the format, and the format,
    the tables and the strings are out of the way of the arguments and of the
    [n] bytes of output and terminator. *)
Record call_ready (s : hart) (fmt : Z) (args : list Z) (items : list item) (n : Z) : Prop := {
  cr_args : slots items = concat (map (le_bytes 8) args);
  cr_va : mapped (m_ram s) va_area (Z.of_nat (length (slots items)));
  cr_buf : mapped (m_ram s) printk_buf n;
  cr_tables : tables (wr s va_area (slots items)) printk_buf n;
  cr_ready : ready (wr s va_area (slots items)) printk_buf n items fmt va_area;
}.

Lemma slots_bytes items : Forall is_byte (slots items).
Proof.
  unfold slots. apply Forall_concat, Forall_forall. intros l (i & <- & _)%list_elem_of_In%in_map_iff.
  destruct i as [c| |d v]; cbn [argument_slot]; [constructor.. |].
  generalize (argument_value v). generalize 8%nat. intros k. induction k as [|k IH]; intros z; cbn; constructor; auto.
  apply u8_range.
Qed.

Lemma vsprintf_call s fmt args items :
  let text := output items in
  let n := Z.of_nat (length text) in
  n < 2 ^ 31 -> call_ready s fmt args items (n + 1) ->
  (store_bytes va_area (concat (map (le_bytes 8) args)) ;;; vsprintf printk_buf fmt va_area) s =
    Ret n (wr (wr s va_area (slots items)) printk_buf (text ++ [0])).
Proof.
  intros text n Hn [Ha Hva Hb Ht Hr]. rewrite <- Ha.
  erewrite bind_Ret by (apply store_bytes_run; [apply slots_bytes | exact Hva]).
  apply vsprintf_run; [done | apply mapped_write, Hb | exact Ht | exact Hr].
Qed.

Lemma printk_run s fmt args items :
  let text := output items in
  let n := Z.of_nat (length text) in
  n < 2 ^ 31 -> Forall (fun b => 0 < b < 256) text -> call_ready s fmt args items (n + 1) ->
  printk fmt args s = Ret n (console_got (wr (wr s va_area (slots items)) printk_buf (text ++ [0])) text).
Proof.
  intros text n Hn Hb Hr. pose proof (cr_buf _ _ _ _ _ Hr) as (? & ? & _).
  pose proof (vsprintf_call s fmt args items Hn Hr) as E. fold text n in E. unfold printk.
  set (w := wr (wr s va_area (slots items)) printk_buf (text ++ [0])) in *.
  assert (Hc : cstring (m_ram w) printk_buf text).
  { split; [done|]. apply holds_written; [done|]. rewrite length_app. cbn [length]. lia. }
  unfold bind in E. unfold bind at 1. destruct (store_bytes _ _ s) as [u w1|]; [|done].
  erewrite bind_Ret by exact E. erewrite bind_Ret by (apply strlen_run; [exact Hc | lia]).
  cbv zeta. rewrite s32_small by lia.
  pose proof (console_loop w printk_buf text Hc ltac:(lia)) as Ec. now rewrite (bind_Ret _ _ _ _ _ Ec).
Qed.

End facts.

(** ** Properties *)

(** Ranges of addresses without a common one. *)
Fixpoint separate (l : list (Z * Z)) : Prop :=
  match l with
  | [] => True
  | (a, n) :: l => Forall (fun '(b, k) => apart a n b k) l /\ separate l
  end.

Definition NEWLINE : Z := 10.
Definition hello : list Z := codes "hello world!".
Definition banner : list Z := hello ++ codes " 1024" ++ [NEWLINE].

Section properties.
  Context `{Firmware} `{!Console} `{Image}.


(** C38: [printk] does not know the size of its buffer: a text of 1024 characters
    or more is written over what lies behind it. *)
Theorem printk_overruns_buffer s fmt args items :
  let text := output items in
  let n := Z.of_nat (length text) in
  1024 <= n < 2 ^ 31 -> Forall (fun b => 0 < b < 256) text -> call_ready s fmt args items (n + 1) ->
  exists s', printk fmt args s = Ret n s' /\
    forall i b, (1024 <= i)%nat -> (text ++ [0]) !! i = Some b -> m_ram s' !! (printk_buf + Z.of_nat i) = Some b.
Proof.
  intros text n Hn Hb Hr. eexists. split; [apply printk_run; [fold text n; lia | exact Hb | exact Hr]|].
  intros i b _ Hi. cbn. now apply write_in.
Qed.

(** The image of the kernel: its objects are in memory and apart, and the
    literals are there. *)
Record image_ok (s : hart) : Prop := {
  im_format : holds (m_ram s) main_format (codes "%s %d" ++ [NEWLINE; 0]);
  im_upper : holds (m_ram s) digits_upper UPPER;
  im_lower : holds (m_ram s) digits_lower LOWER;
  im_str : mapped (m_ram s) main_str 24;
  im_va : mapped (m_ram s) va_area 16;
  im_buf : mapped (m_ram s) printk_buf 1024;
  im_separate : separate [(main_str, 24); (va_area, 16); (printk_buf, 1024); (main_format, 7);
    (digits_upper, 36); (digits_lower, 36)];
}.

Definition main_items : list item :=
  [Field (Spec [] None None None Cs) (Str main_str hello); Char 32;
   Field (Spec [] None None None Cd) (Int 1024); Char NEWLINE].

Lemma main_output : output main_items = banner.
Proof. reflexivity. Qed.

(** The machine after [str] was initialised, ready for the call of [printk]. *)
Lemma main_call_ready s :
  image_ok s ->
  call_ready (wr s main_str (hello ++ replicate 12 0)) main_format [main_str; 1024] main_items 19.
Proof.
  intros [Hf Hu Hl Hs Hva Hb Hsep]. cbn [separate] in Hsep. rewrite !Forall_cons in Hsep.
  destruct Hsep as ((S1 & S2 & S3 & S4 & S5 & _) & (V1 & V2 & V3 & V4 & _) & (B1 & B2 & B3 & _) & _).
  set (data := hello ++ replicate 12 0). set (args := slots main_items).
  assert (Hdata : length data = 24%nat) by reflexivity. assert (Hargs : length args = 16%nat) by reflexivity.
  pose proof Hs as (? & ? & _). pose proof Hva as (? & ? & _).
  assert (Hkeep : forall a l, holds (m_ram s) a l -> apart main_str 24 a (Z.of_nat (length l)) ->
    apart va_area 16 a (Z.of_nat (length l)) -> holds (m_ram (wr (wr s main_str data) va_area args)) a l).
  { intros a l Hh A1 A2. apply holds_write; [apply holds_write; [exact Hh|]|];
      unfold apart in *; rewrite ?Hdata, ?Hargs; lia. }
  split.
  - reflexivity.
  - fold args. rewrite Hargs. apply mapped_write, Hva.
  - apply mapped_write. apply (mapped_sub _ _ _ _ _ Hb); lia.
  - split; [apply Hkeep; [done | exact S4 | exact V3] | apply Hkeep; [done | exact S5 | exact V4]
      | unfold apart in *; lia | unfold apart in *; lia].
  - split.
    + unfold main_items. rewrite !Forall_cons, Forall_nil. pose proof Hs as (? & ? & _).
      cbn. unfold NEWLINE. repeat split; lia.
    + apply Hkeep; [exact Hf | exact S3 | exact V2].
    + unfold apart in *. cbn. lia.
    + fold args. apply holds_written; [done|]. rewrite Hargs. lia.
    + fold args. rewrite Hargs. unfold apart in *. lia.
    + unfold main_items. rewrite !Forall_cons, Forall_nil. cbn [string_ok]. split; [|done].
      assert (Hh : holds (m_ram (wr s main_str data)) main_str data) by (apply holds_written; rewrite ?Hdata; lia).
      split; [|unfold apart in *; cbn; lia]. split; [repeat constructor; lia|].
      apply holds_write; [|unfold apart in *; cbn in *; lia].
      replace data with ((hello ++ [0]) ++ replicate 11 0) in Hh by reflexivity. now apply holds_app in Hh as [Hh _].
Qed.


(** [SBISetTimer] passes its 64-bit argument through an [int]: the firmware
    gets the time that was asked for exactly when it is below [2 ^ 31]. *)
Theorem SBISetTimer_truncates s val r :
  0 <= val < 2 ^ 64 -> (forall c, sbi_result (m_calls s ++ [c]) = Some r) ->
  exists c s', SBISetTimer val s = Ret tt s' /\ m_calls s' = m_calls s ++ [c] /\
    r_a7 c = SBI_EXT_ID_TIME /\ r_a6 c = SBI_TIME_SET_TIMER /\ r_a0 c = s32 val /\
    (r_a0 c = val <-> val < 2 ^ 31).
Proof.
  intros Hv Hf. exists (SbiCall SBI_EXT_ID_TIME SBI_TIME_SET_TIMER (s32 val) 0 0 0 0).
  eexists (Hart (m_ram s) (m_calls s ++ [_])). split; [|split; [reflexivity|]].
  - unfold SBISetTimer, SBICall, bind, ecall. rewrite Hf. now destruct r.
  - do 3 (split; [reflexivity|]). cbn [r_a0]. split; [|intros; apply s32_small; lia].
    unfold s32. pose proof (Z.mod_pos_bound (val + 2 ^ 31) (2 ^ 32) ltac:(lia)). lia.
Qed.

End properties.

(** ** Examples *)

Section examples.

(** Firmware that answers every call with two zeros. *)
#[local] Instance kernel_demo_firmware : Firmware := {| sbi_result := fun _ => Some (0, 0) |}.
#[local] Instance kernel_demo_console : Console.
Proof. split. intros calls c. now exists (0, 0). Qed.

#[local] Instance kernel_demo_image : Image := {|
  image_literals := {| digits_upper := 0x80201000; digits_lower := 0x80201100 |};
  printk_buf := 0x80205000; va_area := 0x80204000; main_str := 0x80204100; main_format := 0x80201200 |}.

(** The image, a format with a wide field, and memory behind the buffer. *)
Definition kernel_demo : hart :=
  booted (put 0x80201000 UPPER (put 0x80201100 LOWER (put 0x80201200 (codes "%s %d" ++ [NEWLINE; 0])
    (put 0x80201300 (codes "%1100d" ++ [0]) (put 0x80201400 (codes "n=%d" ++ [0])
    (put 0x80204000 (replicate 16 0) (put 0x80204100 (replicate 24 0) (put 0x80205000 (replicate 1200 7) ∅)))))))).

Definition wide : list item := [Field (Spec [] (Some 1100) None None Cd) (Int 7)].
Definition short : list item := [Char 110; Char 61; Field (Spec [] None None None Cd) (Int 7)].

Lemma kernel_demo_buf (n : nat) : (n <= 1200)%nat -> mapped (m_ram kernel_demo) printk_buf (Z.of_nat n).
Proof.
  intros Hn. apply (mapped_sub _ printk_buf (Z.of_nat 1200)); [|lia..].
  apply mapped_check_ok. vm_compute. reflexivity.
Qed.

Lemma kernel_demo_va : mapped (m_ram kernel_demo) va_area 8.
Proof. apply (mapped_check_ok _ _ 8). vm_compute. reflexivity. Qed.

Lemma kernel_demo_tables : forall n, tables (wr kernel_demo va_area (le_bytes 8 7)) printk_buf n.
Proof.
  intros n. split; [apply holds_check_ok; vm_compute; reflexivity.. | |]; left; vm_compute; congruence.
Qed.

Lemma kernel_demo_short : call_ready kernel_demo 0x80201400 [7] short 4.
Proof.
  split; [reflexivity | exact kernel_demo_va | apply (kernel_demo_buf 4); lia | apply kernel_demo_tables|]. split.
  - unfold short. rewrite !Forall_cons, Forall_nil. cbn. repeat split; lia.
  - apply holds_check_ok. vm_compute. reflexivity.
  - left. vm_compute. congruence.
  - apply holds_check_ok. vm_compute. reflexivity.
  - left. vm_compute. congruence.
  - unfold short. rewrite !Forall_cons, Forall_nil. done.
Qed.

Lemma kernel_demo_wide : call_ready kernel_demo 0x80201300 [7] wide 1101.
Proof.
  split; [reflexivity | exact kernel_demo_va | apply (kernel_demo_buf 1101); lia | apply kernel_demo_tables|]. split.
  - unfold wide. rewrite !Forall_cons, Forall_nil. cbn. repeat split; lia.
  - apply holds_check_ok. vm_compute. reflexivity.
  - left. vm_compute. congruence.
  - apply holds_check_ok. vm_compute. reflexivity.
  - left. vm_compute. congruence.
  - unfold wide. rewrite !Forall_cons, Forall_nil. done.
Qed.


Lemma printk_overruns_buffer_witness :
  exists s', printk 0x80201300 [7] kernel_demo = Ret 1100 s' /\ m_ram s' !! (printk_buf + 1099) = Some 55 /\
    m_ram kernel_demo !! (printk_buf + 1099) = Some 7.
Proof.
  destruct (printk_overruns_buffer kernel_demo 0x80201300 [7] wide) as (s' & E & Ho).
  - vm_compute. split; congruence.
  - apply Forall_forall. intros b Hb%list_elem_of_In.
    assert (E : forallb (fun b => (0 <? b) && (b <? 256)) (output wide) = true) by (vm_compute; reflexivity).
    rewrite forallb_forall in E. apply E in Hb. lia.
  - exact kernel_demo_wide.
  - exists s'. split; [exact E|]. split; [|vm_compute; reflexivity].
    apply (Ho 1099%nat); [lia | vm_compute; reflexivity].
Defined.

Lemma kernel_demo_image_ok : image_ok kernel_demo.
Proof.
  split.
  - apply holds_check_ok. vm_compute. reflexivity.
  - apply holds_check_ok. vm_compute. reflexivity.
  - apply holds_check_ok. vm_compute. reflexivity.
  - apply (mapped_check_ok _ _ 24). vm_compute. reflexivity.
  - apply (mapped_check_ok _ _ 16). vm_compute. reflexivity.
  - apply (kernel_demo_buf 1024). lia.
  - cbn [separate]. rewrite !Forall_cons, Forall_nil.
    repeat split; first [left; vm_compute; congruence | right; vm_compute; congruence].
Qed.


Lemma SBISetTimer_truncates_witness :
  exists c s', SBISetTimer 0x80000000 kernel_demo = Ret tt s' /\ m_calls s' = [c] /\ r_a0 c = -0x80000000.
Proof.
  destruct (SBISetTimer_truncates kernel_demo 0x80000000 (0, 0)) as (c & s' & E & Hc & _ & _ & Ha & _);
    [lia | reflexivity|].
  exists c, s'. split; [exact E|]. split; [exact Hc|]. rewrite Ha. vm_compute. reflexivity.
Defined.

End examples.
